(* ===== verification/_CoqProject ===== *)
-Q . S2P
Prelude.v
State.v
Console.v
Utils.v
Mem.v
Pmm.v
Heap.v
Objects.v
Dma.v
Thread.v
Sched.v
Ipc.v
Ports.v
Kbd.v
Desc.v
Tss.v
Ramfs.v
Files.v
Vmm.v
Paging.v
As.v
User.v
Syscall.v
Fault.v
UserLib.v
Apic.v
Kernel.v
KTests.v
Boot.v
Calls.v
