(* ===== verification/Prelude.v ===== *)
(** * Nyvela kernel: verification library

    Nyvela is a small x86-64 kernel in C (src/src, headers in
    src/include/nyvela): a page allocator over the BIOS memory map, a heap,
    four-level page tables, ring-3 threads with a round-robin scheduler, message
    queues between threads, a file system in memory, a text console, a keyboard
    driver, and the system calls that tie them together.  This library is a
    shallow embedding of that C code with the theorems about it.

    ** The model

    The kernel is a state monad [M] with three outcomes: [Ret] with a result,
    [Hang] (the machine stops in [cli; hlt], or a kernel access faults) and
    [Stuck] (an access that C leaves undefined, or fuel that ran out).
    State.v holds the state [kstate]: one field per global variable of the C
    code.  Objects behind pointers (threads, contexts, queues, file nodes, address
    spaces, byte buffers, arrays) live in one store per type, keyed by the address
    that [kmalloc] returned, so that the heap, its free blocks and the aliasing of
    pointers are those of the code; raw memory (page tables, user pages, file
    pages) is a map of bytes.  Integers are [Z] with the conversions u8, u16, u32,
    u64 written where C converts.  An [irq_save] section is modelled with the
    interrupt flag, which every routine must give back.

    ** The files

    - Prelude: integers, bits, the monad, loops ([for_range], [for_until]) with
      their rules; State: the data model and the processor; Mem: bytes and words
      of memory; Utils: lib/utils.c.
    - Console: drivers/video (vga.c, console.c).  Kbd: drivers/kbd/kbd.c.  Ports:
      asm/io.h, pic.c, pit.c over the interface [Ports] that a device implements.
      Desc: the descriptors of gdt.c and the gates of idt.c; Tss: ktss_init of
      gdt.c.  Apic: apic.c, the timer wait of pit.c and the timer interrupts, over
      the interface [Apic] of a local APIC.
    - Pmm: mm/pmm.c.  Heap: mm/heap.c.  Objects: the typed stores over the heap,
      and [ext], the frame rule that says which blocks, objects and page runs a
      routine may have changed.  Dma: mm/dma.c.
    - Vmm: mm/vmm.c; Paging: the theory of its page tables.  As: as/as.c.
    - Thread: thread/thread.c.  Sched: scheduler/scheduler.c.  Ipc: ipc/ipc.c.
    - Ramfs: fs/ramfs.c, fs/vfs.c and exec/exec.c with the theory of paths and
      of the directory tree; Files: the contents of files.
    - User: the accesses of the kernel to user memory (first part of
      syscall/syscall.c); Syscall: the handlers and the dispatch.  Fault:
      cpu/fault.c.  Calls: the theorems about the handlers and about faults.
    - Kernel: the first files and the first process of kernel/kernel.c; KTests:
      kernel/ktests.c; Boot: kmain, the composition of everything above.
    - UserLib: user/syslib.h, the library of the user programs.

    A definition has the name of the C function it translates; a local variable
    keeps its name where that reads well.

    ** The invariants

    [pmm_ok] (bitmap and frame count agree with the memory map), [heap_ok] (the
    block list is well formed, disjoint and inside pages that are not free) and
    their conjunction [mem_ok]; [table_rep] and [run_queue] (the thread table is
    the list of its threads); [thread_rep] (a thread with its context, stack and
    queue; [queue_rep] reads the ring of messages as a list); the tree invariant
    of Ramfs and [data_ok] of Files (a page belongs to one file); [pt_ok] (every
    page table is reached along one path, in an allocated page); [user_space_ok];
    [ring_rep] (the keyboard ring is a queue).

    ** What the theorems show

    - Allocation: each page allocation returns the least (greatest, lowest run)
      eligible frame, frees are checked, kpmm_init computes the free frames from
      the memory map; kmalloc implements an allocator of disjoint live blocks,
      krealloc and kfree by cases.
    - Paging: the walk agrees with the tables; kvmmap_at changes the mapping of
      one page and nothing else; kvmunmap_at and kvmunmap_and_free_at by cases.
    - Threads: spawn_thread and free_thread against [thread_rep]; the scheduler is
      round robin and starves no ready thread; send and poll implement a FIFO
      queue per thread that grows and keeps every pending message.
    - Files: lookup is resolution in the tree; creation adds exactly one entry; a
      write changes exactly its window of one file; a read returns the bytes of
      the file; what is written is read back; exec_load fills a slot.
    - User memory and calls: a copy to another address space writes user pages
      only, and only the requested bytes; map_mmio is all or nothing and never
      maps RAM; free_thread, write, exit and the wait for keys by cases; a fault
      of a thread removes that thread only, a fault of the kernel stops.
    - Devices and tables: the gates of the IDT, the set-up of the TSS, the local
      APIC and its timer; the keyboard ring is a queue.
    - User library: its calls are served by the handlers of the same name, its
      allocator is the kernel's, its number formatting is the decimal notation.

    Every theorem with hypotheses has a witness on a concrete machine ([k0], with
    eight pages of RAM at 1 MiB of which five are free, [k1], the same with a heap
    of one page, and states built from them).

    ** Loops and fuel

    [for_range] and [for_until] run the number of iterations that C's loop
    condition allows and need no fuel.  The walks over linked lists take the
    number of objects in their store plus one as fuel, which a list without
    cycles never exceeds (kmalloc_walk, the sibling lists); the page loops of
    files take one unit per page; the theorems show that a result is returned, so
    the fuel is enough.  The waits for an interrupt have a bound on the number of
    halts that is a parameter; the theorem about them quantifies over it.

    ** Not modelled

    The boot loaders, the interrupt stubs and the context switch (assembly): a
    handler takes the frame that a stub pushes, a switch is the address of the
    context it goes on with.  The user programs, which run behind the system
    calls.  cpuid.c, which nothing calls.  kdma_pnalloc, which has an empty body
    and no result.  Interrupts between two instructions of the kernel: a routine
    that masks them is modelled with its flag, and the loops that halt take the
    effect of the interrupts as a parameter.  CR2, the interrupt frame, the
    addresses of the linker and the linked program images are arguments.  Boot.v
    and the functions of Vmm.v that copy and free a whole address space have
    definitions but no theorems. *)

From Stdlib Require Export ZArith Lia.
From stdpp Require Export base gmap list numbers.

#[global] Open Scope Z_scope.

(** ** Machine integers

    A [w]-bit unsigned C integer is a [Z] in [0, 2^w); the functions below are
    the conversions C performs when a value is stored in such a type. *)

Definition u8 (x : Z) : Z := x mod 2 ^ 8.
Definition u16 (x : Z) : Z := x mod 2 ^ 16.
Definition u32 (x : Z) : Z := x mod 2 ^ 32.
Definition u64 (x : Z) : Z := x mod 2 ^ 64.

(** The value of a byte read through a (signed) [char], and of a 64-bit word
    read through an [int64_t]. *)
Definition s8 (x : Z) : Z := if x <? 128 then x else x - 256.
Definition s64 (x : Z) : Z := if x <? 2 ^ 63 then x else x - 2 ^ 64.

Lemma u64_small x : 0 <= x < 2 ^ 64 -> u64 x = x.
Proof. apply Z.mod_small. Qed.
Lemma u8_small x : 0 <= x < 256 -> u8 x = x.
Proof. apply Z.mod_small. Qed.
Lemma u16_small x : 0 <= x < 65536 -> u16 x = x.
Proof. apply Z.mod_small. Qed.
Lemma u64_range x : 0 <= u64 x < 2 ^ 64.
Proof. by apply Z.mod_pos_bound. Qed.
Lemma u8_range x : 0 <= u8 x < 256.
Proof. by apply Z.mod_pos_bound. Qed.
Lemma u16_range x : 0 <= u16 x < 65536.
Proof. by apply Z.mod_pos_bound. Qed.

(** ** Bits *)

Lemma u8_testbit x i : 0 <= i < 8 -> Z.testbit (u8 x) i = Z.testbit x i.
Proof. intros. unfold u8. by rewrite Z.mod_pow2_bits_low by lia. Qed.

(** [x & (1 << b)] is non-zero exactly when bit [b] of [x] is set. *)
Lemma land_shiftl_1_testbit x b :
  0 <= b -> negb (Z.land x (Z.shiftl 1 b) =? 0) = Z.testbit x b.
Proof.
  intros Hb. destruct (Z.testbit x b) eqn:E.
  - apply negb_true_iff, Z.eqb_neq. intros H.
    apply (f_equal (fun z => Z.testbit z b)) in H.
    rewrite Z.land_spec, E, Z.shiftl_spec, Z.sub_diag, Z.testbit_0_l in H by lia.
    done.
  - apply negb_false_iff, Z.eqb_eq, Z.bits_inj'. intros i Hi.
    rewrite Z.land_spec, Z.testbit_0_l, Z.shiftl_spec by lia.
    destruct (decide (i = b)) as [->|Hne]; [by rewrite E|].
    replace (Z.testbit 1 (i - b)) with false; [by rewrite andb_false_r|].
    symmetry. destruct (decide (i < b)).
    + apply Z.testbit_neg_r; lia.
    + apply (Z.bits_above_log2 1); simpl; lia.
Qed.

(** Writing [x |= 1 << b] and [x &= ~(1 << b)] in a byte. *)
Lemma testbit_set_bit x b i :
  0 <= b < 8 -> 0 <= i < 8 ->
  Z.testbit (u8 (Z.lor x (Z.shiftl 1 b))) i = bool_decide (i = b) || Z.testbit x i.
Proof.
  intros Hb Hi. rewrite u8_testbit, Z.lor_spec by lia.
  rewrite Z.shiftl_1_l, Z.pow2_bits_eqb, orb_comm by lia. f_equal.
  destruct (Z.eqb_spec b i), (bool_decide_reflect (i = b)); congruence.
Qed.

Lemma testbit_clear_bit x b i :
  0 <= b < 8 -> 0 <= i < 8 ->
  Z.testbit (u8 (Z.land x (Z.lnot (Z.shiftl 1 b)))) i
  = negb (bool_decide (i = b)) && Z.testbit x i.
Proof.
  intros Hb Hi. rewrite u8_testbit, Z.land_spec, Z.lnot_spec by lia.
  rewrite Z.shiftl_1_l, Z.pow2_bits_eqb, andb_comm by lia. f_equal. f_equal.
  destruct (Z.eqb_spec b i), (bool_decide_reflect (i = b)); congruence.
Qed.

(** ** Page arithmetic *)

Definition PAGE_SIZE : Z := 4096.

(** [x & ~0xFFF]: the base of the page that holds [x]. *)
Definition page_base (x : Z) : Z := Z.land x (Z.lnot 4095).

Lemma page_base_eq x : page_base x = 4096 * (x / 4096).
Proof.
  unfold page_base. change 4095 with (Z.ones 12).
  rewrite <- Z.ldiff_land, Z.ldiff_ones_r by lia.
  rewrite Z.shiftl_mul_pow2, Z.shiftr_div_pow2 by lia. change (2 ^ 12) with 4096. lia.
Qed.

(** ** The kernel monad

    A kernel routine is a function of the state that returns, stops the machine
    in [hang()] (that is, [cli; hlt]), or has left what C defines ([Stuck]: a
    dereference of a pointer to no object, or an exhausted fuel). *)

Inductive outcome (S A : Type) : Type :=
| Ret (a : A) (s : S)
| Hang (s : S)
| Stuck.
Arguments Ret {S A} a s.
Arguments Hang {S A} s.
Arguments Stuck {S A}.

Definition M (S A : Type) : Type := S -> outcome S A.

Definition ret {S A} (a : A) : M S A := fun s => Ret a s.
Definition bind {S A B} (m : M S A) (f : A -> M S B) : M S B :=
  fun s => match m s with
           | Ret a s' => f a s'
           | Hang s' => Hang s'
           | Stuck => Stuck
           end.
Definition stuck {S A} : M S A := fun _ => Stuck.
Definition gets {S A} (f : S -> A) : M S A := fun s => Ret (f s) s.
Definition modify {S} (f : S -> S) : M S unit := fun s => Ret tt (f s).

(** Dereference of a pointer: an absent object is an undefined access. *)
Definition deref {S A} (o : option A) : M S A :=
  match o with Some a => ret a | None => stuck end.

(** Run a routine on a component of the state. *)
Definition zoom {S T A} (get : S -> T) (set : T -> S -> S) (m : M T A) : M S A :=
  fun s => match m (get s) with
           | Ret a t => Ret a (set t s)
           | Hang t => Hang (set t s)
           | Stuck => Stuck
           end.

Declare Scope nyv_scope.
Delimit Scope nyv_scope with nyv.
Notation "x <- m ;; k" := (bind m (fun x => k))
  (at level 100, m at next level, right associativity) : nyv_scope.
#[global] Open Scope nyv_scope.

Lemma bind_ret_l {S A B} (a : A) (f : A -> M S B) s : bind (ret a) f s = f a s.
Proof. done. Qed.
Lemma bind_bind {S A B C} (m : M S A) (f : A -> M S B) (g : B -> M S C) s :
  bind (bind m f) g s = bind m (fun x => bind (f x) g) s.
Proof. unfold bind. by destruct (m s). Qed.
Lemma bind_run {S A B} (m : M S A) (f : A -> M S B) s a s' :
  m s = Ret a s' -> bind m f s = f a s'.
Proof. unfold bind. by intros ->. Qed.
Lemma bind_eq {S A B} (m : M S A) (f : A -> M S B) s o :
  m s = o ->
  bind m f s = match o with Ret a s' => f a s' | Hang s' => Hang s' | Stuck => Stuck end.
Proof. unfold bind. by intros ->. Qed.
Lemma bind_hang {S A B} (m : M S A) (f : A -> M S B) s s' :
  m s = Hang s' -> bind m f s = Hang s'.
Proof. unfold bind. by intros ->. Qed.
Lemma bind_inv {S A B} (m : M S A) (f : A -> M S B) s b s'' :
  bind m f s = Ret b s'' -> exists a s', m s = Ret a s' /\ f a s' = Ret b s''.
Proof. unfold bind. destruct (m s); naive_solver. Qed.

(** ** Loops

    [for_until n i body] is [for (j = i; j < i + n; j++) { ... }] whose body
    may leave the loop with a value ([Some]); [for_range] is the loop whose body
    always runs to its end. *)

Fixpoint for_until {S A} (n : nat) (i : Z) (body : Z -> M S (option A))
  : M S (option A) :=
  match n with
  | O => ret None
  | Datatypes.S n' =>
      r <- body i ;;
      match r with
      | Some a => ret (Some a)
      | None => for_until n' (i + 1) body
      end
  end.

Fixpoint for_range {S} (n : nat) (i : Z) (body : Z -> M S unit) : M S unit :=
  match n with
  | O => ret tt
  | Datatypes.S n' => _ <- body i ;; for_range n' (i + 1) body
  end.

(** A loop that threads a local variable. *)
Fixpoint for_fold {S A} (n : nat) (i : Z) (acc : A) (body : Z -> A -> M S A) : M S A :=
  match n with
  | O => ret acc
  | Datatypes.S n' => acc' <- body i acc ;; for_fold n' (i + 1) acc' body
  end.

(** The number of iterations of [for (i = lo; i < hi; i++)]. *)
Definition trips (lo hi : Z) : nat := Z.to_nat (hi - lo).

Lemma trips_max lo hi : Z.of_nat (trips lo hi) = Z.max 0 (hi - lo).
Proof. unfold trips. lia. Qed.
Lemma trips_none lo hi : hi <= lo -> trips lo hi = 0%nat.
Proof. unfold trips. lia. Qed.
Lemma trips_Z lo hi : lo <= hi -> Z.of_nat (trips lo hi) = hi - lo.
Proof. unfold trips. lia. Qed.

(** The least index of a range that satisfies a test. *)
Fixpoint find_up (p : Z -> bool) (n : nat) (i : Z) : option Z :=
  match n with
  | O => None
  | S n' => if p i then Some i else find_up p n' (i + 1)
  end.

Lemma find_up_Some p n i j :
  find_up p n i = Some j <->
  i <= j < i + Z.of_nat n /\ p j = true /\ forall l, i <= l < j -> p l = false.
Proof.
  revert i. induction n as [|n IH]; intros i; simpl.
  { split; [done|lia]. }
  destruct (p i) eqn:E.
  - split.
    + intros [= <-]. repeat split; try lia; done.
    + intros (Hj & Hp & Hmin). destruct (decide (i = j)) as [->|Hne]; [done|].
      specialize (Hmin i). rewrite Hmin in E by lia. done.
  - rewrite IH. split.
    + intros (Hj & Hp & Hmin). repeat split; try lia; try done.
      intros l Hl. destruct (decide (l = i)) as [->|]; [done|]. apply Hmin. lia.
    + intros (Hj & Hp & Hmin). destruct (decide (i = j)) as [->|]; [congruence|].
      repeat split; try lia; try done. intros l Hl. apply Hmin. lia.
Qed.

Lemma find_up_None p n i :
  find_up p n i = None <-> forall l, i <= l < i + Z.of_nat n -> p l = false.
Proof.
  revert i. induction n as [|n IH]; intros i; simpl.
  { split; [lia|done]. }
  destruct (p i) eqn:E.
  - split; [done|]. intros H. rewrite H in E by lia. done.
  - rewrite IH. split.
    + intros H l Hl. destruct (decide (l = i)) as [->|]; [done|]. apply H. lia.
    + intros H l Hl. apply H. lia.
Qed.

Lemma find_up_ext p q n i :
  (forall j, i <= j < i + Z.of_nat n -> p j = q j) -> find_up p n i = find_up q n i.
Proof.
  revert i. induction n as [|n IH]; intros i H; simpl; [done|].
  rewrite H by lia. destruct (q i); [done|]. apply IH. intros. apply H. lia.
Qed.

(** A scan loop: the body skips an index that fails the test and leaves the
    loop at the first one that passes. *)
Lemma for_until_scan {S A} (p : Z -> bool) (hit : Z -> M S (option A))
    (body : Z -> M S (option A)) n i s :
  (forall j, i <= j < i + Z.of_nat n ->
     body j s = if p j then hit j s else Ret None s) ->
  (forall j, i <= j < i + Z.of_nat n -> p j = true ->
     exists a s', hit j s = Ret (Some a) s') ->
  for_until n i body s
  = match find_up p n i with Some j => hit j s | None => Ret None s end.
Proof.
  revert i. induction n as [|n IH]; intros i Hbody Hhit; [done|].
  cbn [for_until find_up]. unfold bind. rewrite Hbody by lia.
  destruct (p i) eqn:E.
  - destruct (Hhit i) as (a & s' & ->); [lia|done|done].
  - apply IH; intros; [apply Hbody | apply Hhit]; (lia || done).
Qed.

(** The scan of an array whose elements are the list [l]. *)
Lemma for_until_list {S A B} (p : A -> bool) (f : A -> B) (l : list A) i
    (body : Z -> M S (option B)) s :
  (forall j x, l !! j = Some x ->
     body (i + Z.of_nat j) s = if p x then Ret (Some (f x)) s else Ret None s) ->
  for_until (length l) i body s = Ret (f <$> List.find p l) s.
Proof.
  revert i. induction l as [|x l IH]; intros i H; [done|].
  cbn [length for_until List.find]. unfold bind. specialize (H 0%nat x eq_refl) as H0.
  rewrite Z.add_0_r in H0. rewrite H0. destruct (p x); [done|]. apply IH.
  intros j y Hj. rewrite <- (H (Datatypes.S j) y Hj). f_equal. lia.
Qed.

Lemma trips_length {A} (l : list A) n : n = Z.of_nat (length l) -> trips 0 n = length l.
Proof. intros ->. apply Nat2Z.inj. rewrite trips_max. lia. Qed.

(** Invariant rule for [for_range]. *)
Lemma for_range_inv {S} (P : Z -> S -> Prop) (body : Z -> M S unit) n i s :
  P i s ->
  (forall j s, i <= j < i + Z.of_nat n -> P j s ->
     exists s', body j s = Ret tt s' /\ P (j + 1) s') ->
  exists s', for_range n i body s = Ret tt s' /\ P (i + Z.of_nat n) s'.
Proof.
  revert i s. induction n as [|n IH]; intros i s HP Hstep.
  { exists s. split; [done|]. by rewrite Z.add_0_r. }
  destruct (Hstep i s) as (s1 & Hs1 & HP1); [lia|done|].
  destruct (IH (i + 1) s1) as (s2 & Hs2 & HP2); [done| |].
  { intros. apply Hstep; [lia|done]. }
  exists s2. cbn [for_range]. rewrite (bind_run _ _ _ _ _ Hs1). split; [done|].
  by replace (i + Z.of_nat (Datatypes.S n)) with (i + 1 + Z.of_nat n) by lia.
Qed.

(** The same where the body may stop the machine, for a reason [Q]. *)
Lemma for_range_hang {S} (P Q : Z -> S -> Prop) (body : Z -> M S unit) n i s :
  P i s ->
  (forall j s, i <= j < i + Z.of_nat n -> P j s ->
     (Q j s /\ exists s', body j s = Hang s') \/ exists s', body j s = Ret tt s' /\ P (j + 1) s') ->
  (exists j s1 s', i <= j < i + Z.of_nat n /\ P j s1 /\ Q j s1 /\ for_range n i body s = Hang s')
  \/ exists s', for_range n i body s = Ret tt s' /\ P (i + Z.of_nat n) s'.
Proof.
  revert i s. induction n as [|n IH]; intros i s HP Hstep.
  { right. exists s. split; [done|]. by rewrite Z.add_0_r. }
  cbn [for_range]. destruct (Hstep i s) as [(HQ & s1 & Hs1)|(s1 & Hs1 & HP1)]; [lia|done| |].
  { left. exists i, s, s1. rewrite (bind_hang _ _ _ _ Hs1). split_and!; [lia|lia|done..]. }
  rewrite (bind_run _ _ _ _ _ Hs1). replace (i + Z.of_nat (Datatypes.S n)) with (i + 1 + Z.of_nat n) by lia.
  destruct (IH (i + 1) s1 HP1) as [(j & s2 & s' & Hj & H)|H]; [intros j s' Hj; apply Hstep; lia| |by right].
  left. exists j, s2, s'. split; [lia|done].
Qed.

(** Invariant rule for a loop that ends early only in a failure, where [Q] holds. *)
Lemma for_until_none {S A} (P Q : Z -> S -> Prop) (body : Z -> M S (option A)) n i s :
  P i s ->
  (forall j s, i <= j < i + Z.of_nat n -> P j s ->
     (Q j s /\ forall r s', body j s = Ret r s' -> r <> None)
     \/ exists s', body j s = Ret None s' /\ P (j + 1) s') ->
  (exists j s1, i <= j < i + Z.of_nat n /\ P j s1 /\ Q j s1
     /\ forall r s', for_until n i body s = Ret r s' -> r <> None)
  \/ exists s', for_until n i body s = Ret None s' /\ P (i + Z.of_nat n) s'.
Proof.
  revert i s. induction n as [|n IH]; intros i s HP Hstep.
  { right. exists s. split; [done|]. by rewrite Z.add_0_r. }
  cbn [for_until]. destruct (Hstep i s) as [[HQ Hr]|(s1 & Hs1 & HP1)]; [lia|done| |].
  { left. exists i, s. split_and!; [lia|lia|done|done|].
    intros r s' ([a|] & s1 & Hb & H)%bind_inv; [by injection H as <- _|]. by destruct (Hr None s1 Hb). }
  rewrite (bind_run _ _ _ _ _ Hs1). replace (i + Z.of_nat (Datatypes.S n)) with (i + 1 + Z.of_nat n) by lia.
  destruct (IH (i + 1) s1 HP1) as [(j & s2 & Hj & H)|H]; [intros j s' Hj; apply Hstep; lia| |by right].
  left. exists j, s2. split; [lia|done].
Qed.

Lemma for_fold_inv {S A} (P : Z -> A -> S -> Prop) (body : Z -> A -> M S A) n i acc s :
  P i acc s ->
  (forall j acc s, i <= j < i + Z.of_nat n -> P j acc s ->
     exists acc' s', body j acc s = Ret acc' s' /\ P (j + 1) acc' s') ->
  exists acc' s', for_fold n i acc body s = Ret acc' s' /\ P (i + Z.of_nat n) acc' s'.
Proof.
  revert i acc s. induction n as [|n IH]; intros i acc s HP Hstep.
  { exists acc, s. split; [done|]. by rewrite Z.add_0_r. }
  destruct (Hstep i acc s) as (a1 & s1 & Hs1 & HP1); [lia|done|].
  destruct (IH (i + 1) a1 s1) as (a2 & s2 & Hs2 & HP2); [done| |].
  { intros. apply Hstep; [lia|done]. }
  exists a2, s2. cbn [for_fold]. rewrite (bind_run _ _ _ _ _ Hs1). split; [done|].
  by replace (i + Z.of_nat (Datatypes.S n)) with (i + 1 + Z.of_nat n) by lia.
Qed.

Lemma for_range_0 {S} i (body : Z -> M S unit) s : for_range 0 i body s = Ret tt s.
Proof. done. Qed.
Lemma for_range_S {S} n i (body : Z -> M S unit) s :
  for_range (Datatypes.S n) i body s = bind (body i) (fun _ => for_range n (i + 1) body) s.
Proof. done. Qed.

(** Loops are reasoned about with the rules above, never by reduction. *)
#[global] Arguments trips : simpl never.
#[global] Opaque trips.
#[global] Arguments for_until : simpl never.
#[global] Arguments for_range : simpl never.
#[global] Arguments for_fold : simpl never.

(** ** Lists without duplicates *)

Lemma nodup_inv {A} (x : A) l : base.NoDup (x :: l) -> x ∉ l /\ base.NoDup l.
Proof. by inversion 1. Qed.

(** ** Automation *)

Ltac bool_lia :=
  repeat first
    [ rewrite Z.ltb_lt in * | rewrite Z.ltb_ge in * | rewrite Z.leb_le in *
    | rewrite Z.leb_gt in * | rewrite Z.eqb_eq in * | rewrite Z.eqb_neq in *
    | rewrite andb_true_iff in * | rewrite orb_true_iff in *
    | rewrite andb_false_iff in * | rewrite orb_false_iff in *
    | rewrite negb_true_iff in * | rewrite negb_false_iff in * ]; lia.

(** [lia] with division and remainder by constants. *)
Ltac div_lia := Z.div_mod_to_equations; lia.

(** Split the next test of a monadic goal, naming the equation. *)
Ltac case_test E :=
  match goal with |- context [if ?b then _ else _] => destruct b eqn:E end.

Create HintDb nyv.
#[export] Hint Resolve u64_range u8_range u16_range : nyv.
