(* ===== verification/State.v ===== *)
(** * The kernel's data model

    The structures and constants of [include/nyvela/], and [kstate], the record
    of every global variable of the kernel.  Objects that the C code reaches
    through a pointer live in one typed store per type, keyed by their address;
    physical memory that is accessed as raw bytes (page tables, user pages,
    file pages) is [k_mem]. *)

From S2P Require Import Prelude.

Definition NULL : Z := 0.

(** ** Processor: RFLAGS, CR3 and the TLB invalidations the kernel issues *)

Inductive tlb_event : Type :=
| Invlpg (virt : Z)
| LoadCr3 (cr3 : Z).

Record cpu_t := { rflags : Z; cr3 : Z; tlb : list tlb_event }.

(** ** Text console (console.c, vga.c) *)

Record con_t := { ROW : Z; COLUMN : Z; VGA_MEM : gmap Z Z }.

(** ** Physical memory manager (pmm.h) *)

Definition MMAP_ENTRIES_MAX : Z := 512.
Definition BITMAP_RESERVED : Z := 0.
Definition BITMAP_FREE : Z := 1.
Definition BITMAP_ADDR : Z := 0x10000.

Definition E820_USABLE : Z := 1.
Definition E820_RESERVED : Z := 2.
Definition E820_ACPI_RECLAIMABLE : Z := 3.
Definition E820_ACPI_NVS : Z := 4.
Definition E820_BAD_MEM : Z := 5.

Record e820_entry_t := {
  base_addr : Z;
  length_in_bytes : Z;
  e820_type : Z;
  extended_attributes : Z
}.

(** [BITMAP] is the byte array at 0x10000; an index never written reads 0. *)
Record pmm_t := {
  MMAP_COUNT : Z;
  MMAP_ENTRIES : list e820_entry_t;
  BITMAP : gmap Z Z;
  BITMAP_SIZE : Z;
  FRAME_COUNT : Z
}.

(** ** Kernel heap (heap.h): the block headers, by address *)

Definition sizeof_block_t : Z := 24.

Record block_t := { b_size : Z; b_is_used : bool; b_next : Z }.

Record heap_t := { CURRENT_BLOCK : Z; blocks : gmap Z block_t }.

(** ** Messages and threads (ipc.h, context.h, thread.h) *)

Record ipc_msg_t := { m_target : Z; m_sender : Z; m_msg : Z; m_size : Z }.

Record ipc_queue_t := {
  q_queue : Z; q_capacity : Z; q_head : Z; q_tail : Z; q_count : Z
}.

Definition sizeof_ipc_msg_t : Z := 32.
Definition sizeof_ipc_queue_t : Z := 40.

Record context_t := {
  c_rax : Z; c_rdi : Z; c_rsi : Z; c_rcx : Z; c_rdx : Z; c_rbx : Z; c_rbp : Z;
  c_rsp : Z;
  c_r8 : Z; c_r9 : Z; c_r10 : Z; c_r11 : Z; c_r12 : Z; c_r13 : Z; c_r14 : Z;
  c_r15 : Z;
  c_rip : Z; c_rflags : Z; c_cs : Z; c_ss : Z; c_cr3 : Z
}.

Definition sizeof_context_t : Z := 168.

Inductive thread_state_t : Type :=
| THREAD_READY | THREAD_RUNNING | THREAD_BLOCKED | THREAD_DEAD.

#[export] Instance thread_state_eq_dec : EqDecision thread_state_t.
Proof. solve_decision. Defined.

Record thread_t := {
  t_tid : Z;
  t_context : Z;
  t_kernel_stack : Z;
  t_state : thread_state_t;
  t_queue : Z;
  t_exit_code : Z
}.

Definition sizeof_thread_t : Z := 48.
Definition sizeof_pointer : Z := 8.
Definition KERNEL_STACK_SIZE_IN_PAGES : Z := 2.

(** The globals of thread.c. *)
Record sched_t := {
  threads : Z;
  current_thread : Z;
  threads_length : Z;
  threads_cap : Z;
  next_thread_id : Z;
  tss_rsp0 : Z
}.

(** ** Files (ramfs.c) *)

Record ramfs_node_t := {
  n_name : list Z;
  n_is_dir : bool;
  n_size : Z;
  n_child : Z;
  n_sibling : Z;
  n_pages : list Z;
  n_page_count : Z
}.

Definition sizeof_ramfs_node_t : Z := 168.

(** ** Address spaces (as.h) and DMA pages (dma.h) *)

Record addrspace_t := { as_cr3 : Z; as_id : Z }.

Definition sizeof_addrspace_t : Z := 16.

Record as_t := { addrspaces : Z; addrspaces_length : Z; addrspaces_cap : Z }.

Record dma_t := { DMA_BITMAP : list Z; DMA_PAGES : Z }.

(** ** The typed object stores

    [arr_*] hold the elements of the arrays the code indexes, by base address
    and index. *)
Record objs_t := {
  o_thread : gmap Z thread_t;
  o_context : gmap Z context_t;
  o_queue : gmap Z ipc_queue_t;
  o_node : gmap Z ramfs_node_t;
  o_as : gmap Z addrspace_t;
  o_bytes : gmap Z (list Z);
  arr_ptr : gmap (Z * Z) Z;
  arr_msg : gmap (Z * Z) ipc_msg_t
}.

(** ** The whole kernel *)

Record kstate := {
  k_cpu : cpu_t;
  k_con : con_t;
  kernel_end : Z;          (* address of the linker symbol *)
  init_blob_size : Z;      (* init_blob_end - init_blob_start *)
  k_pmm : pmm_t;
  k_heap : heap_t;
  k_mem : gmap Z Z;
  k_obj : objs_t;
  k_sched : sched_t;
  ramfs_root : Z;
  k_as : as_t;
  k_dma : dma_t;
  kernel_cr3 : Z           (* vmm.c: the page tables of the kernel *)
}.

Definition with_cpu (c : cpu_t) (k : kstate) : kstate :=
  {| k_cpu := c; k_con := k_con k; kernel_end := kernel_end k;
     init_blob_size := init_blob_size k; k_pmm := k_pmm k; k_heap := k_heap k;
     k_mem := k_mem k; k_obj := k_obj k; k_sched := k_sched k;
     ramfs_root := ramfs_root k; k_as := k_as k; k_dma := k_dma k; kernel_cr3 := kernel_cr3 k |}.
Definition with_con (c : con_t) (k : kstate) : kstate :=
  {| k_cpu := k_cpu k; k_con := c; kernel_end := kernel_end k;
     init_blob_size := init_blob_size k; k_pmm := k_pmm k; k_heap := k_heap k;
     k_mem := k_mem k; k_obj := k_obj k; k_sched := k_sched k;
     ramfs_root := ramfs_root k; k_as := k_as k; k_dma := k_dma k; kernel_cr3 := kernel_cr3 k |}.
Definition with_pmm (p : pmm_t) (k : kstate) : kstate :=
  {| k_cpu := k_cpu k; k_con := k_con k; kernel_end := kernel_end k;
     init_blob_size := init_blob_size k; k_pmm := p; k_heap := k_heap k;
     k_mem := k_mem k; k_obj := k_obj k; k_sched := k_sched k;
     ramfs_root := ramfs_root k; k_as := k_as k; k_dma := k_dma k; kernel_cr3 := kernel_cr3 k |}.
Definition with_heap (h : heap_t) (k : kstate) : kstate :=
  {| k_cpu := k_cpu k; k_con := k_con k; kernel_end := kernel_end k;
     init_blob_size := init_blob_size k; k_pmm := k_pmm k; k_heap := h;
     k_mem := k_mem k; k_obj := k_obj k; k_sched := k_sched k;
     ramfs_root := ramfs_root k; k_as := k_as k; k_dma := k_dma k; kernel_cr3 := kernel_cr3 k |}.
Definition with_mem (m : gmap Z Z) (k : kstate) : kstate :=
  {| k_cpu := k_cpu k; k_con := k_con k; kernel_end := kernel_end k;
     init_blob_size := init_blob_size k; k_pmm := k_pmm k; k_heap := k_heap k;
     k_mem := m; k_obj := k_obj k; k_sched := k_sched k;
     ramfs_root := ramfs_root k; k_as := k_as k; k_dma := k_dma k; kernel_cr3 := kernel_cr3 k |}.
Definition with_obj (o : objs_t) (k : kstate) : kstate :=
  {| k_cpu := k_cpu k; k_con := k_con k; kernel_end := kernel_end k;
     init_blob_size := init_blob_size k; k_pmm := k_pmm k; k_heap := k_heap k;
     k_mem := k_mem k; k_obj := o; k_sched := k_sched k;
     ramfs_root := ramfs_root k; k_as := k_as k; k_dma := k_dma k; kernel_cr3 := kernel_cr3 k |}.
Definition with_sched (s : sched_t) (k : kstate) : kstate :=
  {| k_cpu := k_cpu k; k_con := k_con k; kernel_end := kernel_end k;
     init_blob_size := init_blob_size k; k_pmm := k_pmm k; k_heap := k_heap k;
     k_mem := k_mem k; k_obj := k_obj k; k_sched := s;
     ramfs_root := ramfs_root k; k_as := k_as k; k_dma := k_dma k; kernel_cr3 := kernel_cr3 k |}.
Definition with_root (r : Z) (k : kstate) : kstate :=
  {| k_cpu := k_cpu k; k_con := k_con k; kernel_end := kernel_end k;
     init_blob_size := init_blob_size k; k_pmm := k_pmm k; k_heap := k_heap k;
     k_mem := k_mem k; k_obj := k_obj k; k_sched := k_sched k;
     ramfs_root := r; k_as := k_as k; k_dma := k_dma k; kernel_cr3 := kernel_cr3 k |}.
Definition with_as (a : as_t) (k : kstate) : kstate :=
  {| k_cpu := k_cpu k; k_con := k_con k; kernel_end := kernel_end k;
     init_blob_size := init_blob_size k; k_pmm := k_pmm k; k_heap := k_heap k;
     k_mem := k_mem k; k_obj := k_obj k; k_sched := k_sched k;
     ramfs_root := ramfs_root k; k_as := a; k_dma := k_dma k; kernel_cr3 := kernel_cr3 k |}.
Definition with_dma (d : dma_t) (k : kstate) : kstate :=
  {| k_cpu := k_cpu k; k_con := k_con k; kernel_end := kernel_end k;
     init_blob_size := init_blob_size k; k_pmm := k_pmm k; k_heap := k_heap k;
     k_mem := k_mem k; k_obj := k_obj k; k_sched := k_sched k;
     ramfs_root := ramfs_root k; k_as := k_as k; k_dma := d; kernel_cr3 := kernel_cr3 k |}.
Definition with_kernel_cr3 (v : Z) (k : kstate) : kstate :=
  {| k_cpu := k_cpu k; k_con := k_con k; kernel_end := kernel_end k;
     init_blob_size := init_blob_size k; k_pmm := k_pmm k; k_heap := k_heap k;
     k_mem := k_mem k; k_obj := k_obj k; k_sched := k_sched k;
     ramfs_root := ramfs_root k; k_as := k_as k; k_dma := k_dma k; kernel_cr3 := v |}.

Abbreviation kernel := (M kstate).

(** ** Processor operations (include/nyvela/arch/x86_64/asm/cpu.h) *)

Definition set_rflags (f : Z) (c : cpu_t) : cpu_t :=
  {| rflags := f; cr3 := cr3 c; tlb := tlb c |}.

Definition IF_BIT : Z := 9.
Definition if_set (k : kstate) : bool := Z.testbit (rflags (k_cpu k)) IF_BIT.

Definition read_flags : kernel Z := gets (fun k => rflags (k_cpu k)).
Definition write_flags (f : Z) : kernel unit :=
  modify (fun k => with_cpu (set_rflags f (k_cpu k)) k).
Definition cli : kernel unit :=
  modify (fun k => with_cpu (set_rflags (Z.clearbit (rflags (k_cpu k)) IF_BIT) (k_cpu k)) k).
Definition sti : kernel unit :=
  modify (fun k => with_cpu (set_rflags (Z.setbit (rflags (k_cpu k)) IF_BIT) (k_cpu k)) k).
Definition irq_save : kernel Z :=
  flags <- read_flags ;; _ <- cli ;; ret flags.

(** [hang()] is [cli; hlt]: with interrupts masked the machine stops. *)
Definition hang {A} : kernel A := _ <- cli ;; fun k => Hang k.

Definition read_cr3 : kernel Z := gets (fun k => cr3 (k_cpu k)).
Definition write_cr3 (v : Z) : kernel unit :=
  modify (fun k => with_cpu {| rflags := rflags (k_cpu k); cr3 := v;
                               tlb := tlb (k_cpu k) ++ [LoadCr3 v] |} k).
Definition invlpg (a : Z) : kernel unit :=
  modify (fun k => with_cpu {| rflags := rflags (k_cpu k); cr3 := cr3 (k_cpu k);
                               tlb := tlb (k_cpu k) ++ [Invlpg a] |} k).

(** The state inside an [irq_save()] section. *)
Definition masked (k : kstate) : kstate :=
  with_cpu (set_rflags (Z.clearbit (rflags (k_cpu k)) IF_BIT) (k_cpu k)) k.

Lemma irq_save_run k : irq_save k = Ret (rflags (k_cpu k)) (masked k).
Proof. done. Qed.

(** Restoring the saved flags undoes the masking. *)
Lemma write_flags_masked k :
  write_flags (rflags (k_cpu k)) (masked k) = Ret tt k.
Proof.
  unfold write_flags, modify, masked, with_cpu, set_rflags. simpl.
  by destruct k as [[]].
Qed.
Lemma write_flags_masked_pmm k p :
  write_flags (rflags (k_cpu k)) (with_pmm p (masked k)) = Ret tt (with_pmm p k).
Proof.
  unfold write_flags, modify, masked, with_cpu, with_pmm, set_rflags. simpl.
  by destruct k as [[]].
Qed.
Lemma masked_pmm k : k_pmm (masked k) = k_pmm k.
Proof. done. Qed.
Lemma with_pmm_id k : with_pmm (k_pmm k) k = k.
Proof. by destruct k. Qed.
Lemma with_heap_id k : with_heap (k_heap k) k = k.
Proof. by destruct k. Qed.
Lemma with_pmm_pmm k p q : with_pmm p (with_pmm q k) = with_pmm p k.
Proof. done. Qed.
