(* ===== verification/Console.v ===== *)
(** * The VGA text console (drivers/video/vga/vga.c, drivers/video/console/console.c)

    A routine of this file acts on [con_t] alone: the cursor bytes at 0xC800
    and 0xC801 and the text memory at 0xB8000, an array of 16-bit cells. *)

From S2P Require Import Prelude State.
From stdpp Require Import strings.
#[local] Open Scope Z_scope.

Definition VGA_WIDTH : Z := 80.
Definition VGA_HEIGHT : Z := 25.

Abbreviation con := (M con_t).

(** The bytes of a C string literal. *)
Definition cstr (s : String.string) : list Z :=
  List.map (fun a => Z.of_N (Ascii.N_of_ascii a)) (String.list_ascii_of_string s).
Arguments cstr s%_string.

Definition cell (c : con_t) (i : Z) : Z := default 0 (VGA_MEM c !! i).

Definition set_row (r : Z) : con unit :=
  modify (fun c => {| ROW := u8 r; COLUMN := COLUMN c; VGA_MEM := VGA_MEM c |}).
Definition set_column (col : Z) : con unit :=
  modify (fun c => {| ROW := ROW c; COLUMN := u8 col; VGA_MEM := VGA_MEM c |}).
Definition set_cell (i data : Z) : con unit :=
  modify (fun c => {| ROW := ROW c; COLUMN := COLUMN c;
                      VGA_MEM := <[i := u16 data]> (VGA_MEM c) |}).

(** ** vga.c *)

Definition vga_write (col row data : Z) : con unit :=
  set_cell (row * VGA_WIDTH + col) data.

Definition vga_read (col row : Z) : con Z :=
  gets (fun c => cell c (row * VGA_WIDTH + col)).

Definition vga_copy (dest_col dest_row src_col src_row : Z) : con unit :=
  for_range (trips 0 VGA_WIDTH) 0 (fun i =>
    v <- gets (fun c => cell c (src_row * VGA_WIDTH + src_col + i)) ;;
    set_cell (dest_row * VGA_WIDTH + dest_col + i) v).

Definition vga_fill_row (row data : Z) : con unit :=
  for_range (trips 0 VGA_WIDTH) 0 (fun col =>
    set_cell (row * VGA_WIDTH + col) data).

(** ** console.c *)

Definition blank : Z := Z.lor 32 (Z.shiftl 0x07 8).

Definition kprintnl : con unit :=
  _ <- set_column 0 ;;
  r <- gets ROW ;;
  _ <- set_row (r + 1) ;;
  r <- gets ROW ;;
  if VGA_HEIGHT <=? r then
    _ <- for_range (trips 0 ((VGA_HEIGHT - 1) * VGA_WIDTH)) 0 (fun row =>
           v <- gets (fun c => cell c (row + VGA_WIDTH)) ;;
           set_cell row v) ;;
    _ <- vga_fill_row (VGA_HEIGHT - 1) blank ;;
    set_row (VGA_HEIGHT - 1)
  else ret tt.

(** The loop of [kprints]; [row] and [col] are its locals and [s] the rest of
    the string, which ends at its NUL (or with the list). *)
Fixpoint kprints_loop (s : list Z) (color row col : Z) : con unit :=
  match s with
  | [] => set_column col
  | ch :: s' =>
      if ch =? 0 then set_column col else
      rc <- (if VGA_WIDTH <=? col then
               _ <- kprintnl ;; r <- gets ROW ;; c <- gets COLUMN ;; ret (r, c)
             else ret (row, col)) ;;
      _ <- vga_write (snd rc) (fst rc) (Z.lor (s8 ch) (Z.shiftl color 8)) ;;
      kprints_loop s' color (fst rc) (u8 (snd rc + 1))
  end.

Definition kprints (s : list Z) (color : Z) : con unit :=
  row <- gets ROW ;; col <- gets COLUMN ;; kprints_loop s color row col.

Definition kprintln (s : list Z) (color : Z) : con unit :=
  _ <- kprints s color ;; kprintnl.

(** The loop of [kwrite] over the rest [buf] of the buffer. *)
Fixpoint kwrite_loop (buf : list Z) (color row col : Z) : con unit :=
  match buf with
  | [] => ret tt
  | ch :: buf' =>
      if ch =? 10 then
        _ <- kprintnl ;; r <- gets ROW ;; c <- gets COLUMN ;;
        kwrite_loop buf' color r c
      else if ch =? 8 then
        if 0 <? col then
          let col := col - 1 in
          _ <- set_column col ;;
          _ <- vga_write col row (Z.lor 32 (Z.shiftl color 8)) ;;
          kwrite_loop buf' color row col
        else kwrite_loop buf' color row col
      else
        rc <- (if VGA_WIDTH <=? col then
                 _ <- kprintnl ;; r <- gets ROW ;; c <- gets COLUMN ;; ret (r, c)
               else ret (row, col)) ;;
        _ <- vga_write (snd rc) (fst rc) (Z.lor (u16 (s8 ch)) (Z.shiftl color 8)) ;;
        let col := u8 (snd rc + 1) in
        _ <- set_column col ;;
        kwrite_loop buf' color (fst rc) col
  end.

Definition kwrite (buf : option (list Z)) (color : Z) : con unit :=
  match buf with
  | None => ret tt
  | Some buf => row <- gets ROW ;; col <- gets COLUMN ;; kwrite_loop buf color row col
  end.

Definition kclear : con unit :=
  _ <- for_range (trips 0 VGA_HEIGHT) 0 (fun row =>
         for_range (trips 0 VGA_WIDTH) 0 (fun col => vga_write col row blank)) ;;
  _ <- set_row 0 ;;
  set_column 0.

Definition part_init : list Z := cstr "INIT".
Definition part_info : list Z := cstr "INFO".
Definition part_succ : list Z := cstr "SUCC".
Definition part_fail : list Z := cstr "FAIL".
Definition part_ferr : list Z := cstr "FERR".
Definition part_lbrack : list Z := cstr "[ ".
Definition part_rbrack : list Z := cstr " ] ".

Definition print_prefixed_str (s prefix : list Z) (colors : Z) : con unit :=
  _ <- kprints part_lbrack 0x0F ;;
  _ <- kprints prefix (u8 (Z.shiftr colors 8)) ;;
  _ <- kprints part_rbrack 0x0F ;;
  kprintln s (u8 (Z.land colors 0x00FF)).

Definition kprintfail (s : list Z) (color : Z) : con unit :=
  print_prefixed_str s part_fail (Z.lor 0x0C00 color).
Definition kprintinfo (s : list Z) (color : Z) : con unit :=
  print_prefixed_str s part_info (Z.lor 0x0900 color).
Definition kprintsucc (s : list Z) (color : Z) : con unit :=
  print_prefixed_str s part_succ (Z.lor 0x0A00 color).
Definition kprintferr (s : list Z) (color : Z) : con unit :=
  print_prefixed_str s part_ferr (Z.lor 0x0400 color).
Definition kprintinit (s : list Z) (color : Z) : con unit :=
  print_prefixed_str s part_init (Z.lor 0x0B00 color).

(** A console routine run by the kernel. *)
Definition on_con {A} (m : con A) : kernel A := zoom k_con with_con m.

(** ** Invariant: the cursor stays on the 80 x 25 screen

    [COLUMN] may equal the width: the wrap is taken at the next character. *)

Definition con_ok (c : con_t) : Prop :=
  0 <= ROW c < VGA_HEIGHT /\ 0 <= COLUMN c <= VGA_WIDTH.

Ltac con_lia := unfold VGA_WIDTH, VGA_HEIGHT in *; lia.

(** Only the 2000 cells of the screen may differ. *)
Definition screen_only (c c' : con_t) : Prop :=
  forall i, ~ (0 <= i < VGA_WIDTH * VGA_HEIGHT) -> cell c' i = cell c i.

#[export] Instance screen_only_preorder : PreOrder screen_only.
Proof.
  split; [by intros c i|]. intros a b c H1 H2 i Hi. by rewrite H2, H1.
Qed.

Lemma cell_insert (c : con_t) r col i j v :
  cell {| ROW := r; COLUMN := col; VGA_MEM := <[i := v]> (VGA_MEM c) |} j
  = if decide (i = j) then v else cell c j.
Proof.
  unfold cell. simpl. rewrite lookup_insert. by destruct (decide (i = j)).
Qed.

Lemma set_cell_run i v c :
  set_cell i v c = Ret tt {| ROW := ROW c; COLUMN := COLUMN c;
                             VGA_MEM := <[i := u16 v]> (VGA_MEM c) |}.
Proof. done. Qed.

(** The row copy of the scroll. *)
Lemma scroll_copy n c :
  exists c', for_range n 0 (fun row =>
      v <- gets (fun c => cell c (row + VGA_WIDTH)) ;; set_cell row v) c = Ret tt c'
    /\ ROW c' = ROW c /\ COLUMN c' = COLUMN c
    /\ forall i, cell c' i
        = if decide (0 <= i < Z.of_nat n) then u16 (cell c (i + VGA_WIDTH)) else cell c i.
Proof.
  edestruct (for_range_inv (fun j c' => ROW c' = ROW c /\ COLUMN c' = COLUMN c
    /\ forall i, cell c' i
        = if decide (0 <= i < j) then u16 (cell c (i + VGA_WIDTH)) else cell c i))
    as (c' & Hrun & HP); [| |eauto].
  - repeat split. intros i. case_decide; [lia|done].
  - intros j s Hj (HR & HC & Hcell). eexists. split; [reflexivity|].
    simpl. split_and!; try done. intros i. rewrite cell_insert, !Hcell.
    unfold VGA_WIDTH. destruct (decide (j = i)) as [<-|Hne].
    + repeat case_decide; first [done | con_lia | reflexivity].
    + repeat case_decide; first [done | con_lia | reflexivity].
Qed.

Lemma vga_fill_row_run row data c :
  exists c', vga_fill_row row data c = Ret tt c'
    /\ ROW c' = ROW c /\ COLUMN c' = COLUMN c
    /\ forall i, cell c' i
        = if decide (row * VGA_WIDTH <= i < row * VGA_WIDTH + VGA_WIDTH)
          then u16 data else cell c i.
Proof.
  edestruct (for_range_inv (fun j c' => ROW c' = ROW c /\ COLUMN c' = COLUMN c
    /\ forall i, cell c' i
        = if decide (row * VGA_WIDTH <= i < row * VGA_WIDTH + j)
          then u16 data else cell c i)) as (c' & Hrun & HP); [| |eauto].
  - repeat split. intros i. case_decide; [lia|done].
  - intros j s Hj (HR & HC & Hcell). eexists. split; [reflexivity|].
    simpl. split_and!; try done. intros i. rewrite cell_insert, Hcell.
    repeat case_decide; first [lia | done].
Qed.

(** The scroll [kprintnl] runs when the cursor leaves the last row. *)
Definition scroll : con unit :=
  _ <- for_range (trips 0 ((VGA_HEIGHT - 1) * VGA_WIDTH)) 0 (fun row =>
         v <- gets (fun c => cell c (row + VGA_WIDTH)) ;;
         set_cell row v) ;;
  _ <- vga_fill_row (VGA_HEIGHT - 1) blank ;;
  set_row (VGA_HEIGHT - 1).

Lemma scroll_run c :
  exists c', scroll c = Ret tt c' /\ COLUMN c' = COLUMN c /\ ROW c' = VGA_HEIGHT - 1
    /\ forall i, cell c' i =
      if decide (0 <= i < (VGA_HEIGHT - 1) * VGA_WIDTH) then u16 (cell c (i + VGA_WIDTH))
      else if decide (0 <= i < VGA_HEIGHT * VGA_WIDTH) then blank else cell c i.
Proof.
  unfold scroll.
  edestruct (scroll_copy (trips 0 ((VGA_HEIGHT - 1) * VGA_WIDTH)))
    as (c1 & Hrun1 & _ & HC1 & Hcell1).
  edestruct (vga_fill_row_run (VGA_HEIGHT - 1) blank c1) as (c2 & Hrun2 & _ & HC2 & Hcell2).
  rewrite (bind_run _ _ _ _ _ Hrun1), (bind_run _ _ _ _ _ Hrun2).
  eexists. split; [reflexivity|]. cbn [COLUMN ROW]. split_and!; [congruence|done|].
  intros i. change (cell _ i) with (cell c2 i) at 1. rewrite Hcell2, Hcell1.
  rewrite trips_Z by done. clear Hrun1 Hrun2. unfold VGA_WIDTH, VGA_HEIGHT.
  repeat case_decide; first [lia | reflexivity].
Qed.

(** What [kprintnl] does on both of its branches. *)
Lemma kprintnl_eq c :
  kprintnl c = (if VGA_HEIGHT <=? u8 (ROW c + 1) then scroll else ret tt)
                 {| ROW := u8 (ROW c + 1); COLUMN := 0; VGA_MEM := VGA_MEM c |}.
Proof. reflexivity. Qed.

Lemma kprintnl_run c :
  0 <= ROW c < VGA_HEIGHT ->
  exists c', kprintnl c = Ret tt c' /\ COLUMN c' = 0
    /\ (ROW c + 1 < VGA_HEIGHT ->
          ROW c' = ROW c + 1 /\ forall i, cell c' i = cell c i)
    /\ (ROW c + 1 = VGA_HEIGHT ->
          ROW c' = VGA_HEIGHT - 1 /\ forall i, cell c' i =
            if decide (0 <= i < (VGA_HEIGHT - 1) * VGA_WIDTH) then u16 (cell c (i + VGA_WIDTH))
            else if decide (0 <= i < VGA_HEIGHT * VGA_WIDTH) then blank else cell c i).
Proof.
  intros HR. rewrite kprintnl_eq. unfold VGA_HEIGHT in HR. rewrite u8_small by lia.
  destruct (Z.leb_spec VGA_HEIGHT (ROW c + 1)) as [Hle|Hlt].
  - destruct (scroll_run {| ROW := ROW c + 1; COLUMN := 0; VGA_MEM := VGA_MEM c |})
      as (c' & -> & HC & HR' & Hcell).
    exists c'. split_and!; [done|done|lia|]. intros _. by split.
  - eexists. split; [reflexivity|]. split_and!; [done|done|lia].
Qed.

Lemma kprintnl_ok c :
  0 <= ROW c < VGA_HEIGHT ->
  exists c', kprintnl c = Ret tt c' /\ COLUMN c' = 0 /\ 0 <= ROW c' < VGA_HEIGHT
    /\ screen_only c c'.
Proof.
  intros HR. destruct (kprintnl_run c HR) as (c' & Hrun & HC & Hlt & Heq).
  exists c'. do 2 (split; [done|]). split.
  - destruct (decide (ROW c + 1 < VGA_HEIGHT)) as [H|H].
    + pose proof H as H'. apply Hlt in H as [-> _]. lia.
    + destruct Heq as [-> _]; [lia|]. done.
  - intros i Hi. destruct (decide (ROW c + 1 < VGA_HEIGHT)) as [H|H].
    + by apply Hlt in H as [_ ->].
    + destruct Heq as [_ ->]; [lia|]. unfold VGA_WIDTH, VGA_HEIGHT in *.
      repeat case_decide; first [done | con_lia | reflexivity].
Qed.

(** The wrap test both output loops make before they write a character. *)
Definition wrapped (row col : Z) : con (Z * Z) :=
  if VGA_WIDTH <=? col then
    _ <- kprintnl ;; r <- gets ROW ;; c <- gets COLUMN ;; ret (r, c)
  else ret (row, col).

Lemma wrapped_ok c row col :
  0 <= ROW c < VGA_HEIGHT -> row = ROW c -> 0 <= col <= VGA_WIDTH ->
  exists c' col', wrapped row col c = Ret (ROW c', col') c' /\ 0 <= ROW c' < VGA_HEIGHT
    /\ 0 <= col' < VGA_WIDTH /\ screen_only c c' /\ COLUMN c' = (if VGA_WIDTH <=? col then 0 else COLUMN c)
    /\ col' = (if VGA_WIDTH <=? col then 0 else col).
Proof.
  intros HR -> Hcol. unfold wrapped. destruct (Z.leb_spec VGA_WIDTH col).
  - destruct (kprintnl_ok c HR) as (c' & Hrun & HC & HR' & Hs).
    exists c', 0. rewrite (bind_run _ _ _ _ _ Hrun).
    split; [unfold bind, gets; by rewrite HC|].
    split_and!; first [done | con_lia].
  - exists c, col. split_and!; first [done | con_lia | reflexivity].
Qed.

(** Writing one cell of the screen. *)
Lemma vga_write_run col row data c :
  exists c', vga_write col row data c = Ret tt c' /\ ROW c' = ROW c /\ COLUMN c' = COLUMN c
    /\ (forall i, cell c' i = if decide (i = row * VGA_WIDTH + col) then u16 data else cell c i).
Proof.
  eexists. split; [reflexivity|]. cbn [ROW COLUMN]. split_and!; [done|done|].
  intros i. rewrite cell_insert. repeat case_decide; congruence.
Qed.

Lemma vga_write_ok col row data c :
  0 <= row < VGA_HEIGHT -> 0 <= col < VGA_WIDTH ->
  exists c', vga_write col row data c = Ret tt c' /\ ROW c' = ROW c /\ COLUMN c' = COLUMN c
    /\ screen_only c c'.
Proof.
  intros Hr Hc. destruct (vga_write_run col row data c) as (c' & ? & ? & ? & Hcell).
  exists c'. split_and!; [done..|]. intros i Hi. rewrite Hcell.
  unfold VGA_HEIGHT, VGA_WIDTH in *. case_decide; [lia|done].
Qed.

Lemma kwrite_loop_ok buf color c :
  con_ok c ->
  exists c', kwrite_loop buf color (ROW c) (COLUMN c) c = Ret tt c'
    /\ con_ok c' /\ screen_only c c'.
Proof.
  revert c. induction buf as [|ch buf IH]; intros c [HR HC]; cbn [kwrite_loop].
  { exists c. by split_and!. }
  destruct (ch =? 10).
  { destruct (kprintnl_ok c HR) as (c1 & Hrun & HC1 & HR1 & Hs1).
    rewrite (bind_run _ _ _ _ _ Hrun). cbn [bind gets].
    destruct (IH c1) as (c2 & Hrun2 & Hok & Hs2); [split; [done|]; rewrite HC1; done|].
    exists c2. split_and!; [done|done|by etrans]. }
  destruct (ch =? 8).
  { destruct (Z.ltb_spec 0 (COLUMN c)) as [Hpos|_]; [|apply IH; by split].
    unfold VGA_WIDTH in HC. cbn [bind set_column modify]. rewrite u8_small by lia.
    set (c1 := {| ROW := ROW c; COLUMN := COLUMN c - 1; VGA_MEM := VGA_MEM c |}).
    edestruct (vga_write_ok (COLUMN c - 1) (ROW c) (Z.lor 32 (Z.shiftl color 8)) c1)
      as (c2 & Hrun & HR2 & HC2 & Hs2); [done|unfold VGA_WIDTH; lia|].
    rewrite (bind_run _ _ _ _ _ Hrun).
    assert (Hc2 : con_ok c2) by (split; rewrite ?HR2, ?HC2; simpl; [done|unfold VGA_WIDTH; lia]).
    destruct (IH c2 Hc2) as (c3 & Hrun3 & Hok & Hs3).
    rewrite HR2, HC2 in Hrun3. exists c3. split_and!; [done|done|].
    etrans; [|done]. by etrans; [|exact Hs2]. }
  destruct (wrapped_ok c (ROW c) (COLUMN c)) as (c1 & col1 & Hw & HR1 & HC1 & Hs1 & _); [done..|].
  rewrite (bind_run _ _ _ _ _ Hw). cbn [fst snd].
  destruct (vga_write_ok col1 (ROW c1) (Z.lor (u16 (s8 ch)) (Z.shiftl color 8)) c1)
    as (c2 & Hrun & HR2 & HC2 & Hs2); [done..|].
  rewrite (bind_run _ _ _ _ _ Hrun). cbn [bind set_column modify].
  unfold VGA_WIDTH in HC1. rewrite !u8_small by (rewrite ?u8_small; lia).
  set (c3 := {| ROW := ROW c2; COLUMN := col1 + 1; VGA_MEM := VGA_MEM c2 |}).
  destruct (IH c3) as (c4 & Hrun4 & Hok & Hs4).
  { split; [simpl; by rewrite HR2|]. simpl. unfold VGA_WIDTH. lia. }
  simpl in Hrun4. rewrite HR2 in Hrun4. exists c4. split_and!; [done|done|].
  etrans; [exact Hs1|]. etrans; [exact Hs2|]. exact Hs4.
Qed.

(** ** Every console routine returns, from any state *)

Lemma kprintnl_total c : exists c', kprintnl c = Ret tt c'.
Proof.
  rewrite kprintnl_eq. destruct (_ <=? _); [|by eexists].
  edestruct scroll_run as (c' & -> & _). by eexists.
Qed.

Lemma kprints_loop_total s color row col c : exists c', kprints_loop s color row col c = Ret tt c'.
Proof.
  revert row col c. induction s as [|ch s IH]; intros row col c; cbn [kprints_loop]; [by eexists|].
  destruct (ch =? 0); [by eexists|].
  destruct (VGA_WIDTH <=? col).
  - destruct (kprintnl_total c) as (c1 & Hrun).
    rewrite bind_bind, (bind_run _ _ _ _ _ Hrun). apply IH.
  - apply IH.
Qed.

Lemma kprints_total s color c : exists c', kprints s color c = Ret tt c'.
Proof. apply kprints_loop_total. Qed.

Lemma print_prefixed_total s prefix colors c :
  exists c', print_prefixed_str s prefix colors c = Ret tt c'.
Proof.
  unfold print_prefixed_str, kprintln.
  destruct (kprints_total part_lbrack 0x0F c) as (c1 & H1).
  destruct (kprints_total prefix (u8 (Z.shiftr colors 8)) c1) as (c2 & H2).
  destruct (kprints_total part_rbrack 0x0F c2) as (c3 & H3).
  destruct (kprints_total s (u8 (Z.land colors 0x00FF)) c3) as (c4 & H4).
  rewrite (bind_run _ _ _ _ _ H1), (bind_run _ _ _ _ _ H2), (bind_run _ _ _ _ _ H3),
    (bind_run _ _ _ _ _ H4). apply kprintnl_total.
Qed.

Lemma kprintferr_total s color k :
  exists c, on_con (kprintferr s color) k = Ret tt (with_con c k).
Proof.
  destruct (print_prefixed_total s part_ferr (Z.lor 0x0400 color) (k_con k)) as (c & H).
  exists c. unfold on_con, zoom, kprintferr. by rewrite H.
Qed.

(** ** Properties *)

(** C29: whatever bytes and length a program hands to [kwrite], the routine
    returns with the cursor on the screen and has written no cell outside it. *)
Theorem kwrite_safe buf color c :
  con_ok c ->
  exists c', kwrite buf color c = Ret tt c' /\ con_ok c' /\ screen_only c c'.
Proof.
  intros Hok. destruct buf as [buf|]; [by apply kwrite_loop_ok|].
  exists c. by split_and!.
Qed.

Definition con0 : con_t := {| ROW := 24; COLUMN := 79; VGA_MEM := ∅ |}.

Lemma kwrite_safe_witness :
  con_ok con0 /\ exists c', kwrite (Some (cstr "hi")) 15 con0 = Ret tt c' /\ con_ok c'
                              /\ screen_only con0 c'.
Proof.
  assert (H : con_ok con0) by (unfold con_ok, con0, VGA_HEIGHT, VGA_WIDTH; simpl; lia).
  split; [exact H|]. exact (kwrite_safe (Some (cstr "hi")) 15 con0 H).
Defined.

(** A printable 7-bit character: neither newline nor backspace. *)
Definition plain (b : Z) : Prop := 0 <= b < 128 /\ b <> 10 /\ b <> 8.

(** The cell that holds character [b] in colour [color]. *)
Definition glyph (b color : Z) : Z := Z.lor b (Z.shiftl color 8).

Lemma glyph_add b color : 0 <= b < 256 -> 0 <= color -> glyph b color = b + color * 256.
Proof.
  intros Hb Hc. unfold glyph. rewrite <- Z.add_lor_land, Z.shiftl_mul_pow2 by lia.
  change (2 ^ 8) with 256.
  enough (Z.land b (color * 256) = 0) by lia.
  apply Z.bits_inj'. intros i Hi. rewrite Z.land_spec, Z.testbit_0_l.
  change 256 with (2 ^ 8). destruct (decide (i < 8)).
  - rewrite Z.mul_pow2_bits_low by lia. apply andb_false_r.
  - replace b with (b mod 2 ^ 8) by (apply Z.mod_small; lia).
    by rewrite Z.mod_pow2_bits_high by lia.
Qed.

Lemma u16_glyph b color : 0 <= b < 256 -> 0 <= color < 256 -> u16 (glyph b color) = glyph b color.
Proof. intros Hb Hc. apply u16_small. rewrite glyph_add by lia. lia. Qed.

Lemma lor_255 color : 0 <= color < 256 -> Z.lor 255 color = 255.
Proof.
  intros Hc. apply Z.bits_inj'. intros i Hi. rewrite Z.lor_spec.
  change 255 with (Z.ones 8). destruct (decide (i < 8)).
  - by rewrite Z.ones_spec_low by lia.
  - replace color with (color mod 2 ^ 8) by (apply Z.mod_small; lia).
    by rewrite Z.mod_pow2_bits_high, orb_false_r by lia.
Qed.

Lemma kwrite_loop_line buf color c :
  Forall plain buf -> 0 <= color < 256 -> 0 <= COLUMN c ->
  COLUMN c + Z.of_nat (length buf) <= VGA_WIDTH ->
  exists c', kwrite_loop buf color (ROW c) (COLUMN c) c = Ret tt c'
    /\ ROW c' = ROW c /\ COLUMN c' = COLUMN c + Z.of_nat (length buf)
    /\ forall i, cell c' i =
        match (if decide (ROW c * VGA_WIDTH + COLUMN c <= i)
               then buf !! Z.to_nat (i - (ROW c * VGA_WIDTH + COLUMN c)) else None) with
        | Some b => glyph b color
        | None => cell c i
        end.
Proof.
  intros Hbuf Hcol. revert c. induction Hbuf as [|b buf (Hb & Hnl & Hbs) _ IH];
    intros c HC Hlen; cbn [kwrite_loop length].
  { exists c. split_and!; [done|done|lia|]. intros i. rewrite lookup_nil. by case_decide. }
  cbn [length] in Hlen. unfold VGA_WIDTH in Hlen.
  rewrite (proj2 (Z.eqb_neq b 10)), (proj2 (Z.eqb_neq b 8)) by done.
  rewrite (proj2 (Z.leb_gt VGA_WIDTH (COLUMN c))) by con_lia. cbn [bind ret fst snd].
  destruct (vga_write_run (COLUMN c) (ROW c) (Z.lor (u16 (s8 b)) (Z.shiftl color 8)) c)
    as (c1 & Hrun & HR1 & HC1 & Hcell1).
  rewrite (bind_run _ _ _ _ _ Hrun). cbn [bind set_column modify].
  rewrite !u8_small by (rewrite ?u8_small; lia).
  set (c2 := {| ROW := ROW c1; COLUMN := COLUMN c + 1; VGA_MEM := VGA_MEM c1 |}).
  destruct (IH c2) as (c' & Hrun' & HR' & HC' & Hcell'); [simpl; lia|simpl; con_lia|].
  simpl in Hrun', HR', HC'. rewrite HR1 in Hrun'. exists c'.
  split_and!; [done|congruence|lia|]. intros i. rewrite Hcell'.
  change (cell c2 i) with (cell c1 i). rewrite Hcell1. unfold c2. simpl. rewrite HR1.
  unfold s8. rewrite (proj2 (Z.ltb_lt b 128)), (u16_small b) by lia.
  fold (glyph b color). rewrite u16_glyph by lia.
  destruct (decide (i = ROW c * VGA_WIDTH + COLUMN c)) as [->|Hi].
  - rewrite decide_False by lia. rewrite decide_True by lia. by rewrite Z.sub_diag.
  - case_decide; [rewrite decide_True by lia|by rewrite decide_False by lia].
    replace (Z.to_nat (i - (ROW c * VGA_WIDTH + COLUMN c)))
      with (S (Z.to_nat (i - (ROW c * VGA_WIDTH + (COLUMN c + 1))))) by lia. done.
Qed.

(** a run of plain characters that fits on the line appears on the screen
    from the cursor on, in the given colour; no other cell changes and the cursor
    stands after the last character. *)
Lemma kwrite_line buf color c :
  Forall plain buf -> 0 <= color < 256 -> con_ok c ->
  COLUMN c + Z.of_nat (length buf) <= VGA_WIDTH ->
  exists c', kwrite (Some buf) color c = Ret tt c'
    /\ ROW c' = ROW c /\ COLUMN c' = COLUMN c + Z.of_nat (length buf)
    /\ forall i, cell c' i =
        match (if decide (ROW c * VGA_WIDTH + COLUMN c <= i)
               then buf !! Z.to_nat (i - (ROW c * VGA_WIDTH + COLUMN c)) else None) with
        | Some b => glyph b color
        | None => cell c i
        end.
Proof. intros Hbuf Hcol [HR HC] Hlen. apply kwrite_loop_line; auto; lia. Qed.

Lemma kwrite_line_witness :
  exists c', kwrite (Some (cstr "ok")) 15 {| ROW := 3; COLUMN := 4; VGA_MEM := ∅ |} = Ret tt c'
    /\ ROW c' = 3 /\ COLUMN c' = 6.
Proof.
  destruct (kwrite_line (cstr "ok") 15 {| ROW := 3; COLUMN := 4; VGA_MEM := ∅ |})
    as (c' & H & HR & HC & _).
  - unfold plain; repeat constructor; simpl; lia.
  - lia.
  - unfold con_ok, VGA_HEIGHT, VGA_WIDTH; simpl; lia.
  - unfold VGA_WIDTH; simpl; lia.
  - exists c'. split_and!; done.
Defined.

(** A newline below the last row moves the cursor down and leaves the text;
    on the last row it scrolls: row [r] gets the text of row [r + 1], the last
    row is blank, and the cursor stays on it. *)
Lemma kprintnl_newline c :
  0 <= ROW c < VGA_HEIGHT ->
  exists c', kprintnl c = Ret tt c' /\ COLUMN c' = 0
    /\ (ROW c + 1 < VGA_HEIGHT -> ROW c' = ROW c + 1 /\ forall i, cell c' i = cell c i)
    /\ (ROW c + 1 = VGA_HEIGHT -> ROW c' = ROW c /\
          forall row col, 0 <= row < VGA_HEIGHT -> 0 <= col < VGA_WIDTH ->
            cell c' (row * VGA_WIDTH + col)
            = if row + 1 <? VGA_HEIGHT then u16 (cell c ((row + 1) * VGA_WIDTH + col))
              else blank).
Proof.
  intros HR. destruct (kprintnl_run c HR) as (c' & Hrun & HC & Hlt & Heq).
  exists c'. do 3 (split; [done|]). intros Hlast. destruct (Heq Hlast) as [HR' Hcell].
  split; [lia|]. intros row col Hrow Hcol. rewrite Hcell. unfold VGA_HEIGHT, VGA_WIDTH in *.
  destruct (Z.ltb_spec (row + 1) 25).
  - rewrite decide_True by lia. do 2 f_equal. lia.
  - rewrite decide_False by lia. by rewrite decide_True by lia.
Qed.

Lemma kprintnl_newline_witness :
  exists c', kprintnl {| ROW := 3; COLUMN := 4; VGA_MEM := ∅ |} = Ret tt c' /\ ROW c' = 4.
Proof.
  destruct (kprintnl_newline {| ROW := 3; COLUMN := 4; VGA_MEM := ∅ |})
    as (c' & H & _ & Hlt & _); [unfold VGA_HEIGHT; simpl; lia|].
  exists c'. split; [exact H|]. apply Hlt. unfold VGA_HEIGHT; simpl; lia.
Defined.

(** A byte above 0x7F does not get the requested colour.  [char] is signed,
    so [(uint16_t)c] is 0xFF80..0xFFFF and the attribute byte is 0xFF whatever
    [color] is. *)
Lemma kwrite_high_byte b color c :
  128 <= b < 256 -> 0 <= color < 256 -> COLUMN c < VGA_WIDTH -> 0 <= COLUMN c ->
  exists c', kwrite (Some [b]) color c = Ret tt c'
    /\ cell c' (ROW c * VGA_WIDTH + COLUMN c) = glyph b 0xFF.
Proof.
  intros Hb Hcol Hlt Hge. unfold kwrite. cbn [bind gets kwrite_loop].
  rewrite (proj2 (Z.eqb_neq b 10)), (proj2 (Z.eqb_neq b 8)) by lia.
  rewrite (proj2 (Z.leb_gt VGA_WIDTH (COLUMN c))) by lia. cbn [bind ret fst snd].
  eexists. split; [reflexivity|].
  unfold cell at 1. cbn [VGA_MEM]. rewrite lookup_insert_eq. simpl.
  unfold s8. rewrite (proj2 (Z.ltb_ge b 128)) by lia.
  replace (u16 (b - 256)) with (glyph b 255).
  - unfold glyph at 1. rewrite <- Z.lor_assoc, <- Z.shiftl_lor, lor_255 by lia.
    apply u16_glyph; lia.
  - rewrite glyph_add by lia. unfold u16. apply Z.mod_unique with (-1); lia.
Qed.

Lemma kwrite_high_byte_witness :
  exists c', kwrite (Some [200]) 15 con0 = Ret tt c' /\ cell c' (24 * 80 + 79) = glyph 200 0xFF.
Proof.
  exact (kwrite_high_byte 200 15 con0 ltac:(lia) ltac:(lia)
           ltac:(unfold VGA_WIDTH; simpl; lia) ltac:(simpl; lia)).
Defined.
