(* ===== verification/Utils.v ===== *)
(** * lib/utils.c: number formatting, memory and string routines

    A C array is the [list Z] of its bytes and a pointer into it is the tail it
    points at; [None] is an access outside the array.  [memcpy] and [memset]
    act on physical memory. *)

From S2P Require Import Prelude State.

(** ** Bounds-checked array access *)

Definition load (buf : list Z) (i : Z) : option Z :=
  if 0 <=? i then buf !! Z.to_nat i else None.

Definition store (buf : list Z) (i v : Z) : option (list Z) :=
  if (0 <=? i) && (i <? Z.of_nat (length buf))
  then Some (<[Z.to_nat i := u8 v]> buf) else None.

(** ** ki64toa *)

(** The digit loop; 20 rounds are enough for any 64-bit value. *)
Fixpoint itoa_digits (fuel : nat) (value pos max_len : Z) (buf : list Z)
  : option (bool * Z * list Z) :=
  match fuel with
  | O => if value =? 0 then Some (true, pos, buf) else None
  | S fuel =>
      if value =? 0 then Some (true, pos, buf) else
      if max_len - 1 <=? pos then Some (false, pos, buf) else
      match store buf pos (48 + value mod 10) with
      | None => None
      | Some buf => itoa_digits fuel (value / 10) (pos + 1) max_len buf
      end
  end.

(** The swap loop [for (a = start, b = pos - 1; a < b; a++, b--)]. *)
Fixpoint itoa_reverse (fuel : nat) (a b : Z) (buf : list Z) : option (list Z) :=
  match fuel with
  | O => if a <? b then None else Some buf
  | S fuel =>
      if a <? b then
        match load buf a, load buf b with
        | Some tmp, Some v =>
            match store buf a v with
            | None => None
            | Some buf =>
                match store buf b tmp with
                | None => None
                | Some buf => itoa_reverse fuel (a + 1) (b - 1) buf
                end
            end
        | _, _ => None
        end
      else Some buf
  end.

(** The sign: the value to print and the position after a '-'. *)
Definition itoa_sign (i max_len : Z) (buf : list Z) : option (bool * Z * Z * list Z) :=
  if i <? 0 then
    if max_len - 1 <=? 0 then Some (false, 0, 0, buf) else
    match store buf 0 45 with
    | None => None
    | Some buf => Some (true, u64 (- u64 i), 1, buf)
    end
  else Some (true, u64 i, 0, buf).

Definition itoa_value (value pos max_len : Z) (buf : list Z) : option (bool * Z * list Z) :=
  if value =? 0 then
    if max_len - 1 <=? pos then Some (false, pos, buf) else
    match store buf pos 48 with
    | None => None
    | Some buf => Some (true, pos + 1, buf)
    end
  else itoa_digits 20 value pos max_len buf.

Definition ki64toa (i : Z) (buf : list Z) (max_len : Z) : option (bool * list Z) :=
  if max_len =? 0 then Some (false, buf) else
  match itoa_sign i max_len buf with
  | None => None
  | Some (false, _, _, buf) => Some (false, buf)
  | Some (true, value, pos, buf) =>
      match itoa_value value pos max_len buf with
      | None => None
      | Some (false, _, buf) => Some (false, buf)
      | Some (true, pos, buf) =>
          match store buf pos 0 with
          | None => None
          | Some buf =>
              match itoa_reverse (length buf) (if i <? 0 then 1 else 0) (pos - 1) buf with
              | None => None
              | Some buf => Some (true, buf)
              end
          end
      end
  end.

(** ** Strings *)

Fixpoint strlen_from (s : list Z) (n : Z) : option Z :=
  match s with
  | [] => None
  | c :: s' => if c =? 0 then Some n else strlen_from s' (n + 1)
  end.

Definition kstrlen (s : option (list Z)) : option Z :=
  match s with None => Some 0 | Some s => strlen_from s 0 end.

Fixpoint kstrcmp (a b : list Z) : option Z :=
  match a, b with
  | ca :: a', cb :: b' =>
      if negb (ca =? 0) && negb (cb =? 0) && (ca =? cb) then kstrcmp a' b'
      else Some (ca - cb)
  | _, _ => None
  end.

Fixpoint kstrncmp (a b : list Z) (n : nat) : option Z :=
  match n with
  | O => Some 0
  | S n =>
      match a, b with
      | ca :: a', cb :: b' =>
          if negb (ca =? cb) then Some (ca - cb) else
          if ca =? 0 then Some 0 else kstrncmp a' b' n
      | _, _ => None
      end
  end.

Fixpoint strcpy_from (dst : list Z) (i : Z) (src : list Z) : option (list Z) :=
  match src with
  | [] => None
  | c :: src' =>
      match store dst i c with
      | None => None
      | Some dst => if c =? 0 then Some dst else strcpy_from dst (i + 1) src'
      end
  end.

Definition kstrcpy (dst src : list Z) : option (list Z) := strcpy_from dst 0 src.

Fixpoint strncpy_pad (dst : list Z) (i : Z) (n : nat) : option (list Z) :=
  match n with
  | O => Some dst
  | S n =>
      match store dst i 0 with
      | None => None
      | Some dst => strncpy_pad dst (i + 1) n
      end
  end.

Fixpoint strncpy_from (dst : list Z) (i : Z) (src : list Z) (n : nat) : option (list Z) :=
  match n with
  | O => Some dst
  | S n' =>
      match src with
      | [] => None
      | c :: src' =>
          if c =? 0 then strncpy_pad dst i n else
          match store dst i c with
          | None => None
          | Some dst => strncpy_from dst (i + 1) src' n'
          end
      end
  end.

Definition kstrncpy (dst src : list Z) (n : nat) : option (list Z) := strncpy_from dst 0 src n.

Fixpoint kmemcmp (a b : list Z) (n : nat) : option Z :=
  match n with
  | O => Some 0
  | S n =>
      match a, b with
      | ca :: a', cb :: b' =>
          if negb (ca =? cb) then Some (ca - cb) else kmemcmp a' b' n
      | _, _ => None
      end
  end.

(** ** Physical memory *)

Definition rd8 (m : gmap Z Z) (a : Z) : Z := default 0 (m !! a).
Definition wr8 (m : gmap Z Z) (a v : Z) : gmap Z Z := <[a := u8 v]> m.

Definition memcpy (dest src n : Z) : kernel unit :=
  for_range (trips 0 n) 0 (fun i =>
    modify (fun k => with_mem (wr8 (k_mem k) (dest + i) (rd8 (k_mem k) (src + i))) k)).

Definition memset (dest val n : Z) : kernel unit :=
  for_range (trips 0 n) 0 (fun i =>
    modify (fun k => with_mem (wr8 (k_mem k) (dest + i) val) k)).

(** ** Lemmas on array accesses *)

Definition byte (x : Z) : Prop := 0 <= x < 256.

Lemma store_app (out : list Z) x rest v i :
  i = Z.of_nat (length out) ->
  store (out ++ x :: rest) i v = Some (out ++ u8 v :: rest).
Proof.
  intros ->. unfold store. rewrite length_app. cbn [length].
  rewrite (proj2 (Z.leb_le 0 _)), (proj2 (Z.ltb_lt _ _)) by lia. simpl. f_equal.
  rewrite Nat2Z.id. rewrite <- (Nat.add_0_r (length out)) at 1.
  by rewrite insert_app_r.
Qed.

Lemma load_app (out : list Z) x rest i :
  i = Z.of_nat (length out) -> load (out ++ x :: rest) i = Some x.
Proof.
  intros ->. unfold load. rewrite (proj2 (Z.leb_le 0 _)), Nat2Z.id by lia.
  by apply list_lookup_middle.
Qed.

Lemma store_length buf i v buf' : store buf i v = Some buf' -> length buf' = length buf.
Proof. unfold store. case_match; [intros [= <-]|done]. by rewrite length_insert. Qed.

(** ** Decimal notation *)

(** The digits of [v], least significant first. *)
Fixpoint digits_rev (fuel : nat) (v : Z) : list Z :=
  match fuel with
  | O => []
  | S fuel => if v =? 0 then [] else 48 + v mod 10 :: digits_rev fuel (v / 10)
  end.

(** The usual decimal notation of a 64-bit integer. *)
Definition decimal (i : Z) : list Z :=
  (if i <? 0 then [45] else []) ++
  (if i =? 0 then [48] else reverse (digits_rev 20 (Z.abs i))).

(** Its inverse. *)
Definition parse_digits (s : list Z) : Z := fold_left (fun acc c => acc * 10 + (c - 48)) s 0.
Definition parse_decimal (s : list Z) : Z :=
  match s with
  | 45 :: s' => - parse_digits s'
  | _ => parse_digits s
  end.

Lemma digits_rev_range fuel v : Forall (fun c => 48 <= c < 58) (digits_rev fuel v).
Proof.
  revert v. induction fuel as [|fuel IH]; intros v; simpl; [constructor|].
  case_match; constructor; [|done]. pose proof (Z.mod_pos_bound v 10). lia.
Qed.

Lemma digits_rev_value fuel v :
  0 <= v < 10 ^ Z.of_nat fuel ->
  foldr (fun c acc => acc * 10 + (c - 48)) 0 (digits_rev fuel v) = v.
Proof.
  revert v. induction fuel as [|fuel IH]; intros v Hv; cbn [digits_rev].
  { simpl in *. lia. }
  destruct (Z.eqb_spec v 0) as [->|Hne]; [done|]. cbn [foldr].
  rewrite Nat2Z.inj_succ, Z.pow_succ_r in Hv by lia.
  rewrite IH; [pose proof (Z.div_mod v 10); lia|]. split; [apply Z.div_pos; lia|].
  apply Z.div_lt_upper_bound; lia.
Qed.

Lemma parse_digits_reverse l :
  parse_digits (reverse l) = foldr (fun c acc => acc * 10 + (c - 48)) 0 l.
Proof.
  unfold parse_digits, reverse. rewrite <- rev_alt.
  rewrite <- (rev_involutive l) at 2. by rewrite fold_left_rev_right.
Qed.

Lemma parse_decimal_digit c s : c <> 45 -> parse_decimal (c :: s) = parse_digits (c :: s).
Proof.
  intros Hc. unfold parse_decimal. destruct c as [|c|c]; [done| |done].
  do 6 (destruct c as [c|c|]; try done).
Qed.

Lemma decimal_parse i : - 2 ^ 63 <= i < 2 ^ 63 -> parse_decimal (decimal i) = i.
Proof.
  intros Hi. unfold decimal. destruct (Z.eqb_spec i 0) as [->|Hne]; [done|].
  assert (Hval : parse_digits (reverse (digits_rev 20 (Z.abs i))) = Z.abs i).
  { rewrite parse_digits_reverse. apply digits_rev_value.
    change (10 ^ Z.of_nat 20) with 100000000000000000000. lia. }
  remember (digits_rev 20 (Z.abs i)) as ds eqn:Eds.
  destruct (Z.ltb_spec i 0).
  - change (- parse_digits (reverse ds) = i). rewrite Hval. lia.
  - change (parse_decimal (reverse ds) = i). destruct (reverse ds) as [|c s] eqn:E;
      [change (0 = Z.abs i) in Hval; lia|].
    rewrite parse_decimal_digit, Hval; [lia|].
    assert (Hall := digits_rev_range 20 (Z.abs i)).
    rewrite <- Eds in Hall. apply (proj2 (Forall_reverse _ _)) in Hall.
    rewrite E in Hall. apply Forall_cons_1 in Hall as [Hc _]. lia.
Qed.

(** The digit loop writes the digits, least significant first, or stops at the
    last byte it may use. *)
Lemma itoa_digits_run fuel v pos max_len out rest :
  0 <= v < 10 ^ Z.of_nat fuel -> pos = Z.of_nat (length out) -> pos <= max_len - 1 ->
  max_len <= Z.of_nat (length (out ++ rest)) ->
  (pos + Z.of_nat (length (digits_rev fuel v)) <= max_len - 1 /\
     itoa_digits fuel v pos max_len (out ++ rest)
     = Some (true, pos + Z.of_nat (length (digits_rev fuel v)),
             out ++ digits_rev fuel v ++ drop (length (digits_rev fuel v)) rest))
  \/ (max_len - 1 < pos + Z.of_nat (length (digits_rev fuel v)) /\
     exists p buf, itoa_digits fuel v pos max_len (out ++ rest) = Some (false, p, buf)
       /\ length buf = length (out ++ rest)
       /\ drop (Z.to_nat max_len) buf = drop (Z.to_nat max_len) (out ++ rest)).
Proof.
  revert v pos out rest. induction fuel as [|fuel IH]; intros v pos out rest Hv Hpos Hle Hlen;
    cbn [digits_rev itoa_digits].
  { assert (v = 0) as -> by (simpl in Hv; lia). left. simpl. by rewrite Z.add_0_r. }
  destruct (Z.eqb_spec v 0) as [->|Hne].
  { left. simpl. by rewrite Z.add_0_r. }
  cbn [length]. destruct (Z.leb_spec (max_len - 1) pos) as [Hfull|Hroom].
  { right. split; [lia|]. by exists pos, (out ++ rest). }
  rewrite length_app in Hlen. destruct rest as [|x rest]; [simpl in Hlen; lia|].
  rewrite (store_app out x rest) by done.
  rewrite u8_small by (pose proof (Z.mod_pos_bound v 10); lia).
  rewrite Nat2Z.inj_succ, Z.pow_succ_r in Hv by lia.
  specialize (IH (v / 10) (pos + 1) (out ++ [48 + v mod 10]) rest).
  rewrite <- !app_assoc, length_app in IH. cbn [app length] in IH.
  destruct IH as [[Hfit Hrun]|(Hnot & p & buf & Hrun & Hl & Hd)].
  - split; [apply Z.div_pos; lia|]. apply Z.div_lt_upper_bound; lia.
  - lia.
  - lia.
  - rewrite length_app. cbn [length] in *. lia.
  - left. split; [lia|]. rewrite Hrun. cbn [drop]. do 2 f_equal. f_equal. lia.
  - right. split; [lia|]. exists p, buf. split_and!; [done|by rewrite Hl, !length_app|].
    rewrite Hd. assert (Hlt : (length out < Z.to_nat max_len)%nat) by lia.
    rewrite !drop_app, !drop_ge by lia. f_equal.
    destruct (Z.to_nat max_len - length out)%nat eqn:En; [lia|done].
Qed.

(** The swap loop reverses the segment between its two indices. *)
Lemma itoa_reverse_run fuel pre mid post a b :
  Forall byte mid -> (length mid <= fuel)%nat ->
  a = Z.of_nat (length pre) -> b = a + Z.of_nat (length mid) - 1 ->
  itoa_reverse fuel a b (pre ++ mid ++ post) = Some (pre ++ reverse mid ++ post).
Proof.
  revert pre mid post a b. induction fuel as [|fuel IH]; intros pre mid post a b Hbyte Hfuel Ha Hb.
  { destruct mid; [|simpl in Hfuel; lia]. simpl in Hb. cbn [itoa_reverse].
    by rewrite (proj2 (Z.ltb_ge a b)) by lia. }
  cbn [itoa_reverse]. destruct mid as [|x mid] using rev_ind; [|clear IHmid].
  { simpl in Hb. by rewrite (proj2 (Z.ltb_ge a b)) by lia. }
  destruct mid as [|y mid].
  { simpl in Hb. by rewrite (proj2 (Z.ltb_ge a b)) by lia. }
  rewrite length_app in Hfuel, Hb. cbn [length] in Hfuel, Hb.
  rewrite (proj2 (Z.ltb_lt a b)) by lia.
  apply Forall_app in Hbyte as [[Hy Hmid]%Forall_cons_1 [Hx _]%Forall_cons_1].
  rewrite <- app_assoc. cbn [app].
  rewrite (load_app pre y) by done.
  replace (pre ++ y :: mid ++ x :: post) with ((pre ++ y :: mid) ++ x :: post)
    by (rewrite <- app_assoc; done).
  rewrite load_app by (rewrite length_app; cbn [length]; lia).
  rewrite <- app_assoc. cbn [app]. rewrite (store_app pre y) by done.
  replace (pre ++ u8 x :: mid ++ x :: post) with ((pre ++ u8 x :: mid) ++ x :: post)
    by (rewrite <- app_assoc; done).
  rewrite store_app by (rewrite length_app; cbn [length]; lia).
  rewrite (u8_small x), (u8_small y) by done.
  replace ((pre ++ x :: mid) ++ y :: post) with ((pre ++ [x]) ++ mid ++ y :: post)
    by (rewrite <- !app_assoc; done).
  rewrite (IH (pre ++ [x]) mid (y :: post)); [|done|lia|rewrite length_app; simpl; lia|lia].
  rewrite reverse_cons, reverse_app, <- !app_assoc. done.
Qed.

(** The characters [itoa_value] writes, before the reversal. *)
Definition magnitude (v : Z) : list Z := if v =? 0 then [48] else digits_rev 20 v.
Definition sign (i : Z) : list Z := if i <? 0 then [45] else [].

Lemma decimal_eq i : decimal i = sign i ++ reverse (magnitude (Z.abs i)).
Proof.
  unfold decimal, sign, magnitude. f_equal.
  destruct (Z.eqb_spec i 0) as [->|]; [done|].
  by rewrite (proj2 (Z.eqb_neq (Z.abs i) 0)) by lia.
Qed.

Lemma magnitude_bytes v : Forall byte (magnitude v).
Proof.
  unfold magnitude. case_match; [repeat constructor; lia|].
  apply (Forall_impl (P := fun c => 48 <= c < 58)); [|apply digits_rev_range].
  unfold byte. intros c Hc. lia.
Qed.

Lemma itoa_value_run v pos max_len out rest :
  0 <= v < 10 ^ 20 -> pos = Z.of_nat (length out) -> pos <= max_len - 1 ->
  max_len <= Z.of_nat (length (out ++ rest)) ->
  let ds := magnitude v in
  (pos + Z.of_nat (length ds) <= max_len - 1 /\
     itoa_value v pos max_len (out ++ rest)
     = Some (true, pos + Z.of_nat (length ds), out ++ ds ++ drop (length ds) rest))
  \/ (max_len - 1 < pos + Z.of_nat (length ds) /\
     exists p buf, itoa_value v pos max_len (out ++ rest) = Some (false, p, buf)
       /\ length buf = length (out ++ rest)
       /\ drop (Z.to_nat max_len) buf = drop (Z.to_nat max_len) (out ++ rest)).
Proof.
  intros Hv Hpos Hle Hlen. unfold magnitude, itoa_value.
  destruct (Z.eqb_spec v 0) as [->|Hne]; [|by apply itoa_digits_run].
  cbn [length]. destruct (Z.leb_spec (max_len - 1) pos).
  - right. split; [lia|]. by exists pos, (out ++ rest).
  - left. split; [lia|]. rewrite length_app in Hlen.
    destruct rest as [|x rest]; [simpl in Hlen; lia|]. by rewrite (store_app out x rest).
Qed.

Lemma itoa_sign_run i max_len buf :
  - 2 ^ 63 <= i < 2 ^ 63 -> 0 < max_len <= Z.of_nat (length buf) ->
  (Z.of_nat (length (sign i)) <= max_len - 1 /\
     itoa_sign i max_len buf
     = Some (true, Z.abs i, Z.of_nat (length (sign i)), sign i ++ drop (length (sign i)) buf))
  \/ (max_len - 1 < Z.of_nat (length (sign i)) /\
      itoa_sign i max_len buf = Some (false, 0, 0, buf)).
Proof.
  intros Hi Hmax. unfold itoa_sign, sign. destruct (Z.ltb_spec i 0) as [Hneg|Hpos]; cbn [length].
  - destruct (Z.leb_spec (max_len - 1) 0); [right; split; [lia|done]|left; split; [lia|]].
    destruct buf as [|x buf]; [simpl in Hmax; lia|]. rewrite (store_app [] x buf) by done.
    replace (u64 (- u64 i)) with (Z.abs i); [done|].
    replace (u64 i) with (i + 2 ^ 64) by (unfold u64; apply Z.mod_unique with (-1); lia).
    unfold u64. apply Z.mod_unique with (-1); lia.
  - left. split; [simpl; lia|]. rewrite u64_small by lia. by rewrite Z.abs_eq.
Qed.

Lemma ki64toa_cases i buf max_len :
  - 2 ^ 63 <= i < 2 ^ 63 -> 0 <= max_len <= Z.of_nat (length buf) ->
  (Z.of_nat (length (decimal i)) < max_len /\
     ki64toa i buf max_len
     = Some (true, decimal i ++ 0 :: drop (S (length (decimal i))) buf))
  \/ (max_len <= Z.of_nat (length (decimal i)) /\
     exists buf', ki64toa i buf max_len = Some (false, buf') /\ length buf' = length buf
       /\ drop (Z.to_nat max_len) buf' = drop (Z.to_nat max_len) buf).
Proof.
  intros Hi Hmax. unfold ki64toa. destruct (Z.eqb_spec max_len 0) as [->|Hne].
  { right. split; [lia|]. by exists buf. }
  rewrite decimal_eq, length_app, length_reverse.
  destruct (itoa_sign_run i max_len buf) as [[Hs ->]|[Hs ->]]; [done|lia| |].
  2: { right. split; [lia|]. by exists buf. }
  assert (Hlen : length (sign i ++ drop (length (sign i)) buf) = length buf)
    by (rewrite length_app, length_drop; lia).
  destruct (itoa_value_run (Z.abs i) (Z.of_nat (length (sign i))) max_len (sign i)
              (drop (length (sign i)) buf))
    as [[Hfit ->]|(Hnot & p & buf' & -> & Hl & Hd)]; [lia|done|done|lia| |].
  2: { right. split; [lia|]. exists buf'. split_and!; [done|lia|]. rewrite Hd.
       unfold sign in *. case_match; [|done]. destruct buf; [done|].
       by destruct (Z.to_nat max_len) eqn:En; [lia|]. }
  left. split; [lia|]. set (ds := magnitude (Z.abs i)) in *. rewrite drop_drop.
  destruct (drop (length (sign i) + length ds) buf) as [|x rest] eqn:Erest.
  { apply (f_equal length) in Erest. rewrite length_drop in Erest. simpl in Erest. lia. }
  rewrite app_assoc, store_app by (rewrite length_app; lia). rewrite <- app_assoc.
  rewrite (itoa_reverse_run _ (sign i) ds (u8 0 :: rest)).
  - rewrite <- app_assoc. cbn [app]. do 4 f_equal.
    replace (S (length (sign i) + length ds)) with (length (sign i) + length ds + 1)%nat by lia.
    by rewrite <- drop_drop, Erest.
  - apply magnitude_bytes.
  - rewrite !length_app. cbn [length]. lia.
  - unfold sign. by case_match.
  - unfold sign. case_match; cbn [length]; lia.
Qed.

(** [ki64toa] never leaves the [max_len] bytes it is given; when the decimal
    notation and its NUL fit it writes exactly them and returns true, and when
    they do not it returns false. *)
Lemma ki64toa_spec i buf max_len :
  - 2 ^ 63 <= i < 2 ^ 63 -> 0 <= max_len <= Z.of_nat (length buf) ->
  (Z.of_nat (length (decimal i)) < max_len /\
     ki64toa i buf max_len
     = Some (true, decimal i ++ 0 :: drop (S (length (decimal i))) buf))
  \/ (max_len <= Z.of_nat (length (decimal i)) /\
     exists buf', ki64toa i buf max_len = Some (false, buf') /\ length buf' = length buf
       /\ drop (Z.to_nat max_len) buf' = drop (Z.to_nat max_len) buf).
Proof. apply ki64toa_cases. Qed.

Lemma ki64toa_spec_witness :
  - 2 ^ 63 <= - 2 ^ 63 < 2 ^ 63 /\
  ki64toa (- 2 ^ 63) (replicate 21 7) 21
  = Some (true, decimal (- 2 ^ 63) ++ 0 :: drop (S (length (decimal (- 2 ^ 63)))) (replicate 21 7)).
Proof.
  split; [lia|].
  destruct (ki64toa_spec (- 2 ^ 63) (replicate 21 7) 21) as [[_ H]|[H _]];
    [lia|rewrite length_replicate; lia|exact H|exfalso; vm_compute in H; congruence].
Defined.

(** the notation is read back as the number. *)
Lemma ki64toa_roundtrip i buf max_len buf' :
  - 2 ^ 63 <= i < 2 ^ 63 -> 0 <= max_len <= Z.of_nat (length buf) ->
  ki64toa i buf max_len = Some (true, buf') ->
  exists s rest, buf' = s ++ 0 :: rest /\ parse_decimal s = i.
Proof.
  intros Hi Hmax Hrun. exists (decimal i), (drop (S (length (decimal i))) buf).
  split; [|by apply decimal_parse].
  destruct (ki64toa_cases i buf max_len Hi Hmax) as [[_ H]|(_ & b & H & _)]; congruence.
Qed.

Lemma ki64toa_roundtrip_witness :
  exists s rest, decimal 42 ++ [0; 7] = s ++ 0 :: rest /\ parse_decimal s = 42.
Proof.
  apply (ki64toa_roundtrip 42 [7; 7; 7; 7] 4); [lia|simpl; lia|reflexivity].
Defined.

(** ** NUL-terminated strings *)

(** The array [a] holds the C string [s]. *)
Definition c_string (s a : list Z) : Prop :=
  Forall (fun c => 0 < c < 256) s /\ exists rest, a = s ++ 0 :: rest.

(** The reference order of strings. *)
Fixpoint lex_compare (s t : list Z) : comparison :=
  match s, t with
  | [], [] => Eq
  | [], _ :: _ => Lt
  | _ :: _, [] => Gt
  | c :: s, d :: t => match c ?= d with Eq => lex_compare s t | r => r end
  end.

Lemma lex_compare_eq s t : lex_compare s t = Eq <-> s = t.
Proof.
  revert t. induction s as [|c s IH]; intros [|d t]; cbn [lex_compare];
    [done|by split..|].
  destruct (Z.compare_spec c d) as [->|H|H].
  - rewrite IH. split; [by intros ->|by intros [= ->]].
  - split; [done|]. intros [= ??]; lia.
  - split; [done|]. intros [= ??]; lia.
Qed.

Lemma strlen_from_run s rest n :
  Forall (fun c => 0 < c < 256) s ->
  strlen_from (s ++ 0 :: rest) n = Some (n + Z.of_nat (length s)).
Proof.
  intros Hs. revert n. induction Hs as [|c s Hc _ IHs]; intros n; cbn [app strlen_from length].
  { simpl. by rewrite Z.add_0_r. }
  rewrite (proj2 (Z.eqb_neq c 0)) by lia. rewrite IHs. f_equal. lia.
Qed.

Lemma kstrlen_spec s a : c_string s a -> kstrlen (Some a) = Some (Z.of_nat (length s)).
Proof. intros [Hs [rest ->]]. by apply strlen_from_run. Qed.

Lemma kstrcmp_run s t a b :
  c_string s a -> c_string t b ->
  exists r, kstrcmp a b = Some r /\ (r ?= 0) = lex_compare s t.
Proof.
  intros [Hs [ra ->]] [Ht [rb ->]]. revert t Ht. induction Hs as [|c s Hc _ IH];
    intros t Ht; destruct Ht as [|d t Hd Ht]; cbn [app kstrcmp lex_compare].
  - by exists 0.
  - exists (0 - d). split; [done|]. apply Z.compare_lt_iff. lia.
  - rewrite andb_false_r. exists (c - 0). split; [done|]. apply Z.compare_gt_iff. lia.
  - rewrite !(proj2 (Z.eqb_neq _ 0)) by lia. cbn [negb andb].
    destruct (Z.eqb_spec c d) as [->|Hne].
    + destruct (IH t Ht) as (r & Hrun & Hr). exists r. split; [exact Hrun|].
      by rewrite Z.compare_refl.
    + exists (c - d). split; [done|]. rewrite <- Z.compare_sub.
      by destruct (Z.compare_spec c d).
Qed.

Lemma kstrcmp_zero s t a b :
  c_string s a -> c_string t b ->
  exists r, kstrcmp a b = Some r /\ (r = 0 <-> s = t).
Proof.
  intros Hs Ht. destruct (kstrcmp_run s t a b Hs Ht) as (r & Hrun & Hr).
  exists r. split; [done|]. rewrite <- Z.compare_eq_iff, Hr. apply lex_compare_eq.
Qed.

(** [kstrcmp] on two C strings stays inside both and returns the sign of
    their lexicographic comparison; it returns 0 on equal strings only. *)
Lemma kstrcmp_lexicographic s t a b :
  c_string s a -> c_string t b ->
  exists r, kstrcmp a b = Some r /\ (r ?= 0) = lex_compare s t /\ (r = 0 <-> s = t).
Proof.
  intros Hs Ht. destruct (kstrcmp_run s t a b Hs Ht) as (r & Hrun & Hr).
  exists r. split_and!; [done..|]. rewrite <- Z.compare_eq_iff, Hr. apply lex_compare_eq.
Qed.

Lemma kstrcmp_lexicographic_witness :
  exists r, kstrcmp [98; 105; 0; 9] [98; 111; 0] = Some r /\ (r ?= 0) = Lt.
Proof.
  destruct (kstrcmp_lexicographic [98; 105] [98; 111] [98; 105; 0; 9] [98; 111; 0])
    as (r & H & Hc & _).
  - split; [repeat constructor; lia|]. by exists [9].
  - split; [repeat constructor; lia|]. by exists [].
  - by exists r.
Defined.

Lemma strncpy_pad_run out rest n :
  (n <= length rest)%nat ->
  strncpy_pad (out ++ rest) (Z.of_nat (length out)) n
  = Some (out ++ replicate n 0 ++ drop n rest).
Proof.
  revert out rest. induction n as [|n IH]; intros out rest Hn; cbn [strncpy_pad]; [done|].
  destruct rest as [|x rest]; [simpl in Hn; lia|]. simpl in Hn.
  rewrite (store_app out x) by done. change (u8 0) with 0.
  replace (out ++ 0 :: rest) with ((out ++ [0]) ++ rest) by (rewrite <- app_assoc; done).
  replace (Z.of_nat (length out) + 1) with (Z.of_nat (length (out ++ [0])))
    by (rewrite length_app; simpl; lia).
  rewrite IH by lia. rewrite <- app_assoc. done.
Qed.

Lemma strncpy_from_run out rest s a n :
  c_string s a -> (n <= length rest)%nat ->
  strncpy_from (out ++ rest) (Z.of_nat (length out)) a n
  = Some (out ++ take n (s ++ replicate n 0) ++ drop n rest).
Proof.
  intros [Hs [ra ->]]. revert out rest n. induction Hs as [|c s Hc _ IH];
    intros out rest n Hn; destruct n as [|n]; cbn [app strncpy_from]; try done.
  - cbn [Z.eqb]. rewrite strncpy_pad_run by lia. by rewrite take_ge by (rewrite length_replicate; lia).
  - rewrite (proj2 (Z.eqb_neq c 0)) by lia.
    destruct rest as [|x rest]; [simpl in Hn; lia|]. simpl in Hn.
    rewrite (store_app out x) by done. rewrite u8_small by lia.
    replace (out ++ c :: rest) with ((out ++ [c]) ++ rest) by (rewrite <- app_assoc; done).
    replace (Z.of_nat (length out) + 1) with (Z.of_nat (length (out ++ [c])))
      by (rewrite length_app; simpl; lia).
    rewrite IH by lia. rewrite <- app_assoc. cbn [app take drop]. do 4 f_equal.
    replace (S n) with (n + 1)%nat by lia.
    rewrite replicate_add, app_assoc. by rewrite (take_app_le (s ++ replicate n 0)) by (rewrite length_app, length_replicate; lia).
Qed.

Lemma kstrncpy_run dst s a n :
  c_string s a -> (n <= length dst)%nat ->
  kstrncpy dst a n = Some (take n (s ++ replicate n 0) ++ drop n dst).
Proof. intros Hs Hn. by apply (strncpy_from_run [] dst). Qed.

(** [kstrncpy] writes exactly [n] bytes: the string cut to [n] characters
    and padded with NULs; a string of [n] or more characters is not terminated. *)
Lemma kstrncpy_spec dst s a n :
  c_string s a -> (n <= length dst)%nat ->
  kstrncpy dst a n = Some (take n (s ++ replicate n 0) ++ drop n dst)
  /\ ((n <= length s)%nat -> Forall (fun c => c <> 0) (take n (s ++ replicate n 0))).
Proof.
  intros Hs Hn. split; [by apply kstrncpy_run|]. intros Hlen.
  rewrite take_app_le by lia. apply Forall_take.
  destruct Hs as [Hs _]. revert Hs. apply Forall_impl. intros c Hc. lia.
Qed.

Lemma kstrncpy_spec_witness :
  kstrncpy [7; 7; 7; 7; 7] [98; 105; 0; 9] 4 = Some [98; 105; 0; 0; 7].
Proof.
  destruct (kstrncpy_spec [7; 7; 7; 7; 7] [98; 105] [98; 105; 0; 9] 4) as [H _].
  - split; [repeat constructor; lia|]. by exists [9].
  - simpl. lia.
  - exact H.
Defined.
