(* ===== verification/Mem.v ===== *)
(** * Physical memory as bytes

    [k_mem] maps an address to its byte; an address never written reads 0.
    [write_bytes] is the effect of the copy loops, [mem_bytes] what a copy
    reads; the 64-bit accesses of the page tables are eight bytes, lowest
    first. *)

From S2P Require Import Prelude State Utils.

(** The bytes of memory at [a .. a + n - 1]. *)
Definition mem_bytes (m : gmap Z Z) (a n : Z) : list Z :=
  List.map (fun i => rd8 m (a + Z.of_nat i)) (seq 0 (Z.to_nat n)).

Fixpoint write_bytes (m : gmap Z Z) (a : Z) (bs : list Z) : gmap Z Z :=
  match bs with
  | [] => m
  | b :: bs => write_bytes (wr8 m a b) (a + 1) bs
  end.

Lemma rd8_wr8 m a b v : rd8 (wr8 m a v) b = if decide (a = b) then u8 v else rd8 m b.
Proof. unfold rd8, wr8. rewrite lookup_insert. by destruct (decide (a = b)). Qed.

Lemma rd8_write_bytes m a bs b :
  rd8 (write_bytes m a bs) b
  = if decide (a <= b < a + Z.of_nat (length bs)) then u8 (default 0 (bs !! Z.to_nat (b - a)))
    else rd8 m b.
Proof.
  revert m a. induction bs as [|v bs IH]; intros m a; cbn [write_bytes length].
  { by rewrite decide_False by lia. }
  rewrite IH, rd8_wr8. destruct (decide (a = b)) as [->|Hne].
  - rewrite decide_False, decide_True by lia. by rewrite Z.sub_diag.
  - destruct (decide (a + 1 <= b < a + 1 + Z.of_nat (length bs))) as [Hin|Hout].
    + rewrite decide_True by lia. replace (Z.to_nat (b - a)) with (S (Z.to_nat (b - (a + 1)))) by lia. done.
    + by rewrite decide_False by lia.
Qed.

Lemma write_bytes_app m a bs cs :
  write_bytes m a (bs ++ cs) = write_bytes (write_bytes m a bs) (a + Z.of_nat (length bs)) cs.
Proof.
  revert m a. induction bs as [|b bs IH]; intros m a; cbn [app write_bytes length]; [by rewrite Z.add_0_r|].
  rewrite IH. f_equal. lia.
Qed.

(** A loop that stores [f i] at [dest + i] for each [i]. *)
Lemma store_loop_run (body : Z -> kernel unit) bs dest i k :
  (forall j b k', bs !! j = Some b ->
     body (i + Z.of_nat j) k' = Ret tt (with_mem (wr8 (k_mem k') (dest + (i + Z.of_nat j)) b) k')) ->
  for_range (length bs) i body k = Ret tt (with_mem (write_bytes (k_mem k) (dest + i) bs) k).
Proof.
  revert i k. induction bs as [|b bs IH]; intros i k Hb; cbn [length write_bytes].
  { rewrite for_range_0. by destruct k. }
  rewrite for_range_S. pose proof (Hb 0%nat b k eq_refl) as H0. rewrite Z.add_0_r in H0.
  rewrite (bind_run _ _ _ _ _ H0), IH.
  - by rewrite Z.add_assoc.
  - intros j c k' Hj. pose proof (Hb (S j) c k' Hj) as H. 
    replace (i + 1 + Z.of_nat j) with (i + Z.of_nat (S j)) by lia. exact H.
Qed.

Lemma memset_run dest v n k :
  memset dest v n k = Ret tt (with_mem (write_bytes (k_mem k) dest (replicate (Z.to_nat n) v)) k).
Proof.
  unfold memset. pose proof (store_loop_run
    (fun i => modify (fun k => with_mem (wr8 (k_mem k) (dest + i) v) k)) (replicate (Z.to_nat n) v) dest 0 k) as H.
  rewrite length_replicate in H. rewrite Z.add_0_r in H.
  replace (trips 0 n) with (Z.to_nat n); [apply H|].
  - intros j b k' [-> _]%lookup_replicate. done.
  - apply Nat2Z.inj. rewrite trips_max. lia.
Qed.

Lemma length_mem_bytes m a n : length (mem_bytes m a n) = Z.to_nat n.
Proof. unfold mem_bytes. by rewrite List.length_map, length_seq. Qed.

Lemma lookup_mem_bytes m a n i :
  (i < Z.to_nat n)%nat -> mem_bytes m a n !! i = Some (rd8 m (a + Z.of_nat i)).
Proof.
  intros Hi. unfold mem_bytes. change (List.map ?f ?l) with (f <$> l).
  rewrite list_lookup_fmap, lookup_seq_lt by lia. done.
Qed.

(** ** 64-bit words *)

Definition word_bytes (v : Z) : list Z := (fun i => u8 (Z.shiftr v (8 * Z.of_nat i))) <$> seq 0 8.

Definition ld64 (m : gmap Z Z) (a : Z) : Z :=
  foldr (fun b acc => b + 256 * acc) 0 (mem_bytes m a 8).

Definition st64 (m : gmap Z Z) (a v : Z) : gmap Z Z := write_bytes m a (word_bytes v).

Definition load64 (a : Z) : kernel Z := gets (fun k => ld64 (k_mem k) a).
Definition store64 (a v : Z) : kernel unit := modify (fun k => with_mem (st64 (k_mem k) a v) k).

Lemma ld64_ext m m' a :
  (forall b, a <= b < a + 8 -> rd8 m' b = rd8 m b) -> ld64 m' a = ld64 m a.
Proof.
  intros H. unfold ld64, mem_bytes. f_equal. apply map_ext_in. intros i Hi%in_seq. apply H. lia.
Qed.

Lemma rd8_st64 m a v b : ~ (a <= b < a + 8) -> rd8 (st64 m a v) b = rd8 m b.
Proof. intros H. unfold st64. rewrite rd8_write_bytes. by rewrite decide_False. Qed.

Lemma ld64_st64_ne m a v b : a + 8 <= b \/ b + 8 <= a -> ld64 (st64 m a v) b = ld64 m b.
Proof. intros H. apply ld64_ext. intros c Hc. apply rd8_st64. lia. Qed.

Lemma ld64_st64 m a v : 0 <= v < 2 ^ 64 -> ld64 (st64 m a v) a = v.
Proof.
  intros Hv. unfold ld64.
  assert (E : mem_bytes (st64 m a v) a 8 = word_bytes v).
  { apply list_eq_same_length with (n := 8%nat); [done|apply length_mem_bytes|].
    intros i x y Hi. rewrite lookup_mem_bytes by (cbn; lia). intros [= <-] Hy. unfold st64.
    rewrite rd8_write_bytes, decide_True by (change (length (word_bytes v)) with 8%nat; lia).
    replace (Z.to_nat (a + Z.of_nat i - a)) with i by lia. rewrite Hy. cbn.
    apply list_lookup_fmap_Some in Hy as (j & -> & _). apply u8_small, u8_range. }
  rewrite E. unfold word_bytes. cbn [seq fmap list_fmap foldr].
  unfold u8. rewrite !Z.shiftr_div_pow2 by lia. cbn. div_lia.
Qed.

(** Memory holds bytes. *)
Definition bytes_ok (m : gmap Z Z) : Prop := forall a, byte (rd8 m a).

Lemma bytes_ok_write m a bs : bytes_ok m -> bytes_ok (write_bytes m a bs).
Proof.
  intros H b. rewrite rd8_write_bytes. destruct (decide _); [apply u8_range|apply H].
Qed.
Lemma bytes_ok_st64 m a v : bytes_ok m -> bytes_ok (st64 m a v).
Proof. apply bytes_ok_write. Qed.

Lemma le_range (l : list Z) :
  Forall byte l -> 0 <= foldr (fun b acc => b + 256 * acc) 0 l < 256 ^ Z.of_nat (length l).
Proof.
  induction 1 as [|b l Hb _ IH]; cbn [foldr length]; [done|].
  rewrite Nat2Z.inj_succ, Z.pow_succ_r by lia. unfold byte in Hb. nia.
Qed.

Lemma ld64_range m a : bytes_ok m -> 0 <= ld64 m a < 2 ^ 64.
Proof.
  intros H. pose proof (le_range (mem_bytes m a 8)) as Hl. rewrite length_mem_bytes in Hl.
  apply Hl. apply Forall_forall. intros x (i & Hi)%list_elem_of_In%list_elem_of_lookup_1.
  pose proof (lookup_lt_Some _ _ _ Hi) as Hlt. rewrite length_mem_bytes in Hlt.
  rewrite lookup_mem_bytes in Hi by done. injection Hi as <-. apply H.
Qed.
