(* ===== verification/Pmm.v ===== *)
(** * mm/pmm.c: the physical page allocator

    One bit per 4 KiB frame in [BITMAP]: 1 is free, 0 is reserved.  The section
    between [irq_save] and [write_flags] of each routine is modelled as it is
    written, so the theorems also say that the interrupt flag comes back. *)

From S2P Require Import Prelude State Console Utils.
From stdpp Require Import strings.
#[local] Open Scope Z_scope.

(** ** Accesses to the bitmap *)

Definition bitmap_get (p : pmm_t) (i : Z) : Z := default 0 (BITMAP p !! i).

Definition pmm_store (i v : Z) (p : pmm_t) : pmm_t :=
  {| MMAP_COUNT := MMAP_COUNT p; MMAP_ENTRIES := MMAP_ENTRIES p;
     BITMAP := <[i := u8 v]> (BITMAP p); BITMAP_SIZE := BITMAP_SIZE p;
     FRAME_COUNT := FRAME_COUNT p |}.

(** [BITMAP[page / 8] & (BITMAP_FREE << (page % 8))] *)
Definition frame_bit (page : Z) (p : pmm_t) : bool :=
  negb (Z.land (bitmap_get p (page / 8)) (Z.shiftl BITMAP_FREE (page mod 8)) =? 0).

(** [BITMAP[page / 8] &= ~(BITMAP_FREE << (page % 8))] *)
Definition pmm_clear (page : Z) (p : pmm_t) : pmm_t :=
  pmm_store (page / 8)
    (Z.land (bitmap_get p (page / 8)) (Z.lnot (Z.shiftl BITMAP_FREE (page mod 8)))) p.

(** [BITMAP[page / 8] |= BITMAP_FREE << (page % 8)] *)
Definition pmm_set (page : Z) (p : pmm_t) : pmm_t :=
  pmm_store (page / 8)
    (Z.lor (bitmap_get p (page / 8)) (Z.shiftl BITMAP_FREE (page mod 8))) p.

Definition upd_pmm (f : pmm_t -> pmm_t) : kernel unit :=
  modify (fun k => with_pmm (f (k_pmm k)) k).

(** [((uint64_t)&kernel_end + 4095) / 4096] *)
Definition kernel_pages (k : kstate) : Z := u64 (kernel_end k + 4095) / 4096.

(** The frames the allocators never hand out: 0x400000 .. 0x5FFFFF. *)
Definition in_user_hole (phys : Z) : bool := (0x400000 <=? phys) && (phys <? 0x600000).

(** ** kpmm_init *)

Definition mmap_entry (i : Z) : kernel e820_entry_t :=
  k <- gets id ;; deref (MMAP_ENTRIES (k_pmm k) !! Z.to_nat i).

Definition mmap_entry_count (p : pmm_t) : Z :=
  if MMAP_ENTRIES_MAX <? MMAP_COUNT p then MMAP_ENTRIES_MAX else MMAP_COUNT p.

Definition set_geometry (end_addr : Z) (p : pmm_t) : pmm_t :=
  let fc := u64 (end_addr + 0xFFF) / 0x1000 in
  {| MMAP_COUNT := MMAP_COUNT p; MMAP_ENTRIES := MMAP_ENTRIES p; BITMAP := BITMAP p;
     BITMAP_SIZE := u64 (fc + 7) / 8; FRAME_COUNT := fc |}.

Definition kpmm_init : kernel bool :=
  p <- gets k_pmm ;;
  let count := mmap_entry_count p in
  end_addr <- for_fold (trips 0 count) 0 0 (fun i end_addr =>
      e <- mmap_entry i ;;
      if negb (e820_type e =? E820_USABLE) then ret end_addr else
      let addr := u64 (base_addr e + length_in_bytes e) in
      ret (if end_addr <? addr then addr else end_addr)) ;;
  _ <- upd_pmm (set_geometry end_addr) ;;
  size <- gets (fun k => BITMAP_SIZE (k_pmm k)) ;;
  _ <- for_range (trips 0 size) 0 (fun i => upd_pmm (pmm_store i BITMAP_RESERVED)) ;;
  _ <- for_range (trips 0 count) 0 (fun i =>
      e <- mmap_entry i ;;
      if e820_type e =? E820_USABLE then
        let base := base_addr e in
        let end_ := u64 (base + length_in_bytes e) in
        let first_page := u64 (base + 4095) / 4096 in
        let last_page := end_ / 4096 in
        for_range (trips first_page last_page) first_page (fun page => upd_pmm (pmm_set page))
      else ret tt) ;;
  last_page <- gets kernel_pages ;;
  _ <- for_range (trips 0 last_page) 0 (fun page => upd_pmm (pmm_clear page)) ;;
  ret true.

(** ** Allocation *)

(** The body of the scan of [kpalloc] and [kpalloc_top]. *)
Definition try_page (flags page : Z) : kernel (option Z) :=
  p <- gets k_pmm ;;
  if frame_bit page p then
    let phys := u64 (page * 0x1000) in
    if in_user_hole phys then ret None else
    _ <- upd_pmm (pmm_clear page) ;;
    _ <- write_flags flags ;;
    ret (Some phys)
  else ret None.

Definition kpalloc : kernel Z :=
  flags <- irq_save ;;
  first_page <- gets kernel_pages ;;
  last_page <- gets (fun k => FRAME_COUNT (k_pmm k)) ;;
  r <- for_until (trips first_page last_page) first_page (try_page flags) ;;
  match r with
  | Some phys => ret phys
  | None => _ <- write_flags flags ;; ret NULL
  end.

(** [for (page = FRAME_COUNT; page-- > first_page;)]: round [j] runs the body at
    [FRAME_COUNT - 1 - j]. *)
Definition kpalloc_top : kernel Z :=
  flags <- irq_save ;;
  first_page <- gets kernel_pages ;;
  fc <- gets (fun k => FRAME_COUNT (k_pmm k)) ;;
  r <- for_until (trips first_page fc) 0 (fun j => try_page flags (fc - 1 - j)) ;;
  match r with
  | Some phys => ret phys
  | None => _ <- write_flags flags ;; ret NULL
  end.

(** The inner test loop of [kpalloc_contiguous]. *)
Definition run_ok (page pages : Z) : kernel bool :=
  r <- for_until (trips 0 pages) 0 (fun i =>
      let phys := u64 (u64 (page + i) * 0x1000) in
      if in_user_hole phys then ret (Some false) else
      p <- gets k_pmm ;;
      if negb (frame_bit (u64 (page + i)) p) then ret (Some false) else ret None) ;;
  ret (match r with Some ok => ok | None => true end).

Fixpoint contiguous_scan (fuel : nat) (page pages last_page : Z) : kernel (option Z) :=
  match fuel with
  | O => stuck
  | S fuel =>
      if u64 (page + pages) <=? last_page then
        ok <- run_ok page pages ;;
        if negb ok then contiguous_scan fuel (page + 1) pages last_page else
        _ <- for_range (trips 0 pages) 0 (fun i => upd_pmm (pmm_clear (u64 (page + i)))) ;;
        ret (Some page)
      else ret None
  end.

Definition kpalloc_contiguous (pages : Z) : kernel Z :=
  flags <- irq_save ;;
  if pages =? 0 then _ <- write_flags flags ;; ret NULL else
  if pages =? 1 then _ <- write_flags flags ;; kpalloc else
  first_page <- gets kernel_pages ;;
  last_page <- gets (fun k => FRAME_COUNT (k_pmm k)) ;;
  r <- contiguous_scan (S (trips first_page last_page)) first_page pages last_page ;;
  _ <- write_flags flags ;;
  match r with
  | Some page => ret (u64 (page * 0x1000))
  | None => ret NULL
  end.

(** ** Release *)

Definition invalid_kpfree {A} : kernel A :=
  _ <- on_con (kprintferr (cstr "Invalid kpfree.") 0x0F) ;; hang.

Definition kpfree (page : Z) : kernel unit :=
  flags <- irq_save ;;
  if page =? NULL then write_flags flags else
  if negb (page mod 0x1000 =? 0) then invalid_kpfree else
  let frame := page / 0x1000 in
  p <- gets k_pmm ;;
  if FRAME_COUNT p <=? frame then invalid_kpfree else
  let is_used := negb (frame_bit frame p) in
  if negb is_used then invalid_kpfree else
  _ <- upd_pmm (pmm_set frame) ;;
  write_flags flags.

Definition kpfree_contiguous (page pages : Z) : kernel unit :=
  flags <- irq_save ;;
  if (page =? NULL) || (pages =? 0) then write_flags flags else
  _ <- for_range (trips 0 pages) 0 (fun i => kpfree (u64 (page + i * 0x1000))) ;;
  write_flags flags.

(** ** kis_normal_ram *)

Definition kis_normal_ram (phys : Z) : kernel bool :=
  if negb (Z.land phys 0xFFF =? 0) then ret false else
  k <- gets id ;;
  if phys <? kernel_end k then ret false else
  if (BITMAP_ADDR <=? phys) && (phys <? u64 (BITMAP_ADDR + BITMAP_SIZE (k_pmm k)))
  then ret false else
  r <- for_until (trips 0 (mmap_entry_count (k_pmm k))) 0 (fun i =>
      e <- mmap_entry i ;;
      if negb (e820_type e =? E820_USABLE) then ret None else
      let base := base_addr e in
      let end_ := u64 (base + length_in_bytes e) in
      if (base <=? phys) && (phys <? end_) then ret (Some true) else ret None) ;;
  ret (match r with Some b => b | None => false end).

(** ** The abstract state: the set of free frames *)

Definition frame_free (p : pmm_t) (f : Z) : bool :=
  Z.testbit (bitmap_get p (f / 8)) (f mod 8).

Lemma frame_bit_free f p : frame_bit f p = frame_free p f.
Proof.
  unfold frame_bit, frame_free. apply land_shiftl_1_testbit.
  pose proof (Z.mod_pos_bound f 8). lia.
Qed.

Lemma bitmap_get_store i v j p :
  bitmap_get (pmm_store i v p) j = if decide (i = j) then u8 v else bitmap_get p j.
Proof.
  unfold bitmap_get, pmm_store. simpl. rewrite lookup_insert. by case_decide.
Qed.

Lemma frame_split f g : f / 8 = g / 8 -> f mod 8 = g mod 8 -> f = g.
Proof. intros. rewrite (Z.div_mod f 8), (Z.div_mod g 8) by lia. congruence. Qed.

Lemma frame_free_set f g p :
  frame_free (pmm_set f p) g = bool_decide (g = f) || frame_free p g.
Proof.
  unfold frame_free, pmm_set. rewrite bitmap_get_store.
  pose proof (Z.mod_pos_bound f 8). pose proof (Z.mod_pos_bound g 8).
  case_decide as E.
  - rewrite testbit_set_bit, E by lia. f_equal. apply bool_decide_ext.
    split; [intros; by apply frame_split|by intros ->].
  - rewrite bool_decide_eq_false_2; [done|]. by intros ->.
Qed.

Lemma frame_free_clear f g p :
  frame_free (pmm_clear f p) g = negb (bool_decide (g = f)) && frame_free p g.
Proof.
  unfold frame_free, pmm_clear. rewrite bitmap_get_store.
  pose proof (Z.mod_pos_bound f 8). pose proof (Z.mod_pos_bound g 8).
  case_decide as E.
  - rewrite testbit_clear_bit, E by lia. do 2 f_equal. apply bool_decide_ext.
    split; [intros; by apply frame_split|by intros ->].
  - rewrite bool_decide_eq_false_2; [done|]. by intros ->.
Qed.

(** What boot establishes: the kernel image ends above 1 MiB and the frame
    numbers fit a 64-bit address. *)
Definition pmm_ok (k : kstate) : Prop :=
  0x100000 <= kernel_end k < 2 ^ 52 /\ 0 <= FRAME_COUNT (k_pmm k) <= 2 ^ 52.

(** A frame that [kpalloc] may hand out. *)
Definition eligible (k : kstate) (f : Z) : bool :=
  frame_free (k_pmm k) f && negb (in_user_hole (f * 4096)).

Lemma kernel_pages_eq k :
  pmm_ok k -> kernel_pages k = (kernel_end k + 4095) / 4096 /\ 256 <= kernel_pages k < 2 ^ 52.
Proof.
  intros [[Hlo Hhi] _]. unfold kernel_pages. rewrite u64_small by lia. split; [done|].
  split; [apply Z.div_le_lower_bound; lia|apply Z.div_lt_upper_bound; lia].
Qed.

(** The state that a successful allocation of frame [f] leaves. *)
Definition take_frame (f : Z) (k : kstate) : kstate := with_pmm (pmm_clear f (k_pmm k)) k.

Lemma try_page_run k f :
  0 <= f < 2 ^ 52 ->
  try_page (rflags (k_cpu k)) f (masked k)
  = if eligible k f then Ret (Some (f * 4096)) (take_frame f k) else Ret None (masked k).
Proof.
  intros Hf. unfold try_page, eligible. cbn [bind gets]. rewrite masked_pmm, frame_bit_free.
  destruct (frame_free (k_pmm k) f); [|done]. rewrite u64_small by lia.
  change (f * 0x1000) with (f * 4096). destruct (in_user_hole (f * 4096)); [done|].
  cbn [negb andb]. unfold bind, upd_pmm, modify. rewrite masked_pmm.
  by rewrite write_flags_masked_pmm.
Qed.

Lemma eligible_take f g k : eligible (take_frame f k) g = negb (bool_decide (g = f)) && eligible k g.
Proof. unfold eligible, take_frame. simpl. by rewrite frame_free_clear, andb_assoc. Qed.

(** [kpalloc] as a function of the abstract state. *)
Lemma kpalloc_run k :
  pmm_ok k ->
  kpalloc k = match find_up (eligible k)
                      (trips (kernel_pages k) (FRAME_COUNT (k_pmm k))) (kernel_pages k) with
              | Some f => Ret (f * 4096) (take_frame f k)
              | None => Ret NULL k
              end.
Proof.
  intros Hok. pose proof (kernel_pages_eq k Hok) as [_ Hkp]. destruct Hok as [_ HFC].
  unfold kpalloc. rewrite (bind_run _ _ _ _ _ (irq_save_run k)). cbn [bind gets].
  change (kernel_pages (masked k)) with (kernel_pages k). rewrite masked_pmm.
  assert (Hrange : forall f, kernel_pages k <= f <
      kernel_pages k + Z.of_nat (trips (kernel_pages k) (FRAME_COUNT (k_pmm k))) ->
      0 <= f < 2 ^ 52).
  { intros f Hf. rewrite trips_max in Hf. lia. }
  erewrite bind_eq; [|apply (for_until_scan (eligible k)
    (fun f _ => Ret (Some (f * 4096)) (take_frame f k)))].
  - destruct (find_up _ _ _); [done|]. unfold bind. by rewrite write_flags_masked.
  - intros f Hf. apply try_page_run. by apply Hrange.
  - eauto.
Qed.

(** [kpalloc_top] as a function of the abstract state. *)
Lemma kpalloc_top_run k :
  pmm_ok k ->
  kpalloc_top k
  = match find_up (fun j => eligible k (FRAME_COUNT (k_pmm k) - 1 - j))
            (trips (kernel_pages k) (FRAME_COUNT (k_pmm k))) 0 with
    | Some j => let f := FRAME_COUNT (k_pmm k) - 1 - j in Ret (f * 4096) (take_frame f k)
    | None => Ret NULL k
    end.
Proof.
  intros Hok. pose proof (kernel_pages_eq k Hok) as [_ Hkp]. destruct Hok as [_ HFC].
  unfold kpalloc_top. rewrite (bind_run _ _ _ _ _ (irq_save_run k)). cbn [bind gets].
  change (kernel_pages (masked k)) with (kernel_pages k). rewrite masked_pmm.
  erewrite bind_eq; [|apply (for_until_scan
    (fun j => eligible k (FRAME_COUNT (k_pmm k) - 1 - j))
    (fun j _ => Ret (Some ((FRAME_COUNT (k_pmm k) - 1 - j) * 4096))
                  (take_frame (FRAME_COUNT (k_pmm k) - 1 - j) k)))].
  - destruct (find_up _ _ _); [done|]. unfold bind. by rewrite write_flags_masked.
  - intros j Hj. rewrite trips_max in Hj. apply try_page_run. lia.
  - eauto.
Qed.

(** ** Runs of frames *)

(** Frames [page .. page + pages - 1] are all eligible. *)
Definition run_free (k : kstate) (pages page : Z) : bool :=
  match find_up (fun i => negb (eligible k (page + i))) (trips 0 pages) 0 with
  | Some _ => false
  | None => true
  end.

Lemma run_free_spec k pages page :
  run_free k pages page = true
  <-> forall f, page <= f < page + pages -> eligible k f = true.
Proof.
  unfold run_free. destruct (find_up _ _ _) as [i|] eqn:E.
  - apply find_up_Some in E as (Hi & Hneg & _). rewrite trips_max in Hi.
    split; [done|]. intros H. rewrite H in Hneg by lia. done.
  - rewrite find_up_None in E. split; [|done]. intros _ f Hf.
    specialize (E (f - page)). rewrite trips_max in E.
    replace (page + (f - page)) with f in E by lia.
    apply negb_false_iff, E. lia.
Qed.

Lemma run_ok_run k page pages :
  0 <= page -> page + pages <= 2 ^ 52 ->
  run_ok page pages (masked k) = Ret (run_free k pages page) (masked k).
Proof.
  intros Hpage Hlast. unfold run_ok, run_free.
  erewrite bind_eq; [|apply (for_until_scan (fun i => negb (eligible k (page + i)))
    (fun _ s => Ret (Some false) s))]; [by destruct (find_up _ _ _)| |eauto].
  intros i Hi. rewrite trips_max in Hi. rewrite (u64_small (page + i)), u64_small by lia.
  unfold eligible. change ((page + i) * 0x1000) with ((page + i) * 4096).
  destruct (in_user_hole _); [by rewrite andb_false_r|]. cbn [bind gets].
  rewrite masked_pmm, frame_bit_free, andb_true_r. by destruct (frame_free _ _).
Qed.

Fixpoint clear_frames (n : nat) (page : Z) (p : pmm_t) : pmm_t :=
  match n with
  | O => p
  | S n => clear_frames n (page + 1) (pmm_clear page p)
  end.

Lemma frame_free_clear_frames n page p g :
  frame_free (clear_frames n page p) g
  = negb (bool_decide (page <= g < page + Z.of_nat n)) && frame_free p g.
Proof.
  revert page p. induction n as [|n IH]; intros page p; cbn [clear_frames].
  { by rewrite bool_decide_eq_false_2 by lia. }
  rewrite IH, frame_free_clear, andb_assoc. f_equal. rewrite <- negb_orb. f_equal.
  rewrite <- bool_decide_or. apply bool_decide_ext. lia.
Qed.

Definition take_run (page pages : Z) (k : kstate) : kstate :=
  with_pmm (clear_frames (trips 0 pages) page (k_pmm k)) k.

Lemma clear_loop_run n page i k :
  0 <= page + i -> page + i + Z.of_nat n <= 2 ^ 64 ->
  for_range n i (fun i => upd_pmm (pmm_clear (u64 (page + i)))) k
  = Ret tt (with_pmm (clear_frames n (page + i) (k_pmm k)) k).
Proof.
  revert i k. induction n as [|n IH]; intros i k Hlo Hhi.
  { cbn [clear_frames]. by rewrite with_pmm_id. }
  rewrite for_range_S. cbn [clear_frames bind upd_pmm modify]. rewrite u64_small by lia.
  rewrite IH by lia. by rewrite Z.add_assoc.
Qed.

Lemma contiguous_scan_run k fuel page pages last_page :
  0 <= page -> 0 < pages < 2 ^ 52 -> last_page <= 2 ^ 52 -> page <= 2 ^ 52 ->
  (trips page (last_page - pages + 1) < fuel)%nat ->
  contiguous_scan fuel page pages last_page (masked k)
  = match find_up (run_free k pages) (trips page (last_page - pages + 1)) page with
    | Some p => Ret (Some p) (masked (take_run p pages k))
    | None => Ret None (masked k)
    end.
Proof.
  revert page. induction fuel as [|fuel IH]; intros page Hpage Hpages Hlast Hle Hfuel; [lia|].
  cbn [contiguous_scan]. rewrite u64_small by lia.
  destruct (Z.leb_spec (page + pages) last_page) as [Hin|Hout].
  - rewrite (bind_run _ _ _ _ _ (run_ok_run k page pages Hpage ltac:(lia))).
    destruct (trips page (last_page - pages + 1)) as [|n] eqn:En;
      [apply (f_equal Z.of_nat) in En; rewrite trips_max in En; lia|].
    assert (n = trips (page + 1) (last_page - pages + 1)) as ->.
    { apply Nat2Z.inj. apply (f_equal Z.of_nat) in En. rewrite trips_max in *. lia. }
    cbn [find_up]. destruct (run_free k pages page); cbn [negb].
    + erewrite bind_run; [|apply clear_loop_run; rewrite ?trips_max; lia].
      rewrite Z.add_0_r. done.
    + apply IH; lia.
  - rewrite trips_none by lia. done.
Qed.

(** [kpalloc_contiguous] as a function of the abstract state. *)
Lemma kpalloc_contiguous_run k pages :
  pmm_ok k -> 2 <= pages < 2 ^ 52 ->
  kpalloc_contiguous pages k
  = match find_up (run_free k pages)
            (trips (kernel_pages k) (FRAME_COUNT (k_pmm k) - pages + 1)) (kernel_pages k) with
    | Some p => Ret (p * 4096) (take_run p pages k)
    | None => Ret NULL k
    end.
Proof.
  intros Hok Hpages. pose proof (kernel_pages_eq k Hok) as [_ Hkp]. destruct Hok as [_ HFC].
  unfold kpalloc_contiguous. rewrite (bind_run _ _ _ _ _ (irq_save_run k)).
  rewrite !(proj2 (Z.eqb_neq pages _)) by lia. cbn [bind gets].
  change (kernel_pages (masked k)) with (kernel_pages k). rewrite masked_pmm.
  erewrite bind_eq; [|apply contiguous_scan_run; try lia].
  2: { apply Nat2Z.inj_lt. rewrite Nat2Z.inj_succ, !trips_max. lia. }
  destruct (find_up _ _ _) as [p|] eqn:E.
  - apply find_up_Some in E as (Hp & _). rewrite trips_max in Hp.
    unfold bind. change (rflags (k_cpu k)) with (rflags (k_cpu (take_run p pages k))).
    rewrite write_flags_masked, u64_small by lia. done.
  - unfold bind. by rewrite write_flags_masked.
Qed.

(** ** Release *)

Definition give_frame (f : Z) (k : kstate) : kstate := with_pmm (pmm_set f (k_pmm k)) k.

(** The pages [kpfree] accepts. *)
Definition freeable (k : kstate) (page : Z) : Prop :=
  page mod 4096 = 0 /\ page / 4096 < FRAME_COUNT (k_pmm k)
  /\ frame_free (k_pmm k) (page / 4096) = false.

Lemma invalid_kpfree_hangs {A} k : exists c, @invalid_kpfree A k = Hang (masked (with_con c k)).
Proof.
  unfold invalid_kpfree.
  destruct (kprintferr_total (cstr "Invalid kpfree.") 0x0F k) as (c & Hc).
  exists c. by rewrite (bind_run _ _ _ _ _ Hc).
Qed.

Lemma kpfree_null k : kpfree NULL k = Ret tt k.
Proof.
  unfold kpfree. rewrite (bind_run _ _ _ _ _ (irq_save_run k)). apply write_flags_masked.
Qed.

Lemma kpfree_run k page :
  page <> NULL -> freeable k page -> kpfree page k = Ret tt (give_frame (page / 4096) k).
Proof.
  intros Hnull (Hal & Hin & Hused). unfold kpfree.
  rewrite (bind_run _ _ _ _ _ (irq_save_run k)), (proj2 (Z.eqb_neq page NULL)) by done.
  change (page mod 0x1000) with (page mod 4096). rewrite Hal. cbn [Z.eqb negb bind gets].
  rewrite masked_pmm. change (page / 0x1000) with (page / 4096).
  rewrite (proj2 (Z.leb_gt _ _)), frame_bit_free, Hused by done. cbn [negb].
  unfold bind, upd_pmm, modify. rewrite masked_pmm. by rewrite write_flags_masked_pmm.
Qed.

Lemma kpfree_invalid k page :
  page <> NULL -> ~ freeable k page -> exists k', kpfree page k = Hang k'.
Proof.
  intros Hnull Hbad. unfold kpfree.
  rewrite (bind_run _ _ _ _ _ (irq_save_run k)), (proj2 (Z.eqb_neq page NULL)) by done.
  change (page mod 0x1000) with (page mod 4096).
  destruct (invalid_kpfree_hangs (A := unit) (masked k)) as (c & Hh).
  destruct (Z.eqb_spec (page mod 4096) 0) as [Hal|]; [|by eexists].
  cbn [negb bind gets]. rewrite masked_pmm. change (page / 0x1000) with (page / 4096).
  destruct (Z.leb_spec (FRAME_COUNT (k_pmm k)) (page / 4096)) as [|Hin]; [by eexists|].
  rewrite frame_bit_free. destruct (frame_free _ _) eqn:E; [by eexists|].
  exfalso. by apply Hbad.
Qed.

(** ** Initialisation from the E820 map *)

(** The fields the bitmap updates leave alone. *)
Definition same_table (p q : pmm_t) : Prop :=
  MMAP_COUNT p = MMAP_COUNT q /\ MMAP_ENTRIES p = MMAP_ENTRIES q
  /\ BITMAP_SIZE p = BITMAP_SIZE q /\ FRAME_COUNT p = FRAME_COUNT q.

#[export] Instance same_table_equiv : Equivalence same_table.
Proof.
  split; unfold same_table; [done|by intros ?? (?&?&?&?)|].
  intros ??? (->&->&->&->) (->&->&->&->). done.
Qed.

(** A loop of bitmap updates leaves the rest of the kernel alone; [R j p] is
    what the first [j] updates did. *)
Lemma upd_loop_run (R : Z -> pmm_t -> Prop) (step : Z -> pmm_t -> pmm_t) n i k :
  R i (k_pmm k) ->
  (forall j p, same_table (step j p) p) ->
  (forall j p, i <= j < i + Z.of_nat n -> R j p -> R (j + 1) (step j p)) ->
  exists p, for_range n i (fun j => upd_pmm (step j)) k = Ret tt (with_pmm p k)
    /\ same_table p (k_pmm k) /\ R (i + Z.of_nat n) p.
Proof.
  intros HR Hsame Hstep.
  destruct (for_range_inv (fun j s => exists p, s = with_pmm p k /\ same_table p (k_pmm k) /\ R j p)
              (fun j => upd_pmm (step j)) n i k) as (s & Hrun & p & -> & Hst & HRp).
  - exists (k_pmm k). by rewrite with_pmm_id.
  - intros j s Hj (p & -> & Hst & HRp). eexists. split; [reflexivity|].
    exists (step j p). split_and!; [done| |by apply Hstep].
    by rewrite Hsame.
  - by exists p.
Qed.

Lemma zero_loop_run n k :
  exists p, for_range n 0 (fun i => upd_pmm (pmm_store i BITMAP_RESERVED)) k
            = Ret tt (with_pmm p k)
    /\ same_table p (k_pmm k)
    /\ forall f, 0 <= f < 8 * Z.of_nat n -> frame_free p f = false.
Proof.
  edestruct (upd_loop_run (fun j p => forall f, 0 <= f < 8 * j -> frame_free p f = false)
    (fun i => pmm_store i BITMAP_RESERVED) n 0 k) as (p & Hrun & Hst & HR).
  - lia.
  - by intros.
  - intros j p Hj HR f Hf. unfold frame_free. rewrite bitmap_get_store. case_decide as E.
    + change (u8 BITMAP_RESERVED) with 0. apply Z.testbit_0_l.
    + apply HR. pose proof (Z.div_mod f 8). pose proof (Z.mod_pos_bound f 8). lia.
  - exists p. split_and!; [done|done|]. intros f Hf. apply HR. lia.
Qed.

Lemma set_loop_run n i k :
  exists p, for_range n i (fun page => upd_pmm (pmm_set page)) k = Ret tt (with_pmm p k)
    /\ same_table p (k_pmm k)
    /\ forall f, frame_free p f
         = bool_decide (i <= f < i + Z.of_nat n) || frame_free (k_pmm k) f.
Proof.
  destruct (upd_loop_run (fun j p => forall f,
    frame_free p f = bool_decide (i <= f < j) || frame_free (k_pmm k) f) pmm_set n i k)
    as (p & Hrun & Hst & HR); [..|by exists p].
  - intros f. by rewrite bool_decide_eq_false_2 by lia.
  - by intros.
  - intros j p Hj HR f. rewrite frame_free_set, HR, orb_assoc. f_equal.
    rewrite <- bool_decide_or. apply bool_decide_ext. lia.
Qed.

Lemma clear_loop_free n i k :
  exists p, for_range n i (fun page => upd_pmm (pmm_clear page)) k = Ret tt (with_pmm p k)
    /\ same_table p (k_pmm k)
    /\ forall f, frame_free p f
         = negb (bool_decide (i <= f < i + Z.of_nat n)) && frame_free (k_pmm k) f.
Proof.
  destruct (upd_loop_run (fun j p => forall f,
    frame_free p f = negb (bool_decide (i <= f < j)) && frame_free (k_pmm k) f) pmm_clear n i k)
    as (p & Hrun & Hst & HR); [..|by exists p].
  - intros f. by rewrite bool_decide_eq_false_2 by lia.
  - by intros.
  - intros j p Hj HR f. rewrite frame_free_clear, HR, andb_assoc, <- negb_orb. do 2 f_equal.
    rewrite <- bool_decide_or. apply bool_decide_ext. lia.
Qed.

(** A memory map as the BIOS reports it: enough entries, no wrap-around. *)
Definition mmap_ok (p : pmm_t) : Prop :=
  0 <= MMAP_COUNT p /\ mmap_entry_count p <= Z.of_nat (length (MMAP_ENTRIES p))
  /\ forall i e, MMAP_ENTRIES p !! i = Some e ->
       0 <= base_addr e /\ 0 <= length_in_bytes e /\ base_addr e + length_in_bytes e < 2 ^ 64 - 4096.

(** Frame [f] lies wholly inside one of the first [n] usable regions. *)
Definition usable_frame (p : pmm_t) (n f : Z) : Prop :=
  exists i e, 0 <= i < n /\ MMAP_ENTRIES p !! Z.to_nat i = Some e /\ e820_type e = E820_USABLE
    /\ base_addr e <= f * 4096 /\ (f + 1) * 4096 <= base_addr e + length_in_bytes e.

Lemma mmap_entry_run k i :
  mmap_ok (k_pmm k) -> 0 <= i < mmap_entry_count (k_pmm k) ->
  exists e, MMAP_ENTRIES (k_pmm k) !! Z.to_nat i = Some e /\ mmap_entry i k = Ret e k
    /\ 0 <= base_addr e /\ 0 <= length_in_bytes e
    /\ base_addr e + length_in_bytes e < 2 ^ 64 - 4096.
Proof.
  intros (Hc & Hlen & Hall) Hi.
  destruct (MMAP_ENTRIES (k_pmm k) !! Z.to_nat i) as [e|] eqn:E.
  - exists e. split; [done|]. split; [|by eapply Hall].
    unfold mmap_entry. cbn [bind gets id]. by rewrite E.
  - apply lookup_ge_None in E. lia.
Qed.

Lemma mmap_entry_count_nonneg p : 0 <= MMAP_COUNT p -> 0 <= mmap_entry_count p.
Proof. intros. unfold mmap_entry_count, MMAP_ENTRIES_MAX. case_match; lia. Qed.

(** The first loop: the end of the highest usable region. *)
Lemma end_addr_run k :
  mmap_ok (k_pmm k) ->
  exists end_addr,
    for_fold (trips 0 (mmap_entry_count (k_pmm k))) 0 0 (fun i end_addr =>
      e <- mmap_entry i ;;
      if negb (e820_type e =? E820_USABLE) then ret end_addr else
      let addr := u64 (base_addr e + length_in_bytes e) in
      ret (if end_addr <? addr then addr else end_addr)) k = Ret end_addr k
    /\ 0 <= end_addr < 2 ^ 64 - 4096
    /\ forall f, usable_frame (k_pmm k) (mmap_entry_count (k_pmm k)) f -> (f + 1) * 4096 <= end_addr.
Proof.
  intros Hok. pose proof (mmap_entry_count_nonneg _ (proj1 Hok)) as Hnn.
  edestruct (for_fold_inv (fun i end_addr s => s = k /\ 0 <= end_addr < 2 ^ 64 - 4096 /\
      forall f, usable_frame (k_pmm k) i f -> (f + 1) * 4096 <= end_addr)
    (fun i end_addr =>
      e <- mmap_entry i ;;
      if negb (e820_type e =? E820_USABLE) then ret end_addr else
      let addr := u64 (base_addr e + length_in_bytes e) in
      ret (if end_addr <? addr then addr else end_addr))
    (trips 0 (mmap_entry_count (k_pmm k))) 0 0 k) as (a & s & Hrun & -> & Ha & Hf).
  - split_and!; [done|lia|lia|]. intros f (i & e & Hi & _). lia.
  - intros j acc s Hj (-> & Hacc & Hmax). rewrite trips_max in Hj.
    destruct (mmap_entry_run k j Hok) as (e & Hl & Hrun & Hb & Hlen & Hend); [lia|].
    rewrite (bind_run _ _ _ _ _ Hrun). rewrite u64_small by lia.
    assert (Hsplit : forall f, usable_frame (k_pmm k) (j + 1) f ->
      usable_frame (k_pmm k) j f \/ (e820_type e = E820_USABLE
        /\ (f + 1) * 4096 <= base_addr e + length_in_bytes e)).
    { intros f (i & e' & Hi & Hl' & Ht & Hlo & Hhi). destruct (decide (i = j)) as [->|Hne].
      - right. rewrite Hl in Hl'. by injection Hl' as <-.
      - left. exists i, e'. split_and!; (done || lia). }
    destruct (Z.eqb_spec (e820_type e) E820_USABLE) as [Ht|Ht]; cbn [negb].
    + eexists _, k. split; [reflexivity|]. split; [done|].
      destruct (Z.ltb_spec acc (base_addr e + length_in_bytes e)).
      * split; [lia|]. intros f [Hu|[_ Hu]]%Hsplit; [apply Hmax in Hu|]; lia.
      * split; [lia|]. intros f [Hu|[_ Hu]]%Hsplit; [apply Hmax in Hu|]; lia.
    + exists acc, k. split_and!; [done|done|lia|lia|].
      intros f [Hu|[Hu _]]%Hsplit; [by apply Hmax|done].
  - exists a. split_and!; [done|lia|lia|]. intros f Hu. apply Hf. rewrite trips_max.
    by replace (0 + Z.max 0 (mmap_entry_count (k_pmm k) - 0))
      with (mmap_entry_count (k_pmm k)) by lia.
Qed.

(** The third loop of [kpmm_init]. *)
Definition mark_usable (count : Z) : kernel unit :=
  for_range (trips 0 count) 0 (fun i =>
      e <- mmap_entry i ;;
      if e820_type e =? E820_USABLE then
        let base := base_addr e in
        let end_ := u64 (base + length_in_bytes e) in
        let first_page := u64 (base + 4095) / 4096 in
        let last_page := end_ / 4096 in
        for_range (trips first_page last_page) first_page (fun page => upd_pmm (pmm_set page))
      else ret tt).

Lemma whole_frame base end_ f :
  (base + 4095) / 4096 <= f < end_ / 4096 <-> base <= f * 4096 /\ (f + 1) * 4096 <= end_.
Proof.
  pose proof (Z.div_mod (base + 4095) 4096). pose proof (Z.mod_pos_bound (base + 4095) 4096).
  pose proof (Z.div_mod end_ 4096). pose proof (Z.mod_pos_bound end_ 4096). lia.
Qed.

Lemma mark_usable_run k :
  mmap_ok (k_pmm k) ->
  exists p, mark_usable (mmap_entry_count (k_pmm k)) k = Ret tt (with_pmm p k)
    /\ same_table p (k_pmm k)
    /\ forall f, frame_free p f = true
         <-> usable_frame (k_pmm k) (mmap_entry_count (k_pmm k)) f \/ frame_free (k_pmm k) f = true.
Proof.
  intros Hok. pose proof (mmap_entry_count_nonneg _ (proj1 Hok)) as Hnn. unfold mark_usable.
  edestruct (for_range_inv (fun j s => exists p, s = with_pmm p k /\ same_table p (k_pmm k) /\
      forall f, frame_free p f = true <-> usable_frame (k_pmm k) j f \/ frame_free (k_pmm k) f = true))
    as (s & Hrun & p & -> & Hst & HR); [| |exists p; split; [exact Hrun|]; split; [done|]].
  - exists (k_pmm k). rewrite with_pmm_id. split_and!; [done..|]. intros f. split; [by right|].
    intros [(i & e & Hi & _)|]; [lia|done].
  - intros j s Hj (p & -> & Hst & HR). rewrite trips_max in Hj.
    destruct (mmap_entry_run k j Hok) as (e & Hl & _ & Hb & Hlen & Hend); [lia|].
    assert (Hrun : mmap_entry j (with_pmm p k) = Ret e (with_pmm p k)).
    { unfold mmap_entry. cbn [bind gets id]. simpl. destruct Hst as (_ & -> & _). by rewrite Hl. }
    rewrite (bind_run _ _ _ _ _ Hrun). rewrite !u64_small by lia.
    assert (Hsplit : forall f, usable_frame (k_pmm k) (j + 1) f <->
      usable_frame (k_pmm k) j f \/ (e820_type e = E820_USABLE
        /\ base_addr e <= f * 4096 /\ (f + 1) * 4096 <= base_addr e + length_in_bytes e)).
    { intros f. split.
      - intros (i & e' & Hi & Hl' & Ht & Hlo & Hhi). destruct (decide (i = j)) as [->|Hne].
        + right. rewrite Hl in Hl'. by injection Hl' as <-.
        + left. exists i, e'. split_and!; (done || lia).
      - intros [(i & e' & Hi & ?)|(?&?&?)]; [exists i, e'|exists j, e]; split_and!; (done || lia || naive_solver). }
    destruct (Z.eqb_spec (e820_type e) E820_USABLE) as [Ht|Ht].
    + destruct (set_loop_run (trips ((base_addr e + 4095) / 4096)
        ((base_addr e + length_in_bytes e) / 4096)) ((base_addr e + 4095) / 4096) (with_pmm p k))
        as (q & Hq & Hstq & HRq).
      eexists. split; [exact Hq|]. exists q. split_and!; [done|by rewrite Hstq|].
      intros f. rewrite HRq, orb_true_iff, bool_decide_eq_true, Hsplit. simpl. rewrite HR.
      rewrite trips_max.
      pose proof (whole_frame (base_addr e) (base_addr e + length_in_bytes e) f). split; [|naive_solver lia].
      intros [?|[?|?]]; [left; right; split; [done|]; lia|by left; left|by right].
    + eexists. split; [reflexivity|]. exists p. split_and!; [done..|].
      intros f. rewrite HR, Hsplit. naive_solver.
  - intros f. rewrite HR, trips_max.
    by replace (0 + Z.max 0 (mmap_entry_count (k_pmm k) - 0))
      with (mmap_entry_count (k_pmm k)) by lia.
Qed.

Lemma usable_frame_table p q n f :
  MMAP_ENTRIES p = MMAP_ENTRIES q -> usable_frame p n f <-> usable_frame q n f.
Proof. unfold usable_frame. by intros ->. Qed.

Lemma kpmm_init_run k :
  mmap_ok (k_pmm k) -> 0x100000 <= kernel_end k < 2 ^ 52 ->
  exists p, kpmm_init k = Ret true (with_pmm p k) /\ pmm_ok (with_pmm p k)
    /\ (forall f, 0 <= f < FRAME_COUNT p ->
          frame_free p f = true <->
          kernel_pages k <= f /\ usable_frame (k_pmm k) (mmap_entry_count (k_pmm k)) f)
    /\ (forall f, usable_frame (k_pmm k) (mmap_entry_count (k_pmm k)) f -> f < FRAME_COUNT p).
Proof.
  intros Hok Hend. unfold kpmm_init. cbn [bind gets].
  destruct (end_addr_run k Hok) as (a & Ha & Hrange & Hmax).
  rewrite (bind_run _ _ _ _ _ Ha). cbn [bind upd_pmm modify gets].
  set (k1 := with_pmm (set_geometry a (k_pmm k)) k).
  assert (Hfc : FRAME_COUNT (k_pmm k1) = (a + 4095) / 4096).
  { simpl. by rewrite u64_small by lia. }
  assert (Hfc52 : 0 <= (a + 4095) / 4096 <= 2 ^ 52).
  { split; [apply Z.div_pos; lia|apply Z.div_le_upper_bound; lia]. }
  assert (Hsz : FRAME_COUNT (k_pmm k1) <= 8 * BITMAP_SIZE (k_pmm k1)).
  { simpl. rewrite (u64_small (a + 4095)) by lia. rewrite u64_small by lia.
    pose proof (Z.div_mod ((a + 4095) / 4096 + 7) 8).
    pose proof (Z.mod_pos_bound ((a + 4095) / 4096 + 7) 8). lia. }
  destruct (zero_loop_run (trips 0 (BITMAP_SIZE (k_pmm k1))) k1) as (p2 & Hrun2 & Hst2 & HR2).
  rewrite (bind_run _ _ _ _ _ Hrun2). set (k2 := with_pmm p2 k1) in *.
  assert (Hc2 : mmap_entry_count (k_pmm k2) = mmap_entry_count (k_pmm k)).
  { unfold mmap_entry_count. simpl. by destruct Hst2 as (-> & _). }
  assert (He2 : MMAP_ENTRIES (k_pmm k2) = MMAP_ENTRIES (k_pmm k)).
  { simpl. by destruct Hst2 as (_ & -> & _). }
  assert (Hok2 : mmap_ok (k_pmm k2)).
  { destruct Hok as (H1 & H2 & H3). unfold mmap_ok. rewrite Hc2, He2. split_and!; [|done|done].
    simpl. by destruct Hst2 as (-> & _). }
  destruct (mark_usable_run k2 Hok2) as (p3 & Hrun3 & Hst3 & HR3). rewrite Hc2 in *.
  fold (mark_usable (mmap_entry_count (k_pmm k))). rewrite (bind_run _ _ _ _ _ Hrun3).
  set (k3 := with_pmm p3 k2) in *. cbn [bind gets].
  change (kernel_pages k3) with (kernel_pages k).
  destruct (clear_loop_free (trips 0 (kernel_pages k)) 0 k3) as (p4 & Hrun4 & Hst4 & HR4).
  rewrite (bind_run _ _ _ _ _ Hrun4). cbn [ret].
  assert (Hfc4 : FRAME_COUNT p4 = (a + 4095) / 4096).
  { destruct Hst4 as (_ & _ & _ & ->), Hst3 as (_ & _ & _ & H3), Hst2 as (_ & _ & _ & H2).
    simpl in *. congruence. }
  exists p4. split; [done|]. split; [split; [done|]; simpl; lia|]. split.
  - intros f Hf. rewrite HR4, andb_true_iff, negb_true_iff, bool_decide_eq_false. simpl.
    rewrite HR3, trips_max, (usable_frame_table _ (k_pmm k)) by done.
    change (frame_free (k_pmm k2) f) with (frame_free p2 f).
    rewrite HR2 by (rewrite trips_max; lia).
    assert (0 <= kernel_pages k) by (unfold kernel_pages; apply Z.div_pos; [apply u64_range|lia]).
    split; [intros [? [?|?]]; [split; [lia|done]|done]|intros [? ?]; split; [lia|by left]].
  - intros f Hf%Hmax. rewrite Hfc4.
    apply Z.lt_le_trans with (f + 1); [lia|]. apply Z.div_le_lower_bound; lia.
Qed.

(** ** What the allocators promise their clients

    [free k f] is the abstract state: frame [f] is free.  A successful
    allocation returns a non-null page-aligned address whose frame was free and
    is no longer; it changes nothing else in the kernel. *)
Class PageSource (alloc : kernel Z) (ok : kstate -> Prop) (free : kstate -> Z -> bool) := {
  ps_total k : ok k -> exists p k', alloc k = Ret p k';
  ps_ok k p k' : ok k -> alloc k = Ret p k' -> ok k';
  ps_frame k p k' : ok k -> alloc k = Ret p k' -> exists q, k' = with_pmm q k;
  ps_none k k' : ok k -> alloc k = Ret NULL k' -> k' = k;
  ps_fresh k p k' : ok k -> alloc k = Ret p k' -> p <> NULL ->
    p mod 4096 = 0 /\ 0 < p < 2 ^ 64 /\ free k (p / 4096) = true
    /\ FRAME_COUNT (k_pmm k') = FRAME_COUNT (k_pmm k)
    /\ forall g, free k' g = negb (bool_decide (g = p / 4096)) && free k g
}.

Definition k_free (k : kstate) (f : Z) : bool := frame_free (k_pmm k) f.

Lemma take_frame_ok f k : pmm_ok k -> pmm_ok (take_frame f k).
Proof. done. Qed.

Lemma taken_frame_facts k f :
  pmm_ok k -> kernel_pages k <= f < FRAME_COUNT (k_pmm k) -> eligible k f = true ->
  (f * 4096) mod 4096 = 0 /\ 0 < f * 4096 < 2 ^ 64 /\ k_free k (f * 4096 / 4096) = true
  /\ FRAME_COUNT (k_pmm (take_frame f k)) = FRAME_COUNT (k_pmm k)
  /\ forall g, k_free (take_frame f k) g
       = negb (bool_decide (g = f * 4096 / 4096)) && k_free k g.
Proof.
  intros Hok Hf Hel. pose proof (kernel_pages_eq k Hok) as [_ Hkp]. destruct Hok as [_ HFC].
  rewrite Z.div_mul, Z.mod_mul by lia. split_and!; [done|lia|lia| |done|].
  - unfold eligible in Hel. by apply andb_true_iff in Hel as [Hel _].
  - intros g. apply frame_free_clear.
Qed.

#[export] Instance kpalloc_source : PageSource kpalloc pmm_ok k_free.
Proof.
  split; intros k *; intros Hok; rewrite ?(kpalloc_run k Hok);
    destruct (find_up _ _ _) as [f|] eqn:E.
  1-2: by eexists _, _.
  1-2: by intros [= <- <-].
  - intros [= <- <-]. by eexists.
  - intros [= <- <-]. exists (k_pmm k). by rewrite with_pmm_id.
  - intros [= Hf <-]. apply find_up_Some in E as (Hr & _).
    pose proof (kernel_pages_eq k Hok) as [_ Hkp]. unfold NULL in *. lia.
  - by intros [= <-].
  - intros [= <- <-] _. apply find_up_Some in E as (Hr & Hel & _). rewrite trips_max in Hr.
    apply taken_frame_facts; [done|lia|done].
  - by intros [= <- <-].
Qed.

#[export] Instance kpalloc_top_source : PageSource kpalloc_top pmm_ok k_free.
Proof.
  split; intros k *; intros Hok; rewrite ?(kpalloc_top_run k Hok);
    destruct (find_up _ _ _) as [j|] eqn:E.
  1-2: by eexists _, _.
  1-2: by intros [= <- <-].
  - intros [= <- <-]. by eexists.
  - intros [= <- <-]. exists (k_pmm k). by rewrite with_pmm_id.
  - intros [= Hf <-]. apply find_up_Some in E as (Hr & _). rewrite trips_max in Hr.
    pose proof (kernel_pages_eq k Hok) as [_ Hkp]. unfold NULL in *. lia.
  - by intros [= <-].
  - intros [= <- <-] _. apply find_up_Some in E as (Hr & Hel & _). rewrite trips_max in Hr.
    apply taken_frame_facts; [done|lia|done].
  - by intros [= <- <-].
Qed.

(** ** Normal memory *)

(** A page that the kernel counts as RAM it does not use itself. *)
Definition in_usable (p : pmm_t) (phys : Z) : Prop :=
  exists i e, 0 <= i < mmap_entry_count p /\ MMAP_ENTRIES p !! Z.to_nat i = Some e /\ e820_type e = E820_USABLE
    /\ base_addr e <= phys < base_addr e + length_in_bytes e.

Definition normal_ram (k : kstate) (phys : Z) : Prop :=
  phys mod 4096 = 0 /\ kernel_end k <= phys
  /\ ~ (BITMAP_ADDR <= phys < u64 (BITMAP_ADDR + BITMAP_SIZE (k_pmm k)))
  /\ in_usable (k_pmm k) phys.

Lemma usable_scan_run k phys :
  mmap_ok (k_pmm k) ->
  exists r, for_until (trips 0 (mmap_entry_count (k_pmm k))) 0 (fun i =>
      e <- mmap_entry i ;;
      if negb (e820_type e =? E820_USABLE) then ret None else
      let base := base_addr e in
      let end_ := u64 (base + length_in_bytes e) in
      if (base <=? phys) && (phys <? end_) then ret (Some true) else ret None) k = Ret r k
  /\ (r = Some true /\ in_usable (k_pmm k) phys \/ r = None /\ ~ in_usable (k_pmm k) phys).
Proof.
  intros Hok. set (hit := fun i => match MMAP_ENTRIES (k_pmm k) !! Z.to_nat i with
    | Some e => (e820_type e =? E820_USABLE) && ((base_addr e <=? phys) && (phys <? base_addr e + length_in_bytes e))
    | None => false end).
  rewrite (for_until_scan hit (fun _ s => Ret (Some true) s)).
  - destruct (find_up hit _ _) as [i|] eqn:E.
    + eexists. split; [reflexivity|]. left. split; [done|]. apply find_up_Some in E as (Hi & Hh & _). rewrite trips_max in Hi.
      unfold hit in Hh. destruct (_ !! _) as [e|] eqn:Ee; [|done]. exists i, e.
      apply andb_true_iff in Hh as [?%Z.eqb_eq Hh]. split_and!; try done; bool_lia.
    + eexists. split; [reflexivity|]. right. split; [done|]. intros (i & e & Hi & He & Ht & Hr).
      pose proof (proj1 (find_up_None _ _ _) E i) as Hn. rewrite trips_max in Hn. specialize (Hn ltac:(lia)).
      unfold hit in Hn. rewrite He, Ht in Hn. cbn [andb] in Hn. change (E820_USABLE =? E820_USABLE) with true in Hn. bool_lia.
  - intros i Hi. rewrite trips_max in Hi.
    destruct (mmap_entry_run k i Hok ltac:(lia)) as (e & He & R & H1 & H2 & H3). rewrite (bind_run _ _ _ _ _ R).
    unfold hit. rewrite He. rewrite u64_small by lia. destruct (e820_type e =? E820_USABLE); cbn [negb andb]; [|done].
    by destruct (_ && _).
  - intros i _ _. by do 2 eexists.
Qed.

Lemma kis_normal_ram_run k phys :
  mmap_ok (k_pmm k) -> exists r, kis_normal_ram phys k = Ret r k /\ (r = true <-> normal_ram k phys).
Proof.
  intros Hok. unfold kis_normal_ram, normal_ram. change (Z.land phys 0xFFF) with (Z.land phys (Z.ones 12)). rewrite Z.land_ones by lia.
  change (2 ^ 12) with 4096. destruct (Z.eqb_spec (phys mod 4096) 0); cbn [negb]; [|exists false; split; [done|split; [done|tauto]]].
  cbn [bind gets id]. destruct (Z.ltb_spec phys (kernel_end k)); [exists false; split; [done|split; [done|lia]]|].
  destruct (Z.leb_spec BITMAP_ADDR phys), (Z.ltb_spec phys (u64 (BITMAP_ADDR + BITMAP_SIZE (k_pmm k)))); cbn [andb];
    try (exists false; split; [done|split; [done|lia]]).
  all: destruct (usable_scan_run k phys Hok) as (r & R & [[-> Hu]|[-> Hu]]); rewrite (bind_run _ _ _ _ _ R);
    eexists; (split; [reflexivity|]); split; intros; try done; try (split_and!; [done|lia|lia|done]); tauto.
Qed.

(** ** Properties *)

(** A small machine: 1 MiB of kernel, frames 256..263, of which 258 and 260..263
    are free. *)
Definition pmm0 : pmm_t :=
  {| MMAP_COUNT := 1;
     MMAP_ENTRIES := [{| base_addr := 0x100000; length_in_bytes := 0x8000;
                         e820_type := E820_USABLE; extended_attributes := 0 |}];
     BITMAP := {[32 := 0xF4]}; BITMAP_SIZE := 33; FRAME_COUNT := 264 |}.

Definition k0 : kstate :=
  {| k_cpu := {| rflags := 0x202; cr3 := 0x9000; tlb := [] |};
     k_con := {| ROW := 0; COLUMN := 0; VGA_MEM := ∅ |};
     kernel_end := 0x100000; init_blob_size := 4096; k_pmm := pmm0;
     k_heap := {| CURRENT_BLOCK := 0; blocks := ∅ |}; k_mem := ∅;
     k_obj := {| o_thread := ∅; o_context := ∅; o_queue := ∅; o_node := ∅; o_as := ∅;
                 o_bytes := ∅; arr_ptr := ∅; arr_msg := ∅ |};
     k_sched := {| threads := 0; current_thread := 0; threads_length := 0; threads_cap := 0;
                   next_thread_id := 1; tss_rsp0 := 0 |};
     ramfs_root := 0;
     k_as := {| addrspaces := 0; addrspaces_length := 0; addrspaces_cap := 16 |};
     k_dma := {| DMA_BITMAP := replicate 128 0; DMA_PAGES := 0 |}; kernel_cr3 := 0x9000 |}.

Lemma k0_ok : pmm_ok k0.
Proof. unfold pmm_ok. simpl. lia. Defined.

(** C10: [kpalloc] takes the lowest frame that is free, above the kernel and
    outside 0x400000..0x5FFFFF, and returns its address; only the bit of that
    frame changes (the interrupt flag is restored); it returns NULL, changing
    nothing, exactly when there is no such frame. *)
Theorem kpalloc_least k :
  pmm_ok k ->
  (exists f, kpalloc k = Ret (f * 4096) (take_frame f k)
     /\ kernel_pages k <= f < FRAME_COUNT (k_pmm k) /\ eligible k f = true
     /\ (forall g, kernel_pages k <= g < f -> eligible k g = false)
     /\ (forall g, eligible (take_frame f k) g = negb (bool_decide (g = f)) && eligible k g))
  \/ (kpalloc k = Ret NULL k
      /\ forall g, kernel_pages k <= g < FRAME_COUNT (k_pmm k) -> eligible k g = false).
Proof.
  intros Hok. rewrite kpalloc_run by done. destruct (find_up _ _ _) as [f|] eqn:E.
  - left. exists f. apply find_up_Some in E as (Hf & Hel & Hmin). rewrite trips_max in Hf.
    split_and!; [done|lia|lia|done|done|]. intros g. apply eligible_take.
  - right. rewrite find_up_None in E. split; [done|]. intros g Hg. apply E.
    rewrite trips_max. lia.
Qed.

Lemma kpalloc_least_witness : kpalloc k0 = Ret (258 * 4096) (take_frame 258 k0).
Proof.
  destruct (kpalloc_least k0 k0_ok) as [(f & H & Hf & Hel & Hmin & _)|[_ Hnone]].
  - assert (f = 258) as ->; [|exact H].
    destruct (Z.lt_trichotomy f 258) as [Hlt|[->|Hgt]]; [|done|].
    + exfalso. assert (f = 256 \/ f = 257) as [-> | ->]
        by (assert (kernel_pages k0 = 256) by reflexivity; lia); vm_compute in Hel; congruence.
    + exfalso. specialize (Hmin 258). assert (kernel_pages k0 = 256) by reflexivity.
      assert (eligible k0 258 = true) by reflexivity. rewrite Hmin in *; [done|lia].
  - exfalso. specialize (Hnone 258). assert (eligible k0 258 = true) by reflexivity.
    rewrite Hnone in *; [done|]. vm_compute. split; congruence.
Defined.

(** [kpalloc_top] takes the highest such frame. *)
Lemma kpalloc_top_greatest k :
  pmm_ok k ->
  (exists f, kpalloc_top k = Ret (f * 4096) (take_frame f k)
     /\ kernel_pages k <= f < FRAME_COUNT (k_pmm k) /\ eligible k f = true
     /\ forall g, f < g < FRAME_COUNT (k_pmm k) -> eligible k g = false)
  \/ (kpalloc_top k = Ret NULL k
      /\ forall g, kernel_pages k <= g < FRAME_COUNT (k_pmm k) -> eligible k g = false).
Proof.
  intros Hok. rewrite kpalloc_top_run by done. destruct (find_up _ _ _) as [j|] eqn:E.
  - left. exists (FRAME_COUNT (k_pmm k) - 1 - j). apply find_up_Some in E as (Hj & Hel & Hmin).
    rewrite trips_max in Hj. split_and!; [done|lia|lia|done|]. intros g Hg.
    specialize (Hmin (FRAME_COUNT (k_pmm k) - 1 - g)).
    replace (FRAME_COUNT (k_pmm k) - 1 - (FRAME_COUNT (k_pmm k) - 1 - g)) with g in Hmin by lia.
    apply Hmin. lia.
  - right. rewrite find_up_None in E. split; [done|]. intros g Hg.
    specialize (E (FRAME_COUNT (k_pmm k) - 1 - g)). rewrite trips_max in E.
    replace (FRAME_COUNT (k_pmm k) - 1 - (FRAME_COUNT (k_pmm k) - 1 - g)) with g in E by lia.
    apply E. lia.
Qed.

Lemma kpalloc_top_greatest_witness :
  exists p k', kpalloc_top k0 = Ret p k' /\ p <> NULL.
Proof.
  destruct (kpalloc_top_greatest k0 k0_ok) as [(f & H & Hf & _)|[_ Hnone]].
  - exists (f * 4096), (take_frame f k0). split; [exact H|].
    assert (kernel_pages k0 = 256) by reflexivity. unfold NULL. lia.
  - exfalso. specialize (Hnone 258). assert (eligible k0 258 = true) by reflexivity.
    rewrite Hnone in *; [done|]. vm_compute. split; congruence.
Defined.

(** C25: [kpalloc_contiguous] takes the lowest run of [pages] eligible frames, all
    of them and no other, or returns NULL when there is no such run. *)
Theorem kpalloc_contiguous_lowest k pages :
  pmm_ok k -> 2 <= pages < 2 ^ 52 ->
  (exists b, kpalloc_contiguous pages k = Ret (b * 4096) (take_run b pages k)
     /\ kernel_pages k <= b /\ b + pages <= FRAME_COUNT (k_pmm k)
     /\ (forall f, b <= f < b + pages -> eligible k f = true)
     /\ (forall c, kernel_pages k <= c < b -> exists f, c <= f < c + pages /\ eligible k f = false)
     /\ (forall f, frame_free (k_pmm (take_run b pages k)) f
           = negb (bool_decide (b <= f < b + pages)) && frame_free (k_pmm k) f))
  \/ (kpalloc_contiguous pages k = Ret NULL k
      /\ forall c, kernel_pages k <= c -> c + pages <= FRAME_COUNT (k_pmm k) ->
           exists f, c <= f < c + pages /\ eligible k f = false).
Proof.
  intros Hok Hpages. rewrite kpalloc_contiguous_run by done.
  assert (Hno : forall c, run_free k pages c = false ->
            exists f, c <= f < c + pages /\ eligible k f = false).
  { intros c Hc. unfold run_free in Hc. destruct (find_up _ _ _) as [i|] eqn:E; [|done].
    apply find_up_Some in E as (Hi & Hneg & _). rewrite trips_max in Hi.
    exists (c + i). split; [lia|]. by apply negb_true_iff. }
  destruct (find_up _ _ _) as [b|] eqn:E.
  - left. exists b. apply find_up_Some in E as (Hb & Hrun & Hmin). rewrite trips_max in Hb.
    rewrite run_free_spec in Hrun. split_and!; [done|lia|lia|done| |].
    + intros c Hc. by apply Hno, Hmin.
    + intros f. unfold take_run. simpl. rewrite frame_free_clear_frames, trips_max.
      do 3 f_equal. apply bool_decide_ext. lia.
  - right. rewrite find_up_None in E. split; [done|]. intros c Hc Hlast.
    apply Hno, E. rewrite trips_max. lia.
Qed.

Lemma kpalloc_contiguous_lowest_witness :
  exists p k', kpalloc_contiguous 2 k0 = Ret p k' /\ p <> NULL.
Proof.
  destruct (kpalloc_contiguous_lowest k0 2 k0_ok ltac:(lia)) as [(b & H & Hb & _)|[_ Hnone]].
  - exists (b * 4096), (take_run b 2 k0). split; [exact H|].
    assert (kernel_pages k0 = 256) by reflexivity. unfold NULL. lia.
  - exfalso. destruct (Hnone 260) as (f & Hf & Hel); [vm_compute; congruence..|].
    assert (f = 260 \/ f = 261) as [-> | ->] by lia; vm_compute in Hel; congruence.
Defined.

(** C26: [kpfree] is a no-op on NULL; on a page it accepts - aligned, inside the
    managed memory and allocated - it frees that frame and nothing else; on any
    other address (a misaligned one, one beyond the memory, a double free) it
    stops the machine. *)
Theorem kpfree_cases k page :
  (page = NULL -> kpfree page k = Ret tt k)
  /\ (page <> NULL -> freeable k page ->
        kpfree page k = Ret tt (give_frame (page / 4096) k)
        /\ forall f, frame_free (k_pmm (give_frame (page / 4096) k)) f
             = bool_decide (f = page / 4096) || frame_free (k_pmm k) f)
  /\ (page <> NULL -> ~ freeable k page -> exists k', kpfree page k = Hang k').
Proof.
  split_and!; [intros ->; apply kpfree_null| |apply kpfree_invalid].
  intros Hnull Hfree. split; [by apply kpfree_run|]. intros f. apply frame_free_set.
Qed.

Lemma kpfree_cases_witness : exists k', kpfree (258 * 4096) k0 = Hang k'.
Proof.
  apply (proj2 (proj2 (kpfree_cases k0 (258 * 4096)))); [done|].
  intros (_ & _ & H). vm_compute in H. congruence.
Defined.

(** a page that [kpalloc] returned can be freed, and freeing it gives back
    the set of free frames there was before. *)
Lemma kpalloc_kpfree_roundtrip k p k' :
  pmm_ok k -> kpalloc k = Ret p k' -> p <> NULL ->
  exists k'', kpfree p k' = Ret tt k'' /\ forall f, k_free k'' f = k_free k f.
Proof.
  intros Hok Hrun Hp. rewrite kpalloc_run in Hrun by done.
  destruct (find_up _ _ _) as [f|] eqn:E; [|by injection Hrun as <- _].
  injection Hrun as <- <-. apply find_up_Some in E as (Hf & Hel & _). rewrite trips_max in Hf.
  destruct (taken_frame_facts k f Hok ltac:(lia) Hel) as (Hal & _ & Hfree & _ & Htake).
  rewrite Z.div_mul in * by lia.
  eexists. split; [apply kpfree_run; [done|]|].
  - split; [done|]. rewrite Z.div_mul by lia. split; [simpl; lia|].
    change (k_free (take_frame f k) f = false). rewrite Htake. by rewrite bool_decide_eq_true_2.
  - intros g. rewrite Z.div_mul by lia. unfold k_free. simpl.
    rewrite frame_free_set, frame_free_clear. destruct (decide (g = f)) as [->|Hne].
    + by rewrite bool_decide_eq_true_2.
    + by rewrite bool_decide_eq_false_2.
Qed.

Lemma kpalloc_kpfree_roundtrip_witness :
  exists k'', kpfree (258 * 4096) (take_frame 258 k0) = Ret tt k''
    /\ forall f, k_free k'' f = k_free k0 f.
Proof.
  apply (kpalloc_kpfree_roundtrip k0 (258 * 4096)); [exact k0_ok|vm_compute; reflexivity|done].
Defined.

(** C24: after [kpmm_init] a frame is free exactly when it lies wholly inside a
    usable E820 region and not below the end of the kernel image; every such
    frame is inside the managed range, and the allocators' invariant holds. *)
Theorem kpmm_init_free_frames k :
  mmap_ok (k_pmm k) -> 0x100000 <= kernel_end k < 2 ^ 52 ->
  exists p, kpmm_init k = Ret true (with_pmm p k) /\ pmm_ok (with_pmm p k)
    /\ (forall f, 0 <= f < FRAME_COUNT p ->
          frame_free p f = true <->
          kernel_pages k <= f /\ usable_frame (k_pmm k) (mmap_entry_count (k_pmm k)) f)
    /\ (forall f, usable_frame (k_pmm k) (mmap_entry_count (k_pmm k)) f -> f < FRAME_COUNT p).
Proof. apply kpmm_init_run. Qed.

Lemma pmm0_mmap_ok : mmap_ok pmm0.
Proof.
  split_and!; [done|done|]. intros [|i] e; [|done]. intros [= <-]. simpl. lia.
Qed.

Lemma kpmm_init_free_frames_witness :
  exists p, kpmm_init k0 = Ret true (with_pmm p k0) /\ pmm_ok (with_pmm p k0).
Proof.
  destruct (kpmm_init_free_frames k0 pmm0_mmap_ok ltac:(simpl; lia)) as (p & H & Hok & _).
  exists p. split; [exact H|exact Hok].
Defined.
