(* ===== verification/Heap.v ===== *)
(** * mm/heap.c: kmalloc, krealloc, kfree

    The block headers form a singly linked list from [CURRENT_BLOCK]; [blocks]
    maps the address of each header to its contents, and the payload of block
    [a] is [a + 24 .. a + 24 + size - 1].  Nothing coalesces blocks. *)

From S2P Require Import Prelude State Utils Pmm.

(** ** Header accesses *)

Definition load_block (a : Z) : kernel block_t :=
  k <- gets id ;; deref (blocks (k_heap k) !! a).

Definition store_block (a : Z) (b : block_t) : kernel unit :=
  modify (fun k => with_heap {| CURRENT_BLOCK := CURRENT_BLOCK (k_heap k);
                                blocks := <[a := b]> (blocks (k_heap k)) |} k).

(** The payload capacity of a block that fills a page. *)
Definition PAGE_BLOCK : Z := 4096 - sizeof_block_t.

(** [(size + 15) & ~15ULL] *)
Definition align16 (size : Z) : Z := Z.land (u64 (size + 15)) (Z.lnot 15).

Definition kmalloc_init : kernel bool :=
  page <- kpalloc ;;
  if page =? NULL then ret false else
  _ <- modify (fun k => with_heap {| CURRENT_BLOCK := page; blocks := blocks (k_heap k) |} k) ;;
  _ <- store_block page {| b_size := PAGE_BLOCK; b_is_used := false; b_next := NULL |} ;;
  ret true.

(** The body of the loop of [kmalloc] at an unused block. *)
Definition kmalloc_at (aligned_size block : Z) (b : block_t) : kernel Z :=
  if b_size b <? aligned_size then
    page <- kpalloc ;;
    if page =? NULL then ret NULL else
    let new_block := page in
    _ <- store_block new_block
           {| b_size := PAGE_BLOCK; b_is_used := true; b_next := b_next b |} ;;
    _ <- store_block block
           {| b_size := b_size b; b_is_used := b_is_used b; b_next := new_block |} ;;
    ret (new_block + sizeof_block_t)
  else if b_size b <? aligned_size + sizeof_block_t + 16 then
    _ <- store_block block
           {| b_size := b_size b; b_is_used := true; b_next := b_next b |} ;;
    ret (block + sizeof_block_t)
  else
    let new_block := block + aligned_size + sizeof_block_t in
    _ <- store_block new_block
           {| b_size := b_size b - sizeof_block_t - aligned_size;
              b_is_used := false; b_next := b_next b |} ;;
    _ <- store_block block
           {| b_size := aligned_size; b_is_used := true; b_next := new_block |} ;;
    ret (block + sizeof_block_t).

(** The walk over the list; [fuel] bounds its length. *)
Fixpoint kmalloc_walk (fuel : nat) (aligned_size block : Z) : kernel Z :=
  match fuel with
  | O => stuck
  | S fuel =>
      if block =? NULL then ret NULL else
      b <- load_block block ;;
      if negb (b_is_used b) then kmalloc_at aligned_size block b
      else kmalloc_walk fuel aligned_size (b_next b)
  end.

(** The list cannot be longer than the number of headers. *)
Definition kmalloc (size : Z) : kernel Z :=
  if (size =? 0) || (PAGE_BLOCK <=? size) then ret NULL else
  k <- gets id ;;
  kmalloc_walk (S (base.size (blocks (k_heap k)))) (align16 size) (CURRENT_BLOCK (k_heap k)).

Definition kfree (ptr : Z) : kernel unit :=
  if ptr =? NULL then ret tt else
  let block := ptr - sizeof_block_t in
  b <- load_block block ;;
  store_block block {| b_size := b_size b; b_is_used := false; b_next := b_next b |}.

(** [copy dest src n] is the [memcpy] of the payload: a client whose objects
    live in a typed store supplies the copy of that store. *)
Definition krealloc (copy : Z -> Z -> Z -> kernel unit) (ptr new_size : Z) : kernel Z :=
  if ptr =? NULL then kmalloc new_size else
  if new_size =? 0 then _ <- kfree ptr ;; ret NULL else
  if PAGE_BLOCK <=? new_size then ret NULL else
  old_block <- load_block (ptr - sizeof_block_t) ;;
  let old_size := b_size old_block in
  if align16 new_size <=? old_size then ret ptr else
  new_ptr <- kmalloc new_size ;;
  if new_ptr =? NULL then ret NULL else
  _ <- copy new_ptr ptr old_size ;;
  _ <- kfree ptr ;;
  ret new_ptr.

(** ** The linked list *)

(** [chain bs a l]: following [next] from [a] visits exactly the headers [l]. *)
Inductive chain (bs : gmap Z block_t) : Z -> list Z -> Prop :=
| chain_nil : chain bs NULL []
| chain_cons a b l :
    a <> NULL -> bs !! a = Some b -> chain bs (b_next b) l -> chain bs a (a :: l).

Lemma chain_fun bs a l l' : chain bs a l -> chain bs a l' -> l = l'.
Proof.
  intros H. revert l'. induction H as [|a b l Ha Hb _ IH]; intros l' H'; inversion H'; subst;
    try done. rewrite Hb in *. simplify_eq. f_equal. by apply IH.
Qed.

Lemma chain_suffix bs a l x l2 l1 : chain bs a l -> l = l1 ++ x :: l2 -> chain bs x (x :: l2).
Proof.
  intros H. revert l1. induction H as [|a b l Ha Hb Hc IH]; intros [|y l1] E; simplify_eq/=.
  - exact (chain_cons _ _ _ _ Ha Hb Hc).
  - by eapply IH.
Qed.

Lemma chain_nodup bs a l : chain bs a l -> NoDup l.
Proof.
  induction 1 as [|a b l Ha Hb Hc IH]; [constructor|]. constructor; [|done].
  intros (l1 & l2 & E)%list_elem_of_split.
  assert (H1 : chain bs a (a :: l)) by eauto using chain.
  pose proof (chain_suffix _ _ _ a l2 (a :: l1) H1 (f_equal (cons a) E)) as H2.
  pose proof (chain_fun _ _ _ _ H1 H2) as E2. simplify_eq.
  apply (f_equal length) in E2. rewrite length_app in E2. simpl in E2. lia.
Qed.

Lemma chain_nonnull bs a l x : chain bs a l -> x ∈ l -> x <> NULL.
Proof. induction 1; [by intros ?%not_elem_of_nil|intros [->|?]%elem_of_cons; auto]. Qed.

(** Only the [next] fields of the visited headers matter. *)
Lemma chain_agree bs bs' a l :
  chain bs a l ->
  (forall x b, x ∈ l -> bs !! x = Some b -> exists b', bs' !! x = Some b' /\ b_next b' = b_next b) ->
  chain bs' a l.
Proof.
  induction 1 as [|a b l Ha Hb Hc IH]; intros Hag; [constructor|].
  destruct (Hag a b) as (b' & Hb' & Hn); [by left|done|].
  apply (chain_cons _ _ b'); [done|done|]. rewrite Hn. apply IH.
  intros x bx Hx. apply Hag. by right.
Qed.

Lemma chain_inv bs s a l :
  chain bs s (a :: l) -> s = a /\ a <> NULL /\ exists b, bs !! a = Some b /\ chain bs (b_next b) l.
Proof. inversion 1; subst; eauto. Qed.

(** Linking a new header behind [a]. *)
Lemma chain_link bs s l1 a l2 b b' n bn :
  chain bs s (l1 ++ a :: l2) -> bs !! a = Some b -> bs !! n = None -> n <> NULL -> n <> a ->
  b_next bn = b_next b -> b_next b' = n ->
  chain (<[a := b']> (<[n := bn]> bs)) s (l1 ++ a :: n :: l2).
Proof.
  intros Hc Hb Hn Hnull Hna Hbn Hb'. pose proof (chain_nodup _ _ _ Hc) as Hnd.
  assert (Hin : forall x, x ∈ l1 ++ a :: l2 -> x <> n).
  { intros x Hx ->. clear Hnd. revert Hx Hn. clear -Hc. induction Hc as [|? ? ? ? Hb _ IH];
      [by intros ?%not_elem_of_nil|]. intros [->|Hx]%elem_of_cons Hn; [congruence|by apply IH]. }
  revert s Hc Hnd Hin. induction l1 as [|y l1 IH]; intros s Hc Hnd Hin; cbn [app] in *;
    apply chain_inv in Hc as (-> & Hynull & by' & Hby & Hc');
    apply nodup_inv in Hnd as [Hy Hnd].
  - apply (chain_cons _ _ b'); [done|by rewrite lookup_insert_eq|].
    assert (by' = b) as -> by congruence. rewrite Hb'.
    apply (chain_cons _ _ bn); [done|by rewrite lookup_insert_ne, lookup_insert_eq|].
    rewrite Hbn. eapply chain_agree; [exact Hc'|]. intros x bx Hx Hbx. exists bx.
    rewrite !lookup_insert_ne; [done| |].
    + intros <-. by eapply (Hin n); [right|].
    + by intros <-.
  - apply (chain_cons _ _ by'); [done| |].
    + rewrite !lookup_insert_ne; [done| |].
      * intros <-. by eapply (Hin n); [left|].
      * intros <-. apply Hy. apply elem_of_app. right. by left.
    + apply IH; [done|done|]. intros x Hx. apply Hin. by right.
Qed.

(** ** The invariant *)

(** The bytes of block [b] at [a], header included. *)
Definition extent_end (a : Z) (b : block_t) : Z := a + sizeof_block_t + b_size b.

(** A block lies in one page that the page allocator has handed out. *)
Definition block_ok (free : Z -> bool) (a : Z) (b : block_t) : Prop :=
  0 < a < 2 ^ 64 /\ a mod 8 = 0 /\ 16 <= b_size b /\ b_size b mod 8 = 0
  /\ extent_end a b <= 4096 * (a / 4096) + 4096 /\ free (a / 4096) = false.

Definition disjoint_blocks (a1 : Z) (b1 : block_t) (a2 : Z) (b2 : block_t) : Prop :=
  extent_end a1 b1 <= a2 \/ extent_end a2 b2 <= a1.

(** The list from [cur] visits every header of [bs] and ends; the blocks lie in
    allocated pages and do not overlap. *)
Record heap_wf (free : Z -> bool) (cur : Z) (bs : gmap Z block_t) : Prop := {
  wf_chain : exists l, chain bs cur l /\ forall a, a ∈ l <-> is_Some (bs !! a);
  wf_block : forall a b, bs !! a = Some b -> block_ok free a b;
  wf_disjoint : forall a1 b1 a2 b2, a1 <> a2 -> bs !! a1 = Some b1 -> bs !! a2 = Some b2 ->
    disjoint_blocks a1 b1 a2 b2
}.

Definition heap_ok (k : kstate) : Prop :=
  heap_wf (k_free k) (CURRENT_BLOCK (k_heap k)) (blocks (k_heap k)).

Lemma block_ok_same free a b b' : b_size b' = b_size b -> block_ok free a b -> block_ok free a b'.
Proof. unfold block_ok, extent_end. by intros ->. Qed.

(** Changing the flag of a block (what [kfree] and an exact fit do). *)
Lemma wf_mark free cur bs a b b' :
  heap_wf free cur bs -> bs !! a = Some b -> b_size b' = b_size b -> b_next b' = b_next b ->
  heap_wf free cur (<[a := b']> bs).
Proof.
  intros [(l & Hc & Hdom) Hok Hdis] Hb Hsz Hnx.
  assert (Hsame : forall x bx, <[a := b']> bs !! x = Some bx ->
            exists b0, bs !! x = Some b0 /\ b_size bx = b_size b0 /\ b_next bx = b_next b0).
  { intros x bx. rewrite lookup_insert. case_decide as E; [|by eauto].
    subst x. intros [= <-]. by exists b. }
  split.
  - exists l. split.
    + eapply chain_agree; [exact Hc|]. intros x bx _ Hx. rewrite lookup_insert.
      case_decide as E; [|by eauto]. subst x. exists b'. split; [done|]. congruence.
    + intros x. rewrite Hdom, lookup_insert. case_decide as E; [|done]. subst x.
      split; [by intros _; eexists|]. intros _. by eexists.
  - intros x bx (b0 & Hb0 & Hs & _)%Hsame. by eapply block_ok_same; [|apply Hok].
  - intros a1 b1 a2 b2 Hne (c1 & Hc1 & Hs1 & _)%Hsame (c2 & Hc2 & Hs2 & _)%Hsame.
    unfold disjoint_blocks, extent_end. rewrite Hs1, Hs2. by apply Hdis.
Qed.

(** Linking a new header [n] behind [a]; the new pair of blocks must fit. *)
Lemma wf_link free free' cur bs a b b' n bn :
  heap_wf free cur bs -> bs !! a = Some b -> bs !! n = None ->
  b_next bn = b_next b -> b_next b' = n ->
  (forall f, free f = false -> free' f = false) ->
  block_ok free' a b' -> block_ok free' n bn -> b_size b' <= b_size b ->
  (forall x bx, bs !! x = Some bx -> x <> a -> disjoint_blocks n bn x bx) ->
  disjoint_blocks n bn a b' ->
  heap_wf free' cur (<[a := b']> (<[n := bn]> bs)).
Proof.
  intros [(l & Hc & Hdom) Hok Hdis] Hb Hn Hbn Hb' Hfree Hoka Hokn Hsz Hdn Hda.
  assert (Hna : n <> a) by congruence.
  assert (Hnull : n <> NULL) by (destruct Hokn as [? _]; unfold NULL; lia).
  split.
  - assert (Ha : a ∈ l) by (apply Hdom; by eexists).
    apply list_elem_of_split in Ha as (l1 & l2 & ->).
    exists (l1 ++ a :: n :: l2). split; [by eapply chain_link|].
    intros x. specialize (Hdom x). rewrite !lookup_insert.
    rewrite !elem_of_app, !elem_of_cons in *.
    destruct (decide (a = x)) as [->|]; [split; [by eexists|tauto]|].
    destruct (decide (n = x)) as [->|]; [split; [by eexists|tauto]|].
    rewrite <- Hdom. split; [intros [?|[?|[?|?]]]|intros [?|[?|?]]]; auto; congruence.
  - intros x bx. rewrite !lookup_insert. repeat case_decide; subst.
    + by intros [= <-].
    + by intros [= <-].
    + intros Hx%Hok. destruct Hx as (?&?&?&?&?&?). split_and!; first [done | lia | by apply Hfree].
  - assert (Hsub : forall x bx, <[a := b']> (<[n := bn]> bs) !! x = Some bx -> x <> n ->
              exists b0, bs !! x = Some b0 /\ b_size bx <= b_size b0 /\ (x = a -> bx = b')
                /\ (x <> a -> bx = b0)).
    { intros x bx. rewrite !lookup_insert. repeat case_decide; subst; try done.
      - intros [= <-] _. by exists b.
      - intros Hx _. by exists bx. }
    assert (Hlk : forall bx, <[a := b']> (<[n := bn]> bs) !! n = Some bx -> bx = bn).
    { intros bx. rewrite lookup_insert_ne, lookup_insert_eq by done. by intros [= <-]. }
    assert (Hnew : forall x bx, <[a := b']> (<[n := bn]> bs) !! x = Some bx -> x <> n ->
              disjoint_blocks n bn x bx).
    { intros x bx Hx Hxn. destruct (Hsub x bx Hx Hxn) as (b0 & Hb0 & _ & Hxa & Hxo).
      destruct (decide (x = a)) as [->|Hne]; [by rewrite Hxa|]. rewrite Hxo by done. by apply Hdn. }
    intros a1 b1 a2 b2 Hne H1 H2.
    destruct (decide (a1 = n)) as [->|Hn1]; [rewrite (Hlk b1 H1); by apply Hnew|].
    destruct (decide (a2 = n)) as [->|Hn2].
    { rewrite (Hlk b2 H2). destruct (Hnew _ _ H1 Hn1); [right|left]; done. }
    destruct (Hsub _ _ H1 Hn1) as (c1 & Hc1 & Hs1 & _), (Hsub _ _ H2 Hn2) as (c2 & Hc2 & Hs2 & _).
    destruct (Hdis _ _ _ _ Hne Hc1 Hc2); [left|right]; unfold extent_end in *; lia.
Qed.

(** ** kmalloc on a well-formed heap *)

(** The first block of the list that is not in use. *)
Fixpoint first_unused (bs : gmap Z block_t) (l : list Z) : option (Z * block_t) :=
  match l with
  | [] => None
  | a :: l =>
      match bs !! a with
      | Some b => if b_is_used b then first_unused bs l else Some (a, b)
      | None => None
      end
  end.

Lemma first_unused_Some bs l a b :
  first_unused bs l = Some (a, b) -> bs !! a = Some b /\ b_is_used b = false.
Proof.
  induction l as [|x l IH]; simpl; [done|]. destruct (bs !! x) as [bx|] eqn:E; [|done].
  destruct (b_is_used bx) eqn:Eu; [done|]. by intros [= <- <-].
Qed.

Lemma first_unused_None bs s l :
  chain bs s l -> first_unused bs l = None ->
  forall a b, a ∈ l -> bs !! a = Some b -> b_is_used b = true.
Proof.
  induction 1 as [|a b l Ha Hb _ IH]; simpl; [by intros _ ?? ?%not_elem_of_nil|].
  rewrite Hb. destruct (b_is_used b) eqn:E; [|done]. intros Hn x bx [->|Hx]%elem_of_cons Hbx.
  - congruence.
  - by eapply IH.
Qed.

Lemma load_block_run k a b : blocks (k_heap k) !! a = Some b -> load_block a k = Ret b k.
Proof. intros H. unfold load_block. cbn [bind gets id]. by rewrite H. Qed.

Lemma kmalloc_walk_run fuel sz block k l :
  chain (blocks (k_heap k)) block l -> (length l < fuel)%nat ->
  kmalloc_walk fuel sz block k
  = match first_unused (blocks (k_heap k)) l with
    | Some (a, b) => kmalloc_at sz a b k
    | None => Ret NULL k
    end.
Proof.
  intros Hc. revert fuel. induction Hc as [|a b l Ha Hb _ IH]; intros [|fuel] Hlen;
    simpl in Hlen; try lia; cbn [kmalloc_walk first_unused]; [done|].
  rewrite (proj2 (Z.eqb_neq a NULL)), Hb by done.
  rewrite (bind_run _ _ _ _ _ (load_block_run k a b Hb)).
  destruct (b_is_used b); cbn [negb]; [|done]. apply IH. lia.
Qed.

Lemma chain_length (bs : gmap Z block_t) s l :
  chain bs s l -> (forall a, a ∈ l -> is_Some (bs !! a)) -> (length l <= base.size bs)%nat.
Proof.
  intros Hc Hdom. rewrite <- (size_list_to_set (C := gset Z)) by (by eapply chain_nodup).
  rewrite <- size_dom. apply subseteq_size. intros x Hx%elem_of_list_to_set.
  by apply elem_of_dom, Hdom.
Qed.

(** The heap and the page allocator are all a heap routine changes. *)
Definition heap_frame (k k' : kstate) : Prop := exists h q, k' = with_heap h (with_pmm q k).

(** The abstract state of the allocator: the capacity of each block in use, by
    the address of its header. *)
Definition used_size (b : block_t) : option Z := if b_is_used b then Some (b_size b) else None.
Definition live (k : kstate) : gmap Z Z := omap used_size (blocks (k_heap k)).

Lemma live_used (bs : gmap Z block_t) a b :
  b_is_used b = true -> omap used_size (<[a := b]> bs) = <[a := b_size b]> (omap used_size bs).
Proof. intros H. apply omap_insert_Some. unfold used_size. by rewrite H. Qed.

Lemma live_unused (bs : gmap Z block_t) a b :
  b_is_used b = false -> omap used_size (<[a := b]> bs) = delete a (omap used_size bs).
Proof. intros H. apply omap_insert_None. unfold used_size. by rewrite H. Qed.

Lemma live_at k a b :
  blocks (k_heap k) !! a = Some b -> live k !! a = used_size b.
Proof. intros H. unfold live. by rewrite lookup_omap, H. Qed.

Lemma live_none k a : blocks (k_heap k) !! a = None -> live k !! a = None.
Proof. intros H. unfold live. by rewrite lookup_omap, H. Qed.

(** The pages the heap lives in: it never gives one back, and takes a page from
    the page allocator only to put a block there. *)
Definition block_page (bs : gmap Z block_t) (f : Z) : Prop :=
  exists a, a / 4096 = f /\ is_Some (bs !! a).
Definition heap_page (k : kstate) (f : Z) : Prop := block_page (blocks (k_heap k)) f.

Record pages_step (k k' : kstate) : Prop := {
  pg_taken f : k_free k f = false -> k_free k' f = false;
  pg_heap f : heap_page k' f <-> heap_page k f \/ (k_free k f = true /\ k_free k' f = false);
  pg_frames : FRAME_COUNT (k_pmm k') = FRAME_COUNT (k_pmm k)
}.

Lemma block_page_insert bs a b f :
  block_page (<[a := b]> bs) f <-> a / 4096 = f \/ block_page bs f.
Proof.
  unfold block_page. split.
  - intros (x & Hx & Hs). rewrite lookup_insert in Hs. case_decide; subst; [by left|right; by exists x].
  - intros [Ha|(x & Hx & Hs)].
    + exists a. rewrite lookup_insert_eq. split; [done|by eexists].
    + exists x. rewrite lookup_insert. split; [done|]. case_decide; [by eexists|done].
Qed.

Lemma pages_step_same k k' :
  k_pmm k' = k_pmm k -> (forall f, heap_page k' f <-> heap_page k f) -> pages_step k k'.
Proof.
  intros Hp Hh. split; [| |by rewrite Hp]; intros f; unfold k_free; rewrite Hp; [done|].
  rewrite Hh. split; [by left|]. intros [?|[? ?]]; [done|congruence].
Qed.

(** What an allocation of [req] bytes that returned [p] did. *)
Definition alloc_result (k k' : kstate) (p req : Z) : Prop :=
  pmm_ok k' /\ heap_ok k' /\ heap_frame k k' /\ pages_step k k'
  /\ (p = NULL -> k' = k)
  /\ (p <> NULL -> 0 < p - sizeof_block_t /\ live k !! (p - sizeof_block_t) = None
        /\ exists n, req <= n /\ live k' = <[p - sizeof_block_t := n]> (live k)).

Lemma heap_frame_refl k : heap_frame k k.
Proof. exists (k_heap k), (k_pmm k). by destruct k. Qed.

Lemma pages_step_refl k : pages_step k k.
Proof. by apply pages_step_same. Qed.

Lemma block_page_at bs a b f : bs !! a = Some b -> a / 4096 = f -> block_page bs f.
Proof. intros H <-. exists a. split; [done|by eexists]. Qed.

(** The three ways a block is obtained. *)
Section AllocateAt.
Context (k : kstate) (sz req a : Z) (b : block_t).
Context (Hpmm : pmm_ok k) (Hheap : heap_ok k).
Context (Hb : blocks (k_heap k) !! a = Some b) (Hfree : b_is_used b = false).
Context (Hsz : 16 <= sz) (Hmod : sz mod 16 = 0) (Hreq : req <= sz) (Hmax : req < PAGE_BLOCK).

Lemma not_live : live k !! a = None.
Proof using Hb Hfree. rewrite (live_at k a b Hb). unfold used_size. by rewrite Hfree. Qed.

Lemma kmalloc_at_grow :
  b_size b < sz -> exists p k', kmalloc_at sz a b k = Ret p k' /\ alloc_result k k' p req.
Proof using All.
  intros Hsmall. unfold kmalloc_at. rewrite (proj2 (Z.ltb_lt _ _)) by done.
  destruct (ps_total (alloc := kpalloc) k Hpmm) as (p & k1 & Hp). rewrite (bind_run _ _ _ _ _ Hp).
  destruct (Z.eqb_spec p NULL) as [->|Hnn].
  { pose proof (ps_none (alloc := kpalloc) _ _ Hpmm Hp) as ->. exists NULL, k. split; [done|].
  split_and!; [done|done|apply heap_frame_refl|apply pages_step_refl|done|done]. }
  pose proof (ps_ok (alloc := kpalloc) _ _ _ Hpmm Hp) as Hpmm1.
  destruct (ps_frame (alloc := kpalloc) _ _ _ Hpmm Hp) as (q & ->).
  destruct (ps_fresh (alloc := kpalloc) _ _ _ Hpmm Hp Hnn) as (Hal & Hpos & Hwas & Hfc & Hnow).
  set (k1 := with_pmm q k) in *.
  assert (Hold : forall x bx, blocks (k_heap k) !! x = Some bx -> x / 4096 <> p / 4096).
  { intros x bx Hx E. apply (wf_block _ _ _ Hheap) in Hx as (_ & _ & _ & _ & _ & Hx).
    rewrite E in Hx. congruence. }
  assert (Hnone : blocks (k_heap k) !! p = None).
  { destruct (blocks (k_heap k) !! p) eqn:E; [|done]. by apply Hold in E. }
  assert (Hkeep : forall f, k_free k f = false -> k_free k1 f = false).
  { intros f Hf. by rewrite Hnow, Hf, andb_false_r. }
  eexists _, _. split; [reflexivity|]. split; [exact Hpmm1|].
  split; [|split; [by eexists _, q|split; [|split; [unfold NULL, sizeof_block_t; lia|]]]].
  - eapply (wf_link (k_free k)); try done; simpl.
    + pose proof (wf_block _ _ _ Hheap _ _ Hb) as (?&?&?&?&?&?).
      split_and!; first [done | lia | by apply Hkeep].
    + unfold block_ok, PAGE_BLOCK, extent_end, sizeof_block_t. simpl.
      split_and!; try lia; try done; try div_lia.
      change (k_free k1 (p / 4096) = false). by rewrite Hnow, bool_decide_eq_true_2.
    + intros x bx Hx _. pose proof (wf_block _ _ _ Hheap _ _ Hx) as (?&_&_&_&?&_).
      pose proof (Hold _ _ Hx). unfold disjoint_blocks, extent_end, PAGE_BLOCK, sizeof_block_t in *.
      simpl. div_lia.
    + pose proof (wf_block _ _ _ Hheap _ _ Hb) as (?&_&_&_&?&_).
      pose proof (Hold _ _ Hb). unfold disjoint_blocks, extent_end, PAGE_BLOCK, sizeof_block_t in *.
      simpl. div_lia.
  - split; [exact Hkeep| |exact Hfc]. intros f. unfold heap_page. simpl. rewrite !block_page_insert.
    change (k_free (with_heap _ _) f) with (k_free k1 f). rewrite Hnow.
    destruct (decide (f = p / 4096)) as [->|Hne].
    + rewrite bool_decide_eq_true_2 by done. cbn [negb andb]. tauto.
    + rewrite bool_decide_eq_false_2 by done. cbn [negb andb].
      pose proof (block_page_at _ _ _ f Hb).
      split; [intros [?|[?|?]]|intros [?|[? ?]]]; auto; congruence.
  - intros _. rewrite Z.add_simpl_r. split; [lia|]. split; [by apply live_none|].
    exists PAGE_BLOCK. split; [lia|]. unfold live. simpl. rewrite live_unused by done.
    rewrite live_used by done. rewrite delete_insert_ne by congruence.
    by rewrite (delete_id _ _ not_live).
Qed.

Lemma kmalloc_at_fit :
  sz <= b_size b < sz + sizeof_block_t + 16 ->
  exists p k', kmalloc_at sz a b k = Ret p k' /\ alloc_result k k' p req.
Proof using All.
  intros Hfit. unfold kmalloc_at. rewrite (proj2 (Z.ltb_ge _ _)), (proj2 (Z.ltb_lt _ _)) by lia.
  pose proof (wf_block _ _ _ Hheap _ _ Hb) as (Hpos & _).
  eexists _, _. split; [reflexivity|]. split; [done|]. unfold NULL, sizeof_block_t.
  split; [by eapply wf_mark|]. split; [by eexists _, (k_pmm k)|]. split; [|split; [lia|]].
  { apply pages_step_same; [done|]. intros f. unfold heap_page. simpl. rewrite block_page_insert.
    pose proof (block_page_at _ _ _ f Hb). tauto. }
  intros _. rewrite Z.add_simpl_r. split; [lia|]. split; [exact not_live|].
  exists (b_size b). split; [lia|]. unfold live. simpl. by rewrite live_used.
Qed.

Lemma kmalloc_at_split :
  sz + sizeof_block_t + 16 <= b_size b ->
  exists p k', kmalloc_at sz a b k = Ret p k' /\ alloc_result k k' p req.
Proof using All.
  unfold sizeof_block_t. intros Hbig. unfold kmalloc_at, sizeof_block_t.
  rewrite !(proj2 (Z.ltb_ge _ _)) by lia.
  pose proof (wf_block _ _ _ Hheap _ _ Hb) as (Hpos & Hal & Hmin & Hsmod & Hend & Hpage).
  unfold extent_end, sizeof_block_t in *.
  assert (Hnpage : (a + sz + 24) / 4096 = a / 4096) by div_lia.
  assert (Hnone : blocks (k_heap k) !! (a + sz + 24) = None).
  { destruct (blocks (k_heap k) !! (a + sz + 24)) as [bx|] eqn:E; [|done]. exfalso.
    pose proof (wf_block _ _ _ Hheap _ _ E) as (_ & _ & ? & _).
    destruct (wf_disjoint _ _ _ Hheap a b (a + sz + 24) bx ltac:(lia) Hb E);
      unfold extent_end, sizeof_block_t in *; lia. }
  eexists _, _. split; [reflexivity|]. split; [done|]. unfold NULL.
  split; [|split; [by eexists _, (k_pmm k)|split; [|split; [lia|]]]].
  - eapply (wf_link (k_free k)); try done; simpl; unfold block_ok, extent_end, sizeof_block_t; simpl.
    + split_and!; try done; try lia. div_lia.
    + rewrite Hnpage. split_and!; try done; try lia; div_lia.
    + lia.
    + intros x bx Hx Hne. destruct (wf_disjoint _ _ _ Hheap a b x bx ltac:(done) Hb Hx);
        [left|right]; unfold extent_end, sizeof_block_t in *; simpl in *; lia.
    + right. unfold extent_end, sizeof_block_t. simpl. lia.
  - apply pages_step_same; [done|]. intros f. unfold heap_page. simpl. rewrite !block_page_insert.
    pose proof (block_page_at _ _ _ f Hb). rewrite Hnpage. tauto.
  - intros _. replace (a + 24 - sizeof_block_t) with a by (unfold sizeof_block_t; lia).
    split; [lia|]. split; [exact not_live|]. exists sz. split; [lia|].
    unfold live. simpl. rewrite live_used, live_unused by done.
    by rewrite (delete_id _ _ (live_none k _ Hnone)).
Qed.

Lemma kmalloc_at_ok : exists p k', kmalloc_at sz a b k = Ret p k' /\ alloc_result k k' p req.
Proof using All.
  destruct (Z.lt_ge_cases (b_size b) sz) as [H|H]; [by apply kmalloc_at_grow|].
  destruct (Z.lt_ge_cases (b_size b) (sz + sizeof_block_t + 16));
    [by apply kmalloc_at_fit|by apply kmalloc_at_split].
Qed.
End AllocateAt.

(** The rounding of a request. *)
Lemma align16_bounds size :
  0 < size < PAGE_BLOCK ->
  16 <= align16 size /\ align16 size mod 16 = 0 /\ size <= align16 size < size + 16.
Proof.
  unfold PAGE_BLOCK, sizeof_block_t. intros Hs.
  assert (align16 size = 16 * ((size + 15) / 16)) as ->; [|div_lia].
  unfold align16. rewrite u64_small by lia. change 15 with (Z.ones 4) at 2.
  rewrite <- Z.ldiff_land, Z.ldiff_ones_r, Z.shiftl_mul_pow2, Z.shiftr_div_pow2 by lia.
  change (2 ^ 4) with 16. lia.
Qed.

(** The walk, with the list exhibited. *)
Lemma kmalloc_unfold k size :
  heap_ok k -> 0 < size < PAGE_BLOCK ->
  exists l, chain (blocks (k_heap k)) (CURRENT_BLOCK (k_heap k)) l
    /\ (forall a, a ∈ l <-> is_Some (blocks (k_heap k) !! a))
    /\ kmalloc size k
       = match first_unused (blocks (k_heap k)) l with
         | Some (a, b) => kmalloc_at (align16 size) a b k
         | None => Ret NULL k
         end.
Proof.
  intros Hok Hs. destruct (wf_chain _ _ _ Hok) as (l & Hc & Hdom). exists l.
  split; [done|]. split; [done|]. unfold kmalloc.
  rewrite (proj2 (Z.eqb_neq size 0)), (proj2 (Z.leb_gt PAGE_BLOCK size)) by lia.
  cbn [orb bind gets id]. apply kmalloc_walk_run; [done|].
  apply Nat.lt_succ_r, (chain_length _ _ _ Hc). intros a. apply Hdom.
Qed.

Lemma kmalloc_refuse k size : size = 0 \/ PAGE_BLOCK <= size -> kmalloc size k = Ret NULL k.
Proof.
  intros H. unfold kmalloc. replace ((size =? 0) || (PAGE_BLOCK <=? size)) with true; [done|].
  symmetry. bool_lia.
Qed.

Lemma kmalloc_run k size :
  heap_ok k -> pmm_ok k -> 0 <= size ->
  exists p k', kmalloc size k = Ret p k' /\ alloc_result k k' p size.
Proof.
  intros Hok Hpmm Hs.
  assert (Hnone : alloc_result k k NULL size).
  { split_and!; [done|done|apply heap_frame_refl|apply pages_step_refl|done|done]. }
  destruct (decide (0 < size < PAGE_BLOCK)) as [Hr|Hr].
  - destruct (kmalloc_unfold k size Hok Hr) as (l & Hc & Hdom & ->).
    destruct (first_unused _ l) as [[a b]|] eqn:E; [|by exists NULL, k].
    apply first_unused_Some in E as [Hb Hu]. destruct (align16_bounds size Hr) as (?&?&?).
    apply kmalloc_at_ok; (done || lia).
  - exists NULL, k. split; [|done]. apply kmalloc_refuse. lia.
Qed.

(** ** kfree, krealloc *)

Definition set_used (u : bool) (b : block_t) : block_t :=
  {| b_size := b_size b; b_is_used := u; b_next := b_next b |}.

Definition put_block (a : Z) (b : block_t) (k : kstate) : kstate :=
  with_heap {| CURRENT_BLOCK := CURRENT_BLOCK (k_heap k);
               blocks := <[a := b]> (blocks (k_heap k)) |} k.

Lemma kfree_run k p b :
  p <> NULL -> blocks (k_heap k) !! (p - sizeof_block_t) = Some b ->
  kfree p k = Ret tt (put_block (p - sizeof_block_t) (set_used false b) k).
Proof.
  intros Hp Hb. unfold kfree. rewrite (proj2 (Z.eqb_neq p NULL)) by done.
  by rewrite (bind_run _ _ _ _ _ (load_block_run k _ b Hb)).
Qed.

Lemma free_ok k a b :
  heap_ok k -> blocks (k_heap k) !! a = Some b ->
  heap_ok (put_block a (set_used false b) k)
  /\ live (put_block a (set_used false b) k) = delete a (live k)
  /\ pages_step k (put_block a (set_used false b) k).
Proof.
  intros Hok Hb. split; [|split].
  - by eapply (wf_mark _ _ _ a b).
  - unfold live, put_block. simpl. by apply live_unused.
  - apply pages_step_same; [done|]. intros f. unfold heap_page, put_block. simpl.
    rewrite block_page_insert. pose proof (block_page_at _ _ _ f Hb). tauto.
Qed.

(** A block in use is a header of the list. *)
Lemma live_block k a n :
  live k !! a = Some n -> exists b, blocks (k_heap k) !! a = Some b /\ b_size b = n.
Proof.
  unfold live. rewrite lookup_omap. destruct (blocks (k_heap k) !! a) as [b|]; [|done].
  simpl. unfold used_size. destruct (b_is_used b); [|done]. intros [= <-]. by exists b.
Qed.

(** ** The contract of the heap

    The abstract state is the finite map [live].  A client allocates a block
    that was not live and frees one that is. *)
Class HeapSpec (alloc : Z -> kernel Z) (free : Z -> kernel unit)
    (ok : kstate -> Prop) (used : kstate -> gmap Z Z) := {
  hs_alloc k n : ok k -> 0 <= n ->
    exists p k', alloc n k = Ret p k' /\ ok k' /\ heap_frame k k'
      /\ pages_step k k' /\ (p = NULL -> k' = k)
      /\ (p <> NULL -> sizeof_block_t < p /\ used k !! (p - sizeof_block_t) = None
            /\ exists c, n <= c /\ used k' = <[p - sizeof_block_t := c]> (used k));
  hs_free_null k : free NULL k = Ret tt k;
  hs_free k p : ok k -> is_Some (used k !! (p - sizeof_block_t)) -> p <> NULL ->
    exists k', free p k = Ret tt k' /\ ok k' /\ heap_frame k k' /\ pages_step k k'
      /\ used k' = delete (p - sizeof_block_t) (used k)
}.

Definition mem_ok (k : kstate) : Prop := pmm_ok k /\ heap_ok k.

#[export] Instance kmalloc_spec : HeapSpec kmalloc kfree mem_ok live.
Proof.
  split.
  - intros k n [Hpmm Hok] Hn. destruct (kmalloc_run k n Hok Hpmm Hn) as (p & k' & H & R).
    destruct R as (?&?&?&?&?&R). exists p, k'. split_and!; try done. intros Hp.
    destruct (R Hp) as (? & ? & c & ? & ?). split_and!; [lia|done|]. by exists c.
  - done.
  - intros k p [Hpmm Hok] [n Hn] Hp. apply live_block in Hn as (b & Hb & _).
    destruct (free_ok k _ b Hok Hb) as (Hok' & Hl & Hpg). eexists. split; [by apply kfree_run|].
    split; [done|]. split; [|by split]. eexists _, (k_pmm k). by rewrite with_pmm_id.
Qed.

(** The copy of an array of [n / 8] pointers, as [krealloc] does it for the
    tables of pointers that the kernel keeps in heap blocks. *)
Definition copy_ptrs (dest src n : Z) : kernel unit :=
  for_range (trips 0 (n / 8)) 0 (fun i => modify (fun k =>
    with_obj {| o_thread := o_thread (k_obj k); o_context := o_context (k_obj k);
                o_queue := o_queue (k_obj k); o_node := o_node (k_obj k);
                o_as := o_as (k_obj k); o_bytes := o_bytes (k_obj k);
                arr_ptr := <[(dest, i) := default 0 (arr_ptr (k_obj k) !! (src, i))]>
                             (arr_ptr (k_obj k));
                arr_msg := arr_msg (k_obj k) |} k)).

(** A copy leaves the allocators alone. *)
Definition same_mm (k k' : kstate) : Prop :=
  k_pmm k' = k_pmm k /\ k_heap k' = k_heap k /\ kernel_end k' = kernel_end k.

Lemma same_mm_ok k k' : same_mm k k' -> mem_ok k -> mem_ok k' /\ live k' = live k.
Proof.
  intros (Hp & Hh & He). unfold mem_ok, pmm_ok, heap_ok, live, k_free.
  by rewrite Hp, Hh, He.
Qed.

Lemma copy_ptrs_same_mm dest src n k :
  exists k', copy_ptrs dest src n k = Ret tt k' /\ same_mm k k'.
Proof.
  unfold copy_ptrs. apply (for_range_inv (fun _ k' => same_mm k k')); [by split|].
  intros j s _ Hs. eexists. split; [reflexivity|]. exact Hs.
Qed.

(** ** Properties *)

(** C2: a successful [kmalloc] returns the payload of a block that was not in
    use, of at least the requested size; every other block keeps its state, the
    headers stay a well-formed list of disjoint blocks, nothing but the heap and
    the page bitmap changes, and the pages taken are the pages the heap gained.  NULL changes nothing.  It always returns. *)
Theorem kmalloc_correct k size :
  mem_ok k -> 0 <= size ->
  exists p k', kmalloc size k = Ret p k' /\ mem_ok k' /\ heap_frame k k' /\ pages_step k k'
    /\ (p = NULL -> k' = k)
    /\ (p <> NULL -> 0 < size < PAGE_BLOCK /\ sizeof_block_t < p
          /\ live k !! (p - sizeof_block_t) = None
          /\ exists c, size <= c /\ live k' = <[p - sizeof_block_t := c]> (live k)).
Proof.
  intros Hok Hs. destruct (hs_alloc (alloc := kmalloc) k size Hok Hs)
    as (p & k' & H & Hok' & Hf & Hpg & Hn & Hp).
  exists p, k'. split; [done|]. split; [done|]. split; [done|]. split; [done|]. split; [done|].
  intros Hnn. destruct (Hp Hnn) as (? & ? & ?).
  destruct (decide (0 < size < PAGE_BLOCK)) as [|Hr]; [done|].
  rewrite kmalloc_refuse in H by lia. by injection H as <- _.
Qed.

(** A heap of one page whose first block, of [n] bytes, is in use. *)
Definition heap_with (n : Z) : heap_t :=
  {| CURRENT_BLOCK := 0x100000;
     blocks := {[ 0x100000 := {| b_size := n; b_is_used := true; b_next := 0x100018 + n |};
                  0x100018 + n := {| b_size := 4048 - n; b_is_used := false; b_next := NULL |} ]} |}.

Lemma heap_with_blocks n a b :
  blocks (heap_with n) !! a = Some b ->
  a = 0x100000 /\ b = {| b_size := n; b_is_used := true; b_next := 0x100018 + n |}
  \/ a = 0x100018 + n /\ b = {| b_size := 4048 - n; b_is_used := false; b_next := NULL |}.
Proof.
  cbn [blocks heap_with].
  intros [(<- & <-)|(_ & H)]%lookup_insert_Some; [by left|].
  apply lookup_singleton_Some in H as [<- <-]. by right.
Qed.

Lemma heap_with_ok n :
  16 <= n <= 4032 -> n mod 8 = 0 -> mem_ok (with_heap (heap_with n) k0).
Proof.
  intros Hn Hmod. split; [exact k0_ok|].
  assert (H1 : blocks (heap_with n) !! (0x100018 + n)
            = Some {| b_size := 4048 - n; b_is_used := false; b_next := NULL |}).
  { cbn [blocks heap_with]. rewrite lookup_insert_ne by lia. apply lookup_singleton_eq. }
  split; cbn [k_heap with_heap].
  - exists [0x100000; 0x100018 + n]. split.
    + eapply chain_cons; [done|by cbn [blocks heap_with CURRENT_BLOCK]; rewrite lookup_insert_eq|].
      eapply chain_cons; [unfold NULL; simpl; lia|exact H1|constructor].
    + intros a. rewrite !elem_of_cons, elem_of_nil. split.
      * intros [-> | [-> | []]]; [|by eexists]. cbn [blocks heap_with]. rewrite lookup_insert_eq. by eexists.
      * intros [b [[-> _]|[-> _]]%heap_with_blocks]; [by left|by right; left].
  - intros a b [[-> ->]|[-> ->]]%heap_with_blocks; unfold block_ok, extent_end, sizeof_block_t; simpl.
    + split_and!; first [lia|done|div_lia].
    + assert ((1048600 + n) / 4096 = 256) as -> by div_lia.
      split_and!; first [lia|done|div_lia].
  - intros a1 b1 a2 b2 Hne [[-> ->]|[-> ->]]%heap_with_blocks [[-> ->]|[-> ->]]%heap_with_blocks;
      try done; unfold disjoint_blocks, extent_end, sizeof_block_t; simpl; lia.
Qed.

Definition k1 : kstate := with_heap (heap_with 48) k0.

Lemma k1_ok : mem_ok k1.
Proof. by apply heap_with_ok. Qed.

Lemma kmalloc_correct_witness :
  exists p k', kmalloc 100 k1 = Ret p k' /\ p = 0x100060 /\ mem_ok k'.
Proof.
  destruct (kmalloc_correct k1 100 k1_ok ltac:(lia)) as (p & k' & H & Hok & _).
  exists p, k'. split; [exact H|]. split; [|exact Hok].
  vm_compute in H. by injection H as <- _.
Defined.

(** [kfree] makes the block of [ptr] reusable and touches no other block; it
    keeps the heap well formed; freeing twice is the same as freeing once, and
    freeing NULL does nothing. *)
Lemma kfree_correct k p :
  mem_ok k ->
  kfree NULL k = Ret tt k
  /\ (is_Some (live k !! (p - sizeof_block_t)) -> p <> NULL ->
      exists k', kfree p k = Ret tt k' /\ mem_ok k' /\ heap_frame k k'
        /\ live k' = delete (p - sizeof_block_t) (live k)
        /\ kfree p k' = Ret tt k').
Proof.
  intros [Hpmm Hok]. split; [done|]. intros [n (b & Hb & _)%live_block] Hp.
  destruct (free_ok k _ b Hok Hb) as (Hok' & Hl & _). eexists. split; [by apply kfree_run|].
  split; [done|]. split; [eexists _, (k_pmm k); by rewrite with_pmm_id|]. split; [done|].
  rewrite (kfree_run _ _ (set_used false b)) by (done || (simpl; by rewrite lookup_insert_eq)).
  unfold put_block, with_heap. simpl. by rewrite insert_insert_eq.
Qed.

Lemma kfree_correct_witness :
  exists k', kfree 0x100018 k1 = Ret tt k' /\ live k' = delete 0x100000 (live k1).
Proof.
  destruct (proj2 (kfree_correct k1 0x100018 k1_ok)) as (k' & H & _ & _ & Hl & _);
    [by eexists|done|]. exists k'. split; [exact H|exact Hl].
Defined.



(** [kmalloc_init] gives a well-formed heap of one unused block that fills a
    page, or fails, changing nothing, when no page is free. *)
Lemma kmalloc_init_establishes k :
  pmm_ok k -> blocks (k_heap k) = ∅ ->
  exists r k', kmalloc_init k = Ret r k'
    /\ (r = true -> mem_ok k' /\ live k' = ∅
          /\ blocks (k_heap k') !! CURRENT_BLOCK (k_heap k')
             = Some {| b_size := PAGE_BLOCK; b_is_used := false; b_next := NULL |})
    /\ (r = false -> k' = k).
Proof.
  intros Hpmm Hempty. unfold kmalloc_init.
  destruct (ps_total (alloc := kpalloc) k Hpmm) as (p & k' & Hp). rewrite (bind_run _ _ _ _ _ Hp).
  destruct (Z.eqb_spec p NULL) as [->|Hnn].
  { exists false, k'. split_and!; [done|done|]. intros _. exact (ps_none (alloc := kpalloc) _ _ Hpmm Hp). }
  destruct (ps_frame (alloc := kpalloc) _ _ _ Hpmm Hp) as (q & ->).
  destruct (ps_fresh (alloc := kpalloc) _ _ _ Hpmm Hp Hnn) as (Hal & Hpos & _ & _ & Hnow).
  eexists true, _. split; [reflexivity|]. split; [|done]. intros _. simpl. rewrite Hempty.
  split; [|split; [|by rewrite lookup_insert_eq]].
  - split; [exact (ps_ok (alloc := kpalloc) _ _ _ Hpmm Hp)|]. unfold heap_ok. simpl.
    split.
    + exists [p]. split; [eapply chain_cons; [done|by rewrite lookup_insert_eq|constructor]|].
      intros a. rewrite list_elem_of_singleton, lookup_insert. case_decide; [|by rewrite lookup_empty, is_Some_alt].
      subst. split; [by eexists|done].
    + intros a b. rewrite lookup_insert. case_decide; [|by rewrite lookup_empty]. intros [= <-]. subst a.
      unfold block_ok, PAGE_BLOCK, extent_end, sizeof_block_t. simpl.
      split_and!; try lia; try done; try div_lia.
      change (k_free (with_pmm q k) (p / 4096) = false). by rewrite Hnow, bool_decide_eq_true_2.
    + intros a1 b1 a2 b2 Hne. rewrite !lookup_insert. repeat case_decide; rewrite ?lookup_empty; congruence.
  - unfold live. simpl. rewrite live_unused by done. rewrite omap_empty. apply delete_empty.
Qed.

Lemma kmalloc_init_establishes_witness :
  exists k', kmalloc_init k0 = Ret true k' /\ mem_ok k'.
Proof.
  destruct (kmalloc_init_establishes k0 k0_ok eq_refl) as (r & k' & H & Ht & _).
  assert (E : match kmalloc_init k0 with Ret r _ => r | _ => false end = true)
    by (vm_compute; reflexivity).
  rewrite H in E. subst r. exists k'. split; [exact H|exact (proj1 (Ht eq_refl))].
Defined.

(** when every block of the list is in use, [kmalloc] returns NULL for every
    size, however many physical pages are free: only an unused block too small
    for the request makes it ask for a page. *)
Lemma kmalloc_no_unused_block k size :
  heap_ok k -> (forall a b, blocks (k_heap k) !! a = Some b -> b_is_used b = true) ->
  0 <= size -> kmalloc size k = Ret NULL k.
Proof.
  intros Hok Hall Hs. destruct (decide (0 < size < PAGE_BLOCK)) as [Hr|]; [|apply kmalloc_refuse; lia].
  destruct (kmalloc_unfold k size Hok Hr) as (l & Hc & Hdom & ->).
  destruct (first_unused _ l) as [[a b]|] eqn:E; [|done].
  apply first_unused_Some in E as [Hb Hu]. apply Hall in Hb. congruence.
Qed.

(** A heap of one page, in one block in use: five frames of [k0] are free. *)
Definition k_full : kstate :=
  with_heap {| CURRENT_BLOCK := 0x100000;
               blocks := {[ 0x100000 := {| b_size := PAGE_BLOCK; b_is_used := true; b_next := NULL |} ]} |} k0.

Lemma k_full_heap : heap_ok k_full.
Proof.
  split; simpl.
  - exists [0x100000]. split; [eapply chain_cons; [done|reflexivity|constructor]|].
    intros a. rewrite list_elem_of_singleton. split; [by intros ->; eexists|].
    by intros [b [<- _]%lookup_singleton_Some].
  - intros a b [<- <-]%lookup_singleton_Some. unfold block_ok, extent_end; simpl;
      split_and!; first [lia | done | (compute; congruence)].
  - intros a1 b1 a2 b2 Hne [<- <-]%lookup_singleton_Some [<- <-]%lookup_singleton_Some. done.
Qed.

Lemma kmalloc_no_unused_block_witness :
  kmalloc 16 k_full = Ret NULL k_full /\ k_free k_full 258 = true.
Proof.
  split; [|reflexivity]. apply kmalloc_no_unused_block; [exact k_full_heap| |lia].
  cbn [blocks k_heap k_full with_heap]. by intros a b [_ <-]%lookup_singleton_Some.
Defined.
