(* ===== verification/Objects.v ===== *)
(** * The typed object stores: accesses through pointers

    [kmalloc] hands out the address of a payload; the object that the C code
    keeps there is found in the store of its type.  [objs_frame] says that the
    objects in the live blocks of the heap did not change. *)

From S2P Require Import Prelude State Utils Pmm Heap.

Definition put_thread (a : Z) (v : thread_t) (o : objs_t) : objs_t :=
  {| o_thread := <[a := v]> (o_thread o); o_context := o_context o; o_queue := o_queue o; o_node := o_node o;
     o_as := o_as o; o_bytes := o_bytes o; arr_ptr := arr_ptr o; arr_msg := arr_msg o |}.
Definition put_context (a : Z) (v : context_t) (o : objs_t) : objs_t :=
  {| o_thread := o_thread o; o_context := <[a := v]> (o_context o); o_queue := o_queue o; o_node := o_node o;
     o_as := o_as o; o_bytes := o_bytes o; arr_ptr := arr_ptr o; arr_msg := arr_msg o |}.
Definition put_queue (a : Z) (v : ipc_queue_t) (o : objs_t) : objs_t :=
  {| o_thread := o_thread o; o_context := o_context o; o_queue := <[a := v]> (o_queue o); o_node := o_node o;
     o_as := o_as o; o_bytes := o_bytes o; arr_ptr := arr_ptr o; arr_msg := arr_msg o |}.
Definition put_node (a : Z) (v : ramfs_node_t) (o : objs_t) : objs_t :=
  {| o_thread := o_thread o; o_context := o_context o; o_queue := o_queue o; o_node := <[a := v]> (o_node o);
     o_as := o_as o; o_bytes := o_bytes o; arr_ptr := arr_ptr o; arr_msg := arr_msg o |}.
Definition put_as (a : Z) (v : addrspace_t) (o : objs_t) : objs_t :=
  {| o_thread := o_thread o; o_context := o_context o; o_queue := o_queue o; o_node := o_node o;
     o_as := <[a := v]> (o_as o); o_bytes := o_bytes o; arr_ptr := arr_ptr o; arr_msg := arr_msg o |}.
Definition put_bytes (a : Z) (v : list Z) (o : objs_t) : objs_t :=
  {| o_thread := o_thread o; o_context := o_context o; o_queue := o_queue o; o_node := o_node o;
     o_as := o_as o; o_bytes := <[a := v]> (o_bytes o); arr_ptr := arr_ptr o; arr_msg := arr_msg o |}.
Definition put_ptr (a i : Z) (v : Z) (o : objs_t) : objs_t :=
  {| o_thread := o_thread o; o_context := o_context o; o_queue := o_queue o; o_node := o_node o;
     o_as := o_as o; o_bytes := o_bytes o; arr_ptr := <[(a, i) := v]> (arr_ptr o); arr_msg := arr_msg o |}.
Definition put_msg (a i : Z) (v : ipc_msg_t) (o : objs_t) : objs_t :=
  {| o_thread := o_thread o; o_context := o_context o; o_queue := o_queue o; o_node := o_node o;
     o_as := o_as o; o_bytes := o_bytes o; arr_ptr := arr_ptr o; arr_msg := <[(a, i) := v]> (arr_msg o) |}.

Definition upd_obj (f : objs_t -> objs_t) : kernel unit :=
  modify (fun k => with_obj (f (k_obj k)) k).

(** ** Loads and stores *)

Definition load_thread (a : Z) : kernel thread_t :=
  k <- gets id ;; deref (o_thread (k_obj k) !! a).
Definition load_context (a : Z) : kernel context_t :=
  k <- gets id ;; deref (o_context (k_obj k) !! a).
Definition load_queue (a : Z) : kernel ipc_queue_t :=
  k <- gets id ;; deref (o_queue (k_obj k) !! a).
Definition load_node (a : Z) : kernel ramfs_node_t :=
  k <- gets id ;; deref (o_node (k_obj k) !! a).
Definition load_as (a : Z) : kernel addrspace_t :=
  k <- gets id ;; deref (o_as (k_obj k) !! a).
Definition load_bytes (a : Z) : kernel (list Z) :=
  k <- gets id ;; deref (o_bytes (k_obj k) !! a).
Definition load_ptr (a i : Z) : kernel Z := k <- gets id ;; deref (arr_ptr (k_obj k) !! (a, i)).
Definition load_msg (a i : Z) : kernel ipc_msg_t :=
  k <- gets id ;; deref (arr_msg (k_obj k) !! (a, i)).

Definition store_thread (a : Z) (v : thread_t) : kernel unit := upd_obj (put_thread a v).
Definition store_context (a : Z) (v : context_t) : kernel unit := upd_obj (put_context a v).
Definition store_queue (a : Z) (v : ipc_queue_t) : kernel unit := upd_obj (put_queue a v).
Definition store_node (a : Z) (v : ramfs_node_t) : kernel unit := upd_obj (put_node a v).
Definition store_as (a : Z) (v : addrspace_t) : kernel unit := upd_obj (put_as a v).
Definition store_bytes (a : Z) (v : list Z) : kernel unit := upd_obj (put_bytes a v).
Definition store_ptr (a i v : Z) : kernel unit := upd_obj (put_ptr a i v).
Definition store_msg (a i : Z) (v : ipc_msg_t) : kernel unit := upd_obj (put_msg a i v).

Lemma load_thread_run k a v : o_thread (k_obj k) !! a = Some v -> load_thread a k = Ret v k.
Proof. intros H. unfold load_thread. cbn [bind gets id]. by rewrite H. Qed.
Lemma load_context_run k a v : o_context (k_obj k) !! a = Some v -> load_context a k = Ret v k.
Proof. intros H. unfold load_context. cbn [bind gets id]. by rewrite H. Qed.
Lemma load_queue_run k a v : o_queue (k_obj k) !! a = Some v -> load_queue a k = Ret v k.
Proof. intros H. unfold load_queue. cbn [bind gets id]. by rewrite H. Qed.
Lemma load_node_run k a v : o_node (k_obj k) !! a = Some v -> load_node a k = Ret v k.
Proof. intros H. unfold load_node. cbn [bind gets id]. by rewrite H. Qed.
Lemma load_as_run k a v : o_as (k_obj k) !! a = Some v -> load_as a k = Ret v k.
Proof. intros H. unfold load_as. cbn [bind gets id]. by rewrite H. Qed.
Lemma load_bytes_run k a v : o_bytes (k_obj k) !! a = Some v -> load_bytes a k = Ret v k.
Proof. intros H. unfold load_bytes. cbn [bind gets id]. by rewrite H. Qed.
Lemma load_ptr_run k a i v : arr_ptr (k_obj k) !! (a, i) = Some v -> load_ptr a i k = Ret v k.
Proof. intros H. unfold load_ptr. cbn [bind gets id]. by rewrite H. Qed.
Lemma load_msg_run k a i v : arr_msg (k_obj k) !! (a, i) = Some v -> load_msg a i k = Ret v k.
Proof. intros H. unfold load_msg. cbn [bind gets id]. by rewrite H. Qed.

#[export] Hint Resolve load_thread_run load_context_run load_queue_run load_node_run load_as_run
  load_bytes_run load_ptr_run load_msg_run : nyv.

(** [a % b] on unsigned words: division by zero faults. *)
Definition umod (a b : Z) : kernel Z := if b =? 0 then stuck else ret (a mod b).

Lemma umod_run a b k : 0 < b -> umod a b k = Ret (a mod b) k.
Proof. intros H. unfold umod. by rewrite (proj2 (Z.eqb_neq b 0)) by lia. Qed.

(** ** Framing *)

(** The object at payload [a] is the same in both states. *)
Definition same_obj (a : Z) (o o' : objs_t) : Prop :=
  o_thread o' !! a = o_thread o !! a /\ o_context o' !! a = o_context o !! a
  /\ o_queue o' !! a = o_queue o !! a /\ o_node o' !! a = o_node o !! a
  /\ o_as o' !! a = o_as o !! a /\ o_bytes o' !! a = o_bytes o !! a
  /\ (forall i, arr_ptr o' !! (a, i) = arr_ptr o !! (a, i))
  /\ (forall i, arr_msg o' !! (a, i) = arr_msg o !! (a, i)).

(** [p] is the payload of a block in use. *)
Definition is_live (k : kstate) (p : Z) : Prop := is_Some (live k !! (p - sizeof_block_t)).

Definition objs_frame (k k' : kstate) : Prop :=
  forall a, is_live k a -> same_obj a (k_obj k) (k_obj k').

#[export] Instance same_obj_refl a : Reflexive (same_obj a).
Proof. by intros o. Qed.
#[export] Instance same_obj_trans a : Transitive (same_obj a).
Proof.
  intros o1 o2 o3 (?&?&?&?&?&?&H7&H8) (?&?&?&?&?&?&H7'&H8').
  split_and!; try (by etrans); intros i; [by rewrite H7'|by rewrite H8'].
Qed.
Lemma same_obj_put_thread a b v o : a <> b -> same_obj a o (put_thread b v o).
Proof. intros H. split_and!; try done. simpl. by rewrite lookup_insert_ne. Qed.
Lemma same_obj_put_context a b v o : a <> b -> same_obj a o (put_context b v o).
Proof. intros H. split_and!; try done. simpl. by rewrite lookup_insert_ne. Qed.
Lemma same_obj_put_queue a b v o : a <> b -> same_obj a o (put_queue b v o).
Proof. intros H. split_and!; try done. simpl. by rewrite lookup_insert_ne. Qed.
Lemma same_obj_put_node a b v o : a <> b -> same_obj a o (put_node b v o).
Proof. intros H. split_and!; try done. simpl. by rewrite lookup_insert_ne. Qed.
Lemma same_obj_put_as a b v o : a <> b -> same_obj a o (put_as b v o).
Proof. intros H. split_and!; try done. simpl. by rewrite lookup_insert_ne. Qed.
Lemma same_obj_put_bytes a b v o : a <> b -> same_obj a o (put_bytes b v o).
Proof. intros H. split_and!; try done. simpl. by rewrite lookup_insert_ne. Qed.
Lemma same_obj_put_ptr a b i v o : a <> b -> same_obj a o (put_ptr b i v o).
Proof. intros H. split_and!; try done. intros j. simpl. rewrite lookup_insert_ne; congruence. Qed.
Lemma same_obj_put_msg a b i v o : a <> b -> same_obj a o (put_msg b i v o).
Proof. intros H. split_and!; try done. intros j. simpl. rewrite lookup_insert_ne; congruence. Qed.

#[export] Hint Resolve same_obj_put_thread same_obj_put_context same_obj_put_queue
  same_obj_put_node same_obj_put_as same_obj_put_bytes same_obj_put_ptr same_obj_put_msg : nyv.

(** ** Allocation steps, as clients use them *)

(** What the rest of the kernel sees of [kmalloc] and [kfree]: either nothing
    happened or the returned block became live. *)
Record allocated (k k' : kstate) (p n : Z) : Prop := {
  al_ok : mem_ok k';
  al_frame : heap_frame k k';
  al_pages : pages_step k k';
  al_nonnull : p <> NULL;
  al_fresh : ~ is_live k p;
  al_cap : exists c, n <= c /\ live k' = <[p - sizeof_block_t := c]> (live k)
}.

Lemma kmalloc_step k n :
  mem_ok k -> 0 <= n ->
  (kmalloc n k = Ret NULL k) \/ exists p k', kmalloc n k = Ret p k' /\ allocated k k' p n.
Proof.
  intros Hok Hn. destruct (hs_alloc (alloc := kmalloc) k n Hok Hn) as (p & k' & H & Hok' & Hf & Hpg & H0 & H1).
  destruct (decide (p = NULL)) as [->|Hp].
  - left. by rewrite H, (H0 eq_refl).
  - right. destruct (H1 Hp) as (_ & Hfresh & Hc). exists p, k'. split; [done|]. split; try done.
    unfold is_live. rewrite Hfresh. by intros [? ?].
Qed.

Record freed (k k' : kstate) (p : Z) : Prop := {
  fr_ok : mem_ok k';
  fr_frame : heap_frame k k';
  fr_pages : pages_step k k';
  fr_live : live k' = delete (p - sizeof_block_t) (live k)
}.

Lemma kfree_step k p :
  mem_ok k -> is_live k p -> p <> NULL -> exists k', kfree p k = Ret tt k' /\ freed k k' p.
Proof.
  intros Hok Hl Hp. destruct (hs_free (free := kfree) k p Hok Hl Hp) as (k' & H & ? & ? & ? & ?).
  exists k'. split; [done|]. by split.
Qed.

Lemma heap_frame_obj k k' : heap_frame k k' -> k_obj k' = k_obj k.
Proof. by intros (h & q & ->). Qed.
Lemma heap_frame_sched k k' : heap_frame k k' -> k_sched k' = k_sched k.
Proof. by intros (h & q & ->). Qed.

Lemma allocated_live k k' p n a :
  allocated k k' p n -> is_live k' a <-> a = p \/ is_live k a.
Proof.
  intros []. destruct al_cap0 as (c & _ & E). unfold is_live. rewrite E, lookup_insert.
  case_decide; [split; [left; lia|by eexists]|]. split; [by right|]. intros [->|?]; [lia|done].
Qed.

Lemma freed_live k k' p a : freed k k' p -> is_live k' a <-> a <> p /\ is_live k a.
Proof.
  intros []. unfold is_live. rewrite fr_live0, lookup_delete.
  case_decide; [split; [by intros [? ?]|lia]|]. split; [intros ?; split; [lia|done]|by intros [_ ?]].
Qed.

Lemma mem_ok_obj o k : mem_ok (with_obj o k) <-> mem_ok k.
Proof. done. Qed.
Lemma mem_ok_sched s k : mem_ok (with_sched s k) <-> mem_ok k.
Proof. done. Qed.
Lemma live_obj o k : live (with_obj o k) = live k.
Proof. done. Qed.

(** ** Runs of pages owned outside the heap: kernel stacks *)

(** Frames [f .. f + n - 1] are allocated and hold no heap block. *)
Definition owned_run (k : kstate) (page n : Z) : Prop :=
  page mod 4096 = 0 /\ 0 < page /\ page / 4096 + n <= FRAME_COUNT (k_pmm k)
  /\ forall f, page / 4096 <= f < page / 4096 + n -> k_free k f = false /\ ~ heap_page k f.

(** The heap never enters an owned run. *)
Lemma owned_run_pages k k' page n : pages_step k k' -> owned_run k page n -> owned_run k' page n.
Proof.
  intros [Ht Hh Hfc] (Hal & Hpos & Hin & Hown). split_and!; [done|done|lia|].
  intros f Hf. destruct (Hown f Hf) as [Hfree Hheap]. split; [by apply Ht|].
  rewrite Hh. intros [?|[? ?]]; [done|congruence].
Qed.

(** What [kpalloc_contiguous] and [kpfree_contiguous] promise. *)
Lemma kpalloc_contiguous_step k n :
  mem_ok k -> 2 <= n < 2 ^ 52 ->
  (kpalloc_contiguous n k = Ret NULL k)
  \/ exists page q, kpalloc_contiguous n k = Ret page (with_pmm q k)
       /\ mem_ok (with_pmm q k) /\ page <> NULL /\ 0 < page /\ page + n * 4096 <= 2 ^ 64
       /\ owned_run (with_pmm q k) page n
       /\ FRAME_COUNT q = FRAME_COUNT (k_pmm k)
       /\ (forall f, frame_free q f
             = negb (bool_decide (page / 4096 <= f < page / 4096 + n)) && k_free k f)
       /\ (forall f, page / 4096 <= f < page / 4096 + n -> k_free k f = true).
Proof.
  intros [Hpmm Hheap] Hn. rewrite kpalloc_contiguous_run by done.
  pose proof (kernel_pages_eq k Hpmm) as [_ Hkp]. destruct Hpmm as [Hend HFC].
  destruct (find_up _ _ _) as [b|] eqn:E; [right|by left].
  apply find_up_Some in E as (Hb & Hrun & _). rewrite trips_max in Hb. rewrite run_free_spec in Hrun.
  assert (Hfree : forall f, b <= f < b + n -> k_free k f = true).
  { intros f Hf. specialize (Hrun f Hf). unfold eligible in Hrun. by apply andb_true_iff in Hrun as [? _]. }
  set (q := clear_frames (trips 0 n) b (k_pmm k)).
  assert (Hq : forall f, frame_free q f = negb (bool_decide (b <= f < b + n)) && k_free k f).
  { intros f. unfold q. rewrite frame_free_clear_frames, trips_max.
    do 3 f_equal. apply bool_decide_ext. lia. }
  assert (Hfc : FRAME_COUNT q = FRAME_COUNT (k_pmm k)).
  { unfold q. generalize (trips 0 n) as m, b, (k_pmm k). clear. intros m.
    induction m as [|m IH]; intros b p; [done|]. cbn [clear_frames]. by rewrite IH. }
  assert (Hnoheap : forall f a blk, b <= f < b + n -> blocks (k_heap k) !! a = Some blk -> a / 4096 <> f).
  { intros f a blk Hf Ha <-. apply (wf_block _ _ _ Hheap) in Ha as (_&_&_&_&_&Ha).
    rewrite Hfree in Ha by done. done. }
  exists (b * 4096), q. split; [done|]. rewrite Z.div_mul by lia. unfold NULL.
  split; [|split; [lia|split; [lia|split; [lia|split; [|done]]]]].
  - split; [split; [done|simpl; lia]|]. split; simpl.
    + exact (wf_chain _ _ _ Hheap).
    + intros a blk Ha. destruct (wf_block _ _ _ Hheap a blk Ha) as (?&?&?&?&?&Hf).
      split_and!; try done; try lia. unfold k_free in *. simpl. by rewrite Hq, Hf, andb_false_r.
    + exact (wf_disjoint _ _ _ Hheap).
  - unfold owned_run. rewrite Z.div_mul, Z.mod_mul by lia. simpl.
    split_and!; [done|lia|lia|]. intros f Hf. split.
    + unfold k_free. simpl. by rewrite Hq, bool_decide_eq_true_2.
    + intros (a & Ha & [blk Hblk]). by eapply Hnoheap.
Qed.

Lemma kpfree_contiguous_step k page n :
  mem_ok k -> 0 < n -> owned_run k page n ->
  exists q, kpfree_contiguous page n k = Ret tt (with_pmm q k)
    /\ mem_ok (with_pmm q k) /\ FRAME_COUNT q = FRAME_COUNT (k_pmm k)
    /\ forall f, frame_free q f = bool_decide (page / 4096 <= f < page / 4096 + n) || k_free k f.
Proof.
  intros [[Hend HFC] Hheap] Hn (Hal & Hpos & Hin & Hown). unfold kpfree_contiguous.
  rewrite (bind_run _ _ _ _ _ (irq_save_run k)), (proj2 (Z.eqb_neq page NULL)) by (unfold NULL; lia).
  rewrite (proj2 (Z.eqb_neq n 0)) by lia. cbn [orb].
  set (body := fun i => kpfree (u64 (page + i * 0x1000))).
  destruct (for_range_inv (fun j s => exists q, s = with_pmm q (masked k)
      /\ FRAME_COUNT q = FRAME_COUNT (k_pmm k)
      /\ forall f, frame_free q f = bool_decide (page / 4096 <= f < page / 4096 + j) || k_free k f)
    body (trips 0 n) 0 (masked k)) as (s & Hs & q & -> & Hfc & Hq).
  { exists (k_pmm k). split; [by rewrite <- masked_pmm, with_pmm_id|]. split; [done|].
    intros f. by rewrite bool_decide_eq_false_2 by lia. }
  { intros j s Hj (q & -> & Hfc & Hq). rewrite trips_max in Hj. unfold body.
    rewrite u64_small by (change 0x1000 with 4096; div_lia).
    assert (Hdiv : (page + j * 0x1000) / 4096 = page / 4096 + j) by (change 0x1000 with 4096; div_lia).
    rewrite kpfree_run; [|unfold NULL; lia|].
    - eexists. split; [reflexivity|]. exists (pmm_set (page / 4096 + j) q). rewrite Hdiv.
      split; [done|]. split; [done|]. intros f. rewrite frame_free_set, Hq, orb_assoc. f_equal.
      rewrite <- bool_decide_or. apply bool_decide_ext. lia.
    - unfold freeable. rewrite Hdiv. simpl. split; [change 0x1000 with 4096; div_lia|].
      split; [rewrite Hfc; lia|]. rewrite Hq, bool_decide_eq_false_2 by lia.
      by apply Hown; lia. }
  rewrite (bind_run _ _ _ _ _ Hs), write_flags_masked_pmm. rewrite trips_max in Hq.
  assert (Hq' : forall f, frame_free q f
                = bool_decide (page / 4096 <= f < page / 4096 + n) || k_free k f).
  { intros f. rewrite Hq. f_equal. apply bool_decide_ext. lia. }
  exists q. split; [done|]. split; [|by split]. split; [split; [done|simpl; lia]|].
  split; simpl; [exact (wf_chain _ _ _ Hheap)| |exact (wf_disjoint _ _ _ Hheap)].
  intros a blk Ha. destruct (wf_block _ _ _ Hheap a blk Ha) as (?&?&?&?&?&Hf).
  split_and!; try done; try lia. unfold k_free in *. simpl.
  rewrite Hq', Hf, orb_false_r, bool_decide_eq_false. intros Hr. apply (Hown _ Hr).
  exists a. split; [done|by eexists].
Qed.

(** ** What a routine did to the shared memory, relative to its start

    From [k] to [k'] the blocks [L] were allocated, the blocks [D] that were live
    released, and the frames [R] given back to the page allocator.  Every other
    live block keeps its object, every other owned run its frames.  A block of the
    start that was overwritten is in both [L] and [D]. *)
Record ext (k k' : kstate) (L D R : gset Z) : Prop := {
  ex_ok : mem_ok k';
  ex_state : exists o h q s, k' = with_sched s (with_obj o (with_heap h (with_pmm q k)));
  ex_live a : is_live k' a <-> a ∈ L \/ (is_live k a /\ a ∉ D);
  ex_new a : a ∈ L -> (is_live k a -> a ∈ D) /\ a <> NULL;
  ex_objs a : is_live k a -> a ∉ D -> same_obj a (k_obj k) (k_obj k');
  ex_runs page n : owned_run k page n ->
    (forall f, page / 4096 <= f < page / 4096 + n -> f ∉ R) -> owned_run k' page n
}.

(** The step from [k1] to [k2] was taken inside the memory allocators. *)
Definition mm_step (k1 k2 : kstate) : Prop :=
  k_obj k2 = k_obj k1 /\ k_sched k2 = k_sched k1
  /\ forall page n, owned_run k1 page n -> owned_run k2 page n.

Section Ext.
Context (k k1 : kstate) (L D R : gset Z) (He : ext k k1 L D R).

Lemma ext_eq L' D' : L = L' -> D = D' -> ext k k1 L' D' R.
Proof using He. by intros <- <-. Qed.

Lemma ext_kmalloc n :
  0 <= n ->
  kmalloc n k1 = Ret NULL k1
  \/ exists p k2, kmalloc n k1 = Ret p k2 /\ ext k k2 ({[p]} ∪ L) D R
       /\ p <> NULL /\ p ∉ L /\ (is_live k p -> p ∈ D) /\ n < PAGE_BLOCK /\ mm_step k1 k2.
Proof using He.
  intros Hn. destruct (kmalloc_step k1 n (ex_ok _ _ _ _ _ He) Hn) as [|(p & k2 & H & Ha)];
    [by left|right].
  destruct (ex_state _ _ _ _ _ He) as (o & h & q & s & Hk1).
  pose proof (al_frame _ _ _ _ Ha) as Hfr.
  pose proof (al_fresh _ _ _ _ Ha) as Hfresh. pose proof (ex_live _ _ _ _ _ He p) as Hp.
  assert (HpL : p ∉ L) by tauto.
  assert (HpD : is_live k p -> p ∈ D).
  { intros Hl. destruct (decide (p ∈ D)); [done|tauto]. }
  assert (Hsz : n < PAGE_BLOCK).
  { destruct (Z.lt_ge_cases n PAGE_BLOCK) as [|Hge]; [done|].
    rewrite kmalloc_refuse in H by lia. injection H as <- _. by destruct (al_nonnull _ _ _ _ Ha). }
  exists p, k2. split_and!; [done| |exact (al_nonnull _ _ _ _ Ha)|done|done|done|].
  - split.
    + exact (al_ok _ _ _ _ Ha).
    + destruct Hfr as (h' & q' & ->). subst k1. by eexists _, _, _, _.
    + intros a. rewrite (allocated_live _ _ _ _ a Ha), (ex_live _ _ _ _ _ He). set_solver.
    + intros a [->%elem_of_singleton|HaL]%elem_of_union; [|by eapply ex_new].
      split; [done|exact (al_nonnull _ _ _ _ Ha)].
    + intros a. rewrite (heap_frame_obj _ _ Hfr). apply (ex_objs _ _ _ _ _ He).
    + intros page m Ho Hr. eapply owned_run_pages; [exact (al_pages _ _ _ _ Ha)|].
      by eapply ex_runs.
  - split_and!; [by apply heap_frame_obj|by apply heap_frame_sched|].
    intros page m. apply owned_run_pages, Ha.
Qed.

Lemma ext_after_free p k2 :
  freed k1 k2 p ->
  mm_step k1 k2 /\ mem_ok k2
  /\ (exists o h q s, k2 = with_sched s (with_obj o (with_heap h (with_pmm q k))))
  /\ (forall a, is_live k2 a <-> a <> p /\ (a ∈ L \/ (is_live k a /\ a ∉ D)))
  /\ (forall a, is_live k a -> a ∉ D -> same_obj a (k_obj k) (k_obj k2))
  /\ (forall page n, owned_run k page n ->
        (forall f, page / 4096 <= f < page / 4096 + n -> f ∉ R) -> owned_run k2 page n).
Proof using He.
  intros Hf. pose proof (fr_frame _ _ _ Hf) as Hfr.
  destruct (ex_state _ _ _ _ _ He) as (o & h & q & s & Hk1). split_and!.
  - split_and!; [by apply heap_frame_obj|by apply heap_frame_sched|].
    intros page m. apply owned_run_pages, Hf.
  - apply Hf.
  - destruct Hfr as (h' & q' & ->). subst k1. by eexists _, _, _, _.
  - intros a. by rewrite (freed_live _ _ _ a Hf), (ex_live _ _ _ _ _ He).
  - intros a. rewrite (heap_frame_obj _ _ Hfr). apply (ex_objs _ _ _ _ _ He).
  - intros page m Ho Hr. eapply owned_run_pages; [apply Hf|]. by eapply ex_runs.
Qed.

(** Freeing a block allocated on the way. *)
Lemma ext_kfree_new p :
  p ∈ L -> exists k2, kfree p k1 = Ret tt k2 /\ ext k k2 (L ∖ {[p]}) D R /\ mm_step k1 k2.
Proof using He.
  intros Hp. destruct (ex_new _ _ _ _ _ He p Hp) as [HpD Hnn].
  destruct (kfree_step k1 p (ex_ok _ _ _ _ _ He)) as (k2 & H & Hf); [|done|].
  { apply (ex_live _ _ _ _ _ He). by left. }
  destruct (ext_after_free p k2 Hf) as (Hmm & Hok & Hst & Hl & Ho & Hr).
  exists k2. split; [done|]. split; [|done]. split; try done.
  - intros a. rewrite Hl. destruct (decide (a = p)) as [->|]; [|set_solver].
    split; [by intros []|]. intros [?|[Hx ?]]; [set_solver|]. by apply HpD in Hx.
  - intros a Ha. apply (ex_new _ _ _ _ _ He). set_solver.
Qed.

(** Freeing a block that was live at the start. *)
Lemma ext_kfree_old p :
  is_live k p -> p ∉ D -> p <> NULL ->
  exists k2, kfree p k1 = Ret tt k2 /\ ext k k2 L (D ∪ {[p]}) R /\ mm_step k1 k2.
Proof using He.
  intros Hp HpD Hnn.
  assert (HpL : p ∉ L) by (intros Hin; by apply (ex_new _ _ _ _ _ He) in Hin as [Hin _]; auto).
  destruct (kfree_step k1 p (ex_ok _ _ _ _ _ He)) as (k2 & H & Hf); [|done|].
  { apply (ex_live _ _ _ _ _ He). by right. }
  destruct (ext_after_free p k2 Hf) as (Hmm & Hok & Hst & Hl & Ho & Hr).
  exists k2. split; [done|]. split; [|done]. split; try done.
  - intros a. rewrite Hl. set_solver.
  - intros a Ha. destruct (ex_new _ _ _ _ _ He a Ha). set_solver.
  - intros a Ha HaD. apply Ho; set_solver.
Qed.

(** A store that leaves the live blocks of the start alone. *)
Lemma ext_obj o :
  (forall a, is_live k a -> a ∉ D -> same_obj a (k_obj k1) o) -> ext k (with_obj o k1) L D R.
Proof using He.
  intros Ho. destruct He as [Hok (o1 & h & q & s & ->) Hl Hn Hob Hr]. split; try done.
  - by eexists _, _, _, _.
  - intros a Ha HaD. etrans; [by apply Hob|]. by apply Ho.
Qed.

Lemma ext_sched s : ext k (with_sched s k1) L D R.
Proof using He.
  destruct He as [Hok (o1 & h & q & s1 & ->) Hl Hn Hob Hr]. split; try done. by eexists _, _, _, _.
Qed.
End Ext.

Lemma with_all_id k :
  k = with_sched (k_sched k) (with_obj (k_obj k) (with_heap (k_heap k) (with_pmm (k_pmm k) k))).
Proof. by destruct k. Qed.

Lemma ext_refl k : mem_ok k -> ext k k ∅ ∅ ∅.
Proof.
  intros Hok. split; try done.
  - by eexists _, _, _, _; apply with_all_id.
  - set_solver.
Qed.

(** Addresses allocated on the way differ from the live blocks of the start. *)
Lemma ext_fresh k k1 L D R p a :
  ext k k1 L D R -> p ∈ L -> is_live k a -> a ∉ D -> a <> p.
Proof. intros He Hp Ha HaD ->. by apply (ex_new _ _ _ _ _ He) in Hp as [Hp _]; auto. Qed.

(** Changes of the page bitmap alone. *)
Lemma is_live_pmm q k a : is_live (with_pmm q k) a <-> is_live k a.
Proof. done. Qed.

Lemma ext_pmm k k1 L D R R' q :
  ext k k1 L D R -> mem_ok (with_pmm q k1) -> R ⊆ R' ->
  (forall page n, owned_run k page n -> (forall f, page / 4096 <= f < page / 4096 + n -> f ∉ R') ->
     owned_run k1 page n -> owned_run (with_pmm q k1) page n) ->
  ext k (with_pmm q k1) L D R'.
Proof.
  intros [Hok (o1 & h & q1 & s & ->) Hl Hn Hob Hr] Hok' HR Hr'. split; try done.
  - by eexists _, _, _, _.
  - intros page n Ho HR'. apply Hr'; [done|done|]. apply Hr; [done|]. intros f Hf. specialize (HR' f Hf); set_solver.
Qed.

(** No owned run of [k] meets the run: it was taken later. *)
Definition new_run (k : kstate) (page n : Z) : Prop :=
  forall p m f, owned_run k p m -> p / 4096 <= f < p / 4096 + m ->
    ~ (page / 4096 <= f < page / 4096 + n).

(** Taking a run of frames. *)
Lemma ext_stack_alloc k k1 L D R n :
  ext k k1 L D R -> 2 <= n < 2 ^ 52 ->
  kpalloc_contiguous n k1 = Ret NULL k1
  \/ exists page k2, kpalloc_contiguous n k1 = Ret page k2 /\ ext k k2 L D R
       /\ page <> NULL /\ 0 < page /\ page + n * 4096 <= 2 ^ 64 /\ owned_run k2 page n
       /\ (R = ∅ -> new_run k page n) /\ mm_step k1 k2.
Proof.
  intros He Hn. destruct (kpalloc_contiguous_step k1 n (ex_ok _ _ _ _ _ He) Hn)
    as [|(page & q & H & Hok & Hnn & Hpos & Hmax & Hrun & Hfc & Hq & Hfree)]; [by left|right].
  assert (Hkeep : forall p m, owned_run k1 p m -> owned_run (with_pmm q k1) p m).
  { intros p m (H1 & H2 & H3 & H4). split_and!; [done|done|simpl; lia|].
    intros f Hf. destruct (H4 f Hf) as [Hff Hh]. split; [|exact Hh].
    unfold k_free in *. simpl. by rewrite Hq, Hff, andb_false_r. }
  exists page, (with_pmm q k1). split; [done|]. split.
  { eapply ext_pmm; try done. intros; by apply Hkeep. }
  do 4 (split; [done|]). split; [|by split_and!].
  intros -> p m f Ho Hf Hin. apply (ex_runs _ _ _ _ _ He) in Ho; [|set_solver].
  destruct Ho as (_ & _ & _ & Hown). destruct (Hown f Hf) as [Hff _]. by rewrite Hfree in Hff.
Qed.

(** Giving a run back: the frames [R] of the result are the run's. *)
Lemma ext_stack_free k k1 L D R R' page n :
  ext k k1 L D R -> 0 < n -> owned_run k1 page n -> R ⊆ R' ->
  (forall p m f, owned_run k p m -> p / 4096 <= f < p / 4096 + m ->
     page / 4096 <= f < page / 4096 + n -> f ∈ R') ->
  exists k2, kpfree_contiguous page n k1 = Ret tt k2 /\ ext k k2 L D R'
    /\ k_obj k2 = k_obj k1 /\ k_sched k2 = k_sched k1.
Proof.
  intros He Hn Hrun HR HR'.
  destruct (kpfree_contiguous_step k1 page n (ex_ok _ _ _ _ _ He) Hn Hrun)
    as (q & H & Hok & Hfc & Hq).
  exists (with_pmm q k1). split; [done|]. split; [|done]. eapply ext_pmm; try done.
  intros p m Hkp Hdis (H1 & H2 & H3 & H4). split_and!; [done|done|simpl; lia|].
  intros f Hf. destruct (H4 f Hf) as [Hff Hh]. split; [|exact Hh].
  unfold k_free in *. simpl. rewrite Hq, Hff, orb_false_r, bool_decide_eq_false.
  intros Hfp. by eapply (Hdis f Hf), HR'.
Qed.

(** ** Composition *)

Lemma ext_trans k k1 k2 L1 D1 R1 L2 D2 R2 :
  ext k k1 L1 D1 R1 -> ext k1 k2 L2 D2 R2 ->
  ext k k2 (L1 ∖ D2 ∪ L2) (D1 ∪ D2 ∖ L1) (R1 ∪ R2).
Proof.
  intros [Hok1 (o1 & h1 & q1 & s1 & ->) Hl1 Hn1 Ho1 Hr1] [Hok2 (o2 & h2 & q2 & s2 & ->) Hl2 Hn2 Ho2 Hr2].
  split; [done|by eexists _, _, _, _| | | |].
  - intros a. rewrite Hl2, Hl1, !elem_of_union, !elem_of_difference.
    pose proof (Hn1 a). destruct (decide (a ∈ L1)), (decide (a ∈ D2)), (decide (a ∈ D1)); tauto.
  - intros a. pose proof (Hn1 a). pose proof (Hn2 a). pose proof (Hl1 a).
    rewrite !elem_of_union, !elem_of_difference.
    destruct (decide (a ∈ L1)), (decide (a ∈ D2)), (decide (a ∈ D1)); tauto.
  - intros a Ha. rewrite elem_of_union, elem_of_difference. intros HD.
    assert (a ∉ L1) by (intros Hin; destruct (Hn1 a Hin); tauto).
    etrans; [apply Ho1; tauto|]. apply Ho2; [apply Hl1; tauto|tauto].
  - intros page n Hr Hf. apply Hr2; [apply Hr1; [done|]|]; intros f Hin;
      specialize (Hf f Hin); set_solver.
Qed.

(** Frames that no run owned at the start holds may be given back. *)
Lemma ext_drop k k1 L D R :
  ext k k1 L D R ->
  (forall p m f, owned_run k p m -> p / 4096 <= f < p / 4096 + m -> f ∉ R) ->
  ext k k1 L D ∅.
Proof. intros [? ? ? ? ? Hr] HR. split; try done. intros page n Ho _. apply Hr; [done|]. intros f Hf. by eapply HR. Qed.

Lemma ext_same k k1 L D R L' D' R' :
  ext k k1 L D R -> L = L' -> D = D' -> R = R' -> ext k k1 L' D' R'.
Proof. by intros ? <- <- <-. Qed.

Lemma ext_weaken_runs k k1 L D R R' : ext k k1 L D R -> R ⊆ R' -> ext k k1 L D R'.
Proof.
  intros [? ? ? ? ? Hr] HR. split; try done. intros page n Ho Hf. apply Hr; [done|].
  intros f Hin. specialize (Hf f Hin). set_solver.
Qed.

Lemma null_not_live k : mem_ok k -> ~ is_live k NULL.
Proof.
  intros [_ Hok] [n (b & Hb & _)%live_block]. apply (wf_block _ _ _ Hok) in Hb as [Hb _].
  unfold NULL, sizeof_block_t in Hb. lia.
Qed.

(** Overwriting the object of a live block. *)
Lemma ext_write k k1 L D R p f :
  ext k k1 L D R -> mem_ok k -> is_live k1 p ->
  (forall a, a <> p -> same_obj a (k_obj k1) (f (k_obj k1))) ->
  ext k (with_obj (f (k_obj k1)) k1) ({[p]} ∪ L) ({[p]} ∪ D) R.
Proof.
  intros He Hok Hp Hf. pose proof (ex_ok _ _ _ _ _ He) as Hok1.
  assert (Hnn : p <> NULL) by (intros ->; by apply (null_not_live k1)).
  destruct He as [_ (o1 & h & q & s & ->) Hl Hn Ho Hr]. split; try done.
  - by eexists _, _, _, _.
  - intros a. change (is_live (with_sched s (with_obj o1 (with_heap h (with_pmm q k)))) a
      <-> a ∈ {[p]} ∪ L \/ is_live k a /\ a ∉ {[p]} ∪ D). rewrite Hl.
    destruct (decide (a = p)) as [->|]; [|set_solver]. apply Hl in Hp. set_solver.
  - intros a [->%elem_of_singleton|Ha]%elem_of_union; [set_solver|]. destruct (Hn a Ha). set_solver.
  - intros a Ha HaD. etrans; [apply Ho; [done|set_solver]|]. apply Hf. set_solver.
Qed.


(** A single page from [kpalloc], as a run of one frame. *)
Lemma kpalloc_step k :
  mem_ok k ->
  kpalloc k = Ret NULL k
  \/ exists p q, kpalloc k = Ret p (with_pmm q k) /\ mem_ok (with_pmm q k) /\ p <> NULL
       /\ owned_run (with_pmm q k) p 1 /\ k_free k (p / 4096) = true
       /\ (forall page n, owned_run k page n -> owned_run (with_pmm q k) page n)
       /\ (forall g, frame_free q g = negb (bool_decide (g = p / 4096)) && k_free k g).
Proof.
  intros [Hpmm Hheap]. rewrite kpalloc_run by done.
  pose proof (kernel_pages_eq k Hpmm) as [_ Hkp]. destruct Hpmm as [Hend HFC].
  destruct (find_up _ _ _) as [f|] eqn:E; [right|by left].
  apply find_up_Some in E as (Hf & Hel & _). rewrite trips_max in Hf.
  apply andb_true_iff in Hel as [Hfree _].
  exists (f * 4096), (pmm_clear f (k_pmm k)). unfold NULL.
  assert (Hq : forall g, frame_free (pmm_clear f (k_pmm k)) g = negb (bool_decide (g = f)) && k_free k g)
    by (intros g; apply frame_free_clear).
  rewrite Z.div_mul by lia. split; [done|]. split; [|split; [lia|split; [|split_and!; [done| |done]]]].
  - split; [split; [done|simpl; lia]|]. split; simpl.
    + exact (wf_chain _ _ _ Hheap).
    + intros a blk Ha. destruct (wf_block _ _ _ Hheap a blk Ha) as (?&?&?&?&?&Hf').
      split_and!; try done; try lia. unfold k_free in *. simpl. by rewrite Hq, Hf', andb_false_r.
    + exact (wf_disjoint _ _ _ Hheap).
  - unfold owned_run. rewrite Z.div_mul, Z.mod_mul by lia. simpl. split_and!; [done|lia|lia|].
    intros g Hg. assert (g = f) as -> by lia. split.
    + unfold k_free. simpl. by rewrite Hq, bool_decide_eq_true_2.
    + intros (a & Ha & [blk Hblk]). apply (wf_block _ _ _ Hheap) in Hblk as (_&_&_&_&_&Hb).
        unfold k_free in Hb. rewrite Ha in Hb. by rewrite Hfree in Hb.
  - intros page n (H1 & H2 & H3 & H4). split_and!; [done|done|simpl; lia|].
    intros g Hg. destruct (H4 g Hg) as [Hff Hh]. split; [|exact Hh].
    unfold k_free in *. simpl. by rewrite Hq, Hff, andb_false_r.
Qed.

(** ** One page back *)

Lemma kpfree_step k p :
  mem_ok k -> owned_run k p 1 ->
  kpfree p k = Ret tt (give_frame (p / 4096) k) /\ mem_ok (give_frame (p / 4096) k)
  /\ forall g, k_free (give_frame (p / 4096) k) g = bool_decide (g = p / 4096) || k_free k g.
Proof.
  intros [[Hend HFC] Hheap] (Hal & Hpos & Hin & Hown).
  assert (Hq : forall g, k_free (give_frame (p / 4096) k) g = bool_decide (g = p / 4096) || k_free k g).
  { intros g. unfold k_free, give_frame. cbn [k_pmm with_pmm]. apply frame_free_set. }
  split_and!; [|split; [split; [done|simpl; lia]|]|done].
  - apply kpfree_run; [unfold NULL; lia|]. split_and!; [done|lia|]. apply Hown. lia.
  - split; simpl; [exact (wf_chain _ _ _ Hheap)| |exact (wf_disjoint _ _ _ Hheap)].
    intros a blk Ha. destruct (wf_block _ _ _ Hheap a blk Ha) as (?&?&?&?&?&Hf).
    split_and!; try done; try lia. rewrite Hq, Hf, orb_false_r, bool_decide_eq_false. intros E.
    apply (Hown (a / 4096)); [lia|]. exists a. split; [done|by eexists].
Qed.

Lemma owned_give k f page n :
  owned_run k page n -> ~ (page / 4096 <= f < page / 4096 + n) -> owned_run (give_frame f k) page n.
Proof.
  intros (H1 & H2 & H3 & H4) Hf. split_and!; [done|done|simpl; lia|]. intros g Hg.
  destruct (H4 g Hg) as [Hfree Hheap]. split; [|done].
  unfold k_free, give_frame in *. cbn [k_pmm with_pmm]. rewrite frame_free_set, Hfree.
  rewrite bool_decide_eq_false_2; [done|]. intros ->. by apply Hf.
Qed.
