(* ===== verification/Dma.v ===== *)
(** * mm/dma.c: the pages for device transfers

    [DMA_BITMAP] has a bit per page of a run of sixteen pages taken from the
    page allocator at [DMA_PAGES]; a set bit is a page in use. *)

From S2P Require Import Prelude State Utils Pmm Heap Objects.

Definition DMA_VIRT_BASE : Z := 0xFFFF800000500000.
Definition DMA_BITMAP_SIZE : Z := 128.
Definition DMA_PAGE_AMOUNT : Z := 16.

Definition set_dma (bitmap : list Z) (pages : Z) : kernel unit :=
  modify (with_dma {| DMA_BITMAP := bitmap; DMA_PAGES := pages |}).

Definition kdma_init : kernel bool :=
  d <- gets k_dma ;;
  _ <- set_dma (replicate (Z.to_nat DMA_BITMAP_SIZE) 0) (DMA_PAGES d) ;;
  pages <- kpalloc_contiguous DMA_PAGE_AMOUNT ;;
  d <- gets k_dma ;;
  _ <- set_dma (DMA_BITMAP d) pages ;;
  ret (negb (pages =? 0)).

Definition dma_mask (i : Z) : Z := u8 (Z.shiftl 1 (i mod 8)).

Definition kdma_palloc : kernel Z :=
  r <- for_until (trips 0 DMA_PAGE_AMOUNT) 0 (fun i =>
    d <- gets k_dma ;;
    let byte := Z.to_nat (u8 (i / 8)) in
    b <- deref (DMA_BITMAP d !! byte) ;;
    if Z.land b (dma_mask i) =? 0 then
      _ <- set_dma (<[byte := u8 (Z.lor b (dma_mask i))]> (DMA_BITMAP d)) (DMA_PAGES d) ;;
      ret (Some (u64 (DMA_PAGES d + 4096 * i)))
    else ret None) ;;
  ret (default NULL r).

Definition kdma_pfree (page : Z) : kernel unit :=
  d <- gets k_dma ;;
  if (page <? DMA_PAGES d) || (u64 (DMA_PAGES d + DMA_PAGE_AMOUNT * 4096) <=? page) then ret tt else
  let offset := page - DMA_PAGES d in
  if negb (offset mod 4096 =? 0) then ret tt else
  let n := offset / 4096 in
  let byte := Z.to_nat (u8 (n / 8)) in
  b <- deref (DMA_BITMAP d !! byte) ;;
  set_dma (<[byte := u8 (Z.land b (Z.lnot (dma_mask n)))]> (DMA_BITMAP d)) (DMA_PAGES d).

Definition kdma_pnfree (pages_start : Z) : kernel unit := ret tt.

(** ** The set of pages in use *)

Definition dma_used (d : dma_t) (i : Z) : bool :=
  Z.testbit (default 0 (DMA_BITMAP d !! Z.to_nat (i / 8))) (i mod 8).

Record dma_ok (d : dma_t) : Prop := {
  dma_length : length (DMA_BITMAP d) = Z.to_nat DMA_BITMAP_SIZE;
  dma_pages : 0 <= DMA_PAGES d < 2 ^ 52
}.

(** [d'] is [d] but for the use of page [i]. *)
Record dma_update (d d' : dma_t) (i : Z) (used : bool) : Prop := {
  du_ok : dma_ok d';
  du_pages : DMA_PAGES d' = DMA_PAGES d;
  du_used j : 0 <= j < DMA_PAGE_AMOUNT -> dma_used d' j = if decide (j = i) then used else dma_used d j
}.

Lemma dma_mask_eq i : dma_mask i = Z.shiftl 1 (i mod 8).
Proof.
  unfold dma_mask. apply u8_small. pose proof (Z.mod_pos_bound i 8 ltac:(lia)). rewrite Z.shiftl_1_l.
  split; [apply Z.pow_nonneg; lia|]. change 256 with (2 ^ 8). apply Z.pow_lt_mono_r; lia.
Qed.

Lemma dma_byte d i :
  dma_ok d -> 0 <= i < DMA_PAGE_AMOUNT ->
  exists b, DMA_BITMAP d !! Z.to_nat (u8 (i / 8)) = Some b /\ dma_used d i = Z.testbit b (i mod 8).
Proof.
  intros Hok Hi. unfold DMA_PAGE_AMOUNT in Hi. rewrite u8_small by div_lia.
  destruct (lookup_lt_is_Some_2 (DMA_BITMAP d) (Z.to_nat (i / 8))) as [b Hb].
  { rewrite (dma_length _ Hok). unfold DMA_BITMAP_SIZE. div_lia. }
  exists b. split; [done|]. unfold dma_used. by rewrite Hb.
Qed.

(** Writing the byte of page [i] so that only its bit changes. *)
Lemma dma_write d i b v used :
  dma_ok d -> 0 <= i < DMA_PAGE_AMOUNT -> DMA_BITMAP d !! Z.to_nat (u8 (i / 8)) = Some b ->
  (forall j, 0 <= j < 8 -> Z.testbit v j = if decide (j = i mod 8) then used else Z.testbit b j) ->
  dma_update d {| DMA_BITMAP := <[Z.to_nat (u8 (i / 8)) := v]> (DMA_BITMAP d); DMA_PAGES := DMA_PAGES d |} i used.
Proof.
  intros [Hl Hp] Hi Hb Hv. unfold DMA_PAGE_AMOUNT in *. rewrite u8_small in * by div_lia.
  split; [split; simpl; [by rewrite length_insert|done]|done|].
  intros j Hj. unfold dma_used. cbn [DMA_BITMAP]. pose proof (Z.mod_pos_bound j 8 ltac:(lia)) as Hm.
  destruct (decide (i / 8 = j / 8)) as [E|E].
  - rewrite <- E, list_lookup_insert_eq by (by eapply lookup_lt_Some). rewrite Hb. cbn [default].
    change (default ?x (Some ?y)) with y.
    rewrite Hv by lia. destruct (decide (j mod 8 = i mod 8)), (decide (j = i)); try done; exfalso; div_lia.
  - rewrite list_lookup_insert_ne by div_lia. rewrite decide_False; [done|]. intros ->. done.
Qed.

(** The result of [kdma_palloc] and the table it leaves. *)
Definition dma_first (d : dma_t) : option Z :=
  find_up (fun i => negb (dma_used d i)) (trips 0 DMA_PAGE_AMOUNT) 0.

Definition dma_take (d : dma_t) (i : Z) : dma_t :=
  let byte := Z.to_nat (u8 (i / 8)) in
  {| DMA_BITMAP := <[byte := u8 (Z.lor (default 0 (DMA_BITMAP d !! byte)) (dma_mask i))]> (DMA_BITMAP d);
     DMA_PAGES := DMA_PAGES d |}.

Lemma dma_take_update d i : dma_ok d -> 0 <= i < DMA_PAGE_AMOUNT -> dma_update d (dma_take d i) i true.
Proof.
  intros Hok Hi. destruct (dma_byte d i Hok Hi) as (b & Hb & _). unfold dma_take. rewrite Hb.
  change (default 0 (Some b)) with b.
  apply (dma_write d i b); [done|done|done|]. intros j Hj.
  rewrite dma_mask_eq, testbit_set_bit by first [apply Z.mod_pos_bound; lia|lia].
  by destruct (bool_decide_reflect (j = i mod 8)), (decide (j = i mod 8)).
Qed.

Lemma kdma_palloc_run k :
  dma_ok (k_dma k) ->
  kdma_palloc k
  = match dma_first (k_dma k) with
    | Some i => Ret (DMA_PAGES (k_dma k) + 4096 * i) (with_dma (dma_take (k_dma k) i) k)
    | None => Ret NULL k
    end.
Proof.
  intros Hok. unfold kdma_palloc, bind at 1.
  rewrite (for_until_scan (fun i => negb (dma_used (k_dma k) i))
    (fun i s => Ret (Some (DMA_PAGES (k_dma k) + 4096 * i)) (with_dma (dma_take (k_dma k) i) k))).
  - unfold dma_first. by destruct (find_up _ _ _).
  - intros i Hi. rewrite trips_max in Hi. unfold DMA_PAGE_AMOUNT in Hi.
    destruct (dma_byte (k_dma k) i Hok Hi) as (b & Hb & Hu).
    cbn [bind gets]. unfold bind at 1. rewrite Hb. cbn [deref ret]. rewrite Hu, dma_mask_eq.
    pose proof (Z.mod_pos_bound i 8 ltac:(lia)).
    rewrite <- (land_shiftl_1_testbit b (i mod 8)), negb_involutive by lia.
    destruct (_ =? 0); [|done]. unfold dma_take. rewrite Hb, dma_mask_eq. cbn.
    rewrite u64_small; [done|]. destruct Hok as [_ Hp]. lia.
  - intros i _ _. by do 2 eexists.
Qed.

Definition dma_give (d : dma_t) (i : Z) : dma_t :=
  let byte := Z.to_nat (u8 (i / 8)) in
  {| DMA_BITMAP := <[byte := u8 (Z.land (default 0 (DMA_BITMAP d !! byte)) (Z.lnot (dma_mask i)))]> (DMA_BITMAP d);
     DMA_PAGES := DMA_PAGES d |}.

Lemma dma_give_update d i : dma_ok d -> 0 <= i < DMA_PAGE_AMOUNT -> dma_update d (dma_give d i) i false.
Proof.
  intros Hok Hi. destruct (dma_byte d i Hok Hi) as (b & Hb & _). unfold dma_give. rewrite Hb.
  change (default 0 (Some b)) with b.
  apply (dma_write d i b); [done|done|done|]. intros j Hj.
  rewrite dma_mask_eq, testbit_clear_bit by first [apply Z.mod_pos_bound; lia|lia].
  by destruct (bool_decide_reflect (j = i mod 8)), (decide (j = i mod 8)).
Qed.

(** The page [page] is the start of, if it is one. *)
Definition dma_index (d : dma_t) (page : Z) : option Z :=
  let off := page - DMA_PAGES d in
  if bool_decide (0 <= off < DMA_PAGE_AMOUNT * 4096 /\ off mod 4096 = 0) then Some (off / 4096) else None.

Lemma kdma_pfree_run k page :
  dma_ok (k_dma k) ->
  kdma_pfree page k
  = match dma_index (k_dma k) page with
    | Some i => Ret tt (with_dma (dma_give (k_dma k) i) k)
    | None => Ret tt k
    end.
Proof.
  intros Hok. unfold kdma_pfree, dma_index. cbn [bind gets].
  pose proof (dma_pages _ Hok). unfold DMA_PAGE_AMOUNT.
  rewrite u64_small by lia.
  destruct (Z.ltb_spec page (DMA_PAGES (k_dma k))); [by rewrite bool_decide_eq_false_2 by lia|].
  destruct (Z.leb_spec (DMA_PAGES (k_dma k) + 16 * 4096) page); [by rewrite bool_decide_eq_false_2 by lia|].
  cbn [orb]. destruct (Z.eqb_spec ((page - DMA_PAGES (k_dma k)) mod 4096) 0); cbn [negb].
  - rewrite bool_decide_eq_true_2 by lia. set (i := (page - DMA_PAGES (k_dma k)) / 4096).
    assert (Hi : 0 <= i < DMA_PAGE_AMOUNT) by (unfold DMA_PAGE_AMOUNT, i; div_lia).
    destruct (dma_byte (k_dma k) i Hok Hi) as (b & Hb & _). unfold bind at 1. rewrite Hb. cbn [deref ret].
    unfold dma_give. by rewrite Hb.
  - rewrite bool_decide_eq_false_2; [done|]. lia.
Qed.

(** ** Properties *)

(** C32: [kdma_palloc] takes the first page that is not in use, marks it and no
    other, and returns its address; it returns NULL and changes nothing only when
    all sixteen are in use.  Freeing the page it returned makes exactly that page
    unused again. *)
Theorem kdma_palloc_pfree k :
  dma_ok (k_dma k) ->
  ((forall i, 0 <= i < DMA_PAGE_AMOUNT -> dma_used (k_dma k) i = true) /\ kdma_palloc k = Ret NULL k)
  \/ exists i d d', 0 <= i < DMA_PAGE_AMOUNT /\ dma_used (k_dma k) i = false
       /\ (forall j, 0 <= j < i -> dma_used (k_dma k) j = true)
       /\ kdma_palloc k = Ret (DMA_PAGES (k_dma k) + 4096 * i) (with_dma d k)
       /\ dma_update (k_dma k) d i true
       /\ kdma_pfree (DMA_PAGES (k_dma k) + 4096 * i) (with_dma d k) = Ret tt (with_dma d' k)
       /\ dma_update (k_dma k) d' i false.
Proof.
  intros Hok. rewrite kdma_palloc_run by done. unfold dma_first.
  destruct (find_up _ _ _) as [i|] eqn:E; [right|left].
  - apply find_up_Some in E as (Hi & Hu%negb_true_iff & Hmin). rewrite trips_max in Hi.
    assert (Hi' : 0 <= i < DMA_PAGE_AMOUNT) by (unfold DMA_PAGE_AMOUNT in *; lia).
    pose proof (dma_take_update (k_dma k) i Hok Hi') as T.
    pose proof (dma_give_update _ i (du_ok _ _ _ _ T) Hi') as G.
    exists i, (dma_take (k_dma k) i), (dma_give (dma_take (k_dma k) i) i).
    split_and!; try done; try lia.
    + intros j Hj. specialize (Hmin j Hj). by apply negb_false_iff in Hmin.
    + rewrite kdma_pfree_run by apply T. cbn [k_dma with_dma]. unfold dma_index. rewrite (du_pages _ _ _ _ T).
      unfold DMA_PAGE_AMOUNT in *. rewrite bool_decide_eq_true_2 by (split; div_lia).
      replace ((DMA_PAGES (k_dma k) + 4096 * i - DMA_PAGES (k_dma k)) / 4096) with i by div_lia. done.
    + split; [apply G|by rewrite (du_pages _ _ _ _ G), (du_pages _ _ _ _ T)|].
      intros j Hj. rewrite (du_used _ _ _ _ G j Hj). case_decide; [done|].
      rewrite (du_used _ _ _ _ T j Hj). by rewrite decide_False.
  - split; [|done]. intros i Hi. pose proof (proj1 (find_up_None _ _ _) E i) as H.
    rewrite trips_max in H. unfold DMA_PAGE_AMOUNT in *. specialize (H ltac:(lia)). by apply negb_false_iff in H.
Qed.

Lemma kdma_palloc_pfree_witness :
  dma_ok (k_dma k0) /\ exists k', kdma_palloc k0 = Ret (DMA_PAGES (k_dma k0) + 4096 * 0) k'.
Proof.
  assert (H0 : dma_ok (k_dma k0)) by (split; [reflexivity|cbn; lia]).
  split; [exact H0|]. destruct (kdma_palloc_pfree k0 H0) as [[H _]|(i & d & d' & _ & _ & Hmin & H & _)].
  - specialize (H 0 ltac:(unfold DMA_PAGE_AMOUNT; lia)). vm_compute in H. discriminate H.
  - exists (with_dma d k0). rewrite H. destruct (Z.lt_trichotomy i 0) as [Hi|[->|Hi]].
    + exfalso. assert (R : match kdma_palloc k0 with Ret r _ => r | _ => -1 end = 0) by (vm_compute; reflexivity).
      rewrite H in R. cbn in R. lia.
    + reflexivity.
    + exfalso. specialize (Hmin 0 ltac:(lia)). vm_compute in Hmin. discriminate Hmin.
Defined.
