(* ===== verification/Thread.v ===== *)
(** * thread/thread.c: allocate_thread, free_thread, spawn_thread

    A thread owns a two-page kernel stack and four heap blocks: the [thread_t],
    its context, its message queue and the array of messages.  [threads] is the
    table of the spawned ones. *)

From S2P Require Import Prelude State Utils Pmm Heap Objects.

Definition GDT_KDATA_SEGMENT : Z := 0x10.
Definition GDT_KCODE_LM_SEGMENT : Z := 0x28.

(** ** The globals *)

Definition upd_sched (f : sched_t -> sched_t) : kernel unit :=
  modify (fun k => with_sched (f (k_sched k)) k).

Definition set_table (base cap : Z) (s : sched_t) : sched_t :=
  {| threads := base; current_thread := current_thread s; threads_length := threads_length s;
     threads_cap := cap; next_thread_id := next_thread_id s; tss_rsp0 := tss_rsp0 s |}.
Definition set_length (n : Z) (s : sched_t) : sched_t :=
  {| threads := threads s; current_thread := current_thread s; threads_length := n;
     threads_cap := threads_cap s; next_thread_id := next_thread_id s; tss_rsp0 := tss_rsp0 s |}.
Definition set_next_id (n : Z) (s : sched_t) : sched_t :=
  {| threads := threads s; current_thread := current_thread s;
     threads_length := threads_length s; threads_cap := threads_cap s;
     next_thread_id := n; tss_rsp0 := tss_rsp0 s |}.

(** ** Field updates *)

(** [memset(context, 0, sizeof(context_t))] *)
Definition zero_context : context_t :=
  {| c_rax := 0; c_rdi := 0; c_rsi := 0; c_rcx := 0; c_rdx := 0; c_rbx := 0; c_rbp := 0;
     c_rsp := 0; c_r8 := 0; c_r9 := 0; c_r10 := 0; c_r11 := 0; c_r12 := 0; c_r13 := 0;
     c_r14 := 0; c_r15 := 0; c_rip := 0; c_rflags := 0; c_cs := 0; c_ss := 0; c_cr3 := 0 |}.

Definition ctx_set_rsp (v : Z) (c : context_t) : context_t :=
  {| c_rax := c_rax c; c_rdi := c_rdi c; c_rsi := c_rsi c; c_rcx := c_rcx c; c_rdx := c_rdx c;
     c_rbx := c_rbx c; c_rbp := c_rbp c; c_rsp := v; c_r8 := c_r8 c; c_r9 := c_r9 c;
     c_r10 := c_r10 c; c_r11 := c_r11 c; c_r12 := c_r12 c; c_r13 := c_r13 c; c_r14 := c_r14 c;
     c_r15 := c_r15 c; c_rip := c_rip c; c_rflags := c_rflags c; c_cs := c_cs c; c_ss := c_ss c;
     c_cr3 := c_cr3 c |}.

(** The fields that say where and how a context resumes. *)
Definition ctx_set_entry (rip rflags cs ss cr3 : Z) (c : context_t) : context_t :=
  {| c_rax := c_rax c; c_rdi := c_rdi c; c_rsi := c_rsi c; c_rcx := c_rcx c; c_rdx := c_rdx c;
     c_rbx := c_rbx c; c_rbp := c_rbp c; c_rsp := c_rsp c; c_r8 := c_r8 c; c_r9 := c_r9 c;
     c_r10 := c_r10 c; c_r11 := c_r11 c; c_r12 := c_r12 c; c_r13 := c_r13 c; c_r14 := c_r14 c;
     c_r15 := c_r15 c; c_rip := rip; c_rflags := rflags; c_cs := cs; c_ss := ss; c_cr3 := cr3 |}.

(** A message queue after [memset] and the two assignments of [allocate_thread]. *)
Definition new_queue (array : Z) : ipc_queue_t :=
  {| q_queue := array; q_capacity := 4; q_head := 0; q_tail := 0; q_count := 0 |}.

(** The fields of a fresh [thread_t] that [allocate_thread] does not write keep
    what the memory held. *)
Definition stale_thread (k : kstate) (a : Z) : thread_t :=
  default {| t_tid := 0; t_context := 0; t_kernel_stack := 0; t_state := THREAD_READY;
             t_queue := 0; t_exit_code := 0 |} (o_thread (k_obj k) !! a).

Definition bind_thread (context kernel_stack queue : Z) (t : thread_t) : thread_t :=
  {| t_tid := t_tid t; t_context := context; t_kernel_stack := kernel_stack;
     t_state := t_state t; t_queue := queue; t_exit_code := t_exit_code t |}.

Definition alloc_kernel_stack : kernel Z :=
  if KERNEL_STACK_SIZE_IN_PAGES =? 1 then kpalloc_top
  else kpalloc_contiguous KERNEL_STACK_SIZE_IN_PAGES.

(** ** allocate_thread *)

Definition init_thread_table : kernel bool :=
  s <- gets k_sched ;;
  if threads_cap s =? 0 then
    t <- kmalloc (sizeof_pointer * 8) ;;
    _ <- upd_sched (set_table t 0) ;;
    if t =? NULL then ret false else
    _ <- upd_sched (set_table t 8) ;; ret true
  else ret true.

(** The thread and the objects it owns. *)
Definition allocate_objects : kernel Z :=
  thread <- kmalloc sizeof_thread_t ;;
  if thread =? NULL then ret NULL else
  kernel_stack <- alloc_kernel_stack ;;
  if kernel_stack =? NULL then _ <- kfree thread ;; ret NULL else
  context <- kmalloc sizeof_context_t ;;
  if context =? NULL then
    _ <- kfree thread ;;
    _ <- kpfree_contiguous kernel_stack KERNEL_STACK_SIZE_IN_PAGES ;; ret NULL
  else
  _ <- store_context context
         (ctx_set_rsp (u64 (kernel_stack + 4096 * KERNEL_STACK_SIZE_IN_PAGES)) zero_context) ;;
  queue <- kmalloc sizeof_ipc_queue_t ;;
  if queue =? NULL then
    _ <- kfree thread ;; _ <- kfree context ;;
    _ <- kpfree_contiguous kernel_stack KERNEL_STACK_SIZE_IN_PAGES ;; ret NULL
  else
  _ <- store_queue queue (new_queue NULL) ;;
  array <- kmalloc (sizeof_ipc_msg_t * 4) ;;
  _ <- store_queue queue (new_queue array) ;;
  if array =? NULL then
    _ <- kfree queue ;; _ <- kfree thread ;; _ <- kfree context ;;
    _ <- kpfree_contiguous kernel_stack KERNEL_STACK_SIZE_IN_PAGES ;; ret NULL
  else
  k <- gets id ;;
  _ <- store_thread thread (bind_thread context kernel_stack queue (stale_thread k thread)) ;;
  ret thread.

Definition allocate_thread : kernel Z :=
  ok <- init_thread_table ;; if negb ok then ret NULL else allocate_objects.

(** ** free_thread *)

(** [queue->queue\[(queue->head + i) % queue->capacity\]] *)
Definition queue_slot (q : ipc_queue_t) (i : Z) : kernel ipc_msg_t :=
  j <- umod (u64 (q_head q + i)) (q_capacity q) ;; load_msg (q_queue q) j.

Definition free_queue (qa : Z) : kernel unit :=
  q <- load_queue qa ;;
  _ <- for_range (trips 0 (q_count q)) 0 (fun i => m <- queue_slot q i ;; kfree (m_msg m)) ;;
  _ <- (if q_queue q =? NULL then ret tt else kfree (q_queue q)) ;;
  kfree qa.

Definition free_thread (thread : Z) : kernel unit :=
  if thread =? NULL then ret tt else
  t <- load_thread thread ;;
  _ <- (if t_kernel_stack t =? NULL then ret tt
        else kpfree_contiguous (t_kernel_stack t) KERNEL_STACK_SIZE_IN_PAGES) ;;
  _ <- (if t_context t =? NULL then ret tt else kfree (t_context t)) ;;
  _ <- (if t_queue t =? NULL then ret tt else free_queue (t_queue t)) ;;
  kfree thread.

(** ** spawn_thread *)

(** Doubling of the thread table. *)
Definition grow_threads : kernel bool :=
  s <- gets k_sched ;;
  let new_cap := u64 (threads_cap s * 2) in
  tmp <- kmalloc (u64 (sizeof_pointer * new_cap)) ;;
  if tmp =? NULL then ret false else
  _ <- for_range (trips 0 (threads_length s)) 0 (fun i =>
         p <- load_ptr (threads s) i ;; store_ptr tmp i p) ;;
  _ <- kfree (threads s) ;;
  _ <- upd_sched (set_table tmp new_cap) ;;
  ret true.

(** The fields [spawn_thread] sets. *)
Definition ready_thread (entry cr3 thread : Z) : kernel unit :=
  t <- load_thread thread ;;
  c <- load_context (t_context t) ;;
  _ <- store_context (t_context t)
         (ctx_set_entry entry 0x202 GDT_KCODE_LM_SEGMENT GDT_KDATA_SEGMENT cr3 c) ;;
  id <- gets (fun k => next_thread_id (k_sched k)) ;;
  _ <- upd_sched (set_next_id (u64 (id + 1))) ;;
  store_thread thread
    {| t_tid := id; t_context := t_context t; t_kernel_stack := t_kernel_stack t;
       t_state := THREAD_READY; t_queue := t_queue t; t_exit_code := 0 |}.

(** The append to the table. *)
Definition register_thread (thread : Z) : kernel Z :=
  s <- gets k_sched ;;
  ok <- (if threads_cap s <=? threads_length s then
           g <- grow_threads ;;
           if g then ret true else _ <- free_thread thread ;; ret false
         else ret true) ;;
  if negb ok then ret NULL else
  s <- gets k_sched ;;
  _ <- store_ptr (threads s) (threads_length s) thread ;;
  _ <- upd_sched (set_length (u64 (threads_length s + 1))) ;;
  ret thread.

Definition spawn_thread (entry cr3 : Z) : kernel Z :=
  if entry =? NULL then ret NULL else
  thread <- allocate_thread ;;
  if thread =? NULL then ret NULL else
  _ <- ready_thread entry cr3 thread ;;
  register_thread thread.

(** ** What a thread owns *)

(** The messages of a queue, oldest first. *)
Record queue_rep (k : kstate) (q : ipc_queue_t) (l : list ipc_msg_t) : Prop := {
  qr_cap : q_capacity q ∈ [4; 8; 16; 32; 64];
  qr_head : 0 <= q_head q < q_capacity q;
  qr_count : q_count q = Z.of_nat (length l) /\ q_count q <= q_capacity q;
  qr_tail : q_tail q = (q_head q + q_count q) mod q_capacity q;
  qr_slot i m : l !! i = Some m ->
    arr_msg (k_obj k) !! (q_queue q, (q_head q + Z.of_nat i) mod q_capacity q) = Some m
}.

(** The heap blocks of a thread. *)
Definition thread_blocks (ta : Z) (t : thread_t) (q : ipc_queue_t) (l : list ipc_msg_t) : list Z :=
  ta :: t_context t :: t_queue t :: q_queue q :: map m_msg l.

Record thread_rep (k : kstate) (ta : Z) (t : thread_t) (c : context_t) (q : ipc_queue_t)
    (l : list ipc_msg_t) : Prop := {
  tr_thread : o_thread (k_obj k) !! ta = Some t;
  tr_context : o_context (k_obj k) !! t_context t = Some c;
  tr_queue : o_queue (k_obj k) !! t_queue t = Some q;
  tr_msgs : queue_rep k q l;
  tr_stack : owned_run k (t_kernel_stack t) KERNEL_STACK_SIZE_IN_PAGES;
  tr_live : Forall (is_live k) (thread_blocks ta t q l);
  tr_distinct : base.NoDup (thread_blocks ta t q l)
}.

Ltac run H := rewrite (bind_run _ _ _ _ _ H).
Ltac null_test := rewrite (proj2 (Z.eqb_neq _ NULL)) by done.

Lemma ext_put k k1 L D R p f :
  ext k k1 L D R -> p ∈ L ->
  (forall a, a <> p -> same_obj a (k_obj k1) (f (k_obj k1))) ->
  ext k (with_obj (f (k_obj k1)) k1) L D R.
Proof. intros He Hp Hf. eapply ext_obj; [done|]. intros a Ha HaD. apply Hf. by eapply ext_fresh. Qed.

(** The abort path after the stack is taken: free the blocks [ps], then the stack. *)
Lemma abort_frees k k1 L stk ps :
  ext k k1 L ∅ ∅ -> L = list_to_set ps -> base.NoDup ps ->
  owned_run k1 stk KERNEL_STACK_SIZE_IN_PAGES -> new_run k stk KERNEL_STACK_SIZE_IN_PAGES ->
  exists k2, foldr (fun p m => _ <- kfree p ;; m)
               (_ <- kpfree_contiguous stk KERNEL_STACK_SIZE_IN_PAGES ;; ret NULL) ps k1 = Ret NULL k2
    /\ ext k k2 ∅ ∅ ∅ /\ k_sched k2 = k_sched k1.
Proof.
  revert k1 L. induction ps as [|p ps IH]; intros k1 L He -> Hnd Hrun Hnew; cbn [foldr].
  - destruct (ext_stack_free k k1 ∅ ∅ ∅ ∅ stk KERNEL_STACK_SIZE_IN_PAGES He eq_refl Hrun)
      as (k2 & H & He2 & _ & Hs); [done| |].
    + intros p m f Hp Hf Hin. by destruct (Hnew p m f Hp Hf).
    + run H. by exists k2.
  - apply nodup_inv in Hnd as [Hp Hnd]. cbn [list_to_set] in He.
    destruct (ext_kfree_new _ _ _ _ _ He p ltac:(set_solver)) as (k2 & H & He2 & Ho & Hs & Hr).
    run H. rewrite <- Hs. eapply IH; [exact He2| |done|by apply Hr|done].
    set_solver.
Qed.

Lemma allocate_objects_run k :
  mem_ok k ->
  exists r k', allocate_objects k = Ret r k' /\ k_sched k' = k_sched k
    /\ ((r = NULL /\ ext k k' ∅ ∅ ∅)
        \/ exists t c q, ext k k' {[r; t_context t; t_queue t; q_queue q]} ∅ ∅
             /\ thread_rep k' r t c q [] /\ new_run k (t_kernel_stack t) KERNEL_STACK_SIZE_IN_PAGES
             /\ q = new_queue (q_queue q)
             /\ c = ctx_set_rsp (u64 (t_kernel_stack t + 4096 * KERNEL_STACK_SIZE_IN_PAGES))
                      zero_context).
Proof.
  intros Hok. unfold allocate_objects. pose proof (ext_refl k Hok) as He0.
  destruct (ext_kmalloc _ _ _ _ _ He0 sizeof_thread_t ltac:(done))
    as [H1|(th & k1 & H1 & He1 & Hn1 & _ & _ & _ & Ho1 & Hs1 & Hr1)]; run H1.
  { exists NULL, k. split; [done|]. split; [done|]. by left. }
  null_test.
  destruct (ext_stack_alloc _ _ _ _ _ KERNEL_STACK_SIZE_IN_PAGES He1 ltac:(done))
    as [H2|(stk & k2 & H2 & He2 & Hn2 & Hpos & Hmax & Hrun & Hnew & Ho2 & Hs2 & Hr2)];
    unfold alloc_kernel_stack; cbn [Z.eqb KERNEL_STACK_SIZE_IN_PAGES Pos.eqb]; run H2.
  { destruct (ext_kfree_new _ _ _ _ _ He1 th ltac:(set_solver)) as (k3 & H3 & He3 & Ho3 & Hs3 & _).
    rewrite Z.eqb_refl. run H3. exists NULL, k3. split; [done|]. split; [congruence|]. left.
    split; [done|]. eapply ext_eq; [exact He3|set_solver|done]. }
  null_test. specialize (Hnew eq_refl).
  destruct (ext_kmalloc _ _ _ _ _ He2 sizeof_context_t ltac:(done))
    as [H3|(cx & k3 & H3 & He3 & Hn3 & Hf3 & _ & _ & Ho3 & Hs3 & Hr3)]; run H3.
  { rewrite Z.eqb_refl. destruct (abort_frees k k2 _ stk [th] He2) as (k4 & H4 & He4 & Hs4);
      [set_solver|repeat constructor; set_solver|done|done|].
    exists NULL, k4. split; [exact H4|]. split; [congruence|]. by left. }
  null_test.
  set (ctx := ctx_set_rsp _ zero_context).
  pose proof (ext_put _ _ _ _ _ cx (put_context cx ctx) He3 ltac:(set_solver)
    ltac:(auto with nyv)) as He3'.
  unfold store_context, upd_obj. cbn [bind modify].
  destruct (ext_kmalloc _ _ _ _ _ He3' sizeof_ipc_queue_t ltac:(done))
    as [H4|(qa & k4 & H4 & He4 & Hn4 & Hf4 & _ & _ & Ho4 & Hs4 & Hr4)]; run H4.
  { rewrite Z.eqb_refl. destruct (abort_frees k _ _ stk [th; cx] He3') as (k5 & H5 & He5 & Hs5);
      [set_solver|repeat constructor; set_solver|by apply Hr3|done|].
    exists NULL, k5. split; [exact H5|]. split; [simpl in *; congruence|]. by left. }
  null_test.
  pose proof (ext_put _ _ _ _ _ qa (put_queue qa (new_queue NULL)) He4 ltac:(set_solver)
    ltac:(auto with nyv)) as He4'.
  unfold store_queue, upd_obj. cbn [bind modify].
  destruct (ext_kmalloc _ _ _ _ _ He4' (sizeof_ipc_msg_t * 4) ltac:(done))
    as [H5|(ar & k5 & H5 & He5 & Hn5 & Hf5 & _ & _ & Ho5 & Hs5 & Hr5)]; run H5; cbn [bind modify].
  { rewrite Z.eqb_refl.
    pose proof (ext_put _ _ _ _ _ qa (put_queue qa (new_queue NULL)) He4' ltac:(set_solver)
      ltac:(auto with nyv)) as He5.
    destruct (abort_frees k _ _ stk [qa; th; cx] He5) as (k6 & H6 & He6 & Hs6);
      [set_solver|repeat constructor; set_solver|by apply Hr4, Hr3|done|].
    exists NULL, k6. split; [exact H6|]. split; [simpl in *; congruence|]. by left. }
  null_test.
  pose proof (ext_put _ _ _ _ _ qa (put_queue qa (new_queue ar)) He5 ltac:(set_solver)
    ltac:(auto with nyv)) as He5'.
  set (k6 := with_obj (put_queue qa (new_queue ar) (k_obj k5)) k5) in *.
  set (t := bind_thread cx stk qa (stale_thread k6 th)).
  pose proof (ext_put _ _ _ _ _ th (put_thread th t) He5' ltac:(set_solver)
    ltac:(auto with nyv)) as He6.
  eexists th, _. split; [reflexivity|]. split; [simpl in *; congruence|]. right.
  exists t, ctx, (new_queue ar). simpl in Ho5. split; [|split; [|done]].
  - eapply ext_eq; [exact He6|simpl; set_solver|done].
  - assert (Hlv : forall a, a ∈ ({[ar]} ∪ ({[qa]} ∪ ({[cx]} ∪ ({[th]} ∪ ∅))) : gset Z) ->
              is_live k5 a) by (intros a Ha; apply (ex_live _ _ _ _ _ He5); by left).
    split; simpl.
    + by rewrite lookup_insert_eq.
    + rewrite Ho5. simpl. rewrite Ho4. simpl. by rewrite lookup_insert_eq.
    + by rewrite lookup_insert_eq.
    + split; [by left|done|done|done|done].
    + by apply Hr5, Hr4, Hr3.
    + repeat constructor; apply Hlv; set_solver.
    + repeat constructor; set_solver.
Qed.

(** ** free_thread *)

(** Freeing the payloads of the queued messages. *)
Lemma free_msgs_run k q l2 :
  mem_ok k -> forall l1 k1 D R, queue_rep k q (l1 ++ l2) -> ext k k1 ∅ D R ->
  k_obj k1 = k_obj k ->
  Forall (is_live k) (map m_msg l2) -> base.NoDup (map m_msg l2) ->
  (forall m, m ∈ map m_msg l2 -> m ∉ D) ->
  exists k2, for_range (length l2) (Z.of_nat (length l1)) (fun i => m <- queue_slot q i ;; kfree (m_msg m)) k1
             = Ret tt k2
    /\ ext k k2 ∅ (D ∪ list_to_set (map m_msg l2)) R /\ mm_step k1 k2.
Proof.
  intros Hok. induction l2 as [|m l2 IH]; intros l1 k1 D R Hq He Hobj Hlive Hnd HD.
  { exists k1. split; [done|]. split; [|done]. eapply ext_same; [exact He|done|set_solver|done]. }
  cbn [length map] in *. rewrite for_range_S.
  apply Forall_cons_1 in Hlive as [Hm Hlive]. apply nodup_inv in Hnd as [Hnin Hnd].
  pose proof (qr_cap _ _ _ Hq) as Hcap.
  assert (0 < q_capacity q <= 64) by (repeat (apply elem_of_cons in Hcap as [->|Hcap]; [lia|]);
    by apply elem_of_nil in Hcap).
  pose proof (qr_head _ _ _ Hq). destruct (qr_count _ _ _ Hq) as [Hc Hle].
  rewrite length_app in Hc. cbn [length] in Hc.
  assert (Hslot : queue_slot q (Z.of_nat (length l1)) k1 = Ret m k1).
  { unfold queue_slot. rewrite u64_small by lia.
    erewrite bind_run; [|apply umod_run; lia]. apply load_msg_run. rewrite Hobj.
    apply (qr_slot _ _ _ Hq). by rewrite list_lookup_middle. }
  destruct (ext_kfree_old _ _ _ _ _ He (m_msg m) Hm) as (k2 & H2 & He2 & Hmm2).
  { apply HD. by left. }
  { intros Hn. rewrite Hn in Hm. by apply (null_not_live k). }
  rewrite bind_bind. run Hslot. run H2.
  destruct (IH (l1 ++ [m]) k2 (D ∪ {[m_msg m]}) R) as (k3 & H3 & He3 & Hmm3); try done.
  - by rewrite <- app_assoc.
  - destruct Hmm2 as [-> _]. done.
  - intros x Hx. specialize (HD x ltac:(by right)). set_solver.
  - rewrite length_app, Nat2Z.inj_add in H3. exists k3. split; [exact H3|]. split.
    + eapply ext_same; [exact He3|done|set_solver|done].
    + destruct Hmm2 as (Ho2 & Hs2 & Hr2), Hmm3 as (Ho3 & Hs3 & Hr3).
      split_and!; [congruence|congruence|auto].
Qed.

Definition stack_frames (t : thread_t) : gset Z :=
  {[t_kernel_stack t / 4096; t_kernel_stack t / 4096 + 1]}.

Lemma in_stack_frames t f :
  f ∈ stack_frames t
  <-> t_kernel_stack t / 4096 <= f < t_kernel_stack t / 4096 + KERNEL_STACK_SIZE_IN_PAGES.
Proof. unfold stack_frames, KERNEL_STACK_SIZE_IN_PAGES. rewrite elem_of_union, !elem_of_singleton. lia. Qed.

Lemma live_nonnull k a : mem_ok k -> is_live k a -> a <> NULL.
Proof. intros Hok Hl ->. by apply (null_not_live k). Qed.

(** The queue, its array and the pending payloads. *)
Lemma free_queue_run k k1 D R qa q l :
  mem_ok k -> ext k k1 ∅ D R -> k_obj k1 = k_obj k ->
  o_queue (k_obj k) !! qa = Some q -> queue_rep k q l ->
  Forall (is_live k) (qa :: q_queue q :: map m_msg l) ->
  base.NoDup (qa :: q_queue q :: map m_msg l) ->
  (forall a, a ∈ qa :: q_queue q :: map m_msg l -> a ∉ D) ->
  exists k2, free_queue qa k1 = Ret tt k2
    /\ ext k k2 ∅ (D ∪ list_to_set (qa :: q_queue q :: map m_msg l)) R /\ mm_step k1 k2.
Proof.
  intros Hok He Hobj Hqa Hq Hlive Hnd HD. unfold free_queue.
  rewrite <- Hobj in Hqa. run (load_queue_run _ _ _ Hqa). rewrite Hobj in Hqa.
  apply Forall_cons_1 in Hlive as [Hl1 Hlive]. apply Forall_cons_1 in Hlive as [Hl2 Hlive].
  apply nodup_inv in Hnd as [Hn1 Hnd]. apply nodup_inv in Hnd as [Hn2 Hnd].
  destruct (free_msgs_run k q l Hok [] k1 D R Hq He Hobj Hlive Hnd) as (k2 & H2 & He2 & Ho2 & Hs2 & Hr2).
  { intros m Hm. apply HD. by right; right. }
  assert (Htr : trips 0 (q_count q) = length l).
  { apply Nat2Z.inj. rewrite trips_max. destruct (qr_count _ _ _ Hq). lia. }
  rewrite Htr. run H2.
  destruct (ext_kfree_old _ _ _ _ _ He2 (q_queue q) Hl2) as (k3 & H3 & He3 & Ho3 & Hs3 & Hr3).
  { pose proof (HD (q_queue q) ltac:(by right; left)). set_solver. }
  { by eapply live_nonnull. }
  rewrite (proj2 (Z.eqb_neq (q_queue q) NULL)) by (by eapply live_nonnull). run H3.
  destruct (ext_kfree_old _ _ _ _ _ He3 qa Hl1) as (k4 & H4 & He4 & Ho4 & Hs4 & Hr4).
  { pose proof (HD qa ltac:(by left)). set_solver. }
  { by eapply live_nonnull. }
  exists k4. split; [exact H4|]. split; [eapply ext_same; [exact He4|done|set_solver|done]|].
  split_and!; [congruence|congruence|auto].
Qed.

Lemma free_thread_run k ta t c q l :
  mem_ok k -> thread_rep k ta t c q l ->
  exists k', free_thread ta k = Ret tt k'
    /\ ext k k' ∅ (list_to_set (thread_blocks ta t q l)) (stack_frames t)
    /\ k_obj k' = k_obj k /\ k_sched k' = k_sched k.
Proof.
  intros Hok [Ht Hc Hqa Hq Hst Hlive Hnd]. unfold free_thread, thread_blocks in *.
  apply Forall_cons_1 in Hlive as [Hl1 Hlive]. apply Forall_cons_1 in Hlive as [Hl2 Hlive].
  apply nodup_inv in Hnd as [Hn1 Hnd]. apply nodup_inv in Hnd as [Hn2 Hnd].
  pose proof (live_nonnull _ _ Hok Hl1) as Hnn1. pose proof (live_nonnull _ _ Hok Hl2) as Hnn2.
  null_test. run (load_thread_run _ _ _ Ht).
  rewrite (proj2 (Z.eqb_neq (t_kernel_stack t) NULL)) by (destruct Hst as (_ & ? & _); unfold NULL; lia).
  destruct (ext_stack_free _ _ _ _ _ (stack_frames t) (t_kernel_stack t) KERNEL_STACK_SIZE_IN_PAGES
              (ext_refl k Hok) eq_refl Hst) as (k1 & H1 & He1 & Ho1 & Hs1); [set_solver| |].
  { intros p m f _ _ Hf. by apply in_stack_frames. }
  run H1. null_test.
  destruct (ext_kfree_old _ _ _ _ _ He1 (t_context t) Hl2 ltac:(set_solver) Hnn2)
    as (k2 & H2 & He2 & Ho2 & Hs2 & _). run H2.
  pose proof Hlive as Hlq. apply Forall_cons_1 in Hlq as [Hl3 _].
  pose proof (live_nonnull _ _ Hok Hl3) as Hnn3. null_test.
  destruct (free_queue_run k k2 _ _ (t_queue t) q l Hok He2) as (k3 & H3 & He3 & Ho3 & Hs3 & _);
    [congruence|done|done|done|done| |].
  { intros a Ha. assert (a <> t_context t) by (intros ->; done). set_solver. }
  run H3.
  destruct (ext_kfree_old _ _ _ _ _ He3 ta Hl1) as (k4 & H4 & He4 & Ho4 & Hs4 & _); [|done|].
  { rewrite elem_of_union, elem_of_list_to_set. set_solver. }
  exists k4. split; [exact H4|]. split; [eapply ext_same; [exact He4|done|set_solver|done]|].
  split; congruence.
Qed.

(** ** The thread table *)

Definition table_caps : list Z := [0; 8; 16; 32; 64; 128; 256].

Record table_rep (k : kstate) (ts : list Z) : Prop := {
  tb_length : threads_length (k_sched k) = Z.of_nat (length ts);
  tb_cap : threads_cap (k_sched k) ∈ table_caps;
  tb_fits : threads_length (k_sched k) <= threads_cap (k_sched k);
  tb_none : threads_cap (k_sched k) = 0 -> threads (k_sched k) = NULL;
  tb_live : threads_cap (k_sched k) <> 0 -> is_live k (threads (k_sched k));
  tb_entry i t : ts !! i = Some t ->
    arr_ptr (k_obj k) !! (threads (k_sched k), Z.of_nat i) = Some t
}.

Lemma table_cap_cases c : c ∈ table_caps -> c = 0 \/ 8 <= c <= 256.
Proof.
  unfold table_caps. intros H.
  repeat (apply elem_of_cons in H as [->|H]; [by (left; lia) || (right; lia)|]).
  by apply elem_of_nil in H.
Qed.

(** A routine that leaves the scheduler's globals and the table's block alone
    keeps the table. *)
Lemma table_ext k k' L D R ts :
  ext k k' L D R -> threads (k_sched k') = threads (k_sched k) ->
  threads_length (k_sched k') = threads_length (k_sched k) ->
  threads_cap (k_sched k') = threads_cap (k_sched k) ->
  threads (k_sched k) ∉ D -> table_rep k ts -> table_rep k' ts.
Proof.
  intros He H1 H2 H3 HD [Hlen Hcap Hfit Hnone Hlive Hent].
  split; rewrite ?H1, ?H2, ?H3; try done.
  - intros Hc. apply (ex_live _ _ _ _ _ He). right. split; [by apply Hlive|done].
  - intros i t Hi. destruct (decide (threads_cap (k_sched k) = 0)) as [E|Hc].
    { apply lookup_lt_Some in Hi. lia. }
    destruct (ex_objs _ _ _ _ _ He (threads (k_sched k)) (Hlive Hc) HD) as (_&_&_&_&_&_&Hp&_).
    rewrite Hp. by apply Hent.
Qed.

(** The rest of the scheduler's globals. *)
Definition same_cpu_sched (s s' : sched_t) : Prop :=
  current_thread s' = current_thread s /\ tss_rsp0 s' = tss_rsp0 s.

Lemma init_thread_table_run k ts :
  mem_ok k -> table_rep k ts ->
  (init_thread_table k = Ret false k)
  \/ exists k1 L, init_thread_table k = Ret true k1 /\ ext k k1 L ∅ ∅ /\ table_rep k1 ts
       /\ threads_cap (k_sched k1) <> 0 /\ next_thread_id (k_sched k1) = next_thread_id (k_sched k)
       /\ same_cpu_sched (k_sched k) (k_sched k1)
       /\ (threads_cap (k_sched k) <> 0 -> k1 = k /\ L = ∅)
       /\ (threads_cap (k_sched k) = 0 -> L = {[threads (k_sched k1)]}).
Proof.
  intros Hok Ht. unfold init_thread_table. cbn [bind gets].
  destruct (Z.eqb_spec (threads_cap (k_sched k)) 0) as [Hc|Hc].
  2: { right. exists k, ∅. split_and!; (done || by apply ext_refl). }
  destruct (ext_kmalloc _ _ _ _ _ (ext_refl k Hok) (sizeof_pointer * 8) ltac:(done))
    as [H1|(tb & k1 & H1 & He1 & Hn1 & _ & _ & _ & Ho1 & Hs1 & _)]; run H1; cbn [bind modify upd_sched].
  - rewrite Z.eqb_refl. left. f_equal. pose proof (tb_none _ _ Ht Hc) as Hnull. unfold ret. f_equal.
    destruct k as [? ? ? ? ? ? ? ? [] ? ? ? ?]. simpl in *. by subst.
  - null_test. right. pose proof (tb_fits _ _ Ht) as Hfit. rewrite (tb_length _ _ Ht), Hc in Hfit.
    assert (ts = []) as -> by (destruct ts; [done|simpl in Hfit; lia]).
    eexists _, {[tb]}. cbn [bind modify]. split; [reflexivity|]. simpl. split.
    { eapply ext_eq; [by apply ext_sched, ext_sched|set_solver|done]. }
    split; [|split_and!; try done; by rewrite Hs1].
    split; simpl; rewrite ?Hs1, ?(tb_length _ _ Ht); try done.
    + right; by left.
    + intros _. apply (ex_live _ _ _ _ _ He1). set_solver.
Qed.

Lemma grow_threads_run k ts :
  mem_ok k -> table_rep k ts -> threads_cap (k_sched k) <> 0 ->
  (grow_threads k = Ret false k)
  \/ exists k1, grow_threads k = Ret true k1
       /\ ext k k1 {[threads (k_sched k1)]} {[threads (k_sched k)]} ∅ /\ table_rep k1 ts
       /\ threads_cap (k_sched k1) = 2 * threads_cap (k_sched k)
       /\ next_thread_id (k_sched k1) = next_thread_id (k_sched k)
       /\ same_cpu_sched (k_sched k) (k_sched k1)
       /\ threads (k_sched k1) <> threads (k_sched k).
Proof.
  intros Hok Ht Hc0. pose proof (tb_cap _ _ Ht) as Hcap.
  destruct (table_cap_cases _ Hcap) as [|Hc]; [done|].
  unfold grow_threads. cbn [bind gets].
  rewrite (u64_small (threads_cap (k_sched k) * 2)), u64_small by (unfold sizeof_pointer; lia).
  destruct (ext_kmalloc _ _ _ _ _ (ext_refl k Hok) (sizeof_pointer * (threads_cap (k_sched k) * 2)))
    as [H1|(tb & k1 & H1 & He1 & Hn1 & Htb & HtbD & Hsz & Ho1 & Hs1 & _)];
    [unfold sizeof_pointer; lia| |]; run H1; [by left|].
  null_test. right. rewrite (tb_length _ _ Ht).
  assert (Hne : tb <> threads (k_sched k)).
  { intros ->. specialize (HtbD (tb_live _ _ Ht Hc0)). set_solver. }
  destruct (for_range_inv (fun j s1 => exists o, s1 = with_obj o k1
      /\ (forall a, a <> tb -> same_obj a (k_obj k1) o)
      /\ forall i t, ts !! i = Some t -> Z.of_nat i < j -> arr_ptr o !! (tb, Z.of_nat i) = Some t)
    (fun i => p <- load_ptr (threads (k_sched k)) i ;; store_ptr tb i p) (trips 0 (Z.of_nat (length ts))) 0 k1)
    as (s2 & H2 & o & -> & Hsame & Hent).
  { exists (k_obj k1). split; [by destruct k1|]. split; [done|]. intros; lia. }
  { intros j s1 Hj (o & -> & Hsame & Hent). rewrite trips_max in Hj.
    destruct (lookup_lt_is_Some_2 ts (Z.to_nat j)) as [t Hjt]; [lia|].
    erewrite bind_run.
    2: { apply load_ptr_run. simpl. destruct (Hsame (threads (k_sched k))) as (_&_&_&_&_&_&Hp&_); [done|].
         rewrite Hp, Ho1. rewrite <- (Z2Nat.id j) by lia. by apply (tb_entry _ _ Ht). }
    eexists. split; [reflexivity|]. eexists. split; [reflexivity|]. split.
    - intros a Ha. etrans; [by apply Hsame|]. by apply same_obj_put_ptr.
    - intros i t' Hi Hlt. simpl. rewrite lookup_insert. case_decide as E; [simplify_eq/=|].
      + rewrite Nat2Z.id in Hjt. congruence.
      + apply Hent; [done|]. assert (Z.of_nat i <> j) by congruence. lia. }
  run H2. rewrite trips_max in Hent.
  assert (He2 : ext k (with_obj o k1) {[tb]} ∅ ∅).
  { eapply ext_obj; [eapply ext_eq; [exact He1|set_solver|done]|]. intros a Ha _. apply Hsame.
    intros ->. specialize (HtbD Ha). set_solver. }
  destruct (ext_kfree_old _ _ _ _ _ He2 (threads (k_sched k)) (tb_live _ _ Ht Hc0) ltac:(set_solver))
    as (k3 & H3 & He3 & Ho3 & Hs3 & _); [by eapply live_nonnull, (tb_live _ _ Ht Hc0)|].
  run H3. cbn [bind upd_sched modify]. eexists. split; [reflexivity|]. simpl.
  rewrite Hs3. simpl. rewrite Hs1.
  split; [apply ext_sched; eapply ext_eq; [exact He3|done|set_solver]|].
  split; [|split_and!; (done || lia)].
  split; simpl; rewrite ?Hs3; simpl; rewrite ?Hs1.
  - exact (tb_length _ _ Ht).
  - clear -Hcap Hsz Hc. unfold table_caps, PAGE_BLOCK, sizeof_block_t, sizeof_pointer in *.
    repeat (apply elem_of_cons in Hcap as [Hcap|Hcap]; [rewrite Hcap in *; set_solver by lia|]).
    by apply elem_of_nil in Hcap.
  - pose proof (tb_fits _ _ Ht). lia.
  - lia.
  - intros _. apply (ex_live _ _ _ _ _ He3). set_solver.
  - intros i t Hi. rewrite Ho3. simpl. apply Hent; [done|]. apply lookup_lt_Some in Hi. lia.
Qed.

(** ** spawn_thread *)

(** What a thread owns survives what other components do. *)
Lemma thread_rep_ext k k' L D R ta t c q l :
  ext k k' L D R -> (forall a, a ∈ thread_blocks ta t q l -> a ∉ D) ->
  (forall f, f ∈ stack_frames t -> f ∉ R) ->
  thread_rep k ta t c q l -> thread_rep k' ta t c q l.
Proof.
  intros He HD HR [Ht Hc Hqa Hq Hst Hlive Hnd].
  assert (Hsame : forall a, a ∈ thread_blocks ta t q l -> same_obj a (k_obj k) (k_obj k')).
  { intros a Ha. apply (ex_objs _ _ _ _ _ He); [|by apply HD].
    rewrite Forall_forall in Hlive. by apply Hlive, list_elem_of_In. }
  unfold thread_blocks in *. split; try done.
  - destruct (Hsame ta) as (-> & _); [by left|done].
  - destruct (Hsame (t_context t)) as (_ & -> & _); [by right; left|done].
  - destruct (Hsame (t_queue t)) as (_ & _ & -> & _); [by right; right; left|done].
  - destruct Hq as [H1 H2 H3 H4 H5]. split; try done. intros i m Hi.
    destruct (Hsame (q_queue q)) as (_&_&_&_&_&_&_&->); [by do 3 right; left|]. by apply H5.
  - apply (ex_runs _ _ _ _ _ He); [done|]. intros f Hf. by apply HR, in_stack_frames.
  - apply Forall_forall. intros a Ha. apply list_elem_of_In in Ha.
    apply (ex_live _ _ _ _ _ He). right. split; [|by apply HD].
    rewrite Forall_forall in Hlive. by apply Hlive, list_elem_of_In.
Qed.

Definition entry_context (entry cr3 : Z) (c : context_t) : context_t :=
  ctx_set_entry entry 0x202 GDT_KCODE_LM_SEGMENT GDT_KDATA_SEGMENT cr3 c.
Definition entry_thread (id : Z) (t : thread_t) : thread_t :=
  {| t_tid := id; t_context := t_context t; t_kernel_stack := t_kernel_stack t;
     t_state := THREAD_READY; t_queue := t_queue t; t_exit_code := 0 |}.

Lemma ready_thread_run k k1 L D R ta t c q l entry pml4 :
  ext k k1 L D R -> ta ∈ L -> t_context t ∈ L -> thread_rep k1 ta t c q l ->
  exists k2, ready_thread entry pml4 ta k1 = Ret tt k2 /\ ext k k2 L D R
    /\ thread_rep k2 ta (entry_thread (next_thread_id (k_sched k1)) t) (entry_context entry pml4 c) q l
    /\ k_sched k2 = set_next_id (u64 (next_thread_id (k_sched k1) + 1)) (k_sched k1)
    /\ arr_ptr (k_obj k2) = arr_ptr (k_obj k1).
Proof.
  intros He Hta Hcx [Ht Hc Hqa Hq Hst Hlive Hnd]. unfold ready_thread.
  run (load_thread_run _ _ _ Ht). run (load_context_run _ _ _ Hc).
  pose proof (ext_put _ _ _ _ _ (t_context t) (put_context (t_context t) (entry_context entry pml4 c))
    He Hcx ltac:(auto with nyv)) as He2.
  eexists. split; [reflexivity|]. split.
  { exact (ext_put _ _ _ _ _ ta (put_thread ta _) (ext_sched _ _ _ _ _ He2 _) Hta ltac:(auto with nyv)). }
  split; [|by split]. split; simpl; try done; try by rewrite lookup_insert_eq.
  by destruct Hq as [H1 H2 H3 H4 H5].
Qed.

(** Appending to the array of a table with room. *)
Definition appended (r : Z) (k : kstate) : kstate :=
  with_sched (set_length (u64 (threads_length (k_sched k) + 1)) (k_sched k))
    (with_obj (put_ptr (threads (k_sched k)) (threads_length (k_sched k)) r (k_obj k)) k).

Lemma append_table k ts r :
  table_rep k ts -> threads_length (k_sched k) < threads_cap (k_sched k) ->
  table_rep (appended r k) (ts ++ [r]).
Proof.
  intros [Hlen Hcap Hfit Hnone Hlive Hent] Hroom.
  destruct (table_cap_cases _ Hcap) as [|Hc]; [lia|].
  split; simpl; rewrite ?u64_small by lia; try done; try lia.
  - rewrite length_app. simpl. lia.
  - intros i t. rewrite lookup_app. destruct (ts !! i) as [t'|] eqn:E.
    + intros [= ->]. rewrite lookup_insert_ne; [by apply Hent|]. apply lookup_lt_Some in E.
      intros [= E2]. lia.
    + intros Hi. apply list_lookup_singleton_Some in Hi as [Hi <-]. apply lookup_ge_None in E.
      replace (Z.of_nat i) with (threads_length (k_sched k)) by lia. by rewrite lookup_insert_eq.
Qed.

(** The array write as seen by the rest: only the table's own block changes. *)
Lemma append_frame k r a : a <> threads (k_sched k) -> same_obj a (k_obj k) (k_obj (appended r k)).
Proof. apply same_obj_put_ptr. Qed.

Lemma appended_rep k r ta t c q l :
  (forall a, a ∈ thread_blocks ta t q l -> a <> threads (k_sched k)) ->
  thread_rep k ta t c q l -> thread_rep (appended r k) ta t c q l.
Proof. intros Hd [Ht Hc Hqa Hq Hst Hlive Hnd]. split; try done. by destruct Hq. Qed.

(** What [register_thread] does: [L] and [D] are the new and the old table when
    the table grew. *)
Lemma register_thread_run k ts r t c q l :
  mem_ok k -> table_rep k ts -> threads_cap (k_sched k) <> 0 -> thread_rep k r t c q l ->
  threads (k_sched k) ∉ thread_blocks r t q l ->
  (register_thread r k = (_ <- free_thread r ;; ret NULL) k
     /\ threads_cap (k_sched k) <= threads_length (k_sched k))
  \/ exists k1 L D, register_thread r k = Ret r (appended r k1)
       /\ ext k k1 L D ∅
       /\ ((L = ∅ /\ D = ∅ /\ threads (k_sched k1) = threads (k_sched k))
           \/ (L = {[threads (k_sched k1)]} /\ D = {[threads (k_sched k)]}))
       /\ table_rep k1 ts /\ threads_length (k_sched k1) < threads_cap (k_sched k1)
       /\ next_thread_id (k_sched k1) = next_thread_id (k_sched k)
       /\ same_cpu_sched (k_sched k) (k_sched k1).
Proof.
  intros Hok Ht Hc0 Hr Hnin. unfold register_thread. cbn [bind gets].
  destruct (Z.leb_spec (threads_cap (k_sched k)) (threads_length (k_sched k))) as [Hfull|Hroom].
  - destruct (grow_threads_run k ts Hok Ht Hc0)
      as [H1|(k1 & H1 & He1 & Ht1 & Hc1 & Hid & Hcpu & Hne)].
    + left. split; [|done]. rewrite bind_bind. run H1.
      destruct (free_thread_run k r t c q l Hok Hr) as (k2 & H2 & _). rewrite bind_bind. run H2. by run H2.
    + right. exists k1, {[threads (k_sched k1)]}, {[threads (k_sched k)]}.
      rewrite bind_bind. run H1. split; [done|]. split; [done|]. split; [by right|].
      split; [done|]. split; [|done]. pose proof (tb_fits _ _ Ht). pose proof (tb_length _ _ Ht).
      pose proof (tb_length _ _ Ht1).
      destruct (table_cap_cases _ (tb_cap _ _ Ht)); lia.
  - right. exists k, ∅, ∅. split; [done|]. split; [by apply ext_refl|]. split; [by left|done].
Qed.

(** What [spawn_thread] promises: [ts] is the table before. *)
Definition spawned (k k' : kstate) (ts : list Z) (entry pml4 r : Z) : Prop :=
  exists t c q,
    table_rep k' (ts ++ [r]) /\ thread_rep k' r t c q []
    /\ t_tid t = next_thread_id (k_sched k) /\ t_state t = THREAD_READY /\ t_exit_code t = 0
    /\ c = entry_context entry pml4
             (ctx_set_rsp (u64 (t_kernel_stack t + 4096 * KERNEL_STACK_SIZE_IN_PAGES)) zero_context)
    /\ next_thread_id (k_sched k') = u64 (next_thread_id (k_sched k) + 1)
    /\ new_run k (t_kernel_stack t) KERNEL_STACK_SIZE_IN_PAGES
    /\ (forall a, is_live k' a <->
          a ∈ thread_blocks r t q [] \/ a = threads (k_sched k')
          \/ (is_live k a /\ a <> threads (k_sched k)))
    /\ (forall a, is_live k a -> a <> threads (k_sched k) ->
          a ∉ thread_blocks r t q [] /\ a <> threads (k_sched k')
          /\ same_obj a (k_obj k) (k_obj k'))
    /\ (forall p n, owned_run k p n -> owned_run k' p n).

(** The failure path after the thread was built gives everything back. *)
Lemma undo_thread_run k k1 B r t c q l :
  ext k k1 B ∅ ∅ -> B ⊆ list_to_set (thread_blocks r t q l) ->
  (forall a, a ∈ thread_blocks r t q l -> a ∈ B) ->
  thread_rep k1 r t c q l -> new_run k (t_kernel_stack t) KERNEL_STACK_SIZE_IN_PAGES ->
  exists k2, (_ <- free_thread r ;; ret NULL) k1 = Ret NULL k2 /\ ext k k2 ∅ ∅ ∅
    /\ k_sched k2 = k_sched k1.
Proof.
  intros He HB1 HB2 Hr Hnew.
  destruct (free_thread_run k1 r t c q l (ex_ok _ _ _ _ _ He) Hr) as (k2 & H2 & He2 & _ & Hs2).
  run H2. exists k2. split; [done|]. split; [|done].
  eapply ext_drop; [eapply ext_same; [exact (ext_trans _ _ _ _ _ _ _ _ _ He He2)|..|reflexivity]|].
  - set_solver.
  - apply set_eq. intros a. rewrite elem_of_union, elem_of_difference, elem_of_list_to_set. set_solver.
  - intros p m f Hp Hf [?|Hin%in_stack_frames]%elem_of_union; [set_solver|]. by eapply Hnew.
Qed.


(** The blocks when a new thread is published: [tb0], [tb1] and [tb4] are the
    table's array before, after its first allocation and at the end. *)
Section Publish.
Context (k k1 k3 k4 : kstate) (L0 B L D : gset Z) (tb0 tb1 tb4 : Z).
Context (He1 : ext k k1 L0 ∅ ∅) (He3 : ext k1 k3 B ∅ ∅) (He4 : ext k3 k4 L D ∅).
Context (Hinit : (tb1 = tb0 /\ L0 = ∅) \/ (L0 = {[tb1]} /\ ~ is_live k tb0)).
Context (Htb1 : is_live k1 tb1) (HtbB : tb1 ∉ B).
Context (HLD : (L = ∅ /\ D = ∅ /\ tb4 = tb1) \/ (L = {[tb4]} /\ D = {[tb1]})).

Lemma publish_dead a : a ∈ D -> a = tb1.
Proof using All. destruct HLD as [(_ & -> & _)|[_ ->]]; set_solver. Qed.

Lemma publish_far a : is_live k a -> a <> tb0 -> a <> tb1.
Proof using All.
  intros Ha Hne ->. destruct Hinit as [[-> _]|[E _]]; [done|].
  destruct (ex_new _ _ _ _ _ He1 tb1) as [Hn _]; [set_solver|]. apply Hn in Ha. set_solver.
Qed.

Lemma publish_mid a : is_live k3 a <-> a ∈ B \/ a ∈ L0 \/ is_live k a.
Proof using All. rewrite (ex_live _ _ _ _ _ He3), (ex_live _ _ _ _ _ He1). set_solver. Qed.

Lemma publish_new a : is_live k3 a -> a <> tb1 -> a <> tb4.
Proof using All.
  intros Ha Hne. destruct HLD as [(_ & _ & ->)|[-> ->]]; [done|]. intros ->.
  destruct (ex_new _ _ _ _ _ He4 tb4) as [Hn _]; [set_solver|]. apply Hn in Ha. set_solver.
Qed.

Lemma publish_live a : is_live k4 a <-> a ∈ B \/ a = tb4 \/ (is_live k a /\ a <> tb0).
Proof using All.
  pose proof publish_dead as HD. rewrite (ex_live _ _ _ _ _ He4), publish_mid. split.
  - intros [Ha|[[Ha|[Ha|Ha]] HaD]]; [|by left| |].
    + right; left. destruct HLD as [(-> & _)|[-> _]]; set_solver.
    + right; left. destruct Hinit as [[_ ->]|[-> _]]; [set_solver|].
      destruct HLD as [(_ & _ & ->)|[_ ->]]; set_solver.
    + destruct (decide (a = tb0)) as [->|]; [|by right; right]. right; left.
      destruct Hinit as [[<- _]|[_ ?]]; [|done].
      destruct HLD as [(_ & _ & ->)|[_ ->]]; [done|set_solver].
  - intros [Ha|[->|[Ha Hne]]].
    + right. split; [by left|]. by intros ->%HD.
    + destruct HLD as [(_ & -> & ->)|[-> _]]; [right|left; set_solver].
      split; [|set_solver]. right. apply (ex_live _ _ _ _ _ He1) in Htb1. set_solver.
    + right. split; [by right; right|]. intros ?%HD. by apply (publish_far a).
Qed.

Lemma publish_objs a :
  is_live k a -> a <> tb0 ->
  a ∉ B /\ a <> tb4 /\ same_obj a (k_obj k) (k_obj k4).
Proof using All.
  intros Ha Hne. pose proof (publish_far a Ha Hne) as Hne'.
  assert (Hl1 : is_live k1 a) by (apply (ex_live _ _ _ _ _ He1); right; split; [done|set_solver]).
  assert (Hl3 : is_live k3 a) by (apply publish_mid; auto).
  split; [intros Hin; apply (ex_new _ _ _ _ _ He3) in Hin as [Hin _]; apply Hin in Hl1; set_solver|].
  split; [by apply publish_new|].
  etrans; [apply (ex_objs _ _ _ _ _ He1); [done|set_solver]|].
  etrans; [apply (ex_objs _ _ _ _ _ He3); [done|set_solver]|].
  apply (ex_objs _ _ _ _ _ He4); [done|]. by intros ?%publish_dead.
Qed.

Lemma publish_runs p n : owned_run k p n -> owned_run k4 p n.
Proof using All.
  intros Hp. apply (ex_runs _ _ _ _ _ He4); [|set_solver].
  apply (ex_runs _ _ _ _ _ He3); [|set_solver]. apply (ex_runs _ _ _ _ _ He1); [done|set_solver].
Qed.
End Publish.

Lemma spawn_thread_run k ts entry pml4 :
  mem_ok k -> table_rep k ts -> entry <> NULL ->
  exists r k', spawn_thread entry pml4 k = Ret r k' /\ mem_ok k'
    /\ same_cpu_sched (k_sched k) (k_sched k')
    /\ ((r = NULL /\ table_rep k' ts /\ exists L, ext k k' L ∅ ∅ /\ L ⊆ {[threads (k_sched k')]})
        \/ spawned k k' ts entry pml4 r).
Proof.
  intros Hok Ht Hentry. unfold spawn_thread, allocate_thread. null_test. rewrite bind_bind.
  destruct (init_thread_table_run k ts Hok Ht)
    as [H1|(k1 & L0 & H1 & He1 & Ht1 & Hc1 & Hid1 & Hcpu1 & Hsame & Hfirst)]; run H1; cbn [negb].
  { exists NULL, k. split; [done|]. split; [done|]. split; [done|]. left. split; [done|]. split; [done|].
    exists ∅. split; [by apply ext_refl|set_solver]. }
  assert (HL0 : L0 ⊆ {[threads (k_sched k1)]}).
  { destruct (decide (threads_cap (k_sched k) = 0)) as [E|E]; [by rewrite Hfirst|].
    destruct (Hsame E) as [_ ->]. set_solver. }
  destruct (allocate_objects_run k1 (ex_ok _ _ _ _ _ He1)) as (r & k2 & H2 & Hs2 & Hres). run H2.
  destruct Hres as [(-> & He2)|(t & c & q & He2 & Hrep & Hnew & Hq & Hcx)].
  { exists NULL, k2. split; [done|]. split; [apply He2|]. rewrite Hs2. split; [done|].
    left. split; [done|]. split; [eapply table_ext; try done; try by rewrite Hs2|]. 
    exists L0. split; [|done]. eapply ext_same; [exact (ext_trans _ _ _ _ _ _ _ _ _ He1 He2)|set_solver..]. }
  pose proof (ex_new _ _ _ _ _ He2) as HB.
  assert (Hrn : r <> NULL) by (apply HB; set_solver). null_test.
  assert (HBl : forall a, a ∈ thread_blocks r t q [] <-> a ∈ ({[r; t_context t; t_queue t; q_queue q]} : gset Z))
    by (intros a; unfold thread_blocks; set_solver).
  destruct (ready_thread_run k1 k2 _ _ _ r t c q [] entry pml4 He2 ltac:(set_solver) ltac:(set_solver) Hrep)
    as (k3 & H3 & He3 & Hrep3 & Hs3 & Hp3). run H3. rewrite Hs2 in *.
  assert (Ht3 : table_rep k3 ts) by (eapply table_ext; try done; by rewrite Hs3).
  assert (Htb1 : is_live k1 (threads (k_sched k1))) by by apply Ht1.
  assert (Htb3 : threads (k_sched k1) ∉ ({[r; t_context t; t_queue t; q_queue q]} : gset Z)).
  { intros Hin. apply HB in Hin as [Hin _]. apply Hin in Htb1. set_solver. }
  destruct (register_thread_run k3 ts r (entry_thread (next_thread_id (k_sched k1)) t)
    (entry_context entry pml4 c) q [] (ex_ok _ _ _ _ _ He3) Ht3) as
    [[-> Hfull]|(k4 & L & D & H4 & He4 & HLD & Ht4 & Hroom & Hid4 & Hcpu4)];
    [by rewrite Hs3|exact Hrep3|by rewrite Hs3; simpl; rewrite HBl| |].
  { destruct (undo_thread_run k1 k3 _ r (entry_thread (next_thread_id (k_sched k1)) t)
    (entry_context entry pml4 c) q [] He3) as (k4 & H4 & He4 & Hs4); [| |exact Hrep3|done|].
    - intros a. rewrite elem_of_list_to_set. apply HBl.
    - intros a. apply HBl.
    - exists NULL, k4. split; [done|]. split; [apply He4|]. rewrite Hs4, Hs3. split; [done|]. left.
      split; [done|]. split; [eapply table_ext; try done; by rewrite Hs4, Hs3|].
      exists L0. split; [|done]. eapply ext_same; [exact (ext_trans _ _ _ _ _ _ _ _ _ He1 He4)|set_solver..]. }
  exists r, (appended r k4). split; [done|]. split; [apply He4|].
  split; [destruct Hcpu1, Hcpu4; rewrite Hs3 in *; by split; simpl in *; congruence|]. right.
  exists (entry_thread (next_thread_id (k_sched k1)) t), (entry_context entry pml4 c), q.
  rewrite Hs3 in HLD, Hid4. simpl in HLD, Hid4.
  assert (Hinit : (threads (k_sched k1) = threads (k_sched k) /\ L0 = ∅)
                  \/ (L0 = {[threads (k_sched k1)]} /\ ~ is_live k (threads (k_sched k)))).
  { destruct (decide (threads_cap (k_sched k) = 0)) as [E|E]; [right|left].
    - split; [by apply Hfirst|]. rewrite (tb_none _ _ Ht E). by apply null_not_live.
    - by destruct (Hsame E) as [-> ->]. }
  assert (Hne1 : forall a, a ∈ thread_blocks r t q [] -> a <> threads (k_sched k1)) by (intros a Ha%HBl ->; done).
  assert (Hfresh4 : forall a, a ∈ thread_blocks r t q [] -> a <> threads (k_sched k4)).
  { intros a Ha. eapply (publish_new k k1 k3 k4 L0); try done; [|by apply Hne1].
    apply (ex_live _ _ _ _ _ He3). left. by apply HBl. }
  split; [by apply append_table|]. split.
  { apply appended_rep; [exact Hfresh4|]. eapply thread_rep_ext; [exact He4| |set_solver|exact Hrep3].
    intros a Ha Hin. eapply Hne1; [exact Ha|]. by eapply (publish_dead k k1 k3 k4 L0). }
  split; [by rewrite Hid1|]. do 2 (split; [done|]).
  split; [by rewrite Hcx|]. split; [simpl; by rewrite Hid4, Hid1|].
  split; [intros p n f Hp; apply Hnew, (ex_runs _ _ _ _ _ He1); [done|set_solver]|].
  split; [|split].
  - intros a. rewrite HBl. by apply (publish_live k k1 k3 k4 L0 _ L D _ (threads (k_sched k1))).
  - intros a Ha Hne. rewrite HBl.
    destruct (publish_objs k k1 k3 k4 L0 _ L D _ _ _ He1 He3 He4 Hinit Htb1 Htb3 HLD a Ha Hne) as (?&?&?).
    do 2 (split; [done|]). etrans; [done|]. by apply append_frame.
  - intros p n Hp. by apply (publish_runs k k1 k3 k4 L0 _ L D _ _ _ He1 He3 He4 Hinit Htb1 Htb3 HLD).
Qed.

(** ** Properties *)

(** C4: [spawn_thread] always returns.  Either it appends to the table a thread
    in state READY with the next id, an empty message queue, its own two-page
    kernel stack (taken from no other thread) and a context that enters at
    [entry] in kernel mode with interrupts on, or it returns NULL; in both cases
    every object that was live before is unchanged, and on failure no block is
    leaked: the live blocks are those of before, plus at most the first table. *)
Theorem spawn_thread_correct k ts entry pml4 :
  mem_ok k -> table_rep k ts -> entry <> NULL ->
  exists r k', spawn_thread entry pml4 k = Ret r k' /\ mem_ok k'
    /\ same_cpu_sched (k_sched k) (k_sched k')
    /\ ((r = NULL /\ table_rep k' ts /\ exists L, ext k k' L ∅ ∅ /\ L ⊆ {[threads (k_sched k')]})
        \/ spawned k k' ts entry pml4 r).
Proof. apply spawn_thread_run. Qed.

Lemma k1_table : table_rep k1 [].
Proof. split; try done. by left. Qed.

Lemma spawn_thread_correct_witness :
  exists r k', spawn_thread 0x500000 0x9000 k1 = Ret r k' /\ spawned k1 k' [] 0x500000 0x9000 r.
Proof.
  destruct (spawn_thread_correct k1 [] 0x500000 0x9000 k1_ok k1_table ltac:(done))
    as (r & k' & H & _ & _ & Hr). exists r, k'. split; [exact H|].
  assert (E : match spawn_thread 0x500000 0x9000 k1 with Ret r _ => r =? NULL | _ => true end = false)
    by (vm_compute; reflexivity).
  rewrite H in E. destruct Hr as [(-> & _)|Hr]; [done|exact Hr].
Defined.

(** the table never holds more than 256 threads: doubling it again would ask
    the heap for a whole page, so with 256 threads [spawn_thread] returns NULL and
    leaves the table as it is. *)
Lemma spawn_thread_limit k ts entry pml4 :
  mem_ok k -> table_rep k ts -> entry <> NULL ->
  (length ts <= 256)%nat
  /\ (length ts = 256%nat ->
      exists k', spawn_thread entry pml4 k = Ret NULL k' /\ table_rep k' ts).
Proof.
  intros Hok Ht Hentry.
  assert (Hmax : forall k ts, table_rep k ts -> (length ts <= 256)%nat).
  { intros k' ts' Ht'. pose proof (tb_fits _ _ Ht'). pose proof (tb_length _ _ Ht').
    destruct (table_cap_cases _ (tb_cap _ _ Ht')); lia. }
  split; [by eapply Hmax|]. intros Hfull.
  destruct (spawn_thread_run k ts entry pml4 Hok Ht Hentry) as (r & k' & H & _ & _ & [(-> & Ht' & _)|Hs]).
  - by exists k'.
  - destruct Hs as (t & c & q & Ht' & _). apply Hmax in Ht'. rewrite length_app, Hfull in Ht'.
    simpl in Ht'. lia.
Qed.

(** The elements [ts] of an array, from index [i]. *)
Fixpoint arr_of (base i : Z) (ts : list Z) : gmap (Z * Z) Z :=
  match ts with
  | [] => ∅
  | t :: ts => <[(base, i) := t]> (arr_of base (i + 1) ts)
  end.

Lemma arr_of_lookup base i ts n t :
  ts !! n = Some t -> arr_of base i ts !! (base, i + Z.of_nat n) = Some t.
Proof.
  revert i n. induction ts as [|t' ts IH]; intros i [|n] H; simplify_eq/=.
  - by rewrite Z.add_0_r, lookup_insert_eq.
  - rewrite lookup_insert_ne by (intros [= E]; lia).
    replace (i + Z.of_nat (S n)) with (i + 1 + Z.of_nat n) by lia. by apply IH.
Qed.

(** A machine with a full table of 256 threads. *)
Definition k_crowd : kstate :=
  with_sched {| threads := 0x100018; current_thread := 0; threads_length := 256; threads_cap := 256;
                next_thread_id := 257; tss_rsp0 := 0 |}
    (with_obj {| o_thread := ∅; o_context := ∅; o_queue := ∅; o_node := ∅; o_as := ∅; o_bytes := ∅;
                 arr_ptr := arr_of 0x100018 0 (replicate 256 0x100058); arr_msg := ∅ |}
       (with_heap (heap_with 2048) k0)).

Lemma k_crowd_ok : mem_ok k_crowd.
Proof. by apply (heap_with_ok 2048). Qed.

Lemma k_crowd_table : table_rep k_crowd (replicate 256 0x100058).
Proof.
  split; [done|do 6 right; by left|done|done| |].
  - intros _. by eexists.
  - intros i t. apply (arr_of_lookup 0x100018 0).
Qed.

Lemma spawn_thread_limit_witness :
  exists k', spawn_thread 0x500000 0 k_crowd = Ret NULL k' /\ table_rep k' (replicate 256 0x100058).
Proof.
  exact (proj2 (spawn_thread_limit k_crowd (replicate 256 0x100058) 0x500000 0 k_crowd_ok k_crowd_table
                  ltac:(done)) (length_replicate _ _)).
Defined.

(** [free_thread] releases exactly what the thread owns - its stack's two
    frames, the thread, its context, its queue, the queue's array and every
    pending payload - and leaves every other live object and every other stack as
    they were; freeing NULL does nothing. *)
Lemma free_thread_correct k ta t c q l :
  mem_ok k -> thread_rep k ta t c q l ->
  free_thread NULL k = Ret tt k
  /\ exists k', free_thread ta k = Ret tt k'
       /\ ext k k' ∅ (list_to_set (thread_blocks ta t q l)) (stack_frames t)
       /\ k_obj k' = k_obj k /\ k_sched k' = k_sched k.
Proof. intros Hok Hr. split; [done|]. by apply (free_thread_run k ta t c q l). Qed.

Lemma free_thread_correct_witness :
  exists r k' k'', spawn_thread 0x500000 0x9000 k1 = Ret r k' /\ free_thread r k' = Ret tt k''.
Proof.
  destruct (spawn_thread_run k1 [] 0x500000 0x9000 k1_ok k1_table ltac:(done))
    as (r & k' & H & Hok & _ & Hr). exists r, k'.
  assert (E : match spawn_thread 0x500000 0x9000 k1 with Ret r _ => r =? NULL | _ => true end = false)
    by (vm_compute; reflexivity).
  rewrite H in E. destruct Hr as [(-> & _)|(t & c & q & _ & Hr & _)]; [done|].
  destruct (free_thread_correct k' r t c q [] Hok Hr) as (_ & k'' & H2 & _).
  exists k''. split; [exact H|exact H2].
Defined.
