(* ===== verification/Sched.v ===== *)
(** * scheduler/scheduler.c: round-robin scheduling

    The table is the list [ts]; [scheduler_next] is specified on that list and
    the tick is shown to starve no runnable thread. *)

From S2P Require Import Prelude State Utils Pmm Heap Objects Thread.

Definition set_current (t : Z) (s : sched_t) : sched_t :=
  {| threads := threads s; current_thread := t; threads_length := threads_length s;
     threads_cap := threads_cap s; next_thread_id := next_thread_id s; tss_rsp0 := tss_rsp0 s |}.
Definition set_rsp0 (v : Z) (s : sched_t) : sched_t :=
  {| threads := threads s; current_thread := current_thread s;
     threads_length := threads_length s; threads_cap := threads_cap s;
     next_thread_id := next_thread_id s; tss_rsp0 := v |}.

(** The index of the running thread in the table, 0 when it is not there. *)
Definition current_index : kernel Z :=
  s <- gets k_sched ;;
  if current_thread s =? NULL then ret 0 else
  r <- for_until (trips 0 (threads_length s)) 0 (fun i =>
         t <- load_ptr (threads s) i ;;
         ret (if t =? current_thread s then Some i else None)) ;;
  ret (default 0 r).

Definition scheduler_next : kernel Z :=
  s <- gets k_sched ;;
  if threads_length s =? 0 then ret NULL else
  ci <- current_index ;;
  r <- for_until (trips 1 (threads_length s + 1)) 1 (fun i =>
         index <- umod (u64 (ci + i)) (threads_length s) ;;
         t <- load_ptr (threads s) index ;;
         th <- load_thread t ;;
         ret (if decide (t_state th = THREAD_READY) then Some t else None)) ;;
  ret (match r with Some t => t | None => current_thread s end).

(** The result is the context that [switch_context] resumes. *)
Definition scheduler_tick : kernel Z :=
  next <- scheduler_next ;;
  cur <- gets (fun k => current_thread (k_sched k)) ;;
  _ <- (if negb (next =? cur) then upd_sched (set_current next) else ret tt) ;;
  cur <- gets (fun k => current_thread (k_sched k)) ;;
  t <- load_thread cur ;;
  _ <- upd_sched (set_rsp0 (u64 (t_kernel_stack t + 4096 * KERNEL_STACK_SIZE_IN_PAGES))) ;;
  ret (t_context t).

(** ** The specification *)

Definition ready (k : kstate) (t : Z) : bool :=
  match o_thread (k_obj k) !! t with
  | Some th => bool_decide (t_state th = THREAD_READY)
  | None => false
  end.

(** Where the search starts. *)
Definition start_index (ts : list Z) (cur : Z) : nat :=
  match list_find (fun t => t = cur) ts with Some (i, _) => i | None => 0%nat end.

(** The table from the entry behind the running thread, around to it. *)
Definition rotation (ts : list Z) (cur : Z) : list Z :=
  drop (S (start_index ts cur)) ts ++ take (S (start_index ts cur)) ts.

Definition next_thread (rdy : Z -> bool) (ts : list Z) (cur : Z) : Z :=
  match ts with
  | [] => NULL
  | _ => default cur (List.find rdy (rotation ts cur))
  end.

(** The table [ts], each entry a thread. *)
Record run_queue (k : kstate) (ts : list Z) : Prop := {
  rq_table : table_rep k ts;
  rq_thread t : t ∈ ts -> is_Some (o_thread (k_obj k) !! t);
  rq_nonnull : NULL ∉ ts
}.

Lemma start_index_lt ts cur : ts <> [] -> (start_index ts cur < length ts)%nat.
Proof.
  intros Hne. unfold start_index. destruct (list_find _ _) as [[i x]|] eqn:E.
  - apply list_find_Some in E as (H & _). by eapply lookup_lt_Some.
  - destruct ts; [done|simpl; lia].
Qed.

Lemma find_imap_pair cur ts n :
  List.find (fun p => p.2 =? cur) (imap (fun i => pair (n + i)%nat) ts)
  = match list_find (fun t => t = cur) ts with Some (i, x) => Some ((n + i)%nat, x) | None => None end.
Proof.
  revert n. induction ts as [|t ts IH]; intros n; [done|]. cbn [imap List.find list_find snd].
  rewrite Nat.add_0_r. destruct (Z.eqb_spec t cur) as [->|Hne].
  - rewrite decide_True by done. by rewrite Nat.add_0_r.
  - rewrite decide_False by done.
    rewrite (imap_ext _ (fun i => pair (S n + i)%nat)) by (intros; simpl; f_equal; lia).
    rewrite IH. destruct (list_find _ ts) as [[i x]|]; simpl; [|done]. do 2 f_equal. lia.
Qed.

Lemma current_index_run k ts :
  run_queue k ts -> ts <> [] ->
  current_index k = Ret (Z.of_nat (start_index ts (current_thread (k_sched k)))) k.
Proof.
  intros [Ht Hth Hnn] Hne. unfold current_index. cbn [bind gets].
  set (cur := current_thread (k_sched k)).
  destruct (Z.eqb_spec cur NULL) as [E|E].
  { unfold start_index. destruct (list_find _ _) as [[i x]|] eqn:Ef; [|done].
    apply list_find_Some in Ef as (H & -> & _). rewrite E in H. by apply list_elem_of_lookup_2 in H. }
  rewrite (trips_length (imap pair ts)) by (rewrite length_imap; apply Ht).
  erewrite bind_run; [|apply (for_until_list (fun p => p.2 =? cur) (fun p => Z.of_nat p.1))].
  - unfold start_index. change (imap pair ts) with (imap (fun i => pair (0 + i)%nat) ts).
    rewrite find_imap_pair.
    by destruct (list_find _ ts) as [[i x]|].
  - intros j [n x] Hj. rewrite list_lookup_imap in Hj.
    destruct (ts !! j) as [t|] eqn:E2; [|done]. injection Hj as <- <-.
    rewrite (bind_run _ _ _ t k); [|by apply load_ptr_run, (tb_entry _ _ Ht)].
    cbn [fst snd]. by destruct (t =? cur).
Qed.

Lemma rotation_lookup ts cur j t :
  rotation ts cur !! j = Some t ->
  ts !! ((start_index ts cur + 1 + j) mod length ts)%nat = Some t.
Proof.
  intros H. assert (Hne : ts <> []).
  { intros ->. unfold rotation in H. rewrite drop_nil, take_nil in H. done. }
  pose proof (start_index_lt ts cur Hne) as Hs. unfold rotation in H.
  set (s := start_index ts cur) in *.
  apply lookup_app_Some in H as [H|[Hge H]].
  - rewrite lookup_drop in H. pose proof (lookup_lt_Some _ _ _ H).
    rewrite Nat.mod_small by lia. rewrite <- H. f_equal. lia.
  - apply lookup_take_Some in H as [H Hlt]. rewrite length_drop in *.
    replace (s + 1 + j)%nat with ((j - (length ts - S s)) + 1 * length ts)%nat by lia.
    rewrite Nat.Div0.mod_add, Nat.mod_small by lia. done.
Qed.

Lemma length_rotation ts cur : length (rotation ts cur) = length ts.
Proof. unfold rotation. rewrite length_app, length_drop, length_take. lia. Qed.

Lemma scheduler_next_run k ts :
  run_queue k ts ->
  scheduler_next k = Ret (next_thread (ready k) ts (current_thread (k_sched k))) k.
Proof.
  intros Hq. pose proof Hq as [Ht Hth Hnn]. unfold scheduler_next. cbn [bind gets].
  pose proof (tb_length _ _ Ht) as Hlen. pose proof (tb_fits _ _ Ht) as Hfit.
  destruct (table_cap_cases _ (tb_cap _ _ Ht)) as [Hc|Hc];
  (destruct ts as [|t0 ts0]; [by rewrite Hlen|]); [simpl in Hlen; lia|].
  rewrite (proj2 (Z.eqb_neq (threads_length (k_sched k)) 0)) by (rewrite Hlen; simpl; lia). set (ts := t0 :: ts0) in *.
  rewrite (bind_run _ _ _ _ _ (current_index_run k ts Hq ltac:(done))).
  pose proof (start_index_lt ts (current_thread (k_sched k)) ltac:(done)) as Hs.
  set (cur := current_thread (k_sched k)) in *.
  assert (Htr : trips 1 (threads_length (k_sched k) + 1) = length (rotation ts cur)).
  { rewrite length_rotation. apply Nat2Z.inj. rewrite trips_max. lia. }
  rewrite Htr.
  erewrite bind_run; [|apply (for_until_list (ready k) id)].
  { unfold next_thread, ts. by destruct (List.find _ _). }
  intros j t Hj. pose proof (rotation_lookup _ _ _ _ Hj) as Hidx.
  rewrite u64_small by (apply lookup_lt_Some in Hj; rewrite length_rotation in Hj; lia).
  rewrite (bind_run _ _ _ _ _ (umod_run _ (threads_length (k_sched k)) _ ltac:(lia))).
  rewrite (bind_run _ _ _ t k).
  2: { apply load_ptr_run. rewrite Hlen. replace (Z.of_nat (start_index ts cur) + (1 + Z.of_nat j))
         with (Z.of_nat (start_index ts cur + 1 + j)) by lia.
       rewrite <- Nat2Z.inj_mod. by apply (tb_entry _ _ Ht). }
  destruct (Hth t) as [th Hthr]; [by eapply list_elem_of_lookup_2|].
  rewrite (bind_run _ _ _ _ _ (load_thread_run _ _ _ Hthr)).
  unfold ready. rewrite Hthr. by repeat case_decide.
Qed.

(** ** The tick *)

Lemma find_rotation rdy ts cur t :
  List.find rdy (rotation ts cur) = Some t <->
  exists j, rotation ts cur !! j = Some t /\ rdy t = true
    /\ forall i x, (i < j)%nat -> rotation ts cur !! i = Some x -> rdy x = false.
Proof.
  generalize (rotation ts cur) as l. induction l as [|x l IH]; simpl.
  { split; [done|]. by intros (j & ? & _). }
  destruct (rdy x) eqn:E.
  - split.
    + intros [= <-]. exists 0%nat. split_and!; [done|done|lia].
    + intros ([|j] & Hj & Hr & Hmin); [done|]. specialize (Hmin 0%nat x ltac:(lia) eq_refl). congruence.
  - rewrite IH. split.
    + intros (j & Hj & Hr & Hmin). exists (S j). split_and!; [done|done|].
      intros [|i] y Hi; [by intros [= <-]|]. apply Hmin. lia.
    + intros ([|j] & Hj & Hr & Hmin); [simplify_eq/=; congruence|]. exists j. split_and!; [done|done|].
      intros i y Hi Hy. apply (Hmin (S i)); [lia|done].
Qed.

Definition tick_state (t : Z) (th : thread_t) (k : kstate) : kstate :=
  with_sched (set_rsp0 (u64 (t_kernel_stack th + 4096 * KERNEL_STACK_SIZE_IN_PAGES))
                (set_current t (k_sched k))) k.

Lemma run_queue_tick k ts t th : run_queue k ts -> run_queue (tick_state t th k) ts.
Proof. intros [[] ? ?]. by split. Qed.

Lemma scheduler_tick_run k ts t th :
  run_queue k ts -> next_thread (ready k) ts (current_thread (k_sched k)) = t ->
  o_thread (k_obj k) !! t = Some th ->
  scheduler_tick k = Ret (t_context th) (tick_state t th k).
Proof.
  intros Hq Hn Hth. unfold scheduler_tick. rewrite (bind_run _ _ _ _ _ (scheduler_next_run k ts Hq)).
  rewrite Hn. cbn [bind gets]. destruct (Z.eqb_spec t (current_thread (k_sched k))) as [->|Hne]; cbn [negb bind ret upd_sched modify gets].
  - rewrite (bind_run _ _ _ _ _ (load_thread_run _ _ _ Hth)). cbn [bind upd_sched modify].
    unfold tick_state. by destruct k as [? ? ? ? ? ? ? ? [] ? ? ? ?].
  - by rewrite (bind_run _ _ _ th _ (load_thread_run (with_sched (set_current t (k_sched k)) k) _ _ Hth)).
Qed.

(** [t] is the [d]-th entry behind the running thread. *)
Definition behind (k : kstate) (ts : list Z) (t : Z) (d : nat) : Prop :=
  rotation ts (current_thread (k_sched k)) !! d = Some t.

Lemma start_index_at ts i t : base.NoDup ts -> ts !! i = Some t -> start_index ts t = i.
Proof.
  intros Hnd Hi. unfold start_index. destruct (list_find (fun x => x = t) ts) as [[j x]|] eqn:E.
  - apply list_find_Some in E as (Hj & -> & _). by eapply NoDup_lookup.
  - apply list_find_None in E. rewrite Forall_forall in E.
    destruct (E t); [|done]. apply list_elem_of_In. by eapply list_elem_of_lookup_2.
Qed.

Lemma rotation_at ts cur d :
  ts <> [] -> (d < length ts)%nat ->
  rotation ts cur !! d = ts !! ((start_index ts cur + 1 + d) mod length ts)%nat.
Proof.
  intros Hne Hd. destruct (rotation ts cur !! d) as [t|] eqn:E.
  - symmetry. by apply rotation_lookup.
  - apply lookup_ge_None in E. rewrite length_rotation in E. lia.
Qed.

(** One tick either reaches [t] or comes closer to it. *)
Lemma tick_progress k ts t d :
  run_queue k ts -> base.NoDup ts -> behind k ts t d -> ready k t = true ->
  exists k' c, scheduler_tick k = Ret c k' /\ run_queue k' ts /\ (forall x, ready k' x = ready k x)
    /\ (current_thread (k_sched k') = t \/ exists d', (d' < d)%nat /\ behind k' ts t d').
Proof.
  intros Hq Hnd Hd Hr. unfold behind in Hd. set (cur := current_thread (k_sched k)) in *.
  assert (Hlt : (d < length ts)%nat) by (apply lookup_lt_Some in Hd; by rewrite length_rotation in Hd).
  assert (Hne : ts <> []) by (intros ->; simpl in Hlt; lia).
  destruct (List.find (ready k) (rotation ts cur)) as [u|] eqn:Ef.
  2: { assert (Hin : In t (rotation ts cur)) by (apply list_elem_of_In; by eapply list_elem_of_lookup_2).
       pose proof (List.find_none _ _ Ef t Hin). congruence. }
  assert (Hn : next_thread (ready k) ts cur = u) by (unfold next_thread; destruct ts; [done|]; by rewrite Ef).
  apply find_rotation in Ef as (j & Hj & Hru & Hmin).
  assert (Hjd : (j <= d)%nat).
  { destruct (Nat.le_gt_cases j d) as [|Hgt]; [done|]. specialize (Hmin d t Hgt Hd). congruence. }
  pose proof (rotation_lookup _ _ _ _ Hj) as Hidx.
  destruct (rq_thread _ _ Hq u) as [th Hth]; [by eapply list_elem_of_lookup_2|].
  exists (tick_state u th k), (t_context th).
  split; [by apply (scheduler_tick_run k ts)|]. split; [by apply run_queue_tick|]. split; [done|]. simpl.
  destruct (decide (j = d)) as [->|Hjne]; [left; congruence|right].
  exists (d - j - 1)%nat. split; [lia|]. unfold behind. simpl. rewrite rotation_at by (done || lia).
  rewrite (start_index_at _ _ _ Hnd Hidx). rewrite rotation_at in Hd by done.
  rewrite <- Hd. f_equal.
  set (s := start_index ts cur). replace (s + 1 + d)%nat with ((s + 1 + j) + (1 + (d - j - 1)))%nat by lia.
  rewrite <- Nat.add_assoc. by rewrite Nat.Div0.add_mod_idemp_l.
Qed.

(** Timer interrupts with nothing else happening. *)
Fixpoint ticks (n : nat) : kernel unit :=
  match n with O => ret tt | S n => _ <- scheduler_tick ;; ticks n end.

Lemma ticks_reach d : forall k ts t,
  run_queue k ts -> base.NoDup ts -> behind k ts t d -> ready k t = true ->
  exists m k', (1 <= m <= S d)%nat /\ ticks m k = Ret tt k' /\ current_thread (k_sched k') = t.
Proof.
  induction (lt_wf d) as [d _ IH]. intros k ts t Hq Hnd Hd Hr.
  destruct (tick_progress k ts t d Hq Hnd Hd Hr) as (k1 & c & H1 & Hq1 & Hr1 & [Hc|(d' & Hlt & Hd')]).
  - exists 1%nat, k1. split; [lia|]. split; [|done]. cbn [ticks]. by rewrite (bind_run _ _ _ _ _ H1).
  - destruct (IH d' Hlt k1 ts t Hq1 Hnd Hd') as (m & k2 & Hm & H2 & Hc2); [by rewrite Hr1|].
    exists (S m), k2. split; [lia|]. split; [|done]. cbn [ticks]. by rewrite (bind_run _ _ _ _ _ H1).
Qed.

(** ** Properties *)

(** A machine with three threads, the second running and not ready. *)
Definition thread_n (n : Z) (st : thread_state_t) : thread_t :=
  {| t_tid := n; t_context := 0x2000 + n; t_kernel_stack := 0x103000; t_state := st; t_queue := 0;
     t_exit_code := 0 |}.

Definition k_three : kstate :=
  with_sched {| threads := 0x100018; current_thread := 0x200; threads_length := 3; threads_cap := 8;
                next_thread_id := 4; tss_rsp0 := 0 |}
    (with_obj {| o_thread := {[ 0x100 := thread_n 1 THREAD_READY; 0x200 := thread_n 2 THREAD_BLOCKED;
                                0x300 := thread_n 3 THREAD_DEAD ]};
                 o_context := ∅; o_queue := ∅; o_node := ∅; o_as := ∅; o_bytes := ∅;
                 arr_ptr := arr_of 0x100018 0 [0x100; 0x200; 0x300]; arr_msg := ∅ |}
       (with_heap (heap_with 64) k0)).

Lemma k_three_queue : run_queue k_three [0x100; 0x200; 0x300].
Proof.
  split.
  - split; [done|by right; left|done|done|by intros _; eexists|].
    intros i t. apply (arr_of_lookup 0x100018 0).
  - intros t. rewrite !elem_of_cons, elem_of_nil. by intros [->|[->|[->|[]]]]; eexists.
  - rewrite !elem_of_cons, elem_of_nil. by intros [?|[?|[?|[]]]].
Qed.

(** C28: [scheduler_next] changes nothing and returns the first READY thread met
    when the table is walked cyclically from the entry behind the running thread
    (the running one last); the running thread when there is none; NULL for an
    empty table. *)
Theorem scheduler_next_round_robin k ts :
  run_queue k ts ->
  exists r, scheduler_next k = Ret r k
    /\ (ts = [] -> r = NULL)
    /\ (ts <> [] ->
        let n := length ts in
        let i := start_index ts (current_thread (k_sched k)) in
        (exists j, (j < n)%nat /\ ts !! ((i + 1 + j) mod n)%nat = Some r /\ ready k r = true
           /\ forall j' x, (j' < j)%nat -> ts !! ((i + 1 + j') mod n)%nat = Some x -> ready k x = false)
        \/ (r = current_thread (k_sched k) /\ forall x, x ∈ ts -> ready k x = false)).
Proof.
  intros Hq. eexists. split; [by apply scheduler_next_run|]. split; [by intros ->|]. intros Hne n i.
  set (cur := current_thread (k_sched k)) in *.
  unfold next_thread. destruct ts as [|t0 ts0]; [done|]. set (ts := t0 :: ts0) in *.
  destruct (List.find (ready k) (rotation ts cur)) as [u|] eqn:Ef.
  - left. apply find_rotation in Ef as (j & Hj & Hru & Hmin).
    pose proof (lookup_lt_Some _ _ _ Hj) as Hlt. rewrite length_rotation in Hlt.
    exists j. split; [done|]. split; [by apply rotation_lookup|]. split; [done|].
    intros j' x Hj' Hx. apply (Hmin j'); [done|]. rewrite rotation_at; [done|done|]. lia.
  - right. split; [done|]. intros x Hx. eapply List.find_none; [exact Ef|].
    apply list_elem_of_In. unfold rotation. rewrite <- (take_drop (S (start_index ts cur)) ts) in Hx.
    rewrite elem_of_app in *. tauto.
Qed.

Lemma scheduler_next_round_robin_witness : scheduler_next k_three = Ret 0x100 k_three.
Proof.
  destruct (scheduler_next_round_robin k_three _ k_three_queue) as (r & H & _ & _).
  rewrite H. vm_compute in H. by injection H as <-.
Defined.

(** C11: no starvation: a READY thread of the table runs after at most as many
    timer ticks as the table has threads. *)
Theorem scheduler_no_starvation k ts t :
  run_queue k ts -> base.NoDup ts -> t ∈ ts -> ready k t = true ->
  exists m k', (1 <= m <= length ts)%nat /\ ticks m k = Ret tt k' /\ current_thread (k_sched k') = t.
Proof.
  intros Hq Hnd Hin Hr.
  assert (Hrot : t ∈ rotation ts (current_thread (k_sched k))).
  { unfold rotation. rewrite <- (take_drop (S (start_index ts (current_thread (k_sched k)))) ts) in Hin.
    rewrite elem_of_app in *. tauto. }
  apply list_elem_of_lookup in Hrot as [d Hd].
  destruct (ticks_reach d k ts t Hq Hnd Hd Hr) as (m & k' & Hm & H).
  apply lookup_lt_Some in Hd. rewrite length_rotation in Hd. exists m, k'. split; [lia|done].
Qed.

Lemma scheduler_no_starvation_witness :
  exists m k', (1 <= m <= 3)%nat /\ ticks m k_three = Ret tt k' /\ current_thread (k_sched k') = 0x100.
Proof.
  apply (scheduler_no_starvation k_three [0x100; 0x200; 0x300] 0x100 k_three_queue);
    [repeat constructor; set_solver|by left|reflexivity].
Defined.

(** a tick makes the chosen thread current, points the TSS at the top of its
    kernel stack and hands its context to [switch_context]; nothing else
    changes. *)
Lemma scheduler_tick_switches k ts t th :
  run_queue k ts -> next_thread (ready k) ts (current_thread (k_sched k)) = t ->
  o_thread (k_obj k) !! t = Some th ->
  exists k', scheduler_tick k = Ret (t_context th) k'
    /\ current_thread (k_sched k') = t
    /\ tss_rsp0 (k_sched k') = u64 (t_kernel_stack th + 8192)
    /\ run_queue k' ts /\ k_obj k' = k_obj k /\ k_heap k' = k_heap k /\ k_cpu k' = k_cpu k.
Proof.
  intros Hq Hn Hth. exists (tick_state t th k). split; [by apply (scheduler_tick_run k ts)|].
  split_and!; try done. by apply run_queue_tick.
Qed.

Lemma scheduler_tick_switches_witness :
  exists k', scheduler_tick k_three = Ret 0x2001 k' /\ current_thread (k_sched k') = 0x100.
Proof.
  destruct (scheduler_tick_switches k_three [0x100; 0x200; 0x300] 0x100 (thread_n 1 THREAD_READY)
              k_three_queue) as (k' & H & Hc & _); [reflexivity|reflexivity|].
  exists k'. split; [exact H|exact Hc].
Defined.
