(* ===== verification/Ipc.v ===== *)
(** * ipc/ipc.c: message queues

    A queue is a ring of message descriptors; its abstract state is the list of
    pending messages, oldest first ([queue_rep]). *)

From S2P Require Import Prelude State Utils Pmm Heap Objects Thread Sched.

(** The ring enlarged: the messages move to the front of the new array. *)
Definition ipc_grow_queue (queue : Z) : kernel bool :=
  q <- load_queue queue ;;
  let new_cap := u64 (q_capacity q * 2) in
  new_queue <- kmalloc (u64 (new_cap * sizeof_ipc_msg_t)) ;;
  if new_queue =? NULL then ret false else
  _ <- for_range (trips 0 (q_count q)) 0 (fun i =>
         m <- queue_slot q i ;; store_msg new_queue i m) ;;
  _ <- kfree (q_queue q) ;;
  _ <- store_queue queue {| q_queue := new_queue; q_capacity := new_cap; q_head := 0;
                            q_tail := q_count q; q_count := q_count q |} ;;
  ret true.

(** The first thread of the table with the given id. *)
Definition find_thread (tid : Z) : kernel Z :=
  s <- gets k_sched ;;
  r <- for_until (trips 0 (threads_length s)) 0 (fun i =>
         p <- load_ptr (threads s) i ;;
         t <- load_thread p ;;
         ret (if t_tid t =? tid then Some p else None)) ;;
  ret (default NULL r).

(** [memcpy] between two byte blocks of the heap. *)
Definition copy_bytes (dest src n : Z) : kernel unit :=
  bs <- load_bytes src ;;
  if Z.of_nat (length bs) <? n then stuck else store_bytes dest (take (Z.to_nat n) bs).

Definition kipc_send (target msg size : Z) : kernel bool :=
  thread <- find_thread target ;;
  if thread =? NULL then ret false else
  t <- load_thread thread ;;
  let queue := t_queue t in
  if queue =? NULL then ret false else
  q <- load_queue queue ;;
  grown <- (if q_capacity q <=? q_count q then ipc_grow_queue queue else ret true) ;;
  if negb grown then ret false else
  copied_msg <- kmalloc size ;;
  if copied_msg =? NULL then ret false else
  _ <- copy_bytes copied_msg msg size ;;
  q <- load_queue queue ;;
  cur <- gets (fun k => current_thread (k_sched k)) ;;
  me <- load_thread cur ;;
  _ <- store_msg (q_queue q) (q_tail q)
         {| m_target := target; m_sender := t_tid me; m_msg := copied_msg; m_size := size |} ;;
  tail <- umod (u64 (q_tail q + 1)) (q_capacity q) ;;
  _ <- store_queue queue {| q_queue := q_queue q; q_capacity := q_capacity q; q_head := q_head q;
                            q_tail := tail; q_count := u64 (q_count q + 1) |} ;;
  ret true.

(** [None] when there is no message; the descriptor written to [*out] otherwise. *)
Definition kipc_poll : kernel (option ipc_msg_t) :=
  cur <- gets (fun k => current_thread (k_sched k)) ;;
  t <- load_thread cur ;;
  let queue := t_queue t in
  q <- load_queue queue ;;
  if q_count q =? 0 then ret None else
  m <- load_msg (q_queue q) (q_head q) ;;
  head <- umod (u64 (q_head q + 1)) (q_capacity q) ;;
  _ <- store_queue queue {| q_queue := q_queue q; q_capacity := q_capacity q; q_head := head;
                            q_tail := q_tail q; q_count := u64 (q_count q - 1) |} ;;
  ret (Some m).

(** ** The ring *)

Lemma ring_distinct h c i j : 0 < c -> 0 <= i < j -> j < c -> (h + i) mod c <> (h + j) mod c.
Proof.
  intros Hc Hij Hj E.
  assert (Hd : (c | j - i)).
  { apply Z.mod_divide; [lia|]. replace (j - i) with ((h + j) - (h + i)) by lia.
    by rewrite Zminus_mod, E, Z.sub_diag, Z.mod_0_l by lia. }
  apply Z.divide_pos_le in Hd; lia.
Qed.

Lemma queue_cap q k l : queue_rep k q l -> 4 <= q_capacity q <= 64.
Proof.
  intros Hq. pose proof (qr_cap _ _ _ Hq) as Hcap.
  repeat (apply elem_of_cons in Hcap as [->|Hcap]; [lia|]). by apply elem_of_nil in Hcap.
Qed.

Definition pushed (q : ipc_queue_t) : ipc_queue_t :=
  {| q_queue := q_queue q; q_capacity := q_capacity q; q_head := q_head q;
     q_tail := (q_tail q + 1) mod q_capacity q; q_count := q_count q + 1 |}.
Definition popped (q : ipc_queue_t) : ipc_queue_t :=
  {| q_queue := q_queue q; q_capacity := q_capacity q; q_head := (q_head q + 1) mod q_capacity q;
     q_tail := q_tail q; q_count := q_count q - 1 |}.

Lemma ring_push k k' q l m :
  queue_rep k q l -> q_count q < q_capacity q ->
  (forall j, arr_msg (k_obj k') !! (q_queue q, j)
     = if decide (j = q_tail q) then Some m else arr_msg (k_obj k) !! (q_queue q, j)) ->
  queue_rep k' (pushed q) (l ++ [m]).
Proof.
  intros Hq Hroom Harr. pose proof (queue_cap _ _ _ Hq). destruct Hq as [Hcap Hh [Hc Hle] Ht Hs].
  split; simpl; try done.
  - rewrite length_app. simpl. lia.
  - rewrite Ht, Zplus_mod_idemp_l. f_equal. lia.
  - intros i x Hi. rewrite Harr. destruct (decide (i = length l)) as [->|Hne].
    + rewrite list_lookup_middle in Hi by done. injection Hi as <-.
      rewrite decide_True; [done|]. by rewrite Ht, Hc.
    + assert (Hlt : (i < length l)%nat).
      { apply lookup_lt_Some in Hi. rewrite length_app in Hi. simpl in Hi. lia. }
      rewrite lookup_app_l in Hi by done. rewrite decide_False; [by apply Hs|].
      rewrite Ht, Hc. apply ring_distinct; lia.
Qed.

Lemma ring_pop k q m l :
  queue_rep k q (m :: l) ->
  arr_msg (k_obj k) !! (q_queue q, q_head q) = Some m /\ queue_rep k (popped q) l.
Proof.
  intros Hq. pose proof (queue_cap _ _ _ Hq). destruct Hq as [Hcap Hh [Hc Hle] Ht Hs].
  simpl in Hc. split.
  - specialize (Hs 0%nat m eq_refl). rewrite Z.add_0_r, Z.mod_small in Hs by lia. done.
  - split; simpl; try done; try lia.
    + apply Z.mod_pos_bound. lia.
    + rewrite Zplus_mod_idemp_l, Ht. f_equal. lia.
    + intros i x Hi. rewrite Zplus_mod_idemp_l. specialize (Hs (S i) x Hi).
      replace (q_head q + 1 + Z.of_nat i) with (q_head q + Z.of_nat (S i)) by lia. done.
Qed.

Lemma queue_slot_run k q l i m :
  queue_rep k q l -> l !! i = Some m -> queue_slot q (Z.of_nat i) k = Ret m k.
Proof.
  intros Hq Hi. pose proof (queue_cap _ _ _ Hq). destruct (qr_count _ _ _ Hq) as [Hc Hle].
  pose proof (qr_head _ _ _ Hq). pose proof (lookup_lt_Some _ _ _ Hi). unfold queue_slot.
  rewrite u64_small by lia. rewrite (bind_run _ _ _ _ _ (umod_run _ (q_capacity q) _ ltac:(lia))).
  by apply load_msg_run, (qr_slot _ _ _ Hq).
Qed.

(** The copying loop of [ipc_grow_queue]. *)
Lemma copy_ring k k1 q l nq :
  queue_rep k q l -> nq <> q_queue q -> k_obj k1 = k_obj k ->
  exists o, for_range (trips 0 (q_count q)) 0 (fun i => m <- queue_slot q i ;; store_msg nq i m) k1
            = Ret tt (with_obj o k1)
    /\ (forall a, a <> nq -> same_obj a (k_obj k1) o)
    /\ forall i m, l !! i = Some m -> arr_msg o !! (nq, Z.of_nat i) = Some m.
Proof.
  intros Hq Hne Hobj. destruct (qr_count _ _ _ Hq) as [Hc _]. rewrite (trips_length l) by done.
  destruct (for_range_inv (fun j s => exists o, s = with_obj o k1
      /\ (forall a, a <> nq -> same_obj a (k_obj k1) o)
      /\ forall i m, l !! i = Some m -> Z.of_nat i < j -> arr_msg o !! (nq, Z.of_nat i) = Some m)
    (fun i => m <- queue_slot q i ;; store_msg nq i m) (length l) 0 k1) as (s & Hs & o & -> & Hsame & Hent).
  - exists (k_obj k1). split; [by destruct k1|]. split; [done|]. intros; lia.
  - intros j s1 Hj (o & -> & Hsame & Hent).
    destruct (lookup_lt_is_Some_2 l (Z.to_nat j)) as [m Hm]; [lia|].
    assert (Hslot : queue_slot q (Z.of_nat (Z.to_nat j)) (with_obj o k1) = Ret m (with_obj o k1)).
    { apply (queue_slot_run _ _ l); [|done]. destruct Hq as [H1 H2 H3 H4 H5]. split; try done.
      intros i x Hi. destruct (Hsame (q_queue q)) as (_&_&_&_&_&_&_&Hms); [done|]. simpl.
      rewrite Hms, Hobj. by apply H5. }
    rewrite Z2Nat.id in Hslot by lia. rewrite (bind_run _ _ _ _ _ Hslot).
    eexists. split; [reflexivity|]. eexists. split; [reflexivity|]. split.
    + intros a Ha. etrans; [by apply Hsame|]. by apply same_obj_put_msg.
    + intros i x Hi Hlt. simpl. rewrite lookup_insert. case_decide as E; [simplify_eq/=|].
      * rewrite Nat2Z.id in Hm. congruence.
      * apply Hent; [done|]. assert (Z.of_nat i <> j) by congruence. lia.
  - exists o. split; [done|]. split; [done|]. intros i m Hi. apply Hent; [done|].
    apply lookup_lt_Some in Hi. lia.
Qed.

(** ** Growing the ring *)

(** Every object that is not the target's queue or its array is left alone. *)
Definition queue_frame (k k' : kstate) (t : thread_t) (q : ipc_queue_t) : Prop :=
  (forall a, is_live k a -> a <> t_queue t -> a <> q_queue q ->
     is_live k' a /\ same_obj a (k_obj k) (k_obj k'))
  /\ (forall p n, owned_run k p n -> owned_run k' p n) /\ mem_ok k' /\ k_sched k' = k_sched k.

Lemma queue_frame_ext k k' L D t q :
  ext k k' L D ∅ -> k_sched k' = k_sched k ->
  (forall a, is_live k a -> a ∈ D -> a = t_queue t \/ a = q_queue q) -> queue_frame k k' t q.
Proof.
  intros He Hs HD. split; [|split; [|split; [apply He|done]]].
  - intros a Ha H1 H2. assert (a ∉ D) by (intros Hin; destruct (HD a Ha Hin); done).
    split; [apply (ex_live _ _ _ _ _ He); by right|by apply (ex_objs _ _ _ _ _ He)].
  - intros p n Hp. apply (ex_runs _ _ _ _ _ He); [done|set_solver].
Qed.

Lemma tr_parts k ta t c q l :
  thread_rep k ta t c q l ->
  is_live k ta /\ is_live k (t_context t) /\ is_live k (t_queue t) /\ is_live k (q_queue q)
  /\ ta <> t_queue t /\ ta <> q_queue q /\ t_context t <> t_queue t /\ t_context t <> q_queue q
  /\ t_queue t <> q_queue q
  /\ (forall m, m ∈ l -> is_live k (m_msg m) /\ m_msg m <> t_queue t /\ m_msg m <> q_queue q).
Proof.
  intros [_ _ _ _ _ Hl Hnd]. unfold thread_blocks in *.
  assert (Hin : forall a, a ∈ ta :: t_context t :: t_queue t :: q_queue q :: map m_msg l -> is_live k a).
  { intros a Ha. rewrite Forall_forall in Hl. by apply Hl, list_elem_of_In. }
  apply nodup_inv in Hnd as [H1 Hnd]. apply nodup_inv in Hnd as [H2 Hnd].
  apply nodup_inv in Hnd as [H3 Hnd]. apply nodup_inv in Hnd as [H4 _].
  do 3 rewrite not_elem_of_cons in H1. do 2 rewrite not_elem_of_cons in H2.
  rewrite not_elem_of_cons in H3.
  split_and!; try tauto; try (apply Hin; set_solver).
  intros m Hm. assert (Hmm : m_msg m ∈ map m_msg l) by by apply list_elem_of_fmap_2.
  split; [apply Hin; by do 4 right|]. split; intros E; rewrite E in Hmm; tauto.
Qed.

(** The thread with another queue descriptor: what must hold anew. *)
Lemma thread_rep_queue k k' ta t c q l q' l' :
  thread_rep k ta t c q l ->
  (forall a, a = ta \/ a = t_context t -> is_live k' a /\ same_obj a (k_obj k) (k_obj k')) ->
  (forall p n, owned_run k p n -> owned_run k' p n) ->
  o_queue (k_obj k') !! t_queue t = Some q' -> queue_rep k' q' l' ->
  is_live k' (t_queue t) -> is_live k' (q_queue q') ->
  q_queue q' ∉ [ta; t_context t; t_queue t] ->
  base.NoDup (map m_msg l') ->
  (forall a, a ∈ map m_msg l' -> is_live k' a /\ a ∉ [ta; t_context t; t_queue t; q_queue q']) ->
  thread_rep k' ta t c q' l'.
Proof.
  intros [Ht Hc Hqa Hq Hst Hlive Hnd] Hsame Hruns Hq' Hrep Hl3 Hl4 Hfresh Hnd' Hms.
  unfold thread_blocks in *.
  apply nodup_inv in Hnd as [H1 Hnd]. apply nodup_inv in Hnd as [H2 Hnd].
  do 2 rewrite not_elem_of_cons in H1. rewrite not_elem_of_cons in H2.
  do 3 rewrite not_elem_of_cons in Hfresh.
  assert (Hout : forall x, x ∈ [ta; t_context t; t_queue t; q_queue q'] -> x ∉ map m_msg l').
  { intros x Hx Hin. apply Hms in Hin as [_ Hin]. by apply Hin. }
  split; try done.
  - destruct (Hsame ta) as (_ & -> & _); [by left|done].
  - destruct (Hsame (t_context t)) as (_ & _ & -> & _); [by right|done].
  - by apply Hruns.
  - unfold thread_blocks. repeat (apply Forall_cons; [first [done|apply Hsame; tauto]|]).
    apply Forall_forall. intros a Ha. by apply Hms, list_elem_of_In.
  - unfold thread_blocks.
    apply NoDup_cons_2; [|apply NoDup_cons_2; [|apply NoDup_cons_2; [|by apply NoDup_cons_2; [apply Hout; do 3 right; left|]]]];
      rewrite ?not_elem_of_cons.
    + split_and!; [tauto|tauto|by intros ->; tauto|]. apply Hout. by left.
    + split_and!; [tauto|by intros E; symmetry in E; tauto|]. apply Hout. by right; left.
    + split; [by intros E; symmetry in E; tauto|]. apply Hout. by do 2 right; left.
Qed.

Lemma tr_msg_nodup k ta t c q l : thread_rep k ta t c q l -> base.NoDup (map m_msg l).
Proof. intros [_ _ _ _ _ _ Hnd]. unfold thread_blocks in Hnd. by do 4 apply nodup_inv in Hnd as [_ Hnd]. Qed.

Lemma tr_msg_apart k ta t c q l a :
  thread_rep k ta t c q l -> a ∈ map m_msg l ->
  is_live k a /\ a ∉ [ta; t_context t; t_queue t; q_queue q].
Proof.
  intros [_ _ _ _ _ Hl Hnd] Ha. unfold thread_blocks in *.
  apply nodup_inv in Hnd as [H1 Hnd]. apply nodup_inv in Hnd as [H2 Hnd].
  apply nodup_inv in Hnd as [H3 Hnd]. apply nodup_inv in Hnd as [H4 _].
  do 3 rewrite not_elem_of_cons in H1. do 2 rewrite not_elem_of_cons in H2.
  rewrite not_elem_of_cons in H3. split.
  - rewrite Forall_forall in Hl. apply Hl, list_elem_of_In. by do 4 right.
  - rewrite !not_elem_of_cons. split_and!; [..|by intros ?%not_elem_of_nil]; intros ->; tauto.
Qed.

Lemma ipc_grow_queue_run k ta t c q l :
  mem_ok k -> thread_rep k ta t c q l ->
  ipc_grow_queue (t_queue t) k = Ret false k
  \/ exists k1 q', ipc_grow_queue (t_queue t) k = Ret true k1 /\ thread_rep k1 ta t c q' l
       /\ q_capacity q' = 2 * q_capacity q /\ ~ is_live k (q_queue q')
       /\ (exists L D, ext k k1 L D ∅ /\ D = {[t_queue t; q_queue q]}) /\ k_sched k1 = k_sched k.
Proof.
  intros Hok Hr. destruct (tr_parts _ _ _ _ _ _ Hr) as (Hl1&Hl2&Hl3&Hl4&N1&N2&N3&N4&N5&Hm).
  pose proof (queue_cap _ _ _ (tr_msgs _ _ _ _ _ _ Hr)) as Hcap. unfold ipc_grow_queue.
  run (load_queue_run _ _ _ (tr_queue _ _ _ _ _ _ Hr)).
  rewrite (u64_small (q_capacity q * 2)), u64_small by (unfold sizeof_ipc_msg_t; lia).
  destruct (ext_kmalloc _ _ _ _ _ (ext_refl k Hok) (q_capacity q * 2 * sizeof_ipc_msg_t))
    as [H1|(nq & k1 & H1 & He1 & Hn1 & _ & HnD & Hsz & Ho1 & Hs1 & _)];
    [unfold sizeof_ipc_msg_t; lia| |]; run H1; [by left|right]. null_test.
  assert (Hfr : ~ is_live k nq) by (intros Hx; apply HnD in Hx; set_solver).
  destruct (copy_ring k k1 q l nq) as (o & H2 & Hsame & Hent); [apply Hr|by intros ->|done|].
  run H2.
  assert (He2 : ext k (with_obj o k1) {[nq]} ∅ ∅).
  { eapply ext_obj; [eapply ext_eq; [exact He1|set_solver|done]|]. intros a Ha _. apply Hsame. by intros ->. }
  destruct (ext_kfree_old _ _ _ _ _ He2 (q_queue q) Hl4 ltac:(set_solver)) as (k3 & H3 & He3 & Ho3 & Hs3 & _);
    [by eapply live_nonnull|]. run H3.
  set (q' := {| q_queue := nq; q_capacity := q_capacity q * 2; q_head := 0; q_tail := q_count q;
                q_count := q_count q |}).
  assert (Hl3' : is_live k3 (t_queue t)) by (apply (ex_live _ _ _ _ _ He3); right; set_solver).
  pose proof (ext_write _ _ _ _ _ (t_queue t) (put_queue (t_queue t) q') He3 Hok Hl3' ltac:(auto with nyv)) as He4.
  set (k4 := with_obj _ k3) in *.
  exists k4, q'. split; [done|]. split; [|split; [simpl; lia|split; [done|]]].
  2: { split; [|simpl; rewrite Hs3; exact Hs1]. eexists _, _. split; [exact He4|set_solver]. }
  assert (Hkeep : forall a, is_live k a -> a <> t_queue t -> a <> q_queue q ->
            is_live k4 a /\ same_obj a (k_obj k) (k_obj k4)).
  { apply (queue_frame_ext _ _ _ _ t q He4); [simpl; by rewrite Hs3|]. clear. set_solver. }
  assert (Hnlive : forall a, is_live k a -> nq <> a) by (intros a Ha ->; done).
  eapply (thread_rep_queue k); [exact Hr|..|by eapply tr_msg_nodup|].
  - intros a [-> | ->]; by apply Hkeep.
  - intros p n Hp. apply (ex_runs _ _ _ _ _ He4); [done|set_solver].
  - simpl. by rewrite lookup_insert_eq.
  - destruct (tr_msgs _ _ _ _ _ _ Hr) as [Q1 Q2 [Q3 Q4] Q5 Q6]. split; simpl; try done; try lia.
    + clear -Q1 Hsz Hcap. unfold PAGE_BLOCK, sizeof_block_t, sizeof_ipc_msg_t in *.
      repeat (apply elem_of_cons in Q1 as [Q1|Q1]; [rewrite Q1 in *; set_solver by lia|]).
      by apply elem_of_nil in Q1.
    + rewrite Z.mod_small by lia. done.
    + intros i m Hi. rewrite Ho3. simpl. pose proof (lookup_lt_Some _ _ _ Hi).
      rewrite Z.mod_small by lia. by apply Hent.
  - apply (ex_live _ _ _ _ _ He4). left. clear. set_solver.
  - apply (ex_live _ _ _ _ _ He4). left. simpl. clear. set_solver.
  - simpl. rewrite !not_elem_of_cons. split_and!; try (by apply Hnlive). by intros ?%not_elem_of_nil.
  - intros a Ha. destruct (tr_msg_apart _ _ _ _ _ _ a Hr Ha) as [Hla Hap].
    do 4 rewrite not_elem_of_cons in Hap. split; [apply Hkeep; tauto|].
    rewrite !not_elem_of_cons. split_and!; try tauto; try (by intros ?%not_elem_of_nil).
    intros E. by apply (Hnlive a).
Qed.

(** ** Sending *)

Definition has_tid (k : kstate) (tid p : Z) : bool :=
  match o_thread (k_obj k) !! p with Some t => t_tid t =? tid | None => false end.

Lemma find_thread_run k ts tid :
  run_queue k ts -> find_thread tid k = Ret (default NULL (List.find (has_tid k tid) ts)) k.
Proof.
  intros [Ht Hth Hnn]. unfold find_thread. cbn [bind gets].
  rewrite (trips_length ts) by apply Ht.
  erewrite bind_run; [|apply (for_until_list (has_tid k tid) id)].
  - by destruct (List.find _ ts).
  - intros j p Hj. rewrite (bind_run _ _ _ p k) by by apply load_ptr_run, (tb_entry _ _ Ht).
    destruct (Hth p) as [t Hp]; [by eapply list_elem_of_lookup_2|].
    rewrite (bind_run _ _ _ _ _ (load_thread_run _ _ _ Hp)). unfold has_tid. rewrite Hp.
    by destruct (t_tid t =? tid).
Qed.

(** The append of a descriptor to the ring of the target. *)
Lemma enqueue_run k ta t c q l m :
  mem_ok k -> thread_rep k ta t c q l -> q_count q < q_capacity q ->
  is_live k (m_msg m) -> m_msg m ∉ thread_blocks ta t q l ->
  exists k',
    (_ <- store_msg (q_queue q) (q_tail q) m ;;
     tail <- umod (u64 (q_tail q + 1)) (q_capacity q) ;;
     _ <- store_queue (t_queue t) {| q_queue := q_queue q; q_capacity := q_capacity q;
            q_head := q_head q; q_tail := tail; q_count := u64 (q_count q + 1) |} ;;
     ret true) k = Ret true k'
    /\ thread_rep k' ta t c (pushed q) (l ++ [m]) /\ queue_frame k k' t q.
Proof.
  intros Hok Hr Hroom Hlm Hfm. destruct (tr_parts _ _ _ _ _ _ Hr) as (Hl1&Hl2&Hl3&Hl4&N1&N2&N3&N4&N5&Hm).
  pose proof (tr_msgs _ _ _ _ _ _ Hr) as Hq. pose proof (queue_cap _ _ _ Hq) as Hcap.
  assert (Htail : 0 <= q_tail q < q_capacity q).
  { rewrite (qr_tail _ _ _ Hq). apply Z.mod_pos_bound. lia. }
  destruct (qr_count _ _ _ Hq) as [Hc _].
  pose proof (ext_write _ _ _ _ _ (q_queue q) (put_msg (q_queue q) (q_tail q) m) (ext_refl k Hok) Hok Hl4
    ltac:(auto with nyv)) as He1.
  assert (Hl3' : is_live (with_obj (put_msg (q_queue q) (q_tail q) m (k_obj k)) k) (t_queue t)) by done.
  pose proof (ext_write _ _ _ _ _ (t_queue t) (put_queue (t_queue t) (pushed q)) He1 Hok Hl3'
    ltac:(auto with nyv)) as He2.
  set (k2 := with_obj _ (with_obj _ k)) in He2. exists k2. split; [|].
  { unfold store_msg, store_queue, upd_obj. cbn [bind modify]. rewrite (u64_small (q_tail q + 1)) by lia.
    rewrite (bind_run _ _ _ _ _ (umod_run (q_tail q + 1) (q_capacity q) _ ltac:(lia))).
    rewrite u64_small by lia. done. }
  assert (Hfr : queue_frame k k2 t q).
  { eapply queue_frame_ext; [exact He2|done|]. clear. set_solver. }
  split; [|exact Hfr]. destruct Hfr as (Hkeep & Hruns & _).
  assert (Hlv : forall a, is_live k a -> is_live k2 a) by done.
  unfold thread_blocks in Hfm. do 4 rewrite not_elem_of_cons in Hfm.
  eapply (thread_rep_queue k); [exact Hr|..].
  - intros a [-> | ->]; by apply Hkeep.
  - done.
  - simpl. by rewrite lookup_insert_eq.
  - apply (ring_push k); [done|done|]. intros j. simpl. rewrite lookup_insert.
    repeat case_decide; congruence.
  - by apply Hlv.
  - by apply Hlv.
  - simpl. rewrite !not_elem_of_cons. split_and!; try congruence. by intros ?%not_elem_of_nil.
  - rewrite map_app. apply list.NoDup_app. split; [by eapply tr_msg_nodup|].
    split; [|apply NoDup_singleton]. intros x Hx [->|?%not_elem_of_nil]%elem_of_cons; [|done]. tauto.
  - intros a. rewrite map_app, elem_of_app. intros [Ha|Ha].
    + destruct (tr_msg_apart _ _ _ _ _ _ a Hr Ha) as [Hla Hap]. split; [by apply Hlv|exact Hap].
    + apply elem_of_cons in Ha as [->|?%not_elem_of_nil]; [|done]. split; [by apply Hlv|]. simpl.
      rewrite !not_elem_of_cons. split_and!; try tauto. all: by intros ?%not_elem_of_nil.
Qed.

(** The target found, with a message of [size] bytes in the sender's buffer. *)
Record can_send (k : kstate) (ts : list Z) (target msg size : Z) (bs : list Z)
    (ta : Z) (t : thread_t) (c : context_t) (q : ipc_queue_t) (l : list ipc_msg_t) (me : thread_t) : Prop := {
  cs_ok : mem_ok k;
  cs_table : run_queue k ts;
  cs_target : List.find (has_tid k target) ts = Some ta;
  cs_rep : thread_rep k ta t c q l;
  cs_bytes : o_bytes (k_obj k) !! msg = Some bs /\ 0 <= size <= Z.of_nat (length bs);
  cs_msg : is_live k msg /\ msg <> t_queue t /\ msg <> q_queue q;
  cs_me : o_thread (k_obj k) !! current_thread (k_sched k) = Some me;
  cs_me_live : is_live k (current_thread (k_sched k)) /\ current_thread (k_sched k) <> t_queue t
               /\ current_thread (k_sched k) <> q_queue q
}.

(** What a message is, whatever block holds it. *)
Definition payload (k : kstate) (m : ipc_msg_t) : option (list Z) := o_bytes (k_obj k) !! m_msg m.

Lemma queue_frame_trans k k1 k2 t q q1 :
  queue_frame k k1 t q -> queue_frame k1 k2 t q1 ->
  (q_queue q1 = q_queue q \/ ~ is_live k (q_queue q1)) -> queue_frame k k2 t q.
Proof.
  intros (H1 & R1 & _ & S1) (H2 & R2 & Hok & S2) Hq. split; [|split; [auto|split; [done|congruence]]].
  intros a Ha Ht Hqa. destruct (H1 a Ha Ht Hqa) as [Ha1 Hs1].
  assert (a <> q_queue q1) by (destruct Hq as [->|Hq]; [done|by intros ->]).
  destruct (H2 a Ha1) as [Ha2 Hs2]; [done..|]. split; [done|]. by etrans.
Qed.

(** Room is made when the ring is full. *)
Lemma make_room k ta t c q l :
  mem_ok k -> thread_rep k ta t c q l ->
  let grow := (if q_capacity q <=? q_count q then ipc_grow_queue (t_queue t) else ret true) in
  (grow k = Ret false k /\ q_count q = q_capacity q)
  \/ exists k1 q1, grow k = Ret true k1 /\ thread_rep k1 ta t c q1 l /\ q_count q1 < q_capacity q1
       /\ queue_frame k k1 t q /\ (q_queue q1 = q_queue q \/ ~ is_live k (q_queue q1)).
Proof.
  intros Hok Hr grow. destruct (qr_count _ _ _ (tr_msgs _ _ _ _ _ _ Hr)) as [Hc Hle]. unfold grow.
  destruct (Z.leb_spec (q_capacity q) (q_count q)).
  - destruct (ipc_grow_queue_run k ta t c q l Hok Hr)
      as [H1|(k1 & q1 & H1 & Hr1 & Hcap & Hnl & (L & D & He & HD) & Hs)]; [left; split; [done|lia]|right].
    exists k1, q1. split; [done|]. split; [done|].
    destruct (qr_count _ _ _ (tr_msgs _ _ _ _ _ _ Hr1)) as [Hc1 _].
    pose proof (queue_cap _ _ _ (tr_msgs _ _ _ _ _ _ Hr)). split; [lia|].
    split; [|by right]. eapply queue_frame_ext; [exact He|done|]. rewrite HD. clear. set_solver.
  - right. exists k, q. split; [done|]. split; [done|]. split; [done|]. split; [|by left].
    eapply queue_frame_ext; [by apply ext_refl|done|set_solver].
Qed.

Lemma kipc_send_run k ts target msg size bs ta t c q l me :
  can_send k ts target msg size bs ta t c q l me ->
  exists r k', kipc_send target msg size k = Ret r k' /\ queue_frame k k' t q
    /\ ((r = false /\ exists q', thread_rep k' ta t c q' l)
        \/ (r = true /\ exists q' p,
             thread_rep k' ta t c q' (l ++ [{| m_target := target; m_sender := t_tid me;
                                               m_msg := p; m_size := size |}])
             /\ o_bytes (k_obj k') !! p = Some (take (Z.to_nat size) bs))).
Proof.
  intros [Hok Hrq Hta Hr [Hbs Hsz] (Hm1 & Hm2 & Hm3) Hme (Hc1 & Hc2 & Hc3)]. unfold kipc_send.
  rewrite (bind_run _ _ _ _ _ (find_thread_run k ts target Hrq)), Hta.
  change (default NULL (Some ta)) with ta.
  destruct (tr_parts _ _ _ _ _ _ Hr) as (Hl1&Hl2&Hl3&Hl4&N1&N2&N3&N4&N5&Hm).
  rewrite (proj2 (Z.eqb_neq ta NULL)) by by eapply live_nonnull.
  run (load_thread_run _ _ _ (tr_thread _ _ _ _ _ _ Hr)).
  rewrite (proj2 (Z.eqb_neq (t_queue t) NULL)) by by eapply live_nonnull.
  run (load_queue_run _ _ _ (tr_queue _ _ _ _ _ _ Hr)).
  destruct (make_room k ta t c q l Hok Hr) as [[H1 _]|(k1 & q1 & H1 & Hr1 & Hroom & Hf1 & Hq1)]; run H1; cbn [negb].
  { exists false, k. split; [done|]. split; [eapply queue_frame_ext; [by apply ext_refl|done|set_solver]|].
    left. split; [done|]. by exists q. }
  pose proof Hf1 as (Hkeep1 & _ & Hok1 & Hs1).
  destruct (ext_kmalloc _ _ _ _ _ (ext_refl k1 Hok1) size ltac:(lia))
    as [H2|(p & k2 & H2 & He2 & Hn2 & _ & HpD & _ & Ho2 & Hs2 & _)]; run H2.
  { exists false, k1. split; [done|]. split; [done|]. left. split; [done|]. by exists q1. }
  null_test.
  assert (Hpl : ~ is_live k1 p) by (intros Hx; apply HpD in Hx; set_solver).
  pose proof (ext_put _ _ _ _ _ p (put_bytes p (take (Z.to_nat size) bs)) He2 ltac:(set_solver)
    ltac:(auto with nyv)) as He3.
  set (k3 := with_obj (put_bytes p _ (k_obj k2)) k2) in *.
  assert (Hsame1 : o_bytes (k_obj k1) !! msg = Some bs).
  { destruct (Hkeep1 msg Hm1 Hm2 Hm3) as (_ & _ & _ & _ & _ & _ & -> & _). done. }
  assert (Hcopy : copy_bytes p msg size k2 = Ret tt k3).
  { unfold copy_bytes. run (load_bytes_run k2 msg bs ltac:(by rewrite Ho2)).
    by rewrite (proj2 (Z.ltb_ge _ _)) by lia. }
  run Hcopy.
  assert (Hr3 : thread_rep k3 ta t c q1 l) by (eapply thread_rep_ext; [exact He3|set_solver..|done]).
  run (load_queue_run _ _ _ (tr_queue _ _ _ _ _ _ Hr3)). cbn [bind gets].
  assert (Hs3 : k_sched k3 = k_sched k) by (simpl; congruence). rewrite Hs3.
  assert (Hme3 : o_thread (k_obj k3) !! current_thread (k_sched k) = Some me).
  { simpl. rewrite Ho2. destruct (Hkeep1 _ Hc1 Hc2 Hc3) as (_ & -> & _). done. }
  run (load_thread_run _ _ _ Hme3).
  assert (Hpl3 : is_live k3 p) by (apply (ex_live _ _ _ _ _ He3); set_solver).
  destruct (enqueue_run k3 ta t c q1 l {| m_target := target; m_sender := t_tid me; m_msg := p; m_size := size |})
    as (k4 & H4 & Hr4 & Hf4); [apply He3|done|done|done| |].
  { simpl. intros Hin. apply Hpl. destruct Hr1 as [_ _ _ _ _ Hlv _].
    rewrite Forall_forall in Hlv. by apply Hlv, list_elem_of_In. }
  exists true, k4. split; [exact H4|].
  assert (Hf13 : queue_frame k1 k3 t q1) by (eapply queue_frame_ext; [exact He3|simpl; congruence|set_solver]).
  split.
  { eapply queue_frame_trans; [|exact Hf4|exact Hq1].
    eapply queue_frame_trans; [exact Hf1|exact Hf13|exact Hq1]. }
  right. split; [done|]. exists (pushed q1), p. split; [exact Hr4|].
  destruct Hf4 as (Hkeep4 & _). destruct (Hkeep4 p Hpl3) as (_ & _ & _ & _ & _ & _ & -> & _).
  - intros ->. apply Hpl, (tr_parts _ _ _ _ _ _ Hr1).
  - intros ->. apply Hpl, (tr_parts _ _ _ _ _ _ Hr1).
  - simpl. by rewrite lookup_insert_eq.
Qed.

(** ** Receiving *)

Lemma kipc_poll_run k t c q l :
  mem_ok k -> thread_rep k (current_thread (k_sched k)) t c q l ->
  match l with
  | [] => kipc_poll k = Ret None k
  | m :: l' => exists k', kipc_poll k = Ret (Some m) k'
      /\ thread_rep k' (current_thread (k_sched k)) t c (popped q) l' /\ queue_frame k k' t q
      /\ live k' = live k
  end.
Proof.
  intros Hok Hr. unfold kipc_poll. cbn [bind gets].
  pose proof (tr_msgs _ _ _ _ _ _ Hr) as Hq. pose proof (queue_cap _ _ _ Hq) as Hcap.
  destruct (tr_parts _ _ _ _ _ _ Hr) as (Hl1&Hl2&Hl3&Hl4&N1&N2&N3&N4&N5&Hm).
  pose proof (tr_thread _ _ _ _ _ _ Hr) as Ht.
  destruct (qr_count _ _ _ Hq) as [Hc Hle]. pose proof (qr_head _ _ _ Hq) as Hh.
  destruct l as [|m l]; run (load_thread_run _ _ _ Ht); run (load_queue_run _ _ _ (tr_queue _ _ _ _ _ _ Hr)).
  { simpl in Hc. by rewrite Hc. }
  simpl in Hc. rewrite (proj2 (Z.eqb_neq (q_count q) 0)) by lia.
  destruct (ring_pop _ _ _ _ Hq) as [Hslot Hpop]. run (load_msg_run _ _ _ _ Hslot).
  rewrite u64_small by lia. rewrite (bind_run _ _ _ _ _ (umod_run _ (q_capacity q) _ ltac:(lia))).
  rewrite u64_small by lia.
  pose proof (ext_write _ _ _ _ _ (t_queue t) (put_queue (t_queue t) (popped q)) (ext_refl k Hok) Hok Hl3
    ltac:(auto with nyv)) as He.
  eexists. split; [reflexivity|].
  assert (Hfr : queue_frame k (with_obj (put_queue (t_queue t) (popped q) (k_obj k)) k) t q).
  { eapply queue_frame_ext; [exact He|done|]. clear. set_solver. }
  split; [|split; [exact Hfr|done]]. destruct Hfr as (Hkeep & Hruns & _).
  eapply (thread_rep_queue k); [exact Hr|..].
  - intros a [-> | ->]; by apply Hkeep.
  - done.
  - simpl. by rewrite lookup_insert_eq.
  - destruct Hpop as [P1 P2 P3 P4 P5]. by split.
  - done.
  - done.
  - simpl. rewrite !not_elem_of_cons. split_and!; try congruence. by intros ?%not_elem_of_nil.
  - apply tr_msg_nodup in Hr. by apply nodup_inv in Hr as [_ Hr].
  - intros a Ha. by apply (tr_msg_apart _ _ _ _ _ _ a Hr); right.
Qed.

(** ** Properties *)

(** A machine whose only thread runs, with a three-byte buffer at 0x100018. *)
Definition k1_buf : kstate := with_obj (put_bytes 0x100018 [72; 105; 33] (k_obj k1)) k1.

Lemma k1_buf_table : table_rep k1_buf [].
Proof. split; try done. by left. Qed.

Definition spawn_demo : outcome kstate Z := spawn_thread 0x500000 0x9000 k1_buf.
Definition r_demo : Z := match spawn_demo with Ret r _ => r | _ => NULL end.
Definition k_demo : kstate :=
  match spawn_demo with Ret r k => with_sched (set_current r (k_sched k)) k | _ => k1_buf end.

Lemma demo_thread :
  exists t c q, can_send k_demo [r_demo] 1 0x100018 3 [72; 105; 33] r_demo t c q [] t
    /\ current_thread (k_sched k_demo) = r_demo.
Proof.
  destruct (spawn_thread_run k1_buf [] 0x500000 0x9000 k1_ok k1_buf_table ltac:(done))
    as (r & k' & H & Hok & _ & Hr).
  assert (E : match spawn_demo with Ret r _ => r =? NULL | _ => true end = false)
    by (vm_compute; reflexivity).
  unfold k_demo, r_demo. unfold spawn_demo in *. rewrite H in *. clear H.
  destruct Hr as [(-> & _)|Hr]; [done|].
  destruct Hr as (t & c & q & Ht & Hrep & Hid & Hst & _ & _ & _ & _ & Hl & Hframe & _).
  assert (Hb : is_live k1_buf 0x100018) by by eexists.
  assert (H0 : 0x100018 <> threads (k_sched k1_buf)) by (intros E0; vm_compute in E0; discriminate).
  destruct (Hframe 0x100018 Hb H0) as (Hnin & _ & _ & _ & _ & _ & _ & Hbs & _).
  destruct (tr_parts _ _ _ _ _ _ Hrep) as (Hl1&Hl2&Hl3&Hl4&N1&N2&_).
  set (k2 := with_sched (set_current r (k_sched k')) k').
  assert (Hrep2 : thread_rep k2 r t c q []) by (destruct Hrep as [H1 H2 H3 [? ? ? ? ?] H5 H6 H7]; by split).
  unfold thread_blocks in Hnin. do 4 rewrite not_elem_of_cons in Hnin.
  exists t, c, q. split; [|done]. split; [done|split| |done|split|split|apply Hrep|by split].
  - by destruct Ht.
  - intros x [->|?%not_elem_of_nil]%elem_of_cons; [|done]. eexists. apply Hrep.
  - intros [Hx|?%not_elem_of_nil]%elem_of_cons; [|done]. rewrite <- Hx in Hl1. by apply (null_not_live k').
  - cbn [List.find]. unfold has_tid. change (k_obj k2) with (k_obj k').
    by rewrite (tr_thread _ _ _ _ _ _ Hrep), Hid.
  - change (k_obj k2) with (k_obj k'). rewrite Hbs. reflexivity.
  - simpl; lia.
  - apply Hl. right; right. by split.
  - tauto.
Qed.

(** C3: [kipc_send] either returns false and leaves the target's pending
    messages as they were, or returns true and appends one message that names the
    sender and holds a copy of the [size] bytes; the messages already pending keep
    their place and their bytes, and no other object, thread or stack changes. *)
Theorem kipc_send_appends k ts target msg size bs ta t c q l me :
  can_send k ts target msg size bs ta t c q l me ->
  exists r k', kipc_send target msg size k = Ret r k' /\ queue_frame k k' t q
    /\ (forall m, m ∈ l -> payload k' m = payload k m)
    /\ ((r = false /\ exists q', thread_rep k' ta t c q' l)
        \/ (r = true /\ exists q' m, thread_rep k' ta t c q' (l ++ [m])
             /\ m_target m = target /\ m_sender m = t_tid me /\ m_size m = size
             /\ payload k' m = Some (take (Z.to_nat size) bs))).
Proof.
  intros Hc. destruct (kipc_send_run _ _ _ _ _ _ _ _ _ _ _ _ Hc) as (r & k' & H & Hf & Hr).
  exists r, k'. split; [done|]. split; [done|]. split.
  - intros m Hm. destruct Hf as (Hkeep & _).
    destruct (tr_parts _ _ _ _ _ _ (cs_rep _ _ _ _ _ _ _ _ _ _ _ _ Hc)) as (_&_&_&_&_&_&_&_&_&Hms).
    destruct (Hms m Hm) as (Hl & H1 & H2). unfold payload.
    by destruct (Hkeep _ Hl H1 H2) as (_ & _ & _ & _ & _ & _ & -> & _).
  - destruct Hr as [[-> Hr]|[-> (q' & p & Hr & Hp)]]; [left|right]; (split; [done|]); [done|].
    by eexists q', _.
Qed.

Lemma kipc_send_appends_witness : exists b k', kipc_send 1 0x100018 3 k_demo = Ret b k'.
Proof.
  destruct demo_thread as (t & c & q & Hc & _).
  destruct (kipc_send_appends _ _ _ _ _ _ _ _ _ _ _ _ Hc) as (b & k' & H & _).
  exists b, k'. exact H.
Defined.

(** C12: [kipc_poll] takes the oldest message of the running thread: with none
    pending it returns nothing and changes nothing; otherwise it returns the
    first, the others stay in order, and no block is allocated or freed (the
    caller owns the payload). *)
Theorem kipc_poll_fifo k t c q l :
  mem_ok k -> thread_rep k (current_thread (k_sched k)) t c q l ->
  (l = [] -> kipc_poll k = Ret None k)
  /\ (forall m l', l = m :: l' -> exists k', kipc_poll k = Ret (Some m) k'
        /\ thread_rep k' (current_thread (k_sched k')) t c (popped q) l'
        /\ queue_frame k k' t q /\ live k' = live k /\ payload k' m = payload k m).
Proof.
  intros Hok Hr. pose proof (kipc_poll_run k t c q l Hok Hr) as H. split; [by intros ->|].
  intros m l' ->. destruct H as (k' & H & Hr' & Hf & Hl). exists k'. split; [done|].
  destruct (tr_parts _ _ _ _ _ _ Hr) as (_&_&_&_&_&_&_&_&_&Hms).
  destruct (Hms m ltac:(by left)) as (Hlm & H1 & H2).
  pose proof Hf as (Hkeep & _ & _ & Hs). rewrite Hs. split; [done|]. split; [done|]. split; [done|].
  unfold payload. by destruct (Hkeep _ Hlm H1 H2) as (_ & _ & _ & _ & _ & _ & -> & _).
Qed.

Lemma kipc_poll_fifo_witness : kipc_poll k_demo = Ret None k_demo.
Proof.
  destruct demo_thread as (t & c & q & Hc & Hcur).
  apply (kipc_poll_fifo k_demo t c q []); [apply Hc| |reflexivity].
  rewrite Hcur. exact (cs_rep _ _ _ _ _ _ _ _ _ _ _ _ Hc).
Defined.

(** C23: a message sent to a thread with an empty queue is what that thread's next
    [kipc_poll] returns: the same bytes, with the sender's id; the queue is empty
    again afterwards. *)
Theorem kipc_send_poll_roundtrip k ts target msg size bs ta t c q me k' :
  can_send k ts target msg size bs ta t c q [] me ->
  kipc_send target msg size k = Ret true k' ->
  let k1 := with_sched (set_current ta (k_sched k')) k' in
  exists m k2 q2, kipc_poll k1 = Ret (Some m) k2 /\ m_sender m = t_tid me /\ m_target m = target
    /\ m_size m = size /\ payload k2 m = Some (take (Z.to_nat size) bs)
    /\ thread_rep k2 ta t c q2 [].
Proof.
  intros Hc Hsend k1. destruct (kipc_send_run _ _ _ _ _ _ _ _ _ _ _ _ Hc) as (r & k'' & H & Hf & Hr).
  rewrite Hsend in H. injection H as <- <-. destruct Hr as [[? _]|[_ (q' & p & Hr & Hp)]]; [done|].
  set (m := {| m_target := target; m_sender := t_tid me; m_msg := p; m_size := size |}) in *.
  assert (Hr1 : thread_rep k1 (current_thread (k_sched k1)) t c q' [m]).
  { destruct Hr as [H1 H2 H3 [? ? ? ? ?] H5 H6 H7]. by split. }
  assert (Hok1 : mem_ok k1) by apply Hf.
  destruct (kipc_poll_run k1 t c q' [m] Hok1 Hr1) as (k2 & H2 & Hr2 & Hf2 & _).
  exists m, k2, (popped q'). split; [done|]. do 3 (split; [done|]). split; [|done].
  destruct (tr_parts _ _ _ _ _ _ Hr1) as (_&_&_&_&_&_&_&_&_&Hms).
  destruct (Hms m ltac:(by left)) as (Hlm & N1 & N2). destruct Hf2 as (Hkeep & _).
  unfold payload. destruct (Hkeep _ Hlm N1 N2) as (_ & _ & _ & _ & _ & _ & -> & _). exact Hp.
Qed.

Lemma kipc_send_poll_roundtrip_witness :
  exists k' m k2, kipc_send 1 0x100018 3 k_demo = Ret true k'
    /\ kipc_poll (with_sched (set_current r_demo (k_sched k')) k') = Ret (Some m) k2
    /\ payload k2 m = Some [72; 105; 33].
Proof.
  destruct demo_thread as (t & c & q & Hc & _).
  destruct (kipc_send 1 0x100018 3 k_demo) as [[|] k'| |] eqn:Hs;
    [|exfalso; vm_compute in Hs; discriminate..].
  destruct (kipc_send_poll_roundtrip _ _ _ _ _ _ _ _ _ _ _ _ Hc Hs) as (m & k2 & _ & H & _ & _ & _ & Hp & _).
  exists k', m, k2. split; [reflexivity|]. split; [exact H|exact Hp].
Defined.
