(* ===== verification/Ports.v ===== *)
(** * Port I/O and the interrupt chips (asm/io.h, pic.c, pit.c)

    The devices behind the ports are not code of the kernel: they are an
    instance of [Ports], whose reads and writes act on a device state [D].
    [pic_ports] is such an instance, a pair of interrupt masks as the 8259 keeps
    them. *)

From S2P Require Import Prelude State.

Class Ports (D : Type) := {
  port_in : Z -> D -> Z * D;
  port_out : Z -> Z -> D -> D
}.

Section Drivers.
Context {D : Type} `{Ports D}.

Definition inb (port : Z) : M D Z := fun d => let (v, d') := port_in port d in Ret (u8 v) d'.
Definition outb (port value : Z) : M D unit := fun d => Ret tt (port_out port (u8 value) d).
Definition inl (port : Z) : M D Z := fun d => let (v, d') := port_in port d in Ret (u32 v) d'.
Definition outl (port value : Z) : M D unit := fun d => Ret tt (port_out port (u32 value) d).

(** ** pic.c *)

Definition kpic_init : M D unit :=
  _ <- outb 0x20 0x11 ;; _ <- outb 0xA0 0x11 ;;
  _ <- outb 0x21 0x20 ;; _ <- outb 0xA1 0x28 ;;
  _ <- outb 0x21 0x04 ;; _ <- outb 0xA1 0x02 ;;
  _ <- outb 0x21 0x01 ;; _ <- outb 0xA1 0x01 ;;
  _ <- outb 0x21 0xFE ;; outb 0xA1 0xFF.

Definition kpic_eoi (irq : Z) : M D unit :=
  _ <- (if 8 <=? irq then outb 0xA0 0x20 else ret tt) ;; outb 0x20 0x20.

Definition kpic_disable : M D unit := _ <- outb 0x21 0xFF ;; outb 0xA1 0xFF.

Definition kpic_enable_irq (irq : Z) : M D unit :=
  if irq <? 8 then
    v <- inb 0x21 ;; outb 0x21 (Z.land v (Z.lnot (u8 (Z.shiftl 1 irq))))
  else if irq <? 16 then
    v <- inb 0xA1 ;; outb 0xA1 (Z.land v (Z.lnot (u8 (Z.shiftl 1 (irq - 8)))))
  else ret tt.

Definition kpic_disable_irq (irq : Z) : M D unit :=
  if irq <? 8 then
    v <- inb 0x21 ;; outb 0x21 (Z.lor v (u8 (Z.shiftl 1 irq)))
  else if irq <? 16 then
    v <- inb 0xA1 ;; outb 0xA1 (Z.lor v (u8 (Z.shiftl 1 (irq - 8))))
  else ret tt.

(** ** pit.c *)

Definition PIT_FREQUENCY : Z := 1193182.
Definition PIT_CHANNEL0 : Z := 0x40.
Definition PIT_COMMAND : Z := 0x43.
Definition PIT_CH0 : Z := 0x00.
Definition PIT_LOHI : Z := 0x30.
Definition PIT_MODE2 : Z := 0x04.

(** Division by a frequency of zero faults. *)
Definition kpit_set_freq (freq : Z) : M D unit :=
  if freq =? 0 then stuck else
  let divisor := u16 (PIT_FREQUENCY / freq) in
  _ <- outb PIT_COMMAND (Z.lor (Z.lor PIT_CH0 PIT_LOHI) PIT_MODE2) ;;
  _ <- outb PIT_CHANNEL0 (Z.land divisor 0xFF) ;;
  outb PIT_CHANNEL0 (Z.land (Z.shiftr divisor 8) 0xFF).
End Drivers.

(** ** The interrupt masks of the two chips *)

(** The initialisation words of [kpic_init] precede the masks on the data ports;
    [pic_icw] counts how many are still to come on each. *)
Record pic_t := { pic_m : Z; pic_s : Z; pic_icw_m : nat; pic_icw_s : nat; pic_eois : list Z }.

Definition pic_out (port v : Z) (d : pic_t) : pic_t :=
  if port =? 0x20 then
    if Z.testbit v 4 then {| pic_m := 0; pic_s := pic_s d; pic_icw_m := 3; pic_icw_s := pic_icw_s d;
                             pic_eois := pic_eois d |}
    else {| pic_m := pic_m d; pic_s := pic_s d; pic_icw_m := pic_icw_m d; pic_icw_s := pic_icw_s d;
            pic_eois := pic_eois d ++ [0x20] |}
  else if port =? 0xA0 then
    if Z.testbit v 4 then {| pic_m := pic_m d; pic_s := 0; pic_icw_m := pic_icw_m d; pic_icw_s := 3;
                             pic_eois := pic_eois d |}
    else {| pic_m := pic_m d; pic_s := pic_s d; pic_icw_m := pic_icw_m d; pic_icw_s := pic_icw_s d;
            pic_eois := pic_eois d ++ [0xA0] |}
  else if port =? 0x21 then
    match pic_icw_m d with
    | O => {| pic_m := v; pic_s := pic_s d; pic_icw_m := 0; pic_icw_s := pic_icw_s d;
              pic_eois := pic_eois d |}
    | S n => {| pic_m := pic_m d; pic_s := pic_s d; pic_icw_m := n; pic_icw_s := pic_icw_s d;
                pic_eois := pic_eois d |}
    end
  else if port =? 0xA1 then
    match pic_icw_s d with
    | O => {| pic_m := pic_m d; pic_s := v; pic_icw_m := pic_icw_m d; pic_icw_s := 0;
              pic_eois := pic_eois d |}
    | S n => {| pic_m := pic_m d; pic_s := pic_s d; pic_icw_m := pic_icw_m d; pic_icw_s := n;
                pic_eois := pic_eois d |}
    end
  else d.

#[export] Instance pic_ports : Ports pic_t := {|
  port_in port d := (if port =? 0x21 then pic_m d else if port =? 0xA1 then pic_s d else 0, d);
  port_out := pic_out
|}.

(** IRQ [i] is masked. *)
Definition irq_masked (d : pic_t) (i : Z) : bool :=
  if i <? 8 then Z.testbit (pic_m d) i else Z.testbit (pic_s d) (i - 8).

Definition pic_ready (d : pic_t) : Prop :=
  pic_icw_m d = 0%nat /\ pic_icw_s d = 0%nat /\ 0 <= pic_m d < 256 /\ 0 <= pic_s d < 256.

Lemma u8_shift1 b : 0 <= b < 8 -> u8 (Z.shiftl 1 b) = Z.shiftl 1 b.
Proof.
  intros Hb. apply u8_small. rewrite Z.shiftl_1_l.
  split; [lia|]. change 256 with (2 ^ 8). apply Z.pow_lt_mono_r; lia.
Qed.

Lemma clear_mask v b i :
  0 <= b < 8 -> 0 <= i < 8 ->
  Z.testbit (u8 (Z.land v (Z.lnot (u8 (Z.shiftl 1 b))))) i = negb (bool_decide (i = b)) && Z.testbit v i.
Proof. intros Hb Hi. rewrite u8_shift1 by lia. by apply testbit_clear_bit. Qed.

Lemma set_mask v b i :
  0 <= b < 8 -> 0 <= i < 8 ->
  Z.testbit (u8 (Z.lor v (u8 (Z.shiftl 1 b)))) i = bool_decide (i = b) || Z.testbit v i.
Proof. intros Hb Hi. rewrite u8_shift1 by lia. by apply testbit_set_bit. Qed.

Lemma bool_decide_shift i b c : bool_decide (i - c = b - c) = bool_decide (i = b).
Proof. apply bool_decide_ext. lia. Qed.

(** ** Properties *)

(** [kpic_enable_irq] unmasks the given line, on the chip that carries it,
    and [kpic_disable_irq] masks it; no other of the 16 lines changes, and a line
    number of 16 or more is ignored. *)
Lemma kpic_irq_mask irq d :
  pic_ready d -> 0 <= irq ->
  exists d1 d2, kpic_enable_irq irq d = Ret tt d1 /\ kpic_disable_irq irq d = Ret tt d2
    /\ pic_ready d1 /\ pic_ready d2
    /\ (forall i, 0 <= i < 16 -> irq_masked d1 i = negb (bool_decide (i = irq)) && irq_masked d i)
    /\ (forall i, 0 <= i < 16 -> irq_masked d2 i = bool_decide (i = irq) || irq_masked d i).
Proof.
  intros (H1 & H2 & H3 & H4) Hirq. unfold kpic_enable_irq, kpic_disable_irq.
  destruct (Z.ltb_spec irq 8); [|destruct (Z.ltb_spec irq 16)].
  1-2: eexists _, _; split; [reflexivity|]; split; [reflexivity|]; simpl; unfold pic_out; simpl; rewrite ?H1, ?H2;
    split; [split_and!; simpl; first [done|lia|apply (proj1 (u8_range _))|apply (proj2 (u8_range _))]|];
    split; [split_and!; simpl; first [done|lia|apply (proj1 (u8_range _))|apply (proj2 (u8_range _))]|].
  - split; intros i Hi; unfold irq_masked; simpl; (destruct (Z.ltb_spec i 8);
      [|by rewrite bool_decide_eq_false_2 by lia]); rewrite (u8_small (pic_m d)) by done.
    + apply clear_mask; lia.
    + apply set_mask; lia.
  - split; intros i Hi; unfold irq_masked; simpl; (destruct (Z.ltb_spec i 8);
      [by rewrite bool_decide_eq_false_2 by lia|]); rewrite (u8_small (pic_s d)) by done;
      rewrite <- (bool_decide_shift i irq 8).
    + apply clear_mask; lia.
    + apply set_mask; lia.
  - exists d, d. split; [done|]. split; [done|]. do 2 (split; [done|]).
    split; intros i Hi; by rewrite bool_decide_eq_false_2 by lia.
Qed.

Lemma kpic_irq_mask_witness :
  exists d1 d2, let d := {| pic_m := 0xFE; pic_s := 0xFF; pic_icw_m := 0; pic_icw_s := 0; pic_eois := [] |} in
    kpic_enable_irq 1 d = Ret tt d1 /\ kpic_disable_irq 1 d = Ret tt d2 /\ irq_masked d1 1 = false.
Proof.
  destruct (kpic_irq_mask 1 {| pic_m := 0xFE; pic_s := 0xFF; pic_icw_m := 0; pic_icw_s := 0; pic_eois := [] |})
    as (d1 & d2 & H1 & H2 & _ & _ & Hm & _); [split_and!; simpl; (done || lia)|lia|].
  exists d1, d2. split; [exact H1|]. split; [exact H2|]. by rewrite Hm.
Defined.

(** after [kpic_init], whatever the chips did before, only IRQ 0 is unmasked. *)
Lemma kpic_init_masks (d : pic_t) :
  exists d', kpic_init d = Ret tt d' /\ pic_ready d'
    /\ forall i, 0 <= i < 16 -> irq_masked d' i = negb (bool_decide (i = 0)).
Proof.
  eexists. split; [reflexivity|]. split; [split_and!; simpl; (done || lia)|].
  intros i Hi. assert (Hall : forall n, (n < 16)%nat -> irq_masked
    {| pic_m := 0xFE; pic_s := 0xFF; pic_icw_m := 0; pic_icw_s := 0; pic_eois := [] |} (Z.of_nat n)
    = negb (bool_decide (Z.of_nat n = 0))).
  { intros n Hn. do 16 (destruct n as [|n]; [done|]). lia. }
  specialize (Hall (Z.to_nat i) ltac:(lia)). rewrite Z2Nat.id in Hall by lia. exact Hall.
Qed.

(** A device that records what is written to it. *)
#[export] Instance log_ports : Ports (list (Z * Z)) := {|
  port_in _ d := (0, d);
  port_out p v d := d ++ [(p, v)]
|}.

(** The two data bytes of [kpit_set_freq] are the halves of the 16-bit divisor,
    which is exact for frequencies of at least 19 Hz. *)
Lemma kpit_divisor freq log :
  19 <= freq ->
  exists lo hi, kpit_set_freq freq log = Ret tt (log ++ [(PIT_COMMAND, 0x34); (PIT_CHANNEL0, lo); (PIT_CHANNEL0, hi)])
    /\ lo + 256 * hi = PIT_FREQUENCY / freq /\ 0 <= lo < 256 /\ 0 <= hi < 256.
Proof.
  intros Hf. unfold kpit_set_freq. rewrite (proj2 (Z.eqb_neq freq 0)) by lia.
  assert (Hd : 0 <= PIT_FREQUENCY / freq < 65536).
  { split; [apply Z.div_pos; unfold PIT_FREQUENCY; lia|].
    apply Z.div_lt_upper_bound; unfold PIT_FREQUENCY; lia. }
  rewrite (u16_small _ Hd). set (dv := PIT_FREQUENCY / freq) in *.
  change 0xFF with (Z.ones 8). rewrite !Z.land_ones, Z.shiftr_div_pow2 by lia.
  change (2 ^ 8) with 256. exists (dv mod 256), (dv / 256 mod 256).
  split; [|split; [div_lia|split; apply Z.mod_pos_bound; lia]].
  unfold outb, bind. cbn [port_out log_ports]. rewrite <- !app_assoc. cbn [app].
  by rewrite !(u8_small (_ mod 256)) by (apply Z.mod_pos_bound; lia).
Qed.
