(* ===== verification/Kbd.v ===== *)
(** * drivers/kbd/kbd.c: the PS/2 keyboard

    Scan codes are decoded by a small state machine (two shift keys, caps lock,
    the 0xE0 prefix) into characters, which go through a ring of 256 bytes.  The
    interrupt handler produces, [kbd_getc] consumes. *)

From S2P Require Import Prelude State Console Ports.
From stdpp Require Import strings.
#[local] Open Scope Z_scope.

Definition KBD_DATA : Z := 0x60.
Definition KBD_STATUS : Z := 0x64.
Definition KBD_OUT_FULL : Z := 0x01.
Definition KBD_BUF_SIZE : Z := 256.

Record kbd_t := {
  kbd_buf : gmap Z Z;
  kbd_head : Z;
  kbd_tail : Z;
  kbd_shift_l : bool;
  kbd_shift_r : bool;
  kbd_caps : bool;
  kbd_e0 : bool
}.

Definition set_ring (buf : gmap Z Z) (head tail : Z) (k : kbd_t) : kbd_t :=
  {| kbd_buf := buf; kbd_head := head; kbd_tail := tail; kbd_shift_l := kbd_shift_l k;
     kbd_shift_r := kbd_shift_r k; kbd_caps := kbd_caps k; kbd_e0 := kbd_e0 k |}.
Definition set_mods (l r caps e0 : bool) (k : kbd_t) : kbd_t :=
  {| kbd_buf := kbd_buf k; kbd_head := kbd_head k; kbd_tail := kbd_tail k; kbd_shift_l := l;
     kbd_shift_r := r; kbd_caps := caps; kbd_e0 := e0 |}.

(** ** The layouts: 128 entries by scan code, 0 for none *)

Definition kbd_normal : list Z :=
  [0; 0x1B] ++ cstr "1234567890-=" ++ [8; 9] ++ cstr "qwertyuiop[]" ++ [10; 0]
  ++ cstr "asdfghjkl;'`" ++ [0] ++ cstr "\zxcvbnm,./" ++ [0; 0; 0] ++ cstr " "
  ++ replicate 70 0.

Definition kbd_shifted : list Z :=
  [0; 0x1B] ++ cstr "!@#$%^&*()_+" ++ [8; 9] ++ cstr "QWERTYUIOP{}" ++ [10; 0]
  ++ cstr "ASDFGHJKL:" ++ [34] ++ cstr "~" ++ [0] ++ cstr "|ZXCVBNM<>?" ++ [0; 0; 0] ++ cstr " "
  ++ replicate 70 0.

(** An index of 128 or more is outside the arrays. *)
Definition layout (table : list Z) (code : Z) : M kbd_t Z := deref (table !! Z.to_nat code).

(** ** The ring *)

Definition kbd_push (c : Z) : M kbd_t unit :=
  k <- gets id ;;
  let next := u16 ((kbd_head k + 1) mod KBD_BUF_SIZE) in
  if next =? kbd_tail k then ret tt else
  modify (fun k => set_ring (<[kbd_head k := u8 c]> (kbd_buf k)) next (kbd_tail k) k).

Definition kbd_getc : M kbd_t Z :=
  k <- gets id ;;
  if kbd_head k =? kbd_tail k then ret (-1) else
  let c := default 0 (kbd_buf k !! kbd_tail k) in
  _ <- modify (fun k => set_ring (kbd_buf k) (kbd_head k) (u16 ((kbd_tail k + 1) mod KBD_BUF_SIZE)) k) ;;
  ret (u8 (s8 c)).

Definition kbd_empty : M kbd_t bool := gets (fun k => kbd_head k =? kbd_tail k).

(** ** Decoding *)

Definition is_lower (c : Z) : bool := (97 <=? c) && (c <=? 122).

Definition kbd_handle_code (code : Z) : M kbd_t unit :=
  k <- gets id ;;
  let l := kbd_shift_l k in let r := kbd_shift_r k in
  let caps := kbd_caps k in let e0 := kbd_e0 k in
  if code =? 0xE0 then modify (set_mods l r caps true) else
  if e0 then modify (set_mods l r caps false) else
  if negb (Z.land code 0x80 =? 0) then
    let press := Z.land code 0x7F in
    modify (set_mods (if press =? 0x2A then false else l) (if press =? 0x36 then false else r) caps e0)
  else
  if code =? 0x2A then modify (set_mods true r caps e0) else
  if code =? 0x36 then modify (set_mods l true caps e0) else
  if code =? 0x3A then modify (set_mods l r (negb caps) e0) else
  if 128 <=? code then ret tt else
  base <- layout kbd_normal code ;;
  if base =? 0 then ret tt else
  let shift := l || r in
  up <- layout kbd_shifted code ;;
  let c := if is_lower base then (if xorb shift caps then up else base)
           else let c := if shift then up else base in if c =? 0 then base else c in
  kbd_push c.

(** ** The handler and the initialisation, over the ports *)

Section Handler.
Context {D : Type} `{Ports D}.

Definition on_kbd {A} (m : M kbd_t A) : M (kbd_t * D) A := zoom fst (fun k s => (k, s.2)) m.
Definition on_dev {A} (m : M D A) : M (kbd_t * D) A := zoom snd (fun d s => (s.1, d)) m.

Definition output_full : M (kbd_t * D) bool :=
  st <- on_dev (inb KBD_STATUS) ;; ret (negb (Z.land st KBD_OUT_FULL =? 0)).

Definition kbd_irq_handler : M (kbd_t * D) unit :=
  _ <- for_until (trips 0 8) 0 (fun _ =>
         full <- output_full ;;
         if negb full then ret (Some tt) else
         code <- on_dev (inb KBD_DATA) ;;
         _ <- on_kbd (kbd_handle_code code) ;; ret None) ;;
  on_dev (kpic_eoi 1).

Definition kbd_init : M (kbd_t * D) unit :=
  _ <- on_kbd (modify (fun k => set_mods false false false false (set_ring (kbd_buf k) 0 0 k))) ;;
  _ <- for_until (trips 0 32) 0 (fun _ =>
         full <- output_full ;;
         if negb full then ret (Some tt) else
         _ <- on_dev (inb KBD_DATA) ;; ret None) ;;
  on_dev (kpic_enable_irq 1).
End Handler.

(** ** The ring refines a bounded queue *)

(** The characters in the ring, oldest first. *)
Record ring_rep (k : kbd_t) (l : list Z) : Prop := {
  rg_head : 0 <= kbd_head k < 256;
  rg_tail : 0 <= kbd_tail k < 256;
  rg_len : (kbd_head k - kbd_tail k) mod 256 = Z.of_nat (length l);
  rg_char i c : l !! i = Some c ->
    kbd_buf k !! ((kbd_tail k + Z.of_nat i) mod 256) = Some c /\ 0 <= c < 256
}.

(** The specification: a queue of at most 255 characters that drops what does not
    fit. *)
Inductive kbd_op : Type := Push (c : Z) | Getc.

Definition spec_step (o : kbd_op) (l : list Z) : Z * list Z :=
  match o, l with
  | Push c, _ => (0, if decide (length l < 255)%nat then l ++ [u8 c] else l)
  | Getc, [] => (-1, [])
  | Getc, c :: l => (c, l)
  end.

Definition impl_step (o : kbd_op) : M kbd_t Z :=
  match o with Push c => _ <- kbd_push c ;; ret 0 | Getc => kbd_getc end.

Fixpoint spec_run (os : list kbd_op) (l : list Z) : list Z * list Z :=
  match os with
  | [] => ([], l)
  | o :: os => let (r, l1) := spec_step o l in let (rs, l2) := spec_run os l1 in (r :: rs, l2)
  end.

Fixpoint impl_run (os : list kbd_op) : M kbd_t (list Z) :=
  match os with
  | [] => ret []
  | o :: os => r <- impl_step o ;; rs <- impl_run os ;; ret (r :: rs)
  end.

Lemma ring_len_lt k l : ring_rep k l -> (length l < 256)%nat.
Proof.
  intros [_ _ Hl _]. pose proof (Z.mod_pos_bound (kbd_head k - kbd_tail k) 256 ltac:(lia)). lia.
Qed.

Lemma kbd_push_run k l c :
  ring_rep k l ->
  exists k', kbd_push c k = Ret tt k' /\ ring_rep k' (spec_step (Push c) l).2
    /\ kbd_shift_l k' = kbd_shift_l k /\ kbd_shift_r k' = kbd_shift_r k
    /\ kbd_caps k' = kbd_caps k /\ kbd_e0 k' = kbd_e0 k.
Proof.
  intros Hr. pose proof (ring_len_lt _ _ Hr) as Hlt. pose proof Hr as [Hh Ht Hl Hc].
  unfold kbd_push, KBD_BUF_SIZE. cbn [bind gets id]. rewrite u16_small by div_lia.
  cbn [spec_step snd]. case_decide as Hroom.
  - rewrite (proj2 (Z.eqb_neq _ _)) by div_lia. eexists. split; [reflexivity|].
    split; [|done]. split; simpl; [div_lia|done|rewrite length_app; simpl; div_lia|].
    intros i x Hi. destruct (decide (i = length l)) as [->|Hne].
    + rewrite list_lookup_middle in Hi by done. injection Hi as <-.
      replace ((kbd_tail k + Z.of_nat (length l)) mod 256) with (kbd_head k) by div_lia.
      rewrite lookup_insert_eq. split; [done|apply u8_range].
    + assert (Hil : (i < length l)%nat).
      { apply lookup_lt_Some in Hi. rewrite length_app in Hi. simpl in Hi. lia. }
      rewrite lookup_app_l in Hi by done. rewrite lookup_insert_ne by div_lia. by apply Hc.
  - rewrite (proj2 (Z.eqb_eq _ _)) by div_lia. exists k. by split_and!.
Qed.

Lemma s8_u8 c : 0 <= c < 256 -> u8 (s8 c) = c.
Proof.
  intros Hc. unfold s8, u8. destruct (Z.ltb_spec c 128); [by apply Z.mod_small|].
  rewrite <- (Z.mod_small c 256) at 2 by lia. change (2 ^ 8) with 256.
  rewrite Zminus_mod, Z.mod_same, Z.sub_0_r, Z.mod_mod by lia. done.
Qed.

Lemma kbd_getc_run k l :
  ring_rep k l ->
  exists k', kbd_getc k = Ret (spec_step Getc l).1 k' /\ ring_rep k' (spec_step Getc l).2.
Proof.
  intros Hr. pose proof (ring_len_lt _ _ Hr) as Hlt. pose proof Hr as [Hh Ht Hl Hc].
  unfold kbd_getc, KBD_BUF_SIZE. cbn [bind gets id modify]. destruct l as [|c l]; cbn [spec_step fst snd].
  - simpl in Hl. rewrite (proj2 (Z.eqb_eq _ _)) by div_lia. by exists k.
  - simpl in Hl, Hlt. rewrite (proj2 (Z.eqb_neq _ _)) by div_lia.
    destruct (Hc 0%nat c eq_refl) as [H0 Hb]. rewrite Z.add_0_r, Z.mod_small in H0 by lia.
    rewrite H0. cbn [bind modify]. rewrite u16_small by div_lia. unfold ret.
    change (default 0 (Some c)) with c. rewrite s8_u8 by done.
    eexists. split; [reflexivity|]. split; simpl; [done|div_lia|div_lia|].
    intros i x Hi. destruct (Hc (S i) x Hi) as [Hx Hxb]. split; [|done]. rewrite <- Hx. f_equal. div_lia.
Qed.

Lemma impl_step_run o k l :
  ring_rep k l -> exists k', impl_step o k = Ret (spec_step o l).1 k' /\ ring_rep k' (spec_step o l).2.
Proof.
  intros Hr. destruct o as [c|]; [|by apply kbd_getc_run].
  destruct (kbd_push_run k l c Hr) as (k' & H & Hr' & _). exists k'. unfold impl_step.
  by rewrite (bind_run _ _ _ _ _ H).
Qed.

(** ** The decoder *)

(** The character that a press of key [code] produces, if any. *)
Definition key_char (shift caps : bool) (code : Z) : option Z :=
  match kbd_normal !! Z.to_nat code, kbd_shifted !! Z.to_nat code with
  | Some base, Some up =>
      if base =? 0 then None
      else if is_lower base then Some (if xorb shift caps then up else base)
      else Some (if shift then (if up =? 0 then base else up) else base)
  | _, _ => None
  end.

(** The keys that change the decoder's state instead. *)
Definition is_modifier (code : Z) : bool := (code =? 0x2A) || (code =? 0x36) || (code =? 0x3A).

Lemma layout_lookup (t : list Z) code k :
  length t = 128%nat -> 0 <= code < 128 -> exists c, t !! Z.to_nat code = Some c /\ layout t code k = Ret c k.
Proof.
  intros Ht Hc. destruct (lookup_lt_is_Some_2 t (Z.to_nat code)) as [c E]; [lia|].
  exists c. split; [done|]. unfold layout. by rewrite E.
Qed.

Lemma high_bit_clear code : 0 <= code < 128 -> Z.land code 0x80 = 0.
Proof.
  intros Hc. change 0x80 with (2 ^ 7). rewrite Z.land_comm.
  apply Z.bits_inj'. intros i Hi. rewrite Z.land_spec, Z.testbit_0_l, Z.pow2_bits_eqb by lia.
  destruct (Z.eqb_spec 7 i) as [<-|]; [|done]. simpl. apply (Z.bits_above_log2 code 7); [lia|].
  destruct (decide (code = 0)) as [->|]; [done|]. apply Z.log2_lt_pow2; lia.
Qed.

Lemma handle_key_run k code :
  kbd_e0 k = false -> 0 <= code < 128 -> is_modifier code = false ->
  kbd_handle_code code k
  = match key_char (kbd_shift_l k || kbd_shift_r k) (kbd_caps k) code with
    | Some c => kbd_push c k
    | None => Ret tt k
    end.
Proof.
  intros He Hc Hm. unfold is_modifier in Hm. apply orb_false_iff in Hm as [Hm H3].
  apply orb_false_iff in Hm as [H1 H2].
  unfold kbd_handle_code. cbn [bind gets id]. rewrite (proj2 (Z.eqb_neq code 0xE0)) by lia.
  rewrite He, high_bit_clear by done. cbn [negb Z.eqb]. rewrite H1, H2, H3.
  rewrite (proj2 (Z.leb_gt 128 code)) by lia.
  destruct (layout_lookup kbd_normal code k eq_refl Hc) as (b & Hb & Hlb).
  destruct (layout_lookup kbd_shifted code k eq_refl Hc) as (u & Hu & Hlu).
  rewrite (bind_run _ _ _ _ _ Hlb). unfold key_char. rewrite Hb, Hu.
  destruct (Z.eqb_spec b 0) as [|Hb0]; [done|]. rewrite (bind_run _ _ _ _ _ Hlu).
  destruct (is_lower b); [done|].
  destruct (kbd_shift_l k || kbd_shift_r k); [by destruct (u =? 0)|].
  by rewrite (proj2 (Z.eqb_neq b 0)).
Qed.

(** ** Properties *)

(** C22: the keyboard ring refines a queue of at most 255 characters: every
    interleaving of [kbd_push] by the interrupt handler and [kbd_getc] by readers
    returns what the queue returns - the characters in order, -1 when it is
    empty - and a character that does not fit is dropped. *)
Theorem kbd_ring_refines os k l :
  ring_rep k l ->
  exists k', impl_run os k = Ret (spec_run os l).1 k' /\ ring_rep k' (spec_run os l).2
    /\ (length (spec_run os l).2 <= 255)%nat
    /\ kbd_empty k' = Ret (bool_decide ((spec_run os l).2 = [])) k'.
Proof.
  revert k l. induction os as [|o os IH]; intros k l Hr; cbn [spec_run impl_run fst snd].
  - exists k. split; [done|]. split; [done|]. split; [apply ring_len_lt in Hr; lia|].
    destruct Hr as [Hh Ht Hl _]. unfold kbd_empty, gets. f_equal.
    destruct l as [|c l]; simpl in Hl.
    + rewrite bool_decide_eq_true_2 by done. apply Z.eqb_eq. div_lia.
    + rewrite bool_decide_eq_false_2 by done. apply Z.eqb_neq. intros E.
      rewrite E, Z.sub_diag in Hl. rewrite Z.mod_0_l in Hl by lia. lia.
  - destruct (impl_step_run o k l Hr) as (k1 & H1 & Hr1). rewrite (bind_run _ _ _ _ _ H1).
    destruct (spec_step o l) as [r l1]. cbn [fst snd] in *.
    destruct (IH k1 l1 Hr1) as (k2 & H2 & Hr2 & Hlen & He). rewrite (bind_run _ _ _ _ _ H2).
    destruct (spec_run os l1) as [rs l2]. by exists k2.
Qed.

Definition kbd0 : kbd_t :=
  {| kbd_buf := ∅; kbd_head := 255; kbd_tail := 255; kbd_shift_l := false; kbd_shift_r := false;
     kbd_caps := false; kbd_e0 := false |}.

Lemma kbd0_rep : ring_rep kbd0 [].
Proof. split; simpl; (done || lia). Qed.

Lemma kbd_ring_refines_witness :
  exists k', impl_run [Push 104; Push 105; Getc; Getc; Getc] kbd0 = Ret [0; 0; 104; 105; -1] k'.
Proof.
  destruct (kbd_ring_refines [Push 104; Push 105; Getc; Getc; Getc] kbd0 [] kbd0_rep) as (k' & H & _).
  exists k'. exact H.
Defined.

(** a key press outside the 0xE0 prefix queues the character of the key and
    leaves the modifiers alone: for a letter the upper case exactly when one of
    shift and caps lock is on, for any other key the shifted one exactly when a
    shift key is down; keys without a character queue nothing. *)
Lemma kbd_key_press k l code :
  ring_rep k l -> kbd_e0 k = false -> 0 <= code < 128 -> is_modifier code = false ->
  exists k', kbd_handle_code code k = Ret tt k'
    /\ kbd_shift_l k' = kbd_shift_l k /\ kbd_shift_r k' = kbd_shift_r k
    /\ kbd_caps k' = kbd_caps k /\ kbd_e0 k' = false
    /\ ring_rep k' (match key_char (kbd_shift_l k || kbd_shift_r k) (kbd_caps k) code with
                    | Some c => (spec_step (Push c) l).2
                    | None => l
                    end).
Proof.
  intros Hr He Hc Hm. rewrite handle_key_run by done.
  destruct (key_char _ _ _) as [c|]; [|by exists k].
  destruct (kbd_push_run k l c Hr) as (k' & H & Hr' & E1 & E2 & E3 & E4).
  exists k'. split_and!; congruence || done.
Qed.

Lemma kbd_key_press_witness :
  exists k', kbd_handle_code 0x1E kbd0 = Ret tt k' /\ ring_rep k' [97].
Proof.
  destruct (kbd_key_press kbd0 [] 0x1E kbd0_rep eq_refl ltac:(lia) eq_refl) as (k' & H & _ & _ & _ & _ & Hr).
  exists k'. split; [exact H|exact Hr].
Defined.

(** The modifier keys: a shift key is down from its press to its release,
    caps lock toggles at each press, and after the prefix 0xE0 the next code is
    swallowed whatever it is; none of these queues a character. *)
Lemma kbd_modifiers k :
  (forall caps, kbd_handle_code 0x3A (set_mods (kbd_shift_l k) (kbd_shift_r k) caps false k)
     = Ret tt (set_mods (kbd_shift_l k) (kbd_shift_r k) (negb caps) false k))
  /\ (kbd_e0 k = false ->
      kbd_handle_code 0x2A k = Ret tt (set_mods true (kbd_shift_r k) (kbd_caps k) false k)
      /\ kbd_handle_code 0xAA k = Ret tt (set_mods false (kbd_shift_r k) (kbd_caps k) false k)
      /\ kbd_handle_code 0x36 k = Ret tt (set_mods (kbd_shift_l k) true (kbd_caps k) false k)
      /\ kbd_handle_code 0xB6 k = Ret tt (set_mods (kbd_shift_l k) false (kbd_caps k) false k))
  /\ (forall code, code <> 0xE0 -> exists k1,
      kbd_handle_code 0xE0 k = Ret tt k1
      /\ kbd_handle_code code k1
         = Ret tt (set_mods (kbd_shift_l k) (kbd_shift_r k) (kbd_caps k) false k)).
Proof.
  split; [done|]. split.
  - intros He. unfold kbd_handle_code. cbn [bind gets id]. rewrite He. done.
  - intros code Hc. exists (set_mods (kbd_shift_l k) (kbd_shift_r k) (kbd_caps k) true k).
    split; [done|]. unfold kbd_handle_code. cbn [bind gets id].
    by rewrite (proj2 (Z.eqb_neq code 0xE0)).
Qed.

Lemma kbd_modifiers_witness :
  exists k1, kbd_handle_code 0xE0 kbd0 = Ret tt k1
    /\ kbd_handle_code 0x48 k1 = Ret tt (set_mods false false false false kbd0).
Proof. exact (proj2 (proj2 (kbd_modifiers kbd0)) 0x48 ltac:(lia)). Defined.
