(* ===== verification/Desc.v ===== *)
(** * Descriptor tables (cpu/gdt.c, cpu/idt.c)

    The TSS descriptor as the sixteen bytes [encode_tss] writes, and the gates of
    the IDT, together with the way the processor reads them back (Intel SDM vol.
    3: the limit and base fields of a system descriptor, the offset and IST
    fields of a gate).  The entry points of the handlers are assembly: their
    addresses are parameters. *)

From S2P Require Import Prelude State.

(** ** gdt.c *)

Definition encode_tss (base limit : Z) : list Z :=
  [ u8 (Z.land limit 0xFF); u8 (Z.land (Z.shiftr limit 8) 0xFF);
    u8 (Z.land base 0xFF); u8 (Z.land (Z.shiftr base 8) 0xFF); u8 (Z.land (Z.shiftr base 16) 0xFF);
    0x89;
    u8 (Z.land (Z.shiftr limit 16) 0x0F); u8 (Z.land (Z.shiftr base 24) 0xFF);
    u8 (Z.land (Z.shiftr base 32) 0xFF); u8 (Z.land (Z.shiftr base 40) 0xFF);
    u8 (Z.land (Z.shiftr base 48) 0xFF); u8 (Z.land (Z.shiftr base 56) 0xFF);
    0; 0; 0; 0 ].

(** The processor's view of a system descriptor. *)
Definition le (bs : list Z) : Z := foldr (fun b acc => b + 256 * acc) 0 bs.
Definition byte_at (e : list Z) (i : nat) : Z := default 0 (e !! i).
Definition desc_base (e : list Z) : Z :=
  le (map (byte_at e) [2; 3; 4; 7; 8; 9; 10; 11]%nat).
Definition desc_limit (e : list Z) : Z :=
  le [byte_at e 0; byte_at e 1; Z.land (byte_at e 6) 0x0F].

Definition IST_STACK_PAGES : Z := 2.
Definition sizeof_tss_t : Z := 104.

(** ** idt.c *)

Record idt_entry_t := {
  offset_low : Z; selector : Z; ist_flags : Z; type_attr : Z; offset_mid : Z; offset_high : Z;
  idt_zero : Z
}.

(** [IDT] has 256 entries; an index outside is undefined. *)
Abbreviation idt := (M (gmap Z idt_entry_t)).

Definition store_gate (vector : Z) (e : idt_entry_t) : idt unit :=
  if (0 <=? vector) && (vector <? 256) then modify (insert vector e) else stuck.

Definition idt_set_gate_ist (vector handler ist : Z) : idt unit :=
  store_gate vector
    {| offset_low := Z.land handler 0xFFFF; selector := 0x28;
       ist_flags := u8 (Z.shiftl (Z.land ist 7) 5); type_attr := 0x8E;
       offset_mid := Z.land (Z.shiftr handler 16) 0xFFFF;
       offset_high := Z.land (Z.shiftr handler 32) 0xFFFFFFFF; idt_zero := 0 |}.

Definition idt_set_gate (vector handler : Z) : idt unit := idt_set_gate_ist vector handler 0.

Definition idt_set_gate_user (vector handler : Z) : idt unit :=
  store_gate vector
    {| offset_low := Z.land handler 0xFFFF; selector := 0x28; ist_flags := 0; type_attr := 0xEE;
       offset_mid := Z.land (Z.shiftr handler 16) 0xFFFF;
       offset_high := Z.land (Z.shiftr handler 32) 0xFFFFFFFF; idt_zero := 0 |}.

Definition LAPIC_TIMER_VECTOR : Z := 0x30.
Definition SYSCALL_VECTOR : Z := 0x80.

(** The assembly entry points. *)
Record isrs := {
  isr_de : Z; isr_ud : Z; isr_df : Z; isr_pf : Z; isr_gp : Z; isr_pit : Z; isr_kbd : Z;
  isr_lapic_timer : Z; isr_syscall : Z
}.

(** The gates of [kidt_init]; the result is the limit loaded with the table. *)
Definition kidt_init (h : isrs) : idt Z :=
  _ <- idt_set_gate 0x00 (isr_de h) ;;
  _ <- idt_set_gate 0x06 (isr_ud h) ;;
  _ <- idt_set_gate_ist 0x08 (isr_df h) 2 ;;
  _ <- idt_set_gate_ist 0x0E (isr_pf h) 1 ;;
  _ <- idt_set_gate 0x0D (isr_gp h) ;;
  _ <- idt_set_gate 0x20 (isr_pit h) ;;
  _ <- idt_set_gate 0x21 (isr_kbd h) ;;
  _ <- idt_set_gate LAPIC_TIMER_VECTOR (isr_lapic_timer h) ;;
  _ <- idt_set_gate_user SYSCALL_VECTOR (isr_syscall h) ;;
  ret (16 * 256 - 1).

(** The processor's view of a gate: the entry point, the IST index (the low three
    bits of the byte behind the selector) and the privilege that may raise it. *)
Definition gate_offset (e : idt_entry_t) : Z :=
  offset_low e + 2 ^ 16 * offset_mid e + 2 ^ 32 * offset_high e.
Definition gate_ist (e : idt_entry_t) : Z := Z.land (ist_flags e) 7.
Definition gate_dpl (e : idt_entry_t) : Z := Z.land (Z.shiftr (type_attr e) 5) 3.

(** ** Bit fields *)

Lemma field_mod x s w : 0 <= s -> 0 <= w -> Z.land (Z.shiftr x s) (Z.ones w) = x / 2 ^ s mod 2 ^ w.
Proof. intros. by rewrite Z.land_ones, Z.shiftr_div_pow2. Qed.

Lemma byte_field x s : 0 <= s -> u8 (Z.land (Z.shiftr x s) 0xFF) = x / 2 ^ s mod 256.
Proof.
  intros Hs. change 0xFF with (Z.ones 8). rewrite field_mod by lia. change (2 ^ 8) with 256.
  by rewrite u8_small by (apply Z.mod_pos_bound; lia).
Qed.

Lemma byte_field_0 x : u8 (Z.land x 0xFF) = x mod 256.
Proof.
  rewrite <- (Z.shiftr_0_r x) at 1. rewrite byte_field by lia. by rewrite Z.pow_0_r, Z.div_1_r.
Qed.

Lemma gate_fields handler :
  0 <= handler < 2 ^ 64 ->
  Z.land handler 0xFFFF + 2 ^ 16 * Z.land (Z.shiftr handler 16) 0xFFFF
    + 2 ^ 32 * Z.land (Z.shiftr handler 32) 0xFFFFFFFF = handler.
Proof.
  intros Hh. change 0xFFFF with (Z.ones 16). change 0xFFFFFFFF with (Z.ones 32).
  rewrite !field_mod, Z.land_ones by lia. div_lia.
Qed.

Lemma desc_base_eq b0 b1 b2 b3 b4 b5 b6 b7 l0 l1 l2 a z :
  desc_base [l0; l1; b0; b1; b2; a; l2; b3; b4; b5; b6; b7; z; z; z; z]
  = b0 + 256 * (b1 + 256 * (b2 + 256 * (b3 + 256 * (b4 + 256 * (b5 + 256 * (b6 + 256 * (b7 + 256 * 0))))))).
Proof. done. Qed.

(** ** Properties *)

(** the processor reads back from the descriptor that [encode_tss] writes the
    base and the limit it was given, as a present 64-bit TSS of ring 0. *)
Lemma encode_tss_roundtrip base limit :
  0 <= base < 2 ^ 64 -> 0 <= limit < 2 ^ 20 ->
  length (encode_tss base limit) = 16%nat
  /\ desc_base (encode_tss base limit) = base /\ desc_limit (encode_tss base limit) = limit
  /\ byte_at (encode_tss base limit) 5 = 0x89.
Proof.
  intros Hb Hl. split; [done|]. split; [|split; [|done]].
  - unfold encode_tss. rewrite desc_base_eq, byte_field_0, !byte_field by lia.
    change (2 ^ 8) with 256. div_lia.
  - unfold desc_limit, encode_tss, byte_at. simpl (default _ _).
    change 0x0F with (Z.ones 4). rewrite !field_mod, byte_field_0, byte_field by lia.
    rewrite Z.land_ones by lia. rewrite u8_small by div_lia. unfold le. simpl foldr.
    change (2 ^ 8) with 256. change (2 ^ 16) with 65536. change (2 ^ 4) with 16. div_lia.
Qed.

Lemma encode_tss_roundtrip_witness :
  desc_base (encode_tss 0xFFFF800000123456 103) = 0xFFFF800000123456.
Proof.
  destruct (encode_tss_roundtrip 0xFFFF800000123456 103) as (_ & H & _); [lia|lia|exact H].
Defined.

Definition gate_to (h dpl : Z) (t : gmap Z idt_entry_t) (v : Z) : Prop :=
  exists e, t !! v = Some e /\ gate_offset e = h /\ selector e = 0x28 /\ gate_dpl e = dpl.

Definition isrs_ok (h : isrs) : Prop :=
  Forall (fun a => 0 <= a < 2 ^ 64)
    [isr_de h; isr_ud h; isr_df h; isr_pf h; isr_gp h; isr_pit h; isr_kbd h; isr_lapic_timer h;
     isr_syscall h].

(** C30: [kidt_init] points each of its nine vectors at its handler in the 64-bit
    kernel code segment; only the system-call vector may be raised from user
    mode; every other entry of the table is left alone. *)
Theorem kidt_init_gates h t :
  isrs_ok h ->
  exists t', kidt_init h t = Ret 4095 t'
    /\ gate_to (isr_de h) 0 t' 0x00 /\ gate_to (isr_ud h) 0 t' 0x06 /\ gate_to (isr_df h) 0 t' 0x08
    /\ gate_to (isr_gp h) 0 t' 0x0D /\ gate_to (isr_pf h) 0 t' 0x0E /\ gate_to (isr_pit h) 0 t' 0x20
    /\ gate_to (isr_kbd h) 0 t' 0x21 /\ gate_to (isr_lapic_timer h) 0 t' LAPIC_TIMER_VECTOR
    /\ gate_to (isr_syscall h) 3 t' SYSCALL_VECTOR
    /\ forall v, v ∉ [0x00; 0x06; 0x08; 0x0D; 0x0E; 0x20; 0x21; LAPIC_TIMER_VECTOR; SYSCALL_VECTOR] ->
         t' !! v = t !! v.
Proof.
  intros Hh. unfold isrs_ok in Hh. rewrite !list.Forall_cons in Hh.
  destruct Hh as (?&?&?&?&?&?&?&?&?&_).
  eexists. split; [reflexivity|].
  split_and!.
  1-9: eexists; split; [unfold LAPIC_TIMER_VECTOR, SYSCALL_VECTOR;
         repeat first [apply lookup_insert_eq | rewrite lookup_insert_ne by done]|];
       split; [by apply gate_fields|done].
  intros v Hv. rewrite !not_elem_of_cons in Hv. destruct Hv as (?&?&?&?&?&?&?&?&?&_).
  by rewrite !lookup_insert_ne by congruence.
Qed.

Definition isrs0 : isrs :=
  {| isr_de := 0x8000; isr_ud := 0x8010; isr_df := 0x8020; isr_pf := 0x8030; isr_gp := 0x8040;
     isr_pit := 0x8050; isr_kbd := 0x8060; isr_lapic_timer := 0x8070; isr_syscall := 0x8080 |}.

Lemma kidt_init_gates_witness :
  exists t', kidt_init isrs0 ∅ = Ret 4095 t' /\ gate_to 0x8080 3 t' 0x80.
Proof.
  destruct (kidt_init_gates isrs0 ∅) as (t' & H & _ & _ & _ & _ & _ & _ & _ & _ & Hs & _).
  - repeat constructor; simpl; lia.
  - exists t'. split; [exact H|exact Hs].
Defined.

(** Whatever IST index [idt_set_gate_ist] is given, the gate it writes selects
    none: the index goes to bits 5 to 7 of the byte, the processor reads bits 0
    to 2, so the page-fault and double-fault handlers run on the current stack. *)
Lemma idt_ist_ignored vector handler ist t :
  0 <= vector < 256 ->
  exists t' e, idt_set_gate_ist vector handler ist t = Ret tt t' /\ t' !! vector = Some e
    /\ gate_ist e = 0.
Proof.
  intros Hv. unfold idt_set_gate_ist, store_gate.
  replace ((0 <=? vector) && (vector <? 256)) with true by (symmetry; bool_lia).
  eexists _, _. split; [reflexivity|]. split; [apply lookup_insert_eq|].
  unfold gate_ist. cbn [ist_flags]. change 7 with (Z.ones 3) at 2. rewrite Z.land_ones by lia.
  unfold u8. rewrite Z.shiftl_mul_pow2 by lia. change (2 ^ 8) with 256. change (2 ^ 3) with 8.
  change (2 ^ 5) with 32. div_lia.
Qed.

Lemma idt_ist_ignored_witness :
  exists t' e, idt_set_gate_ist 0x08 0x8020 2 ∅ = Ret tt t' /\ t' !! 0x08 = Some e /\ gate_ist e = 0.
Proof. exact (idt_ist_ignored 0x08 0x8020 2 ∅ ltac:(lia)). Defined.
