(* ===== verification/Tss.v ===== *)
(** * ktss_init of cpu/gdt.c: the task state segment and the kernel's GDT

    The state is the kernel with the static variables [tss] and [gdt] and the two
    registers that the routine loads; [rsp0] of the TSS is [tss_rsp0] of the
    scheduler, which changes it at each switch.  The addresses of the variables
    and of the boot stack come from the linker. *)

From S2P Require Import Prelude State Console Utils Mem Pmm Heap Objects Thread Sched Desc.

Record tss_t := {
  rsp1 : Z; rsp2 : Z; ist1 : Z; ist2 : Z; ist3 : Z; ist4 : Z; ist5 : Z; ist6 : Z; ist7 : Z;
  iomap_base : Z
}.

(** The bytes of the eight entries, and the pseudo descriptor behind them. *)
Record kgdt_t := { gdt_bytes : list Z; gdtr_limit : Z; gdtr_base : Z }.

Record segs := {
  sg_kernel : kstate;
  sg_tss : tss_t;
  sg_gdt : kgdt_t;
  sg_gdtr : Z * Z;      (* the register: limit and base *)
  sg_tr : Z
}.

Definition zero_tss : tss_t :=
  {| rsp1 := 0; rsp2 := 0; ist1 := 0; ist2 := 0; ist3 := 0; ist4 := 0; ist5 := 0; ist6 := 0; ist7 := 0;
     iomap_base := 0 |}.

Definition set_iomap (v : Z) (t : tss_t) : tss_t :=
  {| rsp1 := rsp1 t; rsp2 := rsp2 t; ist1 := ist1 t; ist2 := ist2 t; ist3 := ist3 t; ist4 := ist4 t;
     ist5 := ist5 t; ist6 := ist6 t; ist7 := ist7 t; iomap_base := v |}.
Definition set_ists (a b : Z) (t : tss_t) : tss_t :=
  {| rsp1 := rsp1 t; rsp2 := rsp2 t; ist1 := a; ist2 := b; ist3 := ist3 t; ist4 := ist4 t;
     ist5 := ist5 t; ist6 := ist6 t; ist7 := ist7 t; iomap_base := iomap_base t |}.

Definition seg_kernel {A} (m : kernel A) : M segs A :=
  zoom sg_kernel (fun k s => {| sg_kernel := k; sg_tss := sg_tss s; sg_gdt := sg_gdt s; sg_gdtr := sg_gdtr s; sg_tr := sg_tr s |}) m.
Definition set_tss (t : tss_t) : M segs unit :=
  modify (fun s => {| sg_kernel := sg_kernel s; sg_tss := t; sg_gdt := sg_gdt s; sg_gdtr := sg_gdtr s; sg_tr := sg_tr s |}).
Definition set_gdt (g : kgdt_t) : M segs unit :=
  modify (fun s => {| sg_kernel := sg_kernel s; sg_tss := sg_tss s; sg_gdt := g; sg_gdtr := sg_gdtr s; sg_tr := sg_tr s |}).
Definition sgdt : M segs (Z * Z) := gets sg_gdtr.
Definition lgdt (limit base : Z) : M segs unit :=
  modify (fun s => {| sg_kernel := sg_kernel s; sg_tss := sg_tss s; sg_gdt := sg_gdt s; sg_gdtr := (limit, base); sg_tr := sg_tr s |}).
Definition ltr (sel : Z) : M segs unit :=
  modify (fun s => {| sg_kernel := sg_kernel s; sg_tss := sg_tss s; sg_gdt := sg_gdt s; sg_gdtr := sg_gdtr s; sg_tr := sel |}).

Section Linked.
Context (kernel_stack_top tss_addr gdt_addr : Z).

Definition ktss_init : M segs bool :=
  _ <- set_tss zero_tss ;;
  _ <- seg_kernel (upd_sched (set_rsp0 kernel_stack_top)) ;;
  t <- gets sg_tss ;;
  _ <- set_tss (set_iomap sizeof_tss_t t) ;;
  gdtr <- sgdt ;;
  old <- seg_kernel (gets (fun k => mem_bytes (k_mem k) gdtr.2 (6 * 8))) ;;
  let gdt := old ++ encode_tss tss_addr (sizeof_tss_t - 1) in
  let limit := 6 * 8 + 16 - 1 in
  _ <- set_gdt {| gdt_bytes := gdt; gdtr_limit := limit; gdtr_base := gdt_addr |} ;;
  s1 <- seg_kernel (kpalloc_contiguous IST_STACK_PAGES) ;;
  s2 <- seg_kernel (kpalloc_contiguous IST_STACK_PAGES) ;;
  if (s1 =? NULL) || (s2 =? NULL) then ret false else
  t <- gets sg_tss ;;
  _ <- set_tss (set_ists (u64 (s1 + IST_STACK_PAGES * 4096)) (u64 (s2 + IST_STACK_PAGES * 4096)) t) ;;
  _ <- lgdt limit gdt_addr ;;
  _ <- ltr 0x30 ;;
  ret true.
End Linked.

(** ** The theorem *)

(** Two stacks of two pages each, taken from the free pages. *)
Record stacks_taken (k k' : kstate) (p1 p2 : Z) : Prop := {
  sk_mem : mem_ok k';
  sk_first : owned_run k' p1 2;
  sk_second : owned_run k' p2 2;
  sk_apart : forall f, p1 / 4096 <= f < p1 / 4096 + 2 -> ~ (p2 / 4096 <= f < p2 / 4096 + 2);
  sk_new f : p1 / 4096 <= f < p1 / 4096 + 2 \/ p2 / 4096 <= f < p2 / 4096 + 2 -> k_free k f = true;
  sk_others f : ~ (p1 / 4096 <= f < p1 / 4096 + 2) -> ~ (p2 / 4096 <= f < p2 / 4096 + 2) -> k_free k' f = k_free k f;
  sk_rest : exists q, k' = with_pmm q k
}.

Lemma two_stacks k :
  mem_ok k ->
  exists r1 r2 q1 q2, kpalloc_contiguous 2 k = Ret r1 (with_pmm q1 k)
  /\ kpalloc_contiguous 2 (with_pmm q1 k) = Ret r2 (with_pmm q2 k)
  /\ mem_ok (with_pmm q2 k)
  /\ (r1 <> NULL -> r2 <> NULL -> stacks_taken k (with_pmm q2 k) r1 r2 /\ r1 + 8192 <= 2 ^ 64 /\ r2 + 8192 <= 2 ^ 64).
Proof.
  intros Hm.
  destruct (kpalloc_contiguous_step k 2 Hm ltac:(lia)) as [R1|(r1 & q1 & R1 & M1 & N1 & P1 & B1 & O1 & F1 & E1 & G1)].
  - rewrite <- (with_pmm_id k) in R1 at 2.
    destruct (kpalloc_contiguous_step k 2 Hm ltac:(lia)) as [R2|(r2 & q2 & R2 & M2 & _)].
    + exists NULL, NULL, (k_pmm k), (k_pmm k). rewrite with_pmm_id in *. by split_and!.
    + exists NULL, r2, (k_pmm k), q2. rewrite with_pmm_id in *. by split_and!.
  - destruct (kpalloc_contiguous_step (with_pmm q1 k) 2 M1 ltac:(lia))
      as [R2|(r2 & q2 & R2 & M2 & N2 & P2 & B2 & O2 & F2 & E2 & G2)].
    + exists r1, NULL, q1, q1. split_and!; done.
    + exists r1, r2, q1, q2. change (with_pmm q2 (with_pmm q1 k)) with (with_pmm q2 k) in *. split_and!; [done..|].
      intros _ _. split; [|lia].
      assert (A : forall f, r1 / 4096 <= f < r1 / 4096 + 2 -> ~ (r2 / 4096 <= f < r2 / 4096 + 2)).
      { intros f H1 H2. specialize (G2 f H2). unfold k_free in G2. cbn in G2.
        by rewrite E1, bool_decide_eq_true_2 in G2. }
      split; [done| |done|done| | |by eexists].
      * destruct O1 as (H1 & H2 & H3 & H4). split_and!; [done|done|cbn in *; lia|]. intros f Hf.
        destruct (H4 f Hf) as [H5 H6]. split; [|exact H6]. unfold k_free. cbn. rewrite E2, H5. by rewrite andb_false_r.
      * intros f [Hf|Hf]; [by apply G1|]. specialize (G2 f Hf). unfold k_free in G2. cbn in G2.
        rewrite E1 in G2. by apply andb_true_iff in G2 as [_ G2].
      * intros f H1 H2. unfold k_free. cbn. rewrite E2, bool_decide_eq_false_2 by done. unfold k_free. cbn.
        by rewrite E1, bool_decide_eq_false_2.
Qed.

(** The state after the set-up: [r] the result, [p1] and [p2] the stacks. *)
Record tss_ready (kst tss gdt : Z) (s s' : segs) (p1 p2 : Z) : Prop := {
  ts_stacks : stacks_taken (with_sched (set_rsp0 kst (k_sched (sg_kernel s))) (sg_kernel s)) (sg_kernel s') p1 p2;
  ts_ist : ist1 (sg_tss s') = u64 (p1 + 8192) /\ ist2 (sg_tss s') = u64 (p2 + 8192);
  ts_iomap : iomap_base (sg_tss s') = 104;
  ts_rsp0 : tss_rsp0 (k_sched (sg_kernel s')) = kst;
  ts_regs : sg_gdtr s' = (63, gdt) /\ sg_tr s' = 0x30;
  ts_segments i : (i < 48)%nat -> gdt_bytes (sg_gdt s') !! i = Some (rd8 (k_mem (sg_kernel s)) ((sg_gdtr s).2 + Z.of_nat i));
  ts_length : length (gdt_bytes (sg_gdt s')) = 64%nat;
  ts_descriptor : let e := drop 48 (gdt_bytes (sg_gdt s')) in
    desc_base e = tss /\ desc_limit e = 103 /\ byte_at e 5 = 0x89
}.

Lemma ktss_init_run kst tss gdt s :
  mem_ok (sg_kernel s) -> 0 <= tss < 2 ^ 64 ->
  (exists s', ktss_init kst tss gdt s = Ret false s' /\ mem_ok (sg_kernel s') /\ sg_gdtr s' = sg_gdtr s /\ sg_tr s' = sg_tr s)
  \/ exists s' p1 p2, ktss_init kst tss gdt s = Ret true s' /\ tss_ready kst tss gdt s s' p1 p2.
Proof.
  intros Hm Ht. set (k := with_sched (set_rsp0 kst (k_sched (sg_kernel s))) (sg_kernel s)).
  assert (Hk : mem_ok k) by by apply mem_ok_sched.
  destruct (two_stacks k Hk) as (r1 & r2 & q1 & q2 & R1 & R2 & M & Hs).
  set (bs := mem_bytes (k_mem k) (sg_gdtr s).2 48). set (e := encode_tss tss 103).
  set (s1 q := {| sg_kernel := with_pmm q k; sg_tss := set_iomap 104 zero_tss;
                  sg_gdt := {| gdt_bytes := bs ++ e; gdtr_limit := 63; gdtr_base := gdt |};
                  sg_gdtr := sg_gdtr s; sg_tr := sg_tr s |}).
  assert (R : ktss_init kst tss gdt s
    = if (r1 =? NULL) || (r2 =? NULL) then Ret false (s1 q2)
      else Ret true {| sg_kernel := with_pmm q2 k; sg_tss := set_ists (u64 (r1 + 8192)) (u64 (r2 + 8192)) (set_iomap 104 zero_tss);
                       sg_gdt := sg_gdt (s1 q2); sg_gdtr := (63, gdt); sg_tr := 0x30 |}).
  { unfold ktss_init. cbn [bind set_tss modify gets sgdt seg_kernel zoom upd_sched ret set_gdt sg_kernel sg_tss sg_gdt sg_gdtr sg_tr].
    assert (Z1 : forall s r q, kpalloc_contiguous 2 (sg_kernel s) = Ret r (with_pmm q (sg_kernel s)) ->
      seg_kernel (kpalloc_contiguous IST_STACK_PAGES) s
      = Ret r {| sg_kernel := with_pmm q (sg_kernel s); sg_tss := sg_tss s; sg_gdt := sg_gdt s; sg_gdtr := sg_gdtr s; sg_tr := sg_tr s |})
      by (intros s' r q E; unfold seg_kernel, zoom; change IST_STACK_PAGES with 2; by rewrite E).
    match goal with |- bind _ _ ?s0 = _ => rewrite (bind_run _ _ _ _ _ (Z1 s0 r1 q1 R1)) end.
    match goal with |- bind _ _ ?s0 = _ => rewrite (bind_run _ _ _ _ _ (Z1 s0 r2 q2 R2)) end.
    by destruct (_ || _). }
  rewrite R. destruct (Z.eqb_spec r1 NULL) as [E1|N1]; cbn [orb]; [left; by eexists|].
  destruct (Z.eqb_spec r2 NULL) as [E2|N2]; [left; by eexists|]. right. eexists _, r1, r2. split; [reflexivity|].
  destruct (Hs N1 N2) as (S & B1 & B2).
  assert (Hl : length bs = 48%nat) by (unfold bs; by rewrite length_mem_bytes).
  destruct (encode_tss_roundtrip tss 103 Ht ltac:(lia)) as (He & Hb & Hlim & H5).
  split; try done.
  - intros i Hi. cbn [sg_gdt gdt_bytes s1]. rewrite lookup_app_l by lia. unfold bs. by rewrite lookup_mem_bytes by lia.
Qed.

(** ** Properties *)


(** The boot GDT is at 0x7E00. *)
Definition segs0 : segs :=
  {| sg_kernel := k1; sg_tss := zero_tss; sg_gdt := {| gdt_bytes := []; gdtr_limit := 0; gdtr_base := 0 |};
     sg_gdtr := (47, 0x7E00); sg_tr := 0 |}.

