(* ===== verification/Ramfs.v ===== *)
(** * fs/ramfs.c, fs/vfs.c, exec/exec.c: the file system in memory

    Nodes are heap objects linked by [child] and [sibling]; the bytes of a file
    lie in up to eight physical pages.  A path is the C array that holds it
    ([None] for a null pointer).  The buffer a read fills is reached through
    [put], which stores a chunk at an offset: the callers read into heap buffers
    ([put_kbuf]) and into mapped memory ([put_phys]). *)

From S2P Require Import Prelude State Utils Mem Pmm Heap Objects.

Definition VFS_NAME_MAX : Z := 63.
Definition VFS_PATH_MAX : Z := 256.
Definition VFS_MAX_FILE_SIZE : Z := 8 * 4096.
Definition RAMFS_PAGES_PER_FILE : Z := 8.

Definition VFS_OK : Z := 0.
Definition VFS_ERR_INVAL : Z := -1.
Definition VFS_ERR_NOTFOUND : Z := -2.
Definition VFS_ERR_EXISTS : Z := -3.
Definition VFS_ERR_NOTDIR : Z := -4.
Definition VFS_ERR_ISDIR : Z := -5.
Definition VFS_ERR_NOSPACE : Z := -6.
Definition VFS_ERR_BADPATH : Z := -7.

Definition SLASH : Z := 47.
Definition NEWLINE : Z := 10.

(** ** Nodes *)

(** [memset(n, 0, sizeof(ramfs_node_t))] *)
Definition zero_node : ramfs_node_t :=
  {| n_name := replicate 64 0; n_is_dir := false; n_size := 0; n_child := NULL; n_sibling := NULL;
     n_pages := replicate 8 0; n_page_count := 0 |}.

Definition node_set_name (name : list Z) (is_dir : bool) (n : ramfs_node_t) : ramfs_node_t :=
  {| n_name := name; n_is_dir := is_dir; n_size := n_size n; n_child := n_child n;
     n_sibling := n_sibling n; n_pages := n_pages n; n_page_count := n_page_count n |}.
Definition node_set_child (c : Z) (n : ramfs_node_t) : ramfs_node_t :=
  {| n_name := n_name n; n_is_dir := n_is_dir n; n_size := n_size n; n_child := c;
     n_sibling := n_sibling n; n_pages := n_pages n; n_page_count := n_page_count n |}.
Definition node_set_sibling (s : Z) (n : ramfs_node_t) : ramfs_node_t :=
  {| n_name := n_name n; n_is_dir := n_is_dir n; n_size := n_size n; n_child := n_child n;
     n_sibling := s; n_pages := n_pages n; n_page_count := n_page_count n |}.
Definition node_set_size (s : Z) (n : ramfs_node_t) : ramfs_node_t :=
  {| n_name := n_name n; n_is_dir := n_is_dir n; n_size := s; n_child := n_child n;
     n_sibling := n_sibling n; n_pages := n_pages n; n_page_count := n_page_count n |}.
Definition node_set_pages (ps : list Z) (c : Z) (n : ramfs_node_t) : ramfs_node_t :=
  {| n_name := n_name n; n_is_dir := n_is_dir n; n_size := n_size n; n_child := n_child n;
     n_sibling := n_sibling n; n_pages := ps; n_page_count := c |}.

(** [kstrncpy(dst, src, VFS_NAME_MAX); dst\[VFS_NAME_MAX\] = 0] *)
Definition copy_name (dst src : list Z) : kernel (list Z) :=
  d <- deref (kstrncpy dst src (Z.to_nat VFS_NAME_MAX)) ;; deref (store d VFS_NAME_MAX 0).

Definition ramfs_alloc_node (name : list Z) (is_dir : bool) : kernel Z :=
  n <- kmalloc sizeof_ramfs_node_t ;;
  if n =? NULL then ret NULL else
  nm <- copy_name (n_name zero_node) name ;;
  _ <- store_node n (node_set_name nm is_dir zero_node) ;;
  ret n.

(** The walk over the siblings; there are no more of them than nodes. *)
Fixpoint find_sibling (fuel : nat) (c : Z) (name : list Z) : kernel Z :=
  if c =? NULL then ret NULL else
  match fuel with
  | O => stuck
  | S fuel =>
      n <- load_node c ;;
      r <- deref (kstrcmp (n_name n) name) ;;
      if r =? 0 then ret c else find_sibling fuel (n_sibling n) name
  end.

Definition node_fuel (k : kstate) : nat := base.size (o_node (k_obj k)).

Definition ramfs_find_child (dir : Z) (name : list Z) : kernel Z :=
  if dir =? NULL then ret NULL else
  d <- load_node dir ;;
  if negb (n_is_dir d) then ret NULL else
  fuel <- gets node_fuel ;;
  find_sibling fuel (n_child d) name.

(** ** Paths *)

(** The inner loop of [ramfs_parent_of]: a component is copied from [path\[i\]] to
    [comp\[clen\]] up to the next slash or NUL; [None] is a component too long. *)
Fixpoint scan_comp (fuel : nat) (path comp : list Z) (i clen : Z)
  : kernel (option (list Z * Z * Z)) :=
  match fuel with
  | O => stuck
  | S fuel =>
      ch <- deref (load path i) ;;
      if (ch =? 0) || (ch =? SLASH) then ret (Some (comp, i, clen)) else
      if VFS_NAME_MAX <=? clen then ret None else
      comp <- deref (store comp clen ch) ;;
      scan_comp fuel path comp (i + 1) (clen + 1)
  end.

(** The outer loop: [cur] is the directory reached, [leaf] the output buffer. *)
Fixpoint parent_walk (fuel : nat) (path comp leaf : list Z) (cur i : Z) : kernel (Z * list Z) :=
  match fuel with
  | O => stuck
  | S fuel =>
      r <- scan_comp (S (length path)) path comp i 0 ;;
      match r with
      | None => ret (NULL, leaf)
      | Some (comp, i, clen) =>
          comp <- deref (store comp clen 0) ;;
          if clen =? 0 then ret (NULL, leaf) else
          ch <- deref (load path i) ;;
          if ch =? 0 then leaf <- copy_name leaf comp ;; ret (cur, leaf)
          else
            next <- ramfs_find_child cur comp ;;
            if next =? NULL then ret (NULL, leaf) else
            nd <- load_node next ;;
            if negb (n_is_dir nd) then ret (NULL, leaf) else
            parent_walk fuel path comp leaf next (i + 1)
      end
  end.

(** [kstrcmp(path, "/") == 0] *)
Definition is_root_path (path : list Z) : kernel bool :=
  r <- deref (kstrcmp path [SLASH; 0]) ;; ret (r =? 0).

(** A local buffer: its bytes are not initialised. *)
Definition name_buffer : list Z := replicate 64 0.

Definition ramfs_parent_of (path : option (list Z)) (leaf : list Z) : kernel (Z * list Z) :=
  match path with
  | None => ret (NULL, leaf)
  | Some path =>
      c0 <- deref (load path 0) ;;
      if negb (c0 =? SLASH) then ret (NULL, leaf) else
      root <- is_root_path path ;;
      if root then leaf <- deref (store leaf 0 0) ;; ret (NULL, leaf) else
      cur <- gets ramfs_root ;;
      parent_walk (S (length path)) path name_buffer leaf cur 1
  end.

Definition ramfs_lookup (path : option (list Z)) : kernel Z :=
  match path with
  | None => ret NULL
  | Some p =>
      c0 <- deref (load p 0) ;;
      if negb (c0 =? SLASH) then ret NULL else
      root <- is_root_path p ;;
      if root then gets ramfs_root else
      r <- ramfs_parent_of path name_buffer ;;
      let '(parent, leaf) := r in
      if parent =? NULL then ret NULL else ramfs_find_child parent leaf
  end.

Definition ramfs_init : kernel bool :=
  root <- gets ramfs_root ;;
  if negb (root =? NULL) then ret true else
  n <- ramfs_alloc_node [0] true ;;
  _ <- modify (with_root n) ;;
  ret (negb (n =? NULL)).

(** The error ladder of [ramfs_create] that tests the path itself. *)
Definition bad_create_path (path : option (list Z)) : kernel bool :=
  root <- gets ramfs_root ;;
  if root =? NULL then ret true else
  match path with
  | None => ret true
  | Some p =>
      c0 <- deref (load p 0) ;;
      if negb (c0 =? SLASH) then ret true else is_root_path p
  end.

Definition ramfs_create (path : option (list Z)) (is_dir : bool) : kernel Z :=
  bad <- bad_create_path path ;;
  if bad then ret VFS_ERR_BADPATH else
  len <- deref (kstrlen path) ;;
  if VFS_PATH_MAX <? len then ret VFS_ERR_BADPATH else
  r <- ramfs_parent_of path name_buffer ;;
  let '(parent, leaf) := r in
  if parent =? NULL then ret VFS_ERR_BADPATH else
  l0 <- deref (load leaf 0) ;;
  if l0 =? 0 then ret VFS_ERR_BADPATH else
  pn <- load_node parent ;;
  if negb (n_is_dir pn) then ret VFS_ERR_NOTDIR else
  old <- ramfs_find_child parent leaf ;;
  if negb (old =? NULL) then ret VFS_ERR_EXISTS else
  n <- ramfs_alloc_node leaf is_dir ;;
  if n =? NULL then ret VFS_ERR_NOSPACE else
  pn <- load_node parent ;;
  nd <- load_node n ;;
  _ <- store_node n (node_set_sibling (n_child pn) nd) ;;
  pn <- load_node parent ;;
  _ <- store_node parent (node_set_child n pn) ;;
  ret VFS_OK.

(** ** File data *)

(** [while (f->page_count <= page_idx)]: at most eight rounds. *)
Fixpoint ensure_loop (fuel : nat) (f page_idx : Z) : kernel bool :=
  nd <- load_node f ;;
  if page_idx <? n_page_count nd then ret true else
  match fuel with
  | O => stuck
  | S fuel =>
      if RAMFS_PAGES_PER_FILE <=? n_page_count nd then ret false else
      p <- kpalloc ;;
      if p =? NULL then ret false else
      _ <- memset p 0 4096 ;;
      nd <- load_node f ;;
      ps <- deref (if Z.to_nat (n_page_count nd) <? length (n_pages nd)
                   then Some (<[Z.to_nat (n_page_count nd) := p]> (n_pages nd)) else None)%nat ;;
      _ <- store_node f (node_set_pages ps (n_page_count nd + 1) nd) ;;
      ensure_loop fuel f page_idx
  end.

Definition ramfs_ensure_page (f page_idx : Z) : kernel Z :=
  ok <- ensure_loop 9 f page_idx ;;
  if negb ok then ret NULL else
  nd <- load_node f ;;
  deref (n_pages nd !! Z.to_nat page_idx).

(** [memcpy(page + poff, src + written, chunk)] from a kernel buffer. *)
Definition copy_in (dest : Z) (src : list Z) (from n : Z) : kernel unit :=
  for_range (trips 0 n) 0 (fun i =>
    b <- deref (load src (from + i)) ;;
    modify (fun k => with_mem (wr8 (k_mem k) (dest + i) b) k)).

(** The chunk that [off] starts: to the end of its page or of the request. *)
Definition chunk_at (off left : Z) : Z :=
  let chunk := 4096 - off mod 4096 in if left <? chunk then left else chunk.

(** The writing loop; [None] when a page cannot be had.  Every round but the
    first starts a page. *)
Fixpoint write_loop (fuel : nat) (f : Z) (src : list Z) (offset len written : Z)
  : kernel (option Z) :=
  if len <=? written then ret (Some written) else
  match fuel with
  | O => stuck
  | S fuel =>
      let off := u64 (offset + written) in
      let chunk := chunk_at off (len - written) in
      page <- ramfs_ensure_page f (off / 4096) ;;
      if page =? NULL then ret None else
      _ <- copy_in (page + off mod 4096) src written chunk ;;
      write_loop fuel f src offset len (written + chunk)
  end.

(** Rounds of the loops over the pages of a request. *)
Definition page_fuel (len : Z) : nat := Z.to_nat (len / 4096 + 2).

Definition ramfs_write (path : option (list Z)) (buf : option (list Z)) (len offset : Z) : kernel Z :=
  root <- gets ramfs_root ;;
  let nobuf := match buf with None => 0 <? len | Some _ => false end in
  if (root =? NULL) || (match path with None => true | Some _ => false end) || nobuf
  then ret VFS_ERR_INVAL else
  f <- ramfs_lookup path ;;
  if f =? NULL then ret VFS_ERR_NOTFOUND else
  nd <- load_node f ;;
  if n_is_dir nd then ret VFS_ERR_ISDIR else
  if len =? 0 then ret 0 else
  if n_size nd <? offset then ret VFS_ERR_INVAL else
  if VFS_MAX_FILE_SIZE <? u64 (offset + len) then ret VFS_ERR_NOSPACE else
  r <- write_loop (page_fuel len) f (default [] buf) offset len 0 ;;
  match r with
  | None => ret VFS_ERR_NOSPACE
  | Some written =>
      let end_ := u64 (offset + written) in
      nd <- load_node f ;;
      _ <- (if n_size nd <? end_ then store_node f (node_set_size end_ nd) else ret tt) ;;
      ret written
  end.

(** ** Reading *)

(** The two destinations of a read: a heap buffer and memory. *)
Definition put_kbuf (buf : Z) (at_ : Z) (bs : list Z) : kernel unit :=
  old <- load_bytes buf ;;
  if Z.of_nat (length old) <? at_ + Z.of_nat (length bs) then stuck else
  store_bytes buf (take (Z.to_nat at_) old ++ bs ++ drop (Z.to_nat at_ + length bs) old).

Definition put_phys (base : Z) (at_ : Z) (bs : list Z) : kernel unit :=
  copy_in (base + at_) bs 0 (Z.of_nat (length bs)).

(** [memset(base, 0, n)] at a physical address. *)
Definition zero_phys (base n : Z) : kernel unit := memset base 0 n.

Section Read.
Context (put : Z -> list Z -> kernel unit).

Fixpoint read_loop (fuel : nat) (f : Z) (offset len done_ : Z) : kernel Z :=
  if len <=? done_ then ret done_ else
  match fuel with
  | O => stuck
  | S fuel =>
      nd <- load_node f ;;
      let off := u64 (offset + done_) in
      let chunk := chunk_at off (len - done_) in
      if n_page_count nd <=? off / 4096 then ret done_ else
      page <- deref (n_pages nd !! Z.to_nat (off / 4096)) ;;
      m <- gets k_mem ;;
      _ <- put done_ (mem_bytes m (page + off mod 4096) chunk) ;;
      read_loop fuel f offset len (done_ + chunk)
  end.

(** [has_buf] is [buf != NULL]. *)
Definition ramfs_read (path : option (list Z)) (has_buf : bool) (len offset : Z) : kernel Z :=
  root <- gets ramfs_root ;;
  if (root =? NULL) || (match path with None => true | Some _ => false end)
     || (negb has_buf && (0 <? len)) then ret VFS_ERR_INVAL else
  f <- ramfs_lookup path ;;
  if f =? NULL then ret VFS_ERR_NOTFOUND else
  nd <- load_node f ;;
  if n_is_dir nd then ret VFS_ERR_ISDIR else
  if len =? 0 then ret 0 else
  if n_size nd <=? offset then ret 0 else
  let len := if n_size nd <? u64 (offset + len) then n_size nd - offset else len in
  read_loop (page_fuel len) f offset len 0.
End Read.

(** ** Directories and sizes *)

(** The names of the siblings from [c], one per line; [None] when the buffer of
    [len] bytes is too small. *)
Fixpoint list_loop (fuel : nat) (c : Z) (len pos : Z) (buf : list Z) : kernel (option (Z * list Z)) :=
  if c =? NULL then ret (Some (pos, buf)) else
  match fuel with
  | O => stuck
  | S fuel =>
      n <- load_node c ;;
      nl <- deref (kstrlen (Some (n_name n))) ;;
      if len <? pos + nl + 1 + 1 then ret None else
      let buf := buf ++ take (Z.to_nat nl) (n_name n) ++ [NEWLINE] in
      list_loop fuel (n_sibling n) len (pos + nl + 1) buf
  end.

(** The result and the text at the start of the buffer; after an error, where the
    callers drop the buffer, no text. *)
Definition ramfs_list (path : option (list Z)) (has_buf : bool) (len : Z) : kernel (Z * list Z) :=
  root <- gets ramfs_root ;;
  if (root =? NULL) || (match path with None => true | Some _ => false end)
     || negb has_buf || (len =? 0) then ret (VFS_ERR_INVAL, []) else
  d <- ramfs_lookup path ;;
  if d =? NULL then ret (VFS_ERR_NOTFOUND, []) else
  nd <- load_node d ;;
  if negb (n_is_dir nd) then ret (VFS_ERR_NOTDIR, []) else
  fuel <- gets node_fuel ;;
  r <- list_loop fuel (n_child nd) len 0 [] ;;
  match r with
  | None => ret (VFS_ERR_NOSPACE, [])
  | Some (pos, buf) => ret (pos, buf ++ [0])
  end.

Definition ramfs_size (path : option (list Z)) : kernel Z :=
  root <- gets ramfs_root ;;
  if (root =? NULL) || (match path with None => true | Some _ => false end)
  then ret VFS_ERR_INVAL else
  f <- ramfs_lookup path ;;
  if f =? NULL then ret VFS_ERR_NOTFOUND else
  nd <- load_node f ;;
  if n_is_dir nd then ret VFS_ERR_ISDIR else ret (n_size nd).

(** ** vfs.c: the path is checked before the file system is entered *)

Definition vfs_path_ok (path : option (list Z)) : kernel bool :=
  match path with
  | None => ret false
  | Some p =>
      c0 <- deref (load p 0) ;;
      if negb (c0 =? SLASH) then ret false else
      len <- deref (kstrlen path) ;; ret (negb (VFS_PATH_MAX <? len))
  end.

Definition vfs_init : kernel bool := ramfs_init.

Definition vfs_create (path : option (list Z)) (is_dir : bool) : kernel Z :=
  ok <- vfs_path_ok path ;;
  if negb ok then ret VFS_ERR_BADPATH else ramfs_create path is_dir.
Definition vfs_write (path buf : option (list Z)) (len offset : Z) : kernel Z :=
  ok <- vfs_path_ok path ;;
  if negb ok then ret VFS_ERR_BADPATH else ramfs_write path buf len offset.
Definition vfs_read (put : Z -> list Z -> kernel unit) (path : option (list Z)) (has_buf : bool)
    (len offset : Z) : kernel Z :=
  ok <- vfs_path_ok path ;;
  if negb ok then ret VFS_ERR_BADPATH else ramfs_read put path has_buf len offset.
Definition vfs_list (path : option (list Z)) (has_buf : bool) (len : Z) : kernel (Z * list Z) :=
  ok <- vfs_path_ok path ;;
  if negb ok then ret (VFS_ERR_BADPATH, []) else ramfs_list path has_buf len.
Definition vfs_size (path : option (list Z)) : kernel Z :=
  ok <- vfs_path_ok path ;;
  if negb ok then ret VFS_ERR_BADPATH else ramfs_size path.

(** ** exec.c *)

(** The destination is reached through [zero] and [put], as for the reads. *)
Definition exec_load (zero : Z -> Z -> kernel unit) (put : Z -> Z -> list Z -> kernel unit)
    (path : option (list Z)) (base max : Z) : kernel Z :=
  sz <- vfs_size path ;;
  if sz <? 0 then ret sz else
  if sz =? 0 then ret VFS_ERR_INVAL else
  if max <? sz then ret VFS_ERR_NOSPACE else
  _ <- zero base max ;;
  r <- vfs_read (put base) path true sz 0 ;;
  if negb (r =? sz) then ret VFS_ERR_INVAL else ret sz.

(** ** Paths as lists of names *)

(** The pieces of a string between slashes. *)
Fixpoint split_on (s : list Z) : list (list Z) :=
  match s with
  | [] => [[]]
  | c :: s =>
      if c =? SLASH then [] :: split_on s
      else match split_on s with w :: ws => (c :: w) :: ws | [] => [[c]] end
  end.

Definition good_name (w : list Z) : bool := (1 <=? Z.of_nat (length w)) && (Z.of_nat (length w) <=? VFS_NAME_MAX).

(** A component and the rest of the path behind it. *)
Definition plain (w : list Z) : Prop := Forall (fun c => 0 < c < 256 /\ c <> SLASH) w.

Lemma split_on_plain w : plain w -> split_on w = [w].
Proof.
  induction 1 as [|c w [Hc Hs] _ IH]; [done|]. cbn [split_on].
  by rewrite (proj2 (Z.eqb_neq c SLASH) Hs), IH.
Qed.

Lemma split_on_slash w r : plain w -> split_on (w ++ SLASH :: r) = w :: split_on r.
Proof.
  induction 1 as [|c w [Hc Hs] _ IH]; [done|]. cbn [app split_on].
  by rewrite (proj2 (Z.eqb_neq c SLASH) Hs), IH.
Qed.

Lemma plain_span s :
  Forall (fun c => 0 < c < 256) s ->
  exists w, plain w /\ (s = w \/ exists r, s = w ++ SLASH :: r).
Proof.
  induction 1 as [|c s Hc Hs (w & Hw & IH)].
  { exists []. split; [constructor|by left]. }
  destruct (decide (c = SLASH)) as [->|Hn].
  - exists []. split; [constructor|right; by exists s].
  - exists (c :: w). split; [by constructor|]. destruct IH as [-> | [r ->]]; [by left|right; by exists r].
Qed.

(** ** The directory tree *)

Abbreviation node_map := (gmap Z ramfs_node_t).
Definition nodes (k : kstate) : node_map := o_node (k_obj k).

(** The C string at the start of an array. *)
Fixpoint c_str (a : list Z) : list Z :=
  match a with [] => [] | c :: a => if c =? 0 then [] else c :: c_str a end.

Definition name_of (ns : node_map) (a : Z) : list Z :=
  match ns !! a with Some nd => c_str (n_name nd) | None => [] end.

Fixpoint siblings (fuel : nat) (ns : node_map) (c : Z) : list Z :=
  match fuel, ns !! c with
  | S fuel, Some nd => c :: siblings fuel ns (n_sibling nd)
  | _, _ => []
  end.

(** The entries of directory [d], newest first; a file has none. *)
Definition kids (ns : node_map) (d : Z) : list Z :=
  match ns !! d with
  | Some nd => if n_is_dir nd then siblings (base.size ns) ns (n_child nd) else []
  | None => []
  end.

Definition child_named (ns : node_map) (d : Z) (w : list Z) : option Z :=
  List.find (fun a => bool_decide (name_of ns a = w)) (kids ns d).

(** The node that a list of names leads to from directory [d]. *)
Fixpoint resolve (ns : node_map) (d : Z) (ws : list (list Z)) : option Z :=
  match ws with
  | [] => Some d
  | w :: ws => match child_named ns d w with Some a => resolve ns a ws | None => None end
  end.

Definition is_dir_at (ns : node_map) (a : Z) : bool :=
  match ns !! a with Some nd => n_is_dir nd | None => false end.

(** The names that an absolute path spells. *)
Definition path_names (s : list Z) : option (list (list Z)) :=
  match s with
  | c :: (_ :: _) as s' =>
      if (c =? SLASH) && forallb good_name (split_on (tail s)) then Some (split_on (tail s)) else None
  | _ => None
  end.

(** What [ramfs_lookup] is to return. *)
Definition lookup_spec (ns : node_map) (root : Z) (s : list Z) : option Z :=
  if bool_decide (s = [SLASH]) then Some root
  else match path_names s with Some ws => resolve ns root ws | None => None end.

Lemma resolve_snoc ns d ws w :
  resolve ns d (ws ++ [w]) = match resolve ns d ws with Some a => child_named ns a w | None => None end.
Proof.
  revert d. induction ws as [|v ws IH]; intros d; cbn [app resolve].
  - by destruct (child_named ns d w).
  - by destruct (child_named ns d v).
Qed.

(** *** Sibling chains *)

Inductive sib_chain (ns : node_map) : Z -> list Z -> Prop :=
| sib_nil : sib_chain ns NULL []
| sib_cons a nd l :
    a <> NULL -> ns !! a = Some nd -> sib_chain ns (n_sibling nd) l -> sib_chain ns a (a :: l).

Lemma sib_fun ns a l l' : sib_chain ns a l -> sib_chain ns a l' -> l = l'.
Proof.
  intros H. revert l'. induction H as [|a nd l Ha Hn _ IH]; inversion 1; simplify_eq; [done|].
  f_equal. by apply IH.
Qed.

Lemma sib_suffix ns a l x l1 l2 : sib_chain ns a l -> l = l1 ++ x :: l2 -> sib_chain ns x (x :: l2).
Proof.
  intros H. revert l1. induction H as [|a nd l Ha Hn Hc IH]; intros [|y l1]; try done.
  - intros [= -> ->]. by econstructor.
  - intros [= -> ->]. by eapply IH.
Qed.

Lemma sib_nodup ns a l : sib_chain ns a l -> base.NoDup l.
Proof.
  induction 1 as [|a nd l Ha Hn Hc IH]; [constructor|]. constructor; [|done].
  intros (l1 & l2 & ->)%list_elem_of_split.
  pose proof (sib_suffix _ _ _ _ _ _ Hc eq_refl) as Hs.
  assert (Hf : sib_chain ns a (a :: l1 ++ a :: l2)) by by econstructor.
  pose proof (f_equal length (sib_fun _ _ _ _ Hf Hs)) as E. simpl in E. rewrite length_app in E. simpl in E. lia.
Qed.

Lemma sib_in ns a l x : sib_chain ns a l -> x ∈ l -> x <> NULL /\ is_Some (ns !! x).
Proof.
  induction 1 as [|a nd l Ha Hn Hc IH]; [by intros ?%elem_of_nil|].
  intros [->|?]%elem_of_cons; [by eauto|by apply IH].
Qed.

Lemma sib_length ns a l : sib_chain ns a l -> (length l <= base.size ns)%nat.
Proof.
  intros H. pose proof (sib_nodup _ _ _ H) as Hnd.
  rewrite <- (size_list_to_set (C := gset Z) l Hnd), <- size_dom.
  apply subseteq_size. intros x Hx%elem_of_list_to_set. apply elem_of_dom.
  by eapply sib_in.
Qed.

Lemma siblings_chain ns a l fuel :
  ns !! NULL = None -> sib_chain ns a l -> (length l <= fuel)%nat -> siblings fuel ns a = l.
Proof.
  intros H0 H. revert fuel. induction H as [|a nd l Ha Hn Hc IH]; intros fuel Hf.
  - destruct fuel; cbn [siblings]; [done|by rewrite H0].
  - destruct fuel; simpl in Hf; [lia|]. cbn [siblings]. rewrite Hn, IH by lia. done.
Qed.

(** A change that keeps the links of the nodes of the chain keeps the chain. *)
Lemma sib_keep ns ns' a l :
  (forall x nd, ns !! x = Some nd -> exists nd', ns' !! x = Some nd' /\ n_sibling nd' = n_sibling nd) ->
  sib_chain ns a l -> sib_chain ns' a l.
Proof.
  intros Hk. induction 1 as [|a nd l Ha Hn Hc IH]; [constructor|].
  destruct (Hk a nd Hn) as (nd' & Hn' & Hs). econstructor; [done|done|]. by rewrite Hs.
Qed.

(** ** The invariant of the tree *)

Record node_ok (ns : node_map) (nd : ramfs_node_t) : Prop := {
  nk_name : exists s, c_string s (n_name nd) /\ (length s <= 63)%nat;
  nk_kids : exists l, sib_chain ns (n_child nd) l
}.

(** Every node of the store hangs in the tree in at most one place; names do not
    repeat in a directory. *)
Record tree_ok (ns : node_map) (root : Z) : Prop := {
  tr_null : ns !! NULL = None;
  tr_root : is_dir_at ns root = true;
  tr_node a nd : ns !! a = Some nd -> node_ok ns nd;
  tr_once d1 d2 a : a ∈ kids ns d1 -> a ∈ kids ns d2 -> d1 = d2;
  tr_top d : root ∉ kids ns d;
  tr_names d a b : a ∈ kids ns d -> b ∈ kids ns d -> name_of ns a = name_of ns b -> a = b
}.

Lemma c_str_string s a : c_string s a -> c_str a = s.
Proof.
  intros [Hs [r ->]]. induction Hs as [|c s Hc _ IH]; cbn [app c_str]; [done|].
  rewrite (proj2 (Z.eqb_neq c 0)) by lia. by rewrite IH.
Qed.

Lemma child_in ns d w a : child_named ns d w = Some a -> a ∈ kids ns d /\ name_of ns a = w.
Proof.
  intros [Hin Hw]%find_some. split; [by apply list_elem_of_In|]. by apply bool_decide_eq_true in Hw.
Qed.

Lemma child_none ns d w : child_named ns d w = None -> forall a, a ∈ kids ns d -> name_of ns a <> w.
Proof.
  intros H a Ha%list_elem_of_In Hw. pose proof (find_none _ _ H a Ha) as Hd.
  by apply bool_decide_eq_false in Hd.
Qed.

Section Tree.
Context (ns : node_map) (root : Z) (Ht : tree_ok ns root).

Lemma kids_chain d nd : ns !! d = Some nd -> n_is_dir nd = true -> sib_chain ns (n_child nd) (kids ns d).
Proof using Ht.
  intros Hd Hdir. destruct (nk_kids _ _ (tr_node _ _ Ht _ _ Hd)) as [l Hl].
  unfold kids. rewrite Hd, Hdir. by rewrite (siblings_chain _ _ l) by
    (exact (tr_null _ _ Ht) || exact Hl || by eapply sib_length).
Qed.

Lemma kids_not_dir d : is_dir_at ns d = false -> kids ns d = [].
Proof. unfold is_dir_at, kids. destruct (ns !! d); [by intros ->|done]. Qed.

Lemma kid_node d a : a ∈ kids ns d -> a <> NULL /\ is_Some (ns !! a).
Proof using Ht.
  intros Ha. destruct (ns !! d) as [nd|] eqn:Hd; [|unfold kids in Ha; rewrite Hd in Ha; by apply elem_of_nil in Ha].
  destruct (n_is_dir nd) eqn:Hdir; [|unfold kids in Ha; rewrite Hd, Hdir in Ha; by apply elem_of_nil in Ha].
  eapply sib_in; [by eapply kids_chain|done].
Qed.

(** A node is reached along one list of names only. *)
Lemma resolve_once ws vs a :
  resolve ns root ws = Some a -> resolve ns root vs = Some a -> ws = vs.
Proof using Ht.
  revert vs a. induction ws as [|w ws IH] using rev_ind; intros vs a.
  - intros [= <-]. destruct vs as [|v vs _] using rev_ind; [done|]. rewrite resolve_snoc.
    destruct (resolve ns root vs) as [d|]; [|done]. intros [Hin _]%child_in.
    by apply (tr_top _ _ Ht) in Hin.
  - rewrite resolve_snoc. destruct (resolve ns root ws) as [d|] eqn:Ed; [|done]. intros [Hin Hn]%child_in.
    destruct vs as [|v vs _] using rev_ind.
    + intros [= <-]. by apply (tr_top _ _ Ht) in Hin.
    + rewrite resolve_snoc. destruct (resolve ns root vs) as [d'|] eqn:Ed'; [|done].
      intros [Hin' Hn']%child_in. pose proof (tr_once _ _ Ht _ _ _ Hin Hin') as <-.
      rewrite (IH vs d) by done. congruence.
Qed.

(** *** The loops *)

Lemma find_sibling_run k l fuel c t arr :
  nodes k = ns -> sib_chain ns c l -> (length l <= fuel)%nat -> c_string t arr ->
  find_sibling fuel c arr k
  = Ret (default NULL (List.find (fun a => bool_decide (name_of ns a = t)) l)) k.
Proof using Ht.
  intros Hk Hc Hf Hs. revert fuel Hf. induction Hc as [|a nd l Ha Hn Hc IH]; intros fuel Hf.
  { by destruct fuel. }
  destruct fuel as [|fuel]; cbn [length] in Hf; [lia|]. cbn [find_sibling List.find].
  rewrite (proj2 (Z.eqb_neq a NULL) Ha).
  rewrite (bind_run _ _ _ _ _ (load_node_run k a nd ltac:(unfold nodes in Hk; by rewrite Hk))).
  destruct (nk_name _ _ (tr_node _ _ Ht _ _ Hn)) as (s & Hns & _).
  destruct (kstrcmp_zero s t _ _ Hns Hs) as (r & -> & Hr). cbn [deref].
  rewrite bind_ret_l.
  assert (Hname : name_of ns a = s) by (unfold name_of; by rewrite Hn, (c_str_string _ _ Hns)).
  destruct (Z.eqb_spec r 0) as [->|Hr0].
  - rewrite bool_decide_eq_true_2 by (rewrite Hname; tauto). done.
  - rewrite bool_decide_eq_false_2 by (rewrite Hname; tauto). apply IH. lia.
Qed.

Lemma ramfs_find_child_run k d t arr :
  nodes k = ns -> is_Some (ns !! d) -> c_string t arr ->
  ramfs_find_child d arr k = Ret (default NULL (child_named ns d t)) k.
Proof using Ht.
  intros Hk [nd Hd] Hs. unfold ramfs_find_child.
  rewrite (proj2 (Z.eqb_neq d NULL)) by (intros ->; by rewrite (tr_null _ _ Ht) in Hd).
  rewrite (bind_run _ _ _ _ _ (load_node_run k d nd ltac:(unfold nodes in Hk; by rewrite Hk))).
  destruct (n_is_dir nd) eqn:Hdir; cbn [negb].
  - cbn [bind gets]. unfold node_fuel. fold (nodes k). rewrite Hk.
    eapply find_sibling_run; [done|by eapply kids_chain| |done].
    eapply sib_length, kids_chain; done.
  - unfold child_named. rewrite kids_not_dir; [done|]. unfold is_dir_at. by rewrite Hd.
Qed.
End Tree.

(** *** Walking a path *)

Lemma load_at_app pre c rest i : i = Z.of_nat (length pre) -> load (pre ++ c :: rest) i = Some c.
Proof.
  intros ->. unfold load. rewrite (proj2 (Z.leb_le 0 _)) by lia.
  rewrite Nat2Z.id, lookup_app_r, Nat.sub_diag by lia. done.
Qed.

Definition path_end (c : Z) : Prop := c = 0 \/ c = SLASH.

(** One component: [w] is copied behind the characters [done_] copied before. *)
Lemma scan_comp_run pre w c rest done_ tail_ fuel (k : kstate) :
  plain w -> path_end c -> length (done_ ++ tail_) = 64%nat -> (length done_ <= 63)%nat ->
  (length w < fuel)%nat ->
  scan_comp fuel (pre ++ w ++ c :: rest) (done_ ++ tail_) (Z.of_nat (length pre)) (Z.of_nat (length done_)) k
  = Ret (if decide (length (done_ ++ w) <= 63)%nat
         then Some (done_ ++ w ++ drop (length w) tail_, Z.of_nat (length (pre ++ w)), Z.of_nat (length (done_ ++ w)))
         else None) k.
Proof.
  intros Hw Hc. revert pre done_ tail_ fuel.
  induction Hw as [|x w [Hx Hs] Hw IH]; intros pre done_ tail_ fuel Hlen Hd Hf;
    (destruct fuel as [|fuel]; [simpl in Hf; lia|]); cbn [app scan_comp].
  - rewrite load_at_app by done. cbn [deref]. rewrite bind_ret_l.
    replace ((c =? 0) || (c =? SLASH)) with true
      by (destruct Hc as [-> | ->]; [done|by rewrite Z.eqb_refl, orb_true_r]).
    rewrite !app_nil_r, decide_True by done. done.
  - rewrite load_at_app by done. cbn [deref]. rewrite bind_ret_l.
    rewrite (proj2 (Z.eqb_neq x 0)), (proj2 (Z.eqb_neq x SLASH)) by (done || lia). cbn [orb].
    unfold VFS_NAME_MAX. rewrite !length_app in *. cbn [length] in *.
    destruct (Z.leb_spec 63 (Z.of_nat (length done_))) as [Hge|Hlt].
    { by rewrite decide_False by lia. }
    destruct tail_ as [|y tail_]; cbn [length] in *; [lia|].
    rewrite store_app by done. cbn [deref]. rewrite bind_ret_l, u8_small by lia.
    replace (pre ++ x :: w ++ c :: rest) with ((pre ++ [x]) ++ w ++ c :: rest) by (by rewrite <- app_assoc).
    replace (done_ ++ x :: tail_) with ((done_ ++ [x]) ++ tail_) by (by rewrite <- app_assoc).
    replace (Z.of_nat (length pre) + 1) with (Z.of_nat (length (pre ++ [x]))) by (rewrite length_app; simpl; lia).
    replace (Z.of_nat (length done_) + 1) with (Z.of_nat (length (done_ ++ [x]))) by (rewrite length_app; simpl; lia).
    rewrite IH by (rewrite ?length_app; cbn [length]; lia). rewrite !length_app. cbn [length drop].
    rewrite <- !app_assoc. cbn [app].
    replace (length done_ + 1 + length w)%nat with (length done_ + S (length w))%nat by lia.
    replace (length pre + 1 + length w)%nat with (length pre + S (length w))%nat by lia. done.
Qed.

(** The directory and the last name a path leads to. *)
Fixpoint walk_spec (ns : node_map) (cur : Z) (ws : list (list Z)) : option (Z * list Z) :=
  match ws with
  | [] => None
  | w :: ws' =>
      if negb (good_name w) then None else
      match ws' with
      | [] => Some (cur, w)
      | _ => match child_named ns cur w with
             | Some d => if is_dir_at ns d then walk_spec ns d ws' else None
             | None => None
             end
      end
  end.

Lemma copy_name_run dst w arr (k : kstate) :
  c_string w arr -> length dst = 64%nat -> (length w <= 63)%nat ->
  exists lf, copy_name dst arr k = Ret lf k /\ c_string w lf /\ length lf = 64%nat.
Proof.
  intros Hs Hd Hw. unfold copy_name. change (Z.to_nat VFS_NAME_MAX) with 63%nat.
  rewrite kstrncpy_run with (s := w) by (done || lia). cbn [deref]. rewrite bind_ret_l.
  do 64 (destruct dst as [|? dst]; [by cbn in Hd|]). destruct dst; [|by cbn in Hd]. clear Hd.
  cbn [drop].
  assert (E : take 63 (w ++ replicate 63 0) = w ++ replicate (63 - length w) 0).
  { rewrite take_app, (take_ge w), take_replicate by lia. by rewrite Nat.min_l by lia. }
  rewrite E. rewrite (store_app (w ++ replicate (63 - length w) 0))
    by (rewrite length_app, length_replicate; unfold VFS_NAME_MAX; lia).
  eexists. split; [reflexivity|]. split.
  - split; [apply Hs|]. rewrite <- app_assoc. destruct (63 - length w)%nat as [|n]; cbn [replicate app];
      eexists; reflexivity.
  - rewrite !length_app, length_replicate. cbn [length]. lia.
Qed.

Section Walk.
Context (ns : node_map) (root : Z) (Ht : tree_ok ns root).

Definition walk_result (o : option (Z * list Z)) (m : kernel (Z * list Z)) (k : kstate) : Prop :=
  exists lf, m k = Ret (default NULL (fst <$> o), lf) k
    /\ forall d w, o = Some (d, w) -> c_string w lf.

Lemma walk_fail m k lf : m k = Ret (NULL, lf) k -> walk_result None m k.
Proof using Type. intros H. exists lf. by split. Qed.

Lemma parent_walk_run k s rest fuel pre comp leaf cur :
  nodes k = ns -> Forall (fun c => 0 < c < 256) s -> is_Some (ns !! cur) ->
  length comp = 64%nat -> length leaf = 64%nat -> (length s < fuel)%nat ->
  walk_result (walk_spec ns cur (split_on s))
    (parent_walk fuel (pre ++ s ++ 0 :: rest) comp leaf cur (Z.of_nat (length pre))) k.
Proof using Ht.
  intros Hk. revert s pre comp cur. induction fuel as [|fuel IH]; intros s pre comp cur Hs Hcur Hcl Hll Hf; [lia|].
  destruct (plain_span s Hs) as (w & Hw & Hspan).
  assert (exists c r, s ++ 0 :: rest = w ++ c :: r /\ path_end c
            /\ (c = 0 /\ s = w \/ c = SLASH /\ exists s', s = w ++ SLASH :: s' /\ r = s' ++ 0 :: rest))
    as (c & r & Es & Hc & Hcase).
  { destruct Hspan as [-> | [s' ->]]; [exists 0, rest|exists SLASH, (s' ++ 0 :: rest)].
    - split_and!; [done|by left|by left].
    - rewrite <- app_assoc. split_and!; [done|by right|right; by eauto]. }
  assert (Hwl : (length w <= length s)%nat).
  { destruct Hcase as [[_ ->]|[_ (s' & -> & _)]]; rewrite ?length_app; lia. }
  assert (Hspec : walk_spec ns cur (split_on s) = if negb (good_name w) then None else
            if c =? 0 then Some (cur, w) else
            match child_named ns cur w with
            | Some d => if is_dir_at ns d then walk_spec ns d (split_on (tail (drop (length w) s))) else None
            | None => None
            end).
  { destruct Hcase as [[-> ->]|[-> (s' & -> & _)]].
    - by rewrite split_on_plain.
    - rewrite split_on_slash by done. cbn [walk_spec]. rewrite drop_app_length. cbn [tail].
      change (SLASH =? 0) with false.
      destruct (split_on s') eqn:E; [|done]. exfalso. clear -E.
      destruct s' as [|x s']; [done|]. cbn [split_on] in E. destruct (x =? SLASH); [done|]. by destruct (split_on s'). }
  rewrite Hspec, Es. clear Hspec. unfold walk_result. cbn [parent_walk].
  pose proof (scan_comp_run pre w c r [] comp (S (length (pre ++ w ++ c :: r))) k Hw Hc Hcl ltac:(simpl; lia)
    ltac:(rewrite !length_app; lia)) as Hscan. cbn [app length] in Hscan.
  erewrite bind_run by exact Hscan. clear Hscan.
  unfold good_name, VFS_NAME_MAX.
  destruct (decide (length w <= 63)%nat) as [Hle|Hgt]; cycle 1.
  { exists leaf. rewrite (proj2 (Z.leb_gt (Z.of_nat (length w)) 63)) by lia. rewrite andb_false_r. by split. }
  rewrite (proj2 (Z.leb_le (Z.of_nat (length w)) 63)), andb_true_r by lia.
  destruct (drop (length w) comp) as [|y tl] eqn:Edr.
  { apply (f_equal length) in Edr. rewrite length_drop in Edr. simpl in Edr. lia. }
  rewrite store_app by done. cbn [deref]. rewrite bind_ret_l. change (u8 0) with 0.
  assert (Hcs : c_string w (w ++ 0 :: tl)).
  { split; [|by eexists]. revert Hw. apply Forall_impl. by intros ? []. }
  destruct (Z.eqb_spec (Z.of_nat (length w)) 0) as [H0|H0].
  { exists leaf. rewrite (proj2 (Z.leb_gt 1 _)) by lia. by split. }
  rewrite (proj2 (Z.leb_le 1 _)) by lia. cbn [negb].
  rewrite app_assoc, load_at_app by done. cbn [deref]. rewrite bind_ret_l, <- app_assoc.
  destruct (Z.eqb_spec c 0) as [->|Hc0].
  { destruct (copy_name_run leaf w (w ++ 0 :: tl) k Hcs Hll Hle) as (lf & Hcp & Hlf & _).
    exists lf. rewrite (bind_run _ _ _ _ _ Hcp). split; [done|]. by intros d v [= <- <-]. }
  destruct Hcase as [[? _]|[-> (s' & -> & ->)]]; [done|].
  rewrite (bind_run _ _ _ _ _ (ramfs_find_child_run ns root Ht k cur w _ Hk Hcur Hcs)).
  destruct (child_named ns cur w) as [d|] eqn:Ech; cbn [default from_option id]; cycle 1.
  { exists leaf. by split. }
  apply child_in in Ech as [Hin _]. destruct (kid_node ns root Ht _ _ Hin) as [Hdn [nd Hd]].
  rewrite (proj2 (Z.eqb_neq d NULL) Hdn).
  rewrite (bind_run _ _ _ _ _ (load_node_run k d nd ltac:(unfold nodes in Hk; by rewrite Hk))).
  unfold is_dir_at. rewrite Hd. destruct (n_is_dir nd); cbn [negb]; cycle 1.
  { exists leaf. by split. }
  rewrite drop_app_length. cbn [tail].
  replace (pre ++ w ++ SLASH :: s' ++ 0 :: rest) with ((pre ++ w ++ [SLASH]) ++ s' ++ 0 :: rest)
    by (by rewrite <- !app_assoc).
  replace (Z.of_nat (length (pre ++ w)) + 1) with (Z.of_nat (length (pre ++ w ++ [SLASH])))
    by (rewrite !length_app; simpl; lia).
  apply IH; [|by eexists| |done|].
  - apply Forall_app in Hs as [_ Hs]. by inversion Hs.
  - rewrite !length_app in *. apply (f_equal length) in Edr. rewrite length_drop in Edr. cbn [length] in *. lia.
  - rewrite !length_app in *. cbn [length] in *. lia.
Qed.
End Walk.

Lemma walk_spec_Some ns cur ws d w :
  is_dir_at ns cur = true -> walk_spec ns cur ws = Some (d, w) ->
  is_dir_at ns d = true /\ forallb good_name ws = true
  /\ exists init, ws = init ++ [w] /\ resolve ns cur init = Some d.
Proof.
  revert cur. induction ws as [|v ws IH]; intros cur Hcur; cbn [walk_spec]; [done|].
  destruct (good_name v) eqn:Hv; cbn [negb]; [|done].
  destruct ws as [|v2 ws].
  - intros [= <- <-]. cbn [forallb]. rewrite Hv. split_and!; [done|done|by exists []].
  - destruct (child_named ns cur v) as [c|] eqn:Ec; [|done].
    destruct (is_dir_at ns c) eqn:Hc; [|done]. intros H.
    destruct (IH c Hc H) as (H1 & H2 & init & H3 & H4). split_and!; [done| |].
    + cbn [forallb] in *. by rewrite Hv, H2.
    + exists (v :: init). rewrite H3. split; [done|]. cbn [resolve]. by rewrite Ec.
Qed.

Lemma walk_spec_None ns cur ws :
  walk_spec ns cur ws = None -> forallb good_name ws = true -> resolve ns cur ws = None \/ ws = [].
Proof.
  revert cur. induction ws as [|v ws IH]; intros cur; cbn [walk_spec]; [by right|].
  cbn [forallb resolve]. destruct (good_name v); cbn [negb andb]; [|done].
  destruct ws as [|v2 ws]; [done|]. destruct (child_named ns cur v) as [c|]; [|by left].
  destruct (is_dir_at ns c) eqn:Hc.
  - intros H Hg. destruct (IH c H Hg) as [|]; [by left|done].
  - intros _ _. left. cbn [resolve]. unfold child_named. by rewrite kids_not_dir.
Qed.

(** [path_names] and the walk agree. *)
Lemma lookup_walk ns root s :
  is_dir_at ns root = true ->
  match s with c :: r => c = SLASH /\ r <> [] | [] => False end ->
  lookup_spec ns root s
  = match walk_spec ns root (split_on (tail s)) with Some (d, w) => child_named ns d w | None => None end.
Proof.
  intros Hr. destruct s as [|c [|c2 r]]; [done|by intros [_ ?]|]. intros [-> _].
  unfold lookup_spec. rewrite bool_decide_eq_false_2 by done. unfold path_names.
  rewrite Z.eqb_refl. cbn [andb tail].
  destruct (walk_spec ns root (split_on (c2 :: r))) as [[d w]|] eqn:Ew.
  - destruct (walk_spec_Some _ _ _ _ _ Hr Ew) as (_ & -> & init & -> & Hi).
    by rewrite resolve_snoc, Hi.
  - destruct (forallb _ _) eqn:Hg; [|done].
    destruct (walk_spec_None _ _ _ Ew Hg) as [|Hn]; [done|].
    exfalso. cbn [split_on] in Hn. destruct (c2 =? SLASH); [done|]. by destruct (split_on r).
Qed.

Lemma is_dir_some ns a : is_dir_at ns a = true -> is_Some (ns !! a).
Proof. unfold is_dir_at. destruct (ns !! a); [by eexists|done]. Qed.

Lemma is_root_path_run s p (k : kstate) :
  c_string s p -> is_root_path p k = Ret (bool_decide (s = [SLASH])) k.
Proof.
  intros Hs. unfold is_root_path.
  destruct (kstrcmp_zero s [SLASH] p [SLASH; 0] Hs) as (r & -> & Hr).
  { split; [repeat constructor|by exists []]. }
  cbn [deref]. rewrite bind_ret_l. unfold ret. f_equal.
  destruct (Z.eqb_spec r 0); symmetry; [apply bool_decide_eq_true|apply bool_decide_eq_false]; tauto.
Qed.

Lemma first_char s p : c_string s p -> load p 0 = Some (default 0 (head s)).
Proof. intros [_ [r ->]]. by destruct s. Qed.

Section Lookup.
Context (k : kstate) (Ht : tree_ok (nodes k) (ramfs_root k)).

Lemma parent_of_run s p leaf :
  c_string s p -> length leaf = 64%nat ->
  match s with c :: r => c = SLASH /\ r <> [] | [] => False end ->
  walk_result (walk_spec (nodes k) (ramfs_root k) (split_on (tail s))) (ramfs_parent_of (Some p) leaf) k.
Proof using Ht.
  intros Hs Hl Hc. unfold walk_result, ramfs_parent_of. rewrite (first_char s p Hs). cbn [deref]. rewrite bind_ret_l.
  destruct s as [|c r]; [done|]. destruct Hc as [-> Hr]. cbn [head default from_option]. unfold id.
  rewrite Z.eqb_refl. cbn [negb].
  rewrite (bind_run _ _ _ _ _ (is_root_path_run _ p k Hs)), bool_decide_eq_false_2 by congruence.
  cbn [bind gets tail]. destruct Hs as [Hs [rest ->]].
  apply (parent_walk_run (nodes k) (ramfs_root k) Ht k r rest _ [SLASH]); [done| | |done|done|].
  - by inversion Hs.
  - apply is_dir_some, Ht.
  - cbn [app length]. rewrite length_app. lia.
Qed.

Lemma lookup_run s p :
  c_string s p ->
  ramfs_lookup (Some p) k = Ret (default NULL (lookup_spec (nodes k) (ramfs_root k) s)) k.
Proof using Ht.
  intros Hs. unfold ramfs_lookup. rewrite (first_char s p Hs). cbn [deref]. rewrite bind_ret_l.
  destruct (Z.eqb_spec (default 0 (head s)) SLASH) as [Hc|Hc]; cbn [negb]; cycle 1.
  { unfold lookup_spec, path_names. destruct s as [|c s]; [done|]. cbn in Hc.
    rewrite bool_decide_eq_false_2 by congruence. destruct s; [done|]. by rewrite (proj2 (Z.eqb_neq c SLASH) Hc). }
  destruct s as [|c r]; [done|]. cbn in Hc. subst c.
  rewrite (bind_run _ _ _ _ _ (is_root_path_run _ p k Hs)).
  case_bool_decide as Hroot.
  { unfold lookup_spec. by rewrite bool_decide_eq_true_2. }
  assert (Hr : r <> []) by (intros ->; done).
  destruct (parent_of_run (SLASH :: r) p name_buffer Hs eq_refl (conj eq_refl Hr)) as (lf & Hrun & Hlf).
  rewrite (bind_run _ _ _ _ _ Hrun). rewrite lookup_walk by (done || apply Ht).
  destruct (walk_spec _ _ _) as [[d w]|] eqn:Ew; cbn [fmap option_fmap option_map default from_option id fst].
  - destruct (walk_spec_Some _ _ _ _ _ (tr_root _ _ Ht) Ew) as (Hd & _). apply is_dir_some in Hd.
    destruct (Z.eqb_spec d NULL) as [->|Hn].
    { destruct Hd as [? Hd]. by rewrite (tr_null _ _ Ht) in Hd. }
    apply (ramfs_find_child_run (nodes k) (ramfs_root k) Ht); [done|done|]. by eapply Hlf.
  - done.
Qed.
End Lookup.

(** *** A new node at the head of a directory *)

(** The two stores that link [n], with contents [nd], into directory [parent]. *)
Definition link_node (ns : node_map) (parent : Z) (pn : ramfs_node_t) (n : Z) (nd : ramfs_node_t) : node_map :=
  <[parent := node_set_child n pn]> (<[n := node_set_sibling (n_child pn) nd]> ns).

Lemma find_ext_in {A} (p q : A -> bool) l : (forall x, x ∈ l -> p x = q x) -> List.find p l = List.find q l.
Proof.
  induction l as [|x l IH]; intros H; cbn [List.find]; [done|].
  rewrite H by (by left). destruct (q x); [done|]. apply IH. intros y Hy. apply H. by right.
Qed.

Section Link.
Context (ns : node_map) (root parent n : Z) (pn nd : ramfs_node_t) (w : list Z).
Context (Ht : tree_ok ns root) (Hp : ns !! parent = Some pn) (Hdir : n_is_dir pn = true)
  (Hn : ns !! n = None) (Hnn : n <> NULL) (Hnew : child_named ns parent w = None)
  (Hw : c_string w (n_name nd)) (Hwl : (length w <= 63)%nat) (Hnd : n_child nd = NULL).
Let ns' := link_node ns parent pn n nd.

Lemma link_ne : parent <> n.
Proof using All. congruence. Qed.

Lemma link_old a : a <> parent -> a <> n -> ns' !! a = ns !! a.
Proof using Type. intros H1 H2. unfold ns', link_node. by rewrite !lookup_insert_ne. Qed.
Lemma link_parent : ns' !! parent = Some (node_set_child n pn).
Proof using Type. apply lookup_insert_eq. Qed.
Lemma link_new : ns' !! n = Some (node_set_sibling (n_child pn) nd).
Proof using All. unfold ns', link_node. rewrite lookup_insert_ne by apply link_ne. apply lookup_insert_eq. Qed.

Lemma link_null : ns' !! NULL = None.
Proof using All.
  rewrite link_old; [by apply (tr_null _ _ Ht)| |congruence]. intros <-. by rewrite (tr_null _ _ Ht) in Hp.
Qed.

Lemma link_keep x v : ns !! x = Some v -> exists v', ns' !! x = Some v' /\ n_sibling v' = n_sibling v.
Proof using All.
  intros Hx. destruct (decide (x = parent)) as [->|Hne].
  - exists (node_set_child n pn). split; [by apply link_parent|]. by simplify_eq.
  - exists v. split; [|done]. rewrite link_old; [done|done|congruence].
Qed.

Lemma link_chain a l : sib_chain ns a l -> sib_chain ns' a l.
Proof using All. apply sib_keep, link_keep. Qed.

Lemma link_size l a : sib_chain ns' a l -> siblings (base.size ns') ns' a = l.
Proof using All.
  intros Hl. apply siblings_chain; [apply link_null|done|by eapply sib_length].
Qed.

Lemma link_chain_parent : sib_chain ns' n (n :: kids ns parent).
Proof using All.
  econstructor; [done|exact link_new|]. cbn [node_set_sibling n_sibling].
  by apply link_chain, (kids_chain ns root Ht).
Qed.

Lemma kids_link d :
  kids ns' d = if decide (d = n) then [] else if decide (d = parent) then n :: kids ns parent else kids ns d.
Proof using All.
  destruct (decide (d = n)) as [->|H1]; [|destruct (decide (d = parent)) as [->|H2]].
  - unfold kids. rewrite link_new. cbn [node_set_sibling n_is_dir n_child]. rewrite Hnd.
    destruct (n_is_dir nd); [|done]. by rewrite (link_size []) by constructor.
  - unfold kids at 1. rewrite link_parent. cbn [node_set_child n_is_dir n_child]. rewrite Hdir.
    apply link_size, link_chain_parent.
  - destruct (ns !! d) as [dn|] eqn:Hd; unfold kids at 1; rewrite link_old, Hd by done.
    + destruct (n_is_dir dn) eqn:Hdd.
      * by apply link_size, link_chain, (kids_chain ns root Ht).
      * symmetry. apply kids_not_dir. unfold is_dir_at. by rewrite Hd.
    + symmetry. apply kids_not_dir. unfold is_dir_at. by rewrite Hd.
Qed.

Lemma name_link a : name_of ns' a = if decide (a = n) then w else name_of ns a.
Proof using All.
  unfold name_of. destruct (decide (a = n)) as [->|H1].
  - rewrite link_new. cbn [node_set_sibling n_name]. by apply c_str_string.
  - destruct (decide (a = parent)) as [->|H2].
    + by rewrite link_parent, Hp.
    + by rewrite link_old.
Qed.

Lemma kid_ne_new d a : a ∈ kids ns d -> a <> n.
Proof using All. intros [_ [? Ha]]%(kid_node ns root Ht). congruence. Qed.

Lemma link_tree : tree_ok ns' root.
Proof using All.
  pose proof (is_dir_some _ _ (tr_root _ _ Ht)) as [rn Hrn].
  assert (Hrn' : root <> n) by congruence. split.
  - apply link_null.
  - unfold is_dir_at. pose proof (tr_root _ _ Ht) as Hr. unfold is_dir_at in Hr.
    destruct (decide (root = parent)) as [->|H2]; [by rewrite link_parent|by rewrite link_old].
  - intros a v Ha. destruct (decide (a = n)) as [->|H1]; [|destruct (decide (a = parent)) as [->|H2]].
    + rewrite link_new in Ha. injection Ha as <-. split; [by exists w|].
      exists []. cbn [node_set_sibling n_child]. rewrite Hnd. constructor.
    + rewrite link_parent in Ha. injection Ha as <-. split; [apply (tr_node _ _ Ht _ _ Hp)|].
      eexists. apply link_chain_parent.
    + rewrite link_old in Ha by done. destruct (tr_node _ _ Ht _ _ Ha) as [H [l Hl]].
      split; [done|]. exists l. by apply link_chain.
  - intros d1 d2 a. rewrite !kids_link.
    destruct (decide (d1 = n)), (decide (d2 = n)); try (by intros ?%elem_of_nil); [intros _ ?%elem_of_nil; done|].
    pose proof (kid_ne_new d1 a). pose proof (kid_ne_new d2 a). pose proof (tr_once _ _ Ht d1 d2 a).
    pose proof (tr_once _ _ Ht d1 parent a). pose proof (tr_once _ _ Ht parent d2 a).
    destruct (decide (d1 = parent)) as [->|], (decide (d2 = parent)) as [->|];
      rewrite ?elem_of_cons; naive_solver.
  - intros d. rewrite kids_link. pose proof (tr_top _ _ Ht d). pose proof (tr_top _ _ Ht parent).
    destruct (decide (d = n)); [by intros ?%elem_of_nil|]. destruct (decide (d = parent)); [|done].
    rewrite elem_of_cons. naive_solver.
  - intros d a b. rewrite kids_link, !name_link.
    destruct (decide (d = n)); [by intros ?%elem_of_nil|].
    destruct (decide (d = parent)) as [->|].
    + pose proof (child_none _ _ _ Hnew) as Hno. rewrite !elem_of_cons.
      intros [->|Ha] [->|Hb]; [done|..].
      * rewrite decide_True, decide_False by (done || by apply (kid_ne_new parent)). intros E. by destruct (Hno b Hb).
      * rewrite decide_False, decide_True by (done || by apply (kid_ne_new parent)). intros E. by destruct (Hno a Ha).
      * rewrite !decide_False by (by apply (kid_ne_new parent)). by apply (tr_names _ _ Ht parent).
    + intros Ha Hb. rewrite !decide_False by (by apply (kid_ne_new d)). by apply (tr_names _ _ Ht d).
Qed.

Lemma child_link d v :
  child_named ns' d v
  = if decide (d = n) then None
    else if decide (d = parent /\ v = w) then Some n else child_named ns d v.
Proof using All.
  unfold child_named. rewrite kids_link. destruct (decide (d = n)); [done|].
  assert (Hold : forall d v, List.find (fun a => bool_decide (name_of ns' a = v)) (kids ns d)
            = List.find (fun a => bool_decide (name_of ns a = v)) (kids ns d)).
  { intros d' v'. apply find_ext_in. intros x Hx. apply bool_decide_ext.
    by rewrite name_link, decide_False by (by apply (kid_ne_new d')). }
  destruct (decide (d = parent)) as [->|]; [|by rewrite decide_False, Hold by tauto].
  cbn [List.find]. pose proof (name_link n) as Hnn'. rewrite decide_True in Hnn' by done.
  destruct (decide (v = w)) as [->|].
  - by rewrite bool_decide_eq_true_2, decide_True.
  - rewrite bool_decide_eq_false_2, decide_False, Hold by (congruence || tauto). done.
Qed.

(** Exactly one path is added. *)
Lemma resolve_link init ws :
  resolve ns root init = Some parent ->
  resolve ns' root ws = if decide (ws = init ++ [w]) then Some n else resolve ns root ws.
Proof using All.
  intros Hi. pose proof (is_dir_some _ _ (tr_root _ _ Ht)) as [rn Hrn].
  induction ws as [|v ws IH] using rev_ind.
  { rewrite decide_False; [done|]. by destruct init. }
  rewrite !resolve_snoc, IH. clear IH. destruct (decide (ws = init ++ [w])) as [->|Hne].
  - rewrite child_link, decide_True, decide_False, resolve_snoc, Hi, Hnew; [done| |done].
    intros E%(f_equal length). rewrite !length_app in E. simpl in E. lia.
  - destruct (resolve ns root ws) as [d|] eqn:Ed; cycle 1.
    { rewrite decide_False; [done|]. intros [-> _]%app_inj_tail. congruence. }
    rewrite child_link, decide_False; cycle 1.
    { intros ->. destruct ws as [|x ws _] using rev_ind; [cbn in Ed; congruence|].
      rewrite resolve_snoc in Ed. destruct (resolve ns root ws) as [d|]; [|done].
      apply child_in in Ed as [Ed _]. by apply (kid_ne_new d) in Ed. }
    destruct (decide (d = parent /\ v = w)) as [[-> ->]|Hno].
    + rewrite decide_True; [done|]. f_equal. by eapply (resolve_once ns root Ht).
    + rewrite decide_False; [done|]. intros [-> ->]%app_inj_tail. rewrite Hi in Ed. injection Ed as ->. by apply Hno.
Qed.
End Link.

(** ** Creating a node *)

Record fs_ok (k : kstate) : Prop := {
  fs_tree : tree_ok (nodes k) (ramfs_root k);
  fs_live a : is_Some (nodes k !! a) -> is_live k a
}.

Lemma ext_root k k' L D R : ext k k' L D R -> ramfs_root k' = ramfs_root k.
Proof. intros [_ (o & h & q & s & ->) _ _ _ _]. done. Qed.

Definition new_node (name : list Z) (is_dir : bool) : ramfs_node_t := node_set_name name is_dir zero_node.

Lemma ramfs_alloc_node_run k d w arr :
  mem_ok k -> c_string w arr -> (length w <= 63)%nat ->
  ramfs_alloc_node arr d k = Ret NULL k
  \/ exists n k1 lf, ramfs_alloc_node arr d k = Ret n k1 /\ ext k k1 {[n]} ∅ ∅
       /\ n <> NULL /\ ~ is_live k n /\ c_string w lf
       /\ k_obj k1 = put_node n (new_node lf d) (k_obj k).
Proof.
  intros Hok Hw Hl. unfold ramfs_alloc_node.
  destruct (ext_kmalloc k k ∅ ∅ ∅ (ext_refl k Hok) sizeof_ramfs_node_t ltac:(unfold sizeof_ramfs_node_t; lia))
    as [H|(n & k1 & H & He & Hn & _ & Hfresh & _ & Ho & _)]; rewrite (bind_run _ _ _ _ _ H); [by left|right].
  rewrite (proj2 (Z.eqb_neq n NULL) Hn).
  assert (Hlive : ~ is_live k n) by (intros Hl'; apply Hfresh in Hl'; set_solver).
  destruct (copy_name_run (n_name zero_node) w arr k1 Hw eq_refl Hl) as (lf & Hcp & Hlf & _).
  rewrite (bind_run _ _ _ _ _ Hcp). cbn [store_node upd_obj bind modify ret].
  eexists n, _, lf. split; [reflexivity|]. split; [|split_and!; try done].
  - eapply ext_same; [apply ext_obj; [exact He|]|set_solver|done|done].
    intros a Ha _. apply same_obj_put_node. congruence.
  - cbn [k_obj with_obj]. by rewrite Ho.
Qed.

Inductive create_answer : Type :=
| BadPath
| Present
| Absent (ws : list (list Z)).

(** What creating at path [s] is to do: [Absent ws] if the node is to be made. *)
Definition create_target (ns : node_map) (root : Z) (s : list Z) : create_answer :=
  if VFS_PATH_MAX <? Z.of_nat (length s) then BadPath else
  match path_names s with
  | None => BadPath
  | Some ws =>
      match resolve ns root (removelast ws) with
      | None => BadPath
      | Some d =>
          if negb (is_dir_at ns d) then BadPath
          else match resolve ns root ws with Some _ => Present | None => Absent ws end
      end
  end.

Lemma walk_spec_eq ns cur ws :
  is_dir_at ns cur = true -> ws <> [] ->
  walk_spec ns cur ws
  = if forallb good_name ws then
      match resolve ns cur (removelast ws) with
      | Some d => if is_dir_at ns d then Some (d, List.last ws []) else None
      | None => None
      end
    else None.
Proof.
  revert cur. induction ws as [|v ws IH]; intros cur Hcur Hne; [done|]. cbn [walk_spec forallb].
  destruct (good_name v); cbn [negb andb]; [|done].
  destruct ws as [|v2 ws]; [by cbn; rewrite Hcur|].
  change (removelast (v :: v2 :: ws)) with (v :: removelast (v2 :: ws)).
  change (List.last (v :: v2 :: ws) []) with (List.last (v2 :: ws) []).
  set (tl := v2 :: ws) in *. cbn [resolve].
  destruct (child_named ns cur v) as [c|]; [|by destruct (forallb _ _)].
  destruct (is_dir_at ns c) eqn:Hc; [by apply IH|].
  destruct (forallb _ _); [|done].
  destruct (removelast tl) as [|x l]; cbn [resolve]; [by rewrite Hc|].
  unfold child_named. by rewrite kids_not_dir.
Qed.

Lemma split_on_ne s : split_on s <> [].
Proof. destruct s as [|c s]; cbn [split_on]; [done|]. destruct (c =? SLASH); [done|]. by destruct (split_on s). Qed.

(** The same node but for its links. *)
Definition same_file (nd nd' : ramfs_node_t) : Prop :=
  n_name nd' = n_name nd /\ n_is_dir nd' = n_is_dir nd /\ n_size nd' = n_size nd
  /\ n_pages nd' = n_pages nd /\ n_page_count nd' = n_page_count nd.

(** What a successful creation of [ws] leaves. *)
Record created (k k' : kstate) (ws : list (list Z)) (d : bool) (n : Z) : Prop := {
  cr_mem : mem_ok k';
  cr_fs : fs_ok k';
  cr_new : nodes k !! n = None;
  cr_node : exists nd, nodes k' !! n = Some nd /\ n_is_dir nd = d /\ n_size nd = 0 /\ n_page_count nd = 0
    /\ length (n_pages nd) = 8%nat;
  cr_keep a nd : nodes k !! a = Some nd -> exists nd', nodes k' !! a = Some nd' /\ same_file nd nd';
  cr_only a : is_Some (nodes k' !! a) -> a <> n -> nodes k !! a <> None;
  cr_paths vs : resolve (nodes k') (ramfs_root k') vs
    = if decide (vs = ws) then Some n else resolve (nodes k) (ramfs_root k) vs;
  cr_frame : exists parent, ext k k' {[parent; n]} {[parent]} ∅
}.

Lemma link_created k k1 parent pn n lf w init d :
  mem_ok k -> fs_ok k -> ext k k1 {[n]} ∅ ∅ -> k_obj k1 = put_node n (new_node lf d) (k_obj k) ->
  n <> NULL -> ~ is_live k n -> c_string w lf -> (length w <= 63)%nat ->
  nodes k !! parent = Some pn -> n_is_dir pn = true ->
  resolve (nodes k) (ramfs_root k) init = Some parent -> child_named (nodes k) parent w = None ->
  created k (with_obj (put_node parent (node_set_child n pn)
                        (put_node n (node_set_sibling (n_child pn) (new_node lf d)) (k_obj k1))) k1)
    (init ++ [w]) d n.
Proof.
  intros Hok [Ht Hlive] He Hobj Hn Hfresh Hw Hwl Hp Hdir Hi Hnew.
  set (k' := with_obj _ k1).
  assert (Hns : nodes k !! n = None).
  { destruct (nodes k !! n) eqn:E; [|done]. destruct Hfresh. apply Hlive. by eexists. }
  assert (Hne : parent <> n) by congruence.
  assert (Hnodes : nodes k' = link_node (nodes k) parent pn n (new_node lf d)).
  { unfold nodes, k', link_node. cbn [k_obj with_obj put_node o_node]. rewrite Hobj.
    cbn [put_node o_node]. by rewrite insert_insert_eq. }
  assert (Hroot : ramfs_root k' = ramfs_root k) by exact (ext_root _ _ _ _ _ He).
  assert (Hel : ext k k' {[parent; n]} {[parent]} ∅).
  { pose proof (ext_obj k k1 _ _ _ He (put_node n (node_set_sibling (n_child pn) (new_node lf d)) (k_obj k1))) as He2.
    assert (Hp1 : is_live k1 parent).
    { apply (ex_live _ _ _ _ _ He). right. split; [apply Hlive; by eexists|set_solver]. }
    pose proof (ext_write k _ {[n]} ∅ ∅ parent (put_node parent (node_set_child n pn))
      (He2 ltac:(intros a Ha _; apply same_obj_put_node; congruence)) Hok Hp1
      ltac:(intros a Ha; by apply same_obj_put_node)) as Hew.
    eapply ext_same; [exact Hew|done|by rewrite union_empty_r_L|done]. }
  split.
  - apply (ex_ok _ _ _ _ _ Hel).
  - split; [rewrite Hnodes, Hroot; eapply link_tree; done|].
    intros a Ha. rewrite Hnodes in Ha. apply (ex_live _ _ _ _ _ Hel).
    unfold link_node in Ha. destruct (decide (a = parent)) as [->|]; [set_solver|].
    destruct (decide (a = n)) as [->|]; [set_solver|]. right. split; [|set_solver].
    rewrite !lookup_insert_ne in Ha by done. by apply Hlive.
  - done.
  - rewrite Hnodes. eexists. split; [eapply link_new; done|]. done.
  - intros a nd Ha. rewrite Hnodes. destruct (decide (a = parent)) as [->|].
    + eexists. split; [apply link_parent|]. by simplify_eq.
    + exists nd. rewrite link_old by congruence. done.
  - intros a [v Ha] Ha'. rewrite Hnodes in Ha. destruct (decide (a = parent)) as [->|]; [congruence|].
    rewrite link_old in Ha by done. congruence.
  - intros vs. rewrite Hnodes, Hroot. eapply resolve_link; try done.
  - by exists parent.
Qed.

Lemma bad_create_path_run k s p :
  mem_ok k -> fs_ok k -> c_string s p ->
  bad_create_path (Some p) k
  = Ret (negb (default 0 (head s) =? SLASH) || bool_decide (s = [SLASH])) k.
Proof.
  intros Hok [Ht _] Hs. unfold bad_create_path. cbn [bind gets].
  destruct (is_dir_some _ _ (tr_root _ _ Ht)) as [rn Hrn].
  destruct (Z.eqb_spec (ramfs_root k) NULL) as [E|_].
  { rewrite E in Hrn. by rewrite (tr_null _ _ Ht) in Hrn. }
  rewrite (first_char s p Hs). cbn [deref]. change (?m k) with (m k).
  destruct (default 0 (head s) =? SLASH) eqn:E; cbn [negb orb bind ret]; rewrite E; [|done].
  by apply is_root_path_run.
Qed.

Section Create.
Context (k : kstate) (Hok : mem_ok k) (Hfs : fs_ok k).

(** The last part of [ramfs_create], from the directory and the leaf on. *)
Lemma create_at_run parent w leaf d pn init :
  nodes k !! parent = Some pn -> n_is_dir pn = true ->
  c_string w leaf -> (1 <= length w <= 63)%nat ->
  resolve (nodes k) (ramfs_root k) init = Some parent ->
  let m := (l0 <- deref (load leaf 0) ;;
    if l0 =? 0 then ret VFS_ERR_BADPATH else
    pn <- load_node parent ;;
    if negb (n_is_dir pn) then ret VFS_ERR_NOTDIR else
    old <- ramfs_find_child parent leaf ;;
    if negb (old =? NULL) then ret VFS_ERR_EXISTS else
    n <- ramfs_alloc_node leaf d ;;
    if n =? NULL then ret VFS_ERR_NOSPACE else
    pn <- load_node parent ;;
    nd <- load_node n ;;
    _ <- store_node n (node_set_sibling (n_child pn) nd) ;;
    pn <- load_node parent ;;
    _ <- store_node parent (node_set_child n pn) ;;
    ret VFS_OK) in
  match child_named (nodes k) parent w with
  | Some _ => m k = Ret VFS_ERR_EXISTS k
  | None => m k = Ret VFS_ERR_NOSPACE k
            \/ exists n k', m k = Ret VFS_OK k' /\ created k k' (init ++ [w]) d n
  end.
Proof using Hok Hfs.
  intros Hp Hdir Hw Hl Hi. destruct Hfs as [Ht Hlive]. cbn zeta.
  rewrite (first_char w leaf Hw). cbn [deref]. rewrite bind_ret_l.
  destruct w as [|c w]; [simpl in Hl; lia|]. cbn [head default from_option]. unfold id.
  assert (Hc : 0 < c < 256) by (destruct Hw as [Hw _]; by inversion Hw).
  rewrite (proj2 (Z.eqb_neq c 0)) by lia.
  rewrite (bind_run _ _ _ _ _ (load_node_run k parent pn Hp)), Hdir. cbn [negb].
  rewrite (bind_run _ _ _ _ _ (ramfs_find_child_run _ _ Ht k parent _ _ eq_refl ltac:(by eexists) Hw)).
  destruct (child_named (nodes k) parent (c :: w)) as [a|] eqn:Ech; cbn [default from_option id].
  { apply child_in in Ech as [Hin _]. apply (kid_node _ _ Ht) in Hin as [Hn _].
    by rewrite (proj2 (Z.eqb_neq a NULL) Hn). }
  change (NULL =? NULL) with true. cbn [negb].
  destruct (ramfs_alloc_node_run k d (c :: w) leaf Hok Hw ltac:(lia))
    as [H|(n & k1 & lf & H & He & Hn & Hfresh & Hlf & Ho)]; rewrite (bind_run _ _ _ _ _ H); [by left|right].
  rewrite (proj2 (Z.eqb_neq n NULL) Hn).
  assert (Hne : parent <> n) by (intros ->; apply Hfresh, Hlive; by eexists).
  assert (Hp1 : o_node (k_obj k1) !! parent = Some pn).
  { rewrite Ho. cbn [put_node o_node]. by rewrite lookup_insert_ne. }
  assert (Hn1 : o_node (k_obj k1) !! n = Some (new_node lf d)).
  { rewrite Ho. cbn [put_node o_node]. apply lookup_insert_eq. }
  rewrite (bind_run _ _ _ _ _ (load_node_run k1 parent pn Hp1)).
  rewrite (bind_run _ _ _ _ _ (load_node_run k1 n _ Hn1)).
  cbn [store_node upd_obj modify bind]. erewrite bind_run; cycle 1.
  { apply load_node_run. cbn [with_obj k_obj put_node o_node]. rewrite lookup_insert_ne by done. exact Hp1. }
  cbn [bind ret]. eexists n, _. split; [reflexivity|].
  exact (link_created k k1 parent pn n lf (c :: w) init d Hok (Build_fs_ok _ Ht Hlive) He Ho Hn Hfresh Hlf
    ltac:(lia) Hp Hdir Hi Ech).
Qed.
End Create.

Lemma good_name_length w : good_name w = true -> (1 <= length w <= 63)%nat.
Proof. unfold good_name, VFS_NAME_MAX. intros [? ?]%andb_true_iff. bool_lia. Qed.

Lemma removelast_last {A} (l : list A) d : l <> [] -> l = removelast l ++ [List.last l d].
Proof. apply app_removelast_last. Qed.

Lemma ramfs_create_run k s p d :
  mem_ok k -> fs_ok k -> c_string s p ->
  match create_target (nodes k) (ramfs_root k) s with
  | BadPath => ramfs_create (Some p) d k = Ret VFS_ERR_BADPATH k
  | Present => ramfs_create (Some p) d k = Ret VFS_ERR_EXISTS k
  | Absent ws => ramfs_create (Some p) d k = Ret VFS_ERR_NOSPACE k
      \/ exists n k', ramfs_create (Some p) d k = Ret VFS_OK k' /\ created k k' ws d n
  end.
Proof.
  intros Hok Hfs Hs. pose proof (fs_tree _ Hfs) as Ht. unfold create_target, ramfs_create.
  rewrite (bind_run _ _ _ _ _ (bad_create_path_run k s p Hok Hfs Hs)).
  destruct (negb (default 0 (head s) =? SLASH) || bool_decide (s = [SLASH])) eqn:Ebad.
  { destruct (VFS_PATH_MAX <? Z.of_nat (length s)); [done|].
    assert (path_names s = None) as ->; [|done]. destruct s as [|c [|c2 s]]; [done..|].
    rewrite bool_decide_eq_false_2, orb_false_r in Ebad by congruence. cbn in Ebad.
    unfold path_names. destruct (c =? SLASH); [done|]. done. }
  apply orb_false_iff in Ebad as [Hc Hne]. apply negb_false_iff, Z.eqb_eq in Hc.
  apply bool_decide_eq_false in Hne. destruct s as [|c [|c2 r]]; [done|by cbn in Hc; subst|]. cbn in Hc. subst c.
  rewrite (kstrlen_spec _ _ Hs). cbn [deref]. rewrite bind_ret_l.
  destruct (Z.ltb_spec VFS_PATH_MAX (Z.of_nat (length (SLASH :: c2 :: r)))); [done|].
  destruct (parent_of_run k Ht (SLASH :: c2 :: r) p name_buffer Hs eq_refl ltac:(done)) as (lf & Hrun & Hlf).
  rewrite (bind_run _ _ _ _ _ Hrun). clear Hrun. cbn [tail] in *.
  rewrite (walk_spec_eq _ _ _ (tr_root _ _ Ht) (split_on_ne _)) in Hlf |- *.
  unfold path_names. rewrite Z.eqb_refl. cbn [andb tail]. set (ws := split_on (c2 :: r)) in *.
  destruct (forallb good_name ws) eqn:Hg; [|done].
  destruct (resolve (nodes k) (ramfs_root k) (removelast ws)) as [parent|] eqn:Ep; [|done].
  destruct (is_dir_at (nodes k) parent) eqn:Hdir; [|done]. cbn [negb fmap option_fmap option_map default from_option id fst].
  destruct (is_dir_some _ _ Hdir) as [pn Hp].
  destruct (Z.eqb_spec parent NULL) as [->|_]; [by rewrite (tr_null _ _ Ht) in Hp|].
  pose proof (removelast_last ws [] (split_on_ne _)) as Ews. set (w := List.last ws []) in *.
  assert (Hgw : good_name w = true).
  { rewrite Ews, forallb_app in Hg. apply andb_true_iff in Hg as [_ Hg]. cbn in Hg. by rewrite andb_true_r in Hg. }
  assert (Hdn : n_is_dir pn = true) by (unfold is_dir_at in Hdir; by rewrite Hp in Hdir).
  pose proof (create_at_run k Hok Hfs parent w lf d pn (removelast ws) Hp Hdn (Hlf _ _ eq_refl)
    (good_name_length w Hgw) Ep) as Hat.
  assert (Er : resolve (nodes k) (ramfs_root k) ws = child_named (nodes k) parent w)
    by (rewrite Ews, resolve_snoc, Ep; done).
  rewrite Er. cbn zeta in Hat. destruct (child_named (nodes k) parent w); [done|].
  by rewrite <- Ews in Hat.
Qed.

(** *** The empty file system *)

Lemma empty_tree root nd :
  root <> NULL -> n_is_dir nd = true -> n_child nd = NULL ->
  (exists s, c_string s (n_name nd) /\ (length s <= 63)%nat) ->
  tree_ok {[root := nd]} root /\ forall d, kids {[root := nd]} d = [].
Proof.
  intros Hr Hd Hc Hname.
  assert (Hk : forall d, kids ({[root := nd]} : node_map) d = []).
  { intros d. unfold kids. destruct (decide (d = root)) as [->|].
    - rewrite lookup_singleton_eq, Hd, Hc. destruct (base.size _); [done|].
      cbn [siblings]. by rewrite lookup_singleton_ne.
    - by rewrite lookup_singleton_ne. }
  split; [|done]. split; try (intros *; rewrite Hk; by intros ?%elem_of_nil).
  - by rewrite lookup_singleton_ne.
  - unfold is_dir_at. by rewrite lookup_singleton_eq.
  - intros a v [<- <-]%lookup_singleton_Some. split; [done|]. rewrite Hc. exists []. constructor.
Qed.

Lemma ramfs_init_run k :
  mem_ok k -> ramfs_root k = NULL -> nodes k = ∅ ->
  ramfs_init k = Ret false k
  \/ exists k', ramfs_init k = Ret true k' /\ mem_ok k' /\ fs_ok k'
       /\ forall ws, resolve (nodes k') (ramfs_root k') ws
            = if decide (ws = []) then Some (ramfs_root k') else None.
Proof.
  intros Hok Hr Hns. unfold ramfs_init. cbn [bind gets]. rewrite Hr. change (NULL =? NULL) with true. cbn [negb].
  assert (Hw : c_string [] [0]) by (split; [constructor|by exists []]).
  destruct (ramfs_alloc_node_run k true [] [0] Hok Hw ltac:(simpl; lia))
    as [H|(n & k1 & lf & H & He & Hn & Hfresh & Hlf & Ho)]; rewrite (bind_run _ _ _ _ _ H); [left|right].
  { cbn [modify bind ret]. change (NULL =? NULL) with true. cbn [negb]. f_equal.
    destruct k. cbn in *. by subst. }
  cbn [modify bind ret]. rewrite (proj2 (Z.eqb_neq n NULL) Hn). eexists. split; [reflexivity|].
  destruct (empty_tree n (new_node lf true) Hn eq_refl eq_refl) as [Ht Hk]; [by exists []; split; [|simpl; lia]|].
  assert (E : nodes (with_root n k1) = {[n := new_node lf true]}).
  { unfold nodes in *. cbn [with_root k_obj]. rewrite Ho. cbn [put_node o_node]. by rewrite Hns. }
  split; [apply (ex_ok _ _ _ _ _ He)|]. split.
  - split; rewrite E; [exact Ht|]. intros a [v [<- _]%lookup_singleton_Some].
    change (is_live k1 n). apply (ex_live _ _ _ _ _ He). left. set_solver.
  - intros ws. rewrite E. destruct ws as [|w ws]; [done|]. cbn [resolve].
    unfold child_named. by rewrite Hk.
Qed.

(** *** vfs.c *)

Definition path_ok_spec (s : list Z) : bool :=
  (default 0 (head s) =? SLASH) && negb (VFS_PATH_MAX <? Z.of_nat (length s)).

Lemma vfs_path_ok_run s p (k : kstate) :
  c_string s p -> vfs_path_ok (Some p) k = Ret (path_ok_spec s) k.
Proof.
  intros Hs. unfold vfs_path_ok, path_ok_spec. rewrite (first_char s p Hs). cbn [deref]. rewrite bind_ret_l.
  destruct (default 0 (head s) =? SLASH); cbn [negb andb]; [|done].
  by rewrite (kstrlen_spec s p Hs).
Qed.

Lemma create_target_bad ns root s : path_ok_spec s = false -> create_target ns root s = BadPath.
Proof.
  unfold path_ok_spec, create_target. destruct (VFS_PATH_MAX <? _); [done|]. rewrite andb_true_r.
  destruct s as [|c [|c2 r]]; [done..|]. cbn [head default from_option]. unfold id. intros E. unfold path_names. by rewrite E.
Qed.

(** The node an operation on path [s] acts on, or its error. *)
Definition target (ns : node_map) (root : Z) (s : list Z) : Z + Z :=
  if negb (path_ok_spec s) then inr VFS_ERR_BADPATH
  else match lookup_spec ns root s with Some a => inl a | None => inr VFS_ERR_NOTFOUND end.

Lemma lookup_node ns root s a :
  tree_ok ns root -> lookup_spec ns root s = Some a -> a <> NULL /\ is_Some (ns !! a).
Proof.
  intros Ht. destruct (is_dir_some _ _ (tr_root _ _ Ht)) as [rn Hrn].
  assert (Hr : root <> NULL /\ is_Some (ns !! root)).
  { split; [|by eexists]. intros ->. by rewrite (tr_null _ _ Ht) in Hrn. }
  unfold lookup_spec. case_bool_decide; [by intros [= <-]|].
  destruct (path_names s) as [ws|]; [|done].
  destruct ws as [|w ws _] using rev_ind; [by intros [= <-]|]. rewrite resolve_snoc.
  destruct (resolve ns root ws); [|done]. intros [Hin _]%child_in. by eapply kid_node.
Qed.

Lemma root_nonnull k : fs_ok k -> (ramfs_root k =? NULL) = false.
Proof.
  intros [Ht _]. apply Z.eqb_neq. intros E. destruct (is_dir_some _ _ (tr_root _ _ Ht)) as [rn Hrn].
  by rewrite E, (tr_null _ _ Ht) in Hrn.
Qed.

Definition size_spec (k : kstate) (s : list Z) : Z :=
  match target (nodes k) (ramfs_root k) s with
  | inr e => e
  | inl a => match nodes k !! a with
             | Some nd => if n_is_dir nd then VFS_ERR_ISDIR else n_size nd
             | None => VFS_ERR_NOTFOUND
             end
  end.

Lemma vfs_size_run k s p :
  fs_ok k -> c_string s p -> vfs_size (Some p) k = Ret (size_spec k s) k.
Proof.
  intros Hfs Hs. unfold vfs_size, size_spec, target. rewrite (bind_run _ _ _ _ _ (vfs_path_ok_run s p k Hs)).
  destruct (path_ok_spec s); cbn [negb]; [|done]. unfold ramfs_size. cbn [bind gets].
  rewrite (root_nonnull k Hfs). cbn [orb].
  rewrite (bind_run _ _ _ _ _ (lookup_run k (fs_tree _ Hfs) s p Hs)).
  destruct (lookup_spec _ _ s) as [a|] eqn:El; cbn [default from_option id]; [|done].
  destruct (lookup_node _ _ _ _ (fs_tree _ Hfs) El) as [Ha [nd Hnd]].
  rewrite (proj2 (Z.eqb_neq a NULL) Ha), (bind_run _ _ _ _ _ (load_node_run k a nd Hnd)), Hnd.
  by destruct (n_is_dir nd).
Qed.

(** *** Listings *)

(** The names of the entries, newest first, each with a newline. *)
Definition listing (ns : node_map) (l : list Z) : list Z :=
  concat ((fun a => name_of ns a ++ [NEWLINE]) <$> l).

Lemma list_loop_run k root l c fuel len pos buf :
  tree_ok (nodes k) root -> sib_chain (nodes k) c l -> (length l <= fuel)%nat ->
  0 <= pos ->
  list_loop fuel c len pos buf k
  = Ret (if decide (l = [] \/ pos + Z.of_nat (length (listing (nodes k) l)) + 1 <= len)
         then Some (pos + Z.of_nat (length (listing (nodes k) l)), buf ++ listing (nodes k) l) else None) k.
Proof.
  intros Ht Hc. revert fuel pos buf. induction Hc as [|a nd l Ha Hn Hc IH]; intros fuel pos buf Hf Hpos.
  { rewrite decide_True by (by left). cbn. rewrite Z.add_0_r, app_nil_r. by destruct fuel. }
  destruct fuel as [|fuel]; cbn [length] in Hf; [lia|]. cbn [list_loop].
  rewrite (proj2 (Z.eqb_neq a NULL) Ha), (bind_run _ _ _ _ _ (load_node_run k a nd Hn)).
  destruct (nk_name _ _ (tr_node _ _ Ht _ _ Hn)) as (s & Hns & _).
  rewrite (kstrlen_spec _ _ Hns). cbn [deref]. rewrite bind_ret_l, Nat2Z.id.
  assert (Hname : name_of (nodes k) a = s) by (unfold name_of; by rewrite Hn, (c_str_string _ _ Hns)).
  assert (Htake : take (length s) (n_name nd) = s).
  { destruct Hns as [_ [r ->]]. apply take_app_length. }
  rewrite Htake. unfold listing. rewrite fmap_cons. cbn [concat]. rewrite Hname.
  fold (listing (nodes k) l). rewrite <- app_assoc, !length_app. cbn [length app].
  destruct (Z.ltb_spec len (pos + Z.of_nat (length s) + 1 + 1)) as [Hlt|Hge].
  { rewrite decide_False; [done|]. intros [?|?]; [done|lia]. }
  rewrite IH by lia. cbn [length].
  destruct (decide (l = [] \/ _)) as [Hd|Hd].
  - rewrite decide_True.
    + do 3 f_equal; [lia|]. by rewrite <- !app_assoc.
    + right. destruct Hd as [->|Hd]; cbn [listing fmap list_fmap concat length]; lia.
  - rewrite decide_False; [done|]. intros [?|?]; [done|]. apply Hd. right. lia.
Qed.

Definition list_spec (k : kstate) (s : list Z) (len : Z) : Z * list Z :=
  if negb (path_ok_spec s) then (VFS_ERR_BADPATH, []) else
  if len =? 0 then (VFS_ERR_INVAL, []) else
  match lookup_spec (nodes k) (ramfs_root k) s with
  | None => (VFS_ERR_NOTFOUND, [])
  | Some d =>
      let out := listing (nodes k) (kids (nodes k) d) in
      if negb (is_dir_at (nodes k) d) then (VFS_ERR_NOTDIR, [])
      else if Z.of_nat (length out) + 1 <=? len then (Z.of_nat (length out), out ++ [0])
      else (VFS_ERR_NOSPACE, [])
  end.

Lemma vfs_list_run k s p len :
  fs_ok k -> c_string s p -> 0 <= len ->
  vfs_list (Some p) true len k = Ret (list_spec k s len) k.
Proof.
  intros Hfs Hs Hlen. pose proof (fs_tree _ Hfs) as Ht. unfold vfs_list, list_spec.
  rewrite (bind_run _ _ _ _ _ (vfs_path_ok_run s p k Hs)).
  destruct (path_ok_spec s); cbn [negb]; [|done]. unfold ramfs_list. cbn [bind gets].
  rewrite (root_nonnull k Hfs). cbn [orb negb].
  destruct (Z.eqb_spec len 0) as [->|Hl0]; [done|].
  rewrite (bind_run _ _ _ _ _ (lookup_run k Ht s p Hs)).
  destruct (lookup_spec _ _ s) as [d|] eqn:El; cbn [default from_option id]; [|done].
  destruct (lookup_node _ _ _ _ Ht El) as [Hd [nd Hnd]].
  rewrite (proj2 (Z.eqb_neq d NULL) Hd), (bind_run _ _ _ _ _ (load_node_run k d nd Hnd)).
  unfold is_dir_at. rewrite Hnd. destruct (n_is_dir nd) eqn:Hdir; cbn [negb]; [|done].
  cbn [bind gets]. pose proof (kids_chain _ _ Ht d nd Hnd Hdir) as Hch.
  erewrite bind_run by (apply (list_loop_run k _ _ _ _ _ _ _ Ht Hch); [by eapply sib_length|lia]).
  rewrite Z.add_0_l. cbn [app].
  destruct (Z.leb_spec (Z.of_nat (length (listing (nodes k) (kids (nodes k) d))) + 1) len) as [Hle|Hgt].
  - by rewrite decide_True by (right; lia).
  - rewrite decide_False; [done|]. intros [E|?]; [|lia]. rewrite E in Hgt. cbn in Hgt. lia.
Qed.

(** ** Properties *)

(** A file system with an empty root, in the first heap block. *)
Definition k_fs : kstate :=
  with_root 0x100018 (with_obj (put_node 0x100018 (new_node (replicate 64 0) true) (k_obj k0))
    (with_heap (heap_with 176) k0)).

Lemma k_fs_mem : mem_ok k_fs.
Proof. by apply (heap_with_ok 176). Qed.

Lemma k_fs_ok : fs_ok k_fs.
Proof.
  assert (E : nodes k_fs = {[0x100018 := new_node (replicate 64 0) true]}) by done.
  split.
  - rewrite E. apply empty_tree; [done|done|done|]. exists []. split; [|simpl; lia].
    split; [constructor|by exists (replicate 63 0)].
  - intros a. rewrite E. intros [v [<- _]%lookup_singleton_Some]. by eexists.
Qed.

(** The path "/ab". *)
Definition p_ab : list Z := [SLASH; 97; 98; 0].

Lemma p_ab_string : c_string [SLASH; 97; 98] p_ab.
Proof. split; [repeat constructor; unfold SLASH; lia|by exists []]. Qed.

(** C7: [vfs_create] answers every path: BADPATH for a relative, overlong or
    malformed path, the root, or one whose directory is missing or a file (so
    NOTDIR never occurs); EXISTS if it is taken; otherwise NOSPACE, with nothing
    changed, or OK, and then the tree is well formed, exactly this path is new and
    leads to an empty node, and every older node and other object is as before. *)
Theorem vfs_create_correct k s p d :
  mem_ok k -> fs_ok k -> c_string s p ->
  match create_target (nodes k) (ramfs_root k) s with
  | BadPath => vfs_create (Some p) d k = Ret VFS_ERR_BADPATH k
  | Present => vfs_create (Some p) d k = Ret VFS_ERR_EXISTS k
  | Absent ws => vfs_create (Some p) d k = Ret VFS_ERR_NOSPACE k
      \/ exists n k', vfs_create (Some p) d k = Ret VFS_OK k' /\ created k k' ws d n
  end.
Proof.
  intros Hok Hfs Hs. unfold vfs_create. rewrite (bind_run _ _ _ _ _ (vfs_path_ok_run s p k Hs)).
  destruct (path_ok_spec s) eqn:E; cbn [negb]; [by apply ramfs_create_run|].
  by rewrite create_target_bad.
Qed.

Lemma vfs_create_correct_witness :
  exists n k', vfs_create (Some p_ab) false k_fs = Ret VFS_OK k'
    /\ created k_fs k' [[97; 98]] false n.
Proof.
  pose proof (vfs_create_correct k_fs [SLASH; 97; 98] p_ab false k_fs_mem k_fs_ok p_ab_string) as H.
  assert (E : create_target (nodes k_fs) (ramfs_root k_fs) [SLASH; 97; 98] = Absent [[97; 98]])
    by (vm_compute; reflexivity).
  rewrite E in H. destruct H as [H|H].
  - assert (R : match vfs_create (Some p_ab) false k_fs with Ret r _ => r | _ => 1 end = 0)
      by (vm_compute; reflexivity).
    rewrite H in R. discriminate R.
  - exact H.
Defined.

(** C13: [ramfs_lookup] returns the node that the names of the path lead to from
    the root, the root for a single slash, and NULL for any other path (missing,
    through a file, with an empty or overlong name, or relative). *)
Theorem ramfs_lookup_resolves k s p :
  fs_ok k -> c_string s p ->
  ramfs_lookup (Some p) k = Ret (default NULL (lookup_spec (nodes k) (ramfs_root k) s)) k
  /\ (forall a, lookup_spec (nodes k) (ramfs_root k) s = Some a -> a <> NULL)
  /\ (forall t a, path_names s <> None -> path_names t <> None ->
        lookup_spec (nodes k) (ramfs_root k) s = Some a ->
        lookup_spec (nodes k) (ramfs_root k) t = Some a -> path_names s = path_names t).
Proof.
  intros [Ht _] Hs. split; [by apply lookup_run|]. split.
  - intros a Ha. by eapply lookup_node.
  - intros t a. unfold lookup_spec.
    case_bool_decide as E1; [by rewrite E1|]. case_bool_decide as E2; [by rewrite E2|].
    destruct (path_names s) as [ws|], (path_names t) as [vs|]; try done.
    intros _ _ H1 H2. f_equal. by eapply (resolve_once _ _ Ht).
Qed.

Lemma ramfs_lookup_resolves_witness : ramfs_lookup (Some p_ab) k_fs = Ret NULL k_fs.
Proof. exact (proj1 (ramfs_lookup_resolves k_fs _ p_ab k_fs_ok p_ab_string)). Defined.

(** [vfs_list] writes the names of the directory's entries, newest first,
    each followed by a newline, and a final NUL, and returns their length; the
    buffer is never overrun, and each failure has its own error code. *)
Lemma vfs_list_correct k s p len :
  fs_ok k -> c_string s p -> 0 <= len ->
  vfs_list (Some p) true len k = Ret (list_spec k s len) k
  /\ Z.of_nat (length (list_spec k s len).2) <= len.
Proof.
  intros Hfs Hs Hlen. split; [by apply vfs_list_run|]. unfold list_spec.
  destruct (path_ok_spec s), (len =? 0); cbn; try lia.
  destruct (lookup_spec _ _ s) as [d|]; cbn; [|lia].
  destruct (is_dir_at _ d); cbn; [|lia].
  destruct (Z.leb_spec (Z.of_nat (length (listing (nodes k) (kids (nodes k) d))) + 1) len); cbn; [|lia].
  rewrite length_app. cbn. lia.
Qed.

Lemma vfs_list_correct_witness : vfs_list (Some [SLASH; 0]) true 8 k_fs = Ret (0, [0]) k_fs.
Proof.
  refine (proj1 (vfs_list_correct k_fs [SLASH] [SLASH; 0] 8 k_fs_ok _ _)); [|lia].
  split; [repeat constructor|by exists []].
Defined.
