(* ===== verification/Files.v ===== *)
(** * The contents of files: ramfs_write, ramfs_read and exec_load

    [file_data] is the byte string a file stands for; [data_ok] says that every
    page belongs to one file and to nothing else.  The loops over the pages are
    related to the byte string by [wrote], the effect of a write, and by an
    invariant of the reading loop that any destination can instantiate. *)

From S2P Require Import Prelude State Utils Mem Pmm Heap Objects Ramfs.

(** ** The bytes of a file *)

Definition page_at (nd : ramfs_node_t) (i : Z) : Z := default 0 (n_pages nd !! Z.to_nat i).

(** Byte [i] of the pages of a node. *)
Definition file_byte (m : gmap Z Z) (nd : ramfs_node_t) (i : Z) : Z :=
  rd8 m (page_at nd (i / 4096) + i mod 4096).

Definition file_data (m : gmap Z Z) (nd : ramfs_node_t) : list Z :=
  (fun i => file_byte m nd (Z.of_nat i)) <$> seq 0 (Z.to_nat (n_size nd)).

(** ** Ownership of the pages *)

Record pages_ok (k : kstate) (nd : ramfs_node_t) : Prop := {
  pg_len : length (n_pages nd) = 8%nat;
  pg_count : 0 <= n_page_count nd <= 8;
  pg_size : 0 <= n_size nd <= 4096 * n_page_count nd;
  pg_own i : 0 <= i < n_page_count nd -> owned_run k (page_at nd i) 1;
  pg_once i j : 0 <= i < n_page_count nd -> 0 <= j < n_page_count nd ->
    page_at nd i = page_at nd j -> i = j
}.

(** The frame a page of the file lies in. *)
Definition file_frame (nd : ramfs_node_t) (g : Z) : Prop :=
  exists i, 0 <= i < n_page_count nd /\ page_at nd i / 4096 = g.

(** Every page belongs to one file. *)
Record data_ok (k : kstate) : Prop := {
  da_pages a nd : nodes k !! a = Some nd -> pages_ok k nd;
  da_disjoint a b nda ndb i j :
    nodes k !! a = Some nda -> nodes k !! b = Some ndb ->
    0 <= i < n_page_count nda -> 0 <= j < n_page_count ndb ->
    page_at nda i = page_at ndb j -> a = b
}.

Lemma owned_page k p : owned_run k p 1 -> p mod 4096 = 0 /\ 0 < p /\ k_free k (p / 4096) = false.
Proof. intros (H1 & H2 & H3 & H4). split_and!; [done|done|]. apply H4. lia. Qed.

Lemma page_addr k p o : owned_run k p 1 -> 0 <= o < 4096 -> (p + o) / 4096 = p / 4096.
Proof. intros (H1 & H2 & _)%owned_page Ho. div_lia. Qed.

(** ** Writing a file

    [wrote k k' f nd nd' off bs] says that file [f] changed from [nd] to [nd'] by
    taking fresh pages and by storing [bs] at offset [off], and that nothing else
    but free memory changed. *)
Definition in_window (off : Z) (bs : list Z) (i : Z) : Prop := off <= i < off + Z.of_nat (length bs).
#[export] Instance in_window_dec off bs i : Decision (in_window off bs i) := _.

Record wrote (k k' : kstate) (f : Z) (nd nd' : ramfs_node_t) (off : Z) (bs : list Z) : Prop := {
  gr_state : exists q m, k' = with_obj (put_node f nd' (k_obj k)) (with_mem m (with_pmm q k));
  gr_mem : mem_ok k';
  gr_file : exists ps c, nd' = node_set_pages ps c nd;
  gr_pages : pages_ok k' nd';
  gr_count : n_page_count nd <= n_page_count nd';
  gr_old i : 0 <= i < n_page_count nd -> page_at nd' i = page_at nd i;
  gr_new i : 0 <= i -> n_page_count nd <= i < n_page_count nd' -> k_free k (page_at nd' i / 4096) = true;
  gr_bytes a : k_free k (a / 4096) = false -> ~ file_frame nd (a / 4096) ->
    rd8 (k_mem k') a = rd8 (k_mem k) a;
  gr_in : bs <> [] -> off + Z.of_nat (length bs) <= 4096 * n_page_count nd';
  gr_data i : 0 <= i -> i < 4096 * n_page_count nd \/ in_window off bs i ->
    file_byte (k_mem k') nd' i
    = if decide (in_window off bs i) then u8 (default 0 (bs !! Z.to_nat (i - off)))
      else file_byte (k_mem k) nd i;
  gr_runs page n : owned_run k page n -> owned_run k' page n;
  gr_free g : k_free k g = false -> k_free k' g = false
}.

Lemma node_pages_id nd : node_set_pages (n_pages nd) (n_page_count nd) nd = nd.
Proof. by destruct nd. Qed.

Lemma not_in_empty off i : ~ in_window off [] i.
Proof. unfold in_window. cbn. lia. Qed.

Lemma wrote_refl k f nd off :
  mem_ok k -> nodes k !! f = Some nd -> pages_ok k nd -> wrote k k f nd nd off [].
Proof.
  intros Hok Hf Hp. split; try done.
  - exists (k_pmm k), (k_mem k). unfold put_node. destruct k as [? ? ? ? ? ? ? [] ? ? ? ? ?].
    unfold with_obj, with_mem, with_pmm, nodes in *. cbn in *. do 2 f_equal. symmetry. by apply insert_id.
  - by eexists _, _; rewrite node_pages_id.
  - intros i _ Hi. lia.
  - intros i _ _. by rewrite decide_False by apply not_in_empty.
Qed.

Section Trans.
Context (k k1 k2 : kstate) (f : Z) (nd nd1 nd2 : ramfs_node_t) (off : Z) (b1 b2 : list Z).
Context (G1 : wrote k k1 f nd nd1 off b1)
  (G2 : wrote k1 k2 f nd1 nd2 (off + Z.of_nat (length b1)) b2).

Lemma window_app i :
  in_window off (b1 ++ b2) i
  <-> in_window off b1 i \/ in_window (off + Z.of_nat (length b1)) b2 i.
Proof using Type. unfold in_window. rewrite length_app. lia. Qed.

Lemma trans_data i :
  0 <= i -> i < 4096 * n_page_count nd \/ in_window off (b1 ++ b2) i ->
  file_byte (k_mem k2) nd2 i
  = if decide (in_window off (b1 ++ b2) i) then u8 (default 0 ((b1 ++ b2) !! Z.to_nat (i - off)))
    else file_byte (k_mem k) nd i.
Proof using All.
  intros H0 Hi. pose proof (gr_count _ _ _ _ _ _ _ G1) as Hc.
  destruct (decide (in_window (off + Z.of_nat (length b1)) b2 i)) as [H2|H2].
  - rewrite (gr_data _ _ _ _ _ _ _ G2), !decide_True by first [done|by right|apply window_app; by right].
    rewrite lookup_app_r by (unfold in_window in *; lia). do 3 f_equal. lia.
  - assert (Hi1 : i < 4096 * n_page_count nd \/ in_window off b1 i).
    { rewrite window_app in Hi. tauto. }
    assert (Hin1 : i < 4096 * n_page_count nd1).
    { destruct Hi1 as [|Hw]; [lia|]. unfold in_window in Hw.
      assert (b1 <> []) by (intros ->; cbn in Hw; lia).
      pose proof (gr_in _ _ _ _ _ _ _ G1 ltac:(done)). lia. }
    rewrite (gr_data _ _ _ _ _ _ _ G2), decide_False by first [done|by left].
    rewrite (gr_data _ _ _ _ _ _ _ G1) by done.
    destruct (decide (in_window off b1 i)) as [H1|H1].
    + rewrite decide_True by (apply window_app; by left).
      by rewrite lookup_app_l by (unfold in_window in *; lia).
    + rewrite decide_False; [done|]. rewrite window_app. tauto.
Qed.

Lemma wrote_trans : wrote k k2 f nd nd2 off (b1 ++ b2).
Proof using All.
  destruct (gr_state _ _ _ _ _ _ _ G1) as (q1 & m1 & E1).
  pose proof (gr_count _ _ _ _ _ _ _ G1) as Hc1. pose proof (gr_count _ _ _ _ _ _ _ G2) as Hc2. split.
  - destruct (gr_state _ _ _ _ _ _ _ G2) as (q2 & m2 & ->). subst k1. exists q2, m2.
    unfold put_node. cbn. by rewrite insert_insert_eq.
  - apply (gr_mem _ _ _ _ _ _ _ G2).
  - destruct (gr_file _ _ _ _ _ _ _ G1) as (? & ? & ->), (gr_file _ _ _ _ _ _ _ G2) as (ps & c & ->).
    by exists ps, c.
  - apply (gr_pages _ _ _ _ _ _ _ G2).
  - lia.
  - intros i Hi. rewrite (gr_old _ _ _ _ _ _ _ G2) by lia. by apply (gr_old _ _ _ _ _ _ _ G1).
  - intros i H0 Hi. destruct (Z.lt_ge_cases i (n_page_count nd1)).
    + rewrite (gr_old _ _ _ _ _ _ _ G2) by lia. apply (gr_new _ _ _ _ _ _ _ G1); lia.
    + pose proof (gr_new _ _ _ _ _ _ _ G2 i H0 ltac:(lia)) as Hn.
      destruct (k_free k _) eqn:E; [done|]. apply (gr_free _ _ _ _ _ _ _ G1) in E. congruence.
  - intros a Ha Hnf. etrans; [|by apply (gr_bytes _ _ _ _ _ _ _ G1)].
    apply (gr_bytes _ _ _ _ _ _ _ G2).
    + by apply (gr_free _ _ _ _ _ _ _ G1).
    + intros (i & Hi & E). destruct (Z.lt_ge_cases i (n_page_count nd)).
      * apply Hnf. exists i. split; [lia|]. by rewrite <- (gr_old _ _ _ _ _ _ _ G1) by lia.
      * pose proof (gr_new _ _ _ _ _ _ _ G1 i ltac:(lia) ltac:(lia)). congruence.
  - intros Hne. rewrite length_app. destruct b2 as [|x b2'].
    + rewrite app_nil_r in Hne. pose proof (gr_in _ _ _ _ _ _ _ G1 Hne). cbn. lia.
    + pose proof (gr_in _ _ _ _ _ _ _ G2 ltac:(done)). lia.
  - exact trans_data.
  - intros page n Ho. by apply (gr_runs _ _ _ _ _ _ _ G2), (gr_runs _ _ _ _ _ _ _ G1).
  - intros g Hg. by apply (gr_free _ _ _ _ _ _ _ G2), (gr_free _ _ _ _ _ _ _ G1).
Qed.
End Trans.

Section Grow.
Context (k : kstate) (f : Z) (nd : ramfs_node_t) (off : Z).
Context (Hok : mem_ok k) (Hp : pages_ok k nd) (Hf : nodes k !! f = Some nd) (Hc : n_page_count nd < 8).

Definition add_page (p : Z) (nd : ramfs_node_t) : ramfs_node_t :=
  node_set_pages (<[Z.to_nat (n_page_count nd) := p]> (n_pages nd)) (n_page_count nd + 1) nd.

Lemma add_page_at p i :
  0 <= i -> page_at (add_page p nd) i = if decide (i = n_page_count nd) then p else page_at nd i.
Proof using Hp Hc.
  intros Hi. pose proof (pg_len _ _ Hp) as Hl. pose proof (pg_count _ _ Hp) as Hn.
  unfold page_at, add_page. cbn [node_set_pages n_pages]. rewrite list_lookup_insert.
  destruct (decide (i = n_page_count nd)) as [->|Hne].
  - rewrite decide_True by (split; [done|lia]). done.
  - rewrite decide_False by lia. done.
Qed.

(** One round of the loop: [kpalloc], [memset] and the two stores into the node. *)
Lemma grow_step :
  kpalloc k = Ret NULL k
  \/ exists p q, kpalloc k = Ret p (with_pmm q k) /\ p <> NULL
       /\ wrote k (with_obj (put_node f (add_page p nd) (k_obj k))
             (with_mem (write_bytes (k_mem k) p (replicate (Z.to_nat 4096) 0)) (with_pmm q k)))
             f nd (add_page p nd) off [].
Proof using Hok Hp Hf Hc.
  destruct (kpalloc_step k Hok) as [|(p & q & Ha & Hok' & Hnn & Hown & Hfree & Hruns & Hq)]; [by left|right].
  exists p, q. split; [done|]. split; [done|].
  pose proof (pg_count _ _ Hp) as Hn. destruct (owned_page _ _ Hown) as (Hal & Hpos & _).
  assert (Hno : forall i, 0 <= i < n_page_count nd -> page_at nd i <> p).
  { intros i Hi <-. destruct (owned_page _ _ (pg_own _ _ Hp i Hi)) as (_ & _ & E). congruence. }
  assert (Hmem : forall a, k_free k (a / 4096) = false ->
    rd8 (write_bytes (k_mem k) p (replicate (Z.to_nat 4096) 0)) a = rd8 (k_mem k) a).
  { intros a Ha'. rewrite rd8_write_bytes, length_replicate.
    rewrite decide_False; [done|]. intros Hin. assert (a / 4096 = p / 4096) as E by div_lia. congruence. }
  split.
  - by eexists q, _.
  - exact Hok'.
  - by eexists _, _.
  - split; cbn [add_page node_set_pages n_pages n_page_count n_size].
    + rewrite length_insert. apply Hp.
    + lia.
    + pose proof (pg_size _ _ Hp). lia.
    + intros i Hi. rewrite add_page_at by lia. destruct (decide (i = n_page_count nd)); [exact Hown|].
      apply Hruns, Hp. lia.
    + intros i j Hi Hj. rewrite !add_page_at by lia.
      destruct (decide (i = n_page_count nd)), (decide (j = n_page_count nd)); [lia|..].
      * intros E. by destruct (Hno j ltac:(lia)).
      * intros E. by destruct (Hno i ltac:(lia)).
      * apply (pg_once _ _ Hp); lia.
  - cbn [add_page node_set_pages n_page_count]. lia.
  - intros i Hi. rewrite add_page_at by lia. by rewrite decide_False by lia.
  - intros i H0 Hi. cbn [add_page node_set_pages n_page_count] in Hi. rewrite add_page_at by lia.
    by rewrite decide_True by lia.
  - intros a Ha' _. by apply Hmem.
  - done.
  - intros i Hi [Hin|Hin]; [|by apply not_in_empty in Hin]. rewrite decide_False by apply not_in_empty.
    unfold file_byte. rewrite add_page_at, decide_False by div_lia. apply Hmem.
    assert (Ho : owned_run k (page_at nd (i / 4096)) 1) by (apply Hp; div_lia).
    rewrite (page_addr k _ _ Ho) by (apply Z.mod_pos_bound; lia). apply (owned_page k _ Ho).
  - exact Hruns.
  - intros g Hg. change (frame_free q g = false). rewrite Hq, Hg. apply andb_false_r.
Qed.
End Grow.

Lemma wrote_node k k' f nd nd' off bs : wrote k k' f nd nd' off bs -> nodes k' !! f = Some nd'.
Proof. intros G. destruct (gr_state _ _ _ _ _ _ _ G) as (q & m & ->). apply lookup_insert_eq. Qed.

(** [ramfs_ensure_page] makes page [idx] exist, or stops where memory or the
    eight slots end. *)
Lemma ensure_loop_run fuel k f nd idx off :
  mem_ok k -> pages_ok k nd -> nodes k !! f = Some nd -> 0 <= idx ->
  8 - n_page_count nd < Z.of_nat fuel ->
  exists b k' nd', ensure_loop fuel f idx k = Ret b k' /\ wrote k k' f nd nd' off []
    /\ (b = true -> idx < n_page_count nd').
Proof.
  revert k nd. induction fuel as [|fuel IH]; intros k nd Hok Hp Hf Hi Hfuel.
  { pose proof (pg_count _ _ Hp). lia. }
  cbn [ensure_loop]. rewrite (bind_run _ _ _ _ _ (load_node_run k f nd Hf)).
  destruct (Z.ltb_spec idx (n_page_count nd)) as [Hlt|Hge].
  { exists true, k, nd. split; [done|]. split; [by apply wrote_refl|done]. }
  unfold RAMFS_PAGES_PER_FILE. destruct (Z.leb_spec 8 (n_page_count nd)) as [H8|H8].
  { exists false, k, nd. split; [done|]. split; [by apply wrote_refl|done]. }
  destruct (grow_step k f nd off Hok Hp Hf H8) as [Ha|(p & q & Ha & Hnn & G)]; rewrite (bind_run _ _ _ _ _ Ha).
  { exists false, k, nd. split; [done|]. split; [by apply wrote_refl|done]. }
  rewrite (proj2 (Z.eqb_neq p NULL) Hnn), (bind_run _ _ _ _ _ (memset_run p 0 4096 _)).
  erewrite bind_run by (apply load_node_run; exact Hf).
  pose proof (pg_len _ _ Hp) as Hl. pose proof (pg_count _ _ Hp) as Hn.
  rewrite (proj2 (Nat.ltb_lt _ _)) by lia. cbn [deref bind ret store_node upd_obj modify].
  destruct (IH _ _ (gr_mem _ _ _ _ _ _ _ G) (gr_pages _ _ _ _ _ _ _ G) (wrote_node _ _ _ _ _ _ _ G) Hi) as (b & k' & nd' & H & G' & Hb).
  { cbn [add_page node_set_pages n_page_count]. lia. }
  exists b, k', nd'. split; [exact H|]. split; [refine (wrote_trans _ _ _ _ _ _ _ off [] [] G _); by rewrite Z.add_0_r|done].
Qed.

Lemma ramfs_ensure_page_run k f nd idx off :
  mem_ok k -> pages_ok k nd -> nodes k !! f = Some nd -> 0 <= idx ->
  exists k' nd' p, ramfs_ensure_page f idx k = Ret p k' /\ wrote k k' f nd nd' off []
    /\ (p <> NULL -> idx < n_page_count nd' /\ p = page_at nd' idx).
Proof.
  intros Hok Hp Hf Hi. pose proof (pg_count _ _ Hp) as Hn. unfold ramfs_ensure_page.
  destruct (ensure_loop_run 9 k f nd idx off Hok Hp Hf Hi ltac:(lia)) as (b & k' & nd' & H & G & Hb).
  rewrite (bind_run _ _ _ _ _ H). destruct b; cbn [negb]; cycle 1.
  { exists k', nd', NULL. by split_and!. }
  rewrite (bind_run _ _ _ _ _ (load_node_run k' f nd' (wrote_node _ _ _ _ _ _ _ G))).
  pose proof (gr_pages _ _ _ _ _ _ _ G) as Hp'. pose proof (pg_len _ _ Hp'). pose proof (pg_count _ _ Hp').
  specialize (Hb eq_refl). exists k', nd', (page_at nd' idx).
  destruct (lookup_lt_is_Some_2 (n_pages nd') (Z.to_nat idx)) as [p Hpg]; [lia|].
  unfold page_at. rewrite Hpg. split_and!; done.
Qed.

(** *** One chunk *)

Lemma copy_in_run dest src from n k :
  0 <= from -> 0 <= n -> from + n <= Z.of_nat (length src) ->
  copy_in dest src from n k
  = Ret tt (with_mem (write_bytes (k_mem k) dest (take (Z.to_nat n) (drop (Z.to_nat from) src))) k).
Proof.
  intros Hf Hn Hl. set (bs := take (Z.to_nat n) (drop (Z.to_nat from) src)).
  assert (Hlen : length bs = Z.to_nat n) by (unfold bs; rewrite length_take, length_drop; lia).
  unfold copy_in. rewrite (trips_length bs n) by lia.
  rewrite (store_loop_run _ bs dest 0) by
    (intros j b k' Hj; unfold load; rewrite (proj2 (Z.leb_le 0 _)) by lia;
     assert (src !! Z.to_nat (from + (0 + Z.of_nat j)) = Some b) as -> by
       (unfold bs in Hj; apply lookup_take_Some in Hj as [Hj _]; rewrite lookup_drop in Hj;
        rewrite <- Hj; f_equal; lia); done).
  by rewrite Z.add_0_r.
Qed.

Section Addr.
Context (k : kstate) (nd : ramfs_node_t) (Hp : pages_ok k nd).

Lemma page_frame_inj i j :
  0 <= i < n_page_count nd -> 0 <= j < n_page_count nd ->
  page_at nd i / 4096 = page_at nd j / 4096 -> i = j.
Proof using Hp.
  intros Hi Hj E. apply (pg_once _ _ Hp); [done|done|].
  destruct (owned_page _ _ (pg_own _ _ Hp i Hi)) as (H1 & _), (owned_page _ _ (pg_own _ _ Hp j Hj)) as (H2 & _).
  div_lia.
Qed.

Lemma file_addr_frame i :
  0 <= i < 4096 * n_page_count nd ->
  (page_at nd (i / 4096) + i mod 4096) / 4096 = page_at nd (i / 4096) / 4096.
Proof using Hp.
  intros Hi. apply (page_addr k); [|apply Z.mod_pos_bound; lia]. apply Hp. div_lia.
Qed.

End Addr.

Section Chunk.
Context (k : kstate) (f : Z) (nd : ramfs_node_t) (off : Z) (bs : list Z).
Context (Hok : mem_ok k) (Hp : pages_ok k nd) (Hf : nodes k !! f = Some nd).
Context (Hoff : 0 <= off) (Hidx : off / 4096 < n_page_count nd)
  (Hfit : off mod 4096 + Z.of_nat (length bs) <= 4096).

Lemma wrote_chunk :
  wrote k (with_mem (write_bytes (k_mem k) (page_at nd (off / 4096) + off mod 4096) bs) k) f nd nd off bs.
Proof using All.
  assert (H0 : 0 <= off / 4096 < n_page_count nd) by (split; [apply Z.div_pos; lia|done]).
  pose proof (pg_own _ _ Hp _ H0) as Hown.
  assert (Hmod : 0 <= off mod 4096 < 4096) by (apply Z.mod_pos_bound; lia).
  set (m := write_bytes _ _ _). split; try done.
  - exists (k_pmm k), m. destruct k as [? ? ? ? ? ? ? [] ? ? ? ? ?]. unfold nodes in Hf.
    unfold with_obj, with_mem, with_pmm, put_node in *. cbn in *. do 2 f_equal. symmetry. by apply insert_id.
  - by eexists _, _; rewrite node_pages_id.
  - by destruct Hp.
  - intros i _ Hi. lia.
  - intros a _ Hnf. cbn [with_mem k_mem]. unfold m. rewrite rd8_write_bytes.
    rewrite decide_False; [done|]. intros Hin. apply Hnf. exists (off / 4096). split; [done|].
    rewrite <- (page_addr k (page_at nd (off / 4096)) (a - page_at nd (off / 4096)) Hown) by lia. f_equal. lia.
  - intros _. div_lia.
  - intros i Hi Hin. cbn [with_mem k_mem]. unfold m, file_byte. rewrite rd8_write_bytes.
    assert (Hrange : i < 4096 * n_page_count nd).
    { destruct Hin as [|Hin]; [done|]. unfold in_window in Hin. div_lia. }
    destruct (decide (in_window off bs i)) as [Hw|Hw].
    + unfold in_window in Hw.
      assert (i / 4096 = off / 4096 /\ i mod 4096 = off mod 4096 + (i - off)) as [E1 E2] by div_lia.
      rewrite decide_True by (rewrite E1, E2; lia). do 3 f_equal. rewrite E1, E2. lia.
    + rewrite decide_False; [done|]. intros Ha. apply Hw.
      assert (Hfr : page_at nd (i / 4096) / 4096 = page_at nd (off / 4096) / 4096).
      { rewrite <- (file_addr_frame k nd Hp) by lia.
        rewrite <- (page_addr k (page_at nd (off / 4096))
          (page_at nd (i / 4096) + i mod 4096 - page_at nd (off / 4096)) Hown) by lia.
        f_equal. lia. }
      assert (Hsame : i / 4096 = off / 4096) by (apply (page_frame_inj k nd Hp); [div_lia|done|done]).
      rewrite Hsame in Ha. unfold in_window. div_lia.
Qed.
End Chunk.

Lemma chunk_at_spec off left_ :
  0 <= off -> 0 < left_ ->
  0 < chunk_at off left_ <= left_ /\ off mod 4096 + chunk_at off left_ <= 4096
  /\ (chunk_at off left_ = left_ \/ off mod 4096 + chunk_at off left_ = 4096).
Proof.
  intros Ho Hl. assert (0 <= off mod 4096 < 4096) by (apply Z.mod_pos_bound; lia).
  unfold chunk_at. destruct (Z.ltb_spec left_ (4096 - off mod 4096)); lia.
Qed.

(** *** The loop over the pages *)

Lemma take_drop_join {A} (l : list A) a b c :
  (a <= b <= c)%nat -> take (b - a) (drop a l) ++ take (c - b) (drop b l) = take (c - a) (drop a l).
Proof.
  intros H. replace (drop b l) with (drop (b - a) (drop a l)) by (rewrite drop_drop; f_equal; lia).
  rewrite take_take_drop. f_equal. lia.
Qed.

Section WriteLoop.
Context (f offset len : Z) (src : list Z).
Context (Hoff : 0 <= offset) (Hlen : len <= Z.of_nat (length src)) (Hmax : offset + len < 2 ^ 64).

Lemma write_loop_run fuel k nd written :
  mem_ok k -> pages_ok k nd -> nodes k !! f = Some nd -> 0 <= written <= len ->
  (written < len -> (offset + written) mod 4096 + (len - written) <= 4096 * Z.of_nat fuel) ->
  exists o k' nd' w, write_loop fuel f src offset len written k = Ret o k'
    /\ written <= w <= len
    /\ wrote k k' f nd nd' (offset + written)
         (take (Z.to_nat w - Z.to_nat written) (drop (Z.to_nat written) src))
    /\ (o = Some len /\ w = len \/ o = None /\ w < len).
Proof using Hoff Hlen Hmax.
  revert k nd written. induction fuel as [|fuel IH]; intros k nd written Hok Hp Hf Hw Hfuel; cbn [write_loop].
  - assert (0 <= (offset + written) mod 4096 < 4096) by (apply Z.mod_pos_bound; lia).
    rewrite (proj2 (Z.leb_le _ _)) by lia. exists (Some written), k, nd, written.
    rewrite Nat.sub_diag. split; [done|]. split; [lia|]. split; [by apply wrote_refl|]. left. split; [f_equal|]; lia.
  - destruct (Z.leb_spec len written) as [Hle|Hgt].
    { exists (Some written), k, nd, written. rewrite Nat.sub_diag. split; [done|]. split; [lia|].
      split; [by apply wrote_refl|]. left. split; [f_equal|]; lia. }
    rewrite u64_small by lia. set (off := offset + written) in *.
    destruct (chunk_at_spec off (len - written) ltac:(lia) ltac:(lia)) as (Hc & Hc2 & Hc3).
    set (chunk := chunk_at off (len - written)) in *.
    assert (Hidx : 0 <= off / 4096) by (apply Z.div_pos; lia).
    destruct (ramfs_ensure_page_run k f nd (off / 4096) off Hok Hp Hf Hidx) as (k1 & nd1 & page & H1 & G1 & Hpage).
    rewrite (bind_run _ _ _ _ _ H1). destruct (Z.eqb_spec page NULL) as [->|Hnn].
    { exists None, k1, nd1, written. rewrite Nat.sub_diag. split; [done|]. split; [lia|]. split; [done|]. right. split; [done|lia]. }
    destruct (Hpage Hnn) as [Hi ->]. clear Hpage.
    rewrite (bind_run _ _ _ _ _ (copy_in_run _ src written chunk k1 ltac:(lia) ltac:(lia) ltac:(lia))).
    set (bs := take (Z.to_nat chunk) (drop (Z.to_nat written) src)).
    assert (Hbs : Z.of_nat (length bs) = chunk) by (unfold bs; rewrite length_take, length_drop; lia).
    pose proof (wrote_chunk k1 f nd1 off bs (gr_mem _ _ _ _ _ _ _ G1) (gr_pages _ _ _ _ _ _ _ G1)
      (wrote_node _ _ _ _ _ _ _ G1) ltac:(lia) Hi ltac:(lia)) as G2.
    pose proof (wrote_trans _ _ _ _ _ _ _ off [] bs G1 ltac:(by rewrite Z.add_0_r)) as G12.
    cbn [app] in G12.
    edestruct (IH _ nd1 (written + chunk) (gr_mem _ _ _ _ _ _ _ G2) (gr_pages _ _ _ _ _ _ _ G2)
      (wrote_node _ _ _ _ _ _ _ G2)) as (o & k' & nd' & w & H & Hw' & G3 & Ho).
    { lia. }
    { intros Hlt. replace (offset + (written + chunk)) with (off + chunk) by lia.
      specialize (Hfuel Hgt). destruct Hc3 as [|Hc3]; [lia|].
      replace (off + chunk) with ((off / 4096 + 1) * 4096) by div_lia. rewrite Z.mod_mul by lia. lia. }
    exists o, k', nd', w. split; [exact H|]. split; [lia|]. split; [|done].
    replace (offset + (written + chunk)) with (off + Z.of_nat (length bs)) in G3 by lia.
    pose proof (wrote_trans _ _ _ _ _ _ _ off _ _ G12 G3) as G.
    replace (Z.to_nat (written + chunk)) with (Z.to_nat written + Z.to_nat chunk)%nat in G by lia.
    unfold bs in G. rewrite <- (take_drop_join src (Z.to_nat written) (Z.to_nat written + Z.to_nat chunk)) by lia.
    replace (Z.to_nat written + Z.to_nat chunk - Z.to_nat written)%nat with (Z.to_nat chunk) by lia. exact G.
Qed.
End WriteLoop.

(** ** The tree does not see a change of contents *)

Definition same_links (nd nd' : ramfs_node_t) : Prop :=
  n_name nd' = n_name nd /\ n_is_dir nd' = n_is_dir nd /\ n_child nd' = n_child nd
  /\ n_sibling nd' = n_sibling nd.

Section SameLinks.
Context (ns : node_map) (f : Z) (nd nd' : ramfs_node_t) (Hf : ns !! f = Some nd) (Hl : same_links nd nd').
Let ns' : node_map := <[f := nd']> ns.

Lemma links_at a :
  match ns !! a, ns' !! a with
  | Some v, Some v' => same_links v v'
  | None, None => True
  | _, _ => False
  end.
Proof using Hf Hl.
  unfold ns'. rewrite lookup_insert. destruct (decide (f = a)) as [<-|]; [by rewrite Hf|].
  by destruct (ns !! a).
Qed.

Lemma links_siblings fuel c : siblings fuel ns' c = siblings fuel ns c.
Proof using Hf Hl.
  revert c. induction fuel as [|fuel IH]; intros c; cbn [siblings]; [done|].
  pose proof (links_at c) as H. destruct (ns !! c), (ns' !! c); try done.
  destruct H as (_ & _ & _ & ->). by rewrite IH.
Qed.

Lemma links_kids d : kids ns' d = kids ns d.
Proof using Hf Hl.
  unfold kids. pose proof (links_at d) as H. destruct (ns !! d), (ns' !! d); try done.
  destruct H as (_ & -> & -> & _). rewrite links_siblings. unfold ns'.
  by rewrite map_size_insert_Some by by eexists.
Qed.

Lemma links_name a : name_of ns' a = name_of ns a.
Proof using Hf Hl.
  unfold name_of. pose proof (links_at a) as H. destruct (ns !! a), (ns' !! a); try done.
  by destruct H as (-> & _).
Qed.

Lemma links_resolve d ws : resolve ns' d ws = resolve ns d ws.
Proof using Hf Hl.
  revert d. induction ws as [|w ws IH]; intros d; cbn [resolve]; [done|].
  assert (child_named ns' d w = child_named ns d w) as ->.
  { unfold child_named. rewrite links_kids. apply find_ext_in. intros x _. apply bool_decide_ext.
    by rewrite links_name. }
  by destruct (child_named ns d w).
Qed.

Lemma links_tree root : tree_ok ns root -> tree_ok ns' root.
Proof using Hf Hl.
  intros Ht. split.
  - pose proof (links_at NULL) as H. rewrite (tr_null _ _ Ht) in H. by destruct (ns' !! NULL).
  - pose proof (links_at root) as H. pose proof (tr_root _ _ Ht) as Hr. unfold is_dir_at in *.
    destruct (ns !! root), (ns' !! root); try done. by destruct H as (_ & -> & _).
  - intros a v Ha. pose proof (links_at a) as H. rewrite Ha in H.
    destruct (ns !! a) as [v0|] eqn:E; [|done]. destruct (tr_node _ _ Ht _ _ E) as [Hn [l Hc]].
    destruct H as (H1 & _ & H3 & _). split; [by rewrite H1|]. exists l. rewrite H3.
    eapply sib_keep; [|exact Hc]. intros x vx Hx. pose proof (links_at x) as H. rewrite Hx in H.
    destruct (ns' !! x) as [vx'|]; [|done]. exists vx'. split; [done|]. apply H.
  - intros d1 d2 a. rewrite !links_kids. apply (tr_once _ _ Ht).
  - intros d. rewrite links_kids. apply (tr_top _ _ Ht).
  - intros d a b. rewrite links_kids, !links_name. apply (tr_names _ _ Ht).
Qed.
End SameLinks.

(** ** The state after a write *)

(** The file [f] changed from [nd] to [nd'] and nothing else that is in use. *)
Record file_changed (k k' : kstate) (f : Z) (nd nd' : ramfs_node_t) : Prop := {
  fc_mem : mem_ok k';
  fc_fs : fs_ok k';
  fc_data : data_ok k';
  fc_state : exists q m, k' = with_obj (put_node f nd' (k_obj k)) (with_mem m (with_pmm q k));
  fc_links : same_links nd nd';
  fc_files b v : b <> f -> nodes k !! b = Some v ->
    nodes k' !! b = Some v /\ file_data (k_mem k') v = file_data (k_mem k) v;
  fc_paths ws : resolve (nodes k') (ramfs_root k') ws = resolve (nodes k) (ramfs_root k) ws;
  fc_bytes a : k_free k (a / 4096) = false -> ~ file_frame nd (a / 4096) ->
    rd8 (k_mem k') a = rd8 (k_mem k) a;
  fc_runs page n : owned_run k page n -> owned_run k' page n
}.

Lemma length_file_data m nd : length (file_data m nd) = Z.to_nat (n_size nd).
Proof. unfold file_data. by rewrite length_fmap, length_seq. Qed.

Lemma lookup_file_data m nd i :
  (i < Z.to_nat (n_size nd))%nat -> file_data m nd !! i = Some (file_byte m nd (Z.of_nat i)).
Proof. intros Hi. unfold file_data. by rewrite list_lookup_fmap, lookup_seq_lt. Qed.

Lemma file_data_ext m m' nd nd' :
  n_size nd' = n_size nd ->
  (forall i, 0 <= i < n_size nd -> file_byte m' nd' i = file_byte m nd i) ->
  file_data m' nd' = file_data m nd.
Proof.
  intros Hs H. unfold file_data. rewrite Hs. apply list_fmap_ext. intros j x Hj.
  apply lookup_seq in Hj as [-> Hj]. apply H. lia.
Qed.

Lemma pages_ok_runs k k' nd :
  (forall page n, owned_run k page n -> owned_run k' page n) -> pages_ok k nd -> pages_ok k' nd.
Proof. intros Hr [H1 H2 H3 H4 H5]. split; try done. intros i Hi. by apply Hr, H4. Qed.

Section Final.
Context (k k1 : kstate) (f : Z) (nd nd1 : ramfs_node_t) (off : Z) (bs : list Z) (s : Z).
Context (Hfs : fs_ok k) (Hda : data_ok k) (Hf : nodes k !! f = Some nd).
Context (G : wrote k k1 f nd nd1 off bs) (Hs : 0 <= s <= 4096 * n_page_count nd1).
Let nd' := node_set_size s nd1.
Let k' := with_obj (put_node f nd' (k_obj k1)) k1.

Lemma final_nodes : nodes k' = <[f := nd']> (nodes k).
Proof using G.
  destruct (gr_state _ _ _ _ _ _ _ G) as (q & m & ->). unfold k', nodes. cbn. by rewrite insert_insert_eq.
Qed.

Lemma final_links : same_links nd nd'.
Proof using G. destruct (gr_file _ _ _ _ _ _ _ G) as (ps & c & E). unfold nd'. by rewrite E. Qed.

Lemma final_pages : pages_ok k' nd'.
Proof using G Hs. by destruct (gr_pages _ _ _ _ _ _ _ G). Qed.

(** A page of another file is none of this file's. *)
Lemma final_other b v i j :
  b <> f -> nodes k !! b = Some v -> 0 <= i < n_page_count v -> 0 <= j < n_page_count nd1 ->
  page_at v i / 4096 <> page_at nd1 j / 4096.
Proof using G Hda Hf.
  intros Hb Hv Hi Hj E. pose proof (owned_page _ _ (pg_own _ _ (da_pages _ Hda _ _ Hv) i Hi)) as (Hal & _ & Hfr).
  destruct (Z.lt_ge_cases j (n_page_count nd)).
  - rewrite (gr_old _ _ _ _ _ _ _ G) in E by lia.
    pose proof (owned_page _ _ (pg_own _ _ (da_pages _ Hda _ _ Hf) j ltac:(lia))) as (Hal' & _).
    apply Hb. apply (da_disjoint _ Hda b f v nd i j); [exact Hv|exact Hf|exact Hi|lia|div_lia].
  - pose proof (gr_new _ _ _ _ _ _ _ G j ltac:(lia) ltac:(lia)). congruence.
Qed.

Lemma final_data_ok : data_ok k'.
Proof using G Hda Hf Hs.
  assert (Hpages : forall a v, nodes k' !! a = Some v -> pages_ok k' v
            /\ (a = f /\ v = nd' \/ a <> f /\ nodes k !! a = Some v)).
  { intros a v. rewrite final_nodes, lookup_insert_Some. intros [[<- <-]|[Hne Ha]].
    - split; [apply final_pages|by left].
    - split; [|right; by split]. eapply pages_ok_runs; [exact (gr_runs _ _ _ _ _ _ _ G)|by eapply (da_pages _ Hda)]. }
  split; [by intros a v [H _]%Hpages|].
  intros a b va vb i j Ha Hb Hi Hj E.
  destruct (Hpages _ _ Ha) as [_ [[-> ->]|[Hna Ha']]], (Hpages _ _ Hb) as [_ [[-> ->]|[Hnb Hb']]]; [done|..].
  - destruct (final_other b vb j i Hnb Hb' Hj Hi). by rewrite <- E.
  - destruct (final_other a va i j Hna Ha' Hi Hj). by rewrite E.
  - by eapply (da_disjoint _ Hda).
Qed.

Lemma final_changed : file_changed k k' f nd nd'.
Proof using All.
  assert (Hroot : ramfs_root k' = ramfs_root k).
  { destruct (gr_state _ _ _ _ _ _ _ G) as (q & m & E). unfold k'. by rewrite E. }
  split.
  - exact (gr_mem _ _ _ _ _ _ _ G).
  - destruct Hfs as [Ht Hlive]. split; rewrite final_nodes, ?Hroot; [by apply (links_tree _ _ nd); [|apply final_links|]|].
    intros a Ha. assert (Hlv : is_live k a).
    { apply Hlive. revert Ha. rewrite lookup_insert. destruct (decide (f = a)) as [<-|]; [by eexists|done]. }
    unfold k'. destruct (gr_state _ _ _ _ _ _ _ G) as (q & m & ->). exact Hlv.
  - exact final_data_ok.
  - destruct (gr_state _ _ _ _ _ _ _ G) as (q & m & ->). exists q, m. unfold k', put_node. cbn.
    by rewrite insert_insert_eq.
  - exact final_links.
  - intros b v Hb Hv. split; [by rewrite final_nodes, lookup_insert_ne|].
    change (k_mem k') with (k_mem k1).
    apply file_data_ext; [done|]. intros i Hi. unfold file_byte.
    pose proof (da_pages _ Hda _ _ Hv) as Hpv. pose proof (pg_size _ _ Hpv) as Hsz.
    assert (Hidx : 0 <= i / 4096 < n_page_count v) by div_lia.
    pose proof (pg_own _ _ Hpv _ Hidx) as Hown.
    apply (gr_bytes _ _ _ _ _ _ _ G); rewrite (page_addr k _ _ Hown) by (apply Z.mod_pos_bound; lia).
    + apply (owned_page k _ Hown).
    + intros (j & Hj & E). pose proof (gr_count _ _ _ _ _ _ _ G) as Hc.
      destruct (final_other b v (i / 4096) j Hb Hv Hidx ltac:(lia)).
      by rewrite (gr_old _ _ _ _ _ _ _ G).
  - intros ws. rewrite final_nodes, Hroot. apply (links_resolve _ _ nd); [done|apply final_links].
  - exact (gr_bytes _ _ _ _ _ _ _ G).
  - exact (gr_runs _ _ _ _ _ _ _ G).
Qed.

(** The bytes of the file, where they are defined. *)
Definition overlay (old : list Z) (off : Z) (bs : list Z) : list Z :=
  take (Z.to_nat off) old ++ bs ++ drop (Z.to_nat (off + Z.of_nat (length bs))) old.

Lemma final_bytes :
  Forall byte bs -> 0 <= off <= n_size nd -> pages_ok k nd ->
  (s <= n_size nd \/ s = off + Z.of_nat (length bs)) ->
  file_data (k_mem k') nd' = take (Z.to_nat s) (overlay (file_data (k_mem k) nd) off bs).
Proof using G Hs.
  intros Hb Hoff Hp Hsz. pose proof (pg_size _ _ Hp) as Hps. change (k_mem k') with (k_mem k1).
  set (old := file_data (k_mem k) nd). pose proof (length_file_data (k_mem k) nd) as Hold. fold old in Hold.
  apply list_eq_same_length with (n := Z.to_nat s).
  - unfold overlay. rewrite length_take, !length_app, length_take, length_drop. unfold nd'. cbn. lia.
  - by rewrite length_file_data.
  - intros i x y Hi. rewrite lookup_file_data by (unfold nd'; cbn; lia). rewrite lookup_take_lt by lia.
    intros [= <-] Hy. change (file_byte (k_mem k1) nd' (Z.of_nat i)) with (file_byte (k_mem k1) nd1 (Z.of_nat i)).
    assert (Hor : Z.of_nat i < 4096 * n_page_count nd \/ in_window off bs (Z.of_nat i)) by (unfold in_window; lia).
    rewrite (gr_data _ _ _ _ _ _ _ G) by (lia || done). unfold overlay in Hy.
    destruct (decide (in_window off bs (Z.of_nat i))) as [Hw|Hw]; unfold in_window in Hw.
    + rewrite lookup_app_r in Hy by (rewrite length_take; lia). rewrite length_take in Hy.
      rewrite lookup_app_l in Hy by lia.
      replace (Z.to_nat (Z.of_nat i - off)) with (i - Z.to_nat off `min` length old)%nat by lia. rewrite Hy. cbn.
      apply u8_small. rewrite Forall_lookup in Hb. by eapply Hb.
    + destruct (Z.lt_ge_cases (Z.of_nat i) off).
      * rewrite lookup_app_l in Hy by (rewrite length_take; lia). rewrite lookup_take_lt in Hy by lia.
        unfold old in Hy. rewrite lookup_file_data in Hy by lia. by injection Hy.
      * rewrite lookup_app_r in Hy by (rewrite length_take; lia). rewrite length_take in Hy.
        rewrite lookup_app_r in Hy by lia. rewrite lookup_drop in Hy.
        replace (Z.to_nat (off + Z.of_nat (length bs)) + (i - Z.to_nat off `min` length old - length bs))%nat
          with i in Hy by lia.
        unfold old in Hy. rewrite lookup_file_data in Hy by lia. by injection Hy.
Qed.
End Final.

(** ** vfs_write *)

Lemma set_size_id nd : node_set_size (n_size nd) nd = nd.
Proof. by destruct nd. Qed.

Lemma put_node_id k f nd : nodes k !! f = Some nd -> with_obj (put_node f nd (k_obj k)) k = k.
Proof.
  intros Hf. destruct k as [? ? ? ? ? ? ? [] ? ? ? ? ?]. unfold nodes, with_obj, put_node in *. cbn in *.
  do 2 f_equal. by apply insert_id.
Qed.

Lemma page_fuel_enough offset len :
  0 <= offset -> 0 <= len -> (offset + 0) mod 4096 + (len - 0) <= 4096 * Z.of_nat (page_fuel len).
Proof.
  intros Ho Hl. unfold page_fuel. rewrite Z2Nat.id by div_lia.
  assert (0 <= (offset + 0) mod 4096 < 4096) by (apply Z.mod_pos_bound; lia). div_lia.
Qed.

(** What writing [len] bytes of [src] at [offset] does to the file [f], in which
    [old] stood: all of it, or a part followed by NOSPACE. *)
Definition write_outcome (k k' : kstate) (f : Z) (nd : ramfs_node_t) (src : list Z) (len offset r : Z) : Prop :=
  exists nd', nodes k' !! f = Some nd' /\ file_changed k k' f nd nd'
    /\ let old := file_data (k_mem k) nd in
       (r = len /\ file_data (k_mem k') nd' = overlay old offset (take (Z.to_nat len) src))
       \/ (r = VFS_ERR_NOSPACE /\ n_size nd' = n_size nd
           /\ exists n, 0 <= n < len
                /\ file_data (k_mem k') nd'
                   = take (length old) (overlay old offset (take (Z.to_nat n) src))).

Lemma length_overlay old off bs :
  0 <= off <= Z.of_nat (length old) ->
  length (overlay old off bs) = Z.to_nat (Z.max (Z.of_nat (length old)) (off + Z.of_nat (length bs))).
Proof. intros H. unfold overlay. rewrite !length_app, length_take, length_drop. lia. Qed.

(** The loop and the update of the size, on a file where the guards have passed. *)
Lemma write_file_run k f nd src len offset :
  mem_ok k -> fs_ok k -> data_ok k -> nodes k !! f = Some nd -> Forall byte src ->
  0 < len <= Z.of_nat (length src) -> 0 <= offset <= n_size nd -> offset + len <= VFS_MAX_FILE_SIZE ->
  let m := (r <- write_loop (page_fuel len) f src offset len 0 ;;
    match r with
    | None => ret VFS_ERR_NOSPACE
    | Some written =>
        let end_ := u64 (offset + written) in
        nd <- load_node f ;;
        _ <- (if n_size nd <? end_ then store_node f (node_set_size end_ nd) else ret tt) ;;
        ret written
    end) in
  exists r k', m k = Ret r k' /\ write_outcome k k' f nd src len offset r.
Proof.
  intros Hok Hfs Hda Hf Hb Hlen Hoff Hmax m. unfold VFS_MAX_FILE_SIZE in Hmax.
  pose proof (da_pages _ Hda _ _ Hf) as Hp. pose proof (pg_size _ _ Hp) as Hsz.
  destruct (write_loop_run f offset len src ltac:(lia) ltac:(lia) ltac:(lia) (page_fuel len) k nd 0
    Hok Hp Hf ltac:(lia) ltac:(intros _; apply page_fuel_enough; lia)) as (o & k1 & nd1 & w & H & Hw & G & Ho).
  rewrite Z.add_0_r in G. change (Z.to_nat 0) with 0%nat in G. rewrite drop_0, Nat.sub_0_r in G.
  set (bs := take (Z.to_nat w) src) in *.
  assert (Hbs : Z.of_nat (length bs) = w) by (unfold bs; rewrite length_take; lia).
  assert (Hbb : Forall byte bs) by (by apply Forall_take).
  pose proof (gr_count _ _ _ _ _ _ _ G) as Hc. pose proof (wrote_node _ _ _ _ _ _ _ G) as Hn1.
  assert (Hs1 : n_size nd1 = n_size nd).
  { destruct (gr_file _ _ _ _ _ _ _ G) as (ps & c & ->). done. }
  pose proof (length_file_data (k_mem k) nd) as Hold.
  assert (Hend : w = 0 \/ offset + w <= 4096 * n_page_count nd1).
  { destruct (decide (w = 0)) as [|Hw0]; [by left|right].
    rewrite <- Hbs. apply (gr_in _ _ _ _ _ _ _ G). intros E. rewrite E in Hbs. cbn in Hbs. lia. }
  assert (Hfin : forall s, s = n_size nd \/ s = offset + w /\ n_size nd <= s ->
    let nd' := node_set_size s nd1 in
    let k' := with_obj (put_node f nd' (k_obj k1)) k1 in
    nodes k' !! f = Some nd' /\ file_changed k k' f nd nd'
    /\ file_data (k_mem k') nd' = take (Z.to_nat s) (overlay (file_data (k_mem k) nd) offset bs)).
  { intros s Hs nd' k'. assert (Hsr : 0 <= s <= 4096 * n_page_count nd1) by lia.
    split; [apply lookup_insert_eq|]. split; [by eapply final_changed|].
    apply (final_bytes k k1 f nd nd1 offset bs s G Hsr Hbb Hoff Hp). lia. }
  unfold m. rewrite (bind_run _ _ _ _ _ H). unfold write_outcome. destruct Ho as [[-> Hwl]|[-> Hwl]].
  - subst w. rewrite u64_small by lia. rewrite (bind_run _ _ _ _ _ (load_node_run k1 f nd1 Hn1)), Hs1.
    destruct (Z.ltb_spec (n_size nd) (offset + len)) as [Hlt|Hge]; cbn [store_node upd_obj bind modify ret].
    + eexists len, _. split; [reflexivity|]. destruct (Hfin (offset + len) ltac:(lia)) as (F1 & F2 & F3).
      eexists. split; [exact F1|]. split; [exact F2|]. left. split; [done|]. rewrite F3.
      fold bs. apply take_ge. rewrite length_overlay by lia. lia.
    + exists len, k1. split; [done|]. destruct (Hfin (n_size nd) ltac:(by left)) as (F1 & F2 & F3).
      rewrite <- Hs1, set_size_id, (put_node_id k1 f nd1 Hn1) in F1, F2, F3.
      exists nd1. split; [done|]. split; [done|]. left. split; [done|]. rewrite F3.
      fold bs. apply take_ge. rewrite length_overlay by lia. lia.
  - exists VFS_ERR_NOSPACE, k1. split; [done|]. destruct (Hfin (n_size nd) ltac:(by left)) as (F1 & F2 & F3).
    rewrite <- Hs1, set_size_id, (put_node_id k1 f nd1 Hn1) in F1, F2, F3.
    exists nd1. split; [done|]. split; [done|]. right. split; [done|]. split; [done|].
    exists w. split; [lia|]. rewrite F3. f_equal. lia.
Qed.

(** The cases of [vfs_write] on a path. *)
Definition write_spec (k k' : kstate) (s src : list Z) (len offset r : Z) : Prop :=
  match target (nodes k) (ramfs_root k) s with
  | inr e => r = e /\ k' = k
  | inl a =>
      exists nd, nodes k !! a = Some nd
        /\ if n_is_dir nd then r = VFS_ERR_ISDIR /\ k' = k
           else if len =? 0 then r = 0 /\ k' = k
           else if n_size nd <? offset then r = VFS_ERR_INVAL /\ k' = k
           else if VFS_MAX_FILE_SIZE <? offset + len then r = VFS_ERR_NOSPACE /\ k' = k
           else write_outcome k k' a nd src len offset r
  end.

Lemma vfs_write_run k s p src len offset :
  mem_ok k -> fs_ok k -> data_ok k -> c_string s p -> Forall byte src ->
  0 <= len <= Z.of_nat (length src) -> 0 <= offset -> offset + len < 2 ^ 64 ->
  exists r k', vfs_write (Some p) (Some src) len offset k = Ret r k' /\ write_spec k k' s src len offset r.
Proof.
  intros Hok Hfs Hda Hs Hb Hlen Hoff Hmax. unfold vfs_write, write_spec, target.
  rewrite (bind_run _ _ _ _ _ (vfs_path_ok_run s p k Hs)).
  destruct (path_ok_spec s); cbn [negb]; [|by eexists _, _].
  unfold ramfs_write. cbn [bind gets]. rewrite (root_nonnull k Hfs). cbn [orb default from_option id].
  rewrite (bind_run _ _ _ _ _ (lookup_run k (fs_tree _ Hfs) s p Hs)).
  destruct (lookup_spec _ _ s) as [a|] eqn:El; cbn [default from_option id]; [|by eexists _, _].
  destruct (lookup_node _ _ _ _ (fs_tree _ Hfs) El) as [Ha [nd Hnd]].
  rewrite (proj2 (Z.eqb_neq a NULL) Ha), (bind_run _ _ _ _ _ (load_node_run k a nd Hnd)).
  destruct (n_is_dir nd) eqn:Hdir; [by eexists _, _; split; [|exists nd; rewrite Hdir]|].
  destruct (Z.eqb_spec len 0) as [->|Hl0]; [by eexists _, _; split; [|exists nd; rewrite Hdir]|].
  destruct (n_size nd <? offset) eqn:E1; [by eexists _, _; split; [|exists nd; rewrite Hdir, E1]|].
  rewrite u64_small by lia.
  destruct (VFS_MAX_FILE_SIZE <? offset + len) eqn:E2; [by eexists _, _; split; [|exists nd; rewrite Hdir, E1]|].
  destruct (write_file_run k a nd src len offset Hok Hfs Hda Hnd Hb) as (r & k' & H & Hout); [lia|bool_lia|bool_lia|].
  exists r, k'. split; [exact H|]. exists nd. rewrite Hdir, E1. done.
Qed.

(** ** Reading

    [Sink put f nd data S] is what the reading loop needs of the destination:
    [S out k] says that the bytes [out] have arrived, and that the file [f] is
    still [nd] with contents [data]. *)
Class Sink (put : Z -> list Z -> kernel unit) (f : Z) (nd : ramfs_node_t) (data : list Z) (cap : Z)
    (S : list Z -> kstate -> Prop) := {
  sk_file out k : S out k -> nodes k !! f = Some nd /\ file_data (k_mem k) nd = data;
  sk_put out bs k : S out k -> Z.of_nat (length (out ++ bs)) <= cap ->
    exists k', put (Z.of_nat (length out)) bs k = Ret tt k' /\ S (out ++ bs) k'
}.

(** The part of a file that a chunk covers is the part its page holds. *)
Lemma mem_chunk k nd off n :
  pages_ok k nd -> 0 <= off -> 0 <= n -> off + n <= n_size nd -> off mod 4096 + n <= 4096 ->
  mem_bytes (k_mem k) (page_at nd (off / 4096) + off mod 4096) n
  = take (Z.to_nat n) (drop (Z.to_nat off) (file_data (k_mem k) nd)).
Proof.
  intros Hp Ho Hn Hs Hfit. pose proof (length_file_data (k_mem k) nd) as Hl.
  apply list_eq_same_length with (n := Z.to_nat n).
  - rewrite length_take, length_drop. lia.
  - apply length_mem_bytes.
  - intros i x y Hi. rewrite lookup_mem_bytes by lia.
    rewrite lookup_take_lt, lookup_drop, lookup_file_data by lia.
    intros [= <-] [= <-]. unfold file_byte.
    assert (Z.of_nat (Z.to_nat off + i) / 4096 = off / 4096) as -> by div_lia.
    assert (Z.of_nat (Z.to_nat off + i) mod 4096 = off mod 4096 + Z.of_nat i) as -> by div_lia.
    f_equal. lia.
Qed.

Section ReadLoop.
Context (put : Z -> list Z -> kernel unit) (f offset len : Z) (nd : ramfs_node_t) (data : list Z)
  (S : list Z -> kstate -> Prop) {HS : Sink put f nd data len S}.
Context (Hp : forall out k, S out k -> pages_ok k nd) (Hoff : 0 <= offset) (Hend : offset + len <= n_size nd).

Lemma read_loop_run fuel k done_ :
  S (take (Z.to_nat done_) (drop (Z.to_nat offset) data)) k -> 0 <= done_ <= len ->
  (done_ < len -> (offset + done_) mod 4096 + (len - done_) <= 4096 * Z.of_nat fuel) ->
  exists k', read_loop put fuel f offset len done_ k = Ret len k'
    /\ S (take (Z.to_nat len) (drop (Z.to_nat offset) data)) k'.
Proof using All.
  revert k done_. induction fuel as [|fuel IH]; intros k d HSk Hd Hfuel; cbn [read_loop].
  - assert (0 <= (offset + d) mod 4096 < 4096) by (apply Z.mod_pos_bound; lia).
    rewrite (proj2 (Z.leb_le _ _)) by lia. assert (d = len) as -> by lia. by exists k.
  - destruct (Z.leb_spec len d) as [Hle|Hgt]; [assert (d = len) as -> by lia; by exists k|].
    destruct (sk_file _ _ HSk) as [Hf Hdata]. specialize (Hp _ _ HSk) as Hpk.
    pose proof (pg_size _ _ Hpk) as Hsz. pose proof (pg_count _ _ Hpk) as Hcn. pose proof (pg_len _ _ Hpk) as Hln.
    rewrite (bind_run _ _ _ _ _ (load_node_run k f nd Hf)), u64_small by lia.
    set (off := offset + d) in *.
    destruct (chunk_at_spec off (len - d) ltac:(lia) ltac:(lia)) as (Hc & Hc2 & Hc3).
    set (chunk := chunk_at off (len - d)) in *.
    assert (Hidx : 0 <= off / 4096 < n_page_count nd) by div_lia.
    rewrite (proj2 (Z.leb_gt _ _)) by lia.
    destruct (lookup_lt_is_Some_2 (n_pages nd) (Z.to_nat (off / 4096))) as [pg Hpg]; [lia|].
    rewrite Hpg. cbn [deref bind ret gets].
    assert (Epg : pg = page_at nd (off / 4096)) by (unfold page_at; by rewrite Hpg).
    rewrite Epg, (mem_chunk k nd off chunk Hpk) by lia. rewrite Hdata.
    set (out := take (Z.to_nat d) (drop (Z.to_nat offset) data)) in *.
    set (bs := take (Z.to_nat chunk) (drop (Z.to_nat off) data)).
    pose proof (length_file_data (k_mem k) nd) as Hl. rewrite Hdata in Hl.
    assert (Hlo : Z.of_nat (length out) = d) by (unfold out; rewrite length_take, length_drop; lia).
    assert (Hob : out ++ bs = take (Z.to_nat (d + chunk)) (drop (Z.to_nat offset) data)).
    { unfold out, bs. replace (Z.to_nat off) with (Z.to_nat offset + Z.to_nat d)%nat by lia.
      rewrite <- drop_drop, take_take_drop. f_equal. lia. }
    destruct (sk_put out bs k HSk) as (k1 & H1 & HS1).
    { rewrite Hob, length_take, length_drop. lia. }
    rewrite Hlo in H1. rewrite (bind_run _ _ _ _ _ H1). rewrite Hob in HS1.
    apply IH; [exact HS1|lia|]. intros Hlt. specialize (Hfuel Hgt). destruct Hc3 as [|Hc3]; [lia|].
    replace (offset + (d + chunk)) with ((off / 4096 + 1) * 4096) by div_lia. rewrite Z.mod_mul by lia. lia.
Qed.
End ReadLoop.

(** The bytes a read delivers. *)
Definition slice (data : list Z) (offset len : Z) : list Z :=
  take (Z.to_nat (Z.min len (Z.of_nat (length data) - offset))) (drop (Z.to_nat offset) data).

(** The cases of [vfs_read]; [S out] is the state in which [out] was delivered. *)
Definition read_spec (S : list Z -> kstate -> Prop) (k k' : kstate) (s : list Z) (len offset r : Z) : Prop :=
  match target (nodes k) (ramfs_root k) s with
  | inr e => r = e /\ k' = k
  | inl a =>
      exists nd, nodes k !! a = Some nd
        /\ if n_is_dir nd then r = VFS_ERR_ISDIR /\ k' = k
           else let out := slice (file_data (k_mem k) nd) offset len in
             r = Z.of_nat (length out) /\ S out k'
  end.

Section Read.
Context (put : Z -> list Z -> kernel unit) (S : list Z -> kstate -> Prop) (k : kstate) (len offset : Z).
Context (Hfs : fs_ok k) (Hda : data_ok k) (Hlen : 0 <= len) (Hoff : 0 <= offset) (Hmax : offset + len < 2 ^ 64).

Lemma slice_nil data : len <= 0 \/ Z.of_nat (length data) <= offset -> slice data offset len = [].
Proof using Type.
  intros H. unfold slice. destruct (decide (len <= 0)).
  - by replace (Z.to_nat (Z.min len (Z.of_nat (length data) - offset))) with 0%nat by lia.
  - by rewrite drop_ge, take_nil by lia.
Qed.

Lemma vfs_read_run s p :
  c_string s p -> S [] k ->
  (forall a nd l, nodes k !! a = Some nd -> n_is_dir nd = false -> l <= len ->
     Sink put a nd (file_data (k_mem k) nd) l S /\ forall out k', S out k' -> pages_ok k' nd) ->
  exists r k', vfs_read put (Some p) true len offset k = Ret r k' /\ read_spec S k k' s len offset r.
Proof using Hfs Hda Hlen Hoff Hmax.
  intros Hs HS0 Hsink. unfold vfs_read, read_spec, target. rewrite (bind_run _ _ _ _ _ (vfs_path_ok_run s p k Hs)).
  destruct (path_ok_spec s); cbn [negb]; [|by eexists _, _].
  unfold ramfs_read. cbn [bind gets]. rewrite (root_nonnull k Hfs). cbn [orb negb andb].
  rewrite (bind_run _ _ _ _ _ (lookup_run k (fs_tree _ Hfs) s p Hs)).
  destruct (lookup_spec _ _ s) as [a|] eqn:El; cbn [default from_option id]; [|by eexists _, _].
  destruct (lookup_node _ _ _ _ (fs_tree _ Hfs) El) as [Ha [nd Hnd]].
  rewrite (proj2 (Z.eqb_neq a NULL) Ha), (bind_run _ _ _ _ _ (load_node_run k a nd Hnd)).
  destruct (n_is_dir nd) eqn:Hdir; [by eexists _, _; split; [|exists nd; rewrite Hdir]|].
  pose proof (length_file_data (k_mem k) nd) as Hl. pose proof (pg_size _ _ (da_pages _ Hda _ _ Hnd)) as Hsz.
  pose proof (pg_count _ _ (da_pages _ Hda _ _ Hnd)) as Hcn.
  destruct (Z.eqb_spec len 0) as [E0|Hl0].
  { exists 0, k. split; [done|]. exists nd. rewrite Hdir. split; [done|]. cbn zeta.
    by rewrite slice_nil by lia. }
  destruct (Z.leb_spec (n_size nd) offset) as [E1|E1].
  { exists 0, k. split; [done|]. exists nd. rewrite Hdir. split; [done|]. cbn zeta.
    by rewrite slice_nil by lia. }
  rewrite u64_small by lia. set (n := if _ <? _ then _ else _).
  assert (Hn : n = Z.min len (n_size nd - offset)) by (unfold n; destruct (Z.ltb_spec (n_size nd) (offset + len)); lia).
  destruct (Hsink a nd n Hnd Hdir ltac:(lia)) as [HS Hpg].
  destruct (read_loop_run put a offset n nd (file_data (k_mem k) nd) S Hpg Hoff ltac:(lia) (page_fuel n) k 0)
    as (k' & H & HS'); [by rewrite take_0|lia|intros _; apply page_fuel_enough; lia|].
  exists n, k'. split; [exact H|]. exists nd. rewrite Hdir. split; [done|]. cbn zeta. unfold slice.
  replace (Z.min len (Z.of_nat (length (file_data (k_mem k) nd)) - offset)) with n by lia.
  split; [rewrite length_take, length_drop; lia|done].
Qed.
End Read.

(** *** The destinations *)

Section Kbuf.
Context (k : kstate) (buf : Z) (old : list Z) (Hb : o_bytes (k_obj k) !! buf = Some old).

(** [out] has been read into the kernel buffer at [buf]. *)
Definition kbuf_state (out : list Z) (k' : kstate) : Prop :=
  k' = with_obj (put_bytes buf (out ++ drop (length out) old) (k_obj k)) k.

Lemma kbuf_start : kbuf_state [] k.
Proof using Hb.
  unfold kbuf_state. cbn [app length]. rewrite drop_0.
  destruct k as [? ? ? ? ? ? ? [] ? ? ? ? ?]. unfold with_obj, put_bytes in *. cbn in *.
  do 2 f_equal. symmetry. by apply insert_id.
Qed.

Lemma kbuf_sink f nd cap :
  nodes k !! f = Some nd -> cap <= Z.of_nat (length old) ->
  Sink (put_kbuf buf) f nd (file_data (k_mem k) nd) cap kbuf_state.
Proof using Type.
  intros Hf Hcap. split.
  - intros out k' ->. by split.
  - intros out bs k' -> Hlen. rewrite length_app in Hlen. unfold put_kbuf.
    erewrite bind_run by (apply load_bytes_run; apply lookup_insert_eq).
    assert (Hl : length (out ++ drop (length out) old) = length old).
    { rewrite length_app, length_drop. lia. }
    rewrite Hl, (proj2 (Z.ltb_ge _ _)) by lia. rewrite Nat2Z.id, take_app_length.
    cbn [store_bytes upd_obj modify]. eexists. split; [reflexivity|]. unfold kbuf_state.
    assert (E : out ++ bs ++ drop (length out + length bs) (out ++ drop (length out) old)
              = (out ++ bs) ++ drop (length (out ++ bs)) old).
    { rewrite <- app_assoc, drop_app_ge by lia. rewrite drop_drop, length_app. do 3 f_equal. lia. }
    rewrite E. unfold put_bytes. cbn. by rewrite insert_insert_eq.
Qed.

Lemma kbuf_pages nd out k' : kbuf_state out k' -> pages_ok k nd -> pages_ok k' nd.
Proof using Type. intros ->. by apply pages_ok_runs. Qed.
End Kbuf.

(** No file has a byte in [base .. base + n - 1]. *)
Definition clear_of_files (k : kstate) (base n : Z) : Prop :=
  forall f nd a, nodes k !! f = Some nd -> base <= a < base + n -> ~ file_frame nd (a / 4096).

Section Phys.
Context (k : kstate) (base : Z).

(** [out] has been read into memory at [base]. *)
Definition phys_state (out : list Z) (k' : kstate) : Prop :=
  k' = with_mem (write_bytes (k_mem k) base out) k.

Lemma phys_start : phys_state [] k.
Proof using Type. unfold phys_state. cbn. by destruct k. Qed.

Lemma file_data_clear nd m n :
  pages_ok k nd -> (forall a, base <= a < base + n -> ~ file_frame nd (a / 4096)) ->
  (forall a, ~ (base <= a < base + n) -> rd8 m a = rd8 (k_mem k) a) ->
  file_data m nd = file_data (k_mem k) nd.
Proof using Type.
  intros Hp Hc Hm. apply file_data_ext; [done|]. intros i Hi. pose proof (pg_size _ _ Hp) as Hs.
  unfold file_byte. apply Hm. intros Hin. apply (Hc _ Hin). exists (i / 4096). split; [div_lia|].
  symmetry. apply (file_addr_frame k nd Hp). lia.
Qed.

Lemma phys_sink f nd cap l :
  nodes k !! f = Some nd -> pages_ok k nd -> clear_of_files k base cap -> l <= cap ->
  Sink (put_phys base) f nd (file_data (k_mem k) nd) l
    (fun out k' => phys_state out k' /\ Z.of_nat (length out) <= cap).
Proof using Type.
  intros Hf Hp Hc Hlc. split.
  - intros out k' [-> Hl]. split; [done|]. cbn [with_mem k_mem]. apply (file_data_clear nd _ cap Hp).
    + intros a. by apply (Hc f).
    + intros a Ha. rewrite rd8_write_bytes, decide_False by lia. done.
  - intros out bs k' [-> Hl] Hlen. unfold put_phys. rewrite copy_in_run by lia.
    rewrite drop_0, Nat2Z.id, take_ge by lia. eexists. split; [reflexivity|]. split; [|lia].
    unfold phys_state. rewrite write_bytes_app. done.
Qed.

Lemma phys_pages nd out k' : phys_state out k' -> pages_ok k nd -> pages_ok k' nd.
Proof using Type. intros ->. by apply pages_ok_runs. Qed.
End Phys.

(** ** exec_load *)

Definition exec_spec (k k' : kstate) (s : list Z) (base max r : Z) : Prop :=
  let sz := size_spec k s in
  if sz <? 0 then r = sz /\ k' = k
  else if sz =? 0 then r = VFS_ERR_INVAL /\ k' = k
  else if max <? sz then r = VFS_ERR_NOSPACE /\ k' = k
  else exists a nd, target (nodes k) (ramfs_root k) s = inl a /\ nodes k !! a = Some nd
    /\ let data := file_data (k_mem k) nd in
       r = Z.of_nat (length data)
       /\ (exists m, k' = with_mem m k)
       /\ mem_bytes (k_mem k') base max = data ++ replicate (Z.to_nat max - length data) 0
       /\ (forall x, ~ (base <= x < base + max) -> rd8 (k_mem k') x = rd8 (k_mem k) x).

Lemma mem_bytes_written m base n bs :
  Z.of_nat (length bs) <= n -> Forall byte bs -> 0 <= n ->
  mem_bytes (write_bytes (write_bytes m base (replicate (Z.to_nat n) 0)) base bs) base n
  = bs ++ replicate (Z.to_nat n - length bs) 0.
Proof.
  intros Hl Hb Hn. apply list_eq_same_length with (n := Z.to_nat n).
  - rewrite length_app, length_replicate. lia.
  - apply length_mem_bytes.
  - intros i x y Hi. rewrite lookup_mem_bytes by lia. intros [= <-].
    rewrite !rd8_write_bytes, length_replicate.
    destruct (decide (base <= base + Z.of_nat i < base + Z.of_nat (length bs))) as [Hin|Hout].
    + rewrite lookup_app_l by lia. replace (Z.to_nat (base + Z.of_nat i - base)) with i by lia.
      intros Hy. rewrite Hy. cbn. apply u8_small. rewrite Forall_lookup in Hb. by eapply Hb.
    + rewrite lookup_app_r by lia. intros [-> _]%lookup_replicate. rewrite decide_True by lia.
      replace (Z.to_nat (base + Z.of_nat i - base)) with i by lia.
      by rewrite lookup_replicate_2 by lia.
Qed.

Lemma file_data_byte m nd : bytes_ok m -> Forall byte (file_data m nd).
Proof. intros Hm. apply Forall_fmap, Forall_forall. intros i _. apply Hm. Qed.

Lemma slice_all data : slice data 0 (Z.of_nat (length data)) = data.
Proof. unfold slice. rewrite drop_0. apply take_ge. lia. Qed.

Section Exec.
Context (k : kstate) (base max : Z).
Context (Hfs : fs_ok k) (Hda : data_ok k) (Hm : bytes_ok (k_mem k)) (Hmax : 0 <= max < 2 ^ 63)
  (Hc : clear_of_files k base max).
Let k1 := with_mem (write_bytes (k_mem k) base (replicate (Z.to_nat max) 0)) k.

Lemma exec_cleared : fs_ok k1 /\ data_ok k1 /\ clear_of_files k1 base max.
Proof using Hfs Hda Hc.
  split; [by destruct Hfs|]. split; [|exact Hc]. destruct Hda as [H1 H2]. split; [|exact H2].
  intros a nd Ha. eapply pages_ok_runs; [|by eapply H1]. done.
Qed.

Lemma exec_read s p a nd :
  c_string s p -> target (nodes k) (ramfs_root k) s = inl a -> nodes k !! a = Some nd ->
  n_is_dir nd = false -> n_size nd <= max ->
  vfs_read (put_phys base) (Some p) true (n_size nd) 0 k1
  = Ret (n_size nd) (with_mem (write_bytes (k_mem k1) base (file_data (k_mem k) nd)) k1).
Proof using All.
  intros Hs Ht Hnd Hdir Hsz. destruct exec_cleared as (Hfs1 & Hda1 & Hc1).
  pose proof (pg_size _ _ (da_pages _ Hda _ _ Hnd)) as Hns. pose proof (pg_count _ _ (da_pages _ Hda _ _ Hnd)) as Hnc.
  assert (Hsame : file_data (k_mem k1) nd = file_data (k_mem k) nd).
  { apply (file_data_clear k base nd _ max (da_pages _ Hda _ _ Hnd)).
    - intros x Hx. by apply (Hc a).
    - intros x Hx. cbn [k1 with_mem k_mem]. rewrite rd8_write_bytes, length_replicate, decide_False by lia. done. }
  destruct (vfs_read_run (put_phys base)
    (fun out k' => phys_state k1 base out k' /\ Z.of_nat (length out) <= max) k1 (n_size nd) 0
    Hfs1 Hda1 ltac:(lia) ltac:(lia) ltac:(lia) s p Hs) as (r & k' & H & Hspec).
  - split; [apply phys_start|cbn; lia].
  - intros f v l Hf _ Hl. split.
    + apply phys_sink; [done|by apply (da_pages _ Hda1 f)|done|lia].
    + intros out k' [Ho _]. eapply phys_pages; [exact Ho|by apply (da_pages _ Hda1 f)].
  - rewrite H. unfold read_spec in Hspec. change (nodes k1) with (nodes k) in Hspec.
    change (ramfs_root k1) with (ramfs_root k) in Hspec. rewrite Ht in Hspec.
    destruct Hspec as (nd0 & Hnd0 & Hspec). rewrite Hnd in Hnd0. injection Hnd0 as <-. rewrite Hdir, Hsame in Hspec.
    pose proof (length_file_data (k_mem k) nd) as Hl.
    assert (E : slice (file_data (k_mem k) nd) 0 (n_size nd) = file_data (k_mem k) nd).
    { rewrite <- (slice_all (file_data (k_mem k) nd)) at 2. f_equal. lia. }
    rewrite E in Hspec. destruct Hspec as (-> & -> & _). f_equal. lia.
Qed.

Lemma exec_load_run s p :
  c_string s p -> exists r k', exec_load zero_phys put_phys (Some p) base max k = Ret r k' /\ exec_spec k k' s base max r.
Proof using All.
  intros Hs. unfold exec_load, exec_spec. rewrite (bind_run _ _ _ _ _ (vfs_size_run k s p Hfs Hs)).
  cbn zeta. destruct (Z.ltb_spec (size_spec k s) 0) as [|H0]; [by eexists _, _|].
  destruct (Z.eqb_spec (size_spec k s) 0) as [|Hn0]; [by eexists _, _|].
  destruct (Z.ltb_spec max (size_spec k s)) as [|Hle]; [by eexists _, _|].
  assert (exists a nd, target (nodes k) (ramfs_root k) s = inl a /\ nodes k !! a = Some nd
    /\ n_is_dir nd = false /\ size_spec k s = n_size nd) as (a & nd & Ht & Hnd & Hdir & Hsz).
  { unfold size_spec in *. destruct (target _ _ s) as [a|e] eqn:Et.
    - destruct (nodes k !! a) as [nd|] eqn:Ea; [|by unfold VFS_ERR_NOTFOUND in H0].
      destruct (n_is_dir nd) eqn:Ed; [by unfold VFS_ERR_ISDIR in H0|]. by exists a, nd.
    - unfold target in Et. destruct (negb _); [injection Et as <-; by unfold VFS_ERR_BADPATH in H0|].
      destruct (lookup_spec _ _ s); [done|]. injection Et as <-. by unfold VFS_ERR_NOTFOUND in H0. }
  rewrite Hsz in *. pose proof (length_file_data (k_mem k) nd) as Hl.
  rewrite (bind_run _ _ _ _ _ (memset_run base 0 max k)). fold k1.
  rewrite (bind_run _ _ _ _ _ (exec_read s p a nd Hs Ht Hnd Hdir Hle)), Z.eqb_refl. cbn [negb].
  eexists _, _. split; [reflexivity|]. exists a, nd. split; [done|]. split; [done|].
  split; [lia|]. split; [by eexists|]. split.
  - cbn [with_mem k_mem k1]. apply mem_bytes_written; [lia|by apply file_data_byte|lia].
  - intros x Hx. cbn [with_mem k_mem k1]. rewrite !rd8_write_bytes, length_replicate.
    by rewrite !decide_False by lia.
Qed.
End Exec.

Lemma vfs_read_kbuf_run k s p buf old len offset :
  fs_ok k -> data_ok k -> c_string s p -> o_bytes (k_obj k) !! buf = Some old ->
  0 <= len <= Z.of_nat (length old) -> 0 <= offset -> offset + len < 2 ^ 64 ->
  exists r k', vfs_read (put_kbuf buf) (Some p) true len offset k = Ret r k'
    /\ read_spec (kbuf_state k buf old) k k' s len offset r.
Proof.
  intros Hfs Hda Hs Hb Hlen Hoff Hmax.
  apply (vfs_read_run _ _ k len offset Hfs Hda ltac:(lia) Hoff Hmax s p Hs); [by apply kbuf_start|].
  intros a nd l Ha _ Hl. split; [by apply kbuf_sink; [|lia]|].
  intros out k' Ho. eapply kbuf_pages; [exact Ho|by apply (da_pages _ Hda a)].
Qed.


Lemma slice_overlay old off bs :
  0 <= off <= Z.of_nat (length old) -> slice (overlay old off bs) off (Z.of_nat (length bs)) = bs.
Proof.
  intros H. unfold slice. rewrite length_overlay by done. unfold overlay.
  rewrite drop_app_ge by (rewrite length_take; lia).
  rewrite length_take. replace (Z.to_nat off - _ `min` _)%nat with 0%nat by lia. rewrite drop_0.
  apply take_app_length'. lia.
Qed.

Lemma target_changed k k' f nd nd' s :
  file_changed k k' f nd nd' -> target (nodes k') (ramfs_root k') s = target (nodes k) (ramfs_root k) s.
Proof.
  intros H. unfold target, lookup_spec. pose proof (fc_paths _ _ _ _ _ H []) as [= Hroot].
  assert (E : forall ws, resolve (nodes k') (ramfs_root k') ws = resolve (nodes k) (ramfs_root k) ws)
    by exact (fc_paths _ _ _ _ _ H).
  destruct (negb _); [done|]. case_bool_decide; [by rewrite Hroot|]. destruct (path_names s); [by rewrite E|done].
Qed.

Lemma write_read_back k s p src len offset k1 buf old :
  mem_ok k -> fs_ok k -> data_ok k -> c_string s p -> Forall byte src ->
  0 < len <= Z.of_nat (length src) -> 0 <= offset -> offset + len < 2 ^ 64 ->
  write_spec k k1 s src len offset len ->
  o_bytes (k_obj k) !! buf = Some old -> len <= Z.of_nat (length old) ->
  exists k2, vfs_read (put_kbuf buf) (Some p) true len offset k1 = Ret len k2
    /\ exists rest, o_bytes (k_obj k2) !! buf = Some (take (Z.to_nat len) src ++ rest).
Proof.
  intros Hok Hfs Hda Hs Hb Hlen Hoff Hmax Hspec Hbuf Hcap.
  unfold write_spec in Hspec.
  destruct (target (nodes k) (ramfs_root k) s) as [a|e] eqn:Et; cycle 1.
  { destruct Hspec as [-> _]. unfold target in Et. destruct (negb _); [injection Et as <-; unfold VFS_ERR_BADPATH in *; lia|].
    destruct (lookup_spec _ _ s); [done|]. injection Et as <-. unfold VFS_ERR_NOTFOUND in *. lia. }
  destruct Hspec as (nd & Hnd & Hspec). unfold VFS_ERR_ISDIR, VFS_ERR_INVAL, VFS_ERR_NOSPACE in Hspec.
  destruct (n_is_dir nd) eqn:Hdir; [lia|]. rewrite (proj2 (Z.eqb_neq len 0)) in Hspec by lia.
  destruct (Z.ltb_spec (n_size nd) offset); [lia|]. destruct (VFS_MAX_FILE_SIZE <? offset + len); [lia|].
  destruct Hspec as (nd' & Hnd' & Hch & [[_ Hdata]|[Hbad _]]); [|unfold VFS_ERR_NOSPACE in Hbad; lia].
  assert (Hbuf1 : o_bytes (k_obj k1) !! buf = Some old).
  { destruct (fc_state _ _ _ _ _ Hch) as (q & m & ->). exact Hbuf. }
  destruct (vfs_read_kbuf_run k1 s p buf old len offset (fc_fs _ _ _ _ _ Hch) (fc_data _ _ _ _ _ Hch)
    Hs Hbuf1 ltac:(lia) Hoff Hmax) as (r & k2 & H2 & Hspec).
  unfold read_spec in Hspec. rewrite (target_changed _ _ _ _ _ s Hch), Et in Hspec.
  destruct Hspec as (nd1 & Hnd1 & Hspec). rewrite Hnd' in Hnd1. injection Hnd1 as <-.
  pose proof (length_file_data (k_mem k) nd) as Hl. pose proof (pg_size _ _ (da_pages _ Hda _ _ Hnd)).
  destruct (fc_links _ _ _ _ _ Hch) as (_ & Hd' & _). rewrite Hd', Hdir, Hdata in Hspec.
  assert (Hbs : Z.of_nat (length (take (Z.to_nat len) src)) = len) by (rewrite length_take; lia).
  pose proof (slice_overlay (file_data (k_mem k) nd) offset (take (Z.to_nat len) src) ltac:(lia)) as Hsl.
  rewrite Hbs in Hsl. cbn zeta in Hspec. rewrite Hsl in Hspec. destruct Hspec as [-> ->]. exists (with_obj (put_bytes buf (take (Z.to_nat len) src
    ++ drop (length (take (Z.to_nat len) src)) old) (k_obj k1)) k1).
  split; [by rewrite H2, Hbs|]. eexists. apply lookup_insert_eq.
Qed.

(** *** An example: an empty file "/ab" and a kernel buffer *)

(** Creating a node keeps the pages of the files apart. *)
Lemma created_data_ok k k' ws d n : created k k' ws d n -> fs_ok k -> data_ok k -> data_ok k'.
Proof.
  intros Hc Hfs [Hp Hd]. destruct (cr_frame _ _ _ _ _ Hc) as [parent He].
  destruct (cr_node _ _ _ _ _ Hc) as (new & Hnew & _ & Hsz & Hcnt & Hlen).
  assert (Hruns : forall page m, owned_run k page m -> owned_run k' page m).
  { intros page m Ho. apply (ex_runs _ _ _ _ _ He); [done|]. set_solver. }
  assert (Hcase : forall a v, nodes k' !! a = Some v ->
    a = n /\ v = new \/ exists v0, nodes k !! a = Some v0 /\ same_file v0 v).
  { intros a v Ha. destruct (decide (a = n)) as [->|Hne]; [left; split; [done|congruence]|right].
    destruct (nodes k !! a) as [v0|] eqn:E.
    - destruct (cr_keep _ _ _ _ _ Hc _ _ E) as (v' & Hv' & Hs). exists v0. split; [done|congruence].
    - exfalso. apply (cr_only _ _ _ _ _ Hc a); [|done|done]. by eexists. }
  split.
  - intros a v Ha. destruct (Hcase a v Ha) as [[-> ->]|(v0 & Hv0 & _ & _ & H1 & H2 & H3)].
    + split; [done|lia|lia|intros i; lia|intros i j; lia].
    + apply (pages_ok_runs k k'); [done|]. destruct (Hp _ _ Hv0) as [? ? ? Hown Honce]. unfold page_at in *.
      split; unfold page_at; rewrite ?H1, ?H2, ?H3; done.
  - intros a b va vb i j Ha Hb Hi Hj. 
    destruct (Hcase a va Ha) as [[-> ->]|(v0 & Hv0 & _ & _ & H1 & H2 & H3)]; [lia|].
    destruct (Hcase b vb Hb) as [[-> ->]|(w0 & Hw0 & _ & _ & G1 & G2 & G3)]; [lia|].
    unfold page_at. rewrite H2, G2. apply (Hd a b v0 w0 i j Hv0 Hw0); lia.
Qed.

Lemma created_target k k' ws d n s :
  created k k' ws d n -> path_ok_spec s = true -> path_names s = Some ws -> s <> [SLASH] ->
  target (nodes k') (ramfs_root k') s = inl n.
Proof.
  intros Hc H1 H2 H3. unfold target, lookup_spec. rewrite H1, H2, bool_decide_eq_false_2 by done.
  cbn [negb]. by rewrite (cr_paths _ _ _ _ _ Hc), decide_True.
Qed.

(** A kernel buffer added to a state. *)
Definition with_buffer (a : Z) (bs : list Z) (k : kstate) : kstate :=
  with_obj (put_bytes a bs (k_obj k)) k.

Lemma with_buffer_ok a bs k :
  mem_ok k -> fs_ok k -> data_ok k ->
  mem_ok (with_buffer a bs k) /\ fs_ok (with_buffer a bs k) /\ data_ok (with_buffer a bs k).
Proof.
  intros Hm [Ht Hl] [Hp Hd]. split; [done|]. split; [by split|]. split; [|done].
  intros f nd Hf. apply (pages_ok_runs k); [done|by eapply Hp].
Qed.

Lemma k_fs_data : data_ok k_fs.
Proof.
  assert (En : nodes k_fs = {[0x100018 := new_node (replicate 64 0) true]}) by done.
  split; rewrite En.
  - intros a nd [_ <-]%lookup_singleton_Some.
    split; [done|cbn; lia|cbn; lia|intros i Hi; cbn in Hi; lia|intros i j Hi; cbn in Hi; lia].
  - intros a b va vb i j [_ <-]%lookup_singleton_Some _ Hi. cbn in Hi. lia.
Qed.

Definition k_file : kstate :=
  match vfs_create (Some p_ab) false k_fs with
  | Ret _ k => with_buffer 0x300000 [0; 0; 0; 0] k
  | _ => k_fs
  end.

Lemma k_file_created : exists n k', k_file = with_buffer 0x300000 [0; 0; 0; 0] k'
  /\ created k_fs k' [[97; 98]] false n.
Proof.
  pose proof (ramfs_create_run k_fs [SLASH; 97; 98] p_ab false k_fs_mem k_fs_ok p_ab_string) as H.
  assert (E : create_target (nodes k_fs) (ramfs_root k_fs) [SLASH; 97; 98] = Absent [[97; 98]])
    by (vm_compute; reflexivity).
  assert (R : match vfs_create (Some p_ab) false k_fs with Ret r _ => r | _ => 1 end = 0)
    by (vm_compute; reflexivity).
  assert (Hv : vfs_create (Some p_ab) false k_fs = ramfs_create (Some p_ab) false k_fs).
  { unfold vfs_create. exact (bind_run _ _ _ _ _ (vfs_path_ok_run _ p_ab k_fs p_ab_string)). }
  unfold k_file. rewrite Hv in *. rewrite E in H.
  destruct H as [H|(n & k' & H & Hc)]; rewrite H in R |- *; [discriminate R|].
  exists n, k'. split; [reflexivity|exact Hc].
Qed.

Lemma k_file_ok :
  mem_ok k_file /\ fs_ok k_file /\ data_ok k_file /\ o_bytes (k_obj k_file) !! 0x300000 = Some [0; 0; 0; 0]
  /\ exists a nd, target (nodes k_file) (ramfs_root k_file) [SLASH; 97; 98] = inl a
       /\ nodes k_file !! a = Some nd /\ n_is_dir nd = false /\ n_size nd = 0.
Proof.
  destruct k_file_created as (n & k' & -> & Hc).
  destruct (with_buffer_ok 0x300000 [0; 0; 0; 0] k' (cr_mem _ _ _ _ _ Hc) (cr_fs _ _ _ _ _ Hc)
    (created_data_ok _ _ _ _ _ Hc k_fs_ok k_fs_data)) as (H1 & H2 & H3).
  split; [exact H1|]. split; [exact H2|]. split; [exact H3|]. split; [apply lookup_insert_eq|].
  destruct (cr_node _ _ _ _ _ Hc) as (nd & Hnd & Hdir & Hsz & _). exists n, nd.
  split; [|split; [exact Hnd|split; [exact Hdir|exact Hsz]]].
  apply (created_target _ _ _ _ _ _ Hc); done.
Qed.

Lemma ret_inj {S A} (a b : A) (s t : S) : Ret a s = Ret b t -> a = b /\ s = t.
Proof. by intros [= -> ->]. Qed.

(** The same after "Hi!" was written to the file. *)
Definition k_prog : kstate :=
  match vfs_write (Some p_ab) (Some [72; 105; 33]) 3 0 k_file with Ret _ k => k | _ => k_file end.

Lemma k_prog_write : vfs_write (Some p_ab) (Some [72; 105; 33]) 3 0 k_file = Ret 3 k_prog.
Proof.
  assert (R : match vfs_write (Some p_ab) (Some [72; 105; 33]) 3 0 k_file with Ret r _ => r | _ => 0 end = 3)
    by (vm_compute; reflexivity).
  unfold k_prog. destruct (vfs_write _ _ _ _ _) as [r k|k|]; [by rewrite R|discriminate R..].
Qed.

Lemma k_prog_ok :
  mem_ok k_prog /\ fs_ok k_prog /\ data_ok k_prog
  /\ exists a nd, target (nodes k_prog) (ramfs_root k_prog) [SLASH; 97; 98] = inl a
       /\ nodes k_prog !! a = Some nd /\ n_is_dir nd = false
       /\ file_data (k_mem k_prog) nd = [72; 105; 33].
Proof.
  destruct k_file_ok as (H1 & H2 & H3 & _ & a & nd & Ht & Hn & Hd & Hs).
  destruct (vfs_write_run k_file [SLASH; 97; 98] p_ab [72; 105; 33] 3 0 H1 H2 H3 p_ab_string)
    as (r & k' & H & Hspec); [repeat constructor; unfold byte; lia|cbn; lia|lia|lia|].
  destruct (ret_inj _ _ _ _ (eq_trans (eq_sym k_prog_write) H)) as [Er Ek]. subst r k'.
  unfold write_spec in Hspec. rewrite Ht in Hspec.
  destruct Hspec as (nd0 & Hn0 & Hspec). rewrite Hn in Hn0. injection Hn0 as <-. rewrite Hd, Hs in Hspec.
  change (0 <? 0) with false in Hspec. change (VFS_MAX_FILE_SIZE <? 0 + 3) with false in Hspec.
  destruct Hspec as (nd' & Hn' & Hch & [[_ Hdata]|[Hbad _]]); [|discriminate Hbad].
  split; [exact (fc_mem _ _ _ _ _ Hch)|]. split; [exact (fc_fs _ _ _ _ _ Hch)|].
  split; [exact (fc_data _ _ _ _ _ Hch)|]. exists a, nd'.
  split; [rewrite (target_changed _ _ _ _ _ _ Hch); exact Ht|]. split; [exact Hn'|].
  split; [destruct (fc_links _ _ _ _ _ Hch) as (_ & -> & _); exact Hd|]. rewrite Hdata.
  assert (E : file_data (k_mem k_file) nd = []) by (unfold file_data; rewrite Hs; reflexivity).
  rewrite E. reflexivity.
Qed.

Lemma k_prog_bytes : bytes_ok (k_mem k_prog).
Proof.
  assert (H : map_Forall (fun _ v => 0 <= v < 256) (k_mem k_prog)).
  { apply (bool_decide_unpack _). vm_compute. exact I. }
  intros a. unfold byte, rd8. destruct (k_mem k_prog !! a) as [v|] eqn:E; cbn; [by apply (H a)|lia].
Qed.

Lemma k_prog_clear : clear_of_files k_prog 0x500000 8192.
Proof.
  assert (E : FRAME_COUNT (k_pmm k_prog) = 264) by (vm_compute; reflexivity).
  destruct k_prog_ok as (_ & _ & H3 & _). intros f nd a Hf Ha (i & Hi & Efr).
  destruct (pg_own _ _ (da_pages _ H3 _ _ Hf) i Hi) as (_ & _ & Hlt & _). rewrite E, Efr in Hlt. div_lia.
Qed.

(** ** Properties *)

(** C6: [vfs_write] never leaves the file system inconsistent and answers every
    request: path errors, ISDIR, a gap behind the end (INVAL) and a file over
    32 KiB (NOSPACE) change nothing; otherwise the bytes replace or extend the
    contents at the offset, no other file, path, owned page or foreign byte
    changes, and running out of memory leaves the size as it was. *)
Theorem vfs_write_correct k s p src len offset :
  mem_ok k -> fs_ok k -> data_ok k -> c_string s p -> Forall byte src ->
  0 <= len <= Z.of_nat (length src) -> 0 <= offset -> offset + len < 2 ^ 64 ->
  exists r k', vfs_write (Some p) (Some src) len offset k = Ret r k' /\ write_spec k k' s src len offset r.
Proof. apply vfs_write_run. Qed.

Lemma vfs_write_correct_witness :
  exists r k' a nd, vfs_write (Some p_ab) (Some [72; 105; 33]) 3 0 k_file = Ret r k'
    /\ write_outcome k_file k' a nd [72; 105; 33] 3 0 r.
Proof.
  destruct k_file_ok as (H1 & H2 & H3 & _ & a & nd & Ht & Hn & Hd & Hs).
  destruct (vfs_write_correct k_file [SLASH; 97; 98] p_ab [72; 105; 33] 3 0 H1 H2 H3 p_ab_string)
    as (r & k' & H & Hspec); [repeat constructor; unfold byte; lia|cbn; lia|lia|lia|].
  exists r, k', a, nd. split; [exact H|]. unfold write_spec in Hspec. rewrite Ht in Hspec.
  destruct Hspec as (nd' & Hn' & Hspec). rewrite Hn in Hn'. injection Hn' as <-. rewrite Hd, Hs in Hspec.
  exact Hspec.
Defined.

(** C14: [vfs_read] into a kernel buffer delivers exactly the bytes of the file
    from the offset on, at most [len] of them, none at or behind the end; the
    rest of the buffer and everything else is as before. *)
Theorem vfs_read_correct k s p buf old len offset :
  fs_ok k -> data_ok k -> c_string s p -> o_bytes (k_obj k) !! buf = Some old ->
  0 <= len <= Z.of_nat (length old) -> 0 <= offset -> offset + len < 2 ^ 64 ->
  exists r k', vfs_read (put_kbuf buf) (Some p) true len offset k = Ret r k'
    /\ read_spec (kbuf_state k buf old) k k' s len offset r.
Proof. apply vfs_read_kbuf_run. Qed.

Lemma vfs_read_correct_witness :
  exists k', vfs_read (put_kbuf 0x300000) (Some p_ab) true 4 0 k_file = Ret 0 k'.
Proof.
  destruct k_file_ok as (_ & H2 & H3 & H4 & a & nd & Ht & Hn & Hd & Hs).
  destruct (vfs_read_correct k_file [SLASH; 97; 98] p_ab 0x300000 [0; 0; 0; 0] 4 0 H2 H3 p_ab_string H4)
    as (r & k' & H & Hspec); [cbn; lia|lia|lia|].
  unfold read_spec in Hspec. rewrite Ht in Hspec.
  destruct Hspec as (nd' & Hn' & Hspec). rewrite Hn in Hn'. injection Hn' as <-. rewrite Hd in Hspec.
  exists k'. rewrite H. destruct Hspec as [-> _]. rewrite slice_nil; [reflexivity|].
  right. rewrite length_file_data, Hs. cbn. lia.
Defined.

(** C1: what [vfs_write] stored, [vfs_read] of the same range returns: after a
    write that reports [len] bytes, reading [len] bytes at the same offset into a
    buffer that holds them yields the bytes written. *)
Theorem vfs_write_read_roundtrip k s p src len offset buf old :
  mem_ok k -> fs_ok k -> data_ok k -> c_string s p -> Forall byte src ->
  0 < len <= Z.of_nat (length src) -> 0 <= offset -> offset + len < 2 ^ 64 ->
  o_bytes (k_obj k) !! buf = Some old -> len <= Z.of_nat (length old) ->
  exists r k1, vfs_write (Some p) (Some src) len offset k = Ret r k1
    /\ (r = len ->
        exists k2, vfs_read (put_kbuf buf) (Some p) true len offset k1 = Ret len k2
          /\ exists rest, o_bytes (k_obj k2) !! buf = Some (take (Z.to_nat len) src ++ rest)).
Proof.
  intros Hok Hfs Hda Hs Hb Hlen Hoff Hmax Hbuf Hcap.
  destruct (vfs_write_run k s p src len offset Hok Hfs Hda Hs Hb ltac:(lia) Hoff Hmax) as (r & k1 & H & Hspec).
  exists r, k1. split; [exact H|]. intros ->. by eapply write_read_back.
Qed.

Lemma vfs_write_read_roundtrip_witness :
  exists k1 k2 rest, vfs_write (Some p_ab) (Some [72; 105; 33]) 3 0 k_file = Ret 3 k1
    /\ vfs_read (put_kbuf 0x300000) (Some p_ab) true 3 0 k1 = Ret 3 k2
    /\ o_bytes (k_obj k2) !! 0x300000 = Some ([72; 105; 33] ++ rest).
Proof.
  destruct k_file_ok as (H1 & H2 & H3 & H4 & _).
  destruct (vfs_write_read_roundtrip k_file [SLASH; 97; 98] p_ab [72; 105; 33] 3 0 0x300000 [0; 0; 0; 0]
    H1 H2 H3 p_ab_string) as (r & k1 & H & Hread);
    [repeat constructor; unfold byte; lia|cbn; lia|lia|lia|exact H4|cbn; lia|].
  destruct (ret_inj _ _ _ _ (eq_trans (eq_sym H) k_prog_write)) as [-> _].
  destruct (Hread eq_refl) as (k2 & Hr & rest & Hb). exists k1, k2, rest.
  split; [exact H|]. split; [exact Hr|exact Hb].
Defined.


