(* ===== verification/Vmm.v ===== *)
(** * mm/vmm.c: page tables

    A page table is a page of 512 words of [k_mem]; the kernel reaches it at its
    physical address, through the identity mapping of low memory.  [Paging] has
    the theory of the tables and the theorems. *)

From S2P Require Import Prelude State Console Utils Mem Pmm Heap Objects.
From stdpp Require Import strings.
#[local] Open Scope Z_scope.

Definition USER_CODE_VIRT : Z := 0x400000.
Definition USER_STACK_TOP : Z := 0x450000.
Definition USER_STACK_PAGE : Z := USER_STACK_TOP - 0x1000.
Definition USER_HEAP_BASE : Z := 0x410000.
Definition USER_MMIO_MIN : Z := 0x40000000.
Definition USER_MMIO_MAX : Z := 0x80000000.
Definition PROG_BASE : Z := 0x500000.
Definition PROG_PAGES : Z := 16.
Definition PROG_MAX : Z := PROG_PAGES * 4096.
Definition PROG_STACK_TOP : Z := 0x600000.
Definition PROG_STACK_PAGE : Z := PROG_STACK_TOP - 0x1000.

Definition pml4_index (virt : Z) : Z := Z.land (Z.shiftr virt 39) 0x1FF.
Definition pdpt_index (virt : Z) : Z := Z.land (Z.shiftr virt 30) 0x1FF.
Definition pd_index (virt : Z) : Z := Z.land (Z.shiftr virt 21) 0x1FF.
Definition pt_index (virt : Z) : Z := Z.land (Z.shiftr virt 12) 0x1FF.

(** The bits of an entry. *)
Definition present (e : Z) : bool := negb (Z.land e 0x01 =? 0).
Definition writable (e : Z) : bool := negb (Z.land e 0x02 =? 0).
Definition user_bit (e : Z) : bool := negb (Z.land e 0x04 =? 0).

Definition load_entry (table i : Z) : kernel Z := load64 (table + 8 * i).
Definition store_entry (table i e : Z) : kernel unit := store64 (table + 8 * i) e.

Definition print_err (s : String.string) : kernel unit := on_con (kprintferr (cstr s) 0x0F).

(** ** kvmm_init: 4 KiB pages for the first GiB *)

Definition init_pt (i pt_phys : Z) : kernel unit :=
  for_range (trips 0 512) 0 (fun j =>
    store_entry pt_phys j (Z.lor (i * 0x200000 + j * 0x1000) 0x03)).

Definition kvmm_init : kernel bool :=
  cr3 <- read_cr3 ;;
  _ <- modify (with_kernel_cr3 (page_base cr3)) ;;
  pml4e <- load_entry (page_base cr3) 0 ;;
  pdpte <- load_entry (page_base pml4e) 0 ;;
  let pd := page_base pdpte in
  r <- for_until (trips 0 512) 0 (fun i =>
    pt_phys <- kpalloc ;;
    if pt_phys =? NULL then
      _ <- print_err "Failed to allocate memory for PT entry." ;; ret (Some tt)
    else
    _ <- init_pt i pt_phys ;;
    _ <- store_entry pd i (Z.lor pt_phys 0x03) ;;
    ret None) ;;
  match r with
  | Some _ => ret false
  | None => _ <- write_cr3 cr3 ;; ret true
  end.

(** ** The walk *)

(** The address of the leaf entry, 0 if a table is missing. *)
Definition kget_pte_addr_at (cr3 virt : Z) : kernel Z :=
  flags <- irq_save ;;
  pml4e <- load_entry (page_base cr3) (pml4_index virt) ;;
  if negb (present pml4e) then _ <- write_flags flags ;; ret 0 else
  pdpte <- load_entry (page_base pml4e) (pdpt_index virt) ;;
  if negb (present pdpte) then _ <- write_flags flags ;; ret 0 else
  pde <- load_entry (page_base pdpte) (pd_index virt) ;;
  if negb (present pde) then _ <- write_flags flags ;; ret 0 else
  _ <- write_flags flags ;;
  ret (page_base (page_base pde) + 8 * pt_index virt).

Definition kget_pte_addr (virt : Z) : kernel Z := cr3 <- read_cr3 ;; kget_pte_addr_at cr3 virt.

Definition kget_phys_page_addr_at (cr3 virt : Z) : kernel Z :=
  pte <- kget_pte_addr_at cr3 virt ;;
  if pte =? NULL then ret 0 else e <- load64 pte ;; ret (page_base e).

Definition kget_phys_page_addr (virt : Z) : kernel Z :=
  cr3 <- read_cr3 ;; kget_phys_page_addr_at cr3 virt.

(** [if ((cr3 & ~0xFFF) == (read_cr3() & ~0xFFF)) invlpg(virt)] *)
Definition flush_page (cr3 virt : Z) : kernel unit :=
  active <- read_cr3 ;;
  if page_base cr3 =? page_base active then invlpg virt else ret tt.

(** ** Unmapping *)

Definition kvmunmap_and_free_at (cr3 virt : Z) : kernel bool :=
  flags <- irq_save ;;
  pte <- kget_pte_addr_at cr3 virt ;;
  if pte =? NULL then _ <- write_flags flags ;; ret false else
  e <- load64 pte ;;
  _ <- kpfree (page_base e) ;;
  _ <- store64 pte 0 ;;
  _ <- flush_page cr3 virt ;;
  _ <- write_flags flags ;;
  ret true.

Definition kvmunmap_and_free (virt : Z) : kernel bool :=
  cr3 <- read_cr3 ;; kvmunmap_and_free_at cr3 virt.

Definition kvmunmap_at (cr3 virt : Z) : kernel bool :=
  flags <- irq_save ;;
  pte <- kget_pte_addr_at cr3 virt ;;
  if pte =? NULL then _ <- write_flags flags ;; ret false else
  e <- load64 pte ;;
  if negb (present e) then _ <- write_flags flags ;; ret false else
  _ <- store64 pte 0 ;;
  _ <- flush_page cr3 virt ;;
  _ <- write_flags flags ;;
  ret true.

Definition kvmunmap (virt : Z) : kernel bool := cr3 <- read_cr3 ;; kvmunmap_at cr3 virt.

(** ** Mapping *)

(** One level of the descent of [kvmmap_at]: the table behind entry [i], made
    and zeroed when it is missing. *)
Definition ensure_table (table i table_flags : Z) (msg : String.string) : kernel Z :=
  e <- load_entry table i ;;
  if negb (present e) then
    p <- kpalloc ;;
    if p =? NULL then _ <- print_err msg ;; hang else
    _ <- for_range (trips 0 512) 0 (fun j => store_entry p j 0) ;;
    _ <- store_entry table i (Z.lor p table_flags) ;;
    ret p
  else ret (page_base e).

(** [table\[i\] |= 0x04] *)
Definition set_user (table i : Z) : kernel unit :=
  e <- load_entry table i ;; store_entry table i (Z.lor e 0x04).

Definition kvmmap_at (cr3 virt phys flags : Z) : kernel bool :=
  flags' <- irq_save ;;
  let user := negb (Z.land flags 0x04 =? 0) in
  let table_flags := if user then Z.lor 0x03 0x04 else 0x03 in
  let pml4 := page_base cr3 in
  pdpt <- ensure_table pml4 (pml4_index virt) table_flags "Failed to allocate PDPT entry." ;;
  pd <- ensure_table pdpt (pdpt_index virt) table_flags "Failed to allocate PD entry." ;;
  pt <- ensure_table pd (pd_index virt) table_flags "Failed to allocate PD entry." ;;
  _ <- (if user then
          _ <- set_user pml4 (pml4_index virt) ;;
          _ <- set_user pdpt (pdpt_index virt) ;;
          set_user pd (pd_index virt)
        else ret tt) ;;
  _ <- store_entry pt (pt_index virt) (Z.lor (page_base phys) flags) ;;
  _ <- flush_page cr3 virt ;;
  _ <- write_flags flags' ;;
  ret true.

Definition kvmmap (virt phys flags : Z) : kernel bool :=
  flags' <- irq_save ;;
  cr3 <- read_cr3 ;;
  _ <- kvmmap_at cr3 virt phys flags ;;
  _ <- write_cr3 cr3 ;;
  _ <- write_flags flags' ;;
  ret true.

(** ** User address spaces *)

Definition is_shared_user_page (virt : Z) : kernel bool :=
  size <- gets init_blob_size ;;
  let code_page_count := (size + 4095) / 4096 in
  if (USER_CODE_VIRT <=? virt) && (virt <? USER_CODE_VIRT + code_page_count) then ret true else
  ret ((USER_STACK_PAGE <=? virt) && (virt <? USER_STACK_TOP)).

(** The entries [0 .. n - 1] of a table that are present and accepted by [p] give
    their frames back.  A table at NULL is no object. *)
Definition free_entries (p : Z -> bool) (table n : Z) : kernel unit :=
  for_range (trips 0 n) 0 (fun j =>
    if table =? NULL then stuck else
    e <- load_entry table j ;;
    if present e && p e then kpfree (page_base e) else ret tt).

(** The copy of one page table: shared pages stay, other user pages are
    duplicated, kernel pages stay.  [fail i] cleans up when a page is missing. *)
Definition clone_pt (old new base : Z) (fail : Z -> kernel unit) : kernel (option unit) :=
  for_until (trips 0 512) 0 (fun i =>
    e <- load_entry old i ;;
    if negb (present e) then ret None else
    shared <- is_shared_user_page (base + i * 4096) ;;
    if shared then _ <- store_entry new i e ;; ret None else
    if user_bit e then
      np <- kpalloc ;;
      if np =? NULL then _ <- fail i ;; ret (Some tt) else
      _ <- memcpy np (page_base e) 0x1000 ;;
      _ <- store_entry new i (Z.lor (page_base np) (Z.land e 0xFFF)) ;; ret None
    else _ <- store_entry new i e ;; ret None).

(** [(phys & ~0xFFF) | 0x03 | (old & 0x04)] *)
Definition table_entry (phys old : Z) : Z :=
  Z.lor (Z.lor (page_base phys) 0x03) (Z.land old 0x04).

Definition free_all (pages : list Z) : kernel unit :=
  foldr (fun p rest => _ <- kpfree p ;; rest) (ret tt) pages.

(** The part of [kvmm_create_user_pml4] that builds the table of 0x400000; the
    pages of [made] go back on a failure.  [None] is the failure. *)
Definition clone_code (old_pd new_pd : Z) (made : list Z) : kernel (option Z) :=
  e <- load_entry old_pd 2 ;;
  if negb (present e) then _ <- store_entry new_pd 2 0 ;; ret (Some NULL) else
  new_pt2 <- kpalloc ;;
  if new_pt2 =? NULL then _ <- free_all made ;; ret None else
  _ <- memset new_pt2 0 0x1000 ;;
  r <- clone_pt (page_base e) new_pt2 USER_CODE_VIRT (fun i =>
         _ <- free_entries user_bit new_pt2 i ;; free_all (made ++ [new_pt2])) ;;
  match r with
  | Some _ => ret None
  | None =>
      old <- load_entry new_pd 2 ;;
      _ <- store_entry new_pd 2 (table_entry new_pt2 old) ;; ret (Some new_pt2)
  end.

(** The part that builds the table of 0x600000. *)
Definition clone_stack (old_pd new_pd new_pt2 : Z) (made : list Z) : kernel (option Z) :=
  e <- load_entry old_pd 3 ;;
  if negb (present e) then _ <- store_entry new_pd 3 0 ;; ret (Some NULL) else
  new_pt3 <- kpalloc ;;
  if new_pt3 =? NULL then
    _ <- free_entries (fun _ => true) new_pt2 512 ;; _ <- free_all (made ++ [new_pt2]) ;; ret None
  else
  _ <- memset new_pt3 0 0x1000 ;;
  r <- clone_pt (page_base e) new_pt3 PROG_STACK_TOP (fun i =>
         _ <- free_entries user_bit new_pt3 i ;;
         _ <- free_entries user_bit new_pt2 512 ;;
         free_all (made ++ [new_pt2; new_pt3])) ;;
  match r with
  | Some _ => ret None
  | None =>
      old <- load_entry new_pd 3 ;;
      _ <- store_entry new_pd 3 (table_entry new_pt3 old) ;; ret (Some new_pt3)
  end.

(** Every way out restores the interrupt flag: the body returns 0 or the root. *)
Definition create_user_tables : kernel Z :=
  new_pml4 <- kpalloc ;;
  if new_pml4 =? NULL then ret 0 else
  old_cr3 <- read_cr3 ;;
  let old_pml4 := page_base old_cr3 in
  _ <- memset new_pml4 0 0x1000 ;;
  _ <- for_range (trips 1 512) 1 (fun i => e <- load_entry old_pml4 i ;; store_entry new_pml4 i e) ;;
  new_pdpt <- kpalloc ;;
  if new_pdpt =? NULL then _ <- free_all [new_pml4] ;; ret 0 else
  e <- load_entry old_pml4 0 ;;
  let old_pdpt := page_base e in
  _ <- memcpy new_pdpt old_pdpt 0x1000 ;;
  new_pd <- kpalloc ;;
  if new_pd =? NULL then _ <- free_all [new_pml4; new_pdpt] ;; ret 0 else
  e <- load_entry old_pdpt 0 ;;
  let old_pd := page_base e in
  _ <- memcpy new_pd old_pd 0x1000 ;;
  r2 <- clone_code old_pd new_pd [new_pml4; new_pdpt; new_pd] ;;
  match r2 with
  | None => ret 0
  | Some new_pt2 =>
      r3 <- clone_stack old_pd new_pd new_pt2 [new_pml4; new_pdpt; new_pd] ;;
      match r3 with
      | None => ret 0
      | Some _ =>
          old4 <- load_entry old_pml4 0 ;;
          _ <- store_entry new_pml4 0 (table_entry new_pdpt old4) ;;
          old3 <- load_entry old_pdpt 0 ;;
          _ <- store_entry new_pdpt 0 (table_entry new_pd old3) ;;
          ret new_pml4
      end
  end.

Definition kvmm_create_user_pml4 : kernel Z :=
  flags <- irq_save ;; r <- create_user_tables ;; _ <- write_flags flags ;; ret r.

(** A page table of a user address space: its user pages but the shared ones,
    then the table. *)
Definition free_user_pt (pde base : Z) : kernel unit :=
  if negb (present pde) then ret tt else
  let pt := page_base pde in
  _ <- for_range (trips 0 512) 0 (fun i =>
    e <- load_entry pt i ;;
    if negb (present e && user_bit e) then ret tt else
    shared <- is_shared_user_page (base + i * 4096) ;;
    if shared then ret tt else kpfree (page_base e)) ;;
  kpfree pt.

Definition free_user_tables (pml4_phys : Z) : kernel unit :=
  if pml4_phys =? NULL then ret tt else
  active <- read_cr3 ;;
  if page_base pml4_phys =? page_base active then
    print_err "kvmm_free_user_pml4: refusing to free active cr3 (leaked)."
  else
  pml4e <- load64 pml4_phys ;;
  if negb (present pml4e) then kpfree pml4_phys else
  let pdpt := page_base pml4e in
  pdpte <- load_entry pdpt 0 ;;
  if negb (present pdpte) then _ <- kpfree pdpt ;; kpfree pml4_phys else
  let pd := page_base pdpte in
  pd2 <- load_entry pd 2 ;;
  _ <- free_user_pt pd2 USER_CODE_VIRT ;;
  pd3 <- load_entry pd 3 ;;
  _ <- free_user_pt pd3 PROG_STACK_TOP ;;
  _ <- kpfree pd ;;
  _ <- kpfree pdpt ;;
  kpfree pml4_phys.

Definition kvmm_free_user_pml4 (pml4_phys : Z) : kernel unit :=
  flags <- irq_save ;; _ <- free_user_tables pml4_phys ;; write_flags flags.
