(* ===== verification/Paging.v ===== *)
(** * The page tables of an address space

    The theory of the tables that [Vmm] walks and builds: entries as bit fields,
    the table at the end of a path ([table_at]), the leaf entry of a virtual
    page ([mapping]), what single stores do to them, and the theorems about the
    walk, the mapping and the unmapping of a page.  [pt_ok] says that every
    table is reached along one path and lies in an allocated page. *)

From S2P Require Import Prelude State Console Utils Mem Pmm Heap Objects Vmm.
From stdpp Require Import strings.
#[local] Open Scope Z_scope.

(** ** Entries *)

Lemma page_base_mod x : page_base x mod 4096 = 0.
Proof. rewrite page_base_eq. div_lia. Qed.
Lemma page_base_aligned x : x mod 4096 = 0 -> page_base x = x.
Proof. rewrite page_base_eq. intros H. div_lia. Qed.
Lemma page_base_idem x : page_base (page_base x) = page_base x.
Proof. apply page_base_aligned, page_base_mod. Qed.
Lemma page_base_range x : 0 <= x < 2 ^ 64 -> 0 <= page_base x < 2 ^ 64.
Proof. rewrite page_base_eq. intros H. div_lia. Qed.

Lemma page_base_bits x i : 0 <= i -> Z.testbit (page_base x) i = (12 <=? i) && Z.testbit x i.
Proof.
  intros Hi. unfold page_base. change 4095 with (Z.ones 12).
  rewrite Z.land_spec, Z.lnot_spec, Z.testbit_ones_nonneg by lia.
  destruct (Z.ltb_spec i 12), (Z.leb_spec 12 i); try lia; cbn [negb]; by rewrite ?andb_true_r, ?andb_false_r.
Qed.

Lemma small_bits f i : 0 <= f < 4096 -> 12 <= i -> Z.testbit f i = false.
Proof. intros Hf Hi. apply (Z.bits_above_log2 f); [lia|]. destruct (Z.eq_dec f 0) as [->|]; [cbn; lia|].
  apply Z.log2_lt_pow2; [lia|]. apply Z.lt_le_trans with (2 ^ 12); [lia|]. apply Z.pow_le_mono_r; lia. Qed.

(** An entry is an address or-ed with low bits. *)
Lemma page_base_lor p f : p mod 4096 = 0 -> 0 <= f < 4096 -> page_base (Z.lor p f) = p.
Proof.
  intros Hp Hf. rewrite <- (page_base_aligned p Hp) at 2. apply Z.bits_inj'. intros i Hi.
  rewrite !page_base_bits, Z.lor_spec by done. destruct (Z.leb_spec 12 i); [|done].
  by rewrite (small_bits f i), orb_false_r by lia.
Qed.

Lemma bit_test e n : 0 <= n -> negb (Z.land e (Z.shiftl 1 n) =? 0) = Z.testbit e n.
Proof. apply land_shiftl_1_testbit. Qed.

Lemma present_bit e : present e = Z.testbit e 0.
Proof. apply (bit_test e 0). lia. Qed.
Lemma user_bit_bit e : user_bit e = Z.testbit e 2.
Proof. apply (bit_test e 2). lia. Qed.

Lemma present_lor p f : present (Z.lor p f) = present p || present f.
Proof. by rewrite !present_bit, Z.lor_spec. Qed.

Lemma present_0 : present 0 = false.
Proof. done. Qed.

(** [e |= 0x04] *)
Lemma page_base_user e : page_base (Z.lor e 4) = page_base e.
Proof.
  apply Z.bits_inj'. intros i Hi. rewrite !page_base_bits, Z.lor_spec by done.
  destruct (Z.leb_spec 12 i); [|done]. by rewrite (small_bits 4 i), orb_false_r by lia.
Qed.
Lemma present_user e : present (Z.lor e 4) = present e.
Proof. by rewrite present_lor, orb_false_r. Qed.

Lemma lor_range a b : 0 <= a < 2 ^ 64 -> 0 <= b < 2 ^ 64 -> 0 <= Z.lor a b < 2 ^ 64.
Proof.
  intros Ha Hb. split; [apply Z.lor_nonneg; lia|].
  destruct (Z.eq_dec (Z.lor a b) 0) as [->|]; [lia|].
  apply Z.log2_lt_pow2; [assert (0 <= Z.lor a b) by (apply Z.lor_nonneg; lia); lia|].
  rewrite Z.log2_lor by lia. apply Z.max_lub_lt.
  - destruct (Z.eq_dec a 0) as [->|]; [cbn; lia|]. apply Z.log2_lt_pow2; lia.
  - destruct (Z.eq_dec b 0) as [->|]; [cbn; lia|]. apply Z.log2_lt_pow2; lia.
Qed.

Lemma index_range virt n : 0 <= Z.land (Z.shiftr virt n) 0x1FF < 512.
Proof. change 0x1FF with (Z.ones 9). rewrite Z.land_ones by lia. apply Z.mod_pos_bound. lia. Qed.

Lemma index_div virt n : 0 <= n -> Z.land (Z.shiftr virt n) 0x1FF = (virt / 2 ^ n) mod 512.
Proof. intros Hn. change 0x1FF with (Z.ones 9). by rewrite Z.land_ones, Z.shiftr_div_pow2 by lia. Qed.

(** ** Paths *)

Fixpoint table_at (m : gmap Z Z) (root : Z) (path : list Z) : option Z :=
  match path with
  | [] => Some root
  | i :: up =>
      match table_at m root up with
      | Some t => let e := ld64 m (t + 8 * i) in if present e then Some (page_base e) else None
      | None => None
      end
  end.

(** A path from the root (of a PML4) to a table. *)
Definition valid_path (path : list Z) : Prop := (length path <= 3)%nat /\ Forall (fun i => 0 <= i < 512) path.

Lemma valid_up i up : valid_path (i :: up) -> valid_path up /\ 0 <= i < 512.
Proof. intros [Hl Hf]. inversion Hf; subst. cbn in Hl. repeat split; try lia; done. Qed.

(** The path of the page table that maps an address. *)
Definition path_of (virt : Z) : list Z := [pd_index virt; pdpt_index virt; pml4_index virt].

Lemma path_of_valid virt : valid_path (path_of virt).
Proof. split; [cbn; lia|]. repeat constructor; apply index_range. Qed.

(** The leaf entry of a virtual page, if it is present. *)
Definition mapping (m : gmap Z Z) (cr3 virt : Z) : option Z :=
  match table_at m (page_base cr3) (path_of virt) with
  | Some t => let e := ld64 m (t + 8 * pt_index virt) in if present e then Some e else None
  | None => None
  end.

(** The page that an address lies in, as the tables see it. *)
Definition same_page (v w : Z) : Prop := path_of v = path_of w /\ pt_index v = pt_index w.

Lemma same_page_div v w : 0 <= v < 2 ^ 48 -> 0 <= w < 2 ^ 48 -> same_page v w <-> v / 4096 = w / 4096.
Proof.
  intros Hv Hw. unfold same_page, path_of, pd_index, pdpt_index, pml4_index, pt_index.
  rewrite !index_div by lia. split.
  - intros [[= H1 H2 H3] H4]. change (2 ^ 12) with 4096 in *. change (2 ^ 21) with 2097152 in *.
    change (2 ^ 30) with 1073741824 in *. change (2 ^ 39) with 549755813888 in *. div_lia.
  - intros H.
    assert (E : forall n, 12 <= n -> v / 2 ^ n = w / 2 ^ n).
    { intros n Hn. replace (2 ^ n) with (4096 * 2 ^ (n - 12)).
      - rewrite <- !Z.div_div by lia. by rewrite H.
      - change 4096 with (2 ^ 12). rewrite <- Z.pow_add_r by lia. f_equal. lia. }
    by rewrite !E by lia.
Qed.

Lemma table_at_mod m root path t : root mod 4096 = 0 -> table_at m root path = Some t -> t mod 4096 = 0.
Proof.
  intros Hr. destruct path as [|i up]; cbn [table_at]; [by intros [= <-]|].
  destruct (table_at m root up); [|done]. destruct (present _); [|done]. intros [= <-]. apply page_base_mod.
Qed.

(** Two entries of tables are the same or do not overlap. *)
Lemma entry_apart t i u j :
  t mod 4096 = 0 -> u mod 4096 = 0 -> 0 <= i < 512 -> 0 <= j < 512 ->
  (t = u /\ i = j) \/ t + 8 * i + 8 <= u + 8 * j \/ u + 8 * j + 8 <= t + 8 * i.
Proof. intros Ht Hu Hi Hj. destruct (Z.eq_dec t u) as [->|]; [lia|]. div_lia. Qed.

(** ** Effect of single stores on the tables *)

Definition paths_apart (m : gmap Z Z) (root : Z) : Prop :=
  forall p q t, valid_path p -> valid_path q -> table_at m root p = Some t -> table_at m root q = Some t -> p = q.

Section Store.
Context (m : gmap Z Z) (root : Z) (Hroot : root mod 4096 = 0) (Hap : paths_apart m root).
Context (up : list Z) (t i : Z) (Hup : table_at m root up = Some t) (Hv : valid_path up) (Hi : 0 <= i < 512).

(** Another entry than [i] of [t] keeps its value. *)
Lemma other_entry m' v q u j :
  (forall b, t + 8 * i + 8 <= b \/ b + 8 <= t + 8 * i -> ld64 m' b = ld64 m b) ->
  table_at m root q = Some u -> valid_path q -> 0 <= j < 512 -> ~ (q = up /\ j = i) ->
  v = ld64 m (u + 8 * j) -> ld64 m' (u + 8 * j) = v.
Proof using Hroot Hap Hup Hv Hi.
  intros Hm Hq Hvq Hj Hne ->. apply Hm.
  destruct (entry_apart t i u j) as [[-> ->]|]; [by eapply table_at_mod|by eapply table_at_mod|done|done| |lia].
  destruct Hne. split; [|done]. by eapply Hap.
Qed.

(** Rewriting an entry without changing its address and presence. *)
Lemma table_at_flags e' q :
  present e' = present (ld64 m (t + 8 * i)) -> page_base e' = page_base (ld64 m (t + 8 * i)) ->
  0 <= e' < 2 ^ 64 -> valid_path q ->
  table_at (st64 m (t + 8 * i) e') root q = table_at m root q.
Proof using Hroot Hap Hup Hv Hi.
  intros Hpr Hpb He. induction q as [|j q IH]; intros Hq; cbn [table_at]; [done|].
  destruct (valid_up _ _ Hq) as [Hq' Hj]. rewrite IH by done.
  destruct (table_at m root q) as [u|] eqn:Eu; [|done].
  destruct (decide (q = up /\ j = i)) as [[-> ->]|Hne].
  - rewrite Hup in Eu. injection Eu as <-. rewrite ld64_st64 by done. by rewrite Hpr, Hpb.
  - by rewrite (other_entry _ (ld64 m (u + 8 * j)) q u j) by (done || intros; by apply ld64_st64_ne).
Qed.

(** Storing a leaf entry. *)
Lemma table_at_leaf e' q :
  length up = 3%nat -> valid_path q -> table_at (st64 m (t + 8 * i) e') root q = table_at m root q.
Proof using Hroot Hap Hup Hv Hi.
  intros Hl. induction q as [|j q IH]; intros Hq; cbn [table_at]; [done|].
  destruct (valid_up _ _ Hq) as [Hq' Hj]. rewrite IH by done.
  destruct (table_at m root q) as [u|] eqn:Eu; [|done].
  rewrite (other_entry _ (ld64 m (u + 8 * j)) q u j); try done; [intros; by apply ld64_st64_ne|].
  intros [-> _]. destruct Hq as [Hq _]. cbn in Hq. lia.
Qed.

(** Linking a zeroed page [p] behind an absent entry. *)
Lemma table_at_link m1 p f q :
  (forall a, ~ (p <= a < p + 4096) -> rd8 m1 a = rd8 m a) -> (forall j, 0 <= j < 512 -> ld64 m1 (p + 8 * j) = 0) ->
  p mod 4096 = 0 -> 0 <= p < 2 ^ 64 -> 0 <= f < 4096 -> present f = true ->
  (forall q, valid_path q -> table_at m root q <> Some p) ->
  present (ld64 m (t + 8 * i)) = false -> valid_path q ->
  table_at (st64 m1 (t + 8 * i) (Z.lor p f)) root q
  = if decide (q = i :: up) then Some p else table_at m root q.
Proof using Hroot Hap Hup Hv Hi.
  intros Hm1 Hz Hpm Hpr Hf Hfp Hfresh Habs.
  assert (Htp : t <> p) by (intros E; apply (Hfresh up Hv); by rewrite Hup, E).
  assert (Htm : t mod 4096 = 0) by (eapply (table_at_mod _ root); [done|eassumption]).
  induction q as [|j q IH]; intros Hq; cbn [table_at]; [by rewrite decide_False|].
  destruct (valid_up _ _ Hq) as [Hq' Hj]. rewrite IH by done. clear IH.
  destruct (decide (q = i :: up)) as [->|Hne].
  - rewrite ld64_st64_ne by (destruct (entry_apart t i p j) as [[]|]; lia). rewrite Hz by done. rewrite present_0.
    cbn [table_at]. rewrite Hup, Habs, decide_False; [done|].
    intros E%(f_equal length). cbn in E. lia.
  - destruct (table_at m root q) as [u|] eqn:Eu.
    + destruct (decide (q = up /\ j = i)) as [[-> ->]|Hne2].
      * rewrite decide_True by done. rewrite Hup in Eu. injection Eu as <-.
        rewrite ld64_st64 by (apply lor_range; lia). rewrite present_lor, Hfp, orb_true_r.
        by rewrite page_base_lor.
      * rewrite decide_False by (intros [= -> ->]; tauto).
        assert (Hum : u mod 4096 = 0) by (eapply (table_at_mod _ root); [done|eassumption]).
        assert (Hup' : u <> p) by (intros E; apply (Hfresh q Hq'); by rewrite Eu, E).
        assert (Hap' : u + 8 * j + 8 <= t + 8 * i \/ t + 8 * i + 8 <= u + 8 * j).
        { destruct (entry_apart t i u j) as [[-> ->]|]; try done; [|lia]. destruct Hne2. split; [by eapply Hap|done]. }
        rewrite ld64_st64_ne by lia. rewrite (ld64_ext m m1); [done|].
        intros c Hc. apply Hm1. div_lia.
    + rewrite decide_False; [done|]. intros [= -> ->]. congruence.
Qed.
End Store.

(** ** Address spaces *)

(** A frame that holds a table. *)
Definition table_frame (m : gmap Z Z) (root g : Z) : Prop :=
  exists q t, valid_path q /\ table_at m root q = Some t /\ t / 4096 = g.

(** Every entry along a path is present and lets user code through. *)
Fixpoint user_path (m : gmap Z Z) (root : Z) (path : list Z) : bool :=
  match path with
  | [] => true
  | i :: up =>
      match table_at m root up with
      | Some t => let e := ld64 m (t + 8 * i) in present e && user_bit e && user_path m root up
      | None => false
      end
  end.

(** No table is reached along two paths; every table is an allocated page. *)
Record pt_ok (k : kstate) (root : Z) : Prop := {
  pt_bytes : bytes_ok (k_mem k);
  pt_apart : paths_apart (k_mem k) root;
  pt_owned q t : valid_path q -> table_at (k_mem k) root q = Some t -> owned_run k t 1
}.

(** What the descent of a mapping may change: fresh tables appear, every page
    keeps its mapping and all other memory its bytes. *)
Record pt_grow (k k' : kstate) (root : Z) : Prop := {
  gw_state : exists q m, k' = with_mem m (with_pmm q k);
  gw_mem : mem_ok k';
  gw_ok : pt_ok k' root;
  gw_tables q t : valid_path q -> table_at (k_mem k) root q = Some t -> table_at (k_mem k') root q = Some t;
  gw_new q t : valid_path q -> table_at (k_mem k') root q = Some t ->
    table_at (k_mem k) root q = Some t \/ k_free k (t / 4096) = true;
  gw_user q : valid_path q -> user_path (k_mem k) root q = true -> user_path (k_mem k') root q = true;
  gw_map v : mapping (k_mem k') root v = mapping (k_mem k) root v;
  gw_bytes a : k_free k (a / 4096) = false -> ~ table_frame (k_mem k) root (a / 4096) ->
    rd8 (k_mem k') a = rd8 (k_mem k) a;
  gw_runs page n : owned_run k page n -> owned_run k' page n;
  gw_free g : k_free k' g = true -> k_free k g = true
}.

Lemma valid_root : valid_path [].
Proof. split; [cbn; lia|done]. Qed.

Lemma pt_root k root : pt_ok k root -> root mod 4096 = 0.
Proof. intros H. apply (pt_owned _ _ H [] root valid_root eq_refl). Qed.

Lemma owned_frame k t : owned_run k t 1 -> k_free k (t / 4096) = false.
Proof. intros (_ & _ & _ & H). apply H. lia. Qed.

Lemma pt_grow_refl k root : mem_ok k -> pt_ok k root -> pt_grow k k root.
Proof. intros Hm Hp. split; auto. exists (k_pmm k), (k_mem k). by destruct k. Qed.

Lemma pt_grow_trans k k1 k2 root : pt_grow k k1 root -> pt_grow k1 k2 root -> pt_grow k k2 root.
Proof.
  intros G1 G2. split.
  - destruct (gw_state _ _ _ G1) as (q1 & m1 & ->). destruct (gw_state _ _ _ G2) as (q2 & m2 & ->). by exists q2, m2.
  - apply G2.
  - apply G2.
  - intros q t Hq Ht. by apply G2, G1.
  - intros q t Hq [Ht|Ht]%(gw_new _ _ _ G2); [|right; by apply G1|done]. by apply G1.
  - intros q Hq H. by apply G2, G1.
  - intros v. by rewrite (gw_map _ _ _ G2), (gw_map _ _ _ G1).
  - intros a Ha Hn. etrans; [|by apply G1]. apply G2.
    + destruct (k_free k1 (a / 4096)) eqn:E; [|done]. apply (gw_free _ _ _ G1) in E. congruence.
    + intros (q & t & Hq & Ht & E). apply (gw_new _ _ _ G1) in Ht as [Ht|Ht]; [|congruence|done].
      apply Hn. by exists q, t.
  - intros page n H. by apply G2, G1.
  - intros g H. by apply G1, G2.
Qed.

(** ** Filling a table *)

Lemma fill_run p f n k :
  p mod 4096 = 0 -> (n <= 512)%nat -> (forall j, 0 <= f j < 2 ^ 64) ->
  exists m, for_range n 0 (fun j => store_entry p j (f j)) k = Ret tt (with_mem m k)
  /\ (forall a, ~ (p <= a < p + 4096) -> rd8 m a = rd8 (k_mem k) a)
  /\ (forall j, 0 <= j < Z.of_nat n -> ld64 m (p + 8 * j) = f j)
  /\ (bytes_ok (k_mem k) -> bytes_ok m).
Proof.
  intros Hp Hn Hf.
  destruct (for_range_inv (fun i k' => exists m, k' = with_mem m k
    /\ (forall a, ~ (p <= a < p + 4096) -> rd8 m a = rd8 (k_mem k) a)
    /\ (forall j, 0 <= j < i -> ld64 m (p + 8 * j) = f j)
    /\ (bytes_ok (k_mem k) -> bytes_ok m)) (fun j => store_entry p j (f j)) n 0 k) as (k' & Hk & m & -> & H).
  - exists (k_mem k). split_and!; try done; [by destruct k|lia].
  - intros i k' Hi (m & -> & H1 & H2 & H3). eexists. split; [done|].
    exists (st64 m (p + 8 * i) (f i)). split_and!; [done| | |].
    + intros a Ha. rewrite rd8_st64 by lia. by apply H1.
    + intros j Hj. destruct (Z.eq_dec j i) as [->|].
      * by apply ld64_st64.
      * rewrite ld64_st64_ne by lia. apply H2. lia.
    + intros Hb. by apply bytes_ok_st64, H3.
  - by exists m.
Qed.

Lemma user_bit_lor a b : user_bit (Z.lor a b) = user_bit a || user_bit b.
Proof. by rewrite !user_bit_bit, Z.lor_spec. Qed.

(** Tables persist and no entry on a path loses its user bit. *)
Lemma user_path_mono m m' root q :
  (forall q t, valid_path q -> table_at m root q = Some t -> table_at m' root q = Some t) ->
  (forall q t i, valid_path (i :: q) -> table_at m root q = Some t -> present (ld64 m (t + 8 * i)) = true ->
     present (ld64 m' (t + 8 * i)) = true
     /\ (user_bit (ld64 m (t + 8 * i)) = true -> user_bit (ld64 m' (t + 8 * i)) = true)) ->
  valid_path q -> user_path m root q = true -> user_path m' root q = true.
Proof.
  intros Ht He. induction q as [|i q IH]; [done|]. intros Hv. cbn [user_path].
  destruct (valid_up _ _ Hv) as [Hq _].
  destruct (table_at m root q) as [t|] eqn:E; [|done]. rewrite (Ht q t) by done.
  intros [[Hp Hu]%andb_true_iff Hr]%andb_true_iff. destruct (He q t i Hv E Hp) as [-> Hu'].
  by rewrite (Hu' Hu), (IH Hq Hr).
Qed.

Lemma mapping_ext m m' root v :
  root mod 4096 = 0 ->
  table_at m' root (path_of v) = table_at m root (path_of v) ->
  (forall t, table_at m root (path_of v) = Some t -> ld64 m' (t + 8 * pt_index v) = ld64 m (t + 8 * pt_index v)) ->
  mapping m' root v = mapping m root v.
Proof.
  intros Hr Ht He. unfold mapping. rewrite page_base_aligned, Ht by done.
  destruct (table_at m root (path_of v)) as [t|]; [|done]. by rewrite (He t).
Qed.

Lemma entry_frame t i a : t mod 4096 = 0 -> 0 <= i < 512 -> a / 4096 <> t / 4096 -> ~ (t + 8 * i <= a < t + 8 * i + 8).
Proof. intros Ht Hi Ha H. apply Ha. div_lia. Qed.

Section Step.
Context (k : kstate) (root : Z) (Hmem : mem_ok k) (Hok : pt_ok k root).
Context (up : list Z) (t i : Z) (Hup : table_at (k_mem k) root up = Some t) (Hv : valid_path (i :: up)).

Lemma step_facts : root mod 4096 = 0 /\ paths_apart (k_mem k) root /\ valid_path up /\ 0 <= i < 512
  /\ owned_run k t 1 /\ t mod 4096 = 0 /\ (length up < 3)%nat.
Proof using Hok Hup Hv.
  pose proof (pt_root _ _ Hok) as Hr. destruct (valid_up _ _ Hv) as [Hvu Hi].
  pose proof (pt_owned _ _ Hok up t Hvu Hup) as Ho. pose proof (pt_apart _ _ Hok).
  split_and!; try done; try lia; [apply Ho|]. destruct Hv as [Hl _]. cbn in Hl. lia.
Qed.

(** A leaf entry is another entry. *)
Lemma leaf_entry_kept m' v u :
  (forall b, t + 8 * i + 8 <= b \/ b + 8 <= t + 8 * i -> ld64 m' b = ld64 (k_mem k) b) ->
  table_at (k_mem k) root (path_of v) = Some u -> ld64 m' (u + 8 * pt_index v) = ld64 (k_mem k) (u + 8 * pt_index v).
Proof using Hok Hup Hv.
  destruct step_facts as (Hr & Hap & Hvu & Hi & Ho & Ht & Hl). intros Hm Hu.
  apply (other_entry (k_mem k) root Hr Hap up t i Hup Hvu Hi m' _ (path_of v) u (pt_index v)); try done;
    [apply path_of_valid|apply index_range|].
  intros [<- _]. cbn in Hl. lia.
Qed.

Lemma set_user_run :
  present (ld64 (k_mem k) (t + 8 * i)) = true ->
  exists k', set_user t i k = Ret tt k' /\ pt_grow k k' root /\ user_bit (ld64 (k_mem k') (t + 8 * i)) = true.
Proof using Hmem Hok Hup Hv.
  destruct step_facts as (Hr & Hap & Hvu & Hi & Ho & Ht & Hl). intros Hp.
  set (e := ld64 (k_mem k) (t + 8 * i)) in *.
  assert (He : 0 <= Z.lor e 4 < 2 ^ 64) by (apply lor_range; [apply ld64_range, Hok|lia]).
  exists (with_mem (st64 (k_mem k) (t + 8 * i) (Z.lor e 4)) k). split; [done|].
  assert (Htab : forall q, valid_path q ->
    table_at (st64 (k_mem k) (t + 8 * i) (Z.lor e 4)) root q = table_at (k_mem k) root q).
  { intros q Hq. apply (table_at_flags (k_mem k) root Hr Hap up t i Hup Hvu Hi); try done;
      [apply present_user|apply page_base_user]. }
  split; [|cbn [k_mem with_mem]; rewrite ld64_st64, user_bit_lor by done; by apply orb_true_r].
  split; cbn [k_mem with_mem]; try done.
  - by exists (k_pmm k), (st64 (k_mem k) (t + 8 * i) (Z.lor e 4)); destruct k.
  - split.
    + apply bytes_ok_st64, Hok.
    + intros p q u Hp' Hq. cbn. rewrite !Htab by done. by apply Hap.
    + intros q u Hq. cbn. rewrite Htab by done. apply (pt_owned _ _ Hok q u Hq).
  - intros q u Hq. by rewrite Htab.
  - intros q u Hq. rewrite Htab by done. by left.
  - intros q Hq. apply user_path_mono; [intros p u Hp' Hu; by rewrite Htab| |done].
    intros p u j Hj Hu Hpu. destruct (decide (u + 8 * j = t + 8 * i)) as [E|Hne].
    + rewrite E. unfold e. rewrite ld64_st64 by done. rewrite present_user, user_bit_lor, orb_true_r.
      split; [|done]. by rewrite <- E.
    + destruct (valid_up _ _ Hj) as [Hvp Hj'].
      rewrite ld64_st64_ne; [done|].
      assert (u mod 4096 = 0) by (apply (pt_owned _ _ Hok p u Hvp Hu)).
      destruct (entry_apart t i u j) as [[-> ->]|]; try done; lia.
  - intros v. apply mapping_ext; [done|apply Htab, path_of_valid|].
    intros u Hu. apply leaf_entry_kept; [|done]. intros b Hb. by apply ld64_st64_ne.
  - intros a _ Hn. apply rd8_st64, entry_frame; [done..|]. intros E. apply Hn. exists up, t. by split_and!.
Qed.
End Step.

Section Link.
Context (k : kstate) (root : Z) (Hmem : mem_ok k) (Hok : pt_ok k root).
Context (up : list Z) (t i : Z) (Hup : table_at (k_mem k) root up = Some t) (Hv : valid_path (i :: up)).
Context (q : pmm_t) (p : Z) (Hq : mem_ok (with_pmm q k)) (Hfree : k_free k (p / 4096) = true)
  (Hown : owned_run (with_pmm q k) p 1)
  (Hruns : forall page n, owned_run k page n -> owned_run (with_pmm q k) page n)
  (Hfr : forall g, frame_free q g = negb (bool_decide (g = p / 4096)) && k_free k g).
Context (m1 : gmap Z Z) (f : Z)
  (Hout : forall a, ~ (p <= a < p + 4096) -> rd8 m1 a = rd8 (k_mem k) a)
  (Hzero : forall j, 0 <= j < 512 -> ld64 m1 (p + 8 * j) = 0) (Hb1 : bytes_ok m1)
  (Hf : 0 <= f < 4096) (Hfp : present f = true)
  (Habs : present (ld64 (k_mem k) (t + 8 * i)) = false).

Lemma fresh_facts : p mod 4096 = 0 /\ 0 <= p < 2 ^ 64
  /\ (forall q, valid_path q -> table_at (k_mem k) root q <> Some p).
Proof using All.
  destruct Hown as (H1 & H2 & H3 & _). destruct Hq as [[_ HF] _]. split_and!; [done|lia| |].
  - change (k_pmm (with_pmm q k)) with q in *. div_lia.
  - intros r Hr Hp. pose proof (owned_frame _ _ (pt_owned _ _ Hok r p Hr Hp)). congruence.
Qed.

Let m2 : gmap Z Z := st64 m1 (t + 8 * i) (Z.lor p f).

Lemma link_tables r : valid_path r ->
  table_at m2 root r = if decide (r = i :: up) then Some p else table_at (k_mem k) root r.
Proof using All.
  destruct (step_facts k root Hok up t i Hup Hv) as (Hr & Hap & Hvu & Hi & Ho & Ht & Hl).
  destruct fresh_facts as (Hp1 & Hp2 & Hp3). intros Hvr. unfold m2.
  by apply (table_at_link (k_mem k) root Hr Hap up t i Hup Hvu Hi).
Qed.

(** Bytes outside the new table and the entry. *)
Lemma link_bytes a : ~ (p <= a < p + 4096) -> ~ (t + 8 * i <= a < t + 8 * i + 8) -> rd8 m2 a = rd8 (k_mem k) a.
Proof using All. intros H1 H2. unfold m2. rewrite rd8_st64 by done. by apply Hout. Qed.

Lemma link_entry r u j :
  valid_path r -> table_at (k_mem k) root r = Some u -> 0 <= j < 512 -> ~ (u = t /\ j = i) ->
  ld64 m2 (u + 8 * j) = ld64 (k_mem k) (u + 8 * j).
Proof using All.
  destruct (step_facts k root Hok up t i Hup Hv) as (Hr & Hap & Hvu & Hi & Ho & Ht & Hl).
  destruct fresh_facts as (Hp1 & Hp2 & Hp3). intros Hvr Hu Hj Hne.
  assert (Hum : u mod 4096 = 0) by apply (pt_owned _ _ Hok r u Hvr Hu).
  assert (u <> p) by (intros ->; by apply (Hp3 r)).
  apply ld64_ext. intros b Hb. apply link_bytes; [div_lia|].
  destruct (entry_apart u j t i) as [[]|]; try done; [tauto|lia].
Qed.

Lemma link_grow : pt_grow k (with_mem m2 (with_pmm q k)) root /\ table_at m2 root (i :: up) = Some p.
Proof using All.
  destruct (step_facts k root Hok up t i Hup Hv) as (Hr & Hap & Hvu & Hi & Ho & Ht & Hl).
  destruct fresh_facts as (Hp1 & Hp2 & Hp3).
  assert (Hnone : table_at (k_mem k) root (i :: up) = None) by (cbn [table_at]; by rewrite Hup, Habs).
  split; [|by rewrite link_tables, decide_True].
  split; cbn [k_mem k_pmm with_mem]; try done.
  - by exists q, m2.
  - split; cbn [k_mem with_mem].
    + by apply bytes_ok_st64.
    + intros r s u Hvr Hvs. rewrite !link_tables by done.
      destruct (decide (r = _)) as [->|], (decide (s = _)) as [->|]; try done.
      * intros [= <-] H. by destruct (Hp3 s).
      * intros H [= <-]. by destruct (Hp3 r).
      * by apply Hap.
    + intros r u Hvr. rewrite link_tables by done. destruct (decide _) as [->|].
      * by intros [= <-].
      * intros Hu. by apply Hruns, (pt_owned _ _ Hok r u Hvr).
  - intros r u Hvr Hu. rewrite link_tables by done. rewrite decide_False; [done|]. intros ->. congruence.
  - intros r u Hvr. rewrite link_tables by done. destruct (decide _) as [->|]; [|by left].
    intros [= <-]. by right.
  - intros r Hvr. apply user_path_mono; [| |done].
    + intros s u Hvs Hu. rewrite link_tables by done. rewrite decide_False; [done|]. intros ->. congruence.
    + intros s u j Hvj Hu Hpu. destruct (valid_up _ _ Hvj) as [Hvs Hj].
      rewrite (link_entry s u j Hvs Hu Hj); [done|]. intros [-> ->]. congruence.
  - intros v. destruct (decide (path_of v = i :: up)) as [E|Hne].
    + unfold mapping. rewrite page_base_aligned by done. rewrite link_tables by apply path_of_valid.
      rewrite E, decide_True, Hnone by done. cbn zeta.
      assert (Hz : ld64 m2 (p + 8 * pt_index v) = 0); [|by rewrite Hz].
      etrans; [|apply (Hzero (pt_index v)), index_range]. apply ld64_ext. intros b Hb.
      unfold m2. apply rd8_st64. assert (t <> p) by (intros E'; apply (Hp3 up Hvu); congruence).
      pose proof (index_range v 12). unfold pt_index in Hb. div_lia.
    + apply mapping_ext; [done|by rewrite link_tables, decide_False by (done || apply path_of_valid)|].
      intros u Hu. apply (link_entry (path_of v)); [apply path_of_valid|done|apply index_range|].
      intros [-> _]. assert (path_of v = up) as E; [by apply (Hap _ _ t); [apply path_of_valid|..]|].
      rewrite <- E in Hl. cbn in Hl. lia.
  - intros a Ha Hn. apply link_bytes.
    + intros Hin. assert (a / 4096 = p / 4096) as E by div_lia. congruence.
    + apply entry_frame; [done..|]. intros E. apply Hn. by exists up, t.
  - intros g. unfold k_free at 1. cbn [k_pmm with_mem with_pmm]. rewrite Hfr. by intros [_ H]%andb_true_iff.
Qed.
End Link.

Lemma print_err_run s k : exists c, print_err s k = Ret tt (with_con c k).
Proof. apply kprintferr_total. Qed.

Lemma load_entry_bind {B} t i (g : Z -> kernel B) k :
  bind (load_entry t i) g k = g (ld64 (k_mem k) (t + 8 * i)) k.
Proof. done. Qed.

Lemma ensure_table_run k root up t i f msg :
  mem_ok k -> pt_ok k root -> table_at (k_mem k) root up = Some t -> valid_path (i :: up) ->
  0 <= f < 4096 -> present f = true ->
  (kpalloc k = Ret NULL k /\ exists k', ensure_table t i f msg k = Hang k')
  \/ exists p k', ensure_table t i f msg k = Ret p k' /\ pt_grow k k' root
       /\ table_at (k_mem k') root (i :: up) = Some p.
Proof.
  intros Hm Hok Hup Hv Hf Hfp. unfold ensure_table. rewrite load_entry_bind.
  destruct (present (ld64 (k_mem k) (t + 8 * i))) eqn:Hp; cbn [negb].
  - right. exists (page_base (ld64 (k_mem k) (t + 8 * i))), k. split; [done|].
    split; [by apply pt_grow_refl|]. cbn [table_at]. by rewrite Hup, Hp.
  - destruct (kpalloc_step k Hm) as [Hnone|(p & q & Hrun & Hq & Hp0 & Hown & Hfree & Hruns & Hfr)].
    + left. split; [done|]. rewrite (bind_run _ _ _ _ _ Hnone). change (NULL =? NULL) with true. cbv iota.
      destruct (print_err_run msg k) as (c & Hc). rewrite (bind_run _ _ _ _ _ Hc). by eexists.
    + right. rewrite (bind_run _ _ _ _ _ Hrun), (proj2 (Z.eqb_neq p NULL)) by done.
      destruct (fill_run p (fun _ => 0) (trips 0 512) (with_pmm q k)) as (m1 & Hfill & H1 & H2 & H3);
        [apply Hown|apply Nat2Z.inj_le; by rewrite trips_max|lia|].
      rewrite (bind_run _ _ _ _ _ Hfill). rewrite trips_max in H2.
      assert (Hb1 : bytes_ok m1) by apply H3, Hok.
      destruct (link_grow k root Hm Hok up t i Hup Hv q p Hq Hfree Hown Hruns Hfr m1 f H1 H2 Hb1 Hf Hfp Hp) as [Hg Ht].
      eexists p, _. split; [reflexivity|]. split; [exact Hg|exact Ht].
Qed.

Lemma table_at_entry m root up t i p :
  table_at m root up = Some t -> table_at m root (i :: up) = Some p ->
  present (ld64 m (t + 8 * i)) = true /\ page_base (ld64 m (t + 8 * i)) = p.
Proof. cbn [table_at]. intros ->. cbn zeta. destruct (present _); [|done]. by intros [= <-]. Qed.

Lemma set_user_path k root up t i p :
  mem_ok k -> pt_ok k root -> table_at (k_mem k) root up = Some t -> valid_path (i :: up) ->
  table_at (k_mem k) root (i :: up) = Some p ->
  exists k', set_user t i k = Ret tt k' /\ pt_grow k k' root
  /\ (user_path (k_mem k) root up = true -> user_path (k_mem k') root (i :: up) = true).
Proof.
  intros Hm Hok Hup Hv Hp. destruct (table_at_entry _ _ _ _ _ _ Hup Hp) as [Hpr _].
  destruct (set_user_run k root Hm Hok up t i Hup Hv Hpr) as (k' & Hr & G & Hu).
  exists k'. split_and!; [done|done|]. intros H. destruct (valid_up _ _ Hv) as [Hvu _].
  pose proof (gw_tables _ _ _ G up t Hvu Hup) as Hup'.
  pose proof (gw_tables _ _ _ G _ p Hv Hp) as Hp'. destruct (table_at_entry _ _ _ _ _ _ Hup' Hp') as [Hpr' _].
  cbn [user_path]. by rewrite Hup', Hpr', Hu, (gw_user _ _ _ G).
Qed.

(** ** The walk *)

(** The address of the leaf entry of [virt], 0 when a table is missing. *)
Definition leaf_addr (m : gmap Z Z) (pml4 virt : Z) : Z :=
  match table_at m (page_base pml4) (path_of virt) with
  | Some t => t + 8 * pt_index virt
  | None => 0
  end.

Lemma kget_pte_addr_at_run k pml4 virt : kget_pte_addr_at pml4 virt k = Ret (leaf_addr (k_mem k) pml4 virt) k.
Proof.
  unfold kget_pte_addr_at, leaf_addr, path_of. rewrite (bind_run _ _ _ _ _ (irq_save_run k)), load_entry_bind.
  cbn [table_at]. change (k_mem (masked k)) with (k_mem k).
  destruct (present (ld64 (k_mem k) (page_base pml4 + 8 * pml4_index virt))); cbn [negb];
    [|by rewrite (bind_run _ _ _ _ _ (write_flags_masked k))].
  rewrite load_entry_bind. change (k_mem (masked k)) with (k_mem k).
  destruct (present (ld64 (k_mem k) (page_base _ + 8 * pdpt_index virt))); cbn [negb];
    [|by rewrite (bind_run _ _ _ _ _ (write_flags_masked k))].
  rewrite load_entry_bind. change (k_mem (masked k)) with (k_mem k).
  destruct (present (ld64 (k_mem k) (page_base _ + 8 * pd_index virt))); cbn [negb];
    rewrite (bind_run _ _ _ _ _ (write_flags_masked k)); [|done]. by rewrite page_base_idem.
Qed.

Lemma leaf_addr_table k pml4 virt : 
  pt_ok k (page_base pml4) ->
  (leaf_addr (k_mem k) pml4 virt = NULL /\ table_at (k_mem k) (page_base pml4) (path_of virt) = None)
  \/ exists t, table_at (k_mem k) (page_base pml4) (path_of virt) = Some t
       /\ leaf_addr (k_mem k) pml4 virt = t + 8 * pt_index virt /\ leaf_addr (k_mem k) pml4 virt <> NULL.
Proof.
  intros Hok. unfold leaf_addr. destruct (table_at _ _ _) as [t|] eqn:E; [right|by left].
  exists t. split_and!; try done. destruct (pt_owned _ _ Hok _ t (path_of_valid virt) E) as (_ & H & _).
  pose proof (index_range virt 12). unfold pt_index, NULL. lia.
Qed.

(** ** Storing a leaf entry *)

#[export] Instance same_page_dec v w : Decision (same_page v w).
Proof. unfold same_page. apply and_dec; apply _. Defined.

Definition entry_opt (e : Z) : option Z := if present e then Some e else None.

Section Leaf.
Context (k : kstate) (root virt t e : Z) (Hok : pt_ok k root) (He : 0 <= e < 2 ^ 64)
  (Ht : table_at (k_mem k) root (path_of virt) = Some t).

Let m : gmap Z Z := st64 (k_mem k) (t + 8 * pt_index virt) e.

Lemma leaf_tables q : valid_path q -> table_at m root q = table_at (k_mem k) root q.
Proof using Hok Ht.
  apply (table_at_leaf (k_mem k) root (pt_root _ _ Hok) (pt_apart _ _ Hok) (path_of virt) t (pt_index virt)); try done;
    [apply path_of_valid|apply index_range].
Qed.

Lemma leaf_mapping v : mapping m root v = if decide (same_page v virt) then entry_opt e else mapping (k_mem k) root v.
Proof using Hok He Ht.
  pose proof (pt_root _ _ Hok) as Hr. destruct (decide _) as [[Hp Hi]|Hne].
  - unfold mapping. rewrite page_base_aligned by done. rewrite leaf_tables by apply path_of_valid.
    rewrite Hp, Ht, Hi. cbn zeta. unfold m. by rewrite ld64_st64.
  - apply mapping_ext; [done|apply leaf_tables, path_of_valid|]. intros u Hu.
    apply (other_entry (k_mem k) root Hr (pt_apart _ _ Hok) (path_of virt) t (pt_index virt) Ht
             (path_of_valid _) (index_range _ _) m _ (path_of v) u (pt_index v)); try done;
      [|apply path_of_valid|apply index_range].
    intros b Hb. by apply ld64_st64_ne.
Qed.

Lemma leaf_ok : pt_ok (with_mem m k) root.
Proof using Hok Ht.
  split; cbn [k_mem with_mem].
  - apply bytes_ok_st64, Hok.
  - intros p q u Hp Hq. rewrite !leaf_tables by done. by apply Hok.
  - intros q u Hq. rewrite leaf_tables by done. apply (pt_owned _ _ Hok q u Hq).
Qed.

Lemma leaf_user q : valid_path q -> user_path (k_mem k) root q = true -> user_path m root q = true.
Proof using Hok Ht.
  pose proof (pt_root _ _ Hok) as Hr. intros Hq. apply user_path_mono; [by intros; rewrite leaf_tables| |done].
  intros p u j Hj Hu Hpu. destruct (valid_up _ _ Hj) as [Hp Hj'].
  rewrite (other_entry (k_mem k) root Hr (pt_apart _ _ Hok) (path_of virt) t (pt_index virt) Ht
             (path_of_valid _) (index_range _ _) m (ld64 (k_mem k) (u + 8 * j)) p u j); try done.
  - intros b Hb. by apply ld64_st64_ne.
  - intros [-> _]. destruct Hj as [Hj _]. cbn in Hj. lia.
Qed.

Lemma leaf_bytes a : a / 4096 <> t / 4096 -> rd8 m a = rd8 (k_mem k) a.
Proof using Hok Ht.
  intros Ha. apply rd8_st64, entry_frame; [|apply index_range|done].
  apply (pt_owned _ _ Hok _ t (path_of_valid virt) Ht).
Qed.
End Leaf.

(** ** Mapping a page *)

(** The effect of [flush_page]. *)
Definition flushed (pml4 virt : Z) (k : kstate) : kstate :=
  if page_base pml4 =? page_base (cr3 (k_cpu k)) then
    with_cpu {| rflags := rflags (k_cpu k); cr3 := cr3 (k_cpu k); tlb := tlb (k_cpu k) ++ [Invlpg virt] |} k
  else k.

Lemma flush_page_run pml4 virt k : flush_page pml4 virt k = Ret tt (flushed pml4 virt k).
Proof. unfold flush_page, read_cr3, bind, gets, flushed. by destruct (_ =? _). Qed.

(** The end of an interrupt-masked section that has changed memory. *)
Lemma flush_restore {A} pml4 virt m q k (r : A) :
  bind (flush_page pml4 virt) (fun _ => bind (write_flags (rflags (k_cpu k))) (fun _ => ret r))
    (with_mem m (with_pmm q (masked k)))
  = Ret r (flushed pml4 virt (with_mem m (with_pmm q k))).
Proof.
  rewrite (bind_run _ _ _ _ _ (flush_page_run _ _ _)). unfold flushed. cbn [k_cpu with_mem with_pmm].
  destruct k as [[]]; cbn. by destruct (_ =? _).
Qed.

Lemma unmasked_ok q m k : mem_ok (with_mem m (with_pmm q (masked k))) -> mem_ok (with_mem m (with_pmm q k)).
Proof. exact id. Qed.
Lemma unmasked_pt q m k root : pt_ok (with_mem m (with_pmm q (masked k))) root -> pt_ok (with_mem m (with_pmm q k)) root.
Proof. intros [H1 H2 H3]. by split. Qed.
Lemma flushed_ok pml4 virt k : mem_ok k -> mem_ok (flushed pml4 virt k).
Proof. unfold flushed. by destruct (_ =? _). Qed.
Lemma flushed_pt pml4 virt k root : pt_ok k root -> pt_ok (flushed pml4 virt k) root.
Proof. unfold flushed. destruct (_ =? _); [|done]. intros [H1 H2 H3]. by split. Qed.

(** The state after [virt] got the leaf entry [e]: page tables may have been
    added, no other page's mapping and no other allocated byte changed. *)
Record mapped (k k' : kstate) (pml4 virt e : Z) : Prop := {
  mp_state : exists q m, k' = flushed pml4 virt (with_mem m (with_pmm q k));
  mp_map v : mapping (k_mem k') pml4 v = if decide (same_page v virt) then entry_opt e else mapping (k_mem k) pml4 v;
  mp_user : user_bit e = true -> user_path (k_mem k') (page_base pml4) (path_of virt) = true;
  mp_mem : mem_ok k';
  mp_ok : pt_ok k' (page_base pml4);
  mp_bytes a : k_free k (a / 4096) = false -> ~ table_frame (k_mem k) (page_base pml4) (a / 4096) ->
    rd8 (k_mem k') a = rd8 (k_mem k) a;
  mp_runs page n : owned_run k page n -> owned_run k' page n;
  mp_new q t : valid_path q -> table_at (k_mem k') (page_base pml4) q = Some t ->
    table_at (k_mem k) (page_base pml4) q = Some t \/ k_free k (t / 4096) = true;
  mp_free g : k_free k' g = true -> k_free k g = true
}.

Lemma set_users_run k root i1 i2 i3 pdpt pd pt :
  mem_ok k -> pt_ok k root -> valid_path [i3; i2; i1] ->
  table_at (k_mem k) root [i1] = Some pdpt -> table_at (k_mem k) root [i2; i1] = Some pd ->
  table_at (k_mem k) root [i3; i2; i1] = Some pt ->
  exists k', (_ <- set_user root i1 ;; _ <- set_user pdpt i2 ;; set_user pd i3) k = Ret tt k'
  /\ pt_grow k k' root /\ user_path (k_mem k') root [i3; i2; i1] = true.
Proof.
  intros Hm Hok Hv T1 T2 T3. destruct (valid_up _ _ Hv) as [Hv2 _]. destruct (valid_up _ _ Hv2) as [Hv1 _].
  destruct (set_user_path k root [] root i1 pdpt Hm Hok eq_refl Hv1 T1) as (k1 & R1 & G1 & U1).
  destruct (set_user_path k1 root [i1] pdpt i2 pd (gw_mem _ _ _ G1) (gw_ok _ _ _ G1)
              (gw_tables _ _ _ G1 _ _ Hv1 T1) Hv2 (gw_tables _ _ _ G1 _ _ Hv2 T2)) as (k2 & R2 & G2 & U2).
  pose proof (pt_grow_trans _ _ _ _ G1 G2) as G12.
  destruct (set_user_path k2 root [i2; i1] pd i3 pt (gw_mem _ _ _ G2) (gw_ok _ _ _ G2)
              (gw_tables _ _ _ G12 _ _ Hv2 T2) Hv (gw_tables _ _ _ G12 _ _ Hv T3)) as (k3 & R3 & G3 & U3).
  exists k3. rewrite (bind_run _ _ _ _ _ R1), (bind_run _ _ _ _ _ R2), R3.
  split_and!; [done|by eapply pt_grow_trans|by apply U3, U2, U1].
Qed.

(** Out of memory part-way: the machine stops. *)
Definition starved (k : kstate) (root : Z) : Prop :=
  exists k1, pt_grow (masked k) k1 root /\ kpalloc k1 = Ret NULL k1.

Lemma descent_run k root virt f :
  mem_ok k -> pt_ok k root -> 0 <= f < 4096 -> present f = true ->
  (exists k1, pt_grow k k1 root /\ kpalloc k1 = Ret NULL k1 /\
     forall (B : Type) (g : Z -> Z -> Z -> kernel B), exists k',
       (pdpt <- ensure_table root (pml4_index virt) f "Failed to allocate PDPT entry." ;;
        pd <- ensure_table pdpt (pdpt_index virt) f "Failed to allocate PD entry." ;;
        pt <- ensure_table pd (pd_index virt) f "Failed to allocate PD entry." ;; g pdpt pd pt) k = Hang k')
  \/ exists pdpt pd pt k',
       (forall (B : Type) (g : Z -> Z -> Z -> kernel B),
       (pdpt <- ensure_table root (pml4_index virt) f "Failed to allocate PDPT entry." ;;
        pd <- ensure_table pdpt (pdpt_index virt) f "Failed to allocate PD entry." ;;
        pt <- ensure_table pd (pd_index virt) f "Failed to allocate PD entry." ;; g pdpt pd pt) k = g pdpt pd pt k')
       /\ pt_grow k k' root
       /\ table_at (k_mem k') root [pml4_index virt] = Some pdpt
       /\ table_at (k_mem k') root [pdpt_index virt; pml4_index virt] = Some pd
       /\ table_at (k_mem k') root (path_of virt) = Some pt.
Proof.
  intros Hm Hok Hf Hfp. pose proof (path_of_valid virt) as Hv3.
  destruct (valid_up _ _ Hv3) as [Hv2 _]. destruct (valid_up _ _ Hv2) as [Hv1 _].
  destruct (ensure_table_run k root [] root (pml4_index virt) f "Failed to allocate PDPT entry." Hm Hok eq_refl Hv1 Hf Hfp)
    as [[N (k' & R)]|(pdpt & k1 & R1 & G1 & T1)].
  { left. exists k. split_and!; [by apply pt_grow_refl|done|]. intros B g. exists k'. by rewrite (bind_hang _ _ _ _ R). }
  destruct (ensure_table_run k1 root _ pdpt (pdpt_index virt) f "Failed to allocate PD entry."
              (gw_mem _ _ _ G1) (gw_ok _ _ _ G1) T1 Hv2 Hf Hfp) as [[N (k' & R)]|(pd & k2 & R2 & G2 & T2)].
  { left. exists k1. split_and!; [done|done|]. intros B g. exists k'.
    by rewrite (bind_run _ _ _ _ _ R1), (bind_hang _ _ _ _ R). }
  pose proof (pt_grow_trans _ _ _ _ G1 G2) as G12.
  destruct (ensure_table_run k2 root _ pd (pd_index virt) f "Failed to allocate PD entry."
              (gw_mem _ _ _ G2) (gw_ok _ _ _ G2) T2 Hv3 Hf Hfp) as [[N (k' & R)]|(pt & k3 & R3 & G3 & T3)].
  { left. exists k2. split_and!; [done|done|]. intros B g. exists k'.
    by rewrite (bind_run _ _ _ _ _ R1), (bind_run _ _ _ _ _ R2), (bind_hang _ _ _ _ R). }
  right. exists pdpt, pd, pt, k3. split_and!; [|by eapply pt_grow_trans| | |done].
  - intros B g. by rewrite (bind_run _ _ _ _ _ R1), (bind_run _ _ _ _ _ R2), (bind_run _ _ _ _ _ R3).
  - apply G3; [done|]. by apply G2.
  - by apply G3.
Qed.

Lemma kvmmap_at_run k pml4 virt phys flags :
  mem_ok k -> pt_ok k (page_base pml4) -> 0 <= phys < 2 ^ 64 -> 0 <= flags < 2 ^ 64 ->
  (starved k (page_base pml4) /\ exists k', kvmmap_at pml4 virt phys flags k = Hang k')
  \/ exists k', kvmmap_at pml4 virt phys flags k = Ret true k'
       /\ mapped k k' pml4 virt (Z.lor (page_base phys) flags).
Proof.
  intros Hm Hok Hphys Hfl. unfold kvmmap_at. rewrite (bind_run _ _ _ _ _ (irq_save_run k)). cbv zeta.
  set (root := page_base pml4) in *. fold (user_bit flags). set (u := user_bit flags).
  set (f := if u then Z.lor 0x03 0x04 else 0x03).
  assert (Hf : 0 <= f < 4096) by (unfold f; destruct u; [change (Z.lor 3 4) with 7|]; lia).
  assert (Hfp : present f = true) by (unfold f; by destruct u).
  assert (Hok' : pt_ok (masked k) root) by (destruct Hok; by split).
  destruct (descent_run (masked k) root virt f Hm Hok' Hf Hfp)
    as [(k1 & G & N & H)|(pdpt & pd & pt & k1 & H & G & T1 & T2 & T3)].
  { left. split; [by exists k1|]. apply H. }
  right. rewrite H. clear H. 
  set (e := Z.lor (page_base phys) flags).
  assert (He : 0 <= e < 2 ^ 64) by (apply lor_range; [by apply page_base_range|lia]).
  assert (Hus : exists k2, (if u then _ <- set_user root (pml4_index virt) ;;
      _ <- set_user pdpt (pdpt_index virt) ;; set_user pd (pd_index virt) else ret tt) k1 = Ret tt k2
    /\ pt_grow (masked k) k2 root /\ (u = true -> user_path (k_mem k2) root (path_of virt) = true)
    /\ table_at (k_mem k2) root (path_of virt) = Some pt).
  { destruct u.
    - destruct (set_users_run k1 root _ _ _ pdpt pd pt (gw_mem _ _ _ G) (gw_ok _ _ _ G) (path_of_valid virt) T1 T2 T3)
        as (k2 & R & G2 & U). exists k2.
      split_and!; [done|by eapply pt_grow_trans|done|apply G2; [apply path_of_valid|done]].
    - exists k1. by split_and!. }
  destruct Hus as (k2 & R & G2 & U & T). rewrite (bind_run _ _ _ _ _ R). clear k1 G T1 T2 T3 R.
  destruct (gw_state _ _ _ G2) as (q & m & Hk2).
  pose proof (gw_ok _ _ _ G2) as Hok2.
  set (m' := st64 m (pt + 8 * pt_index virt) e).
  assert (Hst : store_entry pt (pt_index virt) e k2 = Ret tt (with_mem m' (with_pmm q (masked k)))) by (by rewrite Hk2).
  rewrite (bind_run _ _ _ _ _ Hst), flush_restore. eexists. split; [reflexivity|].
  assert (Hm2 : k_mem k2 = m) by (by rewrite Hk2).
  assert (Hmem' : k_mem (flushed pml4 virt (with_mem m' (with_pmm q k))) = m') by (unfold flushed; by destruct (_ =? _)).
  split; rewrite ?Hmem'.
  - by exists q, m'.
  - intros v. pose proof (leaf_mapping k2 root virt pt e Hok2 He T v) as L. rewrite Hm2 in L.
    unfold mapping in *. unfold root in L. rewrite !page_base_idem in L. fold m' in L. rewrite L. 
    case_decide; [done|]. pose proof (gw_map _ _ _ G2 v) as M. rewrite Hm2 in M. unfold mapping in M. unfold root in M.
    rewrite page_base_idem in M. exact M.
  - intros Hu. pose proof (leaf_user k2 root virt pt e Hok2 T _ (path_of_valid virt)) as L.
    rewrite Hm2 in L, U. apply L, U. clear L. unfold e in Hu. rewrite user_bit_lor in Hu. rewrite !user_bit_bit, page_base_bits in Hu by lia. 
    unfold u. by rewrite user_bit_bit.
  - apply flushed_ok. pose proof (gw_mem _ _ _ G2) as M. by rewrite Hk2 in M.
  - apply flushed_pt. pose proof (leaf_ok k2 root virt pt e Hok2 T) as L. rewrite Hk2 in L. by apply unmasked_pt.
  - intros a Ha Hn. transitivity (rd8 m a).
    + unfold m'. rewrite <- Hm2. apply (leaf_bytes k2 root virt pt e Hok2 T). intros E.
      destruct (gw_new _ _ _ G2 _ _ (path_of_valid virt) T) as [T0|F]; [|rewrite <- E in F; change (k_free k (a / 4096) = true) in F; congruence].
      apply Hn. exists (path_of virt), pt. by split_and!; [apply path_of_valid|..].
    + rewrite <- Hm2. by apply G2.
  - intros page n Ho. pose proof (gw_runs _ _ _ G2 page n Ho) as M. rewrite Hk2 in M.
    unfold flushed. by destruct (_ =? _).
  - intros r t Hr Ht. pose proof (leaf_tables k2 root virt pt e Hok2 T r Hr) as L. rewrite Hm2 in L. fold m' in L.
    unfold root in L. rewrite L in Ht. rewrite <- Hm2 in Ht. by apply (gw_new _ _ _ G2).
  - intros g Hg. apply (gw_free _ _ _ G2). rewrite Hk2. revert Hg. unfold flushed. by destruct (_ =? _).
Qed.

(** ** Unmapping a page *)

Lemma masked_masked k : masked (masked k) = masked k.
Proof.
  unfold masked, set_rflags, with_cpu. cbn. do 2 f_equal. apply Z.bits_inj'. intros i Hi.
  rewrite !Z.clearbit_eqb. by destruct (Z.testbit _ i), (_ =? i).
Qed.

(** The end of [kvmmap]: CR3 is loaded again and the interrupt flag restored. *)
Definition reloaded (k k1 : kstate) : kstate :=
  with_cpu {| rflags := rflags (k_cpu k); cr3 := cr3 (k_cpu k); tlb := tlb (k_cpu k1) ++ [LoadCr3 (cr3 (k_cpu k))] |} k1.

Lemma kvmmap_run k virt phys flags :
  mem_ok k -> pt_ok k (page_base (cr3 (k_cpu k))) -> 0 <= phys < 2 ^ 64 -> 0 <= flags < 2 ^ 64 ->
  (starved k (page_base (cr3 (k_cpu k))) /\ exists k', kvmmap virt phys flags k = Hang k')
  \/ exists k1, kvmmap virt phys flags k = Ret true (reloaded k k1)
       /\ mapped (masked k) k1 (cr3 (k_cpu k)) virt (Z.lor (page_base phys) flags).
Proof.
  intros Hm Hok Hp Hf. unfold kvmmap. rewrite (bind_run _ _ _ _ _ (irq_save_run k)). cbn [bind read_cr3 gets].
  change (cr3 (k_cpu (masked k))) with (cr3 (k_cpu k)).
  assert (Hok' : pt_ok (masked k) (page_base (cr3 (k_cpu k)))) by (destruct Hok; by split).
  destruct (kvmmap_at_run (masked k) (cr3 (k_cpu k)) virt phys flags Hm Hok' Hp Hf) as [[Hs (k' & R)]|(k1 & R & M)].
  - left. split; [|exists k'; by rewrite (bind_hang _ _ _ _ R)].
    destruct Hs as (k1 & G & N). rewrite masked_masked in G. by exists k1.
  - right. exists k1. split; [|done]. by rewrite (bind_run _ _ _ _ _ R).
Qed.

Lemma reloaded_ok k k1 : mem_ok k1 -> mem_ok (reloaded k k1).
Proof. done. Qed.
Lemma reloaded_pt k k1 root : pt_ok k1 root -> pt_ok (reloaded k k1) root.
Proof. intros [H1 H2 H3]. by split. Qed.

Lemma restore_ret {A} k (r : A) : (_ <- write_flags (rflags (k_cpu k)) ;; ret r) (masked k) = Ret r k.
Proof. exact (bind_run _ _ _ _ _ (write_flags_masked k)). Qed.

Lemma load64_bind {B} a (g : Z -> kernel B) k : bind (load64 a) g k = g (ld64 (k_mem k) a) k.
Proof. done. Qed.

Lemma mapping_leaf m pml4 virt t :
  table_at m (page_base pml4) (path_of virt) = Some t ->
  mapping m pml4 virt = entry_opt (ld64 m (t + 8 * pt_index virt)).
Proof. unfold mapping. by intros ->. Qed.

(** The state after the leaf entry of [virt] was cleared. *)
Record unmapped (k k' : kstate) (pml4 virt : Z) (q : pmm_t) : Prop := {
  um_state : exists m, k' = flushed pml4 virt (with_mem m (with_pmm q k));
  um_map v : mapping (k_mem k') pml4 v = if decide (same_page v virt) then None else mapping (k_mem k) pml4 v;
  um_user r : valid_path r -> user_path (k_mem k) (page_base pml4) r = true ->
    user_path (k_mem k') (page_base pml4) r = true;
  um_bytes a : ~ table_frame (k_mem k) (page_base pml4) (a / 4096) -> rd8 (k_mem k') a = rd8 (k_mem k) a
}.

Lemma clear_leaf_run k pml4 virt t q :
  pt_ok k (page_base pml4) -> table_at (k_mem k) (page_base pml4) (path_of virt) = Some t ->
  exists k', (_ <- store64 (t + 8 * pt_index virt) 0 ;; _ <- flush_page pml4 virt ;;
              _ <- write_flags (rflags (k_cpu k)) ;; ret true) (with_pmm q (masked k)) = Ret true k'
  /\ unmapped k k' pml4 virt q /\ (pt_ok (with_pmm q k) (page_base pml4) -> pt_ok k' (page_base pml4))
  /\ (mem_ok (with_pmm q k) -> mem_ok k').
Proof.
  intros Hok Ht. set (m := st64 (k_mem k) (t + 8 * pt_index virt) 0).
  assert (Hst : store64 (t + 8 * pt_index virt) 0 (with_pmm q (masked k)) = Ret tt (with_mem m (with_pmm q (masked k)))) by done.
  rewrite (bind_run _ _ _ _ _ Hst), flush_restore. eexists. split; [reflexivity|].
  assert (Hmem : k_mem (flushed pml4 virt (with_mem m (with_pmm q k))) = m) by (unfold flushed; by destruct (_ =? _)).
  assert (H0 : 0 <= 0 < 2 ^ 64) by lia.
  split; [split; rewrite ?Hmem|split].
  - by exists m.
  - intros v. pose proof (leaf_mapping k _ virt t 0 Hok H0 Ht v) as L.
    unfold mapping in *. rewrite !page_base_idem in L. exact L.
  - intros r Hr. by apply (leaf_user k _ virt t 0 Hok Ht).
  - intros a Hn. apply (leaf_bytes k _ virt t 0 Hok Ht). intros E. apply Hn.
    exists (path_of virt), t. by split_and!; [apply path_of_valid|..].
  - intros Hq. apply flushed_pt. by apply (leaf_ok (with_pmm q k) _ virt t 0 Hq).
  - intros Hq. by apply flushed_ok.
Qed.

Lemma kvmunmap_at_run k pml4 virt :
  mem_ok k -> pt_ok k (page_base pml4) ->
  match mapping (k_mem k) pml4 virt with
  | None => kvmunmap_at pml4 virt k = Ret false k
  | Some _ => exists k', kvmunmap_at pml4 virt k = Ret true k' /\ unmapped k k' pml4 virt (k_pmm k)
                /\ mem_ok k' /\ pt_ok k' (page_base pml4)
  end.
Proof.
  intros Hm Hok. unfold kvmunmap_at. rewrite (bind_run _ _ _ _ _ (irq_save_run k)).
  rewrite (bind_run _ _ _ _ _ (kget_pte_addr_at_run (masked k) pml4 virt)). change (k_mem (masked k)) with (k_mem k).
  destruct (leaf_addr_table k pml4 virt Hok) as [[-> Hn]|(t & Ht & Ha & Hne)].
  { unfold mapping. rewrite Hn. cbn [NULL Z.eqb]. apply restore_ret. }
  rewrite (proj2 (Z.eqb_neq _ _) Hne), Ha, (mapping_leaf _ _ _ _ Ht).
  rewrite !load64_bind. change (k_mem (masked k)) with (k_mem k). unfold entry_opt.
  destruct (present _); cbn [negb]; [|apply restore_ret].
  destruct (clear_leaf_run k pml4 virt t (k_pmm k) Hok Ht) as (k' & R & U & P & M).
  exists k'. rewrite with_pmm_id in P, M. split_and!; [|done|by apply M|by apply P]. by destruct k.
Qed.

Lemma pt_ok_give k root f : pt_ok k root -> ~ table_frame (k_mem k) root f -> pt_ok (give_frame f k) root.
Proof.
  intros [H1 H2 H3] Hn. split; [done|done|]. intros q t Hq Ht. apply owned_give; [by eapply H3|].
  intros E. apply Hn. exists q, t. split_and!; [done|done|lia].
Qed.

Lemma kvmunmap_and_free_at_run k pml4 virt :
  mem_ok k -> pt_ok k (page_base pml4) ->
  match table_at (k_mem k) (page_base pml4) (path_of virt) with
  | None => kvmunmap_and_free_at pml4 virt k = Ret false k
  | Some t =>
      let page := page_base (ld64 (k_mem k) (t + 8 * pt_index virt)) in
      (page = NULL -> exists k', kvmunmap_and_free_at pml4 virt k = Ret true k'
         /\ unmapped k k' pml4 virt (k_pmm k) /\ mem_ok k' /\ pt_ok k' (page_base pml4))
      /\ (owned_run k page 1 -> exists k', kvmunmap_and_free_at pml4 virt k = Ret true k'
         /\ unmapped k k' pml4 virt (pmm_set (page / 4096) (k_pmm k)) /\ mem_ok k'
         /\ (~ table_frame (k_mem k) (page_base pml4) (page / 4096) -> pt_ok k' (page_base pml4)))
      /\ (page <> NULL -> ~ freeable k page -> exists k', kvmunmap_and_free_at pml4 virt k = Hang k')
  end.
Proof.
  intros Hm Hok. unfold kvmunmap_and_free_at. rewrite (bind_run _ _ _ _ _ (irq_save_run k)).
  rewrite (bind_run _ _ _ _ _ (kget_pte_addr_at_run (masked k) pml4 virt)). change (k_mem (masked k)) with (k_mem k).
  destruct (leaf_addr_table k pml4 virt Hok) as [[-> Hn]|(t & Ht & Ha & Hne)].
  { rewrite Hn. cbn [NULL Z.eqb]. apply restore_ret. }
  rewrite Ht. rewrite (proj2 (Z.eqb_neq _ _) Hne), Ha. rewrite !load64_bind.
  change (k_mem (masked k)) with (k_mem k). set (page := page_base (ld64 _ _)). cbv zeta. split_and!.
  - intros E. rewrite E, (bind_run _ _ _ _ _ (kpfree_null _)).
    destruct (clear_leaf_run k pml4 virt t (k_pmm k) Hok Ht) as (k' & R & U & P & M).
    exists k'. rewrite with_pmm_id in P, M. split_and!; [|done|by apply M|by apply P]. by destruct k.
  - intros Ho. assert (Ho' : owned_run (masked k) page 1) by exact Ho.
    destruct (kpfree_step (masked k) page Hm Ho') as (R & M & _). rewrite (bind_run _ _ _ _ _ R).
    destruct (clear_leaf_run k pml4 virt t (pmm_set (page / 4096) (k_pmm k)) Hok Ht) as (k' & R' & U & P & M').
    exists k'. split_and!; [exact R'|done|by apply M'|]. intros Hn. by apply P, pt_ok_give.
  - intros Hnull Hbad. destruct (kpfree_invalid (masked k) page Hnull Hbad) as (k' & R).
    exists k'. by rewrite (bind_hang _ _ _ _ R).
Qed.

(** ** Properties *)

(** Memory of zeros holds no table but the root, and maps nothing. *)
Lemma table_empty m root q t :
  (forall a, rd8 m a = 0) -> table_at m root q = Some t -> q = [] /\ t = root.
Proof.
  intros Hr. destruct q as [|i q]; cbn [table_at]; [by intros [= <-]|]. destruct (table_at _ _ _) as [u|]; [|done].
  rewrite (ld64_ext ∅) by (intros b _; by rewrite Hr). done.
Qed.
Lemma mapping_empty m pml4 v : (forall a, rd8 m a = 0) -> mapping m pml4 v = None.
Proof.
  intros Hr. unfold mapping. destruct (table_at _ _ _) as [u|]; [|done].
  rewrite (ld64_ext ∅) by (intros b _; by rewrite Hr). done.
Qed.

Lemma pt_ok_empty k root : k_mem k = ∅ -> owned_run k root 1 -> pt_ok k root.
Proof.
  intros Hm Ho. assert (Hr : forall a, rd8 (k_mem k) a = 0) by (intros a; by rewrite Hm). split.
  - intros a. rewrite Hr. unfold byte. lia.
  - intros p q t _ _ [-> _]%table_empty [-> _]%table_empty; done.
  - intros q t _ [_ ->]%table_empty; done.
Qed.

(** The machine [k1] with an empty root table at 0x9000. *)
Lemma k1_owned f : frame_free pmm0 f = false -> 0 < f < 264 -> f <> 256 -> owned_run k1 (f * 4096) 1.
Proof.
  intros Hf Hr Hne. unfold owned_run. rewrite Z.div_mul, Z.mod_mul by lia. split_and!; [done|lia|cbn; lia|].
  intros g Hg. assert (g = f) as -> by lia. split; [done|].
  intros (a & Ha & [b [[-> _]|[-> _]]%heap_with_blocks]); revert Ha; [change (0x100000 / 4096) with 256|]; div_lia.
Qed.

Lemma k1_pt : pt_ok k1 0x9000.
Proof. apply pt_ok_empty; [done|]. by apply (k1_owned 9). Qed.

(** C31: [kget_pte_addr_at] walks the four levels with the interrupt flag
    restored and nothing changed: it returns the address of the leaf entry of
    [virt], and 0 when one of the three tables above it is missing. *)
Theorem kget_pte_addr_at_walk k pml4 virt :
  kget_pte_addr_at pml4 virt k
  = Ret (match table_at (k_mem k) (page_base pml4) (path_of virt) with
         | Some t => t + 8 * pt_index virt
         | None => 0
         end) k.
Proof. apply kget_pte_addr_at_run. Qed.



(** C19: [kvmunmap_at] returns false and changes nothing when the page of [virt]
    is not mapped; else it clears its leaf entry, keeps every other mapping, all
    other memory and the free frames, and returns true. *)
Theorem kvmunmap_at_correct k pml4 virt :
  mem_ok k -> pt_ok k (page_base pml4) ->
  match mapping (k_mem k) pml4 virt with
  | None => kvmunmap_at pml4 virt k = Ret false k
  | Some _ => exists k', kvmunmap_at pml4 virt k = Ret true k' /\ unmapped k k' pml4 virt (k_pmm k)
                /\ mem_ok k' /\ pt_ok k' (page_base pml4)
  end.
Proof. apply kvmunmap_at_run. Qed.

(** [k1] with page 0x103000, which is allocated, mapped at 0x400000. *)
Lemma k1_mapped :
  exists k', kvmmap_at 0x9000 0x400000 0x103000 7 k1 = Ret true k' /\ mapped k1 k' 0x9000 0x400000 0x103007.
Proof.
  destruct (kvmmap_at_run k1 0x9000 0x400000 0x103000 7 k1_ok k1_pt ltac:(lia) ltac:(lia))
    as [[_ (k' & H)]|(k' & H & M)]; [|exists k'; exact (conj H M)].
  assert (R : match kvmmap_at 0x9000 0x400000 0x103000 7 k1 with Ret b _ => b | _ => false end = true)
    by (vm_compute; reflexivity).
  rewrite H in R. discriminate R.
Qed.

Lemma kvmunmap_at_correct_witness :
  exists k k', kvmunmap_at 0x9000 0x400000 k = Ret true k' /\ mapping (k_mem k) 0x9000 0x400000 = Some 0x103007
  /\ mapping (k_mem k') 0x9000 0x400000 = None.
Proof.
  destruct k1_mapped as (k & _ & M).
  assert (E : mapping (k_mem k) 0x9000 0x400000 = Some 0x103007) by (rewrite (mp_map _ _ _ _ _ M); by vm_compute).
  pose proof (kvmunmap_at_correct k 0x9000 0x400000 (mp_mem _ _ _ _ _ M) (mp_ok _ _ _ _ _ M)) as H.
  rewrite E in H. destruct H as (k' & H & U & _). exists k, k'. split_and!; [exact H|exact E|].
  rewrite (um_map _ _ _ _ _ U). by vm_compute.
Defined.

(** C20: [kvmunmap_and_free_at] by cases: without a page table false and nothing
    changed; with an entry of address 0 the entry is cleared and the result
    still true; with an allocated page the entry is cleared and the page is free
    again; with a page that is free or out of range the machine stops. *)
Theorem kvmunmap_and_free_at_cases k pml4 virt :
  mem_ok k -> pt_ok k (page_base pml4) ->
  match table_at (k_mem k) (page_base pml4) (path_of virt) with
  | None => kvmunmap_and_free_at pml4 virt k = Ret false k
  | Some t =>
      let page := page_base (ld64 (k_mem k) (t + 8 * pt_index virt)) in
      (page = NULL -> exists k', kvmunmap_and_free_at pml4 virt k = Ret true k'
         /\ unmapped k k' pml4 virt (k_pmm k) /\ mem_ok k' /\ pt_ok k' (page_base pml4))
      /\ (owned_run k page 1 -> exists k', kvmunmap_and_free_at pml4 virt k = Ret true k'
         /\ unmapped k k' pml4 virt (pmm_set (page / 4096) (k_pmm k)) /\ mem_ok k'
         /\ (~ table_frame (k_mem k) (page_base pml4) (page / 4096) -> pt_ok k' (page_base pml4)))
      /\ (page <> NULL -> ~ freeable k page -> exists k', kvmunmap_and_free_at pml4 virt k = Hang k')
  end.
Proof. apply kvmunmap_and_free_at_run. Qed.

Lemma mapping_table m pml4 virt e :
  mapping m pml4 virt = Some e -> exists t, table_at m (page_base pml4) (path_of virt) = Some t
  /\ ld64 m (t + 8 * pt_index virt) = e.
Proof.
  unfold mapping. destruct (table_at _ _ _) as [t|]; [|done]. cbn zeta. destruct (present _); [|done].
  intros [= <-]. by exists t.
Qed.

Lemma kvmunmap_and_free_at_cases_witness :
  exists k k', kvmunmap_and_free_at 0x9000 0x400000 k = Ret true k' /\ k_free k 259 = false /\ k_free k' 259 = true.
Proof.
  destruct k1_mapped as (k & _ & M).
  assert (E : mapping (k_mem k) 0x9000 0x400000 = Some 0x103007) by (rewrite (mp_map _ _ _ _ _ M); by vm_compute).
  destruct (mapping_table _ _ _ _ E) as (t & T & L).
  assert (O : owned_run k 0x103000 1) by (apply (mp_runs _ _ _ _ _ M), (k1_owned 259); [by vm_compute|lia|lia]).
  pose proof (kvmunmap_and_free_at_cases k 0x9000 0x400000 (mp_mem _ _ _ _ _ M) (mp_ok _ _ _ _ _ M)) as H.
  rewrite T, L in H. destruct H as (_ & H & _). destruct (H O) as (k' & R & U & _).
  exists k, k'. split_and!; [exact R|exact (owned_frame _ _ O)|].
  destruct (um_state _ _ _ _ _ U) as (m & ->). unfold flushed, k_free.
  destruct (_ =? _); cbn [k_pmm with_cpu with_mem with_pmm]; rewrite frame_free_set, bool_decide_eq_true_2; done.
Defined.
