(* ===== verification/As.v ===== *)
(** * as/as.c: the table of address spaces

    [addrspaces] is a heap array of pointers to [addrspace_t]; ids count from 1. *)

From S2P Require Import Prelude State Utils Mem Pmm Heap Objects Vmm.

Definition upd_as (f : as_t -> as_t) : kernel unit := modify (fun k => with_as (f (k_as k)) k).

Definition set_as_table (base cap : Z) (a : as_t) : as_t :=
  {| addrspaces := base; addrspaces_length := addrspaces_length a; addrspaces_cap := cap |}.
Definition set_as_length (n : Z) (a : as_t) : as_t :=
  {| addrspaces := addrspaces a; addrspaces_length := n; addrspaces_cap := addrspaces_cap a |}.

(** [if (!addrspaces) addrspaces = kmalloc(...)] *)
Definition init_as_table : kernel bool :=
  a <- gets k_as ;;
  if negb (addrspaces a =? NULL) then ret true else
  t <- kmalloc (u64 (sizeof_pointer * addrspaces_cap a)) ;;
  _ <- upd_as (set_as_table t (addrspaces_cap a)) ;;
  ret (negb (t =? NULL)).

(** The doubling of a full table; [false] is the failure. *)
Definition grow_as : kernel bool :=
  a <- gets k_as ;;
  if addrspaces_length a <? addrspaces_cap a then ret true else
  let new_cap := u64 (addrspaces_cap a * 2) in
  tmp <- krealloc copy_ptrs (addrspaces a) (u64 (sizeof_pointer * new_cap)) ;;
  if tmp =? NULL then ret false else
  _ <- upd_as (set_as_table tmp new_cap) ;; ret true.

Definition kaddrspace_create : kernel Z :=
  ok <- init_as_table ;;
  if negb ok then ret NULL else
  as_ <- kmalloc sizeof_addrspace_t ;;
  if as_ =? NULL then ret NULL else
  cr3 <- kvmm_create_user_pml4 ;;
  len <- gets (fun k => addrspaces_length (k_as k)) ;;
  _ <- store_as as_ {| as_cr3 := cr3; as_id := u64 (len + 1) |} ;;
  if cr3 =? 0 then _ <- kfree as_ ;; ret NULL else
  ok <- grow_as ;;
  if negb ok then
    _ <- kvmm_free_user_pml4 cr3 ;; _ <- kfree as_ ;; ret NULL
  else
  a <- gets k_as ;;
  _ <- store_ptr (addrspaces a) (addrspaces_length a) as_ ;;
  _ <- upd_as (set_as_length (u64 (addrspaces_length a + 1))) ;;
  ret as_.
