(* ===== verification/User.v ===== *)
(** * syscall.c: the memory of the calling process

    The kernel reads and writes user memory at its virtual addresses, under the
    page tables in CR3 ([translate]); supervisor accesses need a present entry
    only (CR0.WP is clear).  An access to an unmapped page faults in the kernel,
    which dumps the registers and stops ([page_fault]).  [copy_to_user_at] goes
    through the tables of another address space and checks each entry. *)

From S2P Require Import Prelude State Utils Mem Pmm Heap Objects Vmm Paging.

Definition USER_AREA_BASE : Z := 0x400000.
Definition USER_AREA_END : Z := 0x700000.
Definition SYSCALL_MAX_BUF : Z := 2048.
Definition SYSCALL_MAX_PATH : Z := 256.

(** ** Accesses at virtual addresses *)

Definition translate (m : gmap Z Z) (pml4 va : Z) : option Z :=
  match mapping m pml4 va with Some e => Some (page_base e + va mod 4096) | None => None end.

Definition page_fault {A} : kernel A := hang.

Definition load_virt (va : Z) : kernel Z :=
  k <- gets id ;;
  match translate (k_mem k) (cr3 (k_cpu k)) va with
  | Some a => ret (rd8 (k_mem k) a)
  | None => page_fault
  end.

Definition store_virt (va v : Z) : kernel unit :=
  k <- gets id ;;
  match translate (k_mem k) (cr3 (k_cpu k)) va with
  | Some a => modify (fun k => with_mem (wr8 (k_mem k) a v) k)
  | None => page_fault
  end.

(** [memcpy] out of and into user memory. *)
Fixpoint read_virt (n : nat) (va : Z) : kernel (list Z) :=
  match n with
  | O => ret []
  | S n => b <- load_virt va ;; bs <- read_virt n (va + 1) ;; ret (b :: bs)
  end.

Fixpoint write_virt (va : Z) (bs : list Z) : kernel unit :=
  match bs with
  | [] => ret tt
  | b :: bs => _ <- store_virt va b ;; write_virt (va + 1) bs
  end.

(** ** The checks and the copies *)

Definition user_range_ok (addr len : Z) : bool :=
  if SYSCALL_MAX_BUF + SYSCALL_MAX_PATH <? len then false else
  if addr <? USER_AREA_BASE then false else
  if len =? 0 then addr <? USER_AREA_END else
  if u64 (addr + len) <? addr then false else
  if USER_AREA_END <? u64 (addr + len) then false else
  true.

Definition user_page_ok (virt : Z) : kernel bool :=
  if user_range_ok virt 0 then s <- is_shared_user_page virt ;; ret (negb s) else ret false.

(** The loop of [copy_user_path] from index [i]: [Some] is the array after a
    result of 0, [None] the result -1. *)
Fixpoint copy_path_loop (n : nat) (uaddr i : Z) (out : list Z) : kernel (option (list Z)) :=
  match n with
  | O => _ <- deref (store out SYSCALL_MAX_PATH 0) ;; ret None
  | S n =>
      if USER_AREA_END <=? u64 (uaddr + i) then ret None else
      c <- load_virt (uaddr + i) ;;
      out <- deref (store out i c) ;;
      if c =? 0 then ret (Some out) else copy_path_loop n uaddr (i + 1) out
  end.

(** A local array of [SYSCALL_MAX_PATH + 1] bytes. *)
Definition path_buffer : list Z := replicate 257 0.

Definition copy_user_path (uaddr : Z) : kernel (option (list Z)) :=
  if (uaddr <? USER_AREA_BASE) || (USER_AREA_END <=? uaddr) then ret None else
  copy_path_loop (Z.to_nat SYSCALL_MAX_PATH) uaddr 0 path_buffer.

(** The heap buffer [kbuf] holds the bytes copied. *)
Definition copy_from_user (uaddr kbuf len : Z) : kernel Z :=
  if len =? 0 then ret 0 else
  if kbuf =? NULL then ret (-1) else
  if negb (user_range_ok uaddr len) then ret (-1) else
  bs <- read_virt (Z.to_nat len) uaddr ;;
  _ <- store_bytes kbuf bs ;;
  ret 0.

Definition copy_to_user (uaddr kbuf len : Z) : kernel Z :=
  if len =? 0 then ret 0 else
  if kbuf =? NULL then ret (-1) else
  if negb (user_range_ok uaddr len) then ret (-1) else
  bs <- load_bytes kbuf ;;
  if Z.of_nat (length bs) <? len then stuck else
  _ <- write_virt uaddr (take (Z.to_nat len) bs) ;;
  ret 0.

(** The loop of [copy_to_user_at]: each round ends at a page boundary or at the
    end of [src]. *)
Fixpoint copy_at_loop (fuel : nat) (pml4 addr : Z) (src : list Z) : kernel Z :=
  match src with
  | [] => ret 0
  | _ =>
      match fuel with
      | O => stuck
      | S fuel =>
          pte <- kget_pte_addr_at pml4 addr ;;
          if pte =? NULL then ret (-1) else
          entry <- load64 pte ;;
          if negb (present entry) then ret (-1) else
          if negb (user_bit entry) then ret (-1) else
          if negb (writable entry) then ret (-1) else
          let phys := page_base entry in
          let page_offset := Z.land addr 0xFFF in
          let chunk := Z.min (0x1000 - page_offset) (Z.of_nat (length src)) in
          _ <- modify (fun k => with_mem (write_bytes (k_mem k) (phys + page_offset)
                                            (take (Z.to_nat chunk) src)) k) ;;
          copy_at_loop fuel pml4 (addr + chunk) (drop (Z.to_nat chunk) src)
      end
  end.

(** [src] is the buffer's contents; [len] is at most 2304, two pages at most. *)
Definition copy_to_user_at (pml4 uaddr : Z) (kbuf : option (list Z)) (len : Z) : kernel Z :=
  if len =? 0 then ret 0 else
  match kbuf with
  | None => ret (-1)
  | Some bs =>
      if negb (user_range_ok uaddr len) then ret (-1) else
      if Z.of_nat (length bs) <? len then stuck else
      copy_at_loop 2 pml4 uaddr (take (Z.to_nat len) bs)
  end.

Definition user_find_free_page (pml4 : Z) : kernel Z :=
  r <- for_until (Z.to_nat ((USER_AREA_END - USER_HEAP_BASE) / 4096)) 0 (fun i =>
    let virt := USER_HEAP_BASE + i * 4096 in
    pte <- kget_pte_addr_at pml4 virt ;;
    if pte =? NULL then ret (Some virt) else
    e <- load64 pte ;;
    if negb (present e) || negb (user_bit e) then ret (Some virt) else ret None) ;;
  ret (default 0 r).

(** ** The range check *)

Lemma user_range_run addr len :
  0 <= addr < 2 ^ 64 -> 0 <= len < 2 ^ 64 ->
  user_range_ok addr len = true <->
  len <= SYSCALL_MAX_BUF + SYSCALL_MAX_PATH /\ USER_AREA_BASE <= addr /\ addr < USER_AREA_END
  /\ addr + len <= USER_AREA_END.
Proof.
  unfold user_range_ok, SYSCALL_MAX_BUF, SYSCALL_MAX_PATH, USER_AREA_BASE, USER_AREA_END. intros Ha Hl.
  destruct (Z.ltb_spec (2048 + 256) len); [split; [done|lia]|].
  destruct (Z.ltb_spec addr 0x400000); [split; [done|lia]|].
  destruct (Z.eqb_spec len 0); [rewrite Z.ltb_lt; lia|].
  destruct (Z.lt_ge_cases (addr + len) (2 ^ 64)) as [Hw|Hw].
  - rewrite u64_small by lia. destruct (Z.ltb_spec (addr + len) addr); [lia|].
    destruct (Z.ltb_spec 0x700000 (addr + len)); split; intros; (done || lia).
  - assert (E : u64 (addr + len) = addr + len - 2 ^ 64).
    { unfold u64. symmetry. apply (Z.mod_unique_pos _ _ 1); lia. }
    rewrite E. destruct (Z.ltb_spec (addr + len - 2 ^ 64) addr); split; intros; (done || lia).
Qed.

(** ** Copies into another address space *)

(** A page of the process that its own code may write. *)
Definition writable_page (m : gmap Z Z) (pml4 va e : Z) : Prop :=
  mapping m pml4 va = Some e /\ user_bit e = true /\ writable e = true.

(** The frames behind the user pages of an address space hold no page table. *)
Definition user_frames_apart (m : gmap Z Z) (pml4 : Z) : Prop :=
  forall va e, mapping m pml4 va = Some e -> user_bit e = true -> ~ table_frame m (page_base pml4) (page_base e / 4096).

(** Tables do not depend on the bytes outside their frames. *)
Lemma table_at_outside m m' root q :
  root mod 4096 = 0 ->
  (forall a, table_frame m root (a / 4096) -> rd8 m' a = rd8 m a) ->
  valid_path q -> table_at m' root q = table_at m root q.
Proof.
  intros Hr Hm. induction q as [|i q IH]; intros Hv; [done|]. cbn [table_at].
  destruct (valid_up _ _ Hv) as [Hq Hi]. rewrite IH by done.
  destruct (table_at m root q) as [t|] eqn:E; [|done].
  rewrite (ld64_ext m m'); [done|]. intros b Hb. apply Hm. exists q, t. split_and!; [done..|].
  pose proof (table_at_mod m root q t Hr E). div_lia.
Qed.

Lemma mapping_outside m m' pml4 :
  (forall a, table_frame m (page_base pml4) (a / 4096) -> rd8 m' a = rd8 m a) ->
  forall v, mapping m' pml4 v = mapping m pml4 v.
Proof.
  intros Hm v. unfold mapping. pose proof (page_base_mod pml4) as Hr.
  rewrite (table_at_outside m) by (done || apply path_of_valid).
  destruct (table_at m _ _) as [t|] eqn:E; [|done].
  rewrite (ld64_ext m m'); [done|]. intros b Hb. apply Hm. exists (path_of v), t.
  split_and!; [apply path_of_valid|done|].
  pose proof (table_at_mod m _ _ t Hr E). pose proof (index_range v 12). unfold pt_index in Hb. div_lia.
Qed.

(** What a copy to [n] bytes at [va] leaves: only bytes of writable user pages
    differ, and [done] of the bytes have arrived. *)
Record user_copy (m m' : gmap Z Z) (pml4 va : Z) (bs : list Z) : Prop := {
  uc_frame a : rd8 m' a <> rd8 m a ->
    exists i e, 0 <= i < Z.of_nat (length bs) /\ writable_page m pml4 (va + i) e /\ a = page_base e + (va + i) mod 4096
}.

Definition arrived (m m' : gmap Z Z) (pml4 va : Z) (bs : list Z) : Prop :=
  forall i b, bs !! i = Some b -> exists a, translate m pml4 (va + Z.of_nat i) = Some a /\ rd8 m' a = u8 b.

Record user_space_ok (k : kstate) (pml4 : Z) : Prop := {
  us_pt : pt_ok k (page_base pml4);
  us_apart : user_frames_apart (k_mem k) pml4
}.

Lemma mapping_same_page m pml4 v w : same_page v w -> mapping m pml4 v = mapping m pml4 w.
Proof. intros [Hp Hi]. unfold mapping. by rewrite Hp, Hi. Qed.

Lemma user_write m pml4 va e off bs a :
  user_frames_apart m pml4 -> mapping m pml4 va = Some e -> user_bit e = true ->
  0 <= off -> off + Z.of_nat (length bs) <= 4096 ->
  table_frame m (page_base pml4) (a / 4096) -> rd8 (write_bytes m (page_base e + off) bs) a = rd8 m a.
Proof.
  intros Hap He Hu Ho Hl Hf. rewrite rd8_write_bytes. rewrite decide_False; [done|]. intros Ha.
  apply (Hap va e He Hu). pose proof (page_base_mod e). by replace (page_base e / 4096) with (a / 4096) by div_lia.
Qed.

Lemma user_space_write k pml4 va e off bs :
  user_space_ok k pml4 -> mapping (k_mem k) pml4 va = Some e -> user_bit e = true ->
  0 <= off -> off + Z.of_nat (length bs) <= 4096 ->
  let m' := write_bytes (k_mem k) (page_base e + off) bs in
  user_space_ok (with_mem m' k) pml4 /\ forall v, mapping m' pml4 v = mapping (k_mem k) pml4 v.
Proof.
  intros [Hpt Hap] He Hu Ho Hl m'. pose proof (page_base_mod pml4) as Hr.
  assert (Ht : forall q, valid_path q -> table_at m' (page_base pml4) q = table_at (k_mem k) (page_base pml4) q).
  { intros q Hq. apply table_at_outside; [done| |done]. intros a Ha. by eapply user_write. }
  assert (Hm : forall v, mapping m' pml4 v = mapping (k_mem k) pml4 v).
  { apply mapping_outside. intros a Ha. by eapply user_write. }
  split; [|done]. split; [split|]; cbn [k_mem with_mem].
  - apply bytes_ok_write, Hpt.
  - intros p q t Hp Hq. rewrite !Ht by done. by apply Hpt.
  - intros q t Hq. rewrite Ht by done. apply (pt_owned _ _ Hpt q t Hq).
  - intros v e' Hv Hu' (q & t & Hq & Hqt & E). rewrite Hm in Hv. rewrite Ht in Hqt by done.
    apply (Hap v e' Hv Hu'). by exists q, t.
Qed.

(** The bytes of a copy have pairwise different offsets in their pages. *)
Definition copy_chunk (addr : Z) (src : list Z) : Z := Z.min (0x1000 - Z.land addr 0xFFF) (Z.of_nat (length src)).

Lemma land_offset addr : Z.land addr 0xFFF = addr mod 4096.
Proof. change 0xFFF with (Z.ones 12). by rewrite Z.land_ones by lia. Qed.

Lemma chunk_page addr src i :
  0 <= addr -> addr + Z.of_nat (length src) < 2 ^ 48 -> 0 <= i < copy_chunk addr src ->
  same_page (addr + i) addr /\ (addr + i) mod 4096 = addr mod 4096 + i.
Proof.
  unfold copy_chunk. rewrite land_offset. intros Ha Hb Hi. split; [|div_lia].
  apply same_page_div; [lia|lia|]. div_lia.
Qed.

Lemma copy_chunk_pos addr x src : 0 <= addr -> 0 < copy_chunk addr (x :: src).
Proof. intros Ha. unfold copy_chunk. rewrite land_offset. cbn [length]. div_lia. Qed.

(** One more chunk. *)
Lemma copy_loop_step fuel pml4 addr src k :
  user_space_ok k pml4 -> src <> [] -> 0 <= addr -> addr + Z.of_nat (length src) < 2 ^ 48 ->
  (copy_at_loop (S fuel) pml4 addr src k = Ret (-1) k /\ forall e, ~ writable_page (k_mem k) pml4 addr e)
  \/ exists e, writable_page (k_mem k) pml4 addr e
       /\ copy_at_loop (S fuel) pml4 addr src k
          = copy_at_loop fuel pml4 (addr + copy_chunk addr src) (drop (Z.to_nat (copy_chunk addr src)) src)
              (with_mem (write_bytes (k_mem k) (page_base e + addr mod 4096) (take (Z.to_nat (copy_chunk addr src)) src)) k).
Proof.
  intros [Hpt Hap] Hsrc Ha Hb. destruct src as [|x src']; [done|]. cbn [copy_at_loop]. set (src := x :: src') in *.
  rewrite (bind_run _ _ _ _ _ (kget_pte_addr_at_run k pml4 addr)).
  destruct (leaf_addr_table k pml4 addr Hpt) as [[-> Hn]|(t & Ht & Hl & Hne)].
  { left. split; [done|]. intros e (He & _). unfold mapping in He. by rewrite Hn in He. }
  rewrite (proj2 (Z.eqb_neq _ _) Hne), Hl, load64_bind.
  pose proof (mapping_leaf _ _ _ _ Ht) as Hmap. unfold entry_opt in Hmap.
  set (e := ld64 (k_mem k) (t + 8 * pt_index addr)) in *. unfold writable_page.
  destruct (present e); cbn [negb]; [|left; split; [done|]; intros e' (He' & _); congruence].
  destruct (user_bit e) eqn:Hu; cbn [negb]; [|left; split; [done|]; intros e' (He' & Hu' & _); congruence].
  destruct (writable e) eqn:Hw; cbn [negb]; [|left; split; [done|]; intros e' (He' & _ & Hw'); congruence].
  right. exists e. split; [done|]. rewrite <- (land_offset addr). reflexivity.
Qed.

Lemma copy_loop_run fuel pml4 addr src k :
  user_space_ok k pml4 -> 0 <= addr -> addr + Z.of_nat (length src) < 2 ^ 48 ->
  src = [] \/ addr mod 4096 + Z.of_nat (length src) <= 4096 * Z.of_nat fuel -> Z.of_nat (length src) <= 4096 ->
  exists r m', copy_at_loop fuel pml4 addr src k = Ret r (with_mem m' k)
    /\ user_copy (k_mem k) m' pml4 addr src
    /\ ((r = 0 /\ (forall i, 0 <= i < Z.of_nat (length src) -> exists e, writable_page (k_mem k) pml4 (addr + i) e)
         /\ arrived (k_mem k) m' pml4 addr src)
        \/ (r = -1 /\ exists i, 0 <= i < Z.of_nat (length src) /\ forall e, ~ writable_page (k_mem k) pml4 (addr + i) e)).
Proof.
  revert addr src k. induction fuel as [|fuel IH]; intros addr src k Hok Ha Hb Hf Hl.
  all: destruct (decide (src = [])) as [->|Hne];
    [exists 0, (k_mem k); split; [by destruct k|split; [by split|left; split_and!; [done|cbn; lia|done]]]|].
  { destruct Hf as [|Hf]; [done|]. destruct src; [done|]. cbn in Hf. div_lia. }
  destruct Hf as [|Hf]; [done|].
  destruct (copy_loop_step fuel pml4 addr src k Hok Hne Ha Hb) as [[R Hn]|(e & Hw & R)].
  { exists (-1), (k_mem k). split; [by rewrite R; destruct k|]. split; [by split|]. right. split; [done|].
    exists 0. rewrite Z.add_0_r. split; [|done]. destruct src; [done|cbn; lia]. }
  set (c := copy_chunk addr src) in *.
  assert (Hc : 0 < c) by (destruct src; [done|by apply copy_chunk_pos]).
  assert (Hcl : c <= Z.of_nat (length src) /\ c <= 4096 - addr mod 4096) by (unfold c, copy_chunk; rewrite land_offset; lia).
  assert (Hend : c < Z.of_nat (length src) -> (addr + c) mod 4096 = 0).
  { unfold c, copy_chunk. rewrite land_offset. intros. div_lia. }
  assert (Hpage : forall i, 0 <= i < c -> same_page (addr + i) addr /\ (addr + i) mod 4096 = addr mod 4096 + i).
  { intros i Hi. by apply (chunk_page addr src). }
  set (now := take (Z.to_nat c) src) in *. set (later := drop (Z.to_nat c) src) in *.
  assert (Hnow : Z.of_nat (length now) = c) by (unfold now; rewrite length_take; lia).
  assert (Hlater : Z.of_nat (length later) = Z.of_nat (length src) - c) by (unfold later; rewrite length_drop; lia).
  destruct Hw as (He & Hu & Hwr). pose proof (Z.mod_pos_bound addr 4096 ltac:(lia)) as Hoff.
  destruct (user_space_write k pml4 addr e (addr mod 4096) now Hok He Hu ltac:(lia) ltac:(lia)) as [Hok1 Hmap].
  set (m1 := write_bytes (k_mem k) (page_base e + addr mod 4096) now) in *.
  assert (Hwp : forall v e', writable_page m1 pml4 v e' <-> writable_page (k_mem k) pml4 v e')
    by (intros v e'; unfold writable_page; by rewrite Hmap).
  assert (Htr : forall v, translate m1 pml4 v = translate (k_mem k) pml4 v) by (intros v; unfold translate; by rewrite Hmap).
  assert (Hfirst : forall i, 0 <= i < c -> mapping (k_mem k) pml4 (addr + i) = Some e).
  { intros i Hi. rewrite (mapping_same_page _ _ _ addr); [done|]. by apply Hpage. }
  destruct (IH (addr + c) later (with_mem m1 k) Hok1) as (r & m' & R' & Hcopy & Hres); [lia|lia| |lia|].
  { destruct later as [|y later'] eqn:El; [by left|right]. rewrite Hend by (cbn in Hlater; lia). div_lia. }
  cbn [k_mem with_mem] in *. exists r, m'. split; [by rewrite R, R'|]. split.
  - split. intros a Hd. destruct (Z.eq_dec (rd8 m' a) (rd8 m1 a)) as [E|Hd'].
    + rewrite E in Hd. unfold m1 in Hd. rewrite rd8_write_bytes in Hd. case_decide as Hin; [|done].
      exists (a - (page_base e + addr mod 4096)), e. split; [lia|]. split; [split_and!; [apply Hfirst; lia|done|done]|].
      destruct (Hpage (a - (page_base e + addr mod 4096)) ltac:(lia)) as [_ ->]. lia.
    + destruct (uc_frame _ _ _ _ _ Hcopy a Hd') as (i & e' & Hi & Hw' & ->). exists (c + i), e'.
      rewrite Z.add_assoc. split; [lia|]. split; [by apply Hwp|done].
  - destruct Hres as [(-> & Hall & Harr)|(-> & i & Hi & Hn)]; [left|right].
    + split; [done|]. split.
      * intros i Hi. destruct (Z.lt_ge_cases i c); [exists e; split_and!; [apply Hfirst; lia|done|done]|].
        destruct (Hall (i - c) ltac:(lia)) as (e' & Hw'). exists e'. apply Hwp.
        by replace (addr + i) with (addr + c + (i - c)) by lia.
      * intros i b Hib. pose proof (lookup_lt_Some _ _ _ Hib) as Hlt. destruct (Z.lt_ge_cases (Z.of_nat i) c) as [Hic|Hic].
        -- destruct (Hpage (Z.of_nat i) ltac:(lia)) as [_ Hmod]. exists (page_base e + (addr + Z.of_nat i) mod 4096).
           split; [unfold translate; by rewrite Hfirst by lia|].
           transitivity (rd8 m1 (page_base e + (addr + Z.of_nat i) mod 4096)).
           { destruct (Z.eq_dec (rd8 m' (page_base e + (addr + Z.of_nat i) mod 4096))
                         (rd8 m1 (page_base e + (addr + Z.of_nat i) mod 4096))) as [|Hd]; [done|exfalso].
             destruct (uc_frame _ _ _ _ _ Hcopy _ Hd) as (j & e' & Hj & _ & E).
             pose proof (page_base_mod e). pose proof (page_base_mod e'). div_lia. }
           unfold m1. rewrite rd8_write_bytes, decide_True by lia. rewrite Hmod.
           replace (Z.to_nat (page_base e + (addr mod 4096 + Z.of_nat i) - (page_base e + addr mod 4096))) with i by lia.
           unfold now. by rewrite lookup_take_lt, Hib by lia.
        -- destruct (Harr (i - Z.to_nat c)%nat b) as (a & Ha' & Hb').
           { unfold later. rewrite lookup_drop. rewrite <- Hib. f_equal. lia. }
           exists a. split; [|done]. rewrite <- Ha', Htr. f_equal. lia.
    + split; [done|]. exists (c + i). split; [lia|]. intros e' Hw'. apply (Hn e'), Hwp. by rewrite <- Z.add_assoc.
Qed.

(** ** Properties *)

(** C33: [user_range_ok] accepts exactly the ranges of at most 2304 bytes that lie
    in the user area; an address range that wraps around 2^64 is refused. *)
Theorem user_range_ok_spec addr len :
  0 <= addr < 2 ^ 64 -> 0 <= len < 2 ^ 64 ->
  user_range_ok addr len = true <->
  len <= SYSCALL_MAX_BUF + SYSCALL_MAX_PATH /\ USER_AREA_BASE <= addr /\ addr < USER_AREA_END
  /\ addr + len <= USER_AREA_END.
Proof. apply user_range_run. Qed.

Lemma user_range_ok_spec_witness : user_range_ok 0x6FFFFF 1 = true /\ user_range_ok (2 ^ 64 - 1) 2304 = false.
Proof.
  split.
  - apply (user_range_ok_spec 0x6FFFFF 1); [lia|lia|]. unfold SYSCALL_MAX_BUF, SYSCALL_MAX_PATH, USER_AREA_BASE, USER_AREA_END. lia.
  - reflexivity.
Defined.

(** C9: [copy_to_user_at] returns 0 exactly when there is nothing to copy or the
    range is in the user area and every page of it is present, user accessible
    and writable in the target address space; then every byte has arrived at the
    frame behind its address.  Whatever the result, memory changes only at the
    addressed bytes of such pages. *)
Theorem copy_to_user_at_correct k pml4 uaddr bs len :
  user_space_ok k pml4 -> 0 <= uaddr < 2 ^ 64 -> 0 <= len <= Z.of_nat (length bs) -> len < 2 ^ 64 ->
  exists r m', copy_to_user_at pml4 uaddr (Some bs) len k = Ret r (with_mem m' k)
    /\ user_copy (k_mem k) m' pml4 uaddr (take (Z.to_nat len) bs)
    /\ (r = 0 /\ arrived (k_mem k) m' pml4 uaddr (take (Z.to_nat len) bs) \/ r = -1)
    /\ (r = 0 <-> len = 0 \/ (user_range_ok uaddr len = true
          /\ forall i, 0 <= i < len -> exists e, writable_page (k_mem k) pml4 (uaddr + i) e)).
Proof.
  intros Hok Hu Hlen Hmax. unfold copy_to_user_at.
  assert (Hid : forall r : Z, Ret r k = Ret r (with_mem (k_mem k) k)) by (intros; by destruct k).
  destruct (Z.eqb_spec len 0) as [->|Hn].
  { exists 0, (k_mem k). split; [apply Hid|]. split; [by split|]. split; [by left|]. split; [by left|done]. }
  destruct (user_range_ok uaddr len) eqn:Hr; cbn [negb].
  2: { exists (-1), (k_mem k). split; [apply Hid|]. split; [by split|]. split; [by right|].
       split; [done|intros [|[? _]]; done]. }
  apply user_range_run in Hr; [|done|lia]. unfold SYSCALL_MAX_BUF, SYSCALL_MAX_PATH, USER_AREA_BASE, USER_AREA_END in Hr.
  rewrite (proj2 (Z.ltb_ge _ _)) by lia.
  assert (Hl : Z.of_nat (length (take (Z.to_nat len) bs)) = len) by (rewrite length_take; lia).
  pose proof (Z.mod_pos_bound uaddr 4096 ltac:(lia)).
  destruct (copy_loop_run 2 pml4 uaddr (take (Z.to_nat len) bs) k Hok) as (r & m' & R & C & Hres);
    [lia|lia|right; lia|lia|]. rewrite Hl in Hres.
  exists r, m'. split; [done|]. split; [done|]. destruct Hres as [(-> & Hall & Harr)|(-> & i & Hi & Hn')].
  - split; [by left|]. split; [intros _; by right|done].
  - split; [by right|]. split; [done|]. intros [|[_ Hall]]; [done|]. destruct (Hall i Hi) as (e & He). by destruct (Hn' e).
Qed.

(** The process of [k1] with the page 0x103000 at 0x400000. *)
Lemma k1_user_space k : mapped k1 k 0x9000 0x400000 0x103007 -> user_space_ok k 0x9000.
Proof.
  intros M. split; [apply M|]. intros va e He _ (q & t & Hq & Ht & E).
  rewrite (mp_map _ _ _ _ _ M) in He.
  assert (Hr : forall a, rd8 (k_mem k1) a = 0) by done.
  assert (He' : e = 0x103007) by (case_decide; [by injection He|by rewrite mapping_empty in He]).
  rewrite He' in E. apply (mp_new _ _ _ _ _ M) in Ht as [Ht|Hf]; [| |done].
  - apply table_empty in Ht as [_ ->]; [|done]. vm_compute in E. discriminate E.
  - rewrite E in Hf. vm_compute in Hf. discriminate Hf.
Qed.

Lemma copy_to_user_at_correct_witness :
  exists k m', copy_to_user_at 0x9000 0x400010 (Some [104; 105]) 2 k = Ret 0 (with_mem m' k)
  /\ rd8 m' 0x103011 = 105.
Proof.
  destruct k1_mapped as (k & _ & M).
  assert (W : forall i, 0 <= i < 2 -> writable_page (k_mem k) 0x9000 (0x400010 + i) 0x103007).
  { intros i Hi. split_and!; [|reflexivity|reflexivity]. rewrite (mp_map _ _ _ _ _ M).
    assert (i = 0 \/ i = 1) as [-> | ->] by lia; vm_compute; reflexivity. }
  destruct (copy_to_user_at_correct k 0x9000 0x400010 [104; 105] 2 (k1_user_space k M) ltac:(lia) ltac:(cbn; lia) ltac:(lia))
    as (r & m' & R & _ & Ha & [_ Hr]).
  assert (Hr0 : r = 0) by (apply Hr; right; split; [reflexivity|intros i Hi; exists 0x103007; by apply W]).
  rewrite Hr0 in *. destruct Ha as [[_ Ha]|Ha]; [|discriminate Ha].
  exists k, m'. split; [exact R|]. destruct (Ha 1%nat 105 eq_refl) as (a & Ht & Hb).
  unfold translate in Ht. destruct (W 1 ltac:(lia)) as (Hm & _). change (Z.of_nat 1) with 1 in Ht. rewrite Hm in Ht.
  injection Ht as <-. exact Hb.
Defined.
