(* ===== verification/Syscall.v ===== *)
(** * syscall.c: the system calls

    A handler takes the register frame and gives the new [rax], or the context
    that [switch_context] resumes instead of returning.  The state is the kernel,
    the keyboard and the devices behind the ports.  [halt] is what happens in
    [sti; hlt; cli]: the interrupts that arrive, and whatever the other threads do
    before the caller runs again; the loops around it have a bound [waits] on the
    number of times they halt. *)

From S2P Require Import Prelude State Console Utils Mem Pmm Heap Objects Dma Thread Sched Ipc Ports Kbd.
From S2P Require Import Ramfs Vmm As Paging User.
From stdpp Require Import strings.
#[local] Open Scope Z_scope.

(** ** The frame *)

Record syscall_frame_t := {
  f_r15 : Z; f_r14 : Z; f_r13 : Z; f_r12 : Z; f_r11 : Z; f_r10 : Z; f_r9 : Z; f_r8 : Z;
  f_rbp : Z; f_rbx : Z; f_rdx : Z; f_rcx : Z; f_rsi : Z; f_rdi : Z; f_rax : Z;
  f_rip : Z; f_cs : Z; f_rflags : Z; f_rsp : Z; f_ss : Z
}.

Definition set_rax (v : Z) (f : syscall_frame_t) : syscall_frame_t :=
  {| f_r15 := f_r15 f; f_r14 := f_r14 f; f_r13 := f_r13 f; f_r12 := f_r12 f; f_r11 := f_r11 f;
     f_r10 := f_r10 f; f_r9 := f_r9 f; f_r8 := f_r8 f; f_rbp := f_rbp f; f_rbx := f_rbx f;
     f_rdx := f_rdx f; f_rcx := f_rcx f; f_rsi := f_rsi f; f_rdi := f_rdi f; f_rax := v;
     f_rip := f_rip f; f_cs := f_cs f; f_rflags := f_rflags f; f_rsp := f_rsp f; f_ss := f_ss f |}.

(** The call returns to its caller, or the processor goes on in another context. *)
Inductive sys_result : Type :=
| SysReturn (f : syscall_frame_t)
| SysSwitch (context : Z) (f : syscall_frame_t).

(** [(uint64_t)(int64_t)error] *)
Definition err (e : Z) : Z := u64 e.
Definition bool_rax (b : bool) : Z := if b then 1 else 0.

Definition SYS_EXIT : Z := 0.
Definition SYS_WRITE : Z := 1.
Definition SYS_YIELD : Z := 2.
Definition SYS_READ : Z := 3.
Definition SYS_CLEAR : Z := 4.
Definition SYS_IPC_SEND : Z := 5.
Definition SYS_IPC_POLL : Z := 6.
Definition SYS_FS_CREATE : Z := 10.
Definition SYS_FS_WRITE : Z := 11.
Definition SYS_FS_READ : Z := 12.
Definition SYS_FS_LIST : Z := 13.
Definition SYS_FS_SIZE : Z := 14.
Definition SYS_EXEC : Z := 20.
Definition SYS_CREATE_THREAD : Z := 21.
Definition SYS_FREE_THREAD : Z := 22.
Definition SYS_AS_CREATE : Z := 30.
Definition SYS_AS_MAP : Z := 31.
Definition SYS_AS_FREE : Z := 32.
Definition SYS_DMA_ALLOC_PAGE : Z := 33.
Definition SYS_DMA_FREE_PAGE : Z := 34.
Definition SYS_ALLOC_PAGE : Z := 40.
Definition SYS_FREE_PAGE : Z := 41.
Definition SYS_MMAP : Z := 42.
Definition SYS_UNMMAP : Z := 43.
Definition SYS_UNMMAP_AND_FREE : Z := 44.
Definition SYS_MAP_MMIO : Z := 45.
Definition SYS_PCI_CONF_READ32 : Z := 46.
Definition SYS_GET_SELF_TID : Z := 47.

(** ** Buffers, the current thread, tables *)

(** A byte buffer from the heap.  The code reads none of its stale bytes. *)
Definition kmalloc_buf (len : Z) : kernel Z :=
  p <- kmalloc len ;;
  if p =? NULL then ret NULL else
  _ <- store_bytes p (replicate (Z.to_nat len) 0) ;; ret p.

(** [current_thread->context], an undefined access without a thread. *)
Definition current_context : kernel Z :=
  cur <- gets (fun k => current_thread (k_sched k)) ;;
  t <- load_thread cur ;; ret (t_context t).

(** [current_thread->context->cr3] *)
Definition current_cr3 : kernel Z :=
  ctx <- current_context ;; c <- load_context ctx ;; ret (c_cr3 c).

(** The first address space with the given id. *)
Definition find_as (id : Z) : kernel Z :=
  a <- gets k_as ;;
  r <- for_until (trips 0 (addrspaces_length a)) 0 (fun i =>
         p <- load_ptr (addrspaces a) i ;;
         v <- load_as p ;;
         ret (if as_id v =? id then Some p else None)) ;;
  ret (default NULL r).

(** The removal of a thread from the table: the later entries move down. *)
Definition remove_thread (t : Z) : kernel unit :=
  s <- gets k_sched ;;
  _ <- for_until (trips 0 (threads_length s)) 0 (fun i =>
         p <- load_ptr (threads s) i ;;
         if p =? t then
           _ <- for_range (trips i (threads_length s - 1)) i (fun j =>
                  q <- load_ptr (threads s) (j + 1) ;; store_ptr (threads s) j q) ;;
           _ <- upd_sched (set_length (threads_length s - 1)) ;; ret (Some tt)
         else ret None) ;;
  ret tt.

(** [next->context] after the switch of [current_thread] and of the kernel stack. *)
Definition switch_to (next : Z) : kernel Z :=
  _ <- upd_sched (set_current next) ;;
  t <- load_thread next ;;
  _ <- (if t_kernel_stack t =? NULL then ret tt
        else upd_sched (set_rsp0 (u64 (t_kernel_stack t + 4096 * KERNEL_STACK_SIZE_IN_PAGES)))) ;;
  ret (t_context t).

(** [!next || next == current_thread || next->state != THREAD_READY] *)
Definition not_runnable (next : Z) : kernel bool :=
  if next =? NULL then ret true else
  cur <- gets (fun k => current_thread (k_sched k)) ;;
  if next =? cur then ret true else
  t <- load_thread next ;;
  ret (if decide (t_state t = THREAD_READY) then false else true).

(** ** Threads and scheduling *)

Definition set_state (st : thread_state_t) (code : Z) (t : thread_t) : thread_t :=
  {| t_tid := t_tid t; t_context := t_context t; t_kernel_stack := t_kernel_stack t;
     t_state := st; t_queue := t_queue t; t_exit_code := code |}.

Definition sys_exit (f : syscall_frame_t) : kernel Z :=
  cur <- gets (fun k => current_thread (k_sched k)) ;;
  if cur =? NULL then hang else
  t <- load_thread cur ;;
  _ <- store_thread cur (set_state THREAD_DEAD (f_rdi f) t) ;;
  next <- scheduler_next ;;
  stop <- not_runnable next ;;
  if stop : bool then _ <- print_err "sys_exit: no runnable thread." ;; hang else
  switch_to next.

(** [None]: nothing else to run, the call returns 0. *)
Definition sys_yield (syscall_return f_addr : Z) : kernel (option Z) :=
  next <- scheduler_next ;;
  stay <- not_runnable next ;;
  if stay : bool then ret None else
  ctx <- current_context ;;
  c <- load_context ctx ;;
  flags <- read_flags ;;
  _ <- store_context ctx
         (ctx_set_entry syscall_return flags GDT_KCODE_LM_SEGMENT GDT_KDATA_SEGMENT (c_cr3 c)
            (ctx_set_rsp f_addr c)) ;;
  r <- switch_to next ;; ret (Some r).

Definition user_entry (rsp : Z) (thread : Z) : kernel unit :=
  t <- load_thread thread ;;
  c <- load_context (t_context t) ;;
  store_context (t_context t)
    (ctx_set_entry (c_rip c) (c_rflags c) (Z.lor 0x18 3) (Z.lor 0x20 3) (c_cr3 c) (ctx_set_rsp rsp c)).

Definition sys_create_thread (f : syscall_frame_t) : kernel Z :=
  as_ <- find_as (f_rsi f) ;;
  if as_ =? NULL then ret 0 else
  a <- load_as as_ ;;
  t <- spawn_thread (f_rdi f) (as_cr3 a) ;;
  if t =? NULL then ret 0 else
  _ <- user_entry (f_rdx f) t ;;
  th <- load_thread t ;; ret (t_tid th).

Definition sys_free_thread (f : syscall_frame_t) : kernel Z :=
  cur <- gets (fun k => current_thread (k_sched k)) ;;
  bad <- (if (f_rdi f =? 0) || (cur =? NULL) then ret true
          else t <- load_thread cur ;; ret (f_rdi f =? t_tid t)) ;;
  if bad : bool then ret (err VFS_ERR_INVAL) else
  t <- find_thread (f_rdi f) ;;
  if t =? NULL then ret (err VFS_ERR_INVAL) else
  _ <- remove_thread t ;;
  _ <- free_thread t ;;
  ret 0.

(** ** Files and the console *)

Definition with_path {A} (uaddr : Z) (bad : A) (body : list Z -> kernel A) : kernel A :=
  p <- copy_user_path uaddr ;;
  match p with None => ret bad | Some path => body path end.

Definition sys_fs_size (f : syscall_frame_t) : kernel Z :=
  with_path (f_rdi f) (err VFS_ERR_BADPATH) (fun path => r <- vfs_size (Some path) ;; ret (u64 r)).

Definition sys_write (f : syscall_frame_t) : kernel Z :=
  let len := f_rdx f in
  if negb (f_rdi f =? 1) && negb (f_rdi f =? 2) then ret (err VFS_ERR_INVAL) else
  if SYSCALL_MAX_BUF <? len then ret (err VFS_ERR_NOSPACE) else
  if len =? 0 then ret 0 else
  kbuf <- kmalloc_buf len ;;
  if kbuf =? NULL then ret (err VFS_ERR_NOSPACE) else
  r <- copy_from_user (f_rsi f) kbuf len ;;
  if negb (r =? 0) then _ <- kfree kbuf ;; ret (err VFS_ERR_INVAL) else
  bs <- load_bytes kbuf ;;
  _ <- on_con (kwrite (Some bs) 0x0F) ;;
  _ <- kfree kbuf ;;
  ret len.

Definition sys_fs_create (f : syscall_frame_t) : kernel Z :=
  with_path (f_rdi f) (err VFS_ERR_BADPATH) (fun path =>
    r <- vfs_create (Some path) (negb (f_rsi f =? 0)) ;; ret (u64 r)).

Definition sys_fs_write (f : syscall_frame_t) : kernel Z :=
  let len := f_rdx f in
  with_path (f_rdi f) (err VFS_ERR_BADPATH) (fun path =>
    if SYSCALL_MAX_BUF <? len then ret (err VFS_ERR_NOSPACE) else
    if len =? 0 then r <- vfs_write (Some path) (Some [0]) 0 (f_r10 f) ;; ret (u64 r) else
    kbuf <- kmalloc_buf len ;;
    if kbuf =? NULL then ret (err VFS_ERR_NOSPACE) else
    r <- copy_from_user (f_rsi f) kbuf len ;;
    if negb (r =? 0) then _ <- kfree kbuf ;; ret (err VFS_ERR_INVAL) else
    bs <- load_bytes kbuf ;;
    r <- vfs_write (Some path) (Some bs) len (f_r10 f) ;;
    _ <- kfree kbuf ;;
    ret (u64 r)).

Definition sys_fs_read (f : syscall_frame_t) : kernel Z :=
  let len := f_rdx f in
  with_path (f_rdi f) (err VFS_ERR_BADPATH) (fun path =>
    if SYSCALL_MAX_BUF <? len then ret (err VFS_ERR_NOSPACE) else
    if len =? 0 then ret 0 else
    kbuf <- kmalloc_buf len ;;
    if kbuf =? NULL then ret (err VFS_ERR_NOSPACE) else
    r <- vfs_read (put_kbuf kbuf) (Some path) true len (f_r10 f) ;;
    c <- (if 0 <? r then copy_to_user (f_rsi f) kbuf r else ret 0) ;;
    if negb (c =? 0) then _ <- kfree kbuf ;; ret (err VFS_ERR_INVAL) else
    _ <- kfree kbuf ;;
    ret (u64 r)).

(** [vfs_list] writes its text at the start of the buffer. *)
Definition sys_fs_list (f : syscall_frame_t) : kernel Z :=
  let len := f_rdx f in
  with_path (f_rdi f) (err VFS_ERR_BADPATH) (fun path =>
    if (len =? 0) || (SYSCALL_MAX_BUF <? len) then ret (err VFS_ERR_INVAL) else
    kbuf <- kmalloc_buf len ;;
    if kbuf =? NULL then ret (err VFS_ERR_NOSPACE) else
    x <- vfs_list (Some path) true len ;;
    let '(r, text) := x in
    _ <- put_kbuf kbuf 0 text ;;
    c <- (if 0 <=? r then copy_to_user (f_rsi f) kbuf (Z.min (r + 1) len) else ret 0) ;;
    if negb (c =? 0) then _ <- kfree kbuf ;; ret (err VFS_ERR_INVAL) else
    _ <- kfree kbuf ;;
    ret (u64 r)).

(** ** Messages *)

Definition sys_ipc_send (f : syscall_frame_t) : kernel Z :=
  let size := f_rdx f in
  if (size =? 0) || (SYSCALL_MAX_BUF <? size) then ret (err VFS_ERR_INVAL) else
  kbuf <- kmalloc_buf size ;;
  if kbuf =? NULL then ret (err VFS_ERR_NOSPACE) else
  r <- copy_from_user (f_rsi f) kbuf size ;;
  if negb (r =? 0) then _ <- kfree kbuf ;; ret (err VFS_ERR_INVAL) else
  ok <- kipc_send (f_rdi f) kbuf size ;;
  _ <- kfree kbuf ;;
  ret (bool_rax ok).

(** The eight bytes of [msg.sender] are copied when the address is not null. *)
Definition sys_ipc_poll (f : syscall_frame_t) : kernel Z :=
  m <- kipc_poll ;;
  match m with
  | None => ret 0
  | Some msg =>
      if f_rsi f <? m_size msg then _ <- kfree (m_msg msg) ;; ret 0 else
      pml4 <- current_cr3 ;;
      bs <- (if m_msg msg =? NULL then ret None else bs <- load_bytes (m_msg msg) ;; ret (Some bs)) ;;
      r <- copy_to_user_at pml4 (f_rdi f) bs (m_size msg) ;;
      if negb (r =? 0) then _ <- kfree (m_msg msg) ;; ret 0 else
      r <- (if f_rdx f =? 0 then ret 0 else
            pml4 <- current_cr3 ;; copy_to_user_at pml4 (f_rdx f) (Some (word_bytes (m_sender msg))) 8) ;;
      if negb (r =? 0) then _ <- kfree (m_msg msg) ;; ret 0 else
      _ <- kfree (m_msg msg) ;;
      ret (m_size msg)
  end.

(** ** Address spaces and pages *)

Definition sys_as_create : kernel Z :=
  as_ <- kaddrspace_create ;;
  if as_ =? NULL then ret 0 else a <- load_as as_ ;; ret (as_id a).

(** [!current_thread || !current_thread->context] *)
Definition no_context : kernel bool :=
  cur <- gets (fun k => current_thread (k_sched k)) ;;
  if cur =? NULL then ret true else ctx <- current_context ;; ret (ctx =? NULL).

Definition sys_as_map (f : syscall_frame_t) : kernel Z :=
  as_ <- find_as (f_rdi f) ;;
  if as_ =? NULL then ret 0 else
  none <- no_context ;;
  if none : bool then ret 0 else
  a <- load_as as_ ;;
  pml4 <- current_cr3 ;;
  if as_cr3 a =? pml4 then ret 0 else
  phys <- kget_phys_page_addr_at pml4 (f_rdx f) ;;
  if phys =? 0 then ret 0 else
  ok <- kvmmap_at (as_cr3 a) (f_rsi f) phys (Z.land (f_r10 f) 0x07) ;;
  ret (bool_rax ok).

(** [rax] keeps the number of the call. *)
Definition sys_as_free (f : syscall_frame_t) : kernel Z :=
  if f_rdi f =? 0 then ret (f_rax f) else
  as_ <- find_as (f_rdi f) ;;
  if as_ =? NULL then ret (f_rax f) else
  a <- load_as as_ ;;
  _ <- kvmm_free_user_pml4 (as_cr3 a) ;;
  ret (f_rax f).

Definition sys_alloc_page : kernel Z :=
  pml4 <- current_cr3 ;;
  virt <- user_find_free_page pml4 ;;
  if virt =? 0 then ret 0 else
  page <- kpalloc ;;
  if page =? NULL then ret 0 else
  pml4 <- current_cr3 ;;
  ok <- kvmmap_at pml4 virt page 0x07 ;;
  if negb ok then _ <- kpfree page ;; ret 0 else ret virt.

Definition sys_dma_alloc_page : kernel Z :=
  dma_page <- kdma_palloc ;;
  if dma_page =? NULL then ret 0 else
  d <- gets k_dma ;;
  let n := u64 (dma_page - DMA_PAGES d) / 4096 in
  let virt := u64 (DMA_VIRT_BASE + n * 4096) in
  pml4 <- current_cr3 ;;
  ok <- kvmmap_at pml4 virt dma_page 0x07 ;;
  if negb ok then _ <- kdma_pfree dma_page ;; ret 0 else ret virt.

(** [rax] keeps the number of the call. *)
Definition sys_dma_free_page (f : syscall_frame_t) : kernel Z :=
  d <- gets k_dma ;;
  let n := u64 (f_rdi f - DMA_VIRT_BASE) / 4096 in
  let dma_page := u64 (DMA_PAGES d + n * 4096) in
  if (dma_page <? DMA_PAGES d) || (u64 (DMA_PAGES d + DMA_PAGE_AMOUNT * 4096) <=? dma_page)
  then ret (f_rax f) else
  _ <- kdma_pfree dma_page ;;
  ret (f_rax f).

Definition sys_mmap (f : syscall_frame_t) : kernel Z :=
  let virt := f_rdi f in let phys := f_rsi f in
  bad <- (if negb (Z.land (Z.lor virt phys) 0xFFF =? 0) then ret true
          else r <- kis_normal_ram phys ;; ret (negb r)) ;;
  if bad : bool then ret 0 else
  page <- user_page_ok virt ;;
  if negb page then ret 0 else
  pml4 <- current_cr3 ;;
  ok <- kvmmap_at pml4 virt phys (Z.land (f_rdx f) 0x07) ;;
  ret (bool_rax ok).

(** [virt] and [phys] of page [i] of the request. *)
Definition nth_page (a i : Z) : Z := u64 (a + i * 0x1000).

Definition bad_mmio_range (virt phys pages : Z) : bool :=
  (virt <? USER_MMIO_MIN) || (u64 (virt + pages * 0x1000) <? virt)
  || (USER_MMIO_MAX <? u64 (virt + pages * 0x1000)) || (u64 (phys + pages * 0x1000) <? phys).

(** The first loop: a page of RAM or a page that is mapped refuses the request. *)
Definition mmio_refused (virt phys pages : Z) : kernel bool :=
  r <- for_until (trips 0 pages) 0 (fun i =>
    pml4 <- current_cr3 ;;
    pte <- kget_pte_addr_at pml4 (nth_page virt i) ;;
    ram <- kis_normal_ram (nth_page phys i) ;;
    if ram : bool then ret (Some tt) else
    if pte =? NULL then ret None else
    e <- load64 pte ;; ret (if present e then Some tt else None)) ;;
  ret (match r with Some _ => true | None => false end).

Definition sys_map_mmio (f : syscall_frame_t) : kernel Z :=
  let virt := f_rdi f in let phys := f_rsi f in let pages := f_rdx f in
  none <- no_context ;;
  if none : bool then ret 0 else
  if (pages =? 0) || (256 <? pages) || negb (Z.land (Z.lor virt phys) 0xFFF =? 0) then ret 0 else
  if bad_mmio_range virt phys pages then ret 0 else
  refused <- mmio_refused virt phys pages ;;
  if refused : bool then ret 0 else
  _ <- for_range (trips 0 pages) 0 (fun i =>
         pml4 <- current_cr3 ;;
         _ <- kvmmap_at pml4 (nth_page virt i) (nth_page phys i) 0x1F ;; ret tt) ;;
  ret virt.

(** [!f->rdi || !user_page_ok(f->rdi)] *)
Definition bad_page (virt : Z) : kernel bool :=
  if virt =? 0 then ret true else ok <- user_page_ok virt ;; ret (negb ok).

Definition sys_free_page (f : syscall_frame_t) : kernel Z :=
  bad <- bad_page (f_rdi f) ;;
  if bad : bool then ret 0 else
  pml4 <- current_cr3 ;;
  ok <- kvmunmap_and_free_at pml4 (f_rdi f) ;; ret (bool_rax ok).

Definition sys_unmmap (f : syscall_frame_t) : kernel Z :=
  bad <- bad_page (f_rdi f) ;;
  if bad : bool then ret 0 else
  pml4 <- current_cr3 ;;
  _ <- kvmunmap_at pml4 (f_rdi f) ;; ret 1.

Definition sys_unmmap_and_free (f : syscall_frame_t) : kernel Z :=
  bad <- bad_page (f_rdi f) ;;
  if bad : bool then ret 0 else
  pml4 <- current_cr3 ;;
  ok <- kvmunmap_and_free_at pml4 (f_rdi f) ;; ret (bool_rax ok).

(** ** Programs *)

Definition exec_reap (child : Z) : kernel unit :=
  _ <- remove_thread child ;;
  t <- load_thread child ;;
  c <- load_context (t_context t) ;;
  _ <- kvmm_free_user_pml4 (c_cr3 c) ;;
  free_thread child.

(** [child->context->cr3] *)
Definition child_cr3 (child : Z) : kernel Z :=
  t <- load_thread child ;; c <- load_context (t_context t) ;; ret (c_cr3 c).

(** Pages [PROG_BASE + i * 4096] for [i < n] leave the child's address space. *)
Definition unmap_program (child n : Z) : kernel unit :=
  for_range (trips 0 n) 0 (fun i =>
    pml4 <- child_cr3 child ;;
    _ <- kvmunmap_and_free_at pml4 (PROG_BASE + i * 4096) ;; ret tt).

(** Fresh zeroed pages for the program; [false] when one is missing, after the
    clean-up. *)
Definition map_program (child pages : Z) : kernel bool :=
  r <- for_until (trips 0 pages) 0 (fun i =>
    phys <- kpalloc ;;
    if phys =? NULL then
      _ <- unmap_program child i ;;
      _ <- exec_reap child ;; ret (Some tt)
    else
    _ <- memset phys 0 0x1000 ;;
    pml4 <- child_cr3 child ;;
    _ <- kvmmap_at pml4 (PROG_BASE + i * 4096) phys 0x07 ;; ret None) ;;
  ret (match r with Some _ => false | None => true end).

Definition put_virt (base at_ : Z) (bs : list Z) : kernel unit := write_virt (base + at_) bs.

Inductive exec_result : Type :=
| ExecFailed (rax : Z)
| ExecStarted (child : Z).

(** [sys_exec] up to the wait for the child: the error, or the child. *)
Definition exec_start (path : list Z) : kernel exec_result :=
  size <- vfs_size (Some path) ;;
  if size <? 0 then ret (ExecFailed (u64 size)) else
  if (size =? 0) || (PROG_MAX <? size) then ret (ExecFailed (err VFS_ERR_NOSPACE)) else
  let pages := (size + 4095) / 4096 in
  _ <- cli ;;
  cr3 <- kvmm_create_user_pml4 ;;
  if cr3 =? 0 then _ <- sti ;; ret (ExecFailed (err VFS_ERR_NOSPACE)) else
  child <- spawn_thread PROG_BASE cr3 ;;
  if child =? NULL then _ <- sti ;; ret (ExecFailed (err VFS_ERR_NOSPACE)) else
  _ <- unmap_program child PROG_PAGES ;;
  ok <- map_program child pages ;;
  if negb ok then _ <- sti ;; ret (ExecFailed (err VFS_ERR_NOSPACE)) else
  old <- read_cr3 ;;
  pml4 <- child_cr3 child ;;
  _ <- write_cr3 pml4 ;;
  read <- vfs_read (put_virt PROG_BASE) (Some path) true size 0 ;;
  _ <- write_cr3 old ;;
  if (read <? 0) || negb (read =? size) then
    _ <- unmap_program child pages ;;
    _ <- exec_reap child ;;
    _ <- sti ;; ret (ExecFailed (u64 read))
  else
  _ <- user_entry PROG_STACK_TOP child ;;
  _ <- sti ;;
  ret (ExecStarted child).

(** ** The calls that wait or use a device, and the dispatch *)

Record machine (D : Type) := { m_kernel : kstate; m_kbd : kbd_t; m_dev : D }.
Arguments m_kernel {D} _.
Arguments m_kbd {D} _.
Arguments m_dev {D} _.

Section Machine.
Context {D : Type} `{Ports D}.
Context (halt : M (machine D) unit) (waits : nat).

Definition in_kernel {A} (m : kernel A) : M (machine D) A :=
  zoom m_kernel (fun k s => {| m_kernel := k; m_kbd := m_kbd s; m_dev := m_dev s |}) m.
Definition in_kbd {A} (m : M kbd_t A) : M (machine D) A :=
  zoom m_kbd (fun b s => {| m_kernel := m_kernel s; m_kbd := b; m_dev := m_dev s |}) m.
Definition in_dev {A} (m : M D A) : M (machine D) A :=
  zoom m_dev (fun d s => {| m_kernel := m_kernel s; m_kbd := m_kbd s; m_dev := d |}) m.

(** [while (got < len)]: what the keyboard has, at most [n] bytes. *)
Fixpoint drain (n : nat) : M (machine D) (list Z) :=
  match n with
  | O => ret []
  | S n =>
      c <- in_kbd kbd_getc ;;
      if c <? 0 then ret [] else cs <- drain n ;; ret (c :: cs)
  end.

(** [for (;;)]: halt until there is a byte. *)
Fixpoint read_keys (fuel : nat) (len : Z) : M (machine D) (list Z) :=
  got <- drain (Z.to_nat len) ;;
  match got with
  | [] => match fuel with O => stuck | S fuel => _ <- halt ;; read_keys fuel len end
  | _ => ret got
  end.

Definition sys_read (f : syscall_frame_t) : M (machine D) Z :=
  let len := f_rdx f in
  if negb (f_rdi f =? 0) then ret (err VFS_ERR_INVAL) else
  if len =? 0 then ret 0 else
  if SYSCALL_MAX_BUF <? len then ret (err VFS_ERR_NOSPACE) else
  kbuf <- in_kernel (kmalloc_buf len) ;;
  if kbuf =? NULL then ret (err VFS_ERR_NOSPACE) else
  got <- read_keys waits len ;;
  _ <- in_kernel (put_kbuf kbuf 0 got) ;;
  r <- in_kernel (copy_to_user (f_rsi f) kbuf (Z.of_nat (length got))) ;;
  if negb (r =? 0) then _ <- in_kernel (kfree kbuf) ;; ret (err VFS_ERR_INVAL) else
  _ <- in_kernel (kfree kbuf) ;;
  ret (Z.of_nat (length got)).

(** [while (child->state != THREAD_DEAD)] *)
Fixpoint wait_dead (fuel : nat) (child : Z) : M (machine D) unit :=
  t <- in_kernel (load_thread child) ;;
  if decide (t_state t = THREAD_DEAD) then ret tt else
  match fuel with O => stuck | S fuel => _ <- halt ;; wait_dead fuel child end.

Definition sys_exec (f : syscall_frame_t) : M (machine D) Z :=
  p <- in_kernel (copy_user_path (f_rdi f)) ;;
  match p with
  | None => ret (err VFS_ERR_BADPATH)
  | Some path =>
      r <- in_kernel (exec_start path) ;;
      match r with
      | ExecFailed rax => ret rax
      | ExecStarted child =>
          _ <- wait_dead waits child ;;
          t <- in_kernel (load_thread child) ;;
          _ <- in_kernel (exec_reap child) ;;
          ret (t_exit_code t)
      end
  end.

Definition pci_address (bus dev func offset : Z) : Z :=
  Z.lor (Z.lor (Z.lor (Z.lor 0x80000000 (u32 (Z.shiftl bus 16))) (u32 (Z.shiftl dev 11)))
    (u32 (Z.shiftl func 8))) (Z.land offset 0xFC).

Definition sys_pci_conf_read32 (f : syscall_frame_t) : M (machine D) Z :=
  let bus := f_rdi f in let dev := f_rsi f in let func := f_rdx f in let offset := f_r10 f in
  if (0xFF <? bus) || (0x1F <? dev) || (0x07 <? func) || (0xFC <? offset) then ret 0 else
  _ <- in_dev (outl 0xCF8 (pci_address bus dev func offset)) ;;
  in_dev (inl 0xCFC).

Definition self_tid : kernel Z :=
  cur <- gets (fun k => current_thread (k_sched k)) ;;
  if cur =? NULL then ret 0 else t <- load_thread cur ;; ret (t_tid t).

(** The calls that give a new [rax]. *)
Definition simple_call (n : Z) (f : syscall_frame_t) : M (machine D) Z :=
  if n =? SYS_GET_SELF_TID then in_kernel self_tid else
  if n =? SYS_WRITE then in_kernel (sys_write f) else
  if n =? SYS_READ then sys_read f else
  if n =? SYS_IPC_SEND then in_kernel (sys_ipc_send f) else
  if n =? SYS_IPC_POLL then in_kernel (sys_ipc_poll f) else
  if n =? SYS_FS_CREATE then in_kernel (sys_fs_create f) else
  if n =? SYS_FS_WRITE then in_kernel (sys_fs_write f) else
  if n =? SYS_FS_READ then in_kernel (sys_fs_read f) else
  if n =? SYS_FS_LIST then in_kernel (sys_fs_list f) else
  if n =? SYS_FS_SIZE then in_kernel (sys_fs_size f) else
  if n =? SYS_EXEC then sys_exec f else
  if n =? SYS_CLEAR then _ <- in_kernel (on_con kclear) ;; ret (f_rax f) else
  if n =? SYS_AS_CREATE then in_kernel sys_as_create else
  if n =? SYS_AS_MAP then in_kernel (sys_as_map f) else
  if n =? SYS_AS_FREE then in_kernel (sys_as_free f) else
  if n =? SYS_DMA_ALLOC_PAGE then in_kernel sys_dma_alloc_page else
  if n =? SYS_DMA_FREE_PAGE then in_kernel (sys_dma_free_page f) else
  if n =? SYS_CREATE_THREAD then in_kernel (sys_create_thread f) else
  if n =? SYS_FREE_THREAD then in_kernel (sys_free_thread f) else
  if n =? SYS_ALLOC_PAGE then in_kernel sys_alloc_page else
  if n =? SYS_FREE_PAGE then in_kernel (sys_free_page f) else
  if n =? SYS_MMAP then in_kernel (sys_mmap f) else
  if n =? SYS_UNMMAP then in_kernel (sys_unmmap f) else
  if n =? SYS_UNMMAP_AND_FREE then in_kernel (sys_unmmap_and_free f) else
  if n =? SYS_MAP_MMIO then in_kernel (sys_map_mmio f) else
  if n =? SYS_PCI_CONF_READ32 then sys_pci_conf_read32 f else
  ret (err VFS_ERR_INVAL).

(** [f_addr] is the address of the frame, [syscall_return] the label that
    [sys_yield] resumes at. *)
Definition syscall_handler (syscall_return f_addr : Z) (f : syscall_frame_t) : M (machine D) sys_result :=
  if f_addr =? NULL then ret (SysReturn f) else
  if f_rax f =? SYS_EXIT then ctx <- in_kernel (sys_exit f) ;; ret (SysSwitch ctx f) else
  if f_rax f =? SYS_YIELD then
    r <- in_kernel (sys_yield syscall_return f_addr) ;;
    ret (match r with None => SysReturn (set_rax 0 f) | Some ctx => SysSwitch ctx (set_rax 0 f) end)
  else
  rax <- simple_call (f_rax f) f ;; ret (SysReturn (set_rax rax f)).

Definition syscall_init : M (machine D) bool := ret true.
End Machine.
