(* ===== verification/Fault.v ===== *)
(** * arch/x86_64/cpu/fault.c: what a processor fault leads to

    A fault of the kernel is dumped on the console and stops the machine; a fault
    of a user thread kills the thread and schedules the next one. *)

From S2P Require Import Prelude State Console Utils Mem Pmm Heap Objects Thread Sched Ipc Ports Kbd.
From S2P Require Import Ramfs Vmm As Paging User Syscall.
From stdpp Require Import strings.
#[local] Open Scope Z_scope.

Definition hex_digit (n : Z) : Z := if n <? 10 then 48 + n else 97 + n - 10.

(** The sixteen digits of a word, the highest first, behind 0x. *)
Definition hex64 (v : Z) : list Z :=
  cstr "0x" ++ ((fun i => hex_digit (Z.land (Z.shiftr v (60 - Z.of_nat i * 4)) 0xF)) <$> seq 0 16).

Definition put_hex64 (v : Z) : kernel unit := on_con (kprints (hex64 v) 0x0F).

Definition print (s : String.string) : kernel unit := on_con (kprints (cstr s) 0x0F).
Definition newline : kernel unit := on_con kprintnl.

(** The sixteen bytes at a virtual address. *)
Definition put_bytes (p : Z) : kernel unit :=
  _ <- for_range (trips 0 16) 0 (fun i =>
         v <- load_virt (p + i) ;;
         _ <- on_con (kprints [hex_digit (Z.shiftr v 4); hex_digit (Z.land v 0xF)] 0x0F) ;;
         print " ") ;;
  newline.

Definition print_reg (name : String.string) (v : Z) : kernel unit :=
  _ <- print name ;; _ <- put_hex64 v ;; newline.

(** [frame] is the words the processor pushed, from [frame_addr] on; [cr2] the
    faulting address. *)
Definition fault_dump (vec err has_err frame_addr cr2 : Z) (frame : list Z) : kernel unit :=
  rip <- deref (frame !! 0%nat) ;;
  cs <- deref (frame !! 1%nat) ;;
  rflags <- deref (frame !! 2%nat) ;;
  rsp <- (if Z.land cs 3 =? 3 then deref (frame !! 3%nat) else ret (u64 (frame_addr + 24))) ;;
  _ <- print_err "FAULT dump:" ;;
  _ <- print_reg "vec=" vec ;;
  _ <- (if has_err =? 0 then ret tt else print_reg "err=" err) ;;
  _ <- print_reg "rip=" rip ;;
  _ <- print_reg "cs=" cs ;;
  _ <- print_reg "rflags=" rflags ;;
  _ <- print_reg "rsp=" rsp ;;
  _ <- print_reg "cr2=" cr2 ;;
  cr3 <- read_cr3 ;;
  _ <- print_reg "cr3=" (page_base cr3) ;;
  _ <- print "code: " ;;
  _ <- put_bytes rip ;;
  hang.

(** The context that runs next.  Without a current thread [scheduler_tick] does
    not return. *)
Definition fault_recovery : kernel Z :=
  t <- gets (fun k => current_thread (k_sched k)) ;;
  if t =? NULL then scheduler_tick else
  _ <- remove_thread t ;;
  _ <- print "Killed thread with ID of " ;;
  th <- load_thread t ;;
  _ <- put_hex64 (t_tid th) ;;
  _ <- free_thread t ;;
  scheduler_tick.
