(* ===== verification/UserLib.v ===== *)
(** * user/syslib.h: the library of the user programs

    Strings and arrays are lists of bytes as in Utils.  The allocator of a
    process is the kernel's over a heap of its own and the page source
    SYS_ALLOC_PAGE; [proc] says what a process has.  A call is the frame that
    [int $0x80] hands to the kernel. *)

From S2P Require Import Prelude State Console Utils Mem Pmm Heap Objects Thread Sched Ipc Ports Kbd.
From S2P Require Import Ramfs Vmm As Paging User Syscall.

(** ** Strings *)

Fixpoint ustrlen_from (s : list Z) (n : Z) : option Z :=
  match s with [] => None | c :: s => if c =? 0 then Some n else ustrlen_from s (n + 1) end.
Definition ustrlen (s : list Z) : option Z := ustrlen_from s 0.

Fixpoint ustrcmp (a b : list Z) : option Z :=
  match a, b with
  | ca :: a', cb :: b' =>
      if negb (ca =? 0) && (ca =? cb) then ustrcmp a' b' else Some (u8 ca - u8 cb)
  | _, _ => None
  end.

Fixpoint ustrncmp (a b : list Z) (n : nat) : option Z :=
  match n with
  | O => Some 0
  | S n =>
      match a, b with
      | ca :: a', cb :: b' =>
          if negb (u8 ca =? u8 cb) then Some (u8 ca - u8 cb) else
          if u8 ca =? 0 then Some 0 else ustrncmp a' b' n
      | _, _ => None
      end
  end.

(** The first [n] bytes of [dst] become those of [src]. *)
Fixpoint umemcpy_from (dst : list Z) (i : Z) (src : list Z) (n : nat) : option (list Z) :=
  match n with
  | O => Some dst
  | S n =>
      match src with
      | [] => None
      | c :: src => match store dst i c with None => None | Some dst => umemcpy_from dst (i + 1) src n end
      end
  end.
Definition umemcpy (dst src : list Z) (n : nat) : option (list Z) := umemcpy_from dst 0 src n.
Definition umemset (dst : list Z) (v : Z) (n : nat) : option (list Z) := umemcpy_from dst 0 (replicate n v) n.

(** ** uitoa *)

(** [do { tmp[tlen++] = '0' + u % 10; u /= 10; } while (u && tlen < 20);] *)
Fixpoint udigits (fuel : nat) (u : Z) (tmp : list Z) (tlen : Z) : option (list Z * Z) :=
  match fuel with
  | O => None
  | S fuel =>
      match store tmp tlen (48 + u mod 10) with
      | None => None
      | Some tmp =>
          let u := u / 10 in
          let tlen := tlen + 1 in
          if negb (u =? 0) && (tlen <? 20) then udigits fuel u tmp tlen else Some (tmp, tlen)
      end
  end.

(** [while (tlen && pos + 1 < cap) buf[pos++] = tmp[--tlen];] *)
Fixpoint ucopy (fuel : nat) (tmp : list Z) (tlen : Z) (buf : list Z) (pos cap : Z) : option (list Z * Z) :=
  if negb (tlen =? 0) && (pos + 1 <? cap) then
    match fuel with
    | O => None
    | S fuel =>
        match load tmp (tlen - 1) with
        | None => None
        | Some c => match store buf pos c with None => None | Some buf => ucopy fuel tmp (tlen - 1) buf (pos + 1) cap end
        end
    end
  else Some (buf, pos).

Definition uitoa (val : Z) (buf : list Z) (cap : Z) : option (Z * list Z) :=
  if cap =? 0 then Some (0, buf) else
  let neg := val <? 0 in
  let u := if neg then u64 (u64 (- (val + 1)) + 1) else u64 val in
  match udigits 20 u (replicate 20 0) 0 with
  | None => None
  | Some (tmp, tlen) =>
      let signed := if neg && (0 + 1 <? cap) then match store buf 0 45 with None => None | Some buf => Some (buf, 1) end
                    else Some (buf, 0) in
      match signed with
      | None => None
      | Some (buf, pos) =>
          match ucopy 20 tmp tlen buf pos cap with
          | None => None
          | Some (buf, pos) => match store buf pos 0 with None => None | Some buf => Some (pos, buf) end
          end
      end
  end.

(** ** The allocator *)

(** The heap of a process, and [sys_call(SYS_ALLOC_PAGE, 0, 0, 0, 0)]. *)
Class Proc (S : Type) := {
  p_heap : S -> heap_t;
  p_set_heap : heap_t -> S -> S;
  p_alloc_page : M S Z
}.

Section Malloc.
Context {S : Type} `{Proc S}.

Definition uload_block (a : Z) : M S block_t := s <- gets id ;; deref (blocks (p_heap s) !! a).
Definition ustore_block (a : Z) (b : block_t) : M S unit :=
  modify (fun s => p_set_heap {| CURRENT_BLOCK := CURRENT_BLOCK (p_heap s); blocks := <[a := b]> (blocks (p_heap s)) |} s).

Definition malloc_init : M S bool :=
  page <- p_alloc_page ;;
  if page =? NULL then ret false else
  _ <- modify (fun s => p_set_heap {| CURRENT_BLOCK := page; blocks := blocks (p_heap s) |} s) ;;
  _ <- ustore_block page {| b_size := 4096 - sizeof_block_t; b_is_used := false; b_next := NULL |} ;;
  ret true.

Definition malloc_at (aligned_size block : Z) (b : block_t) : M S Z :=
  if b_size b <? aligned_size then
    page <- p_alloc_page ;;
    if page =? NULL then ret NULL else
    _ <- ustore_block page {| b_size := 4096 - sizeof_block_t; b_is_used := true; b_next := b_next b |} ;;
    _ <- ustore_block block {| b_size := b_size b; b_is_used := b_is_used b; b_next := page |} ;;
    ret (page + sizeof_block_t)
  else if b_size b <? aligned_size + sizeof_block_t + 16 then
    _ <- ustore_block block {| b_size := b_size b; b_is_used := true; b_next := b_next b |} ;;
    ret (block + sizeof_block_t)
  else
    let new_block := block + aligned_size + sizeof_block_t in
    _ <- ustore_block new_block
           {| b_size := b_size b - sizeof_block_t - aligned_size; b_is_used := false; b_next := b_next b |} ;;
    _ <- ustore_block block {| b_size := aligned_size; b_is_used := true; b_next := new_block |} ;;
    ret (block + sizeof_block_t).

Fixpoint malloc_walk (fuel : nat) (aligned_size block : Z) : M S Z :=
  match fuel with
  | O => stuck
  | Datatypes.S fuel =>
      if block =? NULL then ret NULL else
      b <- uload_block block ;;
      if negb (b_is_used b) then malloc_at aligned_size block b else malloc_walk fuel aligned_size (b_next b)
  end.

Definition malloc (size : Z) : M S Z :=
  if (size =? 0) || (4096 - sizeof_block_t <=? size) then ret NULL else
  s <- gets id ;;
  malloc_walk (Datatypes.S (base.size (blocks (p_heap s)))) (Z.land (u64 (size + 15)) (Z.lnot 15)) (CURRENT_BLOCK (p_heap s)).

Definition free (ptr : Z) : M S unit :=
  if ptr =? NULL then ret tt else
  b <- uload_block (ptr - sizeof_block_t) ;;
  ustore_block (ptr - sizeof_block_t) {| b_size := b_size b; b_is_used := false; b_next := b_next b |}.

(** [copy] is the [umemcpy] of the payload. *)
Definition realloc (copy : Z -> Z -> Z -> M S unit) (ptr new_size : Z) : M S Z :=
  if ptr =? NULL then malloc new_size else
  if new_size =? 0 then _ <- free ptr ;; ret NULL else
  if 4096 - sizeof_block_t <=? new_size then ret NULL else
  old_block <- uload_block (ptr - sizeof_block_t) ;;
  let old_size := b_size old_block in
  let aligned_new := Z.land (u64 (new_size + 15)) (Z.lnot 15) in
  if aligned_new <=? old_size then ret ptr else
  new_ptr <- malloc new_size ;;
  if new_ptr =? NULL then ret NULL else
  _ <- copy new_ptr ptr old_size ;;
  _ <- free ptr ;;
  ret new_ptr.
End Malloc.

(** ** The calls

    [regs] are the registers that a call leaves as they are. *)

Definition call (regs : syscall_frame_t) (nr a1 a2 a3 a4 : Z) : syscall_frame_t :=
  {| f_r15 := f_r15 regs; f_r14 := f_r14 regs; f_r13 := f_r13 regs; f_r12 := f_r12 regs; f_r11 := f_r11 regs;
     f_r10 := a4; f_r9 := f_r9 regs; f_r8 := f_r8 regs; f_rbp := f_rbp regs; f_rbx := f_rbx regs;
     f_rdx := a3; f_rcx := f_rcx regs; f_rsi := a2; f_rdi := a1; f_rax := nr;
     f_rip := f_rip regs; f_cs := f_cs regs; f_rflags := f_rflags regs; f_rsp := f_rsp regs; f_ss := f_ss regs |}.

Section Wrappers.
Context (regs : syscall_frame_t).

Definition usys_exit (code : Z) := call regs 0 (u64 code) 0 0 0.
Definition usys_write (fd buf len : Z) := call regs 1 fd buf len 0.
Definition usys_read (fd buf len : Z) := call regs 3 fd buf len 0.
Definition usys_yield := call regs 2 0 0 0 0.
Definition usys_fs_create (path is_dir : Z) := call regs 10 path is_dir 0 0.
Definition usys_fs_write (path buf len offset : Z) := call regs 11 path buf len offset.
Definition usys_fs_read (path buf len offset : Z) := call regs 12 path buf len offset.
Definition usys_fs_list (path buf len : Z) := call regs 13 path buf len 0.
Definition usys_map_mmio (virt phys pages : Z) := call regs 45 virt phys pages 0.
Definition usys_pci_conf_read32 (bus dev func offset : Z) := call regs 46 bus dev func offset.
Definition usys_exec (path : Z) := call regs 20 path 0 0 0.
Definition usys_ipc_send (target msg len : Z) := call regs 5 target msg len 0.
Definition usys_get_self_tid := call regs 47 0 0 0 0.
Definition usys_ipc_poll (buf capacity sender_out : Z) := call regs 6 buf capacity sender_out 0.
Definition usys_dma_alloc_page := call regs 33 0 0 0 0.
Definition usys_dma_free_page (page : Z) := call regs 34 page 0 0 0.
End Wrappers.

(** ** uitoa writes the decimal notation *)

Lemma magnitude_digit u : 0 <= u < 10 -> magnitude u = [48 + u mod 10].
Proof.
  intros Hu. unfold magnitude. destruct (Z.eqb_spec u 0) as [->|Hne]; [done|].
  cbn [digits_rev]. rewrite (proj2 (Z.eqb_neq u 0)) by done. rewrite Z.div_small by lia. done.
Qed.

Lemma udigits_run fuel u out rest :
  (0 < fuel)%nat -> 0 <= u < 10 ^ Z.of_nat fuel -> (length out + fuel = 20)%nat -> length rest = fuel ->
  let ds := if u =? 0 then [48] else digits_rev fuel u in
  udigits fuel u (out ++ rest) (Z.of_nat (length out))
  = Some (out ++ ds ++ drop (length ds) rest, Z.of_nat (length out + length ds)).
Proof.
  revert u out rest. induction fuel as [|fuel IH]; intros u out rest Hf Hu Ho Hr ds; [lia|].
  destruct rest as [|x rest]; [done|]. cbn [udigits]. rewrite store_app by done.
  pose proof (Z.mod_pos_bound u 10 ltac:(lia)) as Hm.
  rewrite u8_small by lia.
  assert (Hds : ds = 48 + u mod 10 :: (if u / 10 =? 0 then [] else digits_rev fuel (u / 10))).
  { unfold ds. destruct (Z.eqb_spec u 0) as [->|Hne]; [done|]. cbn [digits_rev]. rewrite (proj2 (Z.eqb_neq u 0)) by done.
    f_equal. destruct (Z.eqb_spec (u / 10) 0) as [->|]; [|done]. by destruct fuel. }
  rewrite Hds. clear Hds ds.
  rewrite Nat2Z.inj_succ, Z.pow_succ_r in Hu by lia.
  assert (Hq : 0 <= u / 10 < 10 ^ Z.of_nat fuel) by (split; [apply Z.div_pos; lia|apply Z.div_lt_upper_bound; lia]).
  destruct (Z.eqb_spec (u / 10) 0) as [E|Hne]; cbn [negb andb].
  - cbn [app length drop]. do 2 f_equal. lia.
  - destruct fuel as [|fuel]; [cbn in Hq; lia|]. rewrite (proj2 (Z.ltb_lt _ 20)) by lia.
    specialize (IH (u / 10) (out ++ [48 + u mod 10]) rest ltac:(lia) Hq).
    rewrite length_app in IH. cbn [length] in *. specialize (IH ltac:(lia) ltac:(lia)).
    rewrite (proj2 (Z.eqb_neq (u / 10) 0)) in IH by done.
    replace (Z.of_nat (length out) + 1) with (Z.of_nat (length out + 1)) by lia.
    rewrite <- (app_assoc out [_] rest) in IH. cbn [app] in IH. rewrite IH. rewrite <- app_assoc. cbn [app length drop].
    do 2 f_equal. lia.
Qed.

Lemma ucopy_run ds junk fuel out rest cap :
  (length ds <= fuel)%nat -> Forall byte ds -> Z.of_nat (length out) < cap -> cap <= Z.of_nat (length (out ++ rest)) ->
  let n := Nat.min (length ds) (Z.to_nat cap - 1 - length out) in
  ucopy fuel (ds ++ junk) (Z.of_nat (length ds)) (out ++ rest) (Z.of_nat (length out)) cap
  = Some (out ++ take n (reverse ds) ++ drop n rest, Z.of_nat (length out + n)).
Proof.
  revert junk fuel out rest. induction ds as [|d ds IH] using rev_ind; intros junk fuel out rest Hf Hb Ho Hc n.
  { change n with 0%nat. rewrite take_0, drop_0, Nat.add_0_r. by destruct fuel. }
  assert (En : n = Nat.min (length ds + 1) (Z.to_nat cap - 1 - length out)) by (unfold n; by rewrite length_app).
  clearbody n. rewrite length_app in *. cbn [length] in *.
  apply Forall_app in Hb as [Hb Hd]. apply Forall_cons_1 in Hd as [Hd _].
  destruct fuel as [|fuel]; [lia|]. cbn [ucopy]. rewrite (proj2 (Z.eqb_neq _ 0)) by lia. cbn [negb andb].
  destruct (Z.ltb_spec (Z.of_nat (length out) + 1) cap) as [Hlt|Hge].
  - rewrite <- app_assoc. cbn [app]. rewrite load_app by lia.
    destruct rest as [|x rest]; [cbn in Hc; lia|]. rewrite store_app by done. rewrite u8_small by exact Hd.
    replace (Z.of_nat (length ds + 1) - 1) with (Z.of_nat (length ds)) by lia.
    specialize (IH (d :: junk) fuel (out ++ [d]) rest ltac:(lia) Hb). rewrite !length_app in IH. cbn [length] in *.
    specialize (IH ltac:(lia) ltac:(lia)).
    replace (Z.of_nat (length out) + 1) with (Z.of_nat (length out + 1)) by lia.
    rewrite <- (app_assoc out [d] rest) in IH. cbn [app] in IH. rewrite IH.
    rewrite reverse_snoc. set (n' := Nat.min (length ds) _). assert (n = S n') as -> by lia.
    rewrite <- app_assoc. cbn [app take drop]. do 2 f_equal. lia.
  - assert (n = 0%nat) as -> by lia. rewrite take_0, drop_0. cbn [app]. do 2 f_equal. lia.
Qed.

Lemma length_digits_rev fuel v : (length (digits_rev fuel v) <= fuel)%nat.
Proof.
  revert v. induction fuel as [|fuel IH]; intros v; cbn [digits_rev]; [done|].
  destruct (v =? 0); [apply Nat.le_0_l|]. cbn [length]. apply le_n_S, IH.
Qed.

Lemma uitoa_run val buf cap :
  - 2 ^ 63 <= val < 2 ^ 63 -> 0 < cap <= Z.of_nat (length buf) ->
  let n := Nat.min (length (decimal val)) (Z.to_nat cap - 1) in
  uitoa val buf cap = Some (Z.of_nat n, take n (decimal val) ++ 0 :: drop (S n) buf).
Proof.
  intros Hv Hc n. unfold uitoa. rewrite (proj2 (Z.eqb_neq cap 0)) by lia.
  assert (Hu : (if val <? 0 then u64 (u64 (- (val + 1)) + 1) else u64 val) = Z.abs val).
  { destruct (Z.ltb_spec val 0); [rewrite (u64_small (- (val + 1))) by lia|]; rewrite u64_small; lia. }
  rewrite Hu. pose proof (udigits_run 20 (Z.abs val) [] (replicate 20 0) ltac:(lia)) as R.
  cbn [app length Nat.add] in R. change (Z.of_nat 0) with 0 in R. rewrite R; [|split; [lia|change (10 ^ Z.of_nat 20) with (10 ^ 20); lia]|done|done]. clear R.
  fold (magnitude (Z.abs val)). set (ds := magnitude (Z.abs val)).
  assert (Hds : (length ds <= 20)%nat).
  { unfold ds, magnitude. destruct (_ =? _); [apply le_n_S, Nat.le_0_l|apply length_digits_rev]. }
  assert (Hbytes := magnitude_bytes (Z.abs val)). fold ds in Hbytes.
  assert (Hn : n = Nat.min (length (sign val) + length ds) (Z.to_nat cap - 1)).
  { unfold n. by rewrite decimal_eq, length_app, length_reverse. }
  assert (Fin : forall m body, length body = m -> (m < length buf)%nat ->
    store (body ++ drop m buf) (Z.of_nat m) 0 = Some (body ++ 0 :: drop (S m) buf)).
  { intros m body Hb Hm. destruct (drop m buf) as [|x r] eqn:E; [apply (f_equal length) in E; rewrite length_drop in E; cbn in E; lia|].
    rewrite store_app by lia. do 3 f_equal. change r with (drop 1 (x :: r)). rewrite <- E, drop_drop. f_equal. lia. }
  rewrite decimal_eq. fold ds. unfold sign in *. destruct (Z.ltb_spec val 0) as [Hneg|Hpos]; cbn [andb length] in *.
  - destruct (Z.ltb_spec (0 + 1) cap) as [H1|H1].
    + destruct buf as [|x buf]; [cbn in Hc; lia|]. change (store (x :: buf) 0 45) with (store ([] ++ x :: buf) 0 45).
      rewrite store_app by done. cbn [app]. change (u8 45) with 45.
      pose proof (ucopy_run ds (drop (length ds) (replicate 20 0)) 20 [45] buf cap Hds Hbytes) as R.
      cbn [length app] in R, Hc. change (Z.of_nat 1) with 1 in R. cbn [app]. rewrite R by (cbn; lia). clear R.
      set (m := Nat.min (length ds) _). assert (n = S m) as -> by lia.
      change (drop m buf) with (drop (S m) (x :: buf)). rewrite app_comm_cons.
      rewrite Fin; [|cbn [length]; rewrite length_take, length_reverse; lia|cbn [length]; lia].
      cbn [take app]. done.
    + pose proof (ucopy_run ds (drop (length ds) (replicate 20 0)) 20 [] buf cap Hds Hbytes) as R.
      cbn [length app] in R. change (Z.of_nat 0) with 0 in R. rewrite R by lia. clear R.
      set (m := Nat.min (length ds) _). assert (m = 0%nat) as -> by lia. assert (n = 0%nat) as -> by lia.
      rewrite !take_0. rewrite Fin by (cbn; lia). done.
  - pose proof (ucopy_run ds (drop (length ds) (replicate 20 0)) 20 [] buf cap Hds Hbytes) as R.
    cbn [length app] in R. change (Z.of_nat 0) with 0 in R. rewrite R by lia. clear R.
    set (m := Nat.min (length ds) _). assert (n = m) as -> by lia. cbn [app Nat.add].
    rewrite Fin; [done|rewrite length_take, length_reverse; lia|lia].
Qed.

(** ** The allocator is the kernel's *)

#[export] Instance kernel_proc : Proc kstate :=
  {| p_heap := k_heap; p_set_heap := with_heap; p_alloc_page := kpalloc |}.

Lemma malloc_walk_eq fuel n block k : malloc_walk fuel n block k = kmalloc_walk fuel n block k.
Proof.
  revert block k. induction fuel as [|fuel IH]; intros block k; [done|]. cbn [malloc_walk kmalloc_walk].
  destruct (block =? NULL); [done|]. unfold bind. change (uload_block block) with (load_block block).
  destruct (load_block block k) as [b k'| |]; [|done|done]. destruct (b_is_used b); [apply IH|done].
Qed.

Lemma malloc_eq size k : malloc size k = kmalloc size k.
Proof.
  unfold malloc, kmalloc. change (4096 - sizeof_block_t) with PAGE_BLOCK. destruct (_ || _); [done|].
  apply malloc_walk_eq.
Qed.

Lemma realloc_eq copy ptr n k : realloc copy ptr n k = krealloc copy ptr n k.
Proof.
  unfold realloc, krealloc. change (4096 - sizeof_block_t) with PAGE_BLOCK.
  destruct (ptr =? NULL); [apply malloc_eq|]. destruct (n =? 0); [done|]. destruct (_ <=? _); [done|].
  unfold bind. change (uload_block (ptr - sizeof_block_t)) with (load_block (ptr - sizeof_block_t)).
  destruct (load_block _ k) as [b k'| |]; [|reflexivity|reflexivity]. cbv zeta. fold (align16 n). destruct (_ <=? _); [reflexivity|].
  rewrite malloc_eq. by destruct (kmalloc n k').
Qed.

(** ** Properties *)

(** C38: [uitoa] writes the decimal notation of any 64-bit integer and a NUL, or as
    many of its first characters as [cap] leaves room for; it returns their number
    and touches nothing else. *)
Theorem uitoa_writes_decimal val buf cap :
  - 2 ^ 63 <= val < 2 ^ 63 -> 0 < cap <= Z.of_nat (length buf) ->
  let n := Nat.min (length (decimal val)) (Z.to_nat cap - 1) in
  uitoa val buf cap = Some (Z.of_nat n, take n (decimal val) ++ 0 :: drop (S n) buf).
Proof. apply uitoa_run. Qed.

Lemma uitoa_writes_decimal_witness :
  uitoa (- 2 ^ 63) (replicate 30 7) 21 = Some (20, decimal (- 2 ^ 63) ++ 0 :: replicate 9 7)
  /\ uitoa (-1234) (replicate 6 7) 4 = Some (3, [45; 49; 50; 0; 7; 7]).
Proof.
  split.
  - rewrite (uitoa_writes_decimal (- 2 ^ 63) (replicate 30 7) 21); [reflexivity|lia|cbn; lia].
  - rewrite (uitoa_writes_decimal (-1234) (replicate 6 7) 4); [reflexivity|lia|cbn; lia].
Defined.

(** the allocator of the user library is that of the kernel: over the same
    page source and the same heap, [malloc], [free] and [realloc] give what
    [kmalloc], [kfree] and [krealloc] give, on every state. *)
Lemma user_allocator_is_kernel_allocator copy ptr n k :
  malloc n k = kmalloc n k /\ free ptr k = kfree ptr k /\ realloc copy ptr n k = krealloc copy ptr n k
  /\ malloc_init k = kmalloc_init k.
Proof. split_and!; [apply malloc_eq|done|apply realloc_eq|done]. Qed.

(** The kernel serves the frame with the given handler. *)
Definition served {D} `{Ports D} (halt : M (machine D) unit) (waits : nat) (syscall_return f_addr : Z)
    (f : syscall_frame_t) (h : syscall_frame_t -> M (machine D) Z) : Prop :=
  forall s, syscall_handler halt waits syscall_return f_addr f s = (rax <- h f ;; ret (SysReturn (set_rax rax f))) s.


Definition regs0 : syscall_frame_t :=
  {| f_r15 := 0; f_r14 := 0; f_r13 := 0; f_r12 := 0; f_r11 := 0; f_r10 := 0; f_r9 := 0; f_r8 := 0;
     f_rbp := 0; f_rbx := 0; f_rdx := 0; f_rcx := 0; f_rsi := 0; f_rdi := 0; f_rax := 0;
     f_rip := 0x400000; f_cs := 0x1B; f_rflags := 0x202; f_rsp := 0x450000; f_ss := 0x23 |}.

