(* ===== verification/Apic.v ===== *)
(** * apic/apic.c, the timer interrupts of cpu/pit.c and cpu/idt.c

    The local APIC is a device behind the interface [Apic]: two model-specific
    register operations, and 32-bit registers at physical addresses that the
    kernel reaches through its page tables.  [apic_t] is an instance.  The
    globals [lapic_base] and [pit_ticks] are fields of [board]; [halt] is what
    happens in [hlt]: the interrupts that arrive. *)

From S2P Require Import Prelude State Console Utils Mem Pmm Heap Objects Thread Sched Ports Kbd.
From S2P Require Import Desc Ramfs Vmm Paging User Syscall.

Class Apic (D : Type) := {
  msr_in : Z -> D -> Z * Z;
  msr_out : Z -> Z * Z -> D -> D;
  reg_in : Z -> D -> Z * D;
  reg_out : Z -> Z -> D -> D
}.

Definition IA32_APIC_BASE_MSR : Z := 0x1B.
Definition IA32_APIC_BASE_MSR_ENABLE : Z := 0x800.
Definition LAPIC_SVR : Z := 0xF0.
Definition LAPIC_SVR_ENABLE : Z := Z.shiftl 1 8.
Definition LAPIC_VIRT : Z := 0xFFFF8000FEE00000.
Definition LAPIC_EOI : Z := 0x0B0.
Definition LAPIC_TIMER_DIVIDE : Z := 0x3E0.
Definition LAPIC_TIMER_INIT : Z := 0x380.
Definition LAPIC_DIVIDE_BY_16 : Z := 0x03.
Definition LAPIC_LVT_TIMER : Z := 0x320.
Definition LAPIC_TIMER_PERIODIC : Z := Z.shiftl 1 17.
Definition LAPIC_TIMER_CURRENT : Z := 0x390.
Definition LAPIC_TIMER_MASKED : Z := 0x00010000.

Record board (D : Type) := { b_machine : machine D; lapic_base : Z; pit_ticks : Z }.
Arguments b_machine {D} _.
Arguments lapic_base {D} _.
Arguments pit_ticks {D} _.

Section Timers.
Context {D : Type} `{Ports D} `{Apic D}.
Context (halt : M (board D) unit) (waits : nat).

Definition with_machine (m : machine D) (b : board D) : board D :=
  {| b_machine := m; lapic_base := lapic_base b; pit_ticks := pit_ticks b |}.
Definition on_machine {A} (m : M (machine D) A) : M (board D) A := zoom b_machine with_machine m.
Definition on_kernel {A} (m : kernel A) : M (board D) A := on_machine (in_kernel m).
Definition on_dev {A} (m : M D A) : M (board D) A := on_machine (in_dev m).

Definition set_lapic_base (a : Z) : M (board D) unit :=
  modify (fun b => {| b_machine := b_machine b; lapic_base := a; pit_ticks := pit_ticks b |}).
Definition set_pit_ticks (n : Z) : M (board D) unit :=
  modify (fun b => {| b_machine := b_machine b; lapic_base := lapic_base b; pit_ticks := n |}).

(** ** asm/msr.c: the pair is (eax, edx) *)

Definition kset_msr (msr : Z) (data : Z * Z) : M D unit := modify (msr_out msr data).
Definition kget_msr (msr : Z) : M D (Z * Z) := gets (msr_in msr).

(** ** apic.c *)

Definition kset_apic_base (apic : Z) : M (board D) unit :=
  on_dev (kset_msr IA32_APIC_BASE_MSR (u32 (Z.lor (Z.land apic 0xFFFFF000) IA32_APIC_BASE_MSR_ENABLE), 0)).

Definition kget_apic_base : M (board D) Z :=
  msr <- on_dev (kget_msr IA32_APIC_BASE_MSR) ;; ret (Z.land msr.1 0xFFFFF000).

(** The physical address behind [lapic_base + offset]. *)
Definition lapic_reg (offset : Z) : M (board D) Z :=
  base <- gets lapic_base ;;
  on_kernel (k <- gets id ;; match translate (k_mem k) (cr3 (k_cpu k)) (u64 (base + offset)) with
                             | Some a => ret a
                             | None => page_fault
                             end).

Definition klapic_read (offset : Z) : M (board D) Z :=
  a <- lapic_reg offset ;;
  on_dev (fun d => let (v, d') := reg_in a d in Ret (u32 v) d').

Definition klapic_write (offset value : Z) : M (board D) unit :=
  a <- lapic_reg offset ;; on_dev (modify (reg_out a (u32 value))).

Definition kenable_lapic : M (board D) bool :=
  lapic_phys <- kget_apic_base ;;
  _ <- on_kernel (kvmmap LAPIC_VIRT lapic_phys 0x03) ;;
  _ <- set_lapic_base LAPIC_VIRT ;;
  svr <- klapic_read LAPIC_SVR ;;
  _ <- klapic_write LAPIC_SVR (Z.lor svr LAPIC_SVR_ENABLE) ;;
  v <- klapic_read LAPIC_SVR ;;
  ret (negb (Z.land v LAPIC_SVR_ENABLE =? 0)).

(** [while (pit_ticks < target) hlt();] *)
Fixpoint wait_ticks (fuel : nat) (target : Z) : M (board D) unit :=
  t <- gets pit_ticks ;;
  if target <=? t then ret tt else
  match fuel with O => stuck | S fuel => _ <- halt ;; wait_ticks fuel target end.

Definition kpit_wait_ms (ms : Z) : M (board D) unit :=
  t <- gets pit_ticks ;; wait_ticks waits (u64 (t + ms)).

(** The initial count for one millisecond, at least 1000. *)
Definition timer_count (current : Z) : Z :=
  let counts_1ms := u32 (0xFFFFFFFF - current) / 1000 in
  if counts_1ms <? 1000 then 1000 else counts_1ms.

Definition ksetup_lapic_timer : M (board D) bool :=
  _ <- on_kernel sti ;;
  _ <- klapic_write LAPIC_TIMER_DIVIDE LAPIC_DIVIDE_BY_16 ;;
  _ <- klapic_write LAPIC_LVT_TIMER (Z.lor LAPIC_TIMER_VECTOR LAPIC_TIMER_MASKED) ;;
  _ <- klapic_write LAPIC_TIMER_INIT 0xFFFFFFFF ;;
  _ <- kpit_wait_ms 1000 ;;
  current <- klapic_read LAPIC_TIMER_CURRENT ;;
  _ <- klapic_write LAPIC_LVT_TIMER (Z.lor LAPIC_TIMER_VECTOR LAPIC_TIMER_PERIODIC) ;;
  _ <- klapic_write LAPIC_TIMER_INIT (timer_count current) ;;
  _ <- on_kernel cli ;;
  ret true.

Definition klapic_eoi : M (board D) unit := klapic_write LAPIC_EOI 0.

(** ** The handlers of idt.c *)

(** The context that the timer interrupt goes on with. *)
Definition isr_lapic_timer_handler : M (board D) Z := _ <- klapic_eoi ;; on_kernel scheduler_tick.

Definition isr_pit_handler : M (board D) unit :=
  t <- gets pit_ticks ;;
  _ <- set_pit_ticks (u64 (t + 1)) ;;
  on_dev (kpic_eoi 0).
End Timers.

(** ** Theorems *)

Lemma same_page_of v w : v / 4096 = w / 4096 -> same_page v w.
Proof.
  intros E. unfold same_page, path_of, pd_index, pdpt_index, pml4_index, pt_index. rewrite !index_div by lia.
  change (2 ^ 21) with (4096 * 512). change (2 ^ 30) with (4096 * 262144). change (2 ^ 39) with (4096 * 134217728).
  change (2 ^ 12) with 4096. rewrite <- !Z.div_div by lia. by rewrite E.
Qed.

Section Enable.
Context {D : Type} `{Ports D} `{Apic D}.

Lemma on_kernel_run {A} (m : kernel A) (b : board D) r k :
  m (m_kernel (b_machine b)) = Ret r k ->
  on_kernel m b = Ret r (with_machine {| m_kernel := k; m_kbd := m_kbd (b_machine b); m_dev := m_dev (b_machine b) |} b).
Proof. intros R. unfold on_kernel, on_machine, in_kernel, zoom. by rewrite R. Qed.
Lemma on_kernel_hang {A} (m : kernel A) (b : board D) k :
  m (m_kernel (b_machine b)) = Hang k -> exists b', on_kernel m b = Hang b'.
Proof. intros R. unfold on_kernel, on_machine, in_kernel, zoom. rewrite R. by eexists. Qed.

(** The device of a board replaced. *)
Definition with_dev (d : D) (b : board D) : board D :=
  with_machine {| m_kernel := m_kernel (b_machine b); m_kbd := m_kbd (b_machine b); m_dev := d |} b.

(** The register at [offset] is at the physical address [a]. *)
Definition reg_at (b : board D) (offset a : Z) : Prop :=
  translate (k_mem (m_kernel (b_machine b))) (cr3 (k_cpu (m_kernel (b_machine b)))) (u64 (lapic_base b + offset)) = Some a.

Lemma lapic_reg_run b offset a : reg_at b offset a -> lapic_reg offset b = Ret a b.
Proof.
  intros R. unfold lapic_reg. cbn [bind gets]. unfold reg_at in R.
  rewrite (on_kernel_run _ b a (m_kernel (b_machine b))); [by destruct b as [[]]|]. cbn [bind gets id]. by rewrite R.
Qed.
Lemma klapic_read_run b offset a :
  reg_at b offset a ->
  klapic_read offset b = Ret (u32 (reg_in a (m_dev (b_machine b))).1) (with_dev (reg_in a (m_dev (b_machine b))).2 b).
Proof.
  intros R. unfold klapic_read. rewrite (bind_run _ _ _ _ _ (lapic_reg_run _ _ _ R)).
  unfold on_dev, on_machine, in_dev, zoom. by destruct (reg_in a _).
Qed.
Lemma klapic_write_run b offset v a :
  reg_at b offset a ->
  klapic_write offset v b = Ret tt (with_dev (reg_out a (u32 v) (m_dev (b_machine b))) b).
Proof. intros R. unfold klapic_write. by rewrite (bind_run _ _ _ _ _ (lapic_reg_run _ _ _ R)). Qed.

(** The APIC base that the processor reports. *)
Definition apic_phys (b : board D) : Z := Z.land (msr_in IA32_APIC_BASE_MSR (m_dev (b_machine b))).1 0xFFFFF000.

Lemma apic_phys_aligned b : page_base (apic_phys b) = apic_phys b /\ 0 <= apic_phys b < 2 ^ 32 /\ apic_phys b mod 4096 = 0.
Proof.
  unfold apic_phys. set (x := fst _).
  assert (E : Z.land x 0xFFFFF000 = page_base (x mod 2 ^ 32)).
  { unfold page_base. rewrite <- Z.land_ones, <- Z.land_assoc by lia. reflexivity. }
  rewrite E. pose proof (Z.mod_pos_bound x (2 ^ 32) ltac:(lia)).
  split; [apply page_base_idem|]. rewrite page_base_eq. split; [div_lia|]. by rewrite Z.mul_comm, Z.mod_mul by lia.
Qed.

(** A register page: the LAPIC page maps the base [p]. *)
Definition lapic_mapped (b : board D) (p : Z) : Prop :=
  lapic_base b = LAPIC_VIRT
  /\ forall v, same_page v LAPIC_VIRT ->
       mapping (k_mem (m_kernel (b_machine b))) (cr3 (k_cpu (m_kernel (b_machine b)))) v = Some (Z.lor p 0x03).

Lemma lapic_reg_at b p offset :
  lapic_mapped b p -> p mod 4096 = 0 -> 0 <= offset < 4096 -> reg_at b offset (p + offset).
Proof.
  intros [Hb Hm] Hp Ho. unfold reg_at, translate. rewrite Hb. unfold LAPIC_VIRT in *. rewrite u64_small by lia.
  rewrite (Hm (0xFFFF8000FEE00000 + offset)) by (apply same_page_of; div_lia).
  rewrite page_base_lor by (done || lia). f_equal. rewrite Z.add_mod by lia.
  change (0xFFFF8000FEE00000 mod 4096) with 0. rewrite !(Z.mod_small offset) by lia. lia.
Qed.

Lemma kenable_lapic_run b :
  let k := m_kernel (b_machine b) in
  let p := apic_phys b in
  let a := p + LAPIC_SVR in
  (forall v d, Z.testbit (reg_in a (reg_out a v d)).1 8 = Z.testbit v 8) ->
  mem_ok k -> pt_ok k (page_base (cr3 (k_cpu k))) ->
  (starved k (page_base (cr3 (k_cpu k))) /\ exists b', kenable_lapic b = Hang b')
  \/ exists b' k1, kenable_lapic b = Ret true b' /\ m_kernel (b_machine b') = reloaded k k1
       /\ mapped (masked k) k1 (cr3 (k_cpu k)) LAPIC_VIRT (Z.lor p 0x03) /\ lapic_mapped b' p
       /\ exists svr d, reg_in a (m_dev (b_machine b)) = (svr, d)
            /\ m_dev (b_machine b') = (reg_in a (reg_out a (Z.lor (u32 svr) 0x100) d)).2.
Proof.
  intros k p a Hsvr Hm Hpt. destruct (apic_phys_aligned b) as (Hpb & Hpr & Hpa). fold p in Hpb, Hpr, Hpa.
  unfold kenable_lapic.
  assert (R0 : kget_apic_base b = Ret p b) by (by destruct b as [[]]). rewrite (bind_run _ _ _ _ _ R0).
  destruct (kvmmap_run k LAPIC_VIRT p 0x03 Hm Hpt ltac:(lia) ltac:(lia)) as [[Hs (k' & R)]|(k1 & R & M)].
  { left. split; [done|]. destruct (on_kernel_hang _ b k' R) as (b' & R'). exists b'. by rewrite (bind_hang _ _ _ _ R'). }
  right. rewrite Hpb in M. rewrite (bind_run _ _ _ _ _ (on_kernel_run _ b _ _ R)).
  set (b1 := {| b_machine := {| m_kernel := reloaded k k1; m_kbd := m_kbd (b_machine b); m_dev := m_dev (b_machine b) |};
                lapic_base := LAPIC_VIRT; pit_ticks := pit_ticks b |}).
  match goal with |- context [bind (set_lapic_base LAPIC_VIRT) _ ?s] =>
    assert (R1 : set_lapic_base LAPIC_VIRT s = Ret tt b1) by done end. rewrite (bind_run _ _ _ _ _ R1).
  assert (L : forall d, lapic_mapped (with_dev d b1) p).
  { intros d. split; [done|]. intros v Hv. cbn. change (cr3 (k_cpu (reloaded k k1))) with (cr3 (k_cpu k)).
    rewrite (mp_map _ _ _ _ _ M), decide_True by done. unfold entry_opt. by rewrite present_lor, orb_true_r. }
  assert (Hat : forall d, reg_at (with_dev d b1) LAPIC_SVR a) by (intros d; apply lapic_reg_at; [done|done|unfold LAPIC_SVR; lia]).
  change b1 with (with_dev (m_dev (b_machine b)) b1). set (d0 := m_dev (b_machine b)) in *.
  rewrite (bind_run _ _ _ _ _ (klapic_read_run _ _ _ (Hat d0))). cbn [with_dev with_machine b_machine m_dev].
  destruct (reg_in a d0) as [svr d1] eqn:Er. cbn [fst snd].
  change (with_machine _ _) with (with_dev d1 b1).
  rewrite (bind_run _ _ _ _ _ (klapic_write_run _ _ (Z.lor (u32 svr) LAPIC_SVR_ENABLE) _ (Hat d1))).
  assert (E : u32 (Z.lor (u32 svr) LAPIC_SVR_ENABLE) = Z.lor (u32 svr) 0x100).
  { unfold u32. rewrite <- !Z.land_ones, Z.land_lor_distr_l, <- Z.land_assoc, Z.land_diag by lia. reflexivity. }
  rewrite E. set (d2 := reg_out a (Z.lor (u32 svr) 0x100) d1).
  change (with_dev (reg_out a _ _) _) with (with_dev d2 b1).
  rewrite (bind_run _ _ _ _ _ (klapic_read_run _ _ _ (Hat d2))).
  change (m_dev (b_machine (with_dev d2 b1))) with d2.
  unfold LAPIC_SVR_ENABLE, u32. rewrite land_shiftl_1_testbit, Z.mod_pow2_bits_low by lia.
  unfold d2 at 1. rewrite Hsvr, Z.lor_spec, orb_true_r. fold d2.
  exists (with_dev (reg_in a d2).2 b1), k1. split_and!; [done|done|done|apply L|]. by exists svr, d1.
Qed.

(** ** The waits *)

Context (halt : M (board D) unit).

(** [n] halts, with no tick enough before each, and then the count is reached. *)
Inductive ticking (target : Z) : nat -> board D -> board D -> Prop :=
| tick_done b : target <= pit_ticks b -> ticking target 0 b b
| tick_more n b b1 b2 :
    pit_ticks b < target -> halt b = Ret tt b1 -> ticking target n b1 b2 -> ticking target (S n) b b2.

Lemma wait_ticks_run target n b b' fuel :
  ticking target n b b' -> (n <= fuel)%nat -> wait_ticks halt fuel target b = Ret tt b'.
Proof.
  intros Ht. revert fuel. induction Ht as [b Hb|n b b1 b2 Hb Hh _ IH]; intros fuel Hf.
  - destruct fuel; cbn [wait_ticks bind gets]; by rewrite (proj2 (Z.leb_le _ _) Hb).
  - destruct fuel as [|fuel]; [lia|]. cbn [wait_ticks bind gets]. rewrite (proj2 (Z.leb_gt _ _) Hb).
    unfold bind at 1. rewrite Hh. apply IH. lia.
Qed.

Definition flagged (f : cpu_t -> cpu_t) (b : board D) : board D :=
  let m := b_machine b in
  with_machine {| m_kernel := with_cpu (f (k_cpu (m_kernel m))) (m_kernel m); m_kbd := m_kbd m; m_dev := m_dev m |} b.
Definition flag_up (c : cpu_t) : cpu_t := set_rflags (Z.setbit (rflags c) IF_BIT) c.
Definition flag_down (c : cpu_t) : cpu_t := set_rflags (Z.clearbit (rflags c) IF_BIT) c.

(** The timer counts down from the start value with its interrupt masked. *)
Definition started (p : Z) (b : board D) : board D :=
  with_dev (reg_out (p + LAPIC_TIMER_INIT) 0xFFFFFFFF (reg_out (p + LAPIC_LVT_TIMER) 0x10030
              (reg_out (p + LAPIC_TIMER_DIVIDE) LAPIC_DIVIDE_BY_16 (m_dev (b_machine b))))) (flagged flag_up b).

Lemma timer_count_eq c : 0 <= c < 2 ^ 32 -> timer_count c = Z.max 1000 ((2 ^ 32 - 1 - c) / 1000).
Proof.
  intros Hc. unfold timer_count, u32. rewrite Z.mod_small by lia. change (2 ^ 32 - 1) with 0xFFFFFFFF.
  destruct (Z.ltb_spec ((0xFFFFFFFF - c) / 1000) 1000); lia.
Qed.

Lemma lapic_mapped_dev d b p : lapic_mapped b p -> lapic_mapped (with_dev d b) p.
Proof. done. Qed.
Lemma lapic_mapped_flag f b p : (forall c, cr3 (f c) = cr3 c) -> lapic_mapped b p -> lapic_mapped (flagged f b) p.
Proof. intros Hf [H1 H2]. split; [done|]. intros v Hv. cbn. rewrite Hf. by apply H2. Qed.

Lemma ksetup_lapic_timer_run b b1 p n waits :
  lapic_mapped b p -> p mod 4096 = 0 ->
  ticking (u64 (pit_ticks b + 1000)) n (started p b) b1 -> (n <= waits)%nat -> lapic_mapped b1 p ->
  let cur := reg_in (p + LAPIC_TIMER_CURRENT) (m_dev (b_machine b1)) in
  let c := Z.max 1000 ((2 ^ 32 - 1 - u32 cur.1) / 1000) in
  ksetup_lapic_timer halt waits b
  = Ret true (flagged flag_down (with_dev (reg_out (p + LAPIC_TIMER_INIT) c (reg_out (p + LAPIC_LVT_TIMER) 0x20030 cur.2)) b1)).
Proof.
  intros Hb Hp Ht Hn Hb1 cur c. unfold ksetup_lapic_timer.
  assert (Hat : forall b, lapic_mapped b p -> forall o, 0 <= o < 4096 -> reg_at b o (p + o)) by (intros; by apply lapic_reg_at).
  assert (R0 : on_kernel sti b = Ret tt (flagged flag_up b)) by done. rewrite (bind_run _ _ _ _ _ R0).
  assert (Hup : lapic_mapped (flagged flag_up b) p) by by apply lapic_mapped_flag.
  rewrite (bind_run _ _ _ _ _ (klapic_write_run _ _ _ _ (Hat _ Hup LAPIC_TIMER_DIVIDE ltac:(unfold LAPIC_TIMER_DIVIDE; lia)))).
  rewrite (bind_run _ _ _ _ _ (klapic_write_run _ _ _ _ (Hat _ (lapic_mapped_dev _ _ _ Hup) LAPIC_LVT_TIMER ltac:(unfold LAPIC_LVT_TIMER; lia)))).
  rewrite (bind_run _ _ _ _ _ (klapic_write_run _ _ _ _ (Hat _ (lapic_mapped_dev _ _ _ (lapic_mapped_dev _ _ _ Hup)) LAPIC_TIMER_INIT ltac:(unfold LAPIC_TIMER_INIT; lia)))).
  match goal with |- context [bind (kpit_wait_ms halt waits 1000) _ ?s] => change s with (started p b) end.
  assert (R1 : kpit_wait_ms halt waits 1000 (started p b) = Ret tt b1) by by apply (wait_ticks_run _ n).
  rewrite (bind_run _ _ _ _ _ R1).
  rewrite (bind_run _ _ _ _ _ (klapic_read_run _ _ _ (Hat _ Hb1 LAPIC_TIMER_CURRENT ltac:(unfold LAPIC_TIMER_CURRENT; lia)))).
  fold cur.
  rewrite (bind_run _ _ _ _ _ (klapic_write_run _ _ _ _ (Hat _ (lapic_mapped_dev _ _ _ Hb1) LAPIC_LVT_TIMER ltac:(unfold LAPIC_LVT_TIMER; lia)))).
  rewrite (bind_run _ _ _ _ _ (klapic_write_run _ _ _ _ (Hat _ (lapic_mapped_dev _ _ _ (lapic_mapped_dev _ _ _ Hb1)) LAPIC_TIMER_INIT ltac:(unfold LAPIC_TIMER_INIT; lia)))).
  assert (Hc : u32 (timer_count (u32 cur.1)) = c).
  { pose proof (Z.mod_pos_bound cur.1 (2 ^ 32) ltac:(lia)) as Hr. rewrite timer_count_eq by done. fold c.
    apply Z.mod_small. unfold c, u32. div_lia. }
  rewrite Hc. done.
Qed.
End Enable.

(** ** Properties *)


(** A local APIC as a file of registers, with its base. *)
Record apic_t := { ap_base : Z; ap_regs : gmap Z Z }.

#[export] Instance apic_ports : Ports apic_t := {| port_in _ d := (0, d); port_out _ _ d := d |}.
#[export] Instance apic_device : Apic apic_t := {|
  msr_in _ d := (ap_base d, 0);
  msr_out _ v d := {| ap_base := v.1; ap_regs := ap_regs d |};
  reg_in a d := (default 0 (ap_regs d !! a), d);
  reg_out a v d := {| ap_base := ap_base d; ap_regs := <[a := v]> (ap_regs d) |}
|}.

Definition board_up : board apic_t :=
  {| b_machine := {| m_kernel := k1; m_kbd := kbd0; m_dev := {| ap_base := 0xFEE00900; ap_regs := ∅ |} |};
     lapic_base := 0; pit_ticks := 0 |}.

Lemma board_up_enabled :
  (forall v d, Z.testbit (reg_in (apic_phys board_up + LAPIC_SVR) (reg_out (apic_phys board_up + LAPIC_SVR) v d)).1 8 = Z.testbit v 8)
  /\ mem_ok k1 /\ pt_ok k1 (page_base (cr3 (k_cpu k1))).
Proof. split; [|split; [exact k1_ok|exact k1_pt]]. intros v d. cbn. by rewrite lookup_insert_eq. Qed.

Definition returned {S} (o : outcome S bool) : bool := match o with Ret r _ => r | _ => false end.


(** after the calibration [ksetup_lapic_timer] has started the periodic
    timer on vector 0x30 with one thousandth of the counts that passed in the
    1000 ms, or with 1000 when that is less, and leaves interrupts off; it
    returns when the PIT interrupts arrive that the wait is for. *)
Lemma ksetup_lapic_timer_correct {D} `{Ports D} `{Apic D} (halt : M (board D) unit) b b1 p n waits :
  lapic_mapped b p -> p mod 4096 = 0 ->
  ticking halt (u64 (pit_ticks b + 1000)) n (started p b) b1 -> (n <= waits)%nat -> lapic_mapped b1 p ->
  let cur := reg_in (p + LAPIC_TIMER_CURRENT) (m_dev (b_machine b1)) in
  let c := Z.max 1000 ((2 ^ 32 - 1 - u32 cur.1) / 1000) in
  ksetup_lapic_timer halt waits b
  = Ret true (flagged flag_down (with_dev (reg_out (p + LAPIC_TIMER_INIT) c (reg_out (p + LAPIC_LVT_TIMER) 0x20030 cur.2)) b1)).
Proof. apply ksetup_lapic_timer_run. Qed.

(** Each halt brings 500 ticks. *)
Definition ticks_500 : M (board apic_t) unit := t <- gets pit_ticks ;; set_pit_ticks (t + 500).

Lemma ksetup_lapic_timer_correct_witness :
  exists b b', ksetup_lapic_timer ticks_500 2 b = Ret true b'
  /\ ap_regs (m_dev (b_machine b')) !! 0xFEE00380 = Some 4294967 /\ ap_regs (m_dev (b_machine b')) !! 0xFEE00320 = Some 0x20030.
Proof.
  destruct board_up_enabled as (H1 & H2 & H3).
  assert (E : apic_phys board_up = 0xFEE00000) by (vm_compute; reflexivity).
  destruct (kenable_lapic_run board_up H1 H2 H3) as [[_ (b' & R)]|(b' & k2 & R & _ & _ & L & svr & d & Hr & Hd)].
  - assert (Q : returned (kenable_lapic board_up) = true) by (vm_compute; reflexivity).
    rewrite R in Q. discriminate Q.
  - rewrite E in *. injection Hr as <- <-. exists (with_dev (m_dev (b_machine b')) {| b_machine := b_machine b'; lapic_base := lapic_base b'; pit_ticks := 0 |}).
    set (b := with_dev _ _). pose (at_ n := {| b_machine := b_machine (started 0xFEE00000 b); lapic_base := lapic_base b'; pit_ticks := n |}).
    eexists. split; [eapply (ksetup_lapic_timer_correct ticks_500 b (at_ 1000) 0xFEE00000 2 2)|].
    + exact L.
    + reflexivity.
    + eapply tick_more; [reflexivity|reflexivity|]. eapply tick_more; [reflexivity|reflexivity|]. by apply tick_done.
    + lia.
    + split; [exact (proj1 L)|]. intros v Hv. exact (proj2 L v Hv).
    + unfold at_, b. cbn [with_dev with_machine b_machine m_dev m_kernel flagged started]. rewrite Hd. split; vm_compute; reflexivity.
Defined.
