(* ===== verification/Kernel.v ===== *)
(** * kernel/kernel.c: the first files and the first process

    The images linked into the kernel are byte lists. *)

From S2P Require Import Prelude State Console Utils Mem Pmm Heap Objects Thread Sched Ipc Ports Kbd.
From S2P Require Import Ramfs Files Vmm As Paging User Syscall.
From stdpp Require Import strings.
#[local] Open Scope Z_scope.

(** A C string literal. *)
Definition path_lit (s : String.string) : list Z := cstr s ++ [0].

(** [kprintferr(msg); hang();] *)
Definition fatal {A} (msg : String.string) : kernel A := _ <- print_err msg ;; hang.

Definition kload_user_bin (path : list Z) (blob : list Z) : kernel unit :=
  let bin_size := Z.of_nat (length blob) in
  if (bin_size =? 0) || (VFS_MAX_FILE_SIZE <? bin_size) then fatal "Bad Blob Size." else
  r <- vfs_create (Some path) false ;;
  if negb (r =? VFS_OK) then fatal "Failed to create user binary." else
  w <- vfs_write (Some path) (Some blob) bin_size 0 ;;
  if negb (w =? bin_size) then fatal "Failed to write user binary." else ret tt.

(** The images of the user programs. *)
Record blobs := { shell_blob : list Z; nvmed_blob : list Z; npcid_blob : list Z; hello_blob : list Z; init_blob : list Z }.

Definition readme : list Z :=
  cstr "Welcome to Nyvela!" ++ [10] ++ cstr "Try: help, ls, ls /bin, cat /readme.txt, run hello" ++ [10; 0].

Definition kload_user_bins (b : blobs) : kernel unit :=
  r <- vfs_create (Some (path_lit "/bin")) true ;;
  if negb (r =? VFS_OK) then fatal "Failed to create /bin." else
  _ <- kload_user_bin (path_lit "/bin/sh") (shell_blob b) ;;
  _ <- kload_user_bin (path_lit "/bin/nvmed") (nvmed_blob b) ;;
  _ <- kload_user_bin (path_lit "/bin/npcid") (npcid_blob b) ;;
  _ <- kload_user_bin (path_lit "/bin/hello") (hello_blob b) ;;
  _ <- kload_user_bin (path_lit "/bin/init") (init_blob b) ;;
  r <- vfs_create (Some (path_lit "/readme.txt")) false ;;
  if negb (r =? VFS_OK) then fatal "Failed to create /readme.txt." else
  let rlen := Z.of_nat (length readme) - 1 in
  w <- vfs_write (Some (path_lit "/readme.txt")) (Some readme) rlen 0 ;;
  if negb (w =? rlen) then fatal "Failed to write /readme.txt." else ret tt.

(** A fresh page for the address [virt] of [thread]; [after] runs once it is
    mapped. *)
Definition give_page (thread virt : Z) (none : String.string) (unmappable : String.string)
    (after : Z -> kernel unit) : kernel unit :=
  phys <- kpalloc ;;
  if phys =? NULL then fatal none else
  pml4 <- child_cr3 thread ;;
  ok <- kvmmap_at pml4 virt phys 0x07 ;;
  if negb ok then fatal unmappable else after phys.

Definition zero_page (phys : Z) : kernel unit := memset phys 0 4096.

(** [memset] at the virtual address. *)
Definition zero_virt (base n : Z) : kernel unit := write_virt base (replicate (Z.to_nat n) 0).

Definition kuserspace_init : kernel Z :=
  cr3 <- kvmm_create_user_pml4 ;;
  if cr3 =? 0 then fatal "Failed to create address space for init thread." else
  init <- spawn_thread USER_CODE_VIRT cr3 ;;
  if init =? NULL then fatal "Failed to spawn init thread." else
  size <- gets init_blob_size ;;
  let code_page_count := (size + 4095) / 4096 in
  _ <- for_range (trips 0 code_page_count) 0 (fun i =>
         give_page init (USER_CODE_VIRT + i * 4096) "Failed to allocate memory for init thread."
           "Failed to map init thread image." (fun _ => ret tt)) ;;
  old_cr3 <- read_cr3 ;;
  pml4 <- child_cr3 init ;;
  _ <- write_cr3 pml4 ;;
  r <- exec_load zero_virt put_virt (Some (path_lit "/bin/init")) USER_CODE_VIRT (code_page_count * 4096) ;;
  if r <? 0 then fatal "Failed to load /bin/init." else
  _ <- write_cr3 old_cr3 ;;
  _ <- give_page init USER_STACK_PAGE "Failed to allocate stack for init thread."
         "Failed to map init thread stack." zero_page ;;
  _ <- for_range (trips 0 PROG_PAGES) 0 (fun i =>
         give_page init (PROG_BASE + i * 4096) "Failed to allocate program slot."
           "Failed to map program slot." zero_page) ;;
  _ <- give_page init PROG_STACK_PAGE "Failed to allocate program stack."
         "Failed to map program stack." zero_page ;;
  _ <- on_con (kprintinfo (cstr "Switching to ring3 shell (/bin/init)...") 0x0F) ;;
  _ <- user_entry USER_STACK_TOP init ;;
  t <- load_thread init ;;
  _ <- upd_sched (set_rsp0 (u64 (t_kernel_stack t + 4096 * KERNEL_STACK_SIZE_IN_PAGES))) ;;
  _ <- upd_sched (set_current init) ;;
  ret (t_context t).
