(* ===== verification/KTests.v ===== *)
(** * kernel/ktests.c: the self tests of the boot

    A test prints what it found and returns.  A local array is the list of its
    bytes; the one that [vfs_read] fills is a byte object at [stack_buf].  Memory
    from [kpalloc] is raw, memory from [kmalloc] a byte object of the requested
    size; its stale bytes, which no test reads, are 0. *)

From S2P Require Import Prelude State Console Utils Mem Pmm Heap Objects Thread Sched Ipc Ports Kbd.
From S2P Require Import Ramfs Vmm As Paging User Syscall Kernel.
From stdpp Require Import strings.
#[local] Open Scope Z_scope.

Definition print_info (s : list Z) : kernel unit := on_con (kprintinfo s 0x0F).
Definition print_succ (s : String.string) : kernel unit := on_con (kprintsucc (cstr s) 0x0F).
Definition print_fail (s : String.string) : kernel unit := on_con (kprintfail (cstr s) 0x0F).

Definition MAGIC : Z := 0x1111222233334444.
Definition MAGIC2 : Z := 0xAAAABBBBCCCCDDDD.

(** ** klog_ram_data *)

(** [for (j = 0; src[j]; j++, i++) msg[i] = src[j];] *)
Fixpoint copy_text (msg : list Z) (i : Z) (src : list Z) : option (Z * list Z) :=
  match src with
  | [] => None
  | c :: src =>
      if c =? 0 then Some (i, msg) else
      match store msg i c with None => None | Some msg => copy_text msg (i + 1) src end
  end.

(** The number, then the text, in [msg[64]]; [None] when the number does not fit. *)
Definition number_line (n : Z) (text : String.string) : option (option (list Z)) :=
  match ki64toa (s64 n) (replicate 21 0) 21 with
  | None => None
  | Some (false, _) => Some None
  | Some (true, buf) =>
      match copy_text (replicate 64 0) 0 buf with
      | None => None
      | Some (i, msg) =>
          match copy_text msg i (path_lit text) with
          | None => None
          | Some (i, msg) => match store msg i 0 with None => None | Some msg => Some (Some msg) end
          end
      end
  end.

Definition usable_ram (count : Z) : kernel Z :=
  for_fold (trips 0 count) 0 0 (fun i total =>
    e <- mmap_entry i ;;
    ret (if e820_type e =? E820_USABLE then u64 (total + length_in_bytes e) else total)).

Definition klog_ram_data : kernel unit :=
  count <- gets (fun k => MMAP_COUNT (k_pmm k)) ;;
  l <- deref (number_line count " memory map entries.") ;;
  match l with
  | None => print_fail "Cannot convert memory map count."
  | Some msg =>
      _ <- print_info (c_str msg) ;;
      total <- usable_ram count ;;
      l <- deref (number_line total " bytes of usable RAM.") ;;
      match l with
      | None => print_fail "Cannot convert total RAM."
      | Some msg => print_info (c_str msg)
      end
  end.

(** ** The allocators *)

(** A 64-bit access to a byte object. *)
Definition word_of (bs : list Z) : Z := foldr (fun b acc => b + 256 * acc) 0 (take 8 bs).
Definition store_word (p v : Z) : kernel unit :=
  bs <- load_bytes p ;; store_bytes p (word_bytes v ++ drop 8 bs).
Definition load_word (p : Z) : kernel Z := bs <- load_bytes p ;; ret (word_of bs).

Definition ktest_kmalloc : kernel unit :=
  a <- kmalloc_buf 64 ;;
  if a =? NULL then print_err "kmalloc failed." else
  _ <- store_word a MAGIC ;;
  v <- load_word a ;;
  if negb (v =? MAGIC) then print_err "kmalloc write failed." else
  b <- kmalloc_buf 128 ;;
  if b =? NULL then print_err "Second kmalloc failed." else
  if a =? b then print_err "kmalloc returned overlapping blocks." else
  _ <- kfree a ;;
  c <- kmalloc_buf 32 ;;
  if c =? NULL then print_err "kmalloc failed to reuse freed block." else
  _ <- kfree b ;;
  _ <- kfree c ;;
  print_succ "kmalloc test passed.".

(** [krealloc] of a byte object: a new one has the requested size and starts with
    the old bytes. *)
Definition krealloc_buf (p n : Z) : kernel Z :=
  if p =? NULL then kmalloc_buf n else
  krealloc (fun new old size => bs <- load_bytes old ;;
      store_bytes new (take (Z.to_nat n) (take (Z.to_nat size) bs ++ replicate (Z.to_nat n) 0))) p n.

(** [for (i = lo; i < hi; i++) p[i] = f(i);] *)
Definition fill_bytes (p lo hi : Z) (f : Z -> Z) : kernel unit :=
  for_range (trips lo hi) lo (fun i =>
    bs <- load_bytes p ;; bs <- deref (store bs i (f i)) ;; store_bytes p bs).

(** Whether some byte of [lo .. hi - 1] differs from [f]. *)
Definition bytes_differ (p lo hi : Z) (f : Z -> Z) : kernel bool :=
  r <- for_until (trips lo hi) lo (fun i =>
         bs <- load_bytes p ;; v <- deref (load bs i) ;;
         ret (if negb (v =? f i) then Some tt else None)) ;;
  ret (match r with Some _ => true | None => false end).

Definition low_byte (i : Z) : Z := u8 (Z.land i 0xFF).

Definition ktest_krealloc : kernel unit :=
  a <- krealloc_buf NULL 64 ;;
  if a =? NULL then print_err "krealloc NULL failed." else
  _ <- fill_bytes a 0 64 low_byte ;;
  b <- krealloc_buf a 128 ;;
  if b =? NULL then _ <- print_err "krealloc grow failed." ;; kfree a else
  bad <- bytes_differ b 0 64 low_byte ;;
  if bad : bool then _ <- print_err "krealloc grow corrupted data." ;; kfree b else
  _ <- fill_bytes b 64 128 (fun _ => 0xA5) ;;
  c <- krealloc_buf b 32 ;;
  if c =? NULL then _ <- print_err "krealloc shrink failed." ;; kfree b else
  bad <- bytes_differ c 0 32 low_byte ;;
  if bad : bool then _ <- print_err "krealloc shrink corrupted data." ;; kfree c else
  d <- krealloc_buf c 0 ;;
  if negb (d =? NULL) then _ <- print_err "krealloc zero should return NULL." ;; kfree d else
  e <- kmalloc_buf 64 ;;
  if e =? NULL then print_err "krealloc setup failed." else
  _ <- store_word e MAGIC ;;
  f <- krealloc_buf e 8192 ;;
  if negb (f =? NULL) then
    _ <- print_err "krealloc oversize should fail." ;; _ <- kfree f ;; kfree e
  else
  v <- load_word e ;;
  if negb (v =? MAGIC) then
    _ <- print_err "krealloc failed grow corrupted old block." ;; kfree e
  else
  _ <- kfree e ;;
  print_succ "krealloc test passed.".

Definition ktest_palloc : kernel unit :=
  mem <- kpalloc ;;
  if mem =? NULL then print_err "palloc failed." else
  _ <- store64 mem MAGIC ;;
  v <- load64 mem ;;
  if negb (v =? MAGIC) then _ <- print_err "palloc memory test failed." ;; kpfree mem else
  kpfree mem.

(** ** The page tables *)

(** A 64-bit access at a virtual address. *)
Definition load_virt64 (va : Z) : kernel Z := bs <- read_virt 8 va ;; ret (word_of bs).
Definition store_virt64 (va v : Z) : kernel unit := write_virt va (word_bytes v).

(** The leaf entry of [virt], read through the tables without a test. *)
Definition leaf_entry (virt : Z) : kernel Z :=
  cr3 <- read_cr3 ;;
  e4 <- load_entry (page_base cr3) (pml4_index virt) ;;
  e3 <- load_entry (page_base e4) (pdpt_index virt) ;;
  e2 <- load_entry (page_base e3) (pd_index virt) ;;
  load_entry (page_base e2) (pt_index virt).

Definition ktest_vmmap : kernel unit :=
  phys <- kpalloc ;;
  let virt := 0x100000000 in
  if phys =? NULL then print_err "vmmap: physical allocation failed." else
  _ <- store64 phys MAGIC ;;
  ok <- kvmmap virt phys 0x03 ;;
  if negb ok then _ <- print_err "vmmap: mapping failed." ;; kpfree phys else
  v <- load_virt64 virt ;;
  if negb (v =? MAGIC) then print_err "vmmap: read test failed." else
  _ <- store_virt64 virt MAGIC2 ;;
  v <- load64 phys ;;
  if negb (v =? MAGIC2) then print_err "vmmap: write test failed." else
  ok <- kvmunmap virt ;;
  if negb ok then print_err "vmmap: unmap failed." else
  e <- leaf_entry virt ;;
  if negb (Z.land e 1 =? 0) then print_err "vmmap: PTE still present." else
  _ <- kpfree phys ;;
  print_succ "vmmap test passed.".

(** ** The file system *)

(** [while (list[pos] && list[pos] != NEWLINE) pos++; if (list[pos] == NEWLINE) pos++;] *)
Fixpoint next_line (l : list Z) : option (list Z) :=
  match l with
  | [] => None
  | c :: l' => if c =? 0 then Some l else if c =? NEWLINE then Some l' else next_line l'
  end.

(** [while (list[pos])]: whether a line starts with test. *)
Fixpoint find_line (fuel : nat) (l : list Z) : option bool :=
  match l with
  | [] => None
  | c :: _ =>
      if c =? 0 then Some false else
      match fuel with
      | O => None
      | S fuel =>
          match kstrncmp l (cstr "test" ++ [NEWLINE; 0]) 5 with
          | None => None
          | Some 0 => Some true
          | Some _ => match next_line l with None => None | Some l => find_line fuel l end
          end
      end
  end.

Definition ktest_vfs (stack_buf : Z) : kernel unit :=
  r <- vfs_create (Some (path_lit "/test")) false ;;
  if negb (r =? VFS_OK) then print_err "vfs: create /test failed." else
  let msg := path_lit "vfs-ok" in
  w <- vfs_write (Some (path_lit "/test")) (Some msg) 6 0 ;;
  if negb (w =? 6) then print_err "vfs: write /test failed." else
  _ <- store_bytes stack_buf (replicate 16 0) ;;
  r <- vfs_read (put_kbuf stack_buf) (Some (path_lit "/test")) true 15 0 ;;
  bad <- (if negb (r =? 6) then ret true else
          buf <- load_bytes stack_buf ;;
          d <- deref (kmemcmp buf msg 6) ;; ret (negb (d =? 0))) ;;
  if bad : bool then print_err "vfs: read /test mismatch." else
  x <- vfs_list (Some (path_lit "/")) true 64 ;;
  let '(l, list) := x in
  if l <=? 0 then print_err "vfs: list / failed." else
  found <- deref (find_line (length list) list) ;;
  if negb found then print_err "vfs: /test missing in ls." else
  print_succ "vfs test passed.".

(** ** The system calls *)

Section Calls.
Context {D : Type} `{Ports D}.
Context (halt : M (machine D) unit) (waits : nat) (syscall_return : Z).

(** [int $0x80]: the stub pushes the registers, calls the handler on the frame at
    [f_addr] and pops them; [regs] are the ones the test does not set. *)
Definition int80 (f_addr : Z) (regs : syscall_frame_t) (rax rdi rsi rdx : Z) : M (machine D) sys_result :=
  syscall_handler halt waits syscall_return f_addr
    {| f_r15 := f_r15 regs; f_r14 := f_r14 regs; f_r13 := f_r13 regs; f_r12 := f_r12 regs; f_r11 := f_r11 regs;
       f_r10 := f_r10 regs; f_r9 := f_r9 regs; f_r8 := f_r8 regs; f_rbp := f_rbp regs; f_rbx := f_rbx regs;
       f_rdx := rdx; f_rcx := f_rcx regs; f_rsi := rsi; f_rdi := rdi; f_rax := rax;
       f_rip := f_rip regs; f_cs := f_cs regs; f_rflags := f_rflags regs; f_rsp := f_rsp regs; f_ss := f_ss regs |}.

(** [rax] after the call; a call that switches to another thread never comes back
    here. *)
Definition call_rax (r : sys_result) : M (machine D) Z :=
  match r with SysReturn f => ret (f_rax f) | SysSwitch _ _ => stuck end.

Definition ktest_syscall (f_addr : Z) (regs : syscall_frame_t) : M (machine D) unit :=
  r <- int80 f_addr regs 2 (f_rdi regs) (f_rsi regs) (f_rdx regs) ;;
  v <- call_rax r ;;
  if negb (v =? 0) then in_kernel (print_err "syscall: yield failed.") else
  r <- int80 f_addr regs 1 99 0 0 ;;
  v <- call_rax r ;;
  if negb (s64 v =? VFS_ERR_INVAL) then in_kernel (print_err "syscall: bad-fd check failed.") else
  r <- int80 f_addr regs 3 99 0 0 ;;
  v <- call_rax r ;;
  if negb (s64 v =? VFS_ERR_INVAL) then in_kernel (print_err "syscall: read bad-fd check failed.") else
  in_kernel (print_succ "syscall test passed.").
End Calls.
