(* ===== verification/Boot.v ===== *)
(** * kmain of kernel/kernel.c: the boot, from the entry to the first process

    The state is the board with the descriptor tables: the TSS, the GDT, the IDT
    and the registers that hold them.  [linked] are the addresses and images that
    the linker provides, [halt] and [call_halt] what happens in the two kinds of
    halts ([hlt] of the timer calibration, and of the system calls). *)

From S2P Require Import Prelude State Console Utils Mem Pmm Heap Objects Thread Sched Ipc Ports Kbd.
From S2P Require Import Desc Tss Ramfs Vmm As Paging User Syscall Apic Kernel KTests.
From stdpp Require Import strings.
#[local] Open Scope Z_scope.

Record computer (D : Type) := {
  c_board : board D;
  c_tss : tss_t;
  c_gdt : kgdt_t;
  c_gdtr : Z * Z;
  c_tr : Z;
  c_idt : gmap Z idt_entry_t;
  c_idtr : Z * Z
}.
Arguments c_board {D} _.
Arguments c_tss {D} _.
Arguments c_gdt {D} _.
Arguments c_gdtr {D} _.
Arguments c_tr {D} _.
Arguments c_idt {D} _.
Arguments c_idtr {D} _.

Record linked := {
  l_stack_top : Z;           (* kernel_stack_top *)
  l_tss : Z;                 (* &tss *)
  l_gdt : Z;                 (* gdt.gdt *)
  l_idt : Z;                 (* &IDT *)
  l_isrs : isrs;
  l_blobs : blobs;
  l_syscall_return : Z;
  l_stack_buf : Z;           (* the array of ktest_vfs *)
  l_frame : Z;               (* the frame of the calls of ktest_syscall, *)
  l_regs : syscall_frame_t   (* and the registers it does not set *)
}.

Section Boot.
Context {D : Type} `{Ports D} `{Apic D}.
Context (halt : M (board D) unit) (call_halt : M (machine D) unit) (waits : nat) (l : linked).

Definition set_board (b : board D) (c : computer D) : computer D :=
  {| c_board := b; c_tss := c_tss c; c_gdt := c_gdt c; c_gdtr := c_gdtr c; c_tr := c_tr c; c_idt := c_idt c;
     c_idtr := c_idtr c |}.
Definition in_board {A} (m : M (board D) A) : M (computer D) A := zoom c_board set_board m.
Definition kern {A} (m : kernel A) : M (computer D) A := in_board (on_kernel m).
Definition device {A} (m : M D A) : M (computer D) A := in_board (on_dev m).

(** The keyboard with the devices. *)
Definition keyboard {A} (m : M (kbd_t * D) A) : M (computer D) A :=
  in_board (on_machine (zoom (fun s => (m_kbd s, m_dev s))
    (fun p s => {| m_kernel := m_kernel s; m_kbd := p.1; m_dev := p.2 |}) m)).

Definition kernel_of (c : computer D) : kstate := m_kernel (b_machine (c_board c)).
Definition put_kernel (k : kstate) (b : board D) : board D :=
  with_machine {| m_kernel := k; m_kbd := m_kbd (b_machine b); m_dev := m_dev (b_machine b) |} b.

Definition segments {A} (m : M segs A) : M (computer D) A :=
  zoom (fun c => {| sg_kernel := kernel_of c; sg_tss := c_tss c; sg_gdt := c_gdt c; sg_gdtr := c_gdtr c; sg_tr := c_tr c |})
    (fun s c => {| c_board := put_kernel (sg_kernel s) (c_board c); c_tss := sg_tss s; c_gdt := sg_gdt s;
                   c_gdtr := sg_gdtr s; c_tr := sg_tr s; c_idt := c_idt c; c_idtr := c_idtr c |}) m.

(** [kidt_init] with the load of the table. *)
Definition interrupts : M (computer D) bool :=
  limit <- zoom c_idt (fun t c => {| c_board := c_board c; c_tss := c_tss c; c_gdt := c_gdt c; c_gdtr := c_gdtr c;
                                     c_tr := c_tr c; c_idt := t; c_idtr := c_idtr c |}) (kidt_init (l_isrs l)) ;;
  _ <- modify (fun c => {| c_board := c_board c; c_tss := c_tss c; c_gdt := c_gdt c; c_gdtr := c_gdtr c;
                           c_tr := c_tr c; c_idt := c_idt c; c_idtr := (limit, l_idt l) |}) ;;
  ret true.

Definition info (s : String.string) : M (computer D) unit := kern (print_info (cstr s)).
Definition succ (s : String.string) : M (computer D) unit := kern (print_succ s).

(** [if (!ok) { kprintferr(msg); hang(); }] *)
Definition require (m : M (computer D) bool) (msg : String.string) : M (computer D) unit :=
  ok <- m ;; if ok : bool then ret tt else kern (fatal msg).

(** The result is the context of the first process. *)
Definition kmain : M (computer D) Z :=
  _ <- succ "Nyvela kernel started." ;;
  _ <- kern klog_ram_data ;;
  _ <- info "Initializing PMM..." ;;
  _ <- require (kern kpmm_init) "PMM initialization failed." ;;
  _ <- succ "PMM ready." ;;
  _ <- kern ktest_palloc ;;
  _ <- info "Initializing VMM..." ;;
  _ <- require (kern kvmm_init) "VMM initialization failed." ;;
  _ <- succ "VMM ready." ;;
  _ <- kern ktest_palloc ;;
  _ <- kern ktest_vmmap ;;
  _ <- info "Initializing kmalloc..." ;;
  _ <- require (kern kmalloc_init) "kmalloc initialization failed." ;;
  _ <- succ "kmalloc ready." ;;
  _ <- kern ktest_kmalloc ;;
  _ <- kern ktest_krealloc ;;
  _ <- require (segments (ktss_init (l_stack_top l) (l_tss l) (l_gdt l))) "Failed to initialize TSS." ;;
  _ <- succ "Initialized TSS." ;;
  _ <- info "Initializing IDT (incl. syscall 0x80)..." ;;
  _ <- require interrupts "IDT initialization failed." ;;
  _ <- succ "IDT ready." ;;
  _ <- device kpic_init ;;
  _ <- succ "Initiliazed PIC." ;;
  _ <- device (kpit_set_freq 1000) ;;
  _ <- succ "Set PIT frequency to 1000 Hz." ;;
  _ <- require (in_board kenable_lapic) "Failed to enable LAPIC." ;;
  _ <- succ "LAPIC enabled." ;;
  _ <- in_board (ksetup_lapic_timer halt waits) ;;
  _ <- succ "LAPIC timer setup complete." ;;
  _ <- device kpic_disable ;;
  _ <- keyboard kbd_init ;;
  _ <- succ "Keyboard ready (IRQ1)." ;;
  _ <- info "Initializing VFS (ramfs at /)..." ;;
  _ <- require (kern vfs_init) "VFS initialization failed." ;;
  _ <- require (in_board (on_machine syscall_init)) "Syscall initialization failed." ;;
  _ <- succ "VFS ready." ;;
  _ <- kern (kload_user_bins (l_blobs l)) ;;
  _ <- succ "User binaries ready (/bin/hello)." ;;
  _ <- kern (ktest_vfs (l_stack_buf l)) ;;
  _ <- in_board (on_machine (ktest_syscall call_halt waits (l_syscall_return l) (l_frame l) (l_regs l))) ;;
  kern kuserspace_init.
End Boot.
