(* ===== verification/Calls.v ===== *)
(** * What the system calls do

    The theorems about the handlers of [Syscall], and about the recovery from a
    fault of a user thread, which uses their helpers. *)

From S2P Require Import Prelude State Console Utils Mem Pmm Heap Objects Dma Thread Sched Ipc Ports Kbd.
From S2P Require Import Ramfs Vmm As Paging User Syscall Fault.
From stdpp Require Import strings.
#[local] Open Scope Z_scope.

(** ** Removal of a thread from the table *)

Definition remove_first (t : Z) (ts : list Z) : list Z :=
  match list_find (fun x => x = t) ts with Some (i, _) => delete i ts | None => ts end.

(** The table at [tb] holds the entries [f]; nothing else differs from [o]. *)
Record table_moved (o o' : objs_t) (tb : Z) (f : Z -> option Z) (n : Z) : Prop := {
  tm_thread : o_thread o' = o_thread o;
  tm_others a : a <> tb -> same_obj a o o';
  tm_entry i : 0 <= i < n -> arr_ptr o' !! (tb, i) = f i
}.

Lemma shift_loop_run k ts i :
  table_rep k ts -> (i < length ts)%nat ->
  exists o, for_range (trips (Z.of_nat i) (threads_length (k_sched k) - 1)) (Z.of_nat i) (fun j =>
      q <- load_ptr (threads (k_sched k)) (j + 1) ;; store_ptr (threads (k_sched k)) j q) k
    = Ret tt (with_obj o k)
  /\ table_moved (k_obj k) o (threads (k_sched k)) (fun j => delete i ts !! Z.to_nat j) (Z.of_nat (length ts) - 1).
Proof.
  intros Ht Hi. set (tb := threads (k_sched k)). pose proof (tb_length _ _ Ht) as Hlen. rewrite Hlen.
  set (n := Z.of_nat (length ts)) in *. set (g := fun j l => if decide (Z.of_nat i <= l < j) then ts !! Z.to_nat (l + 1) else ts !! Z.to_nat l).
  destruct (for_range_inv (fun j s => exists o, s = with_obj o k /\ table_moved (k_obj k) o tb (g j) n)
    (fun j => q <- load_ptr tb (j + 1) ;; store_ptr tb j q) (trips (Z.of_nat i) (n - 1)) (Z.of_nat i) k)
    as (s & R & o & -> & Hm).
  - exists (k_obj k). split; [by destruct k|]. split; [done|done|]. intros l Hl. unfold g.
    rewrite decide_False by lia. destruct (lookup_lt_is_Some_2 ts (Z.to_nat l)) as [x Hx]; [lia|].
    rewrite Hx. pose proof (tb_entry _ _ Ht (Z.to_nat l) x Hx) as E. by rewrite Z2Nat.id in E by lia.
  - intros j s Hj (o & -> & Hm). rewrite trips_max in Hj.
    destruct (lookup_lt_is_Some_2 ts (Z.to_nat (j + 1))) as [x Hx]; [lia|].
    assert (Hl : arr_ptr o !! (tb, j + 1) = Some x).
    { rewrite (tm_entry _ _ _ _ _ Hm) by lia. unfold g. by rewrite decide_False by lia. }
    eexists. rewrite (bind_run _ _ _ x (with_obj o k)) by (by apply load_ptr_run). split; [reflexivity|].
    exists (put_ptr tb j x o). split; [done|]. split; [by apply Hm| |].
    + intros a Ha. etrans; [by apply (tm_others _ _ _ _ _ Hm)|]. by apply same_obj_put_ptr.
    + intros l Hl'. cbn [put_ptr arr_ptr]. destruct (decide (l = j)) as [->|Hne].
      * rewrite lookup_insert_eq. unfold g. rewrite decide_True by lia. by rewrite Hx.
      * rewrite lookup_insert_ne by congruence. rewrite (tm_entry _ _ _ _ _ Hm) by done. unfold g.
        destruct (decide (Z.of_nat i <= l < j)); [by rewrite decide_True by lia|by rewrite decide_False by lia].
  - exists o. split; [done|]. split; [apply Hm|apply Hm|]. intros l Hl. rewrite (tm_entry _ _ _ _ _ Hm) by lia.
    unfold g. rewrite trips_max. destruct (Z.lt_ge_cases l (Z.of_nat i)).
    + rewrite decide_False by lia. by rewrite list_lookup_delete_lt by lia.
    + rewrite decide_True by lia. rewrite list_lookup_delete_ge by lia. f_equal. lia.
Qed.

(** The state after the removal. *)
Definition removed (k k' : kstate) (ts : list Z) (t : Z) : Prop :=
  table_rep k' (remove_first t ts)
  /\ (exists o n, k' = with_sched (set_length n (k_sched k)) (with_obj o k))
  /\ o_thread (k_obj k') = o_thread (k_obj k)
  /\ (forall a, a <> threads (k_sched k) -> same_obj a (k_obj k) (k_obj k')).

Lemma remove_scan k ts t :
  table_rep k ts ->
  find_up (fun i => match ts !! Z.to_nat i with Some x => x =? t | None => false end)
    (trips 0 (threads_length (k_sched k))) 0 = (fun p => Z.of_nat p.1) <$> list_find (fun x => x = t) ts.
Proof.
  intros Ht. rewrite (trips_length ts) by apply Ht. destruct (list_find _ ts) as [[i x]|] eqn:E; cbn [fmap option_fmap option_map fst].
  - apply list_find_Some in E as (Hx & -> & Hmin). apply find_up_Some. rewrite Nat2Z.id, Hx, Z.eqb_refl.
    pose proof (lookup_lt_Some _ _ _ Hx). split_and!; [lia|lia|done|]. intros l Hl.
    destruct (ts !! Z.to_nat l) as [y|] eqn:Ey; [|done]. apply Z.eqb_neq. apply (Hmin (Z.to_nat l)); [done|lia].
  - apply find_up_None. intros l Hl. destruct (ts !! Z.to_nat l) as [y|] eqn:Ey; [|done]. apply Z.eqb_neq.
    apply list_find_None in E. rewrite list.Forall_forall in E. apply (E y). by eapply list_elem_of_lookup_2.
Qed.

Lemma remove_thread_run k ts t :
  table_rep k ts -> exists k', remove_thread t k = Ret tt k' /\ removed k k' ts t.
Proof.
  intros Ht. unfold remove_thread. cbn [bind gets]. unfold removed, remove_first. pose proof (remove_scan k ts t Ht) as Hscan.
  set (hit := fun i : Z => (_ <- for_range (trips i (threads_length (k_sched k) - 1)) i (fun j =>
      q <- load_ptr (threads (k_sched k)) (j + 1) ;; store_ptr (threads (k_sched k)) j q) ;;
    _ <- upd_sched (set_length (threads_length (k_sched k) - 1)) ;; ret (Some tt)) : kernel (option unit)).
  unfold bind at 1. rewrite (for_until_scan (fun i => match ts !! Z.to_nat i with Some x => x =? t | None => false end) hit);
    [rewrite Hscan| |].
  - destruct (list_find _ ts) as [[i x]|] eqn:E; cbn [fmap option_fmap option_map fst].
    + apply list_find_Some in E as (Hx & -> & _). pose proof (lookup_lt_Some _ _ _ Hx) as Hlt.
      destruct (shift_loop_run k ts i Ht Hlt) as (o & R & Hm). unfold hit. rewrite (bind_run _ _ _ _ _ R).
      eexists. split; [reflexivity|]. pose proof (tb_length _ _ Ht) as Hlen. pose proof (tb_fits _ _ Ht).
      split; [split; cbn [k_sched with_sched with_obj set_length threads threads_length threads_cap k_obj]|].
      * rewrite length_delete by (by eexists). lia.
      * apply Ht.
      * lia.
      * apply Ht.
      * intros Hc. apply (tb_live _ _ Ht Hc).
      * intros j y Hj. pose proof (lookup_lt_Some _ _ _ Hj) as Hjl. rewrite length_delete in Hjl by (by eexists).
        rewrite (tm_entry _ _ _ _ _ Hm) by lia. by rewrite Nat2Z.id.
      * split; [by eexists _, _|]. split; [apply Hm|apply Hm].
    + exists k. split; [done|]. split; [done|]. split; [|done]. exists (k_obj k), (threads_length (k_sched k)).
      by destruct k as [? ? ? ? ? ? ? ? [] ? ? ? ?].
  - intros j Hj. rewrite trips_max in Hj. pose proof (tb_length _ _ Ht).
    destruct (lookup_lt_is_Some_2 ts (Z.to_nat j)) as [x Hx]; [lia|].
    rewrite (bind_run _ _ _ x k); [rewrite Hx; by destruct (x =? t)|].
    apply load_ptr_run. pose proof (tb_entry _ _ Ht _ _ Hx) as E. by rewrite Z2Nat.id in E by lia.
  - intros j Hj Hp. rewrite trips_max in Hj. pose proof (tb_length _ _ Ht).
    destruct (shift_loop_run k ts (Z.to_nat j) Ht) as (o & R & _); [lia|]. rewrite Z2Nat.id in R by lia.
    unfold hit. rewrite (bind_run _ _ _ _ _ R). by do 2 eexists.
Qed.

(** ** SYS_FREE_THREAD *)

(** [t] and what it owns, in a state after its entry left the table. *)
Lemma thread_rep_removed k k' ts x ta t c q l :
  removed k k' ts x -> threads (k_sched k) ∉ thread_blocks ta t q l ->
  thread_rep k ta t c q l -> thread_rep k' ta t c q l.
Proof.
  intros (_ & (o & n & ->) & Hth & Hobj) Hn [H1 H2 H3 [Q1 Q2 Q3 Q4 Q5] H5 H6 H7].
  unfold thread_blocks in Hn. rewrite !not_elem_of_cons in Hn. destruct Hn as (N1 & N2 & N3 & N4 & N5).
  destruct (Hobj (t_context t)) as (_ & Ec & _); [done|]. destruct (Hobj (t_queue t)) as (_ & _ & Eq & _); [done|].
  destruct (Hobj (q_queue q)) as (_ & _ & _ & _ & _ & _ & _ & Em); [done|].
  split; try done.
  - by rewrite Hth.
  - by rewrite Ec.
  - by rewrite Eq.
  - split; try done. intros i m Hi. rewrite Em. by apply Q5.
Qed.

Lemma sys_free_thread_run k ts f me :
  mem_ok k -> run_queue k ts -> current_thread (k_sched k) <> NULL ->
  o_thread (k_obj k) !! current_thread (k_sched k) = Some me ->
  let target := List.find (has_tid k (f_rdi f)) ts in
  (f_rdi f = 0 \/ f_rdi f = t_tid me \/ target = None -> sys_free_thread f k = Ret (err VFS_ERR_INVAL) k)
  /\ (forall ta t c q l, f_rdi f <> 0 -> f_rdi f <> t_tid me -> target = Some ta ->
        thread_rep k ta t c q l -> threads (k_sched k) ∉ thread_blocks ta t q l ->
        exists k', sys_free_thread f k = Ret 0 k' /\ mem_ok k' /\ table_rep k' (remove_first ta ts)
          /\ forall a, is_live k' a <-> is_live k a /\ a ∉ thread_blocks ta t q l).
Proof.
  intros Hok Hq Hcur Hme target. unfold sys_free_thread. cbn [bind gets].
  rewrite (proj2 (Z.eqb_neq (current_thread (k_sched k)) NULL) Hcur), orb_false_r.
  assert (Hbad : (if f_rdi f =? 0 then ret true else
      t <- load_thread (current_thread (k_sched k)) ;; ret (f_rdi f =? t_tid t)) k
    = Ret ((f_rdi f =? 0) || (f_rdi f =? t_tid me)) k).
  { destruct (f_rdi f =? 0); [done|]. by rewrite (bind_run _ _ _ _ _ (load_thread_run _ _ _ Hme)). }
  rewrite (bind_run _ _ _ _ _ Hbad).
  assert (Hfind := find_thread_run k ts (f_rdi f) Hq). fold target in Hfind. split.
  - intros H. destruct ((f_rdi f =? 0) || (f_rdi f =? t_tid me)) eqn:E; [reflexivity|].
    apply orb_false_iff in E as [E1%Z.eqb_neq E2%Z.eqb_neq]. destruct H as [|[|H]]; [done|done|].
    rewrite (bind_run _ _ _ _ _ Hfind), H. done.
  - intros ta t c q l H1 H2 Hta Hrep Htb.
    rewrite (proj2 (Z.eqb_neq _ _) H1), (proj2 (Z.eqb_neq _ _) H2). cbn [orb].
    rewrite (bind_run _ _ _ _ _ Hfind), Hta. change (default NULL (Some ta)) with ta.
    destruct (tr_parts _ _ _ _ _ _ Hrep) as (Hlive & _).
    rewrite (proj2 (Z.eqb_neq ta NULL)) by by eapply live_nonnull.
    destruct (remove_thread_run k ts ta (rq_table _ _ Hq)) as (k1 & R & Hrem). rewrite (bind_run _ _ _ _ _ R).
    pose proof (thread_rep_removed _ _ _ _ _ _ _ _ _ Hrem Htb Hrep) as Hrep1.
    destruct Hrem as (Htab & (o & n & Hk1) & _ & _).
    assert (Hok1 : mem_ok k1) by (rewrite Hk1; by apply mem_ok_sched, mem_ok_obj).
    destruct (free_thread_run k1 ta t c q l Hok1 Hrep1) as (k2 & R2 & He & Ho & Hs). rewrite (bind_run _ _ _ _ _ R2).
    exists k2. split; [done|]. split; [apply He|]. split.
    + eapply (table_ext _ _ _ _ _ _ He); [by rewrite Hs..| |done].
      rewrite elem_of_list_to_set. by rewrite Hk1.
    + intros a. rewrite (ex_live _ _ _ _ _ He), elem_of_list_to_set. rewrite Hk1.
      split; [intros [?|H]; [set_solver|exact H]|by right].
Qed.

(** ** SYS_MAP_MMIO *)

(** The calling thread and the root of its page tables. *)
Record caller (k : kstate) (me : thread_t) (c : context_t) : Prop := {
  ca_current : current_thread (k_sched k) <> NULL;
  ca_thread : o_thread (k_obj k) !! current_thread (k_sched k) = Some me;
  ca_context : t_context me <> NULL;
  ca_regs : o_context (k_obj k) !! t_context me = Some c
}.

Lemma current_context_run k me c : caller k me c -> current_context k = Ret (t_context me) k.
Proof. intros [_ H _ _]. unfold current_context. cbn [bind gets]. by rewrite (bind_run _ _ _ _ _ (load_thread_run _ _ _ H)). Qed.

Lemma current_cr3_run k me c : caller k me c -> current_cr3 k = Ret (c_cr3 c) k.
Proof.
  intros H. unfold current_cr3. rewrite (bind_run _ _ _ _ _ (current_context_run k me c H)).
  by rewrite (bind_run _ _ _ _ _ (load_context_run _ _ _ (ca_regs _ _ _ H))).
Qed.

Lemma no_context_run k me c : caller k me c -> no_context k = Ret false k.
Proof.
  intros H. unfold no_context. cbn [bind gets]. rewrite (proj2 (Z.eqb_neq _ _) (ca_current _ _ _ H)).
  rewrite (bind_run _ _ _ _ _ (current_context_run k me c H)). by rewrite (proj2 (Z.eqb_neq _ _) (ca_context _ _ _ H)).
Qed.

(** A caller is seen through the scheduler and the objects only. *)
Lemma caller_frame k k' me c : k_sched k' = k_sched k -> k_obj k' = k_obj k -> caller k me c -> caller k' me c.
Proof. intros Hs Ho [H1 H2 H3 H4]. split; rewrite ?Hs, ?Ho; done. Qed.

Lemma mapped_frame k k' pml4 virt e : mapped k k' pml4 virt e -> k_sched k' = k_sched k /\ k_obj k' = k_obj k.
Proof. intros M. destruct (mp_state _ _ _ _ _ M) as (q & m & ->). unfold flushed. by destruct (_ =? _). Qed.

(** The requests that are served. *)
Record mmio_allowed (k : kstate) (pml4 virt phys pages : Z) : Prop := {
  ma_pages : 1 <= pages <= 256;
  ma_aligned : virt mod 4096 = 0 /\ phys mod 4096 = 0;
  ma_window : USER_MMIO_MIN <= virt /\ virt + pages * 4096 <= USER_MMIO_MAX;
  ma_phys : phys + pages * 4096 < 2 ^ 64;
  ma_free i : 0 <= i < pages -> ~ normal_ram k (phys + i * 4096) /\ mapping (k_mem k) pml4 (virt + i * 4096) = None
}.

Lemma both_aligned a b : Z.land (Z.lor a b) 0xFFF = 0 <-> a mod 4096 = 0 /\ b mod 4096 = 0.
Proof. rewrite Z.land_lor_distr_l, Z.lor_eq_0_iff, !land_offset. done. Qed.

Lemma bad_range_run virt phys pages :
  0 <= virt < 2 ^ 64 -> 0 <= phys < 2 ^ 64 -> 1 <= pages <= 256 ->
  bad_mmio_range virt phys pages = false <->
  (USER_MMIO_MIN <= virt /\ virt + pages * 4096 <= USER_MMIO_MAX) /\ phys + pages * 4096 < 2 ^ 64.
Proof.
  intros Hv Hp Hn. unfold bad_mmio_range, USER_MMIO_MIN, USER_MMIO_MAX. change 0x1000 with 4096.
  assert (Hw : forall x, 0 <= x < 2 ^ 64 -> x + pages * 4096 < 2 ^ 64 /\ u64 (x + pages * 4096) = x + pages * 4096
     \/ 2 ^ 64 <= x + pages * 4096 /\ u64 (x + pages * 4096) = x + pages * 4096 - 2 ^ 64).
  { intros x Hx. destruct (Z.lt_ge_cases (x + pages * 4096) (2 ^ 64)); [left|right]; (split; [done|]).
    - apply u64_small. lia.
    - unfold u64. symmetry. apply (Z.mod_unique_pos _ _ 1); lia. }
  destruct (Hw virt Hv) as [[? ->]|[? ->]], (Hw phys Hp) as [[? ->]|[? ->]];
    rewrite !orb_false_iff, !Z.ltb_ge; lia.
Qed.

Lemma nth_page_run a i n : 0 <= a -> a + n * 4096 < 2 ^ 64 -> 0 <= i < n -> nth_page a i = a + i * 4096.
Proof. intros Ha Hn Hi. unfold nth_page. change 0x1000 with 4096. apply u64_small. lia. Qed.

Lemma mmio_refused_run k me c virt phys pages :
  caller k me c -> mmap_ok (k_pmm k) -> pt_ok k (page_base (c_cr3 c)) ->
  0 <= virt -> 0 <= phys -> 1 <= pages -> virt + pages * 4096 < 2 ^ 64 -> phys + pages * 4096 < 2 ^ 64 ->
  exists r, mmio_refused virt phys pages k = Ret r k
  /\ (r = false <-> forall i, 0 <= i < pages ->
        ~ normal_ram k (phys + i * 4096) /\ mapping (k_mem k) (c_cr3 c) (virt + i * 4096) = None).
Proof.
  intros Hc Hmm Hpt Hv Hp Hn Hv' Hp'. unfold mmio_refused.
  assert (Hram : forall i, exists r, kis_normal_ram (phys + i * 4096) k = Ret r k /\ (r = true <-> normal_ram k (phys + i * 4096)))
    by (intros i; by apply kis_normal_ram_run).
  set (ram := fun i => match kis_normal_ram (phys + i * 4096) k with Ret r _ => r | _ => false end).
  set (stop := fun i => ram i || match mapping (k_mem k) (c_cr3 c) (virt + i * 4096) with Some _ => true | None => false end).
  assert (Hstop : forall i, stop i = false <-> ~ normal_ram k (phys + i * 4096) /\ mapping (k_mem k) (c_cr3 c) (virt + i * 4096) = None).
  { intros i. unfold stop, ram. destruct (Hram i) as (r & -> & Hr). rewrite orb_false_iff.
    assert (H : r = false <-> ~ normal_ram k (phys + i * 4096)) 
      by (destruct r; [split; [discriminate|intros Hx; destruct Hx; by apply Hr]|split; [intros _ Hx; apply Hr in Hx; discriminate|done]]).
    rewrite H. destruct (mapping _ _ _); split; intros [? ?]; done. }
  unfold bind at 1. rewrite (for_until_scan stop (fun _ s => Ret (Some tt) s)).
  - destruct (find_up _ _ _) as [i|] eqn:E; (eexists; split; [reflexivity|]).
    + apply find_up_Some in E as (Hi & Hs & _). rewrite trips_max in Hi. split; [done|]. intros H.
      specialize (H i ltac:(lia)). apply Hstop in H. congruence.
    + split; [|done]. intros _ i Hi. apply Hstop. pose proof (proj1 (find_up_None _ _ _) E i) as Hf. rewrite trips_max in Hf.
      apply Hf. lia.
  - intros i Hi. rewrite trips_max in Hi. rewrite (bind_run _ _ _ _ _ (current_cr3_run k me c Hc)).
    rewrite (nth_page_run virt i pages), (nth_page_run phys i pages) by lia.
    rewrite (bind_run _ _ _ _ _ (kget_pte_addr_at_run k (c_cr3 c) (virt + i * 4096))).
    unfold stop, ram. destruct (Hram i) as (r & R & _). rewrite (bind_run _ _ _ _ _ R), R.
    destruct r; [done|]. cbn [orb]. destruct (leaf_addr_table k (c_cr3 c) (virt + i * 4096) Hpt) as [[-> Hnt]|(t & Ht & Ha & Hne)].
    + unfold mapping. rewrite Hnt. done.
    + rewrite (proj2 (Z.eqb_neq _ _) Hne), Ha, (mapping_leaf _ _ _ _ Ht), load64_bind. unfold entry_opt. by destruct (present _).
  - intros i _ _. by do 2 eexists.
Qed.

(** The first [n] pages of the request are mapped. *)
Record mmio_mapped (k k' : kstate) (pml4 virt phys n : Z) : Prop := {
  mm_frame : k_sched k' = k_sched k /\ k_obj k' = k_obj k;
  mm_mem : mem_ok k';
  mm_pt : pt_ok k' (page_base pml4);
  mm_in i v : 0 <= i < n -> same_page v (virt + i * 4096) -> mapping (k_mem k') pml4 v = Some (Z.lor (phys + i * 4096) 0x1F);
  mm_out v : (forall i, 0 <= i < n -> ~ same_page v (virt + i * 4096)) -> mapping (k_mem k') pml4 v = mapping (k_mem k) pml4 v;
  mm_free g : k_free k' g = true -> k_free k g = true;
  mm_tables g : table_frame (k_mem k') (page_base pml4) g -> table_frame (k_mem k) (page_base pml4) g \/ k_free k g = true;
  mm_bytes a : k_free k (a / 4096) = false -> ~ table_frame (k_mem k) (page_base pml4) (a / 4096) ->
    rd8 (k_mem k') a = rd8 (k_mem k) a
}.

Lemma mmio_step k k1 k2 pml4 virt phys n :
  0 <= virt -> virt + (n + 1) * 4096 <= 2 ^ 48 -> 0 <= phys -> phys mod 4096 = 0 -> 0 <= n ->
  mmio_mapped k k1 pml4 virt phys n -> mapped k1 k2 pml4 (virt + n * 4096) (Z.lor (page_base (phys + n * 4096)) 0x1F) ->
  mmio_mapped k k2 pml4 virt phys (n + 1).
Proof.
  intros Hv Hmax Hp Hal Hn P M. rewrite page_base_aligned in M by div_lia.
  assert (He : entry_opt (Z.lor (phys + n * 4096) 0x1F) = Some (Z.lor (phys + n * 4096) 0x1F))
    by (unfold entry_opt; by rewrite present_lor, orb_true_r).
  destruct (mapped_frame _ _ _ _ _ M) as [Hs Ho]. destruct (mm_frame _ _ _ _ _ _ P) as [Hs1 Ho1].
  split.
  - by rewrite Hs, Ho.
  - apply M.
  - apply M.
  - intros i v Hi Hsame. rewrite (mp_map _ _ _ _ _ M), He. destruct (decide (same_page v (virt + n * 4096))) as [Hs'|Hs'].
    + assert (i = n) as ->; [|done].
      assert (E : same_page (virt + i * 4096) (virt + n * 4096))
        by (destruct Hsame, Hs'; split; congruence).
      apply same_page_div in E; [|lia|lia]. div_lia.
    + apply (mm_in _ _ _ _ _ _ P); [|done]. destruct (Z.eq_dec i n) as [->|]; [done|lia].
  - intros v Hv'. rewrite (mp_map _ _ _ _ _ M), decide_False by (apply Hv'; lia). apply (mm_out _ _ _ _ _ _ P). intros i Hi. apply Hv'. lia.
  - intros g Hg. by apply (mm_free _ _ _ _ _ _ P), (mp_free _ _ _ _ _ M).
  - intros g (q & t & Hq & Ht & <-). apply (mp_new _ _ _ _ _ M) in Ht as [Ht|Hf]; [| |done].
    + apply (mm_tables _ _ _ _ _ _ P). by exists q, t.
    + right. by apply (mm_free _ _ _ _ _ _ P).
  - intros a Ha Hnt. etrans; [apply (mp_bytes _ _ _ _ _ M)|by apply (mm_bytes _ _ _ _ _ _ P)].
    + destruct (k_free k1 (a / 4096)) eqn:E; [|done]. apply (mm_free _ _ _ _ _ _ P) in E. congruence.
    + intros [H|H]%(mm_tables _ _ _ _ _ _ P); [done|congruence].
Qed.

(** ** Reads of user memory *)

(** The bytes at a user address, when every page is mapped. *)
Fixpoint user_bytes (m : gmap Z Z) (pml4 va : Z) (n : nat) : option (list Z) :=
  match n with
  | O => Some []
  | S n =>
      match translate m pml4 va, user_bytes m pml4 (va + 1) n with
      | Some a, Some bs => Some (rd8 m a :: bs)
      | _, _ => None
      end
  end.

Lemma load_virt_run k va :
  match translate (k_mem k) (cr3 (k_cpu k)) va with
  | Some a => load_virt va k = Ret (rd8 (k_mem k) a) k
  | None => exists k', load_virt va k = Hang k'
  end.
Proof. unfold load_virt. cbn [bind gets id]. destruct (translate _ _ _); [done|]. by eexists. Qed.

Lemma read_virt_run k n va :
  match user_bytes (k_mem k) (cr3 (k_cpu k)) va n with
  | Some bs => read_virt n va k = Ret bs k
  | None => exists k', read_virt n va k = Hang k'
  end.
Proof.
  revert va. induction n as [|n IH]; intros va; [done|]. cbn [user_bytes read_virt].
  pose proof (load_virt_run k va) as H. destruct (translate _ _ va) as [a|].
  - rewrite (bind_run _ _ _ _ _ H). specialize (IH (va + 1)). destruct (user_bytes _ _ _ n) as [bs|].
    + by rewrite (bind_run _ _ _ _ _ IH).
    + destruct IH as [k' E]. exists k'. by rewrite (bind_hang _ _ _ _ E).
  - destruct H as [k' E]. exists k'. by rewrite (bind_hang _ _ _ _ E).
Qed.

Lemma length_user_bytes m pml4 va n bs : user_bytes m pml4 va n = Some bs -> length bs = n.
Proof.
  revert va bs. induction n as [|n IH]; intros va bs; cbn [user_bytes]; [by intros [= <-]|].
  destruct (translate _ _ _); [|done]. destruct (user_bytes _ _ _ n) as [bs'|] eqn:E; [|done].
  intros [= <-]. cbn. f_equal. by apply (IH (va + 1)).
Qed.

(** ** Calls that go through a heap buffer *)

(** Nothing but free heap space, and what [f] says of the console, is different. *)
Record buffered (k k' : kstate) (c : con_t) : Prop := {
  bf_ok : mem_ok k';
  bf_live : live k' = live k;
  bf_con : k_con k' = c;
  bf_mem : k_mem k' = k_mem k;
  bf_cpu : k_cpu k' = k_cpu k;
  bf_sched : k_sched k' = k_sched k;
  bf_objs : objs_frame k k'
}.

(** The state between the allocation and the release of the buffer [p]. *)
Record holding (k k' : kstate) (p len : Z) (bs : list Z) : Prop := {
  hd_ok : mem_ok k';
  hd_live : exists c, len <= c /\ live k' = <[p - sizeof_block_t := c]> (live k);
  hd_fresh : ~ is_live k p;
  hd_null : p <> NULL;
  hd_bytes : o_bytes (k_obj k') !! p = Some bs;
  hd_con : k_con k' = k_con k;
  hd_mem : k_mem k' = k_mem k;
  hd_cpu : k_cpu k' = k_cpu k;
  hd_sched : k_sched k' = k_sched k;
  hd_objs : objs_frame k k'
}.

Lemma kmalloc_buf_run k len :
  mem_ok k -> 0 <= len ->
  kmalloc_buf len k = Ret NULL k
  \/ exists p k', kmalloc_buf len k = Ret p k' /\ holding k k' p len (replicate (Z.to_nat len) 0).
Proof.
  intros Hok Hlen. unfold kmalloc_buf. destruct (kmalloc_step k len Hok Hlen) as [H|(p & k1 & H & Ha)].
  { left. by rewrite (bind_run _ _ _ _ _ H). }
  right. rewrite (bind_run _ _ _ _ _ H), (proj2 (Z.eqb_neq p NULL)) by apply Ha.
  exists p. eexists. split; [reflexivity|]. destruct Ha as [A1 (h & q & ->) A3 A4 A5 A6].
  split; try done; cbn [k_obj with_obj put_bytes o_bytes].
  - apply lookup_insert_eq.
  - intros a Hal. apply same_obj_put_bytes. intros ->. done.
Qed.

Lemma holding_store k k' p len bs bs' :
  holding k k' p len bs -> exists k2, store_bytes p bs' k' = Ret tt k2 /\ holding k k2 p len bs'.
Proof.
  intros [H1 H2 H3 H4 H5 H6 H7 H8 H9 H10]. eexists. split; [reflexivity|].
  split; try done; cbn [k_obj with_obj put_bytes o_bytes].
  - apply lookup_insert_eq.
  - intros a Ha. etrans; [by apply H10|]. apply same_obj_put_bytes. intros ->. done.
Qed.

Lemma live_release k k' p c : ~ is_live k p -> live k' = <[p - sizeof_block_t := c]> (live k) -> delete (p - sizeof_block_t) (live k') = live k.
Proof.
  intros Hf ->. apply delete_insert_id. unfold is_live in Hf.
  destruct (live k !! (p - sizeof_block_t)); [|done]. destruct Hf. by eexists.
Qed.

Lemma holding_free k k' p len bs c :
  holding k k' p len bs -> exists k2, kfree p (with_con c k') = Ret tt k2 /\ buffered k k2 c.
Proof.
  intros [H1 (n & Hn & H2) H3 H4 H5 H6 H7 H8 H9 H10].
  assert (Hl : is_live k' p) by (unfold is_live; rewrite H2, lookup_insert_eq; by eexists).
  destruct (kfree_step (with_con c k') p H1 Hl H4) as (k2 & R & [F1 (h & q & Hk2) _ F4]).
  exists k2. split; [done|]. rewrite Hk2 in *. split; try done.
  rewrite F4. by apply (live_release k k' p n).
Qed.

Lemma with_con_id k : with_con (k_con k) k = k.
Proof. by destruct k. Qed.

(** The copy into the buffer: an error, a fault of the kernel, or the bytes. *)
Lemma copy_from_user_run k k' p len bs uaddr :
  holding k k' p len bs -> 0 < len ->
  (user_range_ok uaddr len = false /\ copy_from_user uaddr p len k' = Ret (-1) k')
  \/ (user_range_ok uaddr len = true /\
      match user_bytes (k_mem k) (cr3 (k_cpu k)) uaddr (Z.to_nat len) with
      | Some bs' => exists k2, copy_from_user uaddr p len k' = Ret 0 k2 /\ holding k k2 p len bs'
      | None => exists k2, copy_from_user uaddr p len k' = Hang k2
      end).
Proof.
  intros H Hlen. unfold copy_from_user. rewrite (proj2 (Z.eqb_neq len 0)) by lia.
  rewrite (proj2 (Z.eqb_neq p NULL)) by apply H.
  destruct (user_range_ok uaddr len); cbn [negb]; [right|by left]. split; [done|].
  pose proof (read_virt_run k' (Z.to_nat len) uaddr) as R. rewrite (hd_mem _ _ _ _ _ H), (hd_cpu _ _ _ _ _ H) in R.
  destruct (user_bytes _ _ _ _) as [bs'|].
  - rewrite (bind_run _ _ _ _ _ R). destruct (holding_store _ _ _ _ _ bs' H) as (k2 & R2 & H2).
    rewrite (bind_run _ _ _ _ _ R2). by exists k2.
  - destruct R as [k2 R]. exists k2. by rewrite (bind_hang _ _ _ _ R).
Qed.

(** ** SYS_WRITE *)

(** What a served [SYS_WRITE] of [len] bytes at [ubuf] leads to. *)
Definition write_spec (k : kstate) (ubuf len : Z) (o : outcome kstate Z) : Prop :=
  (o = Ret (err VFS_ERR_NOSPACE) k)
  \/ (user_range_ok ubuf len = false
      /\ exists k', o = Ret (err VFS_ERR_INVAL) k' /\ buffered k k' (k_con k))
  \/ (user_range_ok ubuf len = true
      /\ match user_bytes (k_mem k) (cr3 (k_cpu k)) ubuf (Z.to_nat len) with
         | Some bs => exists c k', kwrite (Some bs) 0x0F (k_con k) = Ret tt c /\ o = Ret len k' /\ buffered k k' c
         | None => exists k', o = Hang k'
         end).

Lemma sys_write_run k f :
  mem_ok k -> con_ok (k_con k) -> f_rdi f = 1 \/ f_rdi f = 2 -> 0 < f_rdx f <= SYSCALL_MAX_BUF ->
  write_spec k (f_rsi f) (f_rdx f) (sys_write f k).
Proof.
  intros Hok Hcon Hfd Hlen. unfold sys_write.
  replace (negb (f_rdi f =? 1) && negb (f_rdi f =? 2)) with false by (destruct Hfd as [-> | ->]; done).
  rewrite (proj2 (Z.ltb_ge _ _)) by lia. rewrite (proj2 (Z.eqb_neq (f_rdx f) 0)) by lia.
  destruct (kmalloc_buf_run k (f_rdx f) Hok ltac:(lia)) as [R|(p & k1 & R & H1)]; rewrite (bind_run _ _ _ _ _ R).
  { by left. }
  right. rewrite (proj2 (Z.eqb_neq p NULL)) by apply H1.
  destruct (copy_from_user_run k k1 p (f_rdx f) _ (f_rsi f) H1 ltac:(lia)) as [[Hr R2]|[Hr R2]]; [left|right].
  - split; [done|]. rewrite (bind_run _ _ _ _ _ R2). change (negb (-1 =? 0)) with true. cbv iota.
    destruct (holding_free _ _ _ _ _ (k_con k) H1) as (k2 & R3 & B). 
    rewrite <- (hd_con _ _ _ _ _ H1), with_con_id in R3.
    exists k2. by rewrite (bind_run _ _ _ _ _ R3).
  - split; [done|]. destruct (user_bytes _ _ _ _) as [bs|].
    + destruct R2 as (k2 & R2 & H2). rewrite (bind_run _ _ _ _ _ R2). change (negb (0 =? 0)) with false. cbv iota.
      rewrite (bind_run _ _ _ _ _ (load_bytes_run _ _ _ (hd_bytes _ _ _ _ _ H2))).
      destruct (kwrite_loop_ok bs 0x0F (k_con k) Hcon) as (c & Hc & _).
      change (kwrite (Some bs) 0x0F (k_con k) = Ret tt c) in Hc.
      assert (Rc : on_con (kwrite (Some bs) 0x0F) k2 = Ret tt (with_con c k2)).
      { unfold on_con, zoom. rewrite (hd_con _ _ _ _ _ H2). by rewrite Hc. }
      rewrite (bind_run _ _ _ _ _ Rc). destruct (holding_free _ _ _ _ _ c H2) as (k3 & R3 & B).
      exists c, k3. rewrite (bind_run _ _ _ _ _ R3). by split_and!.
    + destruct R2 as (k2 & R2). exists k2. by rewrite (bind_hang _ _ _ _ R2).
Qed.

(** ** SYS_EXIT *)

Lemma run_queue_put k ts a v : run_queue k ts -> run_queue (with_obj (put_thread a v (k_obj k)) k) ts.
Proof.
  intros [[H1 H2 H3 H4 H5 H6] H7 H8]. split; [by split| |done]. intros t Ht. cbn.
  destruct (H7 t Ht) as [th Hth]. destruct (decide (a = t)) as [->|Hne]; [rewrite lookup_insert_eq; by eexists|].
  rewrite lookup_insert_ne by done. by eexists.
Qed.

(** The choice of the scheduler: a ready thread of the table, or the running one
    when there is none. *)
Lemma next_thread_cases rdy ts cur :
  ts <> [] ->
  (next_thread rdy ts cur ∈ ts /\ rdy (next_thread rdy ts cur) = true)
  \/ (next_thread rdy ts cur = cur /\ forall x, x ∈ ts -> rdy x = false).
Proof.
  intros Hne. unfold next_thread. destruct ts as [|t0 ts0]; [done|]. set (ts := t0 :: ts0) in *.
  assert (Hrot : forall x, x ∈ rotation ts cur <-> x ∈ ts).
  { intros x. unfold rotation. set (n := S (start_index ts cur)).
    transitivity (x ∈ take n ts ++ drop n ts); [rewrite !elem_of_app; tauto|by rewrite take_drop]. }
  destruct (List.find rdy (rotation ts cur)) as [u|] eqn:E.
  - left. apply List.find_some in E as [Hin Hr]. split; [|done]. apply Hrot. by apply list_elem_of_In.
  - right. split; [done|]. intros x Hx. eapply List.find_none; [exact E|]. by apply list_elem_of_In, Hrot.
Qed.

Definition dead_state (k : kstate) (cur code : Z) (me : thread_t) : kstate :=
  with_obj (put_thread cur (set_state THREAD_DEAD code me) (k_obj k)) k.

Lemma ready_dead k cur code me x :
  ready (dead_state k cur code me) x = if decide (x = cur) then false else ready k x.
Proof.
  unfold ready, dead_state. cbn. destruct (decide (x = cur)) as [->|Hne]; [by rewrite lookup_insert_eq|].
  by rewrite lookup_insert_ne.
Qed.

Lemma not_runnable_run k next th :
  o_thread (k_obj k) !! next = Some th -> next <> NULL ->
  not_runnable next k = Ret (negb (ready k next) || (next =? current_thread (k_sched k))) k.
Proof.
  intros Hth Hn. unfold not_runnable, ready. rewrite (proj2 (Z.eqb_neq next NULL)) by done. cbn [bind gets].
  rewrite Hth. destruct (Z.eqb_spec next (current_thread (k_sched k))) as [E|E]; [by rewrite orb_true_r|].
  rewrite (bind_run _ _ _ _ _ (load_thread_run _ _ _ Hth)), orb_false_r.
  by destruct (decide (t_state th = THREAD_READY)), (bool_decide_reflect (t_state th = THREAD_READY)).
Qed.

(** The scheduler's globals after the switch to [next]. *)
Definition switched (next : Z) (th : thread_t) (s : sched_t) : sched_t :=
  let s := set_current next s in
  if t_kernel_stack th =? NULL then s else set_rsp0 (u64 (t_kernel_stack th + 8192)) s.

Lemma switch_to_run k next th :
  o_thread (k_obj k) !! next = Some th ->
  switch_to next k = Ret (t_context th) (with_sched (switched next th (k_sched k)) k).
Proof.
  intros Hth. unfold switch_to.
  assert (U : upd_sched (set_current next) k = Ret tt (with_sched (set_current next (k_sched k)) k)) by done.
  assert (L : load_thread next (with_sched (set_current next (k_sched k)) k)
    = Ret th (with_sched (set_current next (k_sched k)) k)) by (by apply load_thread_run).
  rewrite (bind_run _ _ _ _ _ U), (bind_run _ _ _ _ _ L). unfold switched. by destruct (_ =? _).
Qed.

Lemma sys_exit_run k ts me f :
  run_queue k ts -> current_thread (k_sched k) <> NULL ->
  o_thread (k_obj k) !! current_thread (k_sched k) = Some me ->
  let cur := current_thread (k_sched k) in
  let k1 := dead_state k cur (f_rdi f) me in
  ((forall t, t ∈ ts -> t <> cur -> ready k t = false) -> exists k', sys_exit f k = Hang k')
  /\ ((exists t, t ∈ ts /\ t <> cur /\ ready k t = true) ->
        exists next th, next ∈ ts /\ next <> cur /\ ready k next = true /\ o_thread (k_obj k) !! next = Some th
          /\ sys_exit f k = Ret (t_context th) (with_sched (switched next th (k_sched k1)) k1)).
Proof.
  intros Hq Hcur Hme cur k1. unfold sys_exit. cbn [bind gets]. fold cur.
  rewrite (proj2 (Z.eqb_neq cur NULL)) by done. rewrite (bind_run _ _ _ _ _ (load_thread_run _ _ _ Hme)).
  assert (Hst : store_thread cur (set_state THREAD_DEAD (f_rdi f) me) k = Ret tt k1) by done.
  rewrite (bind_run _ _ _ _ _ Hst).
  assert (Hq1 : run_queue k1 ts) by by apply run_queue_put.
  rewrite (bind_run _ _ _ _ _ (scheduler_next_run k1 ts Hq1)). change (current_thread (k_sched k1)) with cur.
  assert (Hstop : forall B (g : bool -> kernel B) next, next = NULL \/ ready k1 next = false ->
    (next = NULL \/ is_Some (o_thread (k_obj k1) !! next)) -> bind (not_runnable next) g k1 = g true k1).
  { intros B g next H H'. destruct (decide (next = NULL)) as [->|Hn]; [done|].
    destruct H as [|H]; [done|]. destruct H' as [|[th Hth]]; [done|].
    rewrite (bind_run _ _ _ _ _ (not_runnable_run _ _ _ Hth Hn)). by rewrite H. }
  split.
  - intros Hnone. rewrite Hstop.
    + destruct (print_err_run "sys_exit: no runnable thread." k1) as (c & Hc). rewrite (bind_run _ _ _ _ _ Hc). by eexists.
    + destruct ts as [|t0 ts0]; [by left|right].
      destruct (next_thread_cases (ready k1) (t0 :: ts0) cur ltac:(done)) as [[Hin Hr]|[-> _]].
      * unfold k1 in Hr at 1. rewrite ready_dead in Hr. case_decide; [done|]. by rewrite Hnone in Hr.
      * unfold k1. rewrite ready_dead. by rewrite decide_True.
    + destruct ts as [|t0 ts0]; [by left|right].
      destruct (next_thread_cases (ready k1) (t0 :: ts0) cur ltac:(done)) as [[Hin _]|[-> _]].
      * by apply (rq_thread _ _ Hq1).
      * unfold k1, dead_state. cbn. rewrite lookup_insert_eq. by eexists.
  - intros (t & Ht & Hne & Hr). destruct (next_thread_cases (ready k1) ts cur) as [[Hin Hrn]|[_ Hnone]].
    + intros E. rewrite E in Ht. by apply elem_of_nil in Ht.
    + set (next := next_thread (ready k1) ts cur) in *. unfold k1 in Hrn. rewrite ready_dead in Hrn. case_decide as Hnc; [done|].
      destruct (rq_thread _ _ Hq next Hin) as [th Hth]. exists next, th. split_and!; try done.
      assert (Hth1 : o_thread (k_obj k1) !! next = Some th) by (unfold k1, dead_state; cbn; by rewrite lookup_insert_ne).
      assert (Hnn : next <> NULL) by (intros E; apply (rq_nonnull _ _ Hq); congruence).
      rewrite (bind_run _ _ _ _ _ (not_runnable_run k1 next th Hth1 Hnn)).
      unfold k1 at 1. rewrite ready_dead, decide_False, Hrn by done.
      change (current_thread (k_sched k1)) with cur. rewrite (proj2 (Z.eqb_neq next cur)) by done. cbn [negb orb].
      by apply switch_to_run.
    + specialize (Hnone t Ht). unfold k1 in Hnone. rewrite ready_dead, decide_False, Hr in Hnone by done. done.
Qed.

(** ** SYS_READ *)

Lemma kbd_getc_empty k : ring_rep k [] -> kbd_getc k = Ret (-1) k.
Proof.
  intros [Hh Ht Hl _]. unfold kbd_getc. cbn [bind gets id]. cbn in Hl. by rewrite (proj2 (Z.eqb_eq _ _)) by div_lia.
Qed.

Section Keys.
Context {D : Type} `{Ports D} (halt : M (machine D) unit).

(** [n] halts bring the first keys: the keyboard is empty before each of them. *)
Inductive wakes : nat -> machine D -> machine D -> Prop :=
| wake_now s l : ring_rep (m_kbd s) l -> l <> [] -> wakes 0 s s
| wake_later n s s1 s2 :
    ring_rep (m_kbd s) [] -> halt s = Ret tt s1 -> wakes n s1 s2 -> wakes (S n) s s2.

Definition set_kbd (s : machine D) (b : kbd_t) : machine D :=
  {| m_kernel := m_kernel s; m_kbd := b; m_dev := m_dev s |}.

Lemma in_kbd_run {A} (m : M kbd_t A) s r b : m (m_kbd s) = Ret r b -> in_kbd m s = Ret r (set_kbd s b).
Proof. intros R. unfold in_kbd, zoom. by rewrite R. Qed.

Lemma set_kbd_id s : set_kbd s (m_kbd s) = s.
Proof. by destruct s. Qed.

(** What the keyboard has, oldest first, up to [n] bytes. *)
Lemma drain_run n s l :
  ring_rep (m_kbd s) l ->
  exists b, drain n s = Ret (take n l) (set_kbd s b) /\ ring_rep b (drop n l) /\ (l = [] -> b = m_kbd s).
Proof.
  revert s l. induction n as [|n IH]; intros s l Hr; cbn [drain].
  { exists (m_kbd s). rewrite set_kbd_id, take_0, drop_0. by split_and!. }
  destruct l as [|c l].
  - rewrite (bind_run _ _ _ _ _ (in_kbd_run _ s _ _ (kbd_getc_empty _ Hr))). exists (m_kbd s). by split_and!.
  - destruct (kbd_getc_run _ _ Hr) as (b1 & R & Hr1). cbn [spec_step fst snd] in R, Hr1.
    rewrite (bind_run _ _ _ _ _ (in_kbd_run _ s _ _ R)).
    destruct (rg_char _ _ Hr 0%nat c eq_refl) as [_ Hc]. rewrite (proj2 (Z.ltb_ge c 0)) by lia.
    destruct (IH (set_kbd s b1) l Hr1) as (b & R2 & Hr2 & _). rewrite (bind_run _ _ _ _ _ R2).
    exists b. split_and!; [done|done|done].
Qed.

Lemma read_keys_run n s s' fuel len :
  wakes n s s' -> 0 < len -> (n <= fuel)%nat ->
  exists l b, ring_rep (m_kbd s') l /\ l <> []
    /\ read_keys halt fuel len s = Ret (take (Z.to_nat len) l) (set_kbd s' b) /\ ring_rep b (drop (Z.to_nat len) l).
Proof.
  intros Hw Hlen. revert fuel. induction Hw as [s l Hr Hne|n s s1 s2 Hr Hh _ IH]; intros fuel Hf.
  - destruct (drain_run (Z.to_nat len) s l Hr) as (b & R & Hb & _). exists l, b. split_and!; try done.
    destruct l as [|c l]; [done|]. destruct (Z.to_nat len) as [|m] eqn:E; [lia|]. cbn [take] in *.
    destruct fuel; cbn [read_keys]; rewrite E; by rewrite (bind_run _ _ _ _ _ R).
  - destruct fuel as [|fuel]; [lia|].
    destruct (drain_run (Z.to_nat len) s [] Hr) as (b & R & _ & Hb). rewrite (Hb eq_refl), set_kbd_id, take_nil in R.
    destruct (IH fuel ltac:(lia)) as (l & b' & H1 & H2 & H3 & H4). exists l, b'. split_and!; try done.
    cbn [read_keys]. rewrite (bind_run _ _ _ _ _ R). by rewrite (bind_run _ _ _ _ _ Hh).
Qed.
End Keys.

(** ** Faults *)

Lemma remove_first_in x t ts : x ∈ remove_first t ts -> x ∈ ts.
Proof.
  unfold remove_first. destruct (list_find _ ts) as [[i y]|]; [|done]. rewrite delete_take_drop, elem_of_app.
  intros [Hx|Hx]; apply list_elem_of_lookup in Hx as [j Hj].
  - apply lookup_take_Some in Hj as [Hj _]. by eapply list_elem_of_lookup_2.
  - rewrite lookup_drop in Hj. by eapply list_elem_of_lookup_2.
Qed.

Lemma print_run s k : exists c, print s k = Ret tt (with_con c k).
Proof. destruct (kprints_total (cstr s) 0x0F (k_con k)) as (c & H). exists c. unfold print, on_con, zoom. by rewrite H. Qed.
Lemma put_hex64_run v k : exists c, put_hex64 v k = Ret tt (with_con c k).
Proof. destruct (kprints_total (hex64 v) 0x0F (k_con k)) as (c & H). exists c. unfold put_hex64, on_con, zoom. by rewrite H. Qed.
Lemma newline_run k : exists c, newline k = Ret tt (with_con c k).
Proof. destruct (kprintnl_total (k_con k)) as (c & H). exists c. unfold newline, on_con, zoom. by rewrite H. Qed.
Lemma print_reg_run s v k : exists c, print_reg s v k = Ret tt (with_con c k).
Proof.
  unfold print_reg. destruct (print_run s k) as (c1 & R1). rewrite (bind_run _ _ _ _ _ R1).
  destruct (put_hex64_run v (with_con c1 k)) as (c2 & R2). rewrite (bind_run _ _ _ _ _ R2).
  destruct (newline_run (with_con c2 (with_con c1 k))) as (c3 & R3). exists c3. exact R3.
Qed.

Lemma fault_recovery_run k ts t c q l :
  mem_ok k -> run_queue k ts -> thread_rep k (current_thread (k_sched k)) t c q l ->
  threads (k_sched k) ∉ thread_blocks (current_thread (k_sched k)) t q l ->
  let cur := current_thread (k_sched k) in
  let ts' := remove_first cur ts in
  let next := next_thread (ready k) ts' cur in
  ts' <> [] ->
  exists th k', o_thread (k_obj k) !! next = Some th /\ fault_recovery k = Ret (t_context th) k'
    /\ mem_ok k' /\ run_queue k' ts' /\ current_thread (k_sched k') = next
    /\ (forall a, is_live k' a <-> is_live k a /\ a ∉ thread_blocks cur t q l).
Proof.
  intros Hok Hq Hrep Htb cur ts' next Hne. unfold fault_recovery. cbn [bind gets]. fold cur.
  destruct (tr_parts _ _ _ _ _ _ Hrep) as (Hlive & _).
  rewrite (proj2 (Z.eqb_neq cur NULL)) by by eapply live_nonnull.
  destruct (remove_thread_run k ts cur (rq_table _ _ Hq)) as (k1 & R1 & Hrem). rewrite (bind_run _ _ _ _ _ R1).
  pose proof (thread_rep_removed _ _ _ _ _ _ _ _ _ Hrem Htb Hrep) as Hrep1. fold cur in Hrep1.
  destruct Hrem as (Htab & (o & n & Hk1) & Hoth & _). fold ts' in Htab.
  destruct (print_run "Killed thread with ID of " k1) as (c1 & P1). rewrite (bind_run _ _ _ _ _ P1).
  rewrite (bind_run _ _ _ t (with_con c1 k1)) by (apply load_thread_run, (tr_thread _ _ _ _ _ _ Hrep1)).
  destruct (put_hex64_run (t_tid t) (with_con c1 k1)) as (c2 & P2). rewrite (bind_run _ _ _ _ _ P2).
  change (with_con c2 (with_con c1 k1)) with (with_con c2 k1).
  assert (Hok1 : mem_ok (with_con c2 k1)) by (rewrite Hk1; exact Hok).
  assert (Hrep2 : thread_rep (with_con c2 k1) cur t c q l) by (destruct Hrep1 as [? ? ? [? ? ? ? ?] ? ? ?]; by split).
  destruct (free_thread_run _ cur t c q l Hok1 Hrep2) as (k2 & R2 & He & Ho & Hs). rewrite (bind_run _ _ _ _ _ R2).
  assert (Hot : o_thread (k_obj k2) = o_thread (k_obj k)) by (by rewrite Ho; cbn [k_obj with_con]; rewrite Hoth).
  assert (Hcur2 : current_thread (k_sched k2) = cur) by (by rewrite Hs, Hk1).
  assert (Hq2 : run_queue k2 ts').
  { split.
    - apply (table_ext (with_con c2 k1) k2 _ _ _ ts' He); [by rewrite Hs..| |].
      + rewrite elem_of_list_to_set. by rewrite Hk1.
      + destruct Htab. by split.
    - intros x Hx%remove_first_in. rewrite Hot. by apply (rq_thread _ _ Hq).
    - intros Hx%remove_first_in. by apply (rq_nonnull _ _ Hq). }
  assert (Hn2 : next_thread (ready k2) ts' (current_thread (k_sched k2)) = next).
  { rewrite Hcur2. unfold next, ready. by rewrite Hot. }
  assert (Hth : is_Some (o_thread (k_obj k) !! next)).
  { destruct (next_thread_cases (ready k) ts' cur Hne) as [[Hin _]|[E _]].
    - apply (rq_thread _ _ Hq). by eapply remove_first_in.
    - unfold next. rewrite E. exists t. apply Hrep. }
  destruct Hth as [th Hth]. exists th, (tick_state next th k2). split; [done|].
  split; [apply (scheduler_tick_run k2 ts' next th Hq2 Hn2); by rewrite Hot|].
  split; [apply He|]. split; [by apply run_queue_tick|]. split; [done|].
  intros a. change (is_live (tick_state next th k2) a) with (is_live k2 a).
  rewrite (ex_live _ _ _ _ _ He), elem_of_list_to_set, Hk1.
  split; [intros [?|H]; [set_solver|exact H]|by right].
Qed.

Lemma put_bytes_run p k : (exists k', put_bytes p k = Hang k') \/ exists c, put_bytes p k = Ret tt (with_con c k).
Proof.
  unfold put_bytes.
  destruct (for_range_hang (fun _ s => exists c, s = with_con c k) (fun _ _ => True)
    (fun i => v <- load_virt (p + i) ;; _ <- on_con (kprints [hex_digit (Z.shiftr v 4); hex_digit (Z.land v 0xF)] 0x0F) ;; print " ")
    (trips 0 16) 0 k) as [(j & s1 & s' & _ & _ & _ & R)|(s & R & c & ->)].
  - exists (k_con k). by rewrite with_con_id.
  - intros j s _ (c & ->). pose proof (load_virt_run (with_con c k) (p + j)) as L. destruct (translate _ _ _) as [a|].
    + right. rewrite (bind_run _ _ _ _ _ L). set (v := rd8 _ _).
      destruct (kprints_total [hex_digit (Z.shiftr v 4); hex_digit (Z.land v 0xF)] 0x0F c) as (c1 & H1).
      assert (R1 : on_con (kprints [hex_digit (Z.shiftr v 4); hex_digit (Z.land v 0xF)] 0x0F) (with_con c k) = Ret tt (with_con c1 k))
        by (unfold on_con, zoom; cbn [k_con with_con]; by rewrite H1).
      rewrite (bind_run _ _ _ _ _ R1). destruct (print_run " " (with_con c1 k)) as (c2 & R2).
      exists (with_con c2 k). split; [exact R2|by exists c2].
    + left. destruct L as [k' L]. split; [done|]. exists k'. by rewrite (bind_hang _ _ _ _ L).
  - left. exists s'. by rewrite (bind_hang _ _ _ _ R).
  - rewrite (bind_run _ _ _ _ _ R). destruct (newline_run (with_con c k)) as (c2 & R2). right. by exists c2.
Qed.

(** A routine that prints something and goes on. *)
Lemma printing_bind {B} (m : kernel unit) (g : unit -> kernel B) k :
  (forall k, exists c, m k = Ret tt (with_con c k)) ->
  (forall k, exists k', g tt k = Hang k') -> exists k', bind m g k = Hang k'.
Proof. intros Hm Hg. destruct (Hm k) as (c & R). rewrite (bind_run _ _ _ _ _ R). apply Hg. Qed.

Lemma fault_dump_run vec err has_err frame_addr cr2 frame k :
  (4 <= length frame)%nat -> exists k', fault_dump vec err has_err frame_addr cr2 frame k = Hang k'.
Proof.
  intros Hl. destruct frame as [|rip [|cs [|fl [|rsp frame]]]]; cbn in Hl; [lia..|].
  unfold fault_dump. cbn [lookup list_lookup deref bind ret].
  assert (Hrsp : exists v, (if Z.land cs 3 =? 3 then ret rsp else ret (u64 (frame_addr + 24))) k = Ret v k)
    by (destruct (_ =? 3); by eexists).
  destruct Hrsp as [v Hv]. rewrite (bind_run _ _ _ _ _ Hv).
  apply printing_bind; [intros; apply print_err_run|intros k1].
  apply printing_bind; [intros; apply print_reg_run|intros k2].
  apply printing_bind; [intros k3; destruct (has_err =? 0); [exists (k_con k3); by rewrite with_con_id|apply print_reg_run]|intros k4].
  do 5 (apply printing_bind; [intros; apply print_reg_run|intros ?]).
  cbn [bind read_cr3 gets].
  apply printing_bind; [intros; apply print_reg_run|intros kx].
  apply printing_bind; [intros; apply print_run|intros ky].
  destruct (put_bytes_run rip ky) as [[k' R]|[c R]]; [exists k'; by rewrite (bind_hang _ _ _ _ R)|].
  rewrite (bind_run _ _ _ _ _ R). by eexists.
Qed.

Lemma mmio_start k pml4 virt phys : mem_ok k -> pt_ok k (page_base pml4) -> mmio_mapped k k pml4 virt phys 0.
Proof. intros Hm Hp. split; try done; [lia|by left]. Qed.

Lemma mmio_loop_run k me c virt phys pages :
  mem_ok k -> caller k me c -> pt_ok k (page_base (c_cr3 c)) -> mmio_allowed k (c_cr3 c) virt phys pages -> 0 <= phys ->
  (exists n k1 k', 0 <= n < pages /\ mmio_mapped k k1 (c_cr3 c) virt phys n /\ starved k1 (page_base (c_cr3 c))
     /\ for_range (trips 0 pages) 0 (fun i => pml4 <- current_cr3 ;;
          _ <- kvmmap_at pml4 (nth_page virt i) (nth_page phys i) 0x1F ;; ret tt) k = Hang k')
  \/ exists k', for_range (trips 0 pages) 0 (fun i => pml4 <- current_cr3 ;;
          _ <- kvmmap_at pml4 (nth_page virt i) (nth_page phys i) 0x1F ;; ret tt) k = Ret tt k'
       /\ mmio_mapped k k' (c_cr3 c) virt phys pages.
Proof.
  intros Hm Hc Hpt [Hn [Hva Hpa] [Hlo Hhi] Hp _] Hp0. unfold USER_MMIO_MIN, USER_MMIO_MAX in *.
  destruct (for_range_hang (fun j s => mmio_mapped k s (c_cr3 c) virt phys j) (fun _ s => starved s (page_base (c_cr3 c)))
    (fun i => pml4 <- current_cr3 ;; _ <- kvmmap_at pml4 (nth_page virt i) (nth_page phys i) 0x1F ;; ret tt)
    (trips 0 pages) 0 k (mmio_start k (c_cr3 c) virt phys Hm Hpt)) as [(j & s1 & s' & Hj & P & Q & R)|(s & R & P)].
  - intros j s Hj P. rewrite trips_max in Hj. destruct (mm_frame _ _ _ _ _ _ P) as [Hs Ho].
    rewrite (bind_run _ _ _ _ _ (current_cr3_run s me c (caller_frame k s me c Hs Ho Hc))).
    rewrite (nth_page_run virt j pages), (nth_page_run phys j pages) by lia.
    destruct (kvmmap_at_run s (c_cr3 c) (virt + j * 4096) (phys + j * 4096) 0x1F (mm_mem _ _ _ _ _ _ P) (mm_pt _ _ _ _ _ _ P))
      as [[Hst (s' & R)]|(s' & R & M)]; [lia|lia| |].
    + left. split; [done|]. exists s'. by rewrite (bind_hang _ _ _ _ R).
    + right. exists s'. rewrite (bind_run _ _ _ _ _ R). split; [done|]. by eapply (mmio_step k s s'); [lia|lia|lia|done|lia|..].
  - left. rewrite trips_max in Hj. exists j, s1, s'. split; [lia|]. by split_and!.
  - right. rewrite trips_max in P. replace (0 + 0 `max` (pages - 0)) with pages in P by lia. by exists s.
Qed.

(** ** Properties *)


(** A machine with a table of one thread, of id 9 at 0x200, and the same machine
    after a thread was spawned behind it. *)
Definition k_host : kstate :=
  with_sched {| threads := 0x100018; current_thread := 0x200; threads_length := 1; threads_cap := 8;
                next_thread_id := 1; tss_rsp0 := 0 |}
    (with_obj {| o_thread := {[ 0x200 := thread_n 9 THREAD_READY ]};
                 o_context := ∅; o_queue := ∅; o_node := ∅; o_as := ∅; o_bytes := ∅;
                 arr_ptr := arr_of 0x100018 0 [0x200]; arr_msg := ∅ |}
       (with_heap (heap_with 64) k0)).

Definition spawn_pair : outcome kstate Z := spawn_thread 0x500000 0x9000 k_host.
Definition r_pair : Z := match spawn_pair with Ret r _ => r | _ => NULL end.
Definition k_pair : kstate := match spawn_pair with Ret _ k => k | _ => k_host end.

(** The table is none of the blocks of the thread. *)
Definition table_apart (k : kstate) (r : Z) : bool :=
  match o_thread (k_obj k) !! r with
  | Some t => match o_queue (k_obj k) !! t_queue t with
              | Some q => bool_decide (threads (k_sched k) ∉ [r; t_context t; t_queue t; q_queue q])
              | None => false
              end
  | None => false
  end.

Definition fake_kept (k : kstate) : bool :=
  match o_thread (k_obj k) !! 0x200 with Some t => bool_decide (t_tid t = 9 /\ t_state t = THREAD_READY) | None => false end.

Lemma k_host_table : table_rep k_host [0x200].
Proof.
  split; [done|by right; left|done|done|by intros _; eexists|].
  intros i t. apply (arr_of_lookup 0x100018 0).
Qed.

Lemma k_pair_spawned :
  mem_ok k_pair /\ run_queue k_pair [0x200; r_pair] /\ fake_kept k_pair = true
  /\ exists t c q, thread_rep k_pair r_pair t c q [] /\ t_tid t = 1 /\ t_state t = THREAD_READY
       /\ threads (k_sched k_pair) ∉ thread_blocks r_pair t q [].
Proof.
  destruct (spawn_thread_run k_host [0x200] 0x500000 0x9000 ltac:(by apply (heap_with_ok 64)) k_host_table ltac:(done))
    as (r & k' & H & Hok & _ & Hr).
  assert (E : match spawn_pair with Ret r _ => r =? NULL | _ => true end = false) by (vm_compute; reflexivity).
  assert (A : table_apart k_pair r_pair = true) by (vm_compute; reflexivity).
  assert (F : fake_kept k_pair = true) by (vm_compute; reflexivity).
  unfold k_pair, r_pair in *. unfold spawn_pair in *. rewrite H in *. clear H.
  destruct Hr as [(-> & _)|(t & c & q & Ht & Hrep & Hid & Hst & _)]; [done|].
  split; [done|]. split; [split; [done| |]|].
  - intros x [->|[->|[]%elem_of_nil]%elem_of_cons]%elem_of_cons; [|eexists; apply Hrep].
    unfold fake_kept in F. destruct (o_thread (k_obj k') !! 0x200); [by eexists|discriminate F].
  - intros [Hx|[Hx|[]%elem_of_nil]%elem_of_cons]%elem_of_cons; [done|].
    destruct (tr_parts _ _ _ _ _ _ Hrep) as (Hl1&_). rewrite <- Hx in Hl1. by apply (null_not_live k').
  - split; [done|]. exists t, c, q. split_and!; [done|exact Hid|exact Hst|].
    unfold table_apart in A. rewrite (tr_thread _ _ _ _ _ _ Hrep), (tr_queue _ _ _ _ _ _ Hrep) in A.
    by apply bool_decide_eq_true in A.
Qed.

(** A frame with the given arguments. *)
Definition frame_of (rdi rsi rdx : Z) : syscall_frame_t :=
  {| f_r15 := 0; f_r14 := 0; f_r13 := 0; f_r12 := 0; f_r11 := 0; f_r10 := 0; f_r9 := 0; f_r8 := 0;
     f_rbp := 0; f_rbx := 0; f_rdx := rdx; f_rcx := 0; f_rsi := rsi; f_rdi := rdi; f_rax := 0;
     f_rip := 0; f_cs := 0; f_rflags := 0; f_rsp := 0; f_ss := 0 |}.

(** C15: [SYS_FREE_THREAD] refuses with an error, nothing changed, the id 0, the id
    of the caller and an id that no thread of the table has.  Otherwise the thread
    leaves the table, the others keep their order, and exactly its blocks leave
    the heap. *)
Theorem sys_free_thread_correct k ts f me :
  mem_ok k -> run_queue k ts -> current_thread (k_sched k) <> NULL ->
  o_thread (k_obj k) !! current_thread (k_sched k) = Some me ->
  let target := List.find (has_tid k (f_rdi f)) ts in
  (f_rdi f = 0 \/ f_rdi f = t_tid me \/ target = None -> sys_free_thread f k = Ret (err VFS_ERR_INVAL) k)
  /\ (forall ta t c q l, f_rdi f <> 0 -> f_rdi f <> t_tid me -> target = Some ta ->
        thread_rep k ta t c q l -> threads (k_sched k) ∉ thread_blocks ta t q l ->
        exists k', sys_free_thread f k = Ret 0 k' /\ mem_ok k' /\ table_rep k' (remove_first ta ts)
          /\ forall a, is_live k' a <-> is_live k a /\ a ∉ thread_blocks ta t q l).
Proof. apply sys_free_thread_run. Qed.

Lemma sys_free_thread_correct_witness :
  (exists k', sys_free_thread (frame_of 1 0 0) k_pair = Ret 0 k' /\ table_rep k' [0x200])
  /\ sys_free_thread (frame_of 9 0 0) k_pair = Ret (err VFS_ERR_INVAL) k_pair.
Proof.
  destruct k_pair_spawned as (Hok & Hq & F & t & c & q & Hr & Ht & Hst & Hn).
  unfold fake_kept in F. destruct (o_thread (k_obj k_pair) !! 0x200) as [me|] eqn:E; [|discriminate F].
  apply bool_decide_eq_true in F as [F _].
  assert (C : current_thread (k_sched k_pair) = 0x200) by (vm_compute; reflexivity).
  assert (N : r_pair <> 0x200) by (intros N; vm_compute in N; discriminate N).
  split.
  - destruct (sys_free_thread_correct k_pair [0x200; r_pair] (frame_of 1 0 0) me Hok Hq) as [_ H]; [by rewrite C|by rewrite C|].
    destruct (H r_pair t c q [] ltac:(done)) as (k' & R & _ & T & _); [by rewrite F| |exact Hr|exact Hn|].
    + cbn [List.find]. unfold has_tid. rewrite E, F. cbn [f_rdi frame_of].
      change (9 =? 1) with false. cbv iota. by rewrite (tr_thread _ _ _ _ _ _ Hr), Ht.
    + exists k'. split; [exact R|].
      assert (E2 : remove_first r_pair [0x200; r_pair] = [0x200]) by (vm_compute; reflexivity). by rewrite E2 in T.
  - destruct (sys_free_thread_correct k_pair [0x200; r_pair] (frame_of 9 0 0) me Hok Hq) as [H _]; [by rewrite C|by rewrite C|].
    apply H. right; left. by rewrite F.
Defined.

(** [k1] with a thread at 0x200 whose page tables are at 0x9000. *)
Definition me_mmio : thread_t :=
  {| t_tid := 1; t_context := 0x300; t_kernel_stack := 0; t_state := THREAD_RUNNING; t_queue := 0; t_exit_code := 0 |}.
Definition c_mmio : context_t := entry_context 0x500000 0x9000 zero_context.
Definition k_caller : kstate :=
  with_sched (set_current 0x200 (k_sched k1))
    (with_obj (put_context 0x300 c_mmio (put_thread 0x200 me_mmio (k_obj k1))) k1).

Lemma k_caller_is : caller k_caller me_mmio c_mmio.
Proof. by split. Qed.

(** A device of two pages at 0xFEBF0000. *)
Definition f_mmio : syscall_frame_t := frame_of 0x40000000 0xFEBF0000 2.



(** [k1] with the page 0x103000, which holds two bytes, at 0x400000. *)
Definition k_typed : kstate :=
  match kvmmap_at 0x9000 0x400000 0x103000 7 k1 with
  | Ret _ k => with_mem (<[0x103000 := 104]> (<[0x103001 := 105]> (k_mem k)))
                 (with_cpu {| rflags := 0; cr3 := 0x9000; tlb := [] |} k)
  | _ => k1
  end.


(** C17: [SYS_EXIT] marks the caller dead with its exit code and never resumes it:
    if another thread of the table is ready, the processor continues in such a
    thread, which becomes the current one with its kernel stack in the TSS, and
    nothing else changes; if none is, the machine stops. *)
Theorem sys_exit_switches k ts me f :
  run_queue k ts -> current_thread (k_sched k) <> NULL ->
  o_thread (k_obj k) !! current_thread (k_sched k) = Some me ->
  let cur := current_thread (k_sched k) in
  let k1 := dead_state k cur (f_rdi f) me in
  ((forall t, t ∈ ts -> t <> cur -> ready k t = false) -> exists k', sys_exit f k = Hang k')
  /\ ((exists t, t ∈ ts /\ t <> cur /\ ready k t = true) ->
        exists next th, next ∈ ts /\ next <> cur /\ ready k next = true /\ o_thread (k_obj k) !! next = Some th
          /\ sys_exit f k = Ret (t_context th) (with_sched (switched next th (k_sched k1)) k1)).
Proof. apply sys_exit_run. Qed.

Lemma sys_exit_switches_witness :
  exists k', sys_exit (frame_of 3 0 0) k_three = Ret 0x2001 k' /\ current_thread (k_sched k') = 0x100.
Proof.
  destruct (sys_exit_switches k_three [0x100; 0x200; 0x300] (thread_n 2 THREAD_BLOCKED) (frame_of 3 0 0) k_three_queue)
    as [_ H]; [discriminate|reflexivity|].
  destruct H as (next & th & _ & _ & Hr & Hth & H).
  { exists 0x100. split_and!; [left|discriminate|reflexivity]. }
  assert (R : match sys_exit (frame_of 3 0 0) k_three with Ret r k' => (r, current_thread (k_sched k')) | _ => (0, 0) end = (0x2001, 0x100))
    by (vm_compute; reflexivity).
  rewrite H in R. injection R as R1 R2. eexists. rewrite H, R1. split; [reflexivity|exact R2].
Defined.

(** C34: the wait of [SYS_READ] ends as soon as a halt has brought a key: if the
    keyboard has a character after [n] halts, with the bound above [n], the loop
    returns the oldest [len] characters, at least one, and leaves the others in
    the keyboard. *)
Theorem read_keys_returns {D} (halt : M (machine D) unit) n s s' fuel len :
  wakes halt n s s' -> 0 < len -> (n <= fuel)%nat ->
  exists l b, ring_rep (m_kbd s') l /\ l <> []
    /\ read_keys halt fuel len s = Ret (take (Z.to_nat len) l) (set_kbd s' b) /\ ring_rep b (drop (Z.to_nat len) l).
Proof. apply read_keys_run. Qed.

(** A machine where every halt brings a key press of A. *)
Definition press_a : M (machine unit) unit := in_kbd (kbd_handle_code 0x1E).

Lemma read_keys_returns_witness :
  exists s, read_keys press_a 5 10 {| m_kernel := k0; m_kbd := kbd0; m_dev := tt |} = Ret [97] s.
Proof.
  pose (s := {| m_kernel := k0; m_kbd := kbd0; m_dev := tt |}).
  destruct (kbd_push_run kbd0 [] 97 kbd0_rep) as (b & R & Hb).
  assert (Hp : press_a s = Ret tt (set_kbd s b)).
  { unfold press_a. apply in_kbd_run. pose proof (handle_key_run kbd0 0x1E eq_refl ltac:(lia) eq_refl) as K. etrans; [exact K|exact R]. }
  assert (W : wakes press_a 1 s (set_kbd s b)).
  { eapply wake_later; [exact kbd0_rep|exact Hp|]. apply (wake_now _ _ [97]); [exact (proj1 Hb)|discriminate]. }
  destruct (read_keys_returns press_a 1 s _ 5 10 W ltac:(lia) ltac:(lia)) as (l & b' & Hl & _ & H & _).
  assert (E : match read_keys press_a 5 10 s with Ret r _ => r | _ => [] end = [97]) by (vm_compute; reflexivity).
  rewrite H in E. rewrite E in H. eexists. exact H.
Defined.


Definition on_thread (a : Z) (k : kstate) : kstate := with_sched (set_current a (k_sched k)) k.

(** Which thread runs is not part of the table, nor of a thread. *)
Lemma on_thread_ready k ts a t c q l :
  mem_ok k -> run_queue k ts -> thread_rep k a t c q l -> threads (k_sched k) ∉ thread_blocks a t q l ->
  let k' := on_thread a k in let cur := current_thread (k_sched k') in
  mem_ok k' /\ run_queue k' ts /\ thread_rep k' cur t c q l /\ threads (k_sched k') ∉ thread_blocks cur t q l
  /\ cur = a.
Proof.
  intros H [[? ? ? ? ? ?] ? ?] [? ? ? [? ? ? ? ?] ? ? ?] Hn. by split_and!.
Qed.



